(* ===== verification/_CoqProject ===== *)
-Q . S2P
Prelude.v
Sys.v
Path.v
Cmdline.v
Daemon.v
Log.v
Hdf5.v
Tespkt.v
TespktPrint.v
TespktGen.v
Tesif.v
Task.v
TaskTheory.v
TaskInfo.v
TaskHist.v
TaskAvgtr.v
TaskJitter.v
Coordinator.v
Aiobuf.v
Capture.v
CaptureTheory.v
CaptureIndex.v
CaptureJob.v
CaptureStop.v
CaptureFiles.v
TaskLife.v
TaskList.v
Server.v
Client.v
ClientTheory.v
Session.v
SessionCapture.v
