(* ===== verification/Prelude.v ===== *)
(** * The TES server (tesd): a verification library

    The program (src/) is a server that reads the packets of a trigger event
    system from a netmap interface and serves them to clients over ZeroMQ.  A
    coordinator thread (src/src/bin/tesd.c) waits for packets in the four rings
    of the interface and wakes up the task threads (src/src/bin/tesd_tasks.c).
    Each task has its own position in every ring, chooses the ring whose next
    packet continues the sequence of frames, and gives each packet to its
    handler: statistics, histograms, average traces, jitter and capture
    (src/src/bin/tesd_task_*.c).  The coordinator releases to the interface the
    slots that every active task has seen.  Packets are read by the functions
    of src/include/net/tespkt.h, rings by those of src/src/lib/tesif.c.

    ** Files

    - Prelude.v: the error monad [exec] of a C execution (failed assertion,
      null pointer, division by zero, access out of bounds), integers of a
      given width as [Z] with the wrap-around written out ([to_u16], ...),
      memory as lists of bytes, the hint databases [tes] and [tes_rw], and
      tactics.
    - Tespkt.v (tespkt.h): the layout of the packets, all accessors, validation
      ([tespkt_is_valid]), error strings, the self test.
    - TespktPrint.v (tespkt.h): Ethernet addresses and [tespkt_pretty_print].
    - TespktGen.v (tespkt_gen.h): the setters.
    - Tesif.v (tesif.c, tesif_manager.h, tesif_reader.h): rings and interface
      descriptors with the functions that move, compare and count slots;
      Module Netmap has the functions that only forward to netmap.
    - Task.v and TaskTheory.v (tesd_tasks.c, tesd_tasks.h): a task is the record
      [task D], with data [D] of its own and the log of what it sends; its
      callbacks are the class [TaskImpl].  [s_task_next_ring],
      [s_task_dispatch], [s_sig_hn], [s_sub_hn], [task_activate] and
      [task_deactivate] are the functions of those names.  The class [TaskLaws]
      is what a task promises to the framework, and the theorems of TaskTheory.v
      hold of every task that keeps it: the instances are those of TaskInfo.v
      and TaskHist.v.  The average trace and jitter tasks keep no such promise,
      since their handlers stop the server on some sequences of valid frames,
      as theorems of their files show.
    - TaskInfo.v, TaskHist.v, TaskAvgtr.v, TaskJitter.v: the tasks, a Module
      each, with the struct [s_data_t] of the task as a Record and one
      definition per handler.
    - Coordinator.v (tesd.c and the coordinator's side of tesd_tasks.c):
      [s_new_pkts_hn] with [tasks_get_heads] and [tasks_wakeup], [s_log_stats],
      and the system of coordinator, tasks and interface as a step relation
      ([sys_step]), in which a poll is a sequence of accesses ([poll_step])
      between which tasks move their heads ([task_moves]) and packets arrive.
    - TaskLife.v (tesd_tasks.c): the thread of a task from its start to its end.
      A thread is a task with its sockets and the pointer to its data
      ([thread D]); [s_task_shim] opens the frontends, runs the initializer,
      polls ([zloop_start] over a list of events) and cleans up, with the
      functions of the task in the class [TaskMain].  [LifeLaws] and [FinLaws]
      are what these functions promise; that the finalizer cannot fail is
      [FinTotal], which the capture task does not keep.
    - TaskList.v (tesd_tasks.c, the initializers and finalizers of
      tesd_task_*.c): the entries of [s_tasks] for the five tasks, with the
      proofs that they keep [LifeLaws] and [FinLaws], and all but the capture
      task [FinTotal].
    - Server.v (tesd.c and the coordinator's side of tesd_tasks.c): Module
      Server has [tasks_start], [tasks_read], [tasks_mute] and [tasks_destroy],
      [s_prepare_if] and [s_init], the body of the coordinator, the options of
      the command line, dropping privileges, and [main].
    - Cmdline.v: [strtol], [strtoul] and [getopt], and the loop around [getopt]
      ([opt_loop]) of the functions of tesc.c.
    - Client.v and ClientTheory.v (tesc.c): Module Client has the commands and
      [main] of the client.  Its replies are functions of the log (class
      [ClientEnv]); [resources] and [replay] are what is open and what is in the
      local file after a log.
    - Session.v and SessionCapture.v (tesc.c with tesd_task_*.c): client and
      server together.  Messages become frames and back (class [Wire], with the
      documented round trip in [WireLaws]); [connected] is the [ClientEnv] of a
      client whose request is handled by the task in charge and whose reply is
      what this task sends; the functions [*_serve] put the handlers of a task
      together from the request to the reply.
    - Sys.v: the calls to the system and to the HDF5 library as an ordered log
      ([sys_call], class [SysEnv]), and the monad [sysM] of the routines that
      make them, with a postcondition [swp] over result and log.
    - Path.v ([s_canonicalize_path] of tesd_task_cap.c): the names of files.
    - Daemon.v (daemon_ng.c): [daemonize] and [fork_and_run], followed in each
      of their processes, closing descriptors, the settings of the log.
    - Log.v (daemon_ng.c): [logmsg].
    - Hdf5.v (hdf5conv.c, hdf5conv.h): [hdf5_conv] and the functions it calls.
    - Aiobuf.v (tesd_task_cap.c): the circular buffers from which the capture
      task writes to its files asynchronously.
    - Capture.v, CaptureTheory.v, CaptureIndex.v, CaptureJob.v, CaptureStop.v,
      CaptureFiles.v (the rest of tesd_task_cap.c): Module Cap has the data of
      the task and its handlers, with eight buffers of Aiobuf.v, the names of Path.v and the conversion of
      Hdf5.v; a function per step of the packet handler, put together by
      [save_frame] and [finish_job].  Module CapSpec is the specification: the
      history of a job, the frame that came last first, gives the contents of
      each file ([stream]), the statistics ([stats]), the stream in progress
      ([stream_of]) and whether the job is complete ([complete]); [cap_inv]
      relates the data to it.  Module CapRead reads the files back (class
      [Entry]: values of fixed size in a file) and has the frames that an entry
      stands for ([segment], [whole]); Module CapJob has whole jobs
      ([run_job], [finished]) and the answers to requests ([answer]); Module
      CapStop has what the finalizer leaves ([stopped]); Module CapFiles has
      the files at the end of a job, however it ends ([job_end], [job_file]).

    ** What the theorems show

    - Packets: a packet has no error flag exactly when it is a valid frame by a
      declarative specification; which flag each defect gets; every event of a
      valid frame lies inside it; the setters write their field and no other.
    - Rings: comparing two slots is comparing their distances from the head;
      the counters are distances; [tes_ifring_wait_for_more] terminates.
    - Framework: a woken task does not fail; it gives its handler the packets of
      each ring in order, none twice, and all of them unless it stops, goes to
      sleep or has just been activated with the first ring empty; dispatching is a fold of the handler over the waiting packets; the ring
      taken is the one closest in sequence; subscriptions keep a task active
      exactly while there are subscribers; activation and deactivation mute and
      unmute the right frontends and set the heads.
    - Tasks: the statistics are the counts that are documented, but for what
      the frames that continue a histogram add to the events; the histogram, average trace and jitter handlers refine abstract collectors,
      and publish what arrived complete and in order.
    - Coordinator: what a poll releases, wakes up and counts; however the
      accesses of a poll, arrivals and the head moves of the tasks interleave,
      no slot is released that an active task has still to read, and a task's
      wakeup is a sequence of such moves; activation in the middle of a poll
      breaks this, and is between two polls in the system; the statistics lose
      no count.
    - Write buffers: whatever the service does no byte still needed is
      overwritten and the file gets the frames in order; with a service that
      completes what it accepts a whole job terminates with the file being the
      concatenation of the frames.
    - Log: what a message becomes, and that no array overflows.
    - System: a path that is returned lies in the data root; a conversion closes
      every HDF5 id it opened, neither deletes nor truncates what it was not
      told to, and each dataset gets the part of its file that the header promises; [daemonize]
      succeeds only where a daemon is ready.
    - Capture: saving a frame refines the specification whatever the services
      of the buffers do; with good services a job ends at the first good tick
      that completes it, with the eight files, the statistics file and the
      reply as specified, and the data as before; the frame index leads to
      every payload, the indices of histograms and traces to those that arrived
      whole and to all of them, where frames lost in front of a bad one go
      unnoticed, the tick index to the events between ticks; nothing is cut to
      the width of a member; every request is refused, answered or starts a job, or a
      directory just made does not resolve and the server stops; the status is what the end of the job wrote; a server that stops in the middle
      of a job writes what it still holds and unmaps its buffers.
    - Threads: a thread that ends has closed what it opened and announced its
      start or its death; where one can fail; while it polls its clients are heard exactly between
      jobs.  The coordinator destroys exactly the threads it started and polls
      only when all are ready; it runs only with the privileges that were asked
      for, on an interface that is up and in promiscuous mode.
    - Client: it always ends, and leaves nothing open; a capture can be asked for
      with a plain command line, which is understood as written; what it announces,
      sends and what the server makes of the request agree; the local file gets
      the histograms or the trace after what it held; it connects to the ports
      that the tasks bind.
    - Sessions (the theorems whose names end in [_session]): from the command
      line to what is printed or stored, through the handlers of the task in
      charge: the statistics, the configuration of the jitter, an average trace,
      histograms, and a capture with every status it can have.
    - Errors: which inputs stop the server at an assertion or a division (the
      theorems whose names end in [_aborts], [_by_zero], [_poisons]).

    ** Conventions and bounds

    The host is little-endian; DEBUG_LEVEL is its default, so [dbg_assert] is
    [assert] and the VERBOSE statistics are left out; TES_MCASIZE_BUG is
    defined, as in the header.  Sockets, timers and asynchronous I/O are outside
    of src/: their results are functions of the log of calls made so far
    (classes [ZEnv], [SignalEnv], [AioEnv], [SysEnv], [CapEnv]), what is relied on is stated by
    classes of laws, and the samples give concrete instances.  Loops that are
    not structural have fuel, and theorems that state a result state it for the
    fuel of the definition: the slots of a ring for a dispatch (a ring holds
    less), [process_fuel] for the choice of rings (each of the four is emptied
    at most once), [event_fuel] 184 for the events of a frame (that many fit the
    MTU), [aio_retries] for the loops that wait for the service, any number of
    which four suffices if writes are accepted within it, the length of the
    filename for the directories of a path, what is left to read for the options
    of the client ([opts_left]), 20 for the digits of a number of 64 bits.
    Other outcomes than [NoFuel] do not depend on the fuel.  One task handler is one step: a handler
    sees the rings as they are when it starts.

    A frame of the capture task has the 24 bytes of its header and at least one
    more: [capture_empty_payload_aborts] shows what happens without.  A job
    has fewer than 2^52 frames, so that no file reaches 2^63 bytes.

    ** Not modelled

    The messages that functions log (what [logmsg] makes of a message is in
    Log.v), the statistics that are only kept and printed with a higher
    DEBUG_LEVEL, and the test programs (src/tests/).  In a session the rings are
    not simulated: the frames that the task sees between a request and its
    timer, its last frame or the end of the server are a list, as the
    dispatcher of Task.v hands them over.

    ** State

    All that the program does itself is modelled, and its parts are composed:
    interface and tasks in Coordinator.v, threads and coordinator in TaskLife.v
    and Server.v, client and tasks in Session.v and SessionCapture.v. *)

From Stdlib Require Import ZArith Lia Strings.Byte.
From stdpp Require Import base option list numbers decidable.

Open Scope Z_scope.

(** ** The error monad of a C execution *)

(** How a C function stops the process or leaves the language: a failed
    [assert], a dereferenced null pointer, an integer division by zero, or a
    memory access outside its object; a child process leaves by [_exit].
    [NoFuel] is not an outcome of the code: it marks a loop of the model that
    ran out of fuel, and every theorem that gives a result excludes it. *)
Inductive failure : Type :=
  | AssertFail
  | NullDeref
  | DivByZero
  | OutOfBounds
  | Exited (code : Z)
  | NoFuel.

#[export] Instance failure_eq_dec : EqDecision failure.
Proof. solve_decision. Defined.

Inductive exec (A : Type) : Type :=
  | Done (a : A)
  | Failed (f : failure).
Arguments Done {A} a.
Arguments Failed {A} f.

#[export] Instance exec_ret : MRet exec := fun A a => Done a.
#[export] Instance exec_bind : MBind exec :=
  fun A B k m => match m with Done a => k a | Failed f => Failed f end.

Definition fail {A} (f : failure) : exec A := Failed f.

(** [assert (b)]: aborts the process when the condition is false. *)
Definition c_assert (b : bool) : exec unit :=
  if b then Done tt else Failed AssertFail.

(** [dbg_assert (b)], at the default DEBUG_LEVEL (TESTING), which is above
    NO_DEBUG, so that the macro expands to [assert]. *)
Definition dbg_assert (b : bool) : exec unit := c_assert b.

(** Dereferencing a pointer that may be NULL. *)
Definition deref {A} (p : option A) : exec A :=
  match p with Some a => Done a | None => Failed NullDeref end.

(** The postcondition [Q] holds of the result and the execution has one: no
    assertion fails and no access faults. *)
Definition wp {A} (m : exec A) (Q : A -> Prop) : Prop :=
  match m with Done a => Q a | Failed _ => False end.

Section ExecLaws.
Context {A B C : Type}.

Lemma exec_ret_bind (a : A) (k : A -> exec B) : (mret a ≫= k) = k a.
Proof. reflexivity. Qed.

Lemma exec_bind_ret (m : exec A) : (m ≫= mret) = m.
Proof. destruct m; reflexivity. Qed.

Lemma exec_bind_assoc (m : exec A) (k : A -> exec B) (h : B -> exec C) :
  ((m ≫= k) ≫= h) = (m ≫= fun a => k a ≫= h).
Proof. destruct m; reflexivity. Qed.

Lemma exec_bind_Done (m : exec A) (k : A -> exec B) b :
  (m ≫= k) = Done b <-> exists a, m = Done a /\ k a = Done b.
Proof.
  split.
  - destruct m as [a|f]; [exists a; done | discriminate].
  - intros (a & -> & H). exact H.
Qed.

Lemma wp_ret (a : A) (Q : A -> Prop) : Q a -> wp (mret a) Q.
Proof. done. Qed.

Lemma wp_bind (m : exec A) (k : A -> exec B) Q :
  wp m (fun a => wp (k a) Q) -> wp (m ≫= k) Q.
Proof. destruct m; done. Qed.

Lemma wp_mono (m : exec A) (P Q : A -> Prop) :
  wp m P -> (forall a, P a -> Q a) -> wp m Q.
Proof. destruct m; simpl; auto. Qed.

Lemma wp_Done (m : exec A) (Q : A -> Prop) :
  wp m Q <-> exists a, m = Done a /\ Q a.
Proof.
  split.
  - destruct m as [a|]; [exists a; done | done].
  - intros (a & -> & H). exact H.
Qed.
End ExecLaws.

Lemma wp_assert_bind {B} (b : bool) (k : unit -> exec B) Q :
  b = true -> wp (k tt) Q -> wp (c_assert b ≫= k) Q.
Proof. intros -> H. exact H. Qed.

Lemma wp_dbg_assert_bind {B} (b : bool) (k : unit -> exec B) Q :
  b = true -> wp (k tt) Q -> wp (dbg_assert b ≫= k) Q.
Proof. apply wp_assert_bind. Qed.

(** The postcondition of an execution that may fail. *)
Definition pwp {A} (m : exec A) (Q : A -> Prop) : Prop :=
  match m with Done a => Q a | Failed _ => True end.

Section PwpLaws.
Context {A B : Type}.

Lemma pwp_ret (a : A) (Q : A -> Prop) : Q a -> pwp (mret a) Q.
Proof. done. Qed.

Lemma pwp_bind (m : exec A) (k : A -> exec B) P Q :
  pwp m P -> (forall a, P a -> pwp (k a) Q) -> pwp (m ≫= k) Q.
Proof. destruct m; simpl; auto. Qed.

Lemma pwp_bind_any (m : exec A) (k : A -> exec B) Q :
  (forall a, m = Done a -> pwp (k a) Q) -> pwp (m ≫= k) Q.
Proof. destruct m; simpl; auto. Qed.

Lemma pwp_mono (m : exec A) (P Q : A -> Prop) :
  pwp m P -> (forall a, P a -> Q a) -> pwp m Q.
Proof. destruct m; simpl; auto. Qed.

Lemma pwp_and (m : exec A) (P Q : A -> Prop) :
  pwp m P -> pwp m Q -> pwp m (fun a => P a /\ Q a).
Proof. by destruct m. Qed.

Lemma wp_pwp (m : exec A) (Q : A -> Prop) : wp m Q -> pwp m Q.
Proof. by destruct m. Qed.

Lemma pwp_Done (m : exec A) (Q : A -> Prop) a : pwp m Q -> m = Done a -> Q a.
Proof. by intros H ->. Qed.
End PwpLaws.

Lemma c_assert_Done b : c_assert b = Done tt <-> b = true.
Proof. destruct b; split; done. Qed.

(** ** Machine integers *)

Definition UINT8_MAX : Z := 255.
Definition UINT16_MAX : Z := 65535.

Definition to_u8 (z : Z) : Z := z mod 2 ^ 8.
Definition to_u16 (z : Z) : Z := z mod 2 ^ 16.
Definition to_u32 (z : Z) : Z := z mod 2 ^ 32.
Definition to_u64 (z : Z) : Z := z mod 2 ^ 64.

Definition is_u8 (z : Z) : Prop := 0 <= z < 2 ^ 8.
Definition is_u16 (z : Z) : Prop := 0 <= z < 2 ^ 16.
Definition is_u32 (z : Z) : Prop := 0 <= z < 2 ^ 32.
Definition is_u64 (z : Z) : Prop := 0 <= z < 2 ^ 64.

(** [if (x)] on a C integer. *)
Definition c_true (z : Z) : bool := negb (z =? 0).

Create HintDb tes.
Create Rewrite HintDb tes_rw.

Lemma to_u8_range z : is_u8 (to_u8 z).
Proof. apply Z.mod_pos_bound. lia. Qed.
Lemma to_u16_range z : is_u16 (to_u16 z).
Proof. apply Z.mod_pos_bound. lia. Qed.
Lemma to_u32_range z : is_u32 (to_u32 z).
Proof. apply Z.mod_pos_bound. lia. Qed.
Lemma to_u64_range z : is_u64 (to_u64 z).
Proof. apply Z.mod_pos_bound. lia. Qed.

Lemma to_u8_id z : is_u8 z -> to_u8 z = z.
Proof. apply Z.mod_small. Qed.
Lemma to_u16_id z : is_u16 z -> to_u16 z = z.
Proof. apply Z.mod_small. Qed.
Lemma to_u32_id z : is_u32 z -> to_u32 z = z.
Proof. apply Z.mod_small. Qed.
Lemma to_u64_id z : is_u64 z -> to_u64 z = z.
Proof. apply Z.mod_small. Qed.

#[export] Hint Resolve to_u8_range to_u16_range to_u32_range to_u64_range : tes.

(** ** Bytes and memory *)

(** Contents of a buffer. *)
Abbreviation bytes := (list byte).

Definition Z_of_byte (b : byte) : Z := Z.of_N (Byte.to_N b).
Definition byte_of_Z (z : Z) : byte :=
  match Byte.of_N (Z.to_N (to_u8 z)) with Some b => b | None => x00 end.

#[export] Instance byte_eq_dec : EqDecision byte := Byte.byte_eq_dec.

Lemma Z_of_byte_range b : is_u8 (Z_of_byte b).
Proof.
  unfold Z_of_byte, is_u8. pose proof (Byte.to_N_bounded b). lia.
Qed.

Lemma Z_of_byte_of_Z z : Z_of_byte (byte_of_Z z) = to_u8 z.
Proof.
  unfold byte_of_Z, Z_of_byte. pose proof (to_u8_range z) as [H1 H2].
  destruct (Byte.of_N _) as [b|] eqn:E.
  - apply Byte.to_of_N in E. rewrite E. lia.
  - apply Byte.of_N_None_iff in E. lia.
Qed.

Lemma byte_of_Z_of_byte b : byte_of_Z (Z_of_byte b) = b.
Proof.
  unfold byte_of_Z. rewrite to_u8_id by apply Z_of_byte_range.
  unfold Z_of_byte. rewrite N2Z.id, Byte.of_to_N. reflexivity.
Qed.

(** Little-endian loads at a byte offset; the host and the protocol payload
    are both little-endian. *)
Definition load8 (m : bytes) (off : Z) : Z :=
  Z_of_byte (nth (Z.to_nat off) m x00).
Definition load16 (m : bytes) (off : Z) : Z :=
  load8 m off + 2 ^ 8 * load8 m (off + 1).
Definition load32 (m : bytes) (off : Z) : Z :=
  load16 m off + 2 ^ 16 * load16 m (off + 2).
Definition load64 (m : bytes) (off : Z) : Z :=
  load32 m off + 2 ^ 32 * load32 m (off + 4).

(** Stores; a store outside the buffer is checked by the caller. *)
Definition store8 (m : bytes) (off v : Z) : bytes :=
  <[Z.to_nat off := byte_of_Z v]> m.
Definition store16 (m : bytes) (off v : Z) : bytes :=
  store8 (store8 m off v) (off + 1) (Z.shiftr v 8).

Lemma load8_range m off : is_u8 (load8 m off).
Proof. apply Z_of_byte_range. Qed.

Lemma load16_range m off : is_u16 (load16 m off).
Proof.
  pose proof (load8_range m off). pose proof (load8_range m (off + 1)).
  unfold load16, is_u16, is_u8 in *. lia.
Qed.

Lemma load32_range m off : is_u32 (load32 m off).
Proof.
  pose proof (load16_range m off). pose proof (load16_range m (off + 2)).
  unfold load32, is_u32, is_u16 in *. lia.
Qed.

Lemma load64_range m off : is_u64 (load64 m off).
Proof.
  pose proof (load32_range m off). pose proof (load32_range m (off + 4)).
  unfold load64, is_u64, is_u32 in *. lia.
Qed.

#[export] Hint Resolve load8_range load16_range load32_range load64_range : tes.

Lemma length_store8 m off v : length (store8 m off v) = length m.
Proof. apply length_insert. Qed.

Lemma length_store16 m off v : length (store16 m off v) = length m.
Proof. unfold store16. rewrite !length_store8. reflexivity. Qed.

#[export] Hint Rewrite length_store8 length_store16 : tes_rw.

Lemma nth_insert_eq {A} (l : list A) i x d :
  (i < length l)%nat -> nth i (<[i := x]> l) d = x.
Proof.
  intros H. rewrite nth_lookup, list_lookup_insert_eq by done. reflexivity.
Qed.

Lemma nth_insert_ne {A} (l : list A) i j x d :
  i <> j -> nth j (<[i := x]> l) d = nth j l d.
Proof.
  intros H. rewrite !nth_lookup, list_lookup_insert_ne by done. reflexivity.
Qed.

Lemma load8_store8_eq m off v :
  0 <= off < Z.of_nat (length m) -> load8 (store8 m off v) off = to_u8 v.
Proof.
  intros H. unfold load8, store8. rewrite nth_insert_eq by lia.
  apply Z_of_byte_of_Z.
Qed.

Lemma load8_store8_ne m off off' v :
  0 <= off -> 0 <= off' -> off <> off' ->
  load8 (store8 m off v) off' = load8 m off'.
Proof.
  intros H1 H2 H3. unfold load8, store8. rewrite nth_insert_ne by lia. done.
Qed.

Lemma load16_store16_eq m off v :
  0 <= off -> off + 1 < Z.of_nat (length m) ->
  load16 (store16 m off v) off = to_u16 v.
Proof.
  intros H1 H2. unfold load16, store16.
  rewrite load8_store8_ne by lia.
  rewrite !load8_store8_eq by (rewrite ?length_store8; lia).
  unfold to_u8, to_u16. rewrite Z.shiftr_div_pow2 by lia.
  change (2 ^ 16) with (2 ^ 8 * 2 ^ 8). rewrite Z.rem_mul_r by lia. lia.
Qed.

Lemma load8_store16_ne m off off' v :
  0 <= off -> 0 <= off' -> off <> off' -> off + 1 <> off' ->
  load8 (store16 m off v) off' = load8 m off'.
Proof.
  intros. unfold store16. rewrite !load8_store8_ne by lia. done.
Qed.

(** [memcpy (dst + off, src, n)] into a buffer held as a list. *)
Definition splice (buf : bytes) (off : nat) (src : bytes) : bytes :=
  take off buf ++ src ++ drop (off + length src) buf.

Definition memcpy (buf : bytes) (off : Z) (src : bytes) : exec bytes :=
  if (0 <=? off) && (off + Z.of_nat (length src) <=? Z.of_nat (length buf))
  then Done (splice buf (Z.to_nat off) src)
  else Failed OutOfBounds.

(** The [n] bytes at offset [off], as read by a [memcpy] from this buffer. *)
Definition mem_read (m : bytes) (off n : Z) : exec bytes :=
  if (0 <=? off) && (0 <=? n) && (off + n <=? Z.of_nat (length m))
  then Done (take (Z.to_nat n) (drop (Z.to_nat off) m))
  else Failed OutOfBounds.

Lemma length_splice buf off src :
  (off + length src <= length buf)%nat ->
  length (splice buf off src) = length buf.
Proof.
  intros H. unfold splice.
  rewrite !length_app, length_take, length_drop. lia.
Qed.

Lemma take_splice buf off src :
  (off + length src <= length buf)%nat ->
  take (off + length src) (splice buf off src) = take off buf ++ src.
Proof.
  intros H. unfold splice. rewrite app_assoc.
  rewrite take_app_length'; [done|].
  rewrite length_app, length_take. lia.
Qed.

Lemma take_splice_le buf off src n :
  (off + length src <= length buf)%nat -> (n <= off)%nat ->
  take n (splice buf off src) = take n buf.
Proof.
  intros H Hn. unfold splice.
  rewrite take_app_le by (rewrite length_take; lia).
  rewrite take_take. f_equal. lia.
Qed.

Lemma memcpy_Done buf off src :
  0 <= off -> off + Z.of_nat (length src) <= Z.of_nat (length buf) ->
  memcpy buf off src = Done (splice buf (Z.to_nat off) src).
Proof.
  intros H1 H2. unfold memcpy.
  rewrite (proj2 (Z.leb_le _ _) H1), (proj2 (Z.leb_le _ _) H2). done.
Qed.

Lemma mem_read_Done m off n :
  0 <= off -> 0 <= n -> off + n <= Z.of_nat (length m) ->
  mem_read m off n = Done (take (Z.to_nat n) (drop (Z.to_nat off) m)).
Proof.
  intros H1 H2 H3. unfold mem_read.
  rewrite (proj2 (Z.leb_le _ _) H1), (proj2 (Z.leb_le _ _) H2),
    (proj2 (Z.leb_le _ _) H3). done.
Qed.

Lemma mem_read_length m off n bs :
  mem_read m off n = Done bs -> Z.of_nat (length bs) = n.
Proof.
  unfold mem_read. destruct (_ && _) eqn:E; [|done]. intros [= <-].
  rewrite !andb_true_iff, !Z.leb_le in E.
  rewrite length_take, length_drop. lia.
Qed.

(** ** Messages *)

(** An argument of [zsock_send]: a number, a chunk of data or a string. *)
Inductive zarg : Type :=
  | ZNum (n : Z)
  | ZChunk (data : bytes)
  | ZStr (s : bytes).

(** ** Tactics *)

(** Split the boolean facts of the context into propositions. *)
Ltac bool_hyps :=
  repeat match goal with
  | H : _ && _ = true |- _ => apply andb_true_iff in H; destruct H
  | H : _ || _ = false |- _ => apply orb_false_iff in H; destruct H
  | H : negb _ = true |- _ => apply negb_true_iff in H
  | H : negb _ = false |- _ => apply negb_false_iff in H
  | H : (_ =? _) = true |- _ => apply Z.eqb_eq in H
  | H : (_ =? _) = false |- _ => apply Z.eqb_neq in H
  | H : (_ <=? _) = true |- _ => apply Z.leb_le in H
  | H : (_ <=? _) = false |- _ => apply Z.leb_gt in H
  | H : (_ <? _) = true |- _ => apply Z.ltb_lt in H
  | H : (_ <? _) = false |- _ => apply Z.ltb_ge in H
  | H : bool_decide _ = true |- _ => apply bool_decide_eq_true_1 in H
  | H : bool_decide _ = false |- _ => apply bool_decide_eq_false_1 in H
  end.

(** Decide a boolean goal by linear arithmetic on its atoms. *)
Ltac bool_lia := lia.

(** Case analysis on the innermost condition of the goal. *)
Ltac case_if :=
  match goal with
  | |- context [if ?b then _ else _] =>
      lazymatch b with
      | context [if _ then _ else _] => fail
      | _ => let E := fresh "E" in destruct b eqn:E
      end
  end.

(** One step through an [exec] computation under [wp]. *)
Ltac wp_step :=
  match goal with
  | |- wp (dbg_assert _ ≫= _) _ => apply wp_dbg_assert_bind
  | |- wp (c_assert _ ≫= _) _ => apply wp_assert_bind
  | |- wp (_ ≫= _) _ => apply wp_bind
  | |- wp (Done _) _ => simpl
  | |- wp (mret _) _ => apply wp_ret
  end.
