(* ===== verification/Sys.v ===== *)
(** * System and library calls

    The calls that path canonicalisation, the conversion to HDF5, the
    processes that run it, the coordinator and the client make are an ordered
    log; their results are functions of the log and the call (class [SysEnv]).  A routine is a function of the
    log that gives a result and the longer log, also when it stops the process
    (monad [sysM]).  C strings are lists of bytes without the terminating zero. *)

From Stdlib Require Import ZArith Lia Strings.String Strings.Byte.
From stdpp Require Import base option list numbers decidable.
From S2P Require Import Prelude.

Open Scope Z_scope.

(** A string literal. *)
Definition lit (s : string) : bytes := list_byte_of_string s.

(** ** Calls *)

Inductive sys_call : Type :=
  | SysRealpath (path : bytes)
  | SysMkdir (path : bytes)
  | SysAccess (path : bytes)
  | SysUnlink (path : bytes)
  | SysOpen (path : bytes) (creat excl : bool)
  | SysLseekEnd (fd : Z)
  | SysRead (fd n : Z)
  | SysWrite (fd : Z) (data : bytes)
  | SysClose (fd : Z)
  | SysMmap (fd len : Z)
  | SysMunmap (addr len : Z)
  | SysTime
  | SysFork
  | SysPipe
  | SysWaitpid (pid : Z)
  | SysPoll (fd timeout : Z)
  | SysRlimit
  | SysOpenMax
  | SysOpendir (path : bytes)
  | SysReaddir
  | SysClosedir
  | SysSigReset (sig : Z)
  | SysSetsid
  | SysUmask
  | SysChdir (path : bytes)
  | SysReopen (stream : Z)
  | SysGetpid
  | SysInit
  | H5Fopen (path : bytes)
  | H5Fcreate (path : bytes)
  | H5Fclose (id : Z)
  | H5Gopen (lid : Z) (name : bytes)
  | H5Gcreate (lid : Z) (name : bytes)
  | H5Gclose (id : Z)
  | H5Lexists (lid : Z) (name : bytes)
  | H5Lcopy (lid : Z) (name : bytes) (lid' : Z) (name' : bytes)
  | H5Ldelete (lid : Z) (name : bytes)
  | H5Screate (len : Z)
  | H5Sclose (id : Z)
  | H5Dcreate (gid : Z) (name : bytes) (space : Z)
  | H5Dwrite (dset addr : Z)
  | H5Dclose (id : Z)
  (* the coordinator: threads of tasks, its loop, the interface, the process *)
  | ZactorNew (task : nat)
  | ZactorWait (task : nat)
  | ZactorTimeout (task : nat)
  | ZactorSignal (task : nat) (sig : Z)
  | ZactorDestroy (task : nat)
  | CloopNew
  | CloopReader (task : nat)
  | CloopReaderEnd (task : nat)
  | CloopPoller
  | CloopTimer (delay : Z)
  | CloopStart
  | CloopDestroy
  | NmOpen (name : bytes)
  | NmClose
  | SysSocket
  | SysIoctl (fd req : Z) (name : bytes) (flags : Z)
  | SysSetgid (gid : Z)
  | SysSetuid (uid : Z)
  | SysGeteuid
  | SysSetaffinity (cpu : Z)
  | SysSigmask
  | SysOpenlog
  (* the client: its terminal, its socket, local files; what [getline] and
     [zmq_recv] got is part of the call, None for the end or an error *)
  | CliPuts (text : bytes)
  | CliEputs (text : bytes)
  | CliPerror (text : bytes)
  | CliGetline (line : option bytes)
  | ZsockNewReq (endpoint : bytes)
  | ZsockNewSub (endpoint : bytes)
  | ZsockRequest (picture : string) (args : list zarg)
  | ZsockReply (picture : string)
  | CliSockDestroy
  | CliOpen (path : bytes)
  | CliFallocate (fd off len : Z)
  | ZmqRecv (off max : Z) (data : option bytes)
  | CliFtruncate (fd len : Z).

Definition ENOENT : Z := 2.
Definition EEXIST : Z := 17.

(** The result of a call, the [errno] it sets, and what it stores in a buffer
    of the caller: the path that [realpath] resolves to, [None] for NULL, the
    bytes that [read] got, the name of a directory entry or of an interface that
    was opened, the flags that [ioctl] read, the descriptors of a pipe. *)
Class SysEnv : Type := {
  sys_rc : list sys_call -> sys_call -> Z;
  sys_errno : list sys_call -> sys_call -> Z;
  sys_path : list sys_call -> bytes -> option bytes;
  sys_bytes : list sys_call -> sys_call -> bytes;
  sys_pipe : list sys_call -> Z * Z;
}.

(** The digits of a number, as [%u] and [%lu] print it; 64 bits have at most
    twenty. *)
Fixpoint dec_loop (fuel : nat) (n : Z) (digits : bytes) : bytes :=
  match fuel with
  | O => digits
  | S fuel =>
      let digits := byte_of_Z (48 + n mod 10) :: digits in
      if n <? 10 then digits else dec_loop fuel (n / 10) digits
  end.
Definition dec (n : Z) : bytes := dec_loop 20 n [].

(** ** The monad *)

Definition sysM (A : Type) : Type := list sys_call -> exec A * list sys_call.

#[export] Instance sys_ret : MRet sysM := fun A a l => (Done a, l).
#[export] Instance sys_bind : MBind sysM := fun A B k m l =>
  match m l with
  | (Done a, l') => k a l'
  | (Failed f, l') => (Failed f, l')
  end.

(** A computation that makes no call. *)
Definition sys_lift {A} (m : exec A) : sysM A := fun l => (m, l).

Definition sys_fail {A} (f : failure) : sysM A := fun l => (Failed f, l).
Definition sys_assert (b : bool) : sysM unit :=
  if b then mret tt else sys_fail AssertFail.
(** [_exit (code)] *)
Definition sys_exit {A} (code : Z) : sysM A := sys_fail (Exited code).

Section Calls.
Context `{SysEnv}.

Definition sys (c : sys_call) : sysM Z := fun l => (Done (sys_rc l c), l ++ [c]).
(** The result and [errno]. *)
Definition sys_e (c : sys_call) : sysM (Z * Z) :=
  fun l => (Done (sys_rc l c, sys_errno l c), l ++ [c]).
(** A call whose result the code ignores. *)
Definition sys_ (c : sys_call) : sysM unit := fun l => (Done tt, l ++ [c]).
(** [realpath], with [errno]. *)
Definition realpath (path : bytes) : sysM (option bytes * Z) := fun l =>
  (Done (sys_path l path, sys_errno l (SysRealpath path)), l ++ [SysRealpath path]).
(** [read]: the result and the bytes. *)
Definition sys_read (fd n : Z) : sysM (Z * bytes) := fun l =>
  (Done (sys_rc l (SysRead fd n), sys_bytes l (SysRead fd n)), l ++ [SysRead fd n]).
(** [pipe]: the result and the descriptors. *)
Definition pipe : sysM (Z * (Z * Z)) := fun l =>
  (Done (sys_rc l SysPipe, sys_pipe l), l ++ [SysPipe]).
End Calls.

(** ** A postcondition over the result and the log

    [swp m Q l]: run at the log [l], [m] ends with a result and a log of which
    [Q] holds, or stops the process in a way that [Q] allows. *)

Definition swp {A} (m : sysM A) (Q : exec A -> list sys_call -> Prop) (l : list sys_call) : Prop :=
  Q (m l).1 (m l).2.

(** A postcondition for results only: the process is not stopped. *)
Definition ok {A} (Q : A -> list sys_call -> Prop) : exec A -> list sys_call -> Prop :=
  fun r l => match r with Done a => Q a l | Failed _ => False end.

Section SwpLaws.
Context `{SysEnv} {A B : Type}.

Lemma sys_bind_Done (m : sysM A) (k : A -> sysM B) l a l' :
  m l = (Done a, l') -> (m ≫= k) l = k a l'.
Proof. unfold mbind, sys_bind. by intros ->. Qed.

Lemma sys_bind_Failed (m : sysM A) (k : A -> sysM B) l f :
  (m l).1 = Failed f -> ((m ≫= k) l).1 = Failed f.
Proof. unfold mbind, sys_bind. destruct (m l) as [[a|f'] l']; [done|by intros [= ->]]. Qed.

Lemma sys_bind_ext (m : sysM A) (k h : A -> sysM B) l :
  (forall a l', k a l' = h a l') -> (m ≫= k) l = (m ≫= h) l.
Proof. intros E. unfold mbind, sys_bind. by destruct (m l) as [[a|f] l']. Qed.

Lemma sys_bind_at (m n : sysM A) (k : A -> sysM B) l l' : m l = n l' -> (m ≫= k) l = (n ≫= k) l'.
Proof. unfold mbind, sys_bind. by intros ->. Qed.

Lemma sys_bind_assoc {C} (m : sysM A) (k : A -> sysM B) (h : B -> sysM C) l :
  ((m ≫= k) ≫= h) l = (m ≫= fun a => k a ≫= h) l.
Proof. unfold mbind, sys_bind. by destruct (m l) as [[a|f] l']. Qed.

Lemma sys_run c (k : Z -> sysM B) l : (sys c ≫= k) l = k (sys_rc l c) (l ++ [c]).
Proof. done. Qed.

Lemma sys_run_ c (k : unit -> sysM B) l : (sys_ c ≫= k) l = k tt (l ++ [c]).
Proof. done. Qed.

Lemma sys_run_assert b (k : unit -> sysM B) l : b = true -> (sys_assert b ≫= k) l = k tt l.
Proof. by intros ->. Qed.

Lemma swp_mono (m : sysM A) (P Q : exec A -> list sys_call -> Prop) l :
  swp m P l -> (forall r l', P r l' -> Q r l') -> swp m Q l.
Proof. unfold swp. auto. Qed.

Lemma swp_ret (a : A) (Q : exec A -> list sys_call -> Prop) l : Q (Done a) l -> swp (mret a) Q l.
Proof. done. Qed.

Lemma swp_bind (m : sysM A) (k : A -> sysM B) Q l :
  swp m (fun r l' => match r with Done a => swp (k a) Q l' | Failed f => Q (Failed f) l' end) l ->
  swp (m ≫= k) Q l.
Proof. unfold swp, mbind, sys_bind. destruct (m l) as [[a|f] l']; done. Qed.

Lemma swp_seq (m : sysM A) (k : A -> sysM B) P Q l :
  swp m (ok P) l -> (forall a l', P a l' -> swp (k a) Q l') -> swp (m ≫= k) Q l.
Proof.
  intros Hm Hk. apply swp_bind. eapply swp_mono; [exact Hm|]. intros [a|f] l'; [apply Hk|done].
Qed.

Lemma swp_sys c (k : Z -> sysM B) Q l :
  swp (k (sys_rc l c)) Q (l ++ [c]) -> swp (sys c ≫= k) Q l.
Proof. done. Qed.

Lemma swp_sys_e c (k : Z * Z -> sysM B) Q l :
  swp (k (sys_rc l c, sys_errno l c)) Q (l ++ [c]) -> swp (sys_e c ≫= k) Q l.
Proof. done. Qed.

Lemma swp_sys_ c (k : unit -> sysM B) Q l :
  swp (k tt) Q (l ++ [c]) -> swp (sys_ c ≫= k) Q l.
Proof. done. Qed.

Lemma swp_realpath p (k : option bytes * Z -> sysM B) Q l :
  swp (k (sys_path l p, sys_errno l (SysRealpath p))) Q (l ++ [SysRealpath p]) ->
  swp (realpath p ≫= k) Q l.
Proof. done. Qed.

Lemma swp_assert b (k : unit -> sysM B) Q l :
  b = true -> swp (k tt) Q l -> swp (sys_assert b ≫= k) Q l.
Proof. by intros ->. Qed.

Lemma swp_ok_Done (m : sysM A) (Q : A -> list sys_call -> Prop) l :
  swp m (ok Q) l -> exists a l', m l = (Done a, l') /\ Q a l'.
Proof. unfold swp, ok. destruct (m l) as [[a|f] l']; simpl; [eauto|done]. Qed.
End SwpLaws.

(** One step through a computation under [swp]. *)
Ltac swp_step :=
  lazymatch goal with
  | |- swp (sys _ ≫= _) _ _ => apply swp_sys
  | |- swp (sys_e _ ≫= _) _ _ => apply swp_sys_e
  | |- swp (sys_ _ ≫= _) _ _ => apply swp_sys_
  | |- swp (realpath _ ≫= _) _ _ => apply swp_realpath
  | |- swp (sys_assert _ ≫= _) _ _ => apply swp_assert
  | |- swp (mret _) _ _ => apply swp_ret
  end.

(** ** The calls a routine makes

    [adds P m]: however [m] ends, it only adds calls that satisfy [P] to the
    log. *)

Definition adds (P : sys_call -> Prop) {A} (m : sysM A) : Prop :=
  forall l, exists cs, (m l).2 = l ++ cs /\ Forall P cs.

Create HintDb adds.

Section AddsLaws.
Context `{SysEnv} (P : sys_call -> Prop) {A B : Type}.

Lemma adds_none (r : list sys_call -> exec A) : adds P (fun l => (r l, l)).
Proof. intros l. exists []. by rewrite app_nil_r. Qed.

Lemma adds_one (r : list sys_call -> exec A) c : P c -> adds P (fun l => (r l, l ++ [c])).
Proof. intros Hc l. exists [c]. split; [done|]. by constructor. Qed.

Lemma adds_bind (m : sysM A) (k : A -> sysM B) :
  adds P m -> (forall a, adds P (k a)) -> adds P (m ≫= k).
Proof.
  intros Hm Hk l. destruct (Hm l) as (cs & E & Hcs). unfold mbind, sys_bind.
  destruct (m l) as [[a|f] l']; simpl in *; [|by exists cs].
  destruct (Hk a l') as (cs' & E' & Hcs'). exists (cs ++ cs'). subst l'. rewrite E'.
  rewrite app_assoc. split; [done|]. by apply Forall_app.
Qed.

Lemma adds_assert (b : bool) : adds P (sys_assert b).
Proof. intros l. exists []. rewrite app_nil_r. by destruct b. Qed.

Lemma adds_if (b : bool) (m k : sysM A) : adds P m -> adds P k -> adds P (if b then m else k).
Proof. by destruct b. Qed.

Lemma adds_mono (Q : sys_call -> Prop) (m : sysM A) :
  adds P m -> (forall c, P c -> Q c) -> adds Q m.
Proof.
  intros Hm HPQ l. destruct (Hm l) as (cs & E & Hcs). exists cs. split; [done|].
  by eapply Forall_impl.
Qed.
End AddsLaws.

(** Walk through a routine; what is left are the calls, for [P]. *)
Ltac adds_step :=
  lazymatch goal with
  | |- adds _ (mbind _ _) => apply adds_bind; [|intros ?]
  | |- adds _ (sys_assert _) => apply adds_assert
  | |- adds _ (mret _) => apply adds_none
  | |- adds _ (sys_fail _) => apply adds_none
  | |- adds _ (sys_lift _) => apply adds_none
  | |- adds _ (sys_exit _) => apply adds_none
  | |- adds _ (sys _) => apply adds_one
  | |- adds _ (sys_e _) => apply adds_one
  | |- adds _ (sys_ _) => apply adds_one
  | |- adds _ (sys_read _ _) => apply adds_one
  | |- adds _ pipe => apply adds_one
  | |- adds _ (realpath _) => apply adds_one
  | |- adds _ (let _ := _ in _) => cbv zeta
  | |- adds _ (match ?x with _ => _ end) => first [apply adds_if | destruct x]
  | |- adds _ _ => first [solve [auto with adds] | apply adds_one]
  | |- forall _, adds _ _ => intros ?
  end.
Ltac adds := repeat adds_step.

(** ** How a routine stops the process

    [stops P m]: if [m] does not return, it stops in a way that [P] allows. *)

Definition stops (P : failure -> Prop) {A} (m : sysM A) : Prop :=
  forall l f, (m l).1 = Failed f -> P f.

Create HintDb stops.

Section StopsLaws.
Context `{SysEnv} (P : failure -> Prop) {A B : Type}.

Lemma stops_never (r : list sys_call -> A) (k : list sys_call -> list sys_call) :
  stops P (fun l => (Done (r l), k l)).
Proof. by intros l f. Qed.

Lemma stops_lift (m : exec A) : (forall f, m = Failed f -> P f) -> stops P (sys_lift m).
Proof. intros Hm l f. apply Hm. Qed.

Lemma stops_fail f : P f -> stops P (@sys_fail A f).
Proof. by intros Hf l f' [= <-]. Qed.

Lemma stops_bind (m : sysM A) (k : A -> sysM B) :
  stops P m -> (forall a, stops P (k a)) -> stops P (m ≫= k).
Proof.
  intros Hm Hk l f. specialize (Hm l). unfold mbind, sys_bind.
  destruct (m l) as [[a|f'] l']; simpl in *; [apply Hk|intros [= <-]; by apply Hm].
Qed.

Lemma stops_assert (b : bool) : P AssertFail -> stops P (sys_assert b).
Proof. intros HP l f. destruct b; simpl; [done|]. by intros [= <-]. Qed.

Lemma stops_if (b : bool) (m k : sysM A) : stops P m -> stops P k -> stops P (if b then m else k).
Proof. by destruct b. Qed.
End StopsLaws.

(** Walk through a routine; what is left are the ways to stop, for [P]. *)
Ltac stops_step :=
  lazymatch goal with
  | |- stops _ (mbind _ _) => apply stops_bind; [|intros ?]
  | |- stops _ (sys_assert _) => apply stops_assert
  | |- stops _ (mret _) => apply stops_never
  | |- stops _ (sys_fail _) => apply stops_fail
  | |- stops _ (sys_exit _) => apply stops_fail
  | |- stops _ (sys_lift _) => apply stops_lift; intros ?
  | |- stops _ (sys _) => apply stops_never
  | |- stops _ (sys_e _) => apply stops_never
  | |- stops _ (sys_ _) => apply stops_never
  | |- stops _ (let _ := _ in _) => cbv zeta
  | |- stops _ (match ?x with _ => _ end) => first [apply stops_if | destruct x eqn:?]
  | |- stops _ _ => first [solve [auto with stops] | apply stops_never]
  | |- forall _, stops _ _ => intros ?
  end.
Ltac stops := repeat stops_step.
