(* ===== verification/Path.v ===== *)
(** * Path canonicalisation (src/bin/tesd_task_cap.c)

    [s_canonicalize_path] puts the data root in front of a filename that a
    client gave, creates missing directories and resolves the result.  The file
    system is behind the calls of Sys.v.  The path is returned, [None] for NULL;
    what is left in the caller's buffer then is not looked at by the callers. *)

From Stdlib Require Import ZArith Lia Strings.String Strings.Byte.
From stdpp Require Import base option list numbers decidable sets.
From S2P Require Import Prelude Sys.

Open Scope Z_scope.

Definition DATAROOT : bytes := lit "/media/data/captures/".
(** The limit of Linux. *)
Definition PATH_MAX : Z := 4096.
Definition slash : byte := x2f.

Definition strlen (s : bytes) : Z := Z.of_nat (length s).

(** [snprintf] of the string [s] to a buffer of [n] bytes: the result and what
    is in the buffer. *)
Definition snprintf (n : Z) (s : bytes) : Z * bytes := (strlen s, take (Z.to_nat (n - 1)) s).

(** A string in an array of [n] bytes that may be without the zero at its end. *)
Definition c_str (n : Z) (s : bytes) : exec bytes := if strlen s <? n then Done s else fail OutOfBounds.
(** The characters that [strncpy] puts in an array of [n] bytes, which has a zero
    behind them only if they are fewer than [n]. *)
Definition strncpy_str (n : Z) (s : bytes) : bytes := take (Z.to_nat n) s.

(** [strchr]: the position of the first [c]. *)
Fixpoint strchr (s : bytes) (c : byte) : option nat :=
  match s with
  | [] => None
  | b :: s => if decide (b = c) then Some 0%nat else S <$> strchr s c
  end.

(** [memcmp (path, DATAROOT, strlen (DATAROOT)) == 0] *)
Definition in_root (path : bytes) : bool :=
  bool_decide (take (length DATAROOT) path = DATAROOT).

Section Path.
Context `{SysEnv}.

(** The loop that creates the directories: the path of the last one and the
    last component, [None] where the function returns NULL. *)
Fixpoint mkdirs (fuel : nat) (buf cur_seg : bytes) : sysM (option (bytes * bytes)) :=
  match strchr cur_seg slash with
  | None => mret (Some (buf, cur_seg))
  | Some next_seg =>
      match fuel with
      | O => sys_fail NoFuel
      | S fuel =>
          if (next_seg =? 0)%nat then mkdirs fuel buf (drop 1 cur_seg)
          else
            sys_assert (strlen buf <? PATH_MAX);;
            let thislen := Z.of_nat next_seg + 1 in
            if PATH_MAX <=? strlen buf + thislen then mret None
            else
              let buf := buf ++ take (S next_seg) cur_seg in
              '(rc, errno) ← sys_e (SysMkdir buf);
              if c_true rc && negb (errno =? EEXIST) then mret None
              else mkdirs fuel buf (drop (S next_seg) cur_seg)
      end
  end.

Definition s_canonicalize_path (filename : bytes) (mustexist : bool) : sysM (option bytes) :=
  if strlen filename =? 0 then mret None
  else if bool_decide (list.last filename = Some slash) then mret None
  else
    let '(_, buf) := snprintf PATH_MAX (DATAROOT ++ filename) in
    '(rs, errno) ← realpath buf;
    match rs with
    | Some finalpath => mret (if in_root finalpath then Some finalpath else None)
    | None =>
        if mustexist then mret None
        else if negb (errno =? ENOENT) then mret None
        else
          dirs ← mkdirs (length filename) DATAROOT filename;
          match dirs with
          | None => mret None
          | Some (buf, cur_seg) =>
              '(rs, _) ← realpath buf;
              match rs with
              | None => sys_fail AssertFail
              | Some finalpath =>
                  sys_assert (0 <? strlen cur_seg);;
                  let len := strlen finalpath in
                  if PATH_MAX <=? strlen cur_seg + len then mret None
                  else
                    let '(_, tail) := snprintf (PATH_MAX - len) (slash :: cur_seg) in
                    let finalpath := finalpath ++ tail in
                    mret (if in_root finalpath then Some finalpath else None)
              end
          end
    end.
End Path.

(** ** Lemmas *)

Lemma strchr_Some s c i :
  strchr s c = Some i ->
  s = take i s ++ c :: drop (S i) s /\ c ∉ take i s /\ (i < length s)%nat.
Proof.
  revert i. induction s as [|b s IH]; intros i; simpl; [done|].
  destruct (decide (b = c)) as [->|Hb].
  - intros [= <-]. simpl. rewrite drop_0. split; [done|]. split; [set_solver|lia].
  - intros (j & E & ->)%fmap_Some. destruct (IH j E) as (Hs & Hc & Hl). simpl.
    split; [by f_equal|]. split; [set_solver|lia].
Qed.

Lemma strchr_take s c i : strchr s c = Some i -> take (S i) s = take i s ++ [c].
Proof.
  revert i. induction s as [|b s IH]; intros i; simpl; [done|].
  destruct (decide (b = c)) as [->|Hb]; [by intros [= <-]|].
  intros (j & E & ->)%fmap_Some. rewrite (IH j E). done.
Qed.

Lemma strchr_None s c : strchr s c = None <-> c ∉ s.
Proof.
  induction s as [|b s IH]; simpl; [set_solver|].
  destruct (decide (b = c)) as [->|Hb]; [set_solver|]. rewrite fmap_None, IH. set_solver.
Qed.

Lemma strchr_app s c t : c ∉ s -> strchr (s ++ c :: t) c = Some (length s).
Proof.
  induction s as [|b s IH]; intros Hc; simpl; [by rewrite decide_True|].
  rewrite decide_False by set_solver. by rewrite IH by set_solver.
Qed.

Lemma last_drop (s : bytes) n : (n < length s)%nat -> list.last (drop n s) = list.last s.
Proof.
  intros Hn. rewrite !last_lookup, length_drop, lookup_drop. f_equal. lia.
Qed.

Lemma not_in_take c n (s : bytes) : c ∉ s -> c ∉ take n s.
Proof.
  intros Hc Hin. apply Hc. rewrite <- (take_drop n s). apply elem_of_app. by left.
Qed.

(** The directory part of a path in the data root is the root or below it. *)
Definition under_root (dir : bytes) : Prop := dir ++ [slash] = DATAROOT \/ in_root dir = true.

Lemma DATAROOT_slash : exists r, DATAROOT = r ++ [slash].
Proof. by exists (lit "/media/data/captures"). Qed.

Lemma in_root_dir dir base : slash ∉ base -> in_root (dir ++ slash :: base) = true -> under_root dir.
Proof.
  intros Hb H%bool_decide_eq_true_1. destruct DATAROOT_slash as [r Hr].
  unfold under_root, in_root. rewrite bool_decide_eq_true.
  destruct (decide (length DATAROOT <= length dir)%nat) as [Hl|Hl].
  { right. by rewrite take_app_le in H by done. }
  left. rewrite take_app_ge in H by lia.
  destruct (length DATAROOT - length dir)%nat as [|n] eqn:En; [lia|]. simpl in H.
  rewrite <- H. f_equal. f_equal. destruct (decide (take n base = [])) as [->|Hne]; [done|].
  exfalso. destruct (exists_last Hne) as (b & x & Ex). rewrite Ex, Hr in H.
  assert (Hx : x = slash).
  { assert (E : list.last (dir ++ slash :: b ++ [x]) = list.last (r ++ [slash])) by by rewrite H.
    rewrite last_snoc, (cons_middle slash), app_assoc, app_assoc, last_snoc in E. congruence. }
  subst x. apply (not_in_take slash n base Hb). rewrite Ex, elem_of_app. right.
  by apply list_elem_of_singleton.
Qed.

Definition component (c : bytes) : Prop := c <> [] /\ slash ∉ c.

Section PathLaws.
Context `{SysEnv}.

(** The directories of [cur_seg] under [buf] are made one after the other, each
    with success or because it is there already; [buf'] is the innermost. *)
Inductive made : list sys_call -> bytes -> bytes -> list sys_call -> bytes -> Prop :=
  | made_end l buf cur_seg : slash ∉ cur_seg -> made l buf cur_seg l buf
  | made_skip l buf cur_seg l' buf' :
      made l buf cur_seg l' buf' -> made l buf (slash :: cur_seg) l' buf'
  | made_dir l buf c cur_seg l' buf' :
      component c -> let dir := buf ++ c ++ [slash] in strlen dir < PATH_MAX ->
      sys_rc l (SysMkdir dir) = 0 \/ sys_errno l (SysMkdir dir) = EEXIST ->
      made (l ++ [SysMkdir dir]) dir cur_seg l' buf' ->
      made l buf (c ++ slash :: cur_seg) l' buf'.

(** The path of a filename. *)
Definition full_path (filename : bytes) : bytes := (snprintf PATH_MAX (DATAROOT ++ filename)).2.

(** A filename that does not exist, and whose innermost directory, which was
    just made or found to be there, does not resolve. *)
Definition dir_lost (l : list sys_call) (filename : bytes) : Prop :=
  sys_path l (full_path filename) = None /\ sys_errno l (SysRealpath (full_path filename)) = ENOENT /\
  exists l1 buf, made (l ++ [SysRealpath (full_path filename)]) DATAROOT filename l1 buf /\
    sys_path l1 buf = None.

(** How far the loop has come: directories of [filename] have been made. *)
Record progress (filename buf cur_seg : bytes) : Prop := {
  pr_suffix : cur_seg `suffix_of` filename;
  pr_last : list.last cur_seg <> Some slash;
  pr_some : cur_seg <> [];
  pr_root : DATAROOT `prefix_of` buf;
  pr_len : strlen buf < PATH_MAX;
}.

Definition only_mkdirs (l l' : list sys_call) : Prop :=
  exists ps, l' = l ++ (SysMkdir <$> ps) /\ Forall (fun p => DATAROOT `prefix_of` p) ps.

Lemma only_mkdirs_refl l : only_mkdirs l l.
Proof. exists []. by rewrite app_nil_r. Qed.

Lemma only_mkdirs_step l p l' :
  DATAROOT `prefix_of` p -> only_mkdirs (l ++ [SysMkdir p]) l' -> only_mkdirs l l'.
Proof.
  intros Hp (ps & -> & Hps). exists (p :: ps). split; [by rewrite <- app_assoc|by constructor].
Qed.

Lemma progress_drop filename buf cur_seg n :
  progress filename buf cur_seg -> (n < length cur_seg)%nat ->
  progress filename buf (drop n cur_seg).
Proof.
  intros [Hs Hl Hn Hr Hb] Hlt. split; try done.
  - etrans; [|exact Hs]. exists (take n cur_seg). by rewrite take_drop.
  - by rewrite last_drop.
  - intros E. apply (f_equal length) in E. rewrite length_drop in E. simpl in E. lia.
Qed.

Lemma progress_slash filename buf cur_seg i :
  progress filename buf cur_seg -> strchr cur_seg slash = Some i -> (S i < length cur_seg)%nat.
Proof.
  intros Hp E. destruct (strchr_Some _ _ _ E) as (Hs & _ & Hlt).
  destruct (decide (S i < length cur_seg)%nat) as [|Hge]; [done|]. exfalso.
  apply (pr_last _ _ _ Hp). rewrite Hs, drop_ge by lia. apply last_snoc.
Qed.

(** A call of mkdir that does not end the loop. *)
Lemma mkdir_found rc errno :
  c_true rc && negb (errno =? EEXIST) = false -> rc = 0 \/ errno = EEXIST.
Proof.
  unfold c_true. destruct (Z.eqb_spec rc 0), (Z.eqb_spec errno EEXIST); auto. discriminate.
Qed.

Lemma mkdirs_ok filename fuel : forall buf cur_seg l,
  progress filename buf cur_seg -> (length cur_seg <= fuel)%nat ->
  swp (mkdirs fuel buf cur_seg) (ok (fun r l' => only_mkdirs l l' /\
    match r with
    | Some (buf', seg) => progress filename buf' seg /\ slash ∉ seg /\ made l buf cur_seg l' buf'
    | None => True
    end)) l.
Proof.
  induction fuel as [|fuel IH]; intros buf cur_seg l Hp Hf; cbn [mkdirs];
    destruct (strchr cur_seg slash) as [i|] eqn:E;
    try (apply strchr_None in E; swp_step; split; [apply only_mkdirs_refl|];
         split; [done|split; [done|by apply made_end]]).
  - destruct (strchr_Some _ _ _ E) as (_ & _ & Hlt). lia.
  - pose proof (progress_slash _ _ _ _ Hp E) as Hlt.
    pose proof (strchr_Some _ _ _ E) as (Hs & Hc & _).
    destruct (Nat.eqb_spec i 0) as [->|Hi].
    { eapply swp_mono; [apply IH; [by apply progress_drop; [|lia]|]; rewrite length_drop; lia|].
      intros [[[buf' seg]|]|f] l'; [|done..]. intros (Ho & Hp' & Hs' & Hm). split; [done|].
      split; [done|]. split; [done|]. rewrite Hs. by apply made_skip. }
    swp_step; [apply Z.ltb_lt, (pr_len _ _ _ Hp)|].
    destruct (Z.leb_spec PATH_MAX (strlen buf + (Z.of_nat i + 1))) as [|Hle].
    { swp_step. split; [apply only_mkdirs_refl|done]. }
    assert (Hpre : DATAROOT `prefix_of` (buf ++ take (S i) cur_seg))
      by (apply prefix_app_r, (pr_root _ _ _ Hp)).
    swp_step. destruct (c_true _ && _) eqn:Em.
    { swp_step. split; [|done]. by apply (only_mkdirs_step _ _ _ Hpre), only_mkdirs_refl. }
    eapply swp_mono; [apply IH|].
    + destruct (progress_drop _ _ _ (S i) Hp Hlt). split; try done.
      unfold strlen in *. rewrite length_app, length_take. lia.
    + rewrite length_drop. lia.
    + intros [[[buf' seg]|]|f] l'; [|intros [Ho _]; split; [|done]; by apply (only_mkdirs_step _ _ _ Hpre)|done].
      intros (Ho & Hp' & Hs' & Hm). split; [by apply (only_mkdirs_step _ _ _ Hpre)|].
      split; [done|]. split; [done|]. rewrite Hs.
      rewrite (strchr_take _ _ _ E) in Em, Hm.
      apply made_dir; [| |exact (mkdir_found _ _ Em)|exact Hm].
      2:{ rewrite <- (strchr_take _ _ _ E). unfold strlen in *. rewrite length_app, length_take. lia. }
      split; [|done]. intros E0. apply (f_equal length) in E0. rewrite length_take in E0. simpl in E0. lia.
Qed.

(** What a returned path is: what the file system resolved the filename to, or
    a resolved directory with the last component of the filename. *)
Inductive resolved (filename : bytes) (mustexist : bool) : bytes -> Prop :=
  | ResFile l p :
      sys_path l (snprintf PATH_MAX (DATAROOT ++ filename)).2 = Some p ->
      resolved filename mustexist p
  | ResDir l buf dir seg tail :
      mustexist = false -> progress filename buf seg -> sys_path l buf = Some dir ->
      slash ∉ seg -> tail = take (Z.to_nat (PATH_MAX - strlen dir - 2)) seg ->
      under_root dir -> strlen dir + strlen seg < PATH_MAX ->
      resolved filename mustexist (dir ++ slash :: tail).

Definition canon_post (filename : bytes) (mustexist : bool) (l : list sys_call)
    (r : exec (option bytes)) (l' : list sys_call) : Prop :=
  match r with
  | Done (Some p) => in_root p = true /\ resolved filename mustexist p
  | Done None => True
  | Failed AssertFail => mustexist = false /\
      exists l1 buf, DATAROOT `prefix_of` buf /\ sys_path l1 buf = None /\
        l' = l1 ++ [SysRealpath buf] /\
        only_mkdirs (l ++ [SysRealpath (snprintf PATH_MAX (DATAROOT ++ filename)).2]) l1 /\
        dir_lost l filename
  | Failed _ => False
  end.

Lemma if_in_root filename mustexist l p l' :
  resolved filename mustexist p \/ in_root p = false ->
  canon_post filename mustexist l (Done (if in_root p then Some p else None)) l'.
Proof. unfold canon_post. destruct (in_root p) eqn:E; [|done]. by intros [|]. Qed.

(** The last component behind the directory it is in. *)
Lemma append_base filename mustexist l buf dir seg p l0 l' :
  mustexist = false -> progress filename buf seg -> sys_path l buf = Some dir -> slash ∉ seg ->
  strlen seg + strlen dir < PATH_MAX ->
  p = dir ++ (snprintf (PATH_MAX - strlen dir) (slash :: seg)).2 ->
  canon_post filename mustexist l0 (Done (if in_root p then Some p else None)) l'.
Proof.
  intros Hm Hp Hd Hs Hlen ->. apply if_in_root.
  assert (Hpos : 0 < strlen seg)
    by (pose proof (pr_some _ _ _ Hp); unfold strlen; destruct seg; simpl; [done|lia]).
  unfold snprintf. cbn [snd].
  replace (Z.to_nat (PATH_MAX - strlen dir - 1))
    with (S (Z.to_nat (PATH_MAX - strlen dir - 2))) by lia.
  cbn [take]. destruct (in_root (dir ++ _)) eqn:E; [|by right]. left.
  apply (ResDir _ _ l buf dir seg); try done; [|lia].
  apply in_root_dir in E; [done|]. by apply not_in_take.
Qed.

Lemma canonicalize_ok filename mustexist l :
  swp (s_canonicalize_path filename mustexist) (canon_post filename mustexist l) l.
Proof.
  unfold s_canonicalize_path. destruct (Z.eqb_spec (strlen filename) 0) as [|Hne]; [by swp_step|].
  case_bool_decide as Hlast; [by swp_step|]. cbn [snprintf].
  swp_step. destruct (sys_path l _) as [p|] eqn:E0.
  { swp_step. apply if_in_root. left. by apply (ResFile _ _ l). }
  destruct mustexist; [by swp_step|]. destruct (sys_errno l _ =? ENOENT) eqn:Een;
    cbn [negb]; [apply Z.eqb_eq in Een|by swp_step].
  assert (Hp : progress filename DATAROOT filename).
  { split; try done. intros ->. by apply Hne. }
  eapply swp_seq; [by apply (mkdirs_ok filename)|].
  intros [[buf seg]|] l1 [Ho Hr]; [|by swp_step]. destruct Hr as (Hp' & Hs & Hmade).
  swp_step. destruct (sys_path l1 buf) as [dir|] eqn:E1.
  - assert (Hpos : 0 < strlen seg)
      by (pose proof (pr_some _ _ _ Hp'); unfold strlen; destruct seg; simpl; [done|lia]).
    swp_step; [by apply Z.ltb_lt|]. cbv zeta.
    destruct (Z.leb_spec PATH_MAX (strlen seg + strlen dir)) as [|Hle]; [by swp_step|].
    swp_step. by apply (append_base _ _ l1 buf dir seg).
  - split; [done|]. exists l1, buf. split; [apply (pr_root _ _ _ Hp')|].
    split; [done|]. split; [done|]. split; [done|]. split; [done|]. split; [done|]. by exists l1, buf.
Qed.

(** Conversely, such a filename makes the assertion fail. *)
Lemma mkdirs_made l buf cur_seg l' buf' :
  made l buf cur_seg l' buf' -> forall fuel, (length cur_seg <= fuel)%nat -> strlen buf < PATH_MAX ->
  exists base, mkdirs fuel buf cur_seg l = (Done (Some (buf', base)), l').
Proof.
  induction 1 as [l buf seg Hs|l buf seg l' buf' _ IH|l buf c seg l' buf' [Hc0 Hc] dir Hd Hmk _ IH];
    intros fuel Hf Hb.
  - exists seg. apply strchr_None in Hs. destruct fuel; cbn [mkdirs]; by rewrite Hs.
  - destruct fuel as [|fuel]; [simpl in Hf; lia|]. simpl in Hf. cbn [mkdirs strchr].
    rewrite decide_True by done. cbn [Nat.eqb drop]. apply IH; [lia|done].
  - rewrite length_app in Hf. simpl in Hf. destruct fuel as [|fuel]; [lia|]. cbn [mkdirs].
    rewrite strchr_app by done. assert (Hl : (0 < length c)%nat) by (destruct c; simpl; [done|lia]).
    rewrite (proj2 (Nat.eqb_neq _ _)), (proj2 (Z.ltb_lt _ _) Hb) by lia. cbn [sys_assert].
    rewrite (proj2 (Z.leb_gt _ _)).
    2:{ unfold dir, strlen in Hd. unfold strlen. rewrite !length_app in Hd. simpl in Hd. lia. }
    rewrite (strchr_take _ slash _ (strchr_app c slash seg Hc)), take_app_length.
    replace (drop (S (length c)) (c ++ slash :: seg)) with seg.
    2:{ rewrite (cons_middle slash c seg), app_assoc. symmetry.
        apply drop_app_length'. rewrite length_app. simpl. lia. }
    destruct (IH fuel) as [base Eb]; [lia|done|]. exists base.
    unfold mbind, sys_bind, sys_e, mret, sys_ret. cbv beta iota. fold dir.
    replace (c_true _ && _) with false; [exact Eb|]. symmetry.
    destruct Hmk as [->| ->]; [done|]. by rewrite andb_false_r.
Qed.

Lemma dir_lost_aborts filename l :
  filename <> [] -> list.last filename <> Some slash -> dir_lost l filename ->
  (s_canonicalize_path filename false l).1 = Failed AssertFail.
Proof.
  intros Hn Hl (E0 & Een & l1 & buf & Hm & E1). unfold s_canonicalize_path.
  rewrite (proj2 (Z.eqb_neq (strlen filename) 0)) by (unfold strlen; destruct filename; simpl; [done|lia]).
  rewrite bool_decide_eq_false_2 by done. cbn [snprintf]. unfold full_path in *. cbn [snprintf snd] in *.
  destruct (mkdirs_made _ _ _ _ _ Hm (length filename)) as [base Eb]; [done|done|].
  erewrite (sys_bind_Done (realpath _)) by done. cbv beta iota. rewrite E0, Een.
  change (negb (ENOENT =? ENOENT)) with false. cbv beta iota.
  erewrite (sys_bind_Done (mkdirs _ _ _)) by exact Eb. cbv beta iota.
  erewrite (sys_bind_Done (realpath _)) by done. cbv beta iota. by rewrite E1.
Qed.
End PathLaws.

(** ** A file in directories that are created *)

Fixpoint join (comps : list bytes) (base : bytes) : bytes :=
  match comps with [] => base | c :: comps => c ++ slash :: join comps base end.

(** The path of the innermost directory, with its trailing slash. *)
Fixpoint parent (buf : bytes) (comps : list bytes) : bytes :=
  match comps with [] => buf | c :: comps => parent (buf ++ c ++ [slash]) comps end.

Fixpoint mkdir_calls (buf : bytes) (comps : list bytes) : list sys_call :=
  match comps with
  | [] => []
  | c :: comps => SysMkdir (buf ++ c ++ [slash]) :: mkdir_calls (buf ++ c ++ [slash]) comps
  end.

Lemma join_last comps base : component base -> Forall component comps ->
  list.last (join comps base) = list.last base.
Proof.
  intros [Hb _]. induction 1 as [|c comps _ _ IH]; [done|]. simpl.
  rewrite <- IH. rewrite (cons_middle slash), app_assoc.
  destruct (decide (join comps base = [])) as [E|E].
  - rewrite E in IH. destruct (exists_last Hb) as (b & x & Ex). rewrite Ex, last_snoc in IH. done.
  - destruct (exists_last E) as (b & x & ->). by rewrite app_assoc, !last_snoc.
Qed.

Lemma under_root_in dir base : under_root dir -> in_root (dir ++ slash :: base) = true.
Proof.
  unfold in_root. rewrite bool_decide_eq_true. intros [E|H%bool_decide_eq_true_1].
  - by rewrite (cons_middle slash), app_assoc, E, take_app_length.
  - rewrite take_app_le; [done|]. rewrite <- H at 1. rewrite length_take. lia.
Qed.

Section NewFile.
Context `{SysEnv}.

Lemma mkdirs_join base comps : component base -> Forall component comps ->
  (forall l p, sys_rc l (SysMkdir p) = 0 \/ sys_errno l (SysMkdir p) = EEXIST) ->
  forall fuel buf l, strlen buf + strlen (join comps base) < PATH_MAX ->
  (length (join comps base) <= fuel)%nat ->
  mkdirs fuel buf (join comps base) l =
    (Done (Some (parent buf comps, base)), l ++ mkdir_calls buf comps).
Proof.
  intros [Hb0 Hb] Hc Hmk. induction Hc as [|c comps [Hc0 Hcs] _ IH]; intros fuel buf l Hlen Hf;
    simpl in *.
  - unfold mkdirs. destruct fuel; rewrite (proj2 (strchr_None _ _) Hb), app_nil_r; done.
  - unfold strlen in *. rewrite length_app in Hlen, Hf. simpl in Hlen, Hf.
    assert (0 < length c)%nat by (destruct c; simpl; [done|lia]).
    destruct fuel as [|fuel]; [lia|]. cbn [mkdirs]. rewrite strchr_app by done.
    rewrite (proj2 (Nat.eqb_neq _ _)), (proj2 (Z.ltb_lt (strlen buf) PATH_MAX)) by (unfold strlen; lia).
    unfold strlen. rewrite (proj2 (Z.leb_gt _ _)) by lia.
    replace (take (S (length c)) (c ++ slash :: join comps base)) with (c ++ [slash]).
    2:{ rewrite (cons_middle slash c (join comps base)), app_assoc. symmetry.
        rewrite take_app_length'; [done|]. rewrite length_app. simpl. lia. }
    replace (drop (S (length c)) (c ++ slash :: join comps base)) with (join comps base).
    2:{ rewrite (cons_middle slash c (join comps base)), app_assoc. symmetry.
        rewrite drop_app_length'; [done|]. rewrite length_app. simpl. lia. }
    unfold sys_assert, sys_e, mbind, sys_bind, mret, sys_ret. cbv beta iota.
    replace (c_true _ && _) with false.
    2:{ destruct (Hmk l (buf ++ c ++ [slash])) as [->| ->]; [done|]. by rewrite andb_false_r. }
    rewrite IH, <- app_assoc; [done|..]; rewrite ?length_app; simpl; lia.
Qed.

(** What a caller and the file system must provide for the directories of a
    filename to be created, and the directory the innermost resolves to. *)
Record creates (comps : list bytes) (base dir : bytes) (l : list sys_call) : Prop := {
  cr_comps : Forall component comps;
  cr_base : component base;
  cr_len : strlen DATAROOT + strlen (join comps base) < PATH_MAX;
  cr_new : sys_path l (DATAROOT ++ join comps base) = None;
  cr_enoent : sys_errno l (SysRealpath (DATAROOT ++ join comps base)) = ENOENT;
  cr_mkdir : forall l p, sys_rc l (SysMkdir p) = 0 \/ sys_errno l (SysMkdir p) = EEXIST;
  cr_dir : forall l, sys_path l (parent DATAROOT comps) = Some dir;
}.

(** The calls made then. *)
Definition canon_calls (comps : list bytes) (base : bytes) : list sys_call :=
  SysRealpath (DATAROOT ++ join comps base) :: mkdir_calls DATAROOT comps ++
    [SysRealpath (parent DATAROOT comps)].

Lemma canonicalize_join comps base dir l :
  creates comps base dir l ->
  s_canonicalize_path (join comps base) false l =
    (Done (if PATH_MAX <=? strlen base + strlen dir then None
           else let p := dir ++ (snprintf (PATH_MAX - strlen dir) (slash :: base)).2 in
                if in_root p then Some p else None),
     l ++ canon_calls comps base).
Proof.
  intros [Hc Hb Hlen E0 Een Hmk Edir]. unfold s_canonicalize_path.
  pose proof Hb as [Hb0 Hbs]. assert (Hj : list.last (join comps base) <> Some slash).
  { rewrite join_last by done. intros E. apply Hbs. apply last_Some in E as (s & ->).
    rewrite elem_of_app. right. by apply list_elem_of_singleton. }
  assert (Hn : strlen (join comps base) <> 0).
  { unfold strlen. destruct (join comps base) eqn:E; [|simpl; lia].
    destruct comps as [|c comps]; [done|]. simpl in E. by destruct c. }
  assert (Hp : 0 < strlen base) by (unfold strlen; destruct base; simpl; [done|lia]).
  rewrite (proj2 (Z.eqb_neq _ _) Hn), bool_decide_eq_false_2 by done. cbn [snprintf].
  unfold snprintf. rewrite take_ge by (unfold strlen in *; rewrite length_app; lia).
  erewrite (sys_bind_Done (realpath _)) by done. cbv beta iota. rewrite E0, Een.
  change (negb (ENOENT =? ENOENT)) with false. cbv beta iota.
  erewrite (sys_bind_Done (mkdirs _ _ _)) by by apply mkdirs_join. cbv beta iota.
  erewrite (sys_bind_Done (realpath _)) by done. cbv beta iota.
  rewrite Edir, (proj2 (Z.ltb_lt _ _) Hp).
  unfold canon_calls. rewrite (app_comm_cons _ _ (SysRealpath (DATAROOT ++ _))), !app_assoc.
  rewrite <- (app_assoc l [_] (mkdir_calls _ _)). cbn [app].
  by destruct (PATH_MAX <=? _).
Qed.
End NewFile.

(** ** Properties *)

(** C28: whatever the file system does, [s_canonicalize_path] ends; a path it
    returns starts with the data root, and is what [realpath] gave for the
    filename, or a directory it gave, which is the root or in it, with the last
    component of the filename (cut to fit the buffer).  It creates no directory
    unless the first [realpath] fails and the file need not exist, and the only
    assertion that can fail is that the innermost directory, just made or found
    there, resolves. *)
Theorem path_confined `{SysEnv} filename mustexist l :
  swp (s_canonicalize_path filename mustexist) (canon_post filename mustexist l) l.
Proof. apply canonicalize_ok. Qed.

(** For a filename whose directories can be created or exist, and resolve
    into the root, the result is the file in the resolved directory, and the
    directories are created one after the other from the outermost. *)
Theorem path_new_file `{SysEnv} comps base dir l :
  creates comps base dir l -> under_root dir -> strlen dir + strlen base < PATH_MAX - 1 ->
  s_canonicalize_path (join comps base) false l =
    (Done (Some (dir ++ slash :: base)), l ++ canon_calls comps base).
Proof.
  intros Hc Hu Hd. rewrite (canonicalize_join _ _ dir) by done.
  rewrite (proj2 (Z.leb_gt PATH_MAX _)) by lia. cbv zeta. unfold snprintf. cbn [snd].
  rewrite take_ge by (unfold strlen in *; simpl; lia). by rewrite under_root_in.
Qed.

(** The directories of a filename are created before the path is checked
    against the data root: a filename whose directories lead out of it is
    refused after they have been made there. *)
Theorem mkdir_outside_root `{SysEnv} comps base dir l :
  creates comps base dir l -> ~ under_root dir ->
  s_canonicalize_path (join comps base) false l = (Done None, l ++ canon_calls comps base).
Proof.
  intros Hc Hu. rewrite (canonicalize_join _ _ dir) by done. f_equal. f_equal.
  destruct (Z.leb_spec PATH_MAX (strlen base + strlen dir)) as [|Hd]; [done|].
  cbv zeta. unfold snprintf. cbn [snd]. destruct (in_root _) eqn:E; [|done]. exfalso. apply Hu.
  assert (Hp : 0 < strlen base).
  { destruct (cr_base _ _ _ _ Hc) as [Hb _]. unfold strlen. destruct base; simpl; [done|lia]. }
  replace (Z.to_nat (PATH_MAX - strlen dir - 1))
    with (S (Z.to_nat (PATH_MAX - strlen dir - 2))) in E by lia. cbn [take] in E.
  apply in_root_dir in E; [done|]. apply not_in_take, (cr_base _ _ _ _ Hc).
Qed.

(** A path of exactly PATH_MAX characters passes the check of its length, and
    its last character is lost. *)
Theorem path_last_char_lost `{SysEnv} comps base dir l :
  creates comps base dir l -> under_root dir -> strlen dir + strlen base = PATH_MAX - 1 ->
  (s_canonicalize_path (join comps base) false l).1 =
    Done (Some (dir ++ slash :: take (length base - 1) base)).
Proof.
  intros Hc Hu Hd. rewrite (canonicalize_join _ _ dir) by done. cbn [fst].
  rewrite (proj2 (Z.leb_gt PATH_MAX _)) by lia. cbv zeta. unfold snprintf. cbn [snd].
  assert (Hp : 0 < strlen base).
  { destruct (cr_base _ _ _ _ Hc) as [Hb _]. unfold strlen. destruct base; simpl; [done|lia]. }
  replace (Z.to_nat (PATH_MAX - strlen dir - 1)) with (S (length base - 1))
    by (unfold strlen in *; lia). cbn [take]. by rewrite under_root_in.
Qed.

(** ** A sample file system *)

(** Nothing exists, directories can be made, and the path [p] resolves to
    [dir]. *)
Definition sample_fs (p dir : bytes) : SysEnv := {|
  sys_rc := fun _ _ => 0;
  sys_errno := fun _ _ => ENOENT;
  sys_path := fun _ q => if decide (q = p) then Some dir else None;
  sys_bytes := fun _ _ => [];
  sys_pipe := fun _ => (3, 4) |}.

Lemma path_new_file_witness :
  s_canonicalize_path (H := sample_fs (lit "/media/data/captures/run/") (lit "/media/data/captures/run"))
    (lit "run/a") false [] =
  (Done (Some (lit "/media/data/captures/run/a")),
   [SysRealpath (lit "/media/data/captures/run/a"); SysMkdir (lit "/media/data/captures/run/");
    SysRealpath (lit "/media/data/captures/run/")]).
Proof.
  apply (path_new_file (H := sample_fs _ _) [lit "run"] (lit "a") (lit "/media/data/captures/run")).
  - split.
    + apply Forall_singleton. split; [discriminate|]. by apply strchr_None.
    + split; [discriminate|]. by apply strchr_None.
    + reflexivity.
    + reflexivity.
    + reflexivity.
    + intros l p. left. reflexivity.
    + intros l. reflexivity.
  - right. reflexivity.
  - reflexivity.
Defined.

Lemma mkdir_outside_root_witness :
  s_canonicalize_path (H := sample_fs (lit "/media/data/captures/../x/") (lit "/media/data/x"))
    (lit "../x/a") false [] =
  (Done None,
   [SysRealpath (lit "/media/data/captures/../x/a"); SysMkdir (lit "/media/data/captures/../");
    SysMkdir (lit "/media/data/captures/../x/"); SysRealpath (lit "/media/data/captures/../x/")]).
Proof.
  apply (mkdir_outside_root (H := sample_fs _ _) [lit ".."; lit "x"] (lit "a") (lit "/media/data/x")).
  - split.
    + repeat constructor; try discriminate; by apply strchr_None.
    + split; [discriminate|]. by apply strchr_None.
    + reflexivity.
    + reflexivity.
    + reflexivity.
    + intros l p. left. reflexivity.
    + intros l. reflexivity.
  - intros [E|E]; discriminate.
Defined.
