(* ===== verification/Cmdline.v ===== *)
(** * The command line (used by src/bin/tesd.c and src/bin/tesc.c)

    What the programs use of the C library to read their arguments: [strtol] and
    [strtoul] in base 10, and [getopt] with an option string that starts with
    "+:", as POSIX describes them.  [opt_loop] is the loop around [getopt] of the
    functions of tesc.c.  Numbers that are printed are read back, the loop ends,
    and a command line in its plain form is read item by item. *)

From Stdlib Require Import ZArith Lia Strings.String Strings.Byte.
From stdpp Require Import base option list numbers decidable.
From S2P Require Import Prelude Sys Path.

Open Scope Z_scope.

(** ** Numbers *)

Definition is_space (b : byte) : bool :=
  let c := Z_of_byte b in (c =? 32) || ((9 <=? c) && (c <=? 13)).
Definition is_digit (b : byte) : bool :=
  let c := Z_of_byte b in (48 <=? c) && (c <=? 57).

Fixpoint skip_spaces (s : bytes) : bytes :=
  match s with
  | [] => []
  | b :: s' => if is_space b then skip_spaces s' else s
  end.

(** The value of the digits [s] starts with, and the rest. *)
Fixpoint digits (s : bytes) (n : Z) : Z * bytes :=
  match s with
  | [] => (n, [])
  | b :: s' => if is_digit b then digits s' (10 * n + (Z_of_byte b - 48)) else (n, s)
  end.

(** The number at the start of a string, its sign, and the rest, which is all of
    it if there are no digits. *)
Definition parse_num (s : bytes) : bool * Z * bytes :=
  let s1 := skip_spaces s in
  let '(neg, s2) := match s1 with
                    | x2d :: s2 => (true, s2)
                    | x2b :: s2 => (false, s2)
                    | _ => (false, s1)
                    end in
  match s2 with
  | b :: _ => if is_digit b then let '(n, rest) := digits s2 0 in (neg, n, rest) else (false, 0, s)
  | [] => (false, 0, s)
  end.

(** Base 10; out of range gives the nearest value, and [strtoul] negates
    modulo 2^64. *)
Definition strtol (s : bytes) : Z * bytes :=
  let '(neg, n, rest) := parse_num s in
  let n := if neg : bool then - n else n in
  (Z.max (- 2 ^ 63) (Z.min (2 ^ 63 - 1) n), rest).
Definition strtoul (s : bytes) : Z * bytes :=
  let '(neg, n, rest) := parse_num s in
  (if 2 ^ 64 - 1 <? n then 2 ^ 64 - 1 else if neg : bool then to_u64 (- n) else n, rest).


(** ** getopt *)

(** What [getopt] returns: -1; an option, with [optarg] if it takes an argument;
    '?' or ':', with [optopt]. *)
Inductive opt_result : Type :=
  | OptEnd
  | OptFound (c : byte) (arg : bytes)
  | OptUnknown (c : byte)
  | OptMissing (c : byte).

(** [optind], and the options of the same argument that are left. *)
Record getopt_st : Type := { optind : nat; nextchar : bytes }.

(** The first argument after the name of the program. *)
Definition getopt_start : getopt_st := {| optind := 1; nextchar := [] |}.

(** Whether option [c] takes an argument; None if there is no such option. *)
Definition takes_arg (optstring : bytes) (c : byte) : option bool :=
  if bool_decide (c = x3a) || bool_decide (c = x3b) then None
  else match strchr optstring c with
       | None => None
       | Some i => Some (bool_decide (optstring !! S i = Some x3a))
       end.

(** The next option of a group. [i] is the index of the argument. *)
Definition getopt_char (argv : list bytes) (optstring : bytes) (i : nat) (c : byte) (rest : bytes)
    : opt_result * getopt_st :=
  let next := if bool_decide (rest = []) then S i else i in
  match takes_arg optstring c with
  | None => (OptUnknown c, {| optind := next; nextchar := rest |})
  | Some false => (OptFound c [], {| optind := next; nextchar := rest |})
  | Some true =>
      if negb (bool_decide (rest = [])) then (OptFound c rest, {| optind := S i; nextchar := [] |})
      else match argv !! S i with
           | None => (OptMissing c, {| optind := S i; nextchar := [] |})
           | Some arg => (OptFound c arg, {| optind := S (S i); nextchar := [] |})
           end
  end.

(** [optstring] is without the "+:" at its start. *)
Definition getopt (argv : list bytes) (optstring : bytes) (g : getopt_st) : opt_result * getopt_st :=
  match nextchar g with
  | c :: rest => getopt_char argv optstring (optind g) c rest
  | [] =>
      match argv !! optind g with
      | None => (OptEnd, g)
      | Some arg =>
          if bool_decide (arg = lit "--") then (OptEnd, {| optind := S (optind g); nextchar := [] |})
          else match arg with
               | x2d :: c :: rest => getopt_char argv optstring (optind g) c rest
               | _ => (OptEnd, g)
               end
      end
  end.

(** [while (optind < argc)] with [getopt] and its [switch].  The functions for an
    argument that is not an option, whose index they get, and for an option
    give the new values of the variables, None for an early return. *)
Section Loop.
Context {A : Type} (argv : list bytes) (optstring : bytes)
  (on_arg : nat -> A -> sysM (option A)) (on_opt : opt_result -> A -> sysM (option A)).

Fixpoint opt_loop (fuel : nat) (g : getopt_st) (a : A) : sysM (option A) :=
  if negb (Nat.ltb (optind g) (length argv)) then mret (Some a)
  else
    match fuel with
    | O => sys_fail NoFuel
    | S fuel =>
        let '(r, g) := getopt argv optstring g in
        r' ← match r with OptEnd => on_arg (optind g) a | _ => on_opt r a end;
        match r' with
        | None => mret None
        | Some a =>
            opt_loop fuel
              match r with
              | OptEnd => {| optind := S (optind g); nextchar := nextchar g |}
              | _ => g
              end a
        end
    end.
End Loop.

(** ** Termination *)

(** What is left to read: the characters of the group and the arguments. *)
Definition args_left (argv : list bytes) (i : nat) : nat :=
  sum_list_with (fun a => S (length a)) (drop i argv).
Definition opts_left (argv : list bytes) (g : getopt_st) : nat :=
  (length (nextchar g) +
   args_left argv (if bool_decide (nextchar g = []) then optind g else S (optind g)))%nat.

Lemma args_left_S argv i : (args_left argv (S i) <= args_left argv i)%nat.
Proof.
  unfold args_left. destruct (argv !! i) as [a|] eqn:E.
  - rewrite (drop_S _ _ _ E). simpl. lia.
  - apply lookup_ge_None_1 in E. rewrite !drop_ge by lia. lia.
Qed.

Lemma args_left_cons argv i a :
  argv !! i = Some a -> args_left argv i = (S (length a) + args_left argv (S i))%nat.
Proof. intros E. unfold args_left. by rewrite (drop_S _ _ _ E). Qed.

Lemma getopt_char_left argv os i c rest :
  (opts_left argv (getopt_char argv os i c rest).2 <= length rest + args_left argv (S i))%nat.
Proof.
  assert (Hn : forall j, (S i <= j)%nat -> (args_left argv j <= args_left argv (S i))%nat).
  { intros j Hj. induction Hj as [|j Hj IH]; [done|]. pose proof (args_left_S argv j). lia. }
  unfold getopt_char, opts_left.
  assert (Hg : forall b : bool, (length rest + args_left argv
      (if bool_decide (rest = []) then if bool_decide (rest = []) then S i else i else
         S (if bool_decide (rest = []) then S i else i)) <=
      length rest + args_left argv (S i))%nat).
  { intros _. case_bool_decide; lia. }
  destruct (takes_arg os c) as [[]|]; [|by apply (Hg true)..].
  case_bool_decide; simpl; [|pose proof (Hn (S i)); lia]. destruct (argv !! S i); simpl.
  - pose proof (Hn (S (S i))). lia.
  - pose proof (Hn (S i)). lia.
Qed.

(** Each round of the loop reads something. *)
Lemma getopt_left argv os g :
  (optind g < length argv)%nat ->
  let '(r, g') := getopt argv os g in
  (opts_left argv match r with
                  | OptEnd => {| optind := S (optind g'); nextchar := nextchar g' |}
                  | _ => g'
                  end < opts_left argv g)%nat.
Proof.
  intros Hi. unfold getopt. destruct g as [i next]. simpl in *.
  assert (Hc : forall c rest, exists r g', getopt_char argv os i c rest = (r, g') /\ r <> OptEnd /\
      (opts_left argv g' <= length rest + args_left argv (S i))%nat).
  { intros c rest. pose proof (getopt_char_left argv os i c rest) as Hl.
    destruct (getopt_char argv os i c rest) as [r g'] eqn:E. exists r, g'.
    split; [done|]. split; [|exact Hl]. unfold getopt_char in E.
    destruct (takes_arg os c) as [[]|]; [|by injection E as <- <-..].
    case_bool_decide; simpl in E; [|by injection E as <- <-].
    by destruct (argv !! S i); injection E as <- <-. }
  destruct next as [|c rest].
  - destruct (lookup_lt_is_Some_2 argv i Hi) as [a Ea]. rewrite Ea.
    pose proof (args_left_cons argv i a Ea) as Hl. pose proof (args_left_S argv (S i)).
    case_bool_decide as Hd; [unfold opts_left; simpl; lia|].
    assert (Hend : (opts_left argv {| optind := S i; nextchar := [] |} < args_left argv i)%nat)
      by (unfold opts_left; simpl; lia).
    destruct a as [|b [|c rest]]; [done|by destruct b|].
    destruct (Hc c rest) as (r & g' & E & Hr & Hle). simpl in Hl.
    destruct b; try done. rewrite E. unfold opts_left at 2. simpl.
    destruct r; [done|lia..].
  - destruct (Hc c rest) as (r & g' & -> & Hr & Hle). unfold opts_left at 2. simpl.
    destruct r; [done|lia..].
Qed.

(** With fuel for what is left to read the loop stops only where the functions
    for an argument and an option do. *)
Lemma opt_loop_stops {A} (P : failure -> Prop) argv os on_arg on_opt fuel g (a : A) :
  (opts_left argv g <= fuel)%nat ->
  (forall i a, stops P (on_arg i a)) -> (forall r a, stops P (on_opt r a)) ->
  stops P (opt_loop argv os on_arg on_opt fuel g a).
Proof.
  intros Hf Ha Ho. revert g a Hf. induction fuel as [|fuel IH]; intros g a Hf; simpl;
    (destruct (Nat.ltb_spec (optind g) (length argv)) as [Hi|]; simpl; [|by apply stops_never]);
    pose proof (getopt_left argv os g Hi) as Hd; destruct (getopt argv os g) as [r g']; [lia|].
  apply stops_bind; [destruct r; auto|]. intros [a'|]; [apply IH; lia|by apply stops_never].
Qed.

(** What the functions preserve holds of the variables at the end; [R None] says
    when they make the caller return. *)
Lemma opt_loop_inv {A} (R : option A -> Prop) argv os on_arg on_opt fuel g (a : A) l :
  (forall i a l r l', R (Some a) -> on_arg i a l = (Done r, l') -> R r) ->
  (forall o a l r l', R (Some a) -> on_opt o a l = (Done r, l') -> R r) ->
  R (Some a) ->
  match (opt_loop argv os on_arg on_opt fuel g a l).1 with Done r => R r | _ => True end.
Proof.
  intros Ha Ho. revert g a l. induction fuel as [|fuel IH]; intros g a l HP; simpl.
  { by destruct (negb _). }
  destruct (negb _); [done|]. destruct (getopt argv os g) as [o g'].
  match goal with |- match ((?m ≫= _) _).1 with _ => _ end =>
    assert (Hm : forall l r l', m l = (Done r, l') -> R r) by (destruct o; eauto);
    specialize (Hm l); unfold mbind, sys_bind; destruct (m l) as [[[a'|]|f] l'] end; try done.
  - apply IH. by eapply Hm.
  - by eapply Hm.
Qed.

(** The loop makes only calls that the functions make. *)
Lemma opt_loop_adds {A} (P : sys_call -> Prop) argv os on_arg on_opt fuel g (a : A) :
  (forall i a, adds P (on_arg i a)) -> (forall r a, adds P (on_opt r a)) ->
  adds P (opt_loop argv os on_arg on_opt fuel g a).
Proof.
  intros Ha Ho. revert g a. induction fuel as [|fuel IH]; intros g a; simpl;
    (apply adds_if; [apply adds_none|]); [apply adds_none|].
  destruct (getopt argv os g) as [r g']. apply adds_bind; [destruct r; auto|].
  intros [a'|]; [apply IH|apply adds_none].
Qed.

(** ** Plain command lines *)

(** An option with its argument in the next word, an option that takes none, a
    word that is not an option. *)
Inductive item : Type :=
  | IArg (c : byte) (arg : bytes)
  | IFlag (c : byte)
  | IWord (w : bytes).

Definition words (it : item) : list bytes :=
  match it with
  | IArg c arg => [[x2d; c]; arg]
  | IFlag c => [[x2d; c]]
  | IWord w => [w]
  end.

Definition item_ok (optstring : bytes) (it : item) : Prop :=
  match it with
  | IArg c _ => c <> x2d /\ takes_arg optstring c = Some true
  | IFlag c => c <> x2d /\ takes_arg optstring c = Some false
  | IWord w => head w <> Some x2d
  end.

(** What the loop makes of an item, and of all of them. *)
Section Items.
Context {A : Type} (on_arg : nat -> A -> sysM (option A)) (on_opt : opt_result -> A -> sysM (option A)).

Definition run_item (i : nat) (it : item) (a : A) : sysM (option A) :=
  match it with
  | IArg c arg => on_opt (OptFound c arg) a
  | IFlag c => on_opt (OptFound c []) a
  | IWord _ => on_arg i a
  end.

Fixpoint run_items (i : nat) (items : list item) (a : A) : sysM (option A) :=
  match items with
  | [] => mret (Some a)
  | it :: items =>
      r ← run_item i it a;
      match r with
      | None => mret None
      | Some a => run_items (i + length (words it)) items a
      end
  end.
End Items.

Lemma getopt_item argv os pre it post :
  argv = pre ++ words it ++ post -> item_ok os it ->
  getopt argv os {| optind := length pre; nextchar := [] |} =
    match it with
    | IArg c arg => (OptFound c arg, {| optind := length pre + 2; nextchar := [] |})
    | IFlag c => (OptFound c [], {| optind := length pre + 1; nextchar := [] |})
    | IWord _ => (OptEnd, {| optind := length pre; nextchar := [] |})
    end.
Proof.
  intros -> Hok. unfold getopt. simpl. change (lit "--") with [x2d; x2d].
  destruct it as [c arg|c|w]; simpl in *; rewrite list_lookup_middle by done.
  - destruct Hok as [Hc Ht]. rewrite bool_decide_false by congruence.
    unfold getopt_char. rewrite Ht. rewrite bool_decide_true by done. simpl.
    rewrite lookup_app_r by lia. replace (S (length pre) - length pre)%nat with 1%nat by lia. simpl.
    do 3 f_equal. lia.
  - destruct Hok as [Hc Ht]. rewrite bool_decide_false by congruence.
    unfold getopt_char. rewrite Ht. rewrite bool_decide_true by done. do 2 f_equal. lia.
  - rewrite bool_decide_false by (intros ->; done). destruct w as [|b [|c w]]; [done| |];
      by destruct b.
Qed.

Lemma opt_loop_items {A} argv os on_arg on_opt items fuel pre (a : A) l :
  argv = pre ++ concat (words <$> items) -> Forall (item_ok os) items ->
  (length items <= fuel)%nat ->
  opt_loop argv os on_arg on_opt fuel {| optind := length pre; nextchar := [] |} a l =
    run_items on_arg on_opt (length pre) items a l.
Proof.
  revert fuel pre a l. induction items as [|it items IH]; intros fuel pre a l Ea Hok Hf.
  { simpl in Ea. rewrite app_nil_r in Ea. subst. destruct fuel; simpl; by rewrite Nat.ltb_irrefl. }
  destruct fuel as [|fuel]; [simpl in Hf; lia|]. simpl in Ea.
  apply Forall_cons_1 in Hok as [Hit Hok]. cbn [opt_loop optind].
  assert (Hl : (length pre < length argv)%nat)
    by (rewrite Ea, !length_app; destruct it; simpl; lia).
  rewrite (proj2 (Nat.ltb_lt _ _) Hl). cbn [negb].
  rewrite (getopt_item argv os pre it (concat (words <$> items)) Ea Hit). cbn [run_items].
  rewrite app_assoc in Ea. simpl in Hf.
  assert (Hn : forall a l, opt_loop argv os on_arg on_opt fuel
      {| optind := length pre + length (words it); nextchar := [] |} a l =
    run_items on_arg on_opt (length pre + length (words it)) items a l).
  { intros a' l'. rewrite <- length_app. apply IH; [done|done|lia]. }
  destruct it; cbn [run_item words length] in *; unfold mbind, sys_bind;
    [destruct (on_opt _ a l) as [[[a'|]|f] l']; try done; apply Hn..|].
  cbn [optind nextchar]. destruct (on_arg (length pre) a l) as [[[a'|]|f] l']; try done.
  rewrite <- (Nat.add_1_r (length pre)). apply Hn.
Qed.

(** Every item leaves a round to the loop that starts with it. *)
Lemma items_left prog items :
  (length items <= opts_left (prog :: concat (words <$> items)) getopt_start)%nat.
Proof.
  unfold opts_left, getopt_start, args_left. simpl. rewrite drop_0.
  induction items as [|it items IH]; simpl; [done|]. unfold fmap in IH. destruct it; simpl; lia.
Qed.

(** ** Numbers that are printed are read back *)

Definition all_digits (d : bytes) : Prop := Forall (fun b => is_digit b = true) d.

Lemma digit_value k : 0 <= k < 10 -> is_digit (byte_of_Z (48 + k)) = true /\
  Z_of_byte (byte_of_Z (48 + k)) = 48 + k.
Proof.
  intros Hk. unfold is_digit. rewrite Z_of_byte_of_Z, to_u8_id by (unfold is_u8; lia). lia.
Qed.

Lemma digits_app d rest m :
  all_digits d -> exists n, digits (d ++ rest) m = digits rest n.
Proof.
  intros Hd. revert m. induction Hd as [|b d Hb _ IH]; intros m; simpl; [by exists m|].
  rewrite Hb. apply IH.
Qed.

(** The digits printed for [n], and the number that reading them adds. *)
Lemma dec_loop_digits fuel n acc :
  (0 < fuel)%nat -> 0 <= n < 10 ^ Z.of_nat fuel ->
  exists d, dec_loop fuel n acc = d ++ acc /\ all_digits d /\ d <> [] /\
    forall rest m, digits (d ++ rest) m = digits rest (m * 10 ^ Z.of_nat (length d) + n).
Proof.
  revert n acc. induction fuel as [|fuel IH]; intros n acc Hf Hn; [lia|]. simpl.
  assert (Hr : 0 <= n mod 10 < 10) by (apply Z.mod_pos_bound; lia).
  destruct (digit_value (n mod 10) Hr) as [Hd Hv].
  destruct (Z.ltb_spec n 10) as [Hs|Hl].
  - exists [byte_of_Z (48 + n mod 10)]. split; [done|]. split; [by repeat constructor|].
    split; [done|]. intros rest m. simpl. rewrite Hd, Hv. f_equal.
    rewrite (Z.mod_small n) by lia. lia.
  - replace (Z.of_nat (S fuel)) with (Z.of_nat fuel + 1) in Hn by lia.
    rewrite Z.pow_add_r in Hn by lia. change (10 ^ 1) with 10 in Hn.
    assert (0 < fuel)%nat by (destruct fuel; [change (10 ^ Z.of_nat 0) with 1 in Hn; lia|lia]).
    assert (Hq : 0 <= n / 10 < 10 ^ Z.of_nat fuel).
    { split; [apply Z.div_pos; lia|]. apply Z.div_lt_upper_bound; lia. }
    destruct (IH (n / 10) (byte_of_Z (48 + n mod 10) :: acc)) as (d & -> & Hall & Hne & Hdig);
      [done|done|].
    exists (d ++ [byte_of_Z (48 + n mod 10)]). rewrite <- app_assoc. split; [done|].
    split; [apply Forall_app; split; [done|by repeat constructor]|].
    split; [by destruct d|]. intros rest m. rewrite <- app_assoc, Hdig. simpl. rewrite Hd, Hv.
    f_equal. rewrite length_app. simpl. rewrite Nat2Z.inj_add, Z.pow_add_r by lia.
    change (10 ^ Z.of_nat 1) with 10. pose proof (Z.div_mod n 10). lia.
Qed.

Lemma parse_num_dec n : is_u64 n -> parse_num (dec n) = (false, n, []).
Proof.
  intros Hn. unfold is_u64 in Hn. unfold dec.
  destruct (dec_loop_digits 20 n []) as (d & -> & Hall & Hne & Hdig);
    [lia|change (10 ^ Z.of_nat 20) with 100000000000000000000; lia|].
  rewrite app_nil_r. unfold parse_num. destruct d as [|b d]; [done|].
  apply Forall_cons_1 in Hall as [Hb _]. pose proof (Hdig [] 0) as Hd. rewrite app_nil_r in Hd.
  assert (Es : skip_spaces (b :: d) = b :: d).
  { simpl. unfold is_digit in Hb. unfold is_space. case_if; [lia|done]. }
  rewrite Es. assert (Hm : b <> x2d /\ b <> x2b) by (by split; intros ->).
  transitivity (if is_digit b then let '(n0, rest) := digits (b :: d) 0 in (false, n0, rest)
    else (false, 0, b :: d)); [by destruct b; try done; destruct Hm|].
  rewrite Hb, Hd. done.
Qed.

Lemma strtoul_dec n : is_u64 n -> strtoul (dec n) = (n, []).
Proof.
  intros Hn. unfold strtoul. rewrite parse_num_dec by done. unfold is_u64 in Hn.
  rewrite (proj2 (Z.ltb_ge _ _)) by lia. done.
Qed.

Lemma digits_nonneg s n : 0 <= n -> 0 <= (digits s n).1.
Proof.
  revert n. induction s as [|b s IH]; intros n Hn; simpl; [done|].
  destruct (is_digit b) eqn:E; [|done]. apply IH. unfold is_digit in E. lia.
Qed.

Lemma strtoul_range s : is_u64 (strtoul s).1.
Proof.
  unfold strtoul. assert (Hn : 0 <= (parse_num s).1.2).
  { unfold parse_num. destruct (match skip_spaces s with x2d :: _ => _ | _ => _ end) as [neg s2].
    destruct s2 as [|b s2]; [done|]. destruct (is_digit b) eqn:E; [|done].
    pose proof (digits_nonneg (b :: s2) 0 ltac:(done)) as Hd. by destruct (digits (b :: s2) 0). }
  destruct (parse_num s) as [[neg n] rest]. simpl in *. unfold is_u64.
  destruct (Z.ltb_spec (2 ^ 64 - 1) n); [lia|]. destruct neg; [apply to_u64_range|lia].
Qed.
