(* ===== verification/Daemon.v ===== *)
(** * Processes and daemonisation (src/lib/daemon_ng.c)

    A routine is followed in one process: [fork] returns what the environment
    says, so that the parent's and the children's executions are the routine
    under different environments, and a child ends with [Exited].  Functions
    that are passed as arguments are functions on the data they get a pointer
    to.  What is written to the log of the server is not modelled. *)

From Stdlib Require Import ZArith Lia Strings.String Strings.Byte.
From stdpp Require Import base option list numbers decidable sets.
From S2P Require Import Prelude Sys Path.

Open Scope Z_scope.

Definition MAX_LOG_ID_LEN : Z := 32.
Definition MAX_LOG_TIMEFMT_LEN : Z := 16.
Definition DAEMON_OK_MSG : bytes := lit "0".
Definition DAEMON_ERR_MSG : bytes := lit "1".
Definition DAEMON_TIMEOUT : Z := 3000.

Definition EXIT_SUCCESS : Z := 0.
Definition EXIT_FAILURE : Z := 1.
Definition NSIG : nat := 65.
Definition SIGKILL : Z := 9.
Definition SIGSTOP : Z := 19.

Definition WEXITSTATUS (status : Z) : Z := Z.land (Z.shiftr status 8) 255.

Module Daemon.

(** ** Settings of the log *)

Record globals : Type := {
  is_daemon : Z;
  is_verbose : Z;
  time_fmt : bytes;  (* an array of MAX_LOG_TIMEFMT_LEN characters *)
  log_id : bytes;    (* an array of MAX_LOG_ID_LEN characters *)
}.

(** The C string at the start of an array; reading it leaves the array when no
    zero ends it. *)
Fixpoint c_string (array : bytes) : exec bytes :=
  match array with
  | [] => fail OutOfBounds
  | b :: array => if decide (b = x00) then mret [] else s ← c_string array; mret (b :: s)
  end.

(** [strncpy (array, s, n)] for an array of [n] characters. *)
Definition strncpy (n : Z) (s : bytes) : bytes := resize (Z.to_nat n) x00 s.

Definition set_time_fmt (fmt : option bytes) (g : globals) : globals :=
  match fmt with
  | None => g
  | Some fmt =>
      let '(rc, s) := snprintf MAX_LOG_TIMEFMT_LEN fmt in
      let array := splice (time_fmt g) 0 (s ++ [x00]) in
      let array :=
        if (MAX_LOG_TIMEFMT_LEN <=? rc) &&
           bool_decide (array !! Z.to_nat (MAX_LOG_TIMEFMT_LEN - 1) = Some x25)
        then <[Z.to_nat (MAX_LOG_TIMEFMT_LEN - 1) := x00]> array else array in
      {| is_daemon := is_daemon g; is_verbose := is_verbose g;
         time_fmt := array; log_id := log_id g |}
  end.

Definition set_logid (id : option bytes) (g : globals) : globals :=
  match id with
  | None => g
  | Some id => {| is_daemon := is_daemon g; is_verbose := is_verbose g;
                  time_fmt := time_fmt g; log_id := strncpy MAX_LOG_ID_LEN id |}
  end.

Definition set_verbose (level : Z) (g : globals) : Z * globals :=
  let g := if 0 <=? level
           then {| is_daemon := is_daemon g; is_verbose := (if c_true level then 1 else 0);
                   time_fmt := time_fmt g; log_id := log_id g |}
           else g in
  (is_verbose g, g).

Definition ami_daemon (g : globals) : Z := is_daemon g.

Section Processes.
Context `{SysEnv}.

(** ** Closing file descriptors *)

Definition s_get_max_fd : sysM Z :=
  lim ← sys SysRlimit;
  if lim =? -1 then sys SysOpenMax else mret lim.

(** [atoi] on the digits it starts with. *)
Fixpoint atoi (s : bytes) (n : Z) : Z :=
  match s with
  | [] => n
  | b :: s => if (48 <=? Z_of_byte b) && (Z_of_byte b <=? 57)
              then atoi s (10 * n + (Z_of_byte b - 48)) else n
  end.

(** The loop over the directory, which has less than [fuel] entries; an entry
    is not NULL.  The last [errno]. *)
Fixpoint readdir_loop (fuel : nat) (dir_no max_fd : Z) : sysM Z :=
  match fuel with
  | O => sys_fail NoFuel
  | S fuel =>
      '(ent, errno, name) ← (fun l => (Done (sys_rc l SysReaddir, sys_errno l SysReaddir,
                                         sys_bytes l SysReaddir), l ++ [SysReaddir]));
      if ent =? 0 then mret errno
      else
        let dirent_no := atoi name 0 in
        if bool_decide (name = lit ".") then readdir_loop fuel dir_no max_fd
        else if bool_decide (name = lit "..") then readdir_loop fuel dir_no max_fd
        else if dirent_no =? dir_no then readdir_loop fuel dir_no max_fd
        else if dirent_no =? 0 then readdir_loop fuel dir_no max_fd
        else if dirent_no =? 1 then readdir_loop fuel dir_no max_fd
        else if dirent_no =? 2 then readdir_loop fuel dir_no max_fd
        else if max_fd <=? dirent_no then mret 0
        else sys_ (SysClose dirent_no);; readdir_loop fuel dir_no max_fd
  end.

(** [opendir] returns the number of the directory, 0 for NULL. *)
Definition s_close_open_fds (fuel : nat) (max_fd : Z) : sysM Z :=
  dir ← sys (SysOpendir (lit "/dev/fd"));
  dir ← (if dir =? 0 then sys (SysOpendir (lit "/proc/self/fd")) else mret dir);
  if dir =? 0 then mret (-1)
  else
    errno ← readdir_loop fuel dir max_fd;
    if c_true errno then mret (-1)
    else sys_ SysClosedir;; mret 0.

(** The fallback: the descriptors [cur_fd], ..., [max_fd - 1]. *)
Fixpoint close_loop (n : nat) (cur_fd : Z) : sysM unit :=
  match n with
  | O => mret tt
  | S n =>
      (if (cur_fd =? 0) || (cur_fd =? 1) || (cur_fd =? 2) then mret tt
       else sys_ (SysClose cur_fd));;
      close_loop n (cur_fd + 1)
  end.

Definition s_close_nonstd_fds (fuel : nat) : sysM unit :=
  max_fd ← s_get_max_fd;
  let max_fd := if max_fd =? 0 then 4096 else max_fd in
  rc ← s_close_open_fds fuel max_fd;
  if rc =? 0 then mret tt else close_loop (Z.to_nat max_fd) 0.

(** ** Signals through a pipe *)

Definition s_wait_sig (pipe_fd timeout_sec : Z) : sysM Z :=
  let timeout := if timeout_sec =? 0 then DAEMON_TIMEOUT
                 else if 0 <? timeout_sec then timeout_sec * 1000 else -1 in
  rc ← sys (SysPoll pipe_fd timeout);
  if rc =? 0 then mret (-1)
  else if rc =? -1 then mret (-1)
  else
    '(n, msg) ← sys_read pipe_fd 1;
    sys_ (SysClose pipe_fd);;
    if n =? -1 then mret (-1)
    else if negb (n =? 1) then mret (-1)
    else mret (if bool_decide (take 1 msg = DAEMON_OK_MSG) then 0 else -1).

Definition s_send_sig (pipe_fd : Z) (sig : bytes) : sysM Z :=
  n ← sys (SysWrite pipe_fd sig);
  sys_ (SysClose pipe_fd);;
  mret (if n =? 1 then 0 else -1).

(** ** Running in a child process *)

Section Run.
Context {S : Type}.
Implicit Types (initializer action : option (S -> sysM (Z * S))) (arg : S).

Definition run_fn (f : option (S -> sysM (Z * S))) arg : sysM (Z * S) :=
  match f with Some f => f arg | None => mret (0, arg) end.

Definition fork_and_run initializer action arg (timeout_sec : Z) : sysM (Z * S) :=
  pid ← sys SysFork;
  if pid =? -1 then mret (-1, arg)
  else if 0 <? pid then
    rc ← sys (SysWaitpid pid);
    mret (WEXITSTATUS rc, arg)
  else
    sys_assert (pid =? 0);;
    '(rc, (rd, wr)) ← pipe;
    if rc =? -1 then sys_exit EXIT_FAILURE
    else
      pid ← sys SysFork;
      if pid =? -1 then sys_exit EXIT_FAILURE
      else if 0 <? pid then
        sys_ (SysClose wr);;
        rc ← s_wait_sig rd timeout_sec;
        sys_exit (if c_true rc then EXIT_FAILURE else EXIT_SUCCESS)
      else
        sys_assert (pid =? 0);;
        sys_ (SysClose rd);;
        '(rc, arg) ← run_fn initializer arg;
        if rc =? -1 then
          _ ← s_send_sig wr DAEMON_ERR_MSG;
          sys_exit EXIT_FAILURE
        else
          rc ← s_send_sig wr DAEMON_OK_MSG;
          if rc =? -1 then sys_exit EXIT_FAILURE
          else
            '(rc, arg) ← run_fn action arg;
            sys_exit (if rc =? -1 then EXIT_FAILURE else EXIT_SUCCESS).

(** ** Becoming a daemon *)

Fixpoint sig_loop (n : nat) (sig : Z) : sysM unit :=
  match n with
  | O => mret tt
  | Datatypes.S n =>
      (if (sig =? SIGKILL) || (sig =? SIGSTOP) then mret tt else sys_ (SysSigReset sig));;
      sig_loop n (sig + 1)
  end.

(** Writing the process id; errors are only logged. *)
Definition write_pid (fd : Z) : sysM unit :=
  pid ← sys SysGetpid;
  sys_ (SysWrite fd (dec pid)).

(** The second child, from its first statement on. *)
Definition daemon_child initializer arg (pidfile : option bytes) (rd wr : Z) : sysM (Z * S) :=
  sys_ (SysClose rd);;
  sys_ SysUmask;;
  rc ← sys (SysChdir (lit "/"));
  if rc =? -1 then
    _ ← s_send_sig wr DAEMON_ERR_MSG;
    sys_exit EXIT_FAILURE
  else
    '(rc, arg) ← run_fn initializer arg;
    if rc =? -1 then
      _ ← s_send_sig wr DAEMON_ERR_MSG;
      sys_exit EXIT_FAILURE
    else
      (* freopen returns 0 for NULL *)
      p ← sys (SysReopen 0);
      let rc := if p =? 0 then -1 else 0 in
      rc ← (if rc =? 0 then p ← sys (SysReopen 1); mret (if p =? 0 then -1 else rc) else mret rc);
      rc ← (if rc =? 0 then p ← sys (SysReopen 2); mret (if p =? 0 then -1 else rc) else mret rc);
      if rc =? -1 then
        _ ← s_send_sig wr DAEMON_ERR_MSG;
        sys_exit EXIT_FAILURE
      else
        fd ← (match pidfile with Some f => sys (SysOpen f true false) | None => mret 0 end);
        if fd =? -1 then
          _ ← s_send_sig wr DAEMON_ERR_MSG;
          sys_exit EXIT_FAILURE
        else
          (match pidfile with Some _ => write_pid fd | None => mret tt end);;
          rc ← s_send_sig wr DAEMON_OK_MSG;
          if rc =? -1 then sys_exit EXIT_FAILURE else mret (0, arg).

Definition daemonize (fuel : nat) (pidfile : option bytes) initializer arg (timeout_sec : Z)
    : sysM (Z * S) :=
  s_close_nonstd_fds fuel;;
  sig_loop (NSIG - 1) 1;;
  pid ← sys SysFork;
  if pid =? -1 then mret (-1, arg)
  else if 0 <? pid then
    rc ← sys (SysWaitpid pid);
    if negb (WEXITSTATUS rc =? 0) then mret (-1, arg) else sys_exit EXIT_SUCCESS
  else
    sys_assert (pid =? 0);;
    '(rc, (rd, wr)) ← pipe;
    if rc =? -1 then sys_exit EXIT_FAILURE
    else
      pid ← sys SysSetsid;
      if pid =? -1 then sys_exit EXIT_FAILURE
      else
        pid ← sys SysFork;
        if pid =? -1 then sys_exit EXIT_FAILURE
        else if 0 <? pid then
          sys_ (SysClose wr);;
          rc ← s_wait_sig rd timeout_sec;
          sys_exit (if c_true rc then EXIT_FAILURE else EXIT_SUCCESS)
        else
          sys_assert (pid =? 0);;
          daemon_child initializer arg pidfile rd wr.
End Run.
End Processes.

(** ** Lemmas *)

Section Laws.
Context `{SysEnv}.

Lemma s_send_sig_eq fd sig l :
  s_send_sig fd sig l = (Done (if sys_rc l (SysWrite fd sig) =? 1 then 0 else -1),
                         l ++ [SysWrite fd sig; SysClose fd]).
Proof. unfold s_send_sig, mbind, sys_bind, sys, sys_, mret, sys_ret. by rewrite <- app_assoc. Qed.

(** The message that [s_wait_sig] read: [None] for a timeout or an error. *)
Definition received (l : list sys_call) (fd timeout : Z) : option bytes :=
  let l' := l ++ [SysPoll fd timeout] in
  if (sys_rc l (SysPoll fd timeout) =? 0) || (sys_rc l (SysPoll fd timeout) =? -1) then None
  else if sys_rc l' (SysRead fd 1) =? 1 then Some (take 1 (sys_bytes l' (SysRead fd 1))) else None.

Definition wait_timeout (timeout_sec : Z) : Z :=
  if timeout_sec =? 0 then DAEMON_TIMEOUT
  else if 0 <? timeout_sec then timeout_sec * 1000 else -1.

Lemma s_wait_sig_ok fd t l :
  exists l', s_wait_sig fd t l =
    (Done (if bool_decide (received l fd (wait_timeout t) = Some DAEMON_OK_MSG) then 0 else -1), l').
Proof.
  unfold s_wait_sig, received. fold (wait_timeout t).
  unfold mbind, sys_bind, sys, sys_, sys_read, mret, sys_ret. cbv zeta.
  destruct (sys_rc l _ =? 0); [by eexists|]. destruct (sys_rc l _ =? -1); [by eexists|]. simpl.
  destruct (Z.eqb_spec (sys_rc (l ++ [SysPoll fd (wait_timeout t)]) (SysRead fd 1)) (-1)) as [->|_];
    [by eexists|].
  destruct (_ =? 1); [|by eexists]. simpl. eexists. do 2 f_equal.
  by destruct (decide (take 1 (sys_bytes (l ++ [SysPoll fd (wait_timeout t)]) (SysRead fd 1))
    = DAEMON_OK_MSG)) as [E|E]; [rewrite !bool_decide_eq_true_2 by congruence
                                |rewrite !bool_decide_eq_false_2 by congruence].
Qed.

Lemma WEXITSTATUS_range status : 0 <= WEXITSTATUS status < 256.
Proof.
  unfold WEXITSTATUS. change 255 with (Z.ones 8). rewrite Z.land_ones by lia.
  apply Z.mod_pos_bound. lia.
Qed.

(** No standard stream is closed. *)
Definition nonstd (c : sys_call) : Prop := forall fd, c = SysClose fd -> fd <> 0 /\ fd <> 1 /\ fd <> 2.

Lemma readdir_loop_adds fuel dir max : adds nonstd (readdir_loop fuel dir max).
Proof.
  induction fuel as [|fuel IH]; cbn [readdir_loop]; [by adds|].
  apply adds_bind; [by apply adds_one|]. intros [[ent errno] name].
  repeat (case_if; [by adds|]). adds; try done.
  intros fd [= <-]. bool_hyps. done.
Qed.

(** The fallback closes what lies in between and is not a standard stream. *)
Lemma close_loop_log n : forall fd l, exists cs,
  close_loop n fd l = (Done tt, l ++ (SysClose <$> cs)) /\
  forall x, x ∈ cs <-> fd <= x < fd + Z.of_nat n /\ x <> 0 /\ x <> 1 /\ x <> 2.
Proof.
  induction n as [|n IH]; intros fd l; cbn [close_loop].
  { exists []. rewrite app_nil_r. split; [done|]. intros x.
    split; [intros Hx; by apply elem_of_nil in Hx|lia]. }
  destruct ((fd =? 0) || (fd =? 1) || (fd =? 2)) eqn:E.
  - destruct (IH (fd + 1) l) as (cs & Ec & Hcs). exists cs. split; [exact Ec|].
    intros x. rewrite Hcs. lia.
  - destruct (IH (fd + 1) (l ++ [SysClose fd])) as (cs & Ec & Hcs). exists (fd :: cs). split.
    { erewrite (sys_bind_Done (sys_ _)) by done. by rewrite Ec, <- app_assoc. }
    intros x. rewrite elem_of_cons, Hcs. lia.
Qed.

Lemma close_loop_adds n fd : adds nonstd (close_loop n fd).
Proof.
  intros l. destruct (close_loop_log n fd l) as (cs & -> & Hcs). exists (SysClose <$> cs).
  split; [done|]. apply Forall_forall. intros c (x & -> & Hx)%list_elem_of_fmap f [= <-].
  apply Hcs in Hx. tauto.
Qed.
#[local] Hint Resolve readdir_loop_adds close_loop_adds : adds.

Lemma close_nonstd_adds fuel : adds nonstd (s_close_nonstd_fds fuel).
Proof. unfold s_close_nonstd_fds, s_get_max_fd, s_close_open_fds. by adds. Qed.

(** ** Running in a child process *)

Section RunLaws.
Context {S : Type}.
Implicit Types (initializer action : option (S -> sysM (Z * S))) (arg : S).

(** In the process that calls it, [fork_and_run] gives -1 only if there is no
    child, and else the exit status of the child: neither function is run. *)
Lemma fork_and_run_parent initializer action arg t l :
  sys_rc l SysFork <> 0 -> -1 <= sys_rc l SysFork ->
  (fork_and_run initializer action arg t l).1 =
    Done (if sys_rc l SysFork =? -1 then -1
          else WEXITSTATUS (sys_rc (l ++ [SysFork]) (SysWaitpid (sys_rc l SysFork))), arg).
Proof.
  intros H0 H1. unfold fork_and_run, mbind, sys_bind, sys, mret, sys_ret. cbv beta iota.
  destruct (Z.eqb_spec (sys_rc l SysFork) (-1)) as [E|E]; [done|].
  by rewrite (proj2 (Z.ltb_lt _ _)) by lia.
Qed.

(** The calls up to the initializer of the second child, where [fork] returns 0
    twice and [pipe] works. *)
Record second_child (l l2 : list sys_call) (rd wr : Z) : Prop := {
  sc_fork : sys_rc l SysFork = 0;
  sc_pipe : sys_rc (l ++ [SysFork]) SysPipe <> -1;
  sc_fds : sys_pipe (l ++ [SysFork]) = (rd, wr);
  sc_fork2 : sys_rc (l ++ [SysFork; SysPipe]) SysFork = 0;
  sc_log : l2 = l ++ [SysFork; SysPipe; SysFork; SysClose rd];
}.

(** What happens then: a status other than -1 is reported as success, and the
    action is run on what the initializer left. *)
Lemma fork_and_run_child initializer action arg t l l2 rd wr :
  second_child l l2 rd wr ->
  fork_and_run initializer action arg t l =
    match run_fn initializer arg l2 with
    | (Failed f, l') => (Failed f, l')
    | (Done (rc, arg'), l') =>
        if rc =? -1
        then (Failed (Exited EXIT_FAILURE), l' ++ [SysWrite wr DAEMON_ERR_MSG; SysClose wr])
        else
          let l'' := l' ++ [SysWrite wr DAEMON_OK_MSG; SysClose wr] in
          if sys_rc l' (SysWrite wr DAEMON_OK_MSG) =? 1 then
            match run_fn action arg' l'' with
            | (Failed f, l') => (Failed f, l')
            | (Done (rc, _), l') =>
                (Failed (Exited (if rc =? -1 then EXIT_FAILURE else EXIT_SUCCESS)), l')
            end
          else (Failed (Exited EXIT_FAILURE), l'')
    end.
Proof.
  intros [E1 E2 E3 E4 ->]. unfold fork_and_run.
  rewrite (sys_bind_Done (sys SysFork) _ l _ _ eq_refl), E1.
  change (0 =? -1) with false. change (0 <? 0) with false. change (0 =? 0) with true. cbv iota.
  erewrite (sys_bind_Done (sys_assert true)) by done.
  erewrite (sys_bind_Done pipe) by done. rewrite E3. cbv beta iota.
  rewrite (proj2 (Z.eqb_neq _ _) E2). rewrite <- app_assoc. cbn [app].
  rewrite (sys_bind_Done (sys SysFork) _ _ _ _ eq_refl), E4.
  change (0 =? -1) with false. change (0 <? 0) with false. change (0 =? 0) with true. cbv iota.
  erewrite (sys_bind_Done (sys_assert true)) by done.
  erewrite (sys_bind_Done (sys_ _)) by done. rewrite <- !app_assoc. cbn [app].
  unfold mbind at 1, sys_bind at 1.
  destruct (run_fn initializer arg _) as [[[rc arg']|f] l']; [|done].
  destruct (rc =? -1).
  - erewrite (sys_bind_Done (s_send_sig _ _)) by apply s_send_sig_eq. done.
  - erewrite (sys_bind_Done (s_send_sig _ _)) by apply s_send_sig_eq. cbv zeta.
    destruct (sys_rc l' _ =? 1); [|done]. change (0 =? -1) with false. cbv iota.
    unfold mbind at 1, sys_bind at 1. by destruct (run_fn action arg' _) as [[[rc2 s]|f] l2].
Qed.

(** ** Becoming a daemon *)

(** What has been done when the second child reports success: the initializer
    returned other than -1, the standard streams were reopened, the pid file
    (if any) could be opened, and the message was written to the pipe. *)
Record ready initializer arg (pidfile : option bytes) (wr : Z) (arg' : S) (l' : list sys_call)
    : Prop := {
  rd_init : exists l1 l2 rc, run_fn initializer arg l1 = (Done (rc, arg'), l2) /\ rc <> -1 /\
    (forall s, 0 <= s <= 2 -> exists l3, l2 `prefix_of` l3 /\ sys_rc l3 (SysReopen s) <> 0) /\
    (forall f, pidfile = Some f -> exists l3, l2 `prefix_of` l3 /\ sys_rc l3 (SysOpen f true false) <> -1);
  rd_sent : exists l3, sys_rc l3 (SysWrite wr DAEMON_OK_MSG) = 1 /\
    l' = l3 ++ [SysWrite wr DAEMON_OK_MSG; SysClose wr];
}.

(** Other outcomes of the second child are exits with failure or stops of the
    initializer. *)
Definition child_post initializer arg pidfile wr (r : exec (Z * S)) (l' : list sys_call) : Prop :=
  match r with
  | Done (rc, arg') => rc = 0 /\ ready initializer arg pidfile wr arg' l'
  | Failed f => f = Exited EXIT_FAILURE \/
      exists l1, (run_fn initializer arg l1).1 = Failed f
  end.

Lemma send_err_exit initializer arg pidfile wr l :
  swp (_ ← s_send_sig wr DAEMON_ERR_MSG; sys_exit EXIT_FAILURE)
    (child_post initializer arg pidfile wr) l.
Proof. unfold swp. erewrite (sys_bind_Done (s_send_sig _ _)) by apply s_send_sig_eq. by left. Qed.

Lemma pidfile_ok initializer arg pidfile wr arg' l1 l2 l4 rc :
  run_fn initializer arg l1 = (Done (rc, arg'), l2) -> rc <> -1 -> l2 `prefix_of` l4 ->
  (forall s, 0 <= s <= 2 -> exists l3, l2 `prefix_of` l3 /\ sys_rc l3 (SysReopen s) <> 0) ->
  swp (fd ← (match pidfile with Some f => sys (SysOpen f true false) | None => mret 0 end);
       if fd =? -1 then
         _ ← s_send_sig wr DAEMON_ERR_MSG;
         sys_exit EXIT_FAILURE
       else
         (match pidfile with Some _ => write_pid fd | None => mret tt end);;
         rc ← s_send_sig wr DAEMON_OK_MSG;
         if rc =? -1 then sys_exit EXIT_FAILURE else mret (0, arg'))
    (child_post initializer arg pidfile wr) l4.
Proof.
  intros Hi Hrc Hp Hre.
  assert (Hsend : forall l5, (forall f, pidfile = Some f ->
       exists l3, l2 `prefix_of` l3 /\ sys_rc l3 (SysOpen f true false) <> -1) ->
    swp (rc ← s_send_sig wr DAEMON_OK_MSG;
         if rc =? -1 then sys_exit EXIT_FAILURE else mret (0, arg'))
      (child_post initializer arg pidfile wr) l5).
  { intros l5 Hf. unfold swp. erewrite (sys_bind_Done (s_send_sig _ _)) by apply s_send_sig_eq.
    destruct (Z.eqb_spec (sys_rc l5 (SysWrite wr DAEMON_OK_MSG)) 1) as [E|E]; simpl; [|by left].
    split; [done|]. split; [by exists l1, l2, rc|by exists l5]. }
  destruct pidfile as [f|].
  - swp_step. destruct (Z.eqb_spec (sys_rc l4 (SysOpen f true false)) (-1)) as [E|E].
    { apply send_err_exit. }
    apply swp_bind. unfold write_pid. swp_step. unfold swp at 1. cbn [fst snd sys_].
    apply Hsend. intros f' [= <-]. by exists l4.
  - apply swp_bind, swp_ret. change (0 =? -1) with false. cbv iota. apply swp_bind, swp_ret.
    by apply Hsend.
Qed.

Lemma daemon_child_ok initializer arg pidfile rd wr l :
  swp (daemon_child initializer arg pidfile rd wr) (child_post initializer arg pidfile wr) l.
Proof.
  unfold daemon_child. do 3 swp_step. destruct (_ =? -1); [apply send_err_exit|].
  apply swp_bind. unfold swp at 1. set (l1 := (_ ++ _) ++ _).
  destruct (run_fn initializer arg l1) as [[[rc arg']|f] l2] eqn:Ei;
    [|right; exists l1; by rewrite Ei]. cbn [fst snd].
  destruct (Z.eqb_spec rc (-1)) as [Hrc|Hrc]; [apply send_err_exit|].
  swp_step. destruct (Z.eqb_spec (sys_rc l2 (SysReopen 0)) 0) as [E0|E0].
  { apply swp_bind, swp_ret. apply swp_bind, swp_ret. apply send_err_exit. }
  apply swp_bind. change (0 =? 0) with true. cbv iota. swp_step. apply swp_ret.
  destruct (Z.eqb_spec (sys_rc (l2 ++ [SysReopen 0]) (SysReopen 1)) 0) as [E1|E1].
  { apply swp_bind, swp_ret. apply send_err_exit. }
  apply swp_bind. change (0 =? 0) with true. cbv iota. swp_step. apply swp_ret.
  destruct (Z.eqb_spec (sys_rc ((l2 ++ [SysReopen 0]) ++ [SysReopen 1]) (SysReopen 2)) 0) as [E2|E2].
  { apply send_err_exit. }
  change (0 =? -1) with false. cbv iota.
  apply (pidfile_ok _ _ _ _ _ l1 l2 _ rc); try done.
  - rewrite <- !app_assoc. by apply prefix_app_r.
  - intros s Hs. assert (s = 0 \/ s = 1 \/ s = 2) as [->|[->| ->]] by lia.
    + by exists l2.
    + eexists. split; [|exact E1]. by apply prefix_app_r.
    + eexists. split; [|exact E2]. rewrite <- app_assoc. by apply prefix_app_r.
Qed.
End RunLaws.

Lemma sig_loop_ok n : forall sig l, (sig_loop n sig l).1 = Done tt.
Proof.
  induction n as [|n IH]; intros sig l; cbn [sig_loop]; [done|].
  destruct (_ || _); [by rewrite (sys_bind_Done _ _ l tt l)|].
  by erewrite (sys_bind_Done (sys_ _)).
Qed.

(** The outcomes of [daemonize] over all its processes. *)
Definition daemonize_post {S} (initializer : option (S -> sysM (Z * S))) (arg : S)
    (pidfile : option bytes) (timeout_sec : Z) (r : exec (Z * S)) (l' : list sys_call) : Prop :=
  match r with
  | Done (rc, arg') =>
      rc = -1 /\ arg' = arg \/ rc = 0 /\ exists wr, ready initializer arg pidfile wr arg' l'
  | Failed f =>
      f = Exited EXIT_FAILURE \/
      f = Exited EXIT_SUCCESS /\
        ((exists l0 pid, WEXITSTATUS (sys_rc l0 (SysWaitpid pid)) = 0) \/
         (exists l0 rd, received l0 rd (wait_timeout timeout_sec) = Some DAEMON_OK_MSG)) \/
      exists l1, (run_fn initializer arg l1).1 = Failed f
  end.
End Laws.
End Daemon.

(** ** Properties *)

(** C32: [daemonize] returns 0 only in the daemon itself, after its initializer
    succeeded, the standard streams were reopened, the pid file could be opened
    and the success message was sent; a process exits with success only if the
    exit status of its child was 0 or it received that message; every other
    process exits with failure, or [daemonize] returns -1 with nothing run. *)
Theorem daemonize_outcomes `{SysEnv} {S} fuel pidfile (initializer : option (S -> sysM (Z * S)))
    arg timeout_sec l :
  (Daemon.s_close_nonstd_fds fuel l).1 = Done tt -> (forall l, -1 <= sys_rc l SysFork) ->
  swp (Daemon.daemonize fuel pidfile initializer arg timeout_sec)
    (Daemon.daemonize_post initializer arg pidfile timeout_sec) l.
Proof.
  intros Hc Hf. unfold Daemon.daemonize. apply swp_bind. unfold swp at 1. rewrite Hc.
  apply swp_bind. unfold swp at 1. rewrite Daemon.sig_loop_ok. set (l0 := (Daemon.sig_loop _ _ _).2).
  swp_step. pose proof (Hf l0) as Hf0. set (pid := sys_rc l0 SysFork) in *.
  destruct (Z.eqb_spec pid (-1)); [swp_step; by left|].
  destruct (Z.ltb_spec 0 pid).
  { swp_step. destruct (Z.eqb_spec (WEXITSTATUS (sys_rc (l0 ++ [SysFork]) (SysWaitpid pid))) 0)
      as [E|E]; [|by left].
    right. left. split; [done|]. left. by eexists _, _. }
  swp_step; [lia|]. apply swp_bind. unfold swp at 1. cbn [pipe fst snd].
  destruct (sys_pipe _) as [rd wr]. destruct (_ =? -1); [by left|].
  swp_step. destruct (_ =? -1); [by left|]. swp_step.
  set (l1 := (_ ++ _) ++ _). pose proof (Hf l1) as Hf1. set (pid1 := sys_rc l1 SysFork) in *.
  destruct (Z.eqb_spec pid1 (-1)); [by left|]. destruct (Z.ltb_spec 0 pid1).
  - swp_step. apply swp_bind.
    destruct (Daemon.s_wait_sig_ok rd timeout_sec ((l1 ++ [SysFork]) ++ [SysClose wr])) as (l2 & E).
    unfold swp at 1. rewrite E. case_bool_decide; [|by left].
    right. left. split; [done|]. right. by eexists _, _.
  - swp_step; [lia|]. eapply swp_mono; [apply Daemon.daemon_child_ok|].
    intros [[rc a]|f] l3 Hp.
    + destruct Hp as [-> Hr]. right. split; [done|]. by exists wr.
    + destruct Hp as [->|Hp]; [by left|]. right. by right.
Qed.

(** Closing the descriptors of the caller never closes a standard stream. *)
Theorem close_fds_keep_std `{SysEnv} fuel :
  adds Daemon.nonstd (Daemon.s_close_nonstd_fds fuel).
Proof. apply Daemon.close_nonstd_adds. Qed.

(** The check for a format that was cut in the middle of a specifier looks at
    the terminating zero: the specifier stays cut. *)
Theorem set_time_fmt_cut_specifier g :
  length (Daemon.time_fmt g) = Z.to_nat MAX_LOG_TIMEFMT_LEN ->
  Daemon.c_string (Daemon.time_fmt (Daemon.set_time_fmt (Some (lit "%a, %d.%m.%Y, %H:%M")) g))
    = Done (lit "%a, %d.%m.%Y, %").
Proof.
  intros Hl. destruct g as [d v fmt id]. simpl in Hl. cbn [Daemon.set_time_fmt Daemon.time_fmt].
  do 16 (destruct fmt as [|? fmt]; [discriminate|]). destruct fmt; [reflexivity|discriminate].
Qed.

(** Read back as a string, the array of [strncpy] is what [c_str] makes of its
    characters. *)
Lemma c_string_strncpy n s : 0 < n -> x00 ∉ s ->
  Daemon.c_string (Daemon.strncpy n s) = c_str n (strncpy_str n s).
Proof.
  intros Hn Hz. unfold Daemon.strncpy, c_str, strncpy_str, strlen.
  destruct (Z.ltb_spec (Z.of_nat (length (take (Z.to_nat n) s))) n) as [Hl|Hl]; rewrite length_take in Hl.
  - rewrite take_ge, resize_ge by lia. replace (Z.to_nat n - length s)%nat with
      (S (Z.to_nat n - length s - 1)) by lia.
    generalize (Z.to_nat n - length s - 1)%nat as k. intros k. clear Hl. induction s as [|b s IH]; [done|].
    cbn [Daemon.c_string app]. rewrite decide_False by set_solver. by rewrite IH by set_solver.
  - rewrite resize_le by lia. assert (Ht : x00 ∉ take (Z.to_nat n) s) by by apply not_in_take.
    clear Hl Hz. induction (take _ s) as [|b r IH]; [done|]. cbn [Daemon.c_string].
    rewrite decide_False by set_solver. by rewrite IH by set_solver.
Qed.

(** [set_logid] does not terminate an identifier of MAX_LOG_ID_LEN characters
    or more: reading it leaves the array. *)
Theorem set_logid_unterminated g id :
  MAX_LOG_ID_LEN <= strlen id -> x00 ∉ id ->
  Daemon.c_string (Daemon.log_id (Daemon.set_logid (Some id) g)) = Failed OutOfBounds.
Proof.
  intros Hl Hz. cbn [Daemon.set_logid Daemon.log_id].
  rewrite c_string_strncpy by done. unfold c_str, strncpy_str, strlen in *.
  rewrite length_take, (proj2 (Z.ltb_ge _ _)) by lia. done.
Qed.

(** ** A sample host *)

(** Every call works; [fork] returns in the child. *)
Definition sample_host : SysEnv := {|
  sys_rc := fun _ c => match c with
    | SysOpendir _ => 5 | SysRlimit => 1024 | SysWrite _ _ => 1 | SysReopen _ => 1
    | SysOpen _ _ _ => 6 | _ => 0 end;
  sys_errno := fun _ _ => 0;
  sys_path := fun _ _ => None;
  sys_bytes := fun _ _ => [];
  sys_pipe := fun _ => (3, 4) |}.

Lemma daemonize_outcomes_witness :
  (Daemon.s_close_nonstd_fds (H := sample_host) 1 []).1 = Done tt /\
  swp (Daemon.daemonize (H := sample_host) 1 (Some (lit "/run/tesd.pid")) None tt 0)
    (Daemon.daemonize_post (H := sample_host) None tt (Some (lit "/run/tesd.pid")) 0) [].
Proof.
  split; [reflexivity|].
  apply (daemonize_outcomes (H := sample_host)); [reflexivity|].
  intros l. discriminate.
Defined.

Example daemonize_runs :
  (Daemon.daemonize (H := sample_host) 1 (Some (lit "/run/tesd.pid")) None tt 0 []).1 = Done (0, tt).
Proof. reflexivity. Qed.
