(* ===== verification/Log.v ===== *)
(** * Log messages (src/lib/daemon_ng.c)

    [logmsg], with the message it has formatted given: what it writes and where.
    The host gives the description of an error, whether the local time is known,
    and the time in a format.  The two variants of [strerror_r] between which the
    preprocessor chooses are told apart by a parameter. *)

From Stdlib Require Import ZArith Lia Strings.String Strings.Byte.
From stdpp Require Import base option list numbers decidable sets.
From S2P Require Import Prelude Sys Path Daemon.

Open Scope Z_scope.

Definition MAX_MSG_LEN : Z := 512.
Definition MIN_ERR_LEN : Z := 10.
Definition MAX_LOG_TIME_LEN : Z := 64.
Definition LOG_ERR : Z := 3.
Definition LOG_DEBUG : Z := 7.

Class LogEnv : Type := {
  log_strerror : Z -> bytes;
  log_localtime : bool;
  log_strftime : bytes -> bytes;
}.

Module Log.

Inductive log_dest : Type := Syslog (priority : Z) | Stderr | Stdout.

Section Logmsg.
Context `{LogEnv}.

(** The time in front of a message. [strftime] stores nothing and returns 0 if
    the text does not fit. *)
Definition prefix (fmt : bytes) : bytes :=
  if strlen fmt =? 0 then []
  else if negb log_localtime then []
  else
    let s := log_strftime fmt in
    let wrc := if strlen s <? MAX_LOG_TIME_LEN - 2 then strlen s else 0 in
    if wrc =? 0 then [] else s ++ strncpy_str (MAX_LOG_TIME_LEN - wrc) (lit ": ").

(** The array [msg]: the text, which [vsnprintf] says is [len] characters long,
    and the error.  [gnu] is the variant of [strerror_r] that returns a string,
    which is copied. *)
Definition message (gnu : bool) (errnum : Z) (text : bytes) : bytes :=
  let '(len, msg) := snprintf MAX_MSG_LEN text in
  if (len <? MAX_MSG_LEN - 2 - MIN_ERR_LEN) && c_true errnum then
    let '(n, colon) := snprintf (MAX_MSG_LEN - len) (lit ": ") in
    let msg := msg ++ colon in
    let len := len + n in
    let err := log_strerror errnum in
    if gnu then msg ++ strncpy_str (MAX_MSG_LEN - len) err
    else msg ++ (snprintf (MAX_MSG_LEN - len) err).2
  else msg.

(** [text] is what the format and its arguments give, None if [vsnprintf] fails. *)
Definition logmsg (gnu : bool) (g : Daemon.globals) (errnum priority : Z) (text : option bytes)
    : exec (option (log_dest * bytes)) :=
  if negb (c_true (Daemon.is_verbose g)) && (priority =? LOG_DEBUG) then mret None
  else match text with
  | None => mret None
  | Some text =>
      let msg := message gnu errnum text in
      fmt ← Daemon.c_string (Daemon.time_fmt g);
      let curtime := prefix fmt in
      id ← Daemon.c_string (Daemon.log_id g);
      msg ← c_str MAX_MSG_LEN msg;
      if c_true (Daemon.is_daemon g) then mret (Some (Syslog priority, curtime ++ id ++ msg))
      else
        let outbuf := if (priority =? LOG_DEBUG) ||
                         (negb (c_true (Daemon.is_verbose g)) && (priority <? 5))
                      then Stderr else Stdout in
        mret (Some (outbuf, curtime ++ id ++ msg ++ [x0a]))
  end.

(** ** Lemmas *)

(** The message in full: the text up to the end of the array, or the text, if
    there is room for at least the start of an error, and the error. *)
Definition full (errnum : Z) (text : bytes) : bytes :=
  if (strlen text <? 500) && c_true errnum then text ++ lit ": " ++ log_strerror errnum else text.

Lemma message_cut errnum text : message false errnum text = take 511 (full errnum text).
Proof.
  unfold message, full, snprintf, strlen, MAX_MSG_LEN, MIN_ERR_LEN.
  change (Z.to_nat (512 - 1)) with 511%nat. change (512 - 2 - 10) with 500.
  destruct (Z.ltb_spec (Z.of_nat (length text)) 500) as [Hl|]; cbn [andb]; [|done].
  destruct (c_true errnum); [|done]. change (lit ": ") with [x3a; x20]. cbn [length snd].
  rewrite (take_ge text) by lia. rewrite (take_ge [x3a; x20]) by (simpl; lia).
  rewrite <- app_assoc, !take_app. rewrite (take_ge text), (take_ge [x3a; x20]) by (simpl; lia).
  do 3 f_equal. simpl. lia.
Qed.

Lemma message_gnu errnum text :
  message true errnum text =
    if (strlen text <? 500) && c_true errnum then take 512 (full errnum text)
    else take 511 (full errnum text).
Proof.
  unfold message, full, snprintf, strncpy_str, strlen, MAX_MSG_LEN, MIN_ERR_LEN.
  change (Z.to_nat (512 - 1)) with 511%nat. change (512 - 2 - 10) with 500.
  destruct (Z.ltb_spec (Z.of_nat (length text)) 500) as [Hl|]; cbn [andb]; [|done].
  destruct (c_true errnum); [|done]. change (lit ": ") with [x3a; x20]. cbn [length snd].
  rewrite (take_ge text) by lia. rewrite (take_ge [x3a; x20]) by (simpl; lia).
  rewrite <- app_assoc, !take_app. rewrite (take_ge text), (take_ge [x3a; x20]) by (simpl; lia).
  do 3 f_equal. simpl. lia.
Qed.

(** Where a message goes. *)
Definition where_to (g : Daemon.globals) (priority : Z) : log_dest :=
  if c_true (Daemon.is_daemon g) then Syslog priority
  else if (priority =? LOG_DEBUG) || (negb (c_true (Daemon.is_verbose g)) && (priority <? 5))
       then Stderr else Stdout.

Lemma prefix_short fmt : strlen (prefix fmt) < MAX_LOG_TIME_LEN.
Proof.
  unfold prefix, MAX_LOG_TIME_LEN. destruct (strlen fmt =? 0); [done|]. destruct (negb _); [done|].
  cbv zeta. destruct (Z.ltb_spec (strlen (log_strftime fmt)) (64 - 2)) as [Hs|]; [|done].
  destruct (_ =? 0); [done|]. unfold strncpy_str, strlen in *. rewrite length_app, length_take.
  change (length (lit ": ")) with 2%nat. lia.
Qed.
End Logmsg.
End Log.

Import Log.

(** What a message becomes.  Debugging messages are dropped unless the program
    is verbose.  Any other is written once, to the system log of a daemon or to
    the stream that its priority and the verbosity ask for, behind the time and
    the identifier; text and error are cut to 511 characters, and no array is
    read or written past its end.  With the GNU variant of [strerror_r] that
    fails for the errors that fill the array: no zero ends them. *)
Theorem logmsg_lines `{LogEnv} gnu g errnum priority text fmt id :
  Daemon.c_string (Daemon.time_fmt g) = Done fmt -> Daemon.c_string (Daemon.log_id g) = Done id ->
  logmsg gnu g errnum priority (Some text) =
    if negb (c_true (Daemon.is_verbose g)) && (priority =? LOG_DEBUG) then Done None
    else if gnu && ((strlen text <? 500) && c_true errnum && (511 <? strlen (full errnum text)))
    then Failed OutOfBounds
    else Done (Some (where_to g priority,
      prefix fmt ++ id ++ take 511 (full errnum text) ++
      (if c_true (Daemon.is_daemon g) then [] else [x0a]))).
Proof.
  intros Ef Ei. unfold logmsg. destruct (negb _ && _); [done|]. rewrite Ef, Ei.
  cbn [mbind exec_bind]. unfold where_to, c_str, MAX_MSG_LEN.
  assert (Ht : forall s : bytes, take 511 s = take 511 (take 512 s)) by (intros s; by rewrite take_take).
  assert (Hend : forall m, m = take 511 (full errnum text) -> (strlen m <? 512) = true).
  { intros m ->. unfold strlen. rewrite length_take. apply Z.ltb_lt. lia. }
  destruct gnu; cbn [andb].
  - rewrite message_gnu. destruct (_ && c_true errnum); cbn [andb].
    + destruct (Z.ltb_spec 511 (strlen (full errnum text))) as [Hl|Hl]; unfold strlen in *.
      * destruct (Z.ltb_spec (Z.of_nat (length (take 512 (full errnum text)))) 512) as [Hc|]; [|done].
        rewrite length_take in Hc. lia.
      * rewrite (take_ge _ 512), (take_ge _ 511) by lia.
        destruct (Z.ltb_spec (Z.of_nat (length (full errnum text))) 512); [|lia].
        destruct (c_true (Daemon.is_daemon g)); [by rewrite app_nil_r|done].
    + rewrite Hend by done. destruct (c_true (Daemon.is_daemon g)); [by rewrite app_nil_r|done].
  - rewrite message_cut, Hend by done.
    destruct (c_true (Daemon.is_daemon g)); [by rewrite app_nil_r|done].
Qed.

(** A host; the program is in the foreground and its identifier set. *)
Definition sample_log : LogEnv := {|
  log_strerror := fun _ => lit "No such file or directory";
  log_localtime := true; log_strftime := fun _ => lit "12:00" |}.
Definition sample_globals : Daemon.globals :=
  Daemon.set_logid (Some (lit "[Coordinator] "))
    {| Daemon.is_daemon := 0; Daemon.is_verbose := 0; Daemon.time_fmt := lit "%H:%M" ++ replicate 11 x00;
       Daemon.log_id := replicate 32 x00 |}.

Lemma logmsg_lines_witness :
  logmsg (H := sample_log) false sample_globals 2 LOG_ERR (Some (lit "Could not open the file")) =
    Done (Some (Stderr, lit "12:00: [Coordinator] Could not open the file: No such file or directory" ++ [x0a])) /\
  logmsg (H := sample_log) true sample_globals 2 LOG_ERR (Some (replicate 490 x61)) = Failed OutOfBounds.
Proof.
  split.
  - rewrite (logmsg_lines (H := sample_log) false sample_globals 2 LOG_ERR
      (lit "Could not open the file") (lit "%H:%M") (lit "[Coordinator] ")); reflexivity.
  - rewrite (logmsg_lines (H := sample_log) true sample_globals 2 LOG_ERR
      (replicate 490 x61) (lit "%H:%M") (lit "[Coordinator] ")); reflexivity.
Defined.
