(* ===== verification/Hdf5.v ===== *)
(** * Conversion to HDF5 (src/lib/hdf5conv.c)

    The groups and datasets are made by the HDF5 library, which is behind the
    calls of Sys.v.  A string of the request is [None] where it may be NULL.
    DEBUG_LEVEL is the default, TESTING, which includes the CAUTIOUS blocks. *)

From Stdlib Require Import ZArith Lia Strings.String Strings.Byte.
From stdpp Require Import base option list numbers decidable sets.
From S2P Require Import Prelude Sys Path Daemon.

Open Scope Z_scope.

(** ** Constants of api.h *)

Definition TES_CAP_REQ_OK : Z := 0.
Definition TES_CAP_REQ_EINV : Z := 1.
Definition TES_CAP_REQ_EABORT : Z := 2.
Definition TES_CAP_REQ_EPERM : Z := 3.
Definition TES_CAP_REQ_EFAIL : Z := 4.
Definition TES_CAP_REQ_EWRT : Z := 5.
Definition TES_CAP_REQ_ECONV : Z := 6.
Definition TES_CAP_REQ_EFIN : Z := 7.

Definition TES_H5_OVRWT_NONE : Z := 0.
Definition TES_H5_OVRWT_RELINK : Z := 1.
Definition TES_H5_OVRWT_FILE : Z := 2.

Definition INIT_TIMEOUT : Z := 5.
Definition ROOT_GROUP : bytes := lit "capture".
Definition OVRWT_GROUP : bytes := lit "overwritten".

Module Hdf5.

(** A buffer is an address, 0 for NULL. *)
Record hdf5_dset_desc_t : Type := {
  dsetname : option bytes;
  offset : Z;
  length : Z;
  filename : option bytes;
  buffer : Z;
}.

Record hdf5_conv_req_t : Type := {
  req_filename : option bytes;
  group : option bytes;
  dsets : option (list hdf5_dset_desc_t);
  num_dsets : Z;
  ovrwtmode : Z;
  async : bool;
}.

Record s_creq_data_t : Type := {
  creq : hdf5_conv_req_t;
  group_id : Z;
  file_id : Z;
}.

Definition set_range (d : hdf5_dset_desc_t) (off len : Z) : hdf5_dset_desc_t :=
  {| dsetname := dsetname d; offset := off; length := len; filename := filename d;
     buffer := buffer d |}.
Definition set_buffer (d : hdf5_dset_desc_t) (b : Z) : hdf5_dset_desc_t :=
  {| dsetname := dsetname d; offset := offset d; length := length d; filename := filename d;
     buffer := b |}.
(** The first datasets of the array are [ds]. *)
Definition set_dsets (r : hdf5_conv_req_t) (ds : list hdf5_dset_desc_t) : hdf5_conv_req_t :=
  {| req_filename := req_filename r; group := group r;
     dsets := (fun old => ds ++ drop (List.length ds) old) <$> dsets r;
     num_dsets := num_dsets r; ovrwtmode := ovrwtmode r; async := async r |}.
Definition set_creq (c : s_creq_data_t) (r : hdf5_conv_req_t) (gid fid : Z) : s_creq_data_t :=
  {| creq := r; group_id := gid; file_id := fid |}.

(** Dereferencing a string or an array. *)
Definition str {A} (p : option A) : sysM A :=
  match p with Some s => mret s | None => sys_fail NullDeref end.
Definition not_null {A} (p : option A) : bool := bool_decide (p <> None).

Section Conversion.
Context `{SysEnv}.

(** ** Groups *)

Definition s_get_grp (lid : Z) (group : bytes) (create : bool) : sysM Z :=
  sys_assert (0 <? lid);;
  gstat ← sys (H5Lexists lid group);
  if gstat <? 0 then mret (-1)
  else if (gstat =? 0) && negb create then mret 0
  else
    gid ← (if 0 <? gstat then sys (H5Gopen lid group) else sys (H5Gcreate lid group));
    mret (if gid <? 0 then -1 else gid).

(** The check that a group is not there, of the CAUTIOUS blocks: the error. *)
Definition expect_none (lid : Z) (group : bytes) (err : Z) : sysM Z :=
  gid ← s_get_grp lid group false;
  if 0 <? gid then sys_ (H5Gclose gid);; mret (-1) else mret err.

(** Renaming an existing group: the error. *)
Definition move_grp (lid : Z) (group : bytes) (bkp_lid : Z) (bkpgroup : bytes) : sysM Z :=
  sys_assert (0 <? strlen bkpgroup);;
  err ← expect_none bkp_lid bkpgroup 0;
  err ← (if 0 <=? err then sys (H5Lcopy lid group bkp_lid bkpgroup) else mret err);
  err ← (if 0 <=? err then sys (H5Ldelete lid group) else mret err);
  expect_none lid group err.

Definition s_crt_grp (lid : Z) (group : bytes) (bkp_lid : Z) (bkpgroup : bytes) : sysM Z :=
  sys_assert (0 <? lid);;
  gid ← s_get_grp lid group false;
  if gid <? 0 then mret (-1)
  else
    let exists_ := 0 <? gid in
    (if exists_ then sys_ (H5Gclose gid) else mret tt);;
    if exists_ && (bkp_lid <=? 0) then mret 0
    else
      err ← (if exists_ then move_grp lid group bkp_lid bkpgroup else mret 0);
      if err <? 0 then mret (-1)
      else
        gid ← sys (H5Gcreate lid group);
        mret (if gid <? 0 then -1 else gid).

(** ** Datasets *)

Definition s_map_file (ddesc : hdf5_dset_desc_t) : sysM (Z * hdf5_dset_desc_t) :=
  sys_assert (not_null (filename ddesc));;
  sys_assert (buffer ddesc =? 0);;
  if length ddesc =? 0 then mret (TES_CAP_REQ_OK, ddesc)
  else
    fname ← str (filename ddesc);
    fd ← sys (SysOpen fname false false);
    if fd =? -1 then mret (TES_CAP_REQ_EFAIL, ddesc)
    else
      fsize ← sys (SysLseekEnd fd);
      if fsize =? -1 then sys_ (SysClose fd);; mret (TES_CAP_REQ_EFAIL, ddesc)
      else
        let off := if offset ddesc <? 0 then offset ddesc + fsize else offset ddesc in
        if (fsize =? 0) || (fsize <=? off) || (off <? 0) then
          sys_ (SysClose fd);; mret (TES_CAP_REQ_OK, set_range ddesc off 0)
        else
          let maxlength := fsize - off in
          sys_assert (0 <=? off);;
          sys_assert (0 <? fsize);;
          sys_assert (0 <? maxlength);;
          let len := if (length ddesc <? 0) || (maxlength <? length ddesc)
                     then maxlength else length ddesc in
          sys_assert (0 <? len);;
          data ← sys (SysMmap fd (off + len));
          sys_ (SysClose fd);;
          if data =? -1 then mret (TES_CAP_REQ_EFAIL, set_range ddesc off len)
          else mret (TES_CAP_REQ_OK, set_buffer (set_range ddesc off len) data).

Definition s_create_dset (ddesc : hdf5_dset_desc_t) (gid : Z) : sysM Z :=
  name ← (match dsetname ddesc with Some n => mret n | None => sys_fail AssertFail end);
  sys_assert (negb (buffer ddesc =? -1));;
  sys_assert (if buffer ddesc =? 0 then length ddesc =? 0 else 0 <? length ddesc);;
  dspace ← sys (H5Screate (length ddesc));
  if dspace <? 0 then mret TES_CAP_REQ_ECONV
  else
    dset ← sys (H5Dcreate gid name dspace);
    if dset <? 0 then sys_ (H5Sclose dspace);; mret TES_CAP_REQ_ECONV
    else if length ddesc =? 0 then
      sys_ (H5Dclose dset);;
      sys_ (H5Sclose dspace);;
      mret TES_CAP_REQ_OK
    else
      sys_assert (negb (buffer ddesc =? 0));;
      sys_assert (0 <=? offset ddesc);;
      err ← sys (H5Dwrite dset (buffer ddesc + offset ddesc));
      sys_ (H5Dclose dset);;
      sys_ (H5Sclose dspace);;
      mret (if err <? 0 then TES_CAP_REQ_ECONV else TES_CAP_REQ_OK).

(** ** The file *)

Definition open_file (fname : bytes) (ovrwt : bool) : sysM (option Z) :=
  fok ← sys (SysAccess fname);
  if (fok =? 0) && negb ovrwt then fid ← sys (H5Fopen fname); mret (Some fid)
  else
    rc ← (if fok =? 0 then sys_assert ovrwt;; sys (SysUnlink fname) else mret 0);
    if rc =? -1 then mret None
    else fid ← sys (H5Fcreate fname); mret (Some fid).

(** The group for what is overwritten and the new name, [None] after an error;
    -1 for the id where nothing is kept. *)
Definition backup_grp (r : hdf5_conv_req_t) (fid root_gid : Z) : sysM (option (Z * bytes)) :=
  if negb (ovrwtmode r =? TES_H5_OVRWT_RELINK) then mret (Some (-1, []))
  else
    ovrwt_gid ← s_get_grp fid OVRWT_GROUP true;
    if ovrwt_gid <? 0 then
      sys_ (H5Gclose root_gid);; sys_ (H5Fclose fid);; mret None
    else
      sys_assert (0 <? ovrwt_gid);;
      tnow ← sys SysTime;
      if tnow =? -1 then
        sys_ (H5Gclose root_gid);; sys_ (H5Gclose ovrwt_gid);; sys_ (H5Fclose fid);; mret None
      else
        name ← str (group r);
        let '(rc, bkpgroup) := snprintf PATH_MAX (name ++ lit "_" ++ dec tnow) in
        if (rc <? 0) || (PATH_MAX <=? rc) then
          sys_ (H5Gclose root_gid);; sys_ (H5Gclose ovrwt_gid);; sys_ (H5Fclose fid);; mret None
        else mret (Some (ovrwt_gid, bkpgroup)).

(** The loop over the datasets. *)
Fixpoint map_files (ds : list hdf5_dset_desc_t) : sysM (Z * list hdf5_dset_desc_t) :=
  match ds with
  | [] => mret (TES_CAP_REQ_OK, [])
  | d :: ds =>
      '(rc, d) ← (if not_null (filename d) then s_map_file d else mret (TES_CAP_REQ_OK, d));
      if negb (rc =? TES_CAP_REQ_OK) then mret (rc, d :: ds)
      else '(rc, ds) ← map_files ds; mret (rc, d :: ds)
  end.

(** The descriptors an array of [num_dsets] elements must have. *)
Definition the_dsets (r : hdf5_conv_req_t) : sysM (list hdf5_dset_desc_t) :=
  ds ← str (dsets r);
  if num_dsets r <=? Z.of_nat (List.length ds) then mret (take (Z.to_nat (num_dsets r)) ds)
  else sys_fail OutOfBounds.

Definition s_hdf5_init (c : s_creq_data_t) : sysM (Z * s_creq_data_t) :=
  let r := creq c in
  fname ← str (req_filename r);
  fid ← open_file fname (ovrwtmode r =? TES_H5_OVRWT_FILE);
  match fid with
  | None => mret (TES_CAP_REQ_EFAIL, c)
  | Some fid =>
      if fid <? 0 then mret (TES_CAP_REQ_EFAIL, c)
      else
        root_gid ← s_get_grp fid ROOT_GROUP true;
        if root_gid <? 0 then sys_ (H5Fclose fid);; mret (TES_CAP_REQ_EFAIL, c)
        else
          sys_assert (0 <? root_gid);;
          bkp ← backup_grp r fid root_gid;
          match bkp with
          | None => mret (TES_CAP_REQ_EFAIL, c)
          | Some (ovrwt_gid, bkpgroup) =>
              name ← str (group r);
              client_gid ← s_crt_grp root_gid name ovrwt_gid bkpgroup;
              sys_ (H5Gclose root_gid);;
              (if 0 <? ovrwt_gid then sys_ (H5Gclose ovrwt_gid) else mret tt);;
              if client_gid <=? 0 then
                sys_ (H5Fclose fid);;
                mret (if client_gid =? 0 then TES_CAP_REQ_EABORT else TES_CAP_REQ_EFAIL, c)
              else
                sys_assert (0 <? client_gid);;
                ds ← the_dsets r;
                '(rc, ds) ← map_files ds;
                let r := set_dsets r ds in
                if negb (rc =? TES_CAP_REQ_OK) then
                  sys_ (H5Gclose client_gid);;
                  sys_ (H5Fclose fid);;
                  mret (rc, set_creq c r (group_id c) (file_id c))
                else mret (TES_CAP_REQ_OK, set_creq c r client_gid fid)
          end
  end.

(** The loop over the datasets; the [rc] that it sets is its own. *)
Fixpoint create_dsets (ds : list hdf5_dset_desc_t) (gid : Z) : sysM unit :=
  match ds with
  | [] => mret tt
  | d :: ds =>
      rc ← s_create_dset d gid;
      if negb (rc =? TES_CAP_REQ_OK) then mret tt else create_dsets ds gid
  end.

Definition s_hdf5_write (c : s_creq_data_t) : sysM (Z * s_creq_data_t) :=
  let rc := 0 in
  ds ← the_dsets (creq c);
  create_dsets ds (group_id c);;
  sys_ (H5Gclose (group_id c));;
  sys_ (H5Fclose (file_id c));;
  mret (rc, c).

(** ** The request *)

Definition empty_str (s : option bytes) : bool :=
  match s with Some s => strlen s =? 0 | None => true end.

Definition bad_dset (d : hdf5_dset_desc_t) : bool :=
  empty_str (dsetname d) ||
  (not_null (filename d) && negb (buffer d =? 0)) ||
  (negb (not_null (filename d)) && (buffer d =? 0)) ||
  (negb (buffer d =? 0) && ((offset d <? 0) || (length d <? 0))).

Fixpoint unmap (ds : list hdf5_dset_desc_t) : sysM (list hdf5_dset_desc_t) :=
  match ds with
  | [] => mret []
  | d :: ds =>
      d ← (if not_null (filename d) && negb (buffer d =? 0)
           then sys_ (SysMunmap (buffer d) (offset d + length d));; mret (set_buffer d 0)
           else mret d);
      ds ← unmap ds;
      mret (d :: ds)
  end.

Definition hdf5_conv (r : hdf5_conv_req_t) : sysM Z :=
  if empty_str (req_filename r) || empty_str (group r) || negb (not_null (dsets r)) ||
     (2 <? ovrwtmode r) || (num_dsets r =? 0)
  then mret TES_CAP_REQ_EINV
  else
    ds ← the_dsets r;
    if existsb bad_dset ds then mret TES_CAP_REQ_EINV
    else
      let c := {| creq := r; group_id := -1; file_id := -1 |} in
      '(status, c) ←
        (if async r then
           '(rc, c) ← Daemon.fork_and_run (Some s_hdf5_init) (Some s_hdf5_write) c INIT_TIMEOUT;
           mret (if rc =? -1 then TES_CAP_REQ_EFAIL else TES_CAP_REQ_OK, c)
         else
           '(status, c) ← s_hdf5_init c;
           if status =? TES_CAP_REQ_OK then s_hdf5_write c else mret (status, c));
      ds ← the_dsets (creq c);
      _ ← unmap ds;
      mret status.
End Conversion.

(** ** What is open in the library *)

Definition opens (c : sys_call) : bool :=
  match c with
  | H5Fopen _ | H5Fcreate _ | H5Gopen _ _ | H5Gcreate _ _ | H5Screate _ | H5Dcreate _ _ _ => true
  | _ => false
  end.

Definition closes (c : sys_call) : option Z :=
  match c with H5Fclose i | H5Gclose i | H5Sclose i | H5Dclose i => Some i | _ => None end.

Fixpoint remove1 (i : Z) (hs : list Z) : list Z :=
  match hs with [] => [] | h :: hs => if decide (h = i) then hs else h :: remove1 i hs end.

Lemma remove1_perm i hs hs' : hs ≡ₚ i :: hs' -> remove1 i hs ≡ₚ hs'.
Proof.
  revert hs'. induction hs as [|h hs IH]; intros hs' Hp.
  { by apply Permutation_nil_cons in Hp. }
  simpl. destruct (decide (h = i)) as [->|Hne]; [by apply Permutation_cons_inv in Hp|].
  assert (Hin : h ∈ i :: hs') by (rewrite <- Hp; apply elem_of_cons; by left).
  apply elem_of_cons in Hin as [|Hin]; [done|].
  apply elem_of_Permutation in Hin as (k & Hk). rewrite Hk. f_equiv. apply IH.
  rewrite Hk in Hp. apply (Permutation_cons_inv (a := h)). rewrite Hp. apply Permutation_swap.
Qed.

Section Held.
Context `{SysEnv}.

(** What the library returns: an id that is not 0, and positive on success. *)
Class Hdf5Laws : Prop := {
  h5_id : forall l c, opens c = true -> sys_rc l c <> 0;
  lseek_rc : forall l fd, -1 <= sys_rc l (SysLseekEnd fd);
  mmap_rc : forall l fd n, sys_rc l (SysMmap fd n) <> 0;
}.

Definition held_step (l : list sys_call) (hs : list Z) (c : sys_call) : list Z :=
  if opens c then (if 0 <? sys_rc l c then sys_rc l c :: hs else hs)
  else match closes c with Some i => remove1 i hs | None => hs end.

Fixpoint held_from (pre : list sys_call) (hs : list Z) (l : list sys_call) : list Z :=
  match l with [] => hs | c :: l => held_from (pre ++ [c]) (held_step pre hs c) l end.

(** The ids that a log leaves open. *)
Definition held (l : list sys_call) : list Z := held_from [] [] l.

Lemma held_from_snoc l : forall pre hs c,
  held_from pre hs (l ++ [c]) = held_step (pre ++ l) (held_from pre hs l) c.
Proof.
  induction l as [|d l IH]; intros pre hs c; simpl; [by rewrite app_nil_r|].
  by rewrite IH, <- app_assoc.
Qed.

Lemma held_snoc l c : held (l ++ [c]) = held_step l (held l) c.
Proof. apply held_from_snoc. Qed.

Definition neutral (c : sys_call) : Prop := opens c = false /\ closes c = None.

Lemma held_neutral l c hs : neutral c -> held l ≡ₚ hs -> held (l ++ [c]) ≡ₚ hs.
Proof. intros [Ho Hc] Hh. rewrite held_snoc. unfold held_step. by rewrite Ho, Hc. Qed.

Lemma held_close l c i hs : opens c = false -> closes c = Some i ->
  held l ≡ₚ i :: hs -> held (l ++ [c]) ≡ₚ hs.
Proof.
  intros Ho Hc Hh. rewrite held_snoc. unfold held_step. rewrite Ho, Hc. by apply remove1_perm.
Qed.

Lemma held_open l c hs : opens c = true -> held l ≡ₚ hs ->
  held (l ++ [c]) ≡ₚ (if 0 <? sys_rc l c then sys_rc l c :: hs else hs).
Proof.
  intros Ho Hh. rewrite held_snoc. unfold held_step. rewrite Ho. case_if; [by rewrite Hh|done].
Qed.

Lemma open_rc `{!Hdf5Laws} l c : opens c = true -> sys_rc l c < 0 \/ 0 < sys_rc l c.
Proof. intros Ho. pose proof (h5_id l c Ho). lia. Qed.

(** The log leaves [hs] open. *)
Ltac held_neutral := apply held_neutral; [by split|].
Ltac held_close := eapply held_close; [done|done|].
(** Solve [held l ≡ₚ hs]: undo the calls and reorder. *)
Ltac held :=
  repeat first [held_neutral | held_close];
  first [assumption
        | lazymatch goal with H : held ?l ≡ₚ _ |- held ?l ≡ₚ _ => rewrite H; solve_Permutation end].

Definition with_id (gid : Z) (hs : list Z) : list Z := if 0 <? gid then gid :: hs else hs.

Lemma swp_open `{!Hdf5Laws} {A} c (k : Z -> sysM A) l hs Q :
  opens c = true -> held l ≡ₚ hs ->
  (forall id, id < 0 -> held (l ++ [c]) ≡ₚ hs -> swp (k id) Q (l ++ [c])) ->
  (forall id, 0 < id -> held (l ++ [c]) ≡ₚ id :: hs -> swp (k id) Q (l ++ [c])) ->
  swp (sys c ≫= k) Q l.
Proof.
  intros Ho Hh Hn Hp. pose proof (held_open l c hs Ho Hh) as Hh'. apply swp_sys.
  destruct (open_rc l c Ho) as [Hc|Hc].
  - rewrite (proj2 (Z.ltb_ge _ _)) in Hh' by lia. by apply Hn.
  - rewrite (proj2 (Z.ltb_lt _ _)) in Hh' by lia. by apply Hp.
Qed.

(** The id of a call that opens something, with errors as -1. *)
Lemma open_or_fail_ok `{!Hdf5Laws} c l hs :
  opens c = true -> held l ≡ₚ hs ->
  swp (gid ← sys c; mret (if gid <? 0 then -1 else gid))
    (ok (fun gid l' => held l' ≡ₚ with_id gid hs /\ (gid = -1 \/ 0 < gid))) l.
Proof.
  intros Hc Hh. unfold with_id. apply swp_open with hs; try done; intros id Hi Hid; swp_step; cbn [ok].
  - rewrite (proj2 (Z.ltb_lt id 0)) by lia. split; [done|by left].
  - rewrite (proj2 (Z.ltb_ge id 0)), (proj2 (Z.ltb_lt 0 id)) by lia. split; [done|by right].
Qed.

Lemma s_get_grp_ok `{!Hdf5Laws} lid g create l hs :
  0 < lid -> held l ≡ₚ hs ->
  swp (s_get_grp lid g create) (ok (fun gid l' => held l' ≡ₚ with_id gid hs /\
    (gid = -1 \/ gid = 0 /\ create = false \/ 0 < gid))) l.
Proof.
  intros Hl Hh. unfold s_get_grp. swp_step; [by apply Z.ltb_lt|]. swp_step.
  assert (Hh1 : held (l ++ [H5Lexists lid g]) ≡ₚ hs) by held.
  set (l1 := l ++ _) in *. destruct (Z.ltb_spec (sys_rc l (H5Lexists lid g)) 0).
  { swp_step. split; [done|by left]. }
  destruct ((_ =? 0) && negb create) eqn:E.
  { swp_step. bool_hyps. split; [done|]. destruct create; [done|]. auto. }
  destruct (0 <? _); (eapply swp_mono; [by apply open_or_fail_ok with (hs := hs)|]);
    (intros [gid|f] l'; [|done]); intros [Hh' Hg]; (split; [done|]); tauto.
Qed.

Lemma expect_none_ok `{!Hdf5Laws} lid g err l hs :
  0 < lid -> held l ≡ₚ hs ->
  swp (expect_none lid g err) (ok (fun rc l' => held l' ≡ₚ hs /\ (rc = -1 \/ rc = err))) l.
Proof.
  intros Hl Hh. unfold expect_none. eapply swp_seq; [by apply s_get_grp_ok with (hs := hs)|].
  intros gid l1 [Hh1 Hg]. unfold with_id in Hh1. destruct (Z.ltb_spec 0 gid).
  - swp_step. swp_step. split; [held|by left].
  - swp_step. split; [done|by right].
Qed.

Lemma move_grp_ok `{!Hdf5Laws} lid g bkp name l hs :
  0 < lid -> 0 < bkp -> name <> [] -> held l ≡ₚ hs ->
  swp (move_grp lid g bkp name) (ok (fun _ l' => held l' ≡ₚ hs)) l.
Proof.
  intros Hl Hb Hn Hh. unfold move_grp. swp_step.
  { apply Z.ltb_lt. unfold strlen. destruct name; simpl; [done|lia]. }
  eapply swp_seq; [by apply expect_none_ok with (hs := hs)|]. intros err l1 [Hh1 _].
  assert (Hcall : forall c l hs (err : Z), neutral c -> held l ≡ₚ hs ->
    swp (if 0 <=? err then sys c else mret err) (ok (fun _ l' => held l' ≡ₚ hs)) l).
  { intros c l0 hs0 e Hc Hh0. case_if; [|by apply swp_ret]. unfold swp. simpl.
    by apply held_neutral. }
  eapply swp_seq; [by apply Hcall with (hs := hs)|]. intros err2 l2 Hh2.
  eapply swp_seq; [by apply Hcall with (hs := hs)|]. intros err3 l3 Hh3.
  eapply swp_mono; [by apply expect_none_ok with (hs := hs)|]. intros [rc|f] l4 Hr; [apply Hr|done].
Qed.

Lemma s_crt_grp_ok `{!Hdf5Laws} lid g bkp name l hs :
  0 < lid -> (0 < bkp -> name <> []) -> held l ≡ₚ hs ->
  swp (s_crt_grp lid g bkp name) (ok (fun gid l' => held l' ≡ₚ with_id gid hs /\ -1 <= gid)) l.
Proof.
  intros Hl Hn Hh. unfold s_crt_grp. swp_step; [by apply Z.ltb_lt|].
  eapply swp_seq; [by apply s_get_grp_ok with (hs := hs)|]. intros gid l1 [Hh1 Hg].
  destruct (Z.ltb_spec gid 0) as [Hneg|Hpos].
  { swp_step. unfold with_id in Hh1. by rewrite (proj2 (Z.ltb_ge _ _)) in Hh1 by lia. }
  cbv zeta.
  eapply (swp_seq _ _ (fun _ l' => held l' ≡ₚ hs)).
  { unfold with_id in Hh1. destruct (0 <? gid).
    - unfold swp. simpl. held.
    - by apply swp_ret. }
  intros _ l2 Hh2. destruct (_ && _) eqn:E; [by swp_step|].
  eapply (swp_seq _ _ (fun _ l' => held l' ≡ₚ hs)).
  { destruct (0 <? gid); [|by apply swp_ret]. apply move_grp_ok; try done; [lia|]. apply Hn. lia. }
  intros err l3 Hh3. destruct (err <? 0); [by swp_step|].
  eapply swp_mono; [by apply open_or_fail_ok with (hs := hs)|].
  intros [gid'|f] l'; [|done]. intros [Hh' Hg']. split; [done|lia].
Qed.

(** ** Mapping a file *)

(** The part of a file of [n] bytes that hdf5conv.h promises to copy, as offset
    and length; [None] for an empty dataset. *)
Definition doc_range (n off len : Z) : option (Z * Z) :=
  let off := if off <? 0 then n + off else off in
  if (len =? 0) || (off <? 0) || (n <=? off) then None
  else Some (off, if (len <? 0) || (n <? off + len) then n - off else len).

(** A descriptor that is ready to be written. *)
Record dset_ready (d : hdf5_dset_desc_t) : Prop := {
  dr_name : dsetname d <> None;
  dr_map : buffer d <> -1;
  dr_empty : buffer d = 0 -> length d = 0;
  dr_some : buffer d <> 0 -> 0 < length d /\ 0 <= offset d;
}.

(** The result of mapping a file that can be opened. *)
Definition mapped (d : hdf5_dset_desc_t) (n addr : Z) (d' : hdf5_dset_desc_t) : Prop :=
  dsetname d' = dsetname d /\ filename d' = filename d /\
  match doc_range n (offset d) (length d) with
  | None => buffer d' = 0 /\ length d' = 0
  | Some (off, len) => buffer d' = addr /\ offset d' = off /\ length d' = len /\
      0 <= off /\ 0 < len /\ off + len <= n
  end.

(** A descriptor as a caller must give it to get a dataset. *)
Record dset_req (d : hdf5_dset_desc_t) : Prop := {
  dq_name : dsetname d <> None;
  dq_file : filename d <> None -> buffer d = 0;
  dq_buffer : filename d = None -> 0 < buffer d /\ 0 < length d /\ 0 <= offset d;
}.

(** What the code computes is that part. *)
Lemma doc_range_empty n off len :
  0 <= n -> len <> 0 ->
  let off' := if off <? 0 then off + n else off in
  (n =? 0) || (n <=? off') || (off' <? 0) = true -> doc_range n off len = None.
Proof.
  intros Hn Hl off' E. unfold doc_range. rewrite (Z.add_comm n off). fold off'. cbv zeta.
  rewrite (proj2 (Z.eqb_neq _ _) Hl). cbn [orb].
  replace ((off' <? 0) || (n <=? off')) with true; [done|]. symmetry.
  destruct (Z.ltb_spec off' 0), (Z.leb_spec n off'); try done. bool_hyps.
  rewrite orb_false_r in E. apply orb_true_iff in E as [E|E]; lia.
Qed.

Lemma doc_range_some n off len :
  0 <= n -> len <> 0 ->
  let off' := if off <? 0 then off + n else off in
  (n =? 0) || (n <=? off') || (off' <? 0) = false ->
  doc_range n off len =
    Some (off', if (len <? 0) || (n - off' <? len) then n - off' else len).
Proof.
  intros Hn Hl off' E. unfold doc_range. rewrite (Z.add_comm n off). fold off'. cbv zeta.
  bool_hyps. rewrite (proj2 (Z.eqb_neq _ _) Hl), (proj2 (Z.ltb_ge off' 0)),
    (proj2 (Z.leb_gt n off')) by lia. cbn [orb].
  replace (n <? off' + len) with (n - off' <? len) by lia. done.
Qed.

(** A descriptor after [s_map_file] gave [rc]. *)
Definition map_post (d : hdf5_dset_desc_t) (rc : Z) (d' : hdf5_dset_desc_t) : Prop :=
  rc = TES_CAP_REQ_EFAIL /\ dsetname d' = dsetname d /\ filename d' = filename d \/
  rc = TES_CAP_REQ_OK /\ exists n addr, addr <> 0 /\ addr <> -1 /\ mapped d n addr d'.

Lemma s_map_file_ok `{!Hdf5Laws} d l hs :
  filename d <> None -> buffer d = 0 -> held l ≡ₚ hs ->
  swp (s_map_file d) (ok (fun r l' => held l' ≡ₚ hs /\ map_post d r.1 r.2)) l.
Proof.
  intros Hf Hb Hh. unfold s_map_file. unfold not_null. destruct (filename d) as [fname|] eqn:Ef; [|done].
  swp_step; [done|]. swp_step; [by apply Z.eqb_eq|].
  destruct (Z.eqb_spec (length d) 0) as [El|El].
  { swp_step. split; [done|]. right. split; [done|]. exists 0, 1. unfold mapped, doc_range.
    rewrite El, Ef. done. }
  apply swp_bind, swp_ret. swp_step. set (fd := sys_rc l _).
  destruct (Z.eqb_spec fd (-1)) as [Efd|Efd].
  { swp_step. split; [held|]. by left. }
  swp_step. set (l1 := l ++ _). set (n := sys_rc l1 _). pose proof (lseek_rc l1 fd) as Hn.
  fold n in Hn. destruct (Z.eqb_spec n (-1)) as [En|En].
  { swp_step. swp_step. split; [unfold l1; held|]. by left. }
  assert (Hn0 : 0 <= n) by lia. cbv zeta.
  pose proof (doc_range_empty n (offset d) (length d) Hn0 El) as He.
  pose proof (doc_range_some n (offset d) (length d) Hn0 El) as Hs. cbv zeta in He, Hs.
  set (off := if offset d <? 0 then _ else _) in *.
  destruct ((n =? 0) || (n <=? off) || (off <? 0)) eqn:Ec.
  { swp_step. swp_step. split; [unfold l1; held|]. right. split; [done|]. exists n, 1.
    unfold mapped. rewrite He by done. cbn. by rewrite Ef. }
  specialize (Hs eq_refl). bool_hyps.
  do 3 (swp_step; [apply Z.ltb_lt || apply Z.leb_le; lia|]).
  set (len := if _ || _ then _ else _) in *.
  assert (Hlen : 0 < len /\ off + len <= n).
  { unfold len. destruct (Z.ltb_spec (length d) 0), (Z.ltb_spec (n - off) (length d)); cbn [orb]; lia. }
  swp_step; [apply Z.ltb_lt; lia|]. swp_step. swp_step.
  set (l2 := l1 ++ _). set (addr := sys_rc l2 _). pose proof (mmap_rc l2 fd (off + len)) as Ha.
  fold addr in Ha. destruct (Z.eqb_spec addr (-1)); swp_step.
  - split; [unfold l2, l1; held|]. by left.
  - split; [unfold l2, l1; held|]. right. split; [done|]. exists n, addr. split; [done|]. split; [done|].
    unfold mapped. rewrite Hs. cbn. rewrite Ef. repeat split; lia.
Qed.

Lemma map_post_ready d d' : dset_req d -> filename d <> None ->
  map_post d TES_CAP_REQ_OK d' -> dset_ready d'.
Proof.
  intros [Hn Hf _] Hfn [[? _]|(_ & n & addr & Ha & Ha' & Hnm & Hfm & Hm)]; [done|].
  destruct (doc_range _ _ _) as [[off len]|].
  - destruct Hm as (Hb & Ho & Hl & ? & ? & ?). split; [by rewrite Hnm|lia|lia|lia].
  - destruct Hm as (Hb & Hl). split; [by rewrite Hnm|lia|lia|lia].
Qed.

Lemma s_create_dset_ok `{!Hdf5Laws} d gid l hs :
  dset_ready d -> held l ≡ₚ hs ->
  swp (s_create_dset d gid) (ok (fun _ l' => held l' ≡ₚ hs)) l.
Proof.
  intros [Hn Hm He Hs] Hh. unfold s_create_dset. destruct (dsetname d) as [name|]; [|done].
  apply swp_bind, swp_ret. swp_step; [by apply negb_true_iff, Z.eqb_neq|]. swp_step.
  { destruct (Z.eqb_spec (buffer d) 0); [apply Z.eqb_eq; auto|apply Z.ltb_lt, Hs; done]. }
  apply swp_open with hs; try done; intros sp Hsp Hh1; set (l1 := l ++ _) in *.
  { rewrite (proj2 (Z.ltb_lt _ _)) by lia. by swp_step. }
  rewrite (proj2 (Z.ltb_ge _ _)) by lia.
  apply swp_open with (sp :: hs); try done; intros dset Hd Hh2; set (l2 := l1 ++ _) in *.
  { rewrite (proj2 (Z.ltb_lt _ _)) by lia. swp_step. swp_step. simpl. held. }
  rewrite (proj2 (Z.ltb_ge _ _)) by lia.
  destruct (Z.eqb_spec (length d) 0) as [El|El]; [do 3 swp_step; simpl; held|].
  swp_step; [apply negb_true_iff, Z.eqb_neq; auto|].
  swp_step; [apply Z.leb_le; apply Hs; auto|]. do 4 swp_step. simpl. held.
Qed.

Lemma map_files_ok `{!Hdf5Laws} hs ds : forall l,
  Forall dset_req ds -> held l ≡ₚ hs ->
  swp (map_files ds) (ok (fun r l' => held l' ≡ₚ hs /\ List.length r.2 = List.length ds /\
    (r.1 = TES_CAP_REQ_OK /\ Forall dset_ready r.2 \/ r.1 = TES_CAP_REQ_EFAIL))) l.
Proof.
  induction ds as [|d ds IH]; intros l Hq Hh; cbn [map_files].
  { swp_step. split; [done|]. split; [done|]. left. by split. }
  apply Forall_cons in Hq as [Hd Hq].
  eapply (swp_seq _ _ (fun r l' => held l' ≡ₚ hs /\
    (r.1 = TES_CAP_REQ_OK /\ dset_ready r.2 \/ r.1 = TES_CAP_REQ_EFAIL))).
  { unfold not_null. destruct (filename d) as [fname|] eqn:Ef.
    - rewrite bool_decide_eq_true_2 by done.
      assert (Hf : filename d <> None) by by rewrite Ef.
      eapply swp_mono; [apply (s_map_file_ok d l hs Hf); [by apply dq_file|done]|].
      intros [[rc d']|f] l1; [|done]. intros [Hh1 Hm]. split; [done|]. simpl in *.
      pose proof Hm as [[-> _]|[-> _]]; [by right|]. left. split; [done|].
      by apply (map_post_ready d).
    - rewrite bool_decide_eq_false_2 by (intros Hx; by apply Hx). swp_step. split; [done|]. left.
      destruct Hd as [Hn _ Hb]. specialize (Hb Ef). split; [done|]. cbn [snd]. split; [done|lia|lia|lia]. }
  intros [rc d'] l1 [Hh1 Hr]. simpl in Hr. destruct (Z.eqb_spec rc TES_CAP_REQ_OK) as [->|Hne]; cbn [negb].
  - eapply swp_seq; [by apply IH|]. intros [rc ds'] l2 (Hh2 & Hlen & Hr2). swp_step.
    split; [done|]. simpl in *. split; [by f_equal|].
    destruct Hr as [[_ Hrd]|]; [|done]. destruct Hr2 as [[-> Hrs]|Hr2]; [left|by right].
    split; [done|]. by constructor.
  - swp_step. split; [done|]. split; [done|]. right. by destruct Hr as [[]|].
Qed.

Lemma create_dsets_ok `{!Hdf5Laws} gid hs ds : forall l,
  Forall dset_ready ds -> held l ≡ₚ hs ->
  swp (create_dsets ds gid) (ok (fun _ l' => held l' ≡ₚ hs)) l.
Proof.
  induction ds as [|d ds IH]; intros l Hr Hh; cbn [create_dsets]; [by swp_step|].
  apply Forall_cons in Hr as [Hd Hr]. eapply swp_seq; [by apply s_create_dset_ok with (hs := hs)|].
  intros rc l1 Hh1. destruct (negb _); [by swp_step|]. by apply IH.
Qed.

(** ** The whole conversion *)

(** A request with an array of descriptors that can be converted. *)
Record req_ok (r : hdf5_conv_req_t) (fname name : bytes) (ds : list hdf5_dset_desc_t) : Prop := {
  rq_file : req_filename r = Some fname;
  rq_group : group r = Some name;
  rq_dsets : dsets r = Some ds;
  rq_num : num_dsets r = Z.of_nat (List.length ds);
  rq_all : Forall dset_req ds;
}.

Lemma the_dsets_eq r ds l :
  dsets r = Some ds -> num_dsets r = Z.of_nat (List.length ds) -> the_dsets r l = (Done ds, l).
Proof.
  intros Hd Hn. unfold the_dsets. rewrite Hd, (sys_bind_Done _ _ l ds l) by done.
  rewrite Hn, (proj2 (Z.leb_le _ _)) by lia. by rewrite Nat2Z.id, firstn_all.
Qed.

Lemma set_dsets_eq r ds ds' : dsets r = Some ds -> List.length ds' = List.length ds ->
  dsets (set_dsets r ds') = Some ds'.
Proof.
  intros Hd Hl. simpl. rewrite Hd. simpl. by rewrite Hl, drop_all, app_nil_r.
Qed.

Lemma open_file_ok `{!Hdf5Laws} fname ovrwt l hs :
  held l ≡ₚ hs ->
  swp (open_file fname ovrwt) (ok (fun fid l' =>
    match fid with Some fid => held l' ≡ₚ with_id fid hs /\ fid <> 0 | None => held l' ≡ₚ hs end)) l.
Proof.
  intros Hh. unfold open_file. swp_step. set (fok := sys_rc l _).
  assert (Hopen : forall c l, opens c = true -> held l ≡ₚ hs ->
    swp (fid ← sys c; mret (Some fid)) (ok (fun fid l' =>
      match fid with Some fid => held l' ≡ₚ with_id fid hs /\ fid <> 0 | None => held l' ≡ₚ hs end)) l).
  { intros c l0 Hc Hh0. unfold with_id. apply swp_open with hs; try done;
      intros id Hi Hid; swp_step; cbn [ok].
    - rewrite (proj2 (Z.ltb_ge _ _)) by lia. split; [done|lia].
    - rewrite (proj2 (Z.ltb_lt _ _)) by lia. split; [done|lia]. }
  destruct ((fok =? 0) && negb ovrwt) eqn:E; [apply Hopen; [done|held]|].
  eapply (swp_seq _ _ (fun _ l' => held l' ≡ₚ hs)).
  { destruct (fok =? 0); simpl in E; [|swp_step; simpl; held].
    swp_step; [by destruct ovrwt|]. unfold swp. simpl. held. }
  intros rc l1 Hh1. destruct (rc =? -1); [by swp_step|]. by apply Hopen.
Qed.

Lemma backup_grp_ok `{!Hdf5Laws} r fid root name l hs :
  group r = Some name -> 0 < fid -> held l ≡ₚ root :: fid :: hs ->
  swp (backup_grp r fid root) (ok (fun b l' =>
    match b with
    | Some (g, bkpgroup) => held l' ≡ₚ with_id g (root :: fid :: hs) /\ (0 < g -> bkpgroup <> [])
    | None => held l' ≡ₚ hs
    end)) l.
Proof.
  intros Hg Hf Hh. unfold backup_grp. destruct (negb _).
  { swp_step. unfold with_id. simpl. split; [done|lia]. }
  eapply swp_seq; [by apply s_get_grp_ok with (hs := root :: fid :: hs)|]. intros g l1 [Hh1 Hc].
  unfold with_id in Hh1. destruct (Z.ltb_spec g 0).
  { rewrite (proj2 (Z.ltb_ge _ _)) in Hh1 by lia. do 3 swp_step. simpl. held. }
  rewrite (proj2 (Z.ltb_lt _ _)) in Hh1 by lia.
  swp_step; [apply Z.ltb_lt; lia|]. swp_step. destruct (_ =? -1).
  { do 4 swp_step. simpl. held. }
  rewrite Hg. apply swp_bind, swp_ret. cbn [snprintf]. unfold snprintf.
  destruct (_ || _) eqn:E; [do 4 swp_step; simpl; held|]. swp_step. unfold with_id. cbn [ok].
  rewrite (proj2 (Z.ltb_lt _ _)) by lia. split; [held|]. intros _ Hn.
  apply (f_equal List.length) in Hn. rewrite length_take, !length_app in Hn.
  change (List.length (lit "_")) with 1%nat in Hn. change (List.length (@nil byte)) with 0%nat in Hn. unfold PATH_MAX in Hn. lia.
Qed.

(** The result of the initialization, with the ids [hs] held before it. *)
Definition init_post (hs : list Z) (r : Z * s_creq_data_t) (l' : list sys_call) : Prop :=
  r.1 = TES_CAP_REQ_OK /\ held l' ≡ₚ group_id r.2 :: file_id r.2 :: hs /\
    (exists ds', dsets (creq r.2) = Some ds' /\ Forall dset_ready ds' /\
      num_dsets (creq r.2) = Z.of_nat (List.length ds')) \/
  (r.1 = TES_CAP_REQ_EFAIL \/ r.1 = TES_CAP_REQ_EABORT) /\ held l' ≡ₚ hs /\
    (exists ds', dsets (creq r.2) = Some ds' /\ num_dsets (creq r.2) = Z.of_nat (List.length ds')).

Lemma s_hdf5_init_ok `{!Hdf5Laws} c fname name ds l hs :
  req_ok (creq c) fname name ds -> held l ≡ₚ hs ->
  swp (s_hdf5_init c) (ok (init_post hs)) l.
Proof.
  intros [Hf Hg Hd Hn Hq] Hh. unfold s_hdf5_init. cbv zeta. rewrite Hf, Hg.
  assert (Hbad : forall rc l', rc = TES_CAP_REQ_EFAIL \/ rc = TES_CAP_REQ_EABORT -> held l' ≡ₚ hs ->
    ok (init_post hs) (Done (rc, c)) l').
  { intros rc l' Hrc Hl'. right. split; [done|]. split; [done|]. by exists ds. }
  apply swp_bind, swp_ret. eapply swp_seq; [by apply open_file_ok with (hs := hs)|].
  intros [fid|] l1; [|intros Hh1; swp_step; apply Hbad; [by left|done]]. intros [Hh1 Hfid].
  unfold with_id in Hh1. destruct (Z.ltb_spec fid 0).
  { rewrite (proj2 (Z.ltb_ge _ _)) in Hh1 by lia. swp_step. apply Hbad; [by left|done]. }
  rewrite (proj2 (Z.ltb_lt _ _)) in Hh1 by lia.
  eapply swp_seq; [apply s_get_grp_ok with (hs := fid :: hs); [lia|done]|].
  intros root l2 [Hh2 Hroot]. unfold with_id in Hh2. destruct (Z.ltb_spec root 0).
  { rewrite (proj2 (Z.ltb_ge _ _)) in Hh2 by lia. do 2 swp_step. apply Hbad; [by left|held]. }
  assert (0 < root) by (destruct Hroot as [|[[_ ?]|]]; [lia|done|done]).
  rewrite (proj2 (Z.ltb_lt 0 root)) in Hh2 by lia. swp_step; [by apply Z.ltb_lt|].
  eapply swp_seq; [apply backup_grp_ok with (name := name) (hs := hs); [done|lia|done]|].
  intros [[og bkp]|] l3; [|intros Hh3; swp_step; apply Hbad; [by left|done]]. intros [Hh3 Hbkp].
  apply swp_bind, swp_ret.
  eapply swp_seq; [by apply s_crt_grp_ok with (hs := with_id og (root :: fid :: hs))|].
  intros cg l4 [Hh4 Hcg]. swp_step.
  eapply (swp_seq _ _ (fun _ l' => held l' ≡ₚ with_id cg (fid :: hs))).
  { unfold with_id in Hh4. destruct (Z.ltb_spec 0 og).
    - unfold swp. simpl. unfold with_id. destruct (0 <? cg); held.
    - swp_step. unfold with_id. simpl. destruct (0 <? cg); held. }
  intros _ l5 Hh5. unfold with_id in Hh5. destruct (Z.leb_spec cg 0).
  { rewrite (proj2 (Z.ltb_ge _ _)) in Hh5 by lia. swp_step. swp_step. apply Hbad; [|held].
    destruct (cg =? 0); auto. }
  rewrite (proj2 (Z.ltb_lt _ _)) in Hh5 by lia. swp_step; [by apply Z.ltb_lt|].
  apply swp_bind. unfold swp at 1. rewrite (the_dsets_eq _ ds) by done. cbn [fst snd].
  eapply swp_seq; [by apply map_files_ok with (hs := cg :: fid :: hs)|].
  intros [rc ds'] l6 (Hh6 & Hlen & Hr). simpl in Hlen, Hr.
  pose proof (set_dsets_eq (creq c) ds ds' Hd Hlen) as Hds.
  destruct (Z.eqb_spec rc TES_CAP_REQ_OK) as [->|Hne]; cbn [negb].
  - swp_step. left. split; [done|]. split; [done|]. exists ds'.
    destruct Hr as [[_ Hr]|]; [|done]. split; [exact Hds|]. split; [done|].
    cbn [creq set_creq num_dsets set_dsets snd]. by rewrite Hn, Hlen.
  - do 3 swp_step. right. destruct Hr as [[]|Hr]; [done|]. split; [by left|]. split; [held|].
    exists ds'. split; [exact Hds|]. cbn [creq set_creq num_dsets set_dsets snd]. by rewrite Hn, Hlen.
Qed.

Lemma unmap_ok ds : forall l hs, held l ≡ₚ hs ->
  swp (unmap ds) (ok (fun _ l' => held l' ≡ₚ hs)) l.
Proof.
  induction ds as [|d ds IH]; intros l hs Hh; cbn [unmap]; [by swp_step|].
  eapply (swp_seq _ _ (fun _ l' => held l' ≡ₚ hs)).
  { destruct (_ && _); [|by swp_step]. swp_step. swp_step. simpl. held. }
  intros d' l1 Hh1. eapply swp_seq; [by apply IH with (hs := hs)|]. intros ds' l2 Hh2. by swp_step.
Qed.

Lemma s_hdf5_write_ok `{!Hdf5Laws} c ds l hs :
  dsets (creq c) = Some ds -> Forall dset_ready ds ->
  num_dsets (creq c) = Z.of_nat (List.length ds) -> held l ≡ₚ group_id c :: file_id c :: hs ->
  swp (s_hdf5_write c) (ok (fun r l' => r = (0, c) /\ held l' ≡ₚ hs)) l.
Proof.
  intros Hd Hr Hn Hh. unfold s_hdf5_write. apply swp_bind. unfold swp at 1.
  rewrite (the_dsets_eq _ ds) by done. cbn [fst snd].
  eapply swp_seq; [by apply create_dsets_ok with (hs := group_id c :: file_id c :: hs)|].
  intros u l1. cbv beta. intros Hh1. do 3 swp_step. split; [done|held].
Qed.

(** ** What a conversion may delete *)

(** A file is unlinked only if it is the HDF5 file and is to be overwritten.  It
    is created, which truncates one that is there, only then or right after
    access failed on it; no other file is created.  A link is
    deleted only if links are to be moved and right after it has been copied; a
    dataset is written only right after it has been created. *)
Definition justified (r : hdf5_conv_req_t) (pre : list sys_call) (c : sys_call) : Prop :=
  match c with
  | SysUnlink f => ovrwtmode r = TES_H5_OVRWT_FILE /\ req_filename r = Some f
  | H5Fcreate f => req_filename r = Some f /\
      (ovrwtmode r = TES_H5_OVRWT_FILE \/
       exists pre', pre = pre' ++ [SysAccess f] /\ sys_rc pre' (SysAccess f) <> 0)
  | SysOpen _ creat _ => creat = false
  | H5Ldelete lid g => ovrwtmode r = TES_H5_OVRWT_RELINK /\
      exists pre' bid bname, pre = pre' ++ [H5Lcopy lid g bid bname] /\
        0 <= sys_rc pre' (H5Lcopy lid g bid bname)
  | H5Dwrite dset _ => exists pre' gid name space, pre = pre' ++ [H5Dcreate gid name space] /\
      sys_rc pre' (H5Dcreate gid name space) = dset /\ 0 <= dset
  | _ => True
  end.

Definition all_justified (r : hdf5_conv_req_t) (l : list sys_call) : Prop :=
  forall pre c post, l = pre ++ c :: post -> justified r pre c.

Definition harmless (c : sys_call) : Prop :=
  match c with
  | SysUnlink _ | H5Fcreate _ | H5Ldelete _ _ | H5Dwrite _ _ => False
  | SysOpen _ creat _ => creat = false
  | _ => True
  end.

Lemma justified_snoc r l c : all_justified r l -> justified r l c -> all_justified r (l ++ [c]).
Proof.
  intros Hl Hc pre d post E. destruct (decide (post = [])) as [->|Hp].
  - apply app_inj_tail in E as [-> ->]. done.
  - destruct (exists_last Hp) as (post' & e & ->). rewrite app_comm_cons, app_assoc in E.
    apply app_inj_tail in E as [E _]. by apply (Hl pre d post').
Qed.

Lemma justified_adds {A} r (m : sysM A) l :
  adds harmless m -> all_justified r l -> all_justified r (m l).2.
Proof.
  intros Hm Hl. destruct (Hm l) as (cs & -> & Hcs). revert l Hl.
  induction Hcs as [|c cs Hc _ IH]; intros l Hl; [by rewrite app_nil_r|].
  rewrite (cons_middle c), app_assoc. apply IH, justified_snoc; [done|]. by destruct c.
Qed.

(** [m] keeps the log justified. *)
Definition keeps {A} (r : hdf5_conv_req_t) (m : sysM A) : Prop :=
  forall l, all_justified r l -> all_justified r (m l).2.

Lemma keeps_bind {A B} r (m : sysM A) (k : A -> sysM B) :
  keeps r m -> (forall a, keeps r (k a)) -> keeps r (m ≫= k).
Proof.
  intros Hm Hk l Hl. specialize (Hm l Hl). unfold mbind, sys_bind.
  destruct (m l) as [[a|f] l']; simpl in *; [by apply Hk|done].
Qed.

Lemma keeps_adds {A} r (m : sysM A) : adds harmless m -> keeps r m.
Proof. intros Hm l. by apply justified_adds. Qed.

Lemma s_get_grp_adds lid g create : adds harmless (s_get_grp lid g create).
Proof. unfold s_get_grp. by adds. Qed.
#[local] Hint Resolve s_get_grp_adds : adds.

Lemma expect_none_adds lid g err : adds harmless (expect_none lid g err).
Proof. unfold expect_none. by adds. Qed.
#[local] Hint Resolve expect_none_adds : adds.

Lemma str_adds {A} (p : option A) : adds harmless (str p).
Proof. unfold str. by adds. Qed.
#[local] Hint Resolve str_adds : adds.

Lemma backup_grp_adds r fid root : adds harmless (backup_grp r fid root).
Proof. unfold backup_grp. cbn [snprintf]. unfold snprintf. by adds. Qed.

Lemma map_files_adds ds : adds harmless (map_files ds).
Proof.
  induction ds as [|d ds IH]; cbn [map_files]; [by adds|]. apply adds_bind.
  { unfold s_map_file. by adds. }
  intros [rc d']. by adds.
Qed.

Lemma unmap_adds ds : adds harmless (unmap ds).
Proof. induction ds as [|d ds IH]; cbn [unmap]; by adds. Qed.

Lemma the_dsets_adds r : adds harmless (the_dsets r).
Proof. unfold the_dsets. by adds. Qed.
#[local] Hint Resolve backup_grp_adds map_files_adds unmap_adds the_dsets_adds : adds.

(** Binds of routines that delete nothing. *)
Ltac keeps_adds := apply keeps_adds; by adds.
Ltac keeps_bind := apply keeps_bind; [keeps_adds|].

(** The first call of a routine, and an assertion before it. *)
Lemma justified_call {A} r c (k : Z -> sysM A) l :
  all_justified r l -> justified r l c ->
  (all_justified r (l ++ [c]) -> all_justified r (k (sys_rc l c) (l ++ [c])).2) ->
  all_justified r ((sys c ≫= k) l).2.
Proof. intros Hl Hc Hk. by apply Hk, justified_snoc. Qed.

Lemma justified_assert {A} r b (m : sysM A) l :
  all_justified r l -> (b = true -> all_justified r (m l).2) ->
  all_justified r ((sys_assert b;; m) l).2.
Proof. intros Hl Hm. destruct b; [by apply Hm|done]. Qed.

(** A dataset is written right after its creation. *)
Lemma s_create_dset_keeps r d gid : keeps r (s_create_dset d gid).
Proof.
  unfold s_create_dset. apply keeps_bind; [destruct (dsetname d); keeps_adds|]. intros name.
  do 2 (keeps_bind; intros _). keeps_bind. intros space. destruct (space <? 0); [keeps_adds|].
  intros l Hl. apply justified_call; [done..|]. intros Hl1. set (dset := sys_rc l _) in *.
  destruct (Z.ltb_spec dset 0) as [Hd|Hd]; [apply justified_adds; [by adds|done]|].
  destruct (length d =? 0); [apply justified_adds; [by adds|done]|].
  do 2 (apply justified_assert; [done|]; intros _). apply justified_call; [done| |].
  - by exists l, gid, name, space.
  - intros Hl2. apply justified_adds; [by adds|done].
Qed.

Lemma create_dsets_keeps r ds gid : keeps r (create_dsets ds gid).
Proof.
  induction ds as [|d ds IH]; cbn [create_dsets]; [keeps_adds|].
  apply keeps_bind; [apply s_create_dset_keeps|]. intros rc.
  by destruct (negb (rc =? TES_CAP_REQ_OK)); [keeps_adds|].
Qed.


(** A link is deleted right after its copy. *)
Lemma move_grp_keeps r lid g bkp name :
  ovrwtmode r = TES_H5_OVRWT_RELINK -> keeps r (move_grp lid g bkp name).
Proof.
  intros Hm. unfold move_grp. apply keeps_bind; [apply keeps_adds; by adds|]. intros _.
  apply keeps_bind; [apply keeps_adds; by adds|]. intros err l Hl.
  unfold mbind, sys_bind. destruct (Z.leb_spec 0 err) as [He|He].
  - unfold sys at 1. cbv beta iota. set (rc := sys_rc l _).
    assert (Hl1 : all_justified r (l ++ [H5Lcopy lid g bkp name])) by by apply justified_snoc.
    destruct (Z.leb_spec 0 rc); cbn [sys mret sys_ret]; apply justified_adds; try by adds.
    apply justified_snoc; [done|]. split; [done|]. by exists l, bkp, name.
  - cbn [mret sys_ret]. rewrite (proj2 (Z.leb_gt _ _)) by lia. cbn [mret sys_ret].
    apply justified_adds; [by adds|done].
Qed.

Lemma s_crt_grp_keeps r lid g bkp name :
  bkp <= 0 \/ ovrwtmode r = TES_H5_OVRWT_RELINK -> keeps r (s_crt_grp lid g bkp name).
Proof.
  intros Hb. unfold s_crt_grp. apply keeps_bind; [apply keeps_adds; by adds|]. intros _.
  apply keeps_bind; [apply keeps_adds; by adds|]. intros gid.
  destruct (gid <? 0); [apply keeps_adds; by adds|]. cbv zeta.
  apply keeps_bind; [apply keeps_adds; by adds|]. intros _.
  destruct ((0 <? gid) && (bkp <=? 0)) eqn:E; [apply keeps_adds; by adds|].
  apply keeps_bind; [|intros err; apply keeps_adds; by adds].
  destruct (0 <? gid); [|apply keeps_adds; by adds]. apply move_grp_keeps.
  destruct Hb; [|done]. simpl in E. bool_hyps. lia.
Qed.

Lemma open_file_keeps r fname :
  req_filename r = Some fname -> keeps r (open_file fname (ovrwtmode r =? TES_H5_OVRWT_FILE)).
Proof.
  intros Hf l Hl. unfold open_file. apply justified_call; [done..|]. intros Hl1.
  destruct (Z.eqb_spec (sys_rc l (SysAccess fname)) 0) as [E|E]; cbn [andb].
  - destruct (Z.eqb_spec (ovrwtmode r) TES_H5_OVRWT_FILE) as [Em|Em]; cbn [negb];
      [|apply justified_adds; [by adds|done]].
    assert (Hc : keeps r (rc ← (sys_assert true;; sys (SysUnlink fname));
      if rc =? -1 then mret None else fid ← sys (H5Fcreate fname); mret (Some fid))); [|by apply Hc].
    apply keeps_bind; [intros l' Hl'; apply justified_snoc; [done|by split]|]. intros rc.
    destruct (rc =? -1); [keeps_adds|]. intros l' Hl'. apply justified_call; [done| |done].
    split; [done|by left].
  - apply justified_call; [done| |done]. split; [done|]. right. by exists l.
Qed.

Lemma keeps_str {A B} r (p : option A) (k : A -> sysM B) :
  (forall s, p = Some s -> keeps r (k s)) -> keeps r (str p ≫= k).
Proof. intros Hk l Hl. destruct p as [s|]; [|done]. by apply (Hk s eq_refl l). Qed.

Lemma s_hdf5_init_keeps c : keeps (creq c) (s_hdf5_init c).
Proof.
  unfold s_hdf5_init. cbv zeta. apply keeps_str. intros fname Ef.
  apply keeps_bind; [by apply open_file_keeps|]. intros [fid|]; [|keeps_adds].
  destruct (fid <? 0); [keeps_adds|]. keeps_bind. intros root.
  destruct (root <? 0); [keeps_adds|]. keeps_bind. intros _.
  assert (Hrest : forall og bkp, og <= 0 \/ ovrwtmode (creq c) = TES_H5_OVRWT_RELINK ->
    keeps (creq c) (name ← str (group (creq c));
      client_gid ← s_crt_grp root name og bkp;
      sys_ (H5Gclose root);;
      (if 0 <? og then sys_ (H5Gclose og) else mret tt);;
      if client_gid <=? 0 then
        sys_ (H5Fclose fid);;
        mret (if client_gid =? 0 then TES_CAP_REQ_EABORT else TES_CAP_REQ_EFAIL, c)
      else
        sys_assert (0 <? client_gid);;
        ds ← the_dsets (creq c);
        '(rc, ds) ← map_files ds;
        let r := set_dsets (creq c) ds in
        if negb (rc =? TES_CAP_REQ_OK) then
          sys_ (H5Gclose client_gid);;
          sys_ (H5Fclose fid);;
          mret (rc, set_creq c r (group_id c) (file_id c))
        else mret (TES_CAP_REQ_OK, set_creq c r client_gid fid))).
  { intros og bkp Hb. apply keeps_str. intros name _.
    apply keeps_bind; [by apply s_crt_grp_keeps|]. intros cg. keeps_adds. }
  destruct (Z.eqb_spec (ovrwtmode (creq c)) TES_H5_OVRWT_RELINK) as [Em|Em].
  - keeps_bind. intros [[og bkp]|]; [|keeps_adds]. apply Hrest. by right.
  - unfold backup_grp. rewrite (proj2 (Z.eqb_neq _ _) Em). cbn [negb].
    apply (Hrest (-1) []). by left.
Qed.

Lemma s_hdf5_write_keeps r c : keeps r (s_hdf5_write c).
Proof.
  unfold s_hdf5_write. keeps_bind. intros ds.
  apply keeps_bind; [apply create_dsets_keeps|]. intros _. keeps_adds.
Qed.

Lemma s_send_sig_adds fd sig : adds harmless (Daemon.s_send_sig fd sig).
Proof. unfold Daemon.s_send_sig. by adds. Qed.

Lemma s_wait_sig_adds fd t : adds harmless (Daemon.s_wait_sig fd t).
Proof. unfold Daemon.s_wait_sig. by adds. Qed.
#[local] Hint Resolve s_send_sig_adds s_wait_sig_adds : adds.

Lemma fork_and_run_keeps c :
  keeps (creq c) (Daemon.fork_and_run (Some s_hdf5_init) (Some s_hdf5_write) c INIT_TIMEOUT).
Proof.
  unfold Daemon.fork_and_run, Daemon.run_fn. keeps_bind. intros pid.
  destruct (pid =? -1); [keeps_adds|]. destruct (0 <? pid); [keeps_adds|]. keeps_bind. intros _.
  keeps_bind. intros [rc [rd wr]]. destruct (rc =? -1); [keeps_adds|]. keeps_bind. intros pid2.
  destruct (pid2 =? -1); [keeps_adds|]. destruct (0 <? pid2); [keeps_adds|]. keeps_bind. intros _.
  keeps_bind. intros _. apply keeps_bind; [apply s_hdf5_init_keeps|]. intros [rc' c'].
  destruct (rc' =? -1); [keeps_adds|]. keeps_bind. intros sent. destruct (sent =? -1); [keeps_adds|].
  apply keeps_bind; [apply s_hdf5_write_keeps|]. intros [rc2 c2]. keeps_adds.
Qed.

Lemma hdf5_conv_keeps r : keeps r (hdf5_conv r).
Proof.
  unfold hdf5_conv. destruct (_ || _); [keeps_adds|]. keeps_bind. intros ds.
  destruct (existsb _ _); [keeps_adds|]. cbv zeta. set (c := Build_s_creq_data_t r (-1) (-1)).
  apply keeps_bind; [|intros [st c']; keeps_adds]. destruct (async r).
  - apply keeps_bind; [exact (fork_and_run_keeps c)|]. intros [rc c']. keeps_adds.
  - apply keeps_bind; [exact (s_hdf5_init_keeps c)|]. intros [rc c'].
    destruct (rc =? TES_CAP_REQ_OK); [apply s_hdf5_write_keeps|keeps_adds].
Qed.

(** ** The result *)

(** A conversion goes on from the calls before it. *)
Lemma hdf5_conv_adds r : adds (fun _ => True) (hdf5_conv r).
Proof.
  assert (Hh : forall A (m : sysM A), adds harmless m -> adds (fun _ => True) m)
    by (intros A m Hm; by eapply adds_mono).
  assert (Hg : forall lid g bkp name, adds (fun _ => True) (s_crt_grp lid g bkp name)).
  { intros. unfold s_crt_grp, move_grp. adds; try done; apply Hh; by adds. }
  assert (Hd : forall ds gid, adds (fun _ => True) (create_dsets ds gid)).
  { intros ds gid. induction ds as [|d ds IH]; cbn [create_dsets]; [by adds|].
    apply adds_bind; [unfold s_create_dset; by adds|]. intros rc. by adds. }
  assert (Hi : forall c, adds (fun _ => True) (s_hdf5_init c)).
  { intros c. unfold s_hdf5_init, open_file. adds; try done; try apply Hg; apply Hh; by adds. }
  unfold hdf5_conv, Daemon.fork_and_run, Daemon.run_fn, s_hdf5_write.
  adds; try done; try apply Hi; try apply Hd; apply Hh; by adds.
Qed.

Definition invalid (r : hdf5_conv_req_t) : bool :=
  empty_str (req_filename r) || empty_str (group r) || negb (not_null (dsets r)) ||
  (2 <? ovrwtmode r) || (num_dsets r =? 0).

Definition start (r : hdf5_conv_req_t) : s_creq_data_t :=
  {| creq := r; group_id := -1; file_id := -1 |}.

Lemma hdf5_conv_ok `{!Hdf5Laws} r fname name ds l hs :
  req_ok r fname name ds -> async r = false -> held l ≡ₚ hs ->
  swp (hdf5_conv r) (ok (fun st l' => held l' ≡ₚ hs /\
    if invalid r || existsb bad_dset ds then st = TES_CAP_REQ_EINV /\ l' = l
    else exists c' l1, s_hdf5_init (start r) l = (Done (st, c'), l1) /\
      (st = TES_CAP_REQ_OK \/ st = TES_CAP_REQ_EFAIL \/ st = TES_CAP_REQ_EABORT))) l.
Proof.
  intros Hr Ha Hh. pose proof Hr as [_ _ Hd Hn _]. unfold hdf5_conv. fold (invalid r).
  destruct (invalid r); cbn [orb]; [by swp_step|].
  apply swp_bind. unfold swp at 1. rewrite (the_dsets_eq _ ds) by done. cbn [fst snd].
  destruct (existsb bad_dset ds); [by swp_step|]. cbv zeta. rewrite Ha. fold (start r).
  pose proof (s_hdf5_init_ok (start r) fname name ds l hs Hr Hh) as Hinit.
  eapply (swp_seq _ _ (fun sc l' => held l' ≡ₚ hs /\ (exists ds', dsets (creq sc.2) = Some ds' /\
      num_dsets (creq sc.2) = Z.of_nat (List.length ds')) /\
      exists c' l1, s_hdf5_init (start r) l = (Done (sc.1, c'), l1) /\
      (sc.1 = TES_CAP_REQ_OK \/ sc.1 = TES_CAP_REQ_EFAIL \/ sc.1 = TES_CAP_REQ_EABORT))).
  - apply swp_bind. unfold swp in Hinit |- * at 1.
    destruct (s_hdf5_init (start r) l) as [[[st c]|f] l1]; [|done]. unfold init_post in Hinit. simpl in *.
    destruct Hinit as [(-> & Hh1 & ds' & Hd' & Hr' & Hn')|(Hst & Hh1 & ds' & Hd' & Hn')].
    + change (TES_CAP_REQ_OK =? TES_CAP_REQ_OK) with true. cbv iota.
      eapply swp_mono; [by apply (s_hdf5_write_ok c ds' l1 hs)|].
      intros [[rc c2]|f] l2; [|done]. intros [[= -> ->] Hh2]. split; [done|]. split; [by exists ds'|].
      exists c, l1. split; [done|by left].
    + destruct (Z.eqb_spec st TES_CAP_REQ_OK) as [->|]; [by destruct Hst|]. swp_step.
      split; [done|]. split; [by exists ds'|]. exists c, l1. split; [done|]. by right.
  - intros [st c'] l1 (Hh1 & (ds' & Hd' & Hn') & Hc). simpl in Hd', Hn'.
    apply swp_bind. unfold swp at 1. rewrite (the_dsets_eq _ ds') by done. cbn [fst snd].
    eapply swp_seq; [by apply unmap_ok with (hs := hs)|]. intros u l2 Hh2. by swp_step.
Qed.

(** The parent of the process that converts. *)
Lemma hdf5_conv_parent r fname name ds l :
  req_ok r fname name ds -> async r = true ->
  invalid r || existsb bad_dset ds = false ->
  sys_rc l SysFork <> 0 -> -1 <= sys_rc l SysFork ->
  (hdf5_conv r l).1 =
    Done (if sys_rc l SysFork =? -1 then TES_CAP_REQ_EFAIL else TES_CAP_REQ_OK).
Proof.
  intros [_ _ Hd Hn _] Ha Hv H0 H1. unfold hdf5_conv. fold (invalid r).
  apply orb_false_iff in Hv as [-> Hb].
  rewrite (sys_bind_Done _ _ l ds l) by by apply the_dsets_eq. rewrite Hb. cbv zeta.
  rewrite Ha. fold (start r).
  pose proof (Daemon.fork_and_run_parent (Some s_hdf5_init) (Some s_hdf5_write)
    (start r) INIT_TIMEOUT l H0 H1) as Hf.
  set (rc := if sys_rc l SysFork =? -1 then -1 else _) in Hf.
  destruct (Daemon.fork_and_run _ _ _ _ l) as [x l1] eqn:Ef. simpl in Hf. subst x.
  erewrite sys_bind_Done by (erewrite sys_bind_Done by exact Ef; done). cbv beta iota.
  erewrite sys_bind_Done by by apply (the_dsets_eq r ds).
  pose proof (unmap_ok ds l1 _ (reflexivity _)) as Hu. unfold swp in Hu.
  destruct (unmap ds l1) as [[u|] l2] eqn:Eu; [|done].
  erewrite sys_bind_Done by exact Eu. cbn [mret sys_ret fst]. f_equal. unfold rc.
  destruct (Z.eqb_spec (sys_rc l SysFork) (-1)) as [_|_]; [done|].
  pose proof (Daemon.WEXITSTATUS_range (sys_rc (l ++ [SysFork]) (SysWaitpid (sys_rc l SysFork)))).
  rewrite (proj2 (Z.eqb_neq _ _)) by lia. done.
Qed.

(** ** One dataset when all calls work *)

Lemma s_map_file_run d f l fd n addr :
  filename d = Some f -> buffer d = 0 -> length d <> 0 -> 0 <= n -> fd <> -1 -> addr <> -1 ->
  (forall l, sys_rc l (SysOpen f false false) = fd) -> (forall l, sys_rc l (SysLseekEnd fd) = n) ->
  (forall l k, sys_rc l (SysMmap fd k) = addr) ->
  exists d', dsetname d' = dsetname d /\
    match doc_range n (offset d) (length d) with
    | None => buffer d' = 0 /\ length d' = 0 /\ s_map_file d l = (Done (TES_CAP_REQ_OK, d'),
        l ++ [SysOpen f false false; SysLseekEnd fd; SysClose fd])
    | Some (off, len) => 0 <= off /\ 0 < len /\ off + len <= n /\
        buffer d' = addr /\ offset d' = off /\ length d' = len /\
        s_map_file d l = (Done (TES_CAP_REQ_OK, d'),
          l ++ [SysOpen f false false; SysLseekEnd fd; SysMmap fd (off + len); SysClose fd])
    end.
Proof.
  intros Ef Eb El Hn Hfd Ha Hopen Hseek Hmap. unfold s_map_file.
  rewrite !sys_run_assert by (first [by rewrite Ef | by apply Z.eqb_eq]).
  rewrite (proj2 (Z.eqb_neq _ _) El), Ef. change (str (Some f) ≫= ?k) with (k f). cbv beta.
  rewrite sys_run, Hopen, (proj2 (Z.eqb_neq _ _) Hfd).
  rewrite sys_run, Hseek, (proj2 (Z.eqb_neq n (-1))) by lia. cbv zeta.
  pose proof (doc_range_empty n (offset d) (length d) Hn El) as He.
  pose proof (doc_range_some n (offset d) (length d) Hn El) as Hs. cbv zeta in He, Hs.
  set (off := if offset d <? 0 then _ else _) in *.
  destruct ((n =? 0) || (n <=? off) || (off <? 0)) eqn:Ec.
  { exists (set_range d off 0). split; [done|]. rewrite He by done. split; [done|]. split; [done|].
    rewrite sys_run_, <- !app_assoc. done. }
  specialize (Hs eq_refl). bool_hyps. rewrite Hs.
  set (len := if _ || _ then _ else _) in *.
  assert (Hlen : 0 < len /\ off + len <= n).
  { unfold len. destruct (Z.ltb_spec (length d) 0), (Z.ltb_spec (n - off) (length d)); cbn [orb]; lia. }
  rewrite !sys_run_assert by lia. rewrite sys_run, Hmap, sys_run_, (proj2 (Z.eqb_neq _ _) Ha).
  exists (set_buffer (set_range d off len) addr). rewrite <- !app_assoc. repeat split; try done; lia.
Qed.

Lemma s_create_dset_run `{!Hdf5Laws} d nm gid l :
  dset_ready d -> dsetname d = Some nm ->
  (forall l c, opens c = true -> 0 < sys_rc l c) -> (forall l s a, 0 <= sys_rc l (H5Dwrite s a)) ->
  exists sp ds, s_create_dset d gid l = (Done TES_CAP_REQ_OK,
    l ++ [H5Screate (length d); H5Dcreate gid nm sp] ++
      (if length d =? 0 then [] else [H5Dwrite ds (buffer d + offset d)]) ++
      [H5Dclose ds; H5Sclose sp]).
Proof.
  intros [_ Hm He Hs] Enm Hid Hwr. unfold s_create_dset. rewrite Enm.
  change (mret nm ≫= ?k) with (k nm). cbv beta. rewrite sys_run_assert by lia. rewrite sys_run_assert.
  2:{ destruct (Z.eqb_spec (buffer d) 0); [apply Z.eqb_eq; auto|apply Z.ltb_lt, Hs; done]. }
  rewrite sys_run, (proj2 (Z.ltb_ge _ _)) by (pose proof (Hid l (H5Screate (length d)) eq_refl); lia).
  set (sp := sys_rc l _). rewrite sys_run. set (l1 := l ++ _). exists sp, (sys_rc l1 (H5Dcreate gid nm sp)).
  rewrite (proj2 (Z.ltb_ge _ _)) by (pose proof (Hid l1 (H5Dcreate gid nm sp) eq_refl); lia).
  set (ds := sys_rc l1 _). destruct (Z.eqb_spec (length d) 0) as [El|El].
  - rewrite !sys_run_. unfold l1. rewrite <- !app_assoc. done.
  - assert (Hb : buffer d <> 0) by auto. rewrite sys_run_assert by lia.
    rewrite sys_run_assert by (apply Z.leb_le, Hs; done).
    rewrite sys_run, !sys_run_. rewrite (proj2 (Z.ltb_ge _ _)) by apply Hwr.
    unfold l1. rewrite <- !app_assoc. done.
Qed.
End Held.
End Hdf5.

(** ** A sample library *)

Module Hdf5Sample.
(** Every call works; nothing exists yet; files have 100 bytes. *)
#[export] Instance env : SysEnv := {|
  sys_rc := fun l c =>
    if Hdf5.opens c then 1 + Z.of_nat (List.length l)
    else match c with
         | SysAccess _ => -1 | SysOpen _ _ _ => 5 | SysLseekEnd _ => 100 | SysMmap _ _ => 4096
         | SysWrite _ _ => 1 | SysTime => 1000 | _ => 0 end;
  sys_errno := fun _ _ => ENOENT;
  sys_path := fun _ _ => None;
  sys_bytes := fun _ _ => [];
  sys_pipe := fun _ => (3, 4) |}.

#[export] Instance laws : Hdf5.Hdf5Laws.
Proof.
  split.
  - intros l c Hc. unfold sys_rc, env. rewrite Hc. lia.
  - intros l fd. discriminate.
  - intros l fd n. discriminate.
Qed.

Definition dset (off len : Z) : Hdf5.hdf5_dset_desc_t := {|
  Hdf5.dsetname := Some (lit "fidx"); Hdf5.offset := off; Hdf5.length := len;
  Hdf5.filename := Some (lit "/a.fidx"); Hdf5.buffer := 0 |}.

Definition req (mode : Z) (async : bool) (ds : list Hdf5.hdf5_dset_desc_t) : Hdf5.hdf5_conv_req_t := {|
  Hdf5.req_filename := Some (lit "/a.hdf5"); Hdf5.group := Some (lit "run");
  Hdf5.dsets := Some ds; Hdf5.num_dsets := Z.of_nat (List.length ds);
  Hdf5.ovrwtmode := mode; Hdf5.async := async |}.

Lemma req_sample_ok mode async : Hdf5.req_ok (req mode async [dset 0 (-1)])
  (lit "/a.hdf5") (lit "run") [dset 0 (-1)].
Proof.
  split; try reflexivity. apply Forall_singleton. split; [discriminate|reflexivity|discriminate].
Qed.
End Hdf5Sample.

#[local] Existing Instances Hdf5Sample.env Hdf5Sample.laws.

(** ** Properties *)

(** C29: a conversion that is not asynchronous ends whatever the library and the
    system return, no assertion fails, and every file, group, dataspace and
    dataset that was opened is closed again on every path; a malformed request
    is refused before anything is called, and otherwise the status is that of
    the initialization. *)
Theorem conv_closes_all `{SysEnv} `{!Hdf5.Hdf5Laws} r fname name ds l :
  Hdf5.req_ok r fname name ds -> Hdf5.async r = false ->
  swp (Hdf5.hdf5_conv r) (ok (fun st l' => Hdf5.held l' ≡ₚ Hdf5.held l /\
    if Hdf5.invalid r || existsb Hdf5.bad_dset ds then st = TES_CAP_REQ_EINV /\ l' = l
    else exists c' l1, Hdf5.s_hdf5_init (Hdf5.start r) l = (Done (st, c'), l1) /\
      (st = TES_CAP_REQ_OK \/ st = TES_CAP_REQ_EFAIL \/ st = TES_CAP_REQ_EABORT))) l.
Proof. intros Hr Ha. by apply (Hdf5.hdf5_conv_ok r fname name ds l (Hdf5.held l)). Qed.

(** C30: no conversion loses data.  The only file it deletes is the HDF5 file, and
    only in the mode that overwrites it; the only file it creates, and so
    truncates if there is one, is the HDF5 file too, in that mode or right after
    access has failed on it, which the code takes for its absence.  A group is unlinked only in the mode
    that moves groups, right after the library has copied the link; only a
    dataset that has just been created is written, and no other file is opened
    so that it would be created.  It holds on every path, whatever the calls
    return, in each of the processes of an asynchronous conversion. *)
Theorem conv_keeps_data `{SysEnv} r : Hdf5.all_justified r (Hdf5.hdf5_conv r []).2.
Proof. apply Hdf5.hdf5_conv_keeps. intros [] ? ?; discriminate. Qed.

(** C31: when all calls work, the dataset gets the part of its file that the
    header promises for the given offset and length: that much is mapped, the
    dataset is created with its length and written from its start; an empty
    part makes an empty dataset and nothing is mapped or written. *)
Theorem dataset_gets_range `{SysEnv} `{!Hdf5.Hdf5Laws} d f nm n addr fd gid l :
  Hdf5.filename d = Some f -> Hdf5.dsetname d = Some nm -> Hdf5.buffer d = 0 ->
  Hdf5.length d <> 0 -> 0 <= n -> fd <> -1 -> addr <> -1 ->
  (forall l, sys_rc l (SysOpen f false false) = fd) -> (forall l, sys_rc l (SysLseekEnd fd) = n) ->
  (forall l k, sys_rc l (SysMmap fd k) = addr) ->
  (forall l c, Hdf5.opens c = true -> 0 < sys_rc l c) ->
  (forall l s a, 0 <= sys_rc l (H5Dwrite s a)) ->
  exists d' l1, Hdf5.s_map_file d l = (Done (TES_CAP_REQ_OK, d'), l1) /\
    exists sp ds,
    match Hdf5.doc_range n (Hdf5.offset d) (Hdf5.length d) with
    | None => l1 = l ++ [SysOpen f false false; SysLseekEnd fd; SysClose fd] /\
        Hdf5.s_create_dset d' gid l1 = (Done TES_CAP_REQ_OK, l1 ++
          [H5Screate 0; H5Dcreate gid nm sp; H5Dclose ds; H5Sclose sp])
    | Some (off, len) => 0 <= off /\ 0 < len /\ off + len <= n /\
        l1 = l ++ [SysOpen f false false; SysLseekEnd fd; SysMmap fd (off + len); SysClose fd] /\
        Hdf5.s_create_dset d' gid l1 = (Done TES_CAP_REQ_OK, l1 ++
          [H5Screate len; H5Dcreate gid nm sp; H5Dwrite ds (addr + off); H5Dclose ds; H5Sclose sp])
    end.
Proof.
  intros Ef En Eb El Hn Hfd Ha Hopen Hseek Hmap Hid Hwr.
  destruct (Hdf5.s_map_file_run d f l fd n addr) as (d' & En' & Hm); try done.
  rewrite En in En'. exists d'. destruct (Hdf5.doc_range _ _ _) as [[off len]|].
  - destruct Hm as (H1 & H2 & H3 & Hb & Ho & Hlen & E). eexists. split; [exact E|].
    destruct (Hdf5.s_create_dset_run d' nm gid (l ++ [SysOpen f false false; SysLseekEnd fd;
      SysMmap fd (off + len); SysClose fd])) as (sp & ds & Ec); try done.
    { assert (addr <> 0) by (rewrite <- (Hmap [] 0); apply Hdf5.mmap_rc).
      split; [by rewrite En'|lia|lia|lia]. }
    exists sp, ds. rewrite Hlen, (proj2 (Z.eqb_neq _ _)), Hb, Ho in Ec by lia. done.
  - destruct Hm as (Hb & Hlen & E). eexists. split; [exact E|].
    destruct (Hdf5.s_create_dset_run d' nm gid (l ++ [SysOpen f false false; SysLseekEnd fd;
      SysClose fd])) as (sp & ds & Ec); try done.
    { split; [by rewrite En'|lia|lia|lia]. }
    exists sp, ds. rewrite Hlen in Ec. done.
Qed.

(** a failure to write is not reported: the status of [s_hdf5_write] is
    always 0, so that once the initialization has succeeded the conversion
    returns success, whatever the library returns for the datasets. *)
Theorem conv_hides_write_errors `{SysEnv} `{!Hdf5.Hdf5Laws} r fname name ds l c l1 :
  Hdf5.req_ok r fname name ds -> Hdf5.async r = false ->
  Hdf5.invalid r || existsb Hdf5.bad_dset ds = false ->
  Hdf5.s_hdf5_init (Hdf5.start r) l = (Done (TES_CAP_REQ_OK, c), l1) ->
  (Hdf5.hdf5_conv r l).1 = Done TES_CAP_REQ_OK.
Proof.
  intros Hr Ha Hv Hi. pose proof (Hdf5.hdf5_conv_ok r fname name ds l _ Hr Ha (reflexivity _)) as Hc.
  rewrite Hv in Hc. unfold swp, ok in Hc. destruct (Hdf5.hdf5_conv r l) as [[st|] l2]; [|done].
  destruct Hc as (_ & c' & l1' & E & _). rewrite Hi in E. by injection E as <- _ _.
Qed.

(** An asynchronous conversion returns success to the server as soon as
    there is a child process, whatever becomes of it. *)
Theorem conv_async_blind `{SysEnv} r fname name ds l :
  Hdf5.req_ok r fname name ds -> Hdf5.async r = true ->
  Hdf5.invalid r || existsb Hdf5.bad_dset ds = false ->
  sys_rc l SysFork <> 0 -> -1 <= sys_rc l SysFork ->
  (Hdf5.hdf5_conv r l).1 =
    Done (if sys_rc l SysFork =? -1 then TES_CAP_REQ_EFAIL else TES_CAP_REQ_OK).
Proof. exact (Hdf5.hdf5_conv_parent r fname name ds l). Qed.

(** An error of the initialization is not reported through the pipe: the
    codes of the initializer are not -1, so the child signals success to its
    parent and goes on to write datasets that are not mapped, where it stops at
    an assertion. *)
Theorem async_init_error_aborts `{SysEnv} r d ds l l2 rd wr rc c l3 :
  Daemon.second_child l l2 rd wr ->
  Hdf5.s_hdf5_init (Hdf5.start r) l2 = (Done (rc, c), l3) -> rc <> -1 ->
  Hdf5.dsets (Hdf5.creq c) = Some (d :: ds) ->
  Hdf5.num_dsets (Hdf5.creq c) = Z.of_nat (List.length (d :: ds)) ->
  Hdf5.dsetname d <> None -> Hdf5.buffer d = 0 -> Hdf5.length d <> 0 ->
  sys_rc l3 (SysWrite wr DAEMON_OK_MSG) = 1 ->
  Daemon.fork_and_run (Some Hdf5.s_hdf5_init) (Some Hdf5.s_hdf5_write) (Hdf5.start r) INIT_TIMEOUT l =
    (Failed AssertFail, l3 ++ [SysWrite wr DAEMON_OK_MSG; SysClose wr]).
Proof.
  intros Hc Hi Hrc Hd Hn Hnm Hb Hlen Hw. rewrite (Daemon.fork_and_run_child _ _ _ _ l l2 rd wr Hc).
  cbn [Daemon.run_fn]. rewrite Hi, (proj2 (Z.eqb_neq _ _) Hrc), Hw. cbv zeta.
  change (1 =? 1) with true. cbv iota. unfold Hdf5.s_hdf5_write. cbv zeta.
  erewrite sys_bind_Done by by apply (Hdf5.the_dsets_eq _ (d :: ds)). cbn [Hdf5.create_dsets].
  unfold Hdf5.s_create_dset. destruct (Hdf5.dsetname d) as [nm|]; [|done].
  change (mret nm ≫= ?k) with (k nm). cbv beta. rewrite Hb. change (negb (0 =? -1)) with true.
  change (0 =? 0) with true. cbv iota. by rewrite (proj2 (Z.eqb_neq _ _) Hlen).
Qed.

Lemma conv_closes_all_witness :
  swp (Hdf5.hdf5_conv (Hdf5Sample.req TES_H5_OVRWT_RELINK false [Hdf5Sample.dset 0 (-1)]))
    (ok (fun st l' => Hdf5.held l' ≡ₚ [] /\
      exists c' l1, Hdf5.s_hdf5_init (Hdf5.start
          (Hdf5Sample.req TES_H5_OVRWT_RELINK false [Hdf5Sample.dset 0 (-1)])) [] = (Done (st, c'), l1) /\
        (st = TES_CAP_REQ_OK \/ st = TES_CAP_REQ_EFAIL \/ st = TES_CAP_REQ_EABORT))) [].
Proof.
  eapply swp_mono.
  - apply (conv_closes_all _ (lit "/a.hdf5") (lit "run") [Hdf5Sample.dset 0 (-1)] []).
    + apply Hdf5Sample.req_sample_ok.
    + reflexivity.
  - intros [st|f] l' Hc; exact Hc.
Defined.

Lemma dataset_gets_range_witness :
  exists d' l1, Hdf5.s_map_file (Hdf5Sample.dset (-16) 32) [] = (Done (TES_CAP_REQ_OK, d'), l1) /\
    exists sp ds, 0 <= 84 /\ 0 < 16 /\ 84 + 16 <= 100 /\
      l1 = [SysOpen (lit "/a.fidx") false false; SysLseekEnd 5; SysMmap 5 100; SysClose 5] /\
      Hdf5.s_create_dset d' 3 l1 = (Done TES_CAP_REQ_OK, l1 ++
        [H5Screate 16; H5Dcreate 3 (lit "fidx") sp; H5Dwrite ds 4180; H5Dclose ds; H5Sclose sp]).
Proof.
  apply (dataset_gets_range (Hdf5Sample.dset (-16) 32) (lit "/a.fidx") (lit "fidx") 100 4096 5 3 []);
    try reflexivity; try discriminate.
  intros l c Hc. unfold sys_rc, Hdf5Sample.env. rewrite Hc. lia.
Defined.

Lemma conv_hides_write_errors_witness :
  (Hdf5.hdf5_conv (Hdf5Sample.req TES_H5_OVRWT_NONE false [Hdf5Sample.dset 0 (-1)]) []).1
    = Done TES_CAP_REQ_OK.
Proof.
  eapply (conv_hides_write_errors _ (lit "/a.hdf5") (lit "run") [Hdf5Sample.dset 0 (-1)]).
  - apply Hdf5Sample.req_sample_ok.
  - reflexivity.
  - reflexivity.
  - vm_compute. reflexivity.
Defined.

(** A host where there is a child. *)
Definition parent_host : SysEnv := {|
  sys_rc := fun _ c => match c with SysFork => 77 | SysWaitpid _ => 256 | _ => 0 end;
  sys_errno := fun _ _ => 0; sys_path := fun _ _ => None; sys_bytes := fun _ _ => [];
  sys_pipe := fun _ => (3, 4) |}.

Lemma conv_async_blind_witness :
  (Hdf5.hdf5_conv (H := parent_host)
     (Hdf5Sample.req TES_H5_OVRWT_NONE true [Hdf5Sample.dset 0 (-1)]) []).1 = Done TES_CAP_REQ_OK.
Proof.
  apply (conv_async_blind (H := parent_host) _ (lit "/a.hdf5") (lit "run") [Hdf5Sample.dset 0 (-1)]).
  - apply Hdf5Sample.req_sample_ok.
  - reflexivity.
  - reflexivity.
  - discriminate.
  - discriminate.
Defined.

(** A child on a host where the HDF5 file cannot be created. *)
Definition child_host : SysEnv := {|
  sys_rc := fun _ c => match c with
    | SysFork => 0 | SysWrite _ _ => 1 | H5Fcreate _ => -1 | SysAccess _ => -1 | _ => 0 end;
  sys_errno := fun _ _ => 0; sys_path := fun _ _ => None; sys_bytes := fun _ _ => [];
  sys_pipe := fun _ => (3, 4) |}.

Lemma async_init_error_aborts_witness :
  (Daemon.fork_and_run (H := child_host) (Some (Hdf5.s_hdf5_init (H := child_host)))
     (Some (Hdf5.s_hdf5_write (H := child_host)))
     (Hdf5.start (Hdf5Sample.req TES_H5_OVRWT_NONE true [Hdf5Sample.dset 0 (-1)])) INIT_TIMEOUT []).1
    = Failed AssertFail.
Proof.
  erewrite (async_init_error_aborts (H := child_host) _ (Hdf5Sample.dset 0 (-1)) [] []).
  - reflexivity.
  - split; reflexivity || discriminate.
  - vm_compute. reflexivity.
  - discriminate.
  - reflexivity.
  - reflexivity.
  - discriminate.
  - reflexivity.
  - discriminate.
  - reflexivity.
Defined.
