(* ===== verification/Tespkt.v ===== *)
(** * Frames of the TES protocol (include/net/tespkt.h)

    A frame is the contents of the buffer a [tespkt*] points to.  The structs
    of the header are records with one field per C member; [load_*] decodes a
    struct from its byte offset (the layout that [tespkt_self_test] asserts),
    bit-fields in the order of a little-endian host.  The host and the payload
    byte order agree, so [ftohs] and [ftohl] are the identity; the ethernet
    type stays in network order. *)

From Stdlib Require Import ZArith Lia Strings.Byte Strings.String.
From stdpp Require Import base option list numbers decidable strings.
From S2P Require Import Prelude.

Open Scope Z_scope.

Definition tespkt : Type := bytes.

(** ** Constants *)

Definition ETHERTYPE_F_EVENT : Z := 0x88B5.
Definition ETHERTYPE_F_MCA : Z := 0x88B6.

Definition TESPKT_TYPE_PEAK : Z := 0.
Definition TESPKT_TYPE_AREA : Z := 1.
Definition TESPKT_TYPE_PULSE : Z := 2.
Definition TESPKT_TYPE_TRACE : Z := 3.
Definition TESPKT_TRACE_TYPE_SGL : Z := 0.
Definition TESPKT_TRACE_TYPE_AVG : Z := 1.
Definition TESPKT_TRACE_TYPE_DP : Z := 2.
Definition TESPKT_TRACE_TYPE_DPTR : Z := 3.

Definition TESPKT_HDR_LEN : Z := 24.
Definition TESPKT_MCA_HDR_LEN : Z := 40.
Definition TESPKT_TICK_HDR_LEN : Z := 24.
Definition TESPKT_PEAK_HDR_LEN : Z := 8.
Definition TESPKT_PEAK_LEN : Z := 8.
Definition TESPKT_AREA_HDR_LEN : Z := 8.
Definition TESPKT_PULSE_LEN : Z := 8.
Definition TESPKT_PULSE_HDR_LEN : Z := 16.
Definition TESPKT_TRACE_HDR_LEN : Z := 8.
Definition TESPKT_TRACE_FULL_HDR_LEN : Z := 16.
Definition TESPKT_MCA_BIN_LEN : Z := 4.
Definition TESPKT_MTU : Z := 1496.

Definition TES_HIST_MAXSIZE : Z := 65576.
Definition TES_AVGTR_MAXSIZE : Z := 65528.

(** [ntohs] and [htons] on a little-endian host. *)
Definition ntohs (x : Z) : Z :=
  Z.lor (Z.shiftl (Z.land x 0xff) 8) (Z.land (Z.shiftr x 8) 0xff).
Definition htons : Z -> Z := ntohs.
Definition ntohl (x : Z) : Z :=
  Z.lor (Z.shiftl (ntohs (Z.land x 0xffff)) 16)
        (ntohs (Z.land (Z.shiftr x 16) 0xffff)).

(** [ftohs] and [ftohl]: the payload has the byte order of the host. *)
Definition ftohs (x : Z) : Z := x.
Definition ftohl (x : Z) : Z := x.

(** ** Structs *)

(** The bit-field of [w] bits at bit [i] of a byte. *)
Definition bitfield (b i w : Z) : Z := Z.land (Z.shiftr b i) (Z.ones w).

Record tespkt_event_type : Type := {
  et_TR : Z;
  et_T : Z;
  et_PKT : Z;
}.

Definition load_event_type (m : bytes) (off : Z) : tespkt_event_type := {|
  et_TR := bitfield (load8 m off) 0 2;
  et_T := bitfield (load8 m (off + 1)) 1 1;
  et_PKT := bitfield (load8 m (off + 1)) 2 2;
|}.

Record tespkt_mca_flags : Type := {
  mf_Q : Z;
  mf_T : Z;
  mf_V : Z;
  mf_C : Z;
  mf_N : Z;
}.

Definition load_mca_flags (m : bytes) (off : Z) : tespkt_mca_flags := {|
  mf_Q := bitfield (load8 m (off + 1)) 0 4;
  mf_T := bitfield (load8 m (off + 2)) 0 4;
  mf_V := bitfield (load8 m (off + 2)) 4 4;
  mf_C := bitfield (load8 m (off + 3)) 0 3;
  mf_N := bitfield (load8 m (off + 3)) 3 5;
|}.

Record tespkt_event_flags : Type := {
  ef_CH : Z;
  ef_O : Z;
  ef_PC : Z;
  ef_N : Z;
  ef_T : Z;
  ef_PT : Z;
  ef_HT : Z;
  ef_TT : Z;
}.

Definition load_event_flags (m : bytes) (off : Z) : tespkt_event_flags := {|
  ef_CH := bitfield (load8 m off) 0 3;
  ef_O := bitfield (load8 m off) 3 1;
  ef_PC := bitfield (load8 m off) 4 4;
  ef_N := bitfield (load8 m (off + 1)) 0 1;
  ef_T := bitfield (load8 m (off + 1)) 1 1;
  ef_PT := bitfield (load8 m (off + 1)) 2 2;
  ef_HT := bitfield (load8 m (off + 1)) 4 2;
  ef_TT := bitfield (load8 m (off + 1)) 6 2;
|}.

Record tespkt_tick_flags : Type := {
  tf_TL : Z;
  tf_EL : Z;
  tf_MF : Z;
  tf_N : Z;
  tf_T : Z;
}.

Definition load_tick_flags (m : bytes) (off : Z) : tespkt_tick_flags := {|
  tf_TL := bitfield (load8 m off) 0 1;
  tf_EL := bitfield (load8 m off) 1 1;
  tf_MF := bitfield (load8 m off) 2 1;
  tf_N := bitfield (load8 m (off + 1)) 0 1;
  tf_T := bitfield (load8 m (off + 1)) 1 1;
|}.

Record tespkt_trace_flags : Type := {
  trf_STR : Z;
  trf_MP : Z;
  trf_MH : Z;
  trf_OFF : Z;
  trf_TS : Z;
  trf_TT : Z;
}.

Definition load_trace_flags (m : bytes) (off : Z) : tespkt_trace_flags := {|
  trf_STR := bitfield (load8 m off) 0 5;
  trf_MP := bitfield (load8 m off) 5 1;
  trf_MH := bitfield (load8 m off) 6 1;
  trf_OFF := bitfield (load8 m (off + 1)) 0 4;
  trf_TS := bitfield (load8 m (off + 1)) 4 2;
  trf_TT := bitfield (load8 m (off + 1)) 6 2;
|}.

Record tespkt_mca_hdr : Type := {
  mh_size : Z;
  mh_last_bin : Z;
  mh_lowest_value : Z;
  mh_most_frequent : Z;
  mh_flags : tespkt_mca_flags;
  mh_total : Z;
  mh_start_time : Z;
  mh_stop_time : Z;
}.

Definition load_mca_hdr (m : bytes) (off : Z) : tespkt_mca_hdr := {|
  mh_size := load16 m off;
  mh_last_bin := load16 m (off + 2);
  mh_lowest_value := load32 m (off + 4);
  mh_most_frequent := load16 m (off + 10);
  mh_flags := load_mca_flags m (off + 12);
  mh_total := load64 m (off + 16);
  mh_start_time := load64 m (off + 24);
  mh_stop_time := load64 m (off + 32);
|}.

Record tespkt_event_hdr : Type := {
  eh_flags : tespkt_event_flags;
  eh_toff : Z;
}.

Definition load_event_hdr (m : bytes) (off : Z) : tespkt_event_hdr := {|
  eh_flags := load_event_flags m (off + 4);
  eh_toff := load16 m (off + 6);
|}.

Record tespkt_tick_hdr : Type := {
  th_period : Z;
  th_flags : tespkt_tick_flags;
  th_toff : Z;
  th_ts : Z;
  th_ovrfl : Z;
  th_err : Z;
  th_cfd : Z;
  th_lost : Z;
}.

Definition load_tick_hdr (m : bytes) (off : Z) : tespkt_tick_hdr := {|
  th_period := load32 m off;
  th_flags := load_tick_flags m (off + 4);
  th_toff := load16 m (off + 6);
  th_ts := load64 m (off + 8);
  th_ovrfl := load8 m (off + 16);
  th_err := load8 m (off + 17);
  th_cfd := load8 m (off + 18);
  th_lost := load32 m (off + 20);
|}.

Record tespkt_peak_hdr : Type := {
  ph_height : Z;
  ph_rise_time : Z;
  ph_flags : tespkt_event_flags;
  ph_toff : Z;
}.

Definition load_peak_hdr (m : bytes) (off : Z) : tespkt_peak_hdr := {|
  ph_height := load16 m off;
  ph_rise_time := load16 m (off + 2);
  ph_flags := load_event_flags m (off + 4);
  ph_toff := load16 m (off + 6);
|}.

Record tespkt_peak_st : Type := {
  pk_height : Z;
  pk_rise_time : Z;
  pk_minimum : Z;
  pk_toff : Z;
}.

Definition load_peak (m : bytes) (off : Z) : tespkt_peak_st := {|
  pk_height := load16 m off;
  pk_rise_time := load16 m (off + 2);
  pk_minimum := load16 m (off + 4);
  pk_toff := load16 m (off + 6);
|}.

Record tespkt_area_hdr : Type := {
  ah_area : Z;
  ah_flags : tespkt_event_flags;
  ah_toff : Z;
}.

Definition load_area_hdr (m : bytes) (off : Z) : tespkt_area_hdr := {|
  ah_area := load32 m off;
  ah_flags := load_event_flags m (off + 4);
  ah_toff := load16 m (off + 6);
|}.

Record tespkt_pulse : Type := {
  pl_area : Z;
  pl_length : Z;
  pl_toffset : Z;
}.

Definition load_pulse (m : bytes) (off : Z) : tespkt_pulse := {|
  pl_area := load32 m off;
  pl_length := load16 m (off + 4);
  pl_toffset := load16 m (off + 6);
|}.

Record tespkt_pulse_hdr : Type := {
  plh_size : Z;
  plh_flags : tespkt_event_flags;
  plh_toff : Z;
  plh_pulse : tespkt_pulse;
}.

Definition load_pulse_hdr (m : bytes) (off : Z) : tespkt_pulse_hdr := {|
  plh_size := load16 m off;
  plh_flags := load_event_flags m (off + 4);
  plh_toff := load16 m (off + 6);
  plh_pulse := load_pulse m (off + 8);
|}.

Record tespkt_trace_hdr : Type := {
  trh_size : Z;
  trh_tr_flags : tespkt_trace_flags;
  trh_flags : tespkt_event_flags;
  trh_toff : Z;
}.

Definition load_trace_hdr (m : bytes) (off : Z) : tespkt_trace_hdr := {|
  trh_size := load16 m off;
  trh_tr_flags := load_trace_flags m (off + 2);
  trh_flags := load_event_flags m (off + 4);
  trh_toff := load16 m (off + 6);
|}.

Record tespkt_trace_full_hdr : Type := {
  tfh_trace : tespkt_trace_hdr;
  tfh_pulse : tespkt_pulse;
}.

Definition load_trace_full_hdr (m : bytes) (off : Z) : tespkt_trace_full_hdr := {|
  tfh_trace := load_trace_hdr m off;
  tfh_pulse := load_pulse m (off + 8);
|}.

(** The fixed part of [struct tespkt]: ethernet header, length, TES header. *)
Record tes_hdr : Type := {
  pk_ether_type : Z;
  pk_length : Z;
  pk_fseq : Z;
  pk_pseq : Z;
  pk_esize : Z;
  pk_etype : tespkt_event_type;
}.

Definition load_tes_hdr (m : bytes) : tes_hdr := {|
  pk_ether_type := load16 m 12;
  pk_length := load16 m 14;
  pk_fseq := load16 m 16;
  pk_pseq := load16 m 18;
  pk_esize := load16 m 20;
  pk_etype := load_event_type m 22;
|}.

(** Offset of [pkt->body]: ethernet header, length, TES header. *)
Definition body : Z := 14 + 2 + (2 + 2 + 2 + 2).

(** ** Accessors for any frame *)

Definition tespkt_flen (pkt : tespkt) : Z := ftohs (pk_length (load_tes_hdr pkt)).
Definition tespkt_fseq (pkt : tespkt) : Z := ftohs (pk_fseq (load_tes_hdr pkt)).
Definition tespkt_pseq (pkt : tespkt) : Z := ftohs (pk_pseq (load_tes_hdr pkt)).

Definition tespkt_is_header (pkt : tespkt) : bool :=
  pk_pseq (load_tes_hdr pkt) =? 0.

Definition tespkt_is_mca (pkt : tespkt) : bool :=
  pk_ether_type (load_tes_hdr pkt) =? ntohs ETHERTYPE_F_MCA.

Definition tespkt_is_event (pkt : tespkt) : bool :=
  pk_ether_type (load_tes_hdr pkt) =? ntohs ETHERTYPE_F_EVENT.

Definition tespkt_etype (pkt : tespkt) : tespkt_event_type :=
  pk_etype (load_tes_hdr pkt).

Definition tespkt_is_tick (pkt : tespkt) : bool :=
  tespkt_is_event pkt && (et_T (tespkt_etype pkt) =? 1).

Definition tespkt_is_peak (pkt : tespkt) : bool :=
  tespkt_is_event pkt && (et_PKT (tespkt_etype pkt) =? TESPKT_TYPE_PEAK)
  && (et_T (tespkt_etype pkt) =? 0).

Definition tespkt_is_area (pkt : tespkt) : bool :=
  tespkt_is_event pkt && (et_PKT (tespkt_etype pkt) =? TESPKT_TYPE_AREA)
  && (et_T (tespkt_etype pkt) =? 0).

Definition tespkt_is_pulse (pkt : tespkt) : bool :=
  tespkt_is_event pkt && (et_PKT (tespkt_etype pkt) =? TESPKT_TYPE_PULSE)
  && (et_T (tespkt_etype pkt) =? 0).

Definition tespkt_is_trace (pkt : tespkt) : bool :=
  tespkt_is_event pkt && (et_PKT (tespkt_etype pkt) =? TESPKT_TYPE_TRACE)
  && (et_T (tespkt_etype pkt) =? 0).

Definition tespkt_is_trace_sgl (pkt : tespkt) : bool :=
  tespkt_is_event pkt && (et_PKT (tespkt_etype pkt) =? TESPKT_TYPE_TRACE)
  && (et_T (tespkt_etype pkt) =? 0)
  && (et_TR (tespkt_etype pkt) =? TESPKT_TRACE_TYPE_SGL).

Definition tespkt_is_trace_avg (pkt : tespkt) : bool :=
  tespkt_is_event pkt && (et_PKT (tespkt_etype pkt) =? TESPKT_TYPE_TRACE)
  && (et_T (tespkt_etype pkt) =? 0)
  && (et_TR (tespkt_etype pkt) =? TESPKT_TRACE_TYPE_AVG).

Definition tespkt_is_trace_dp (pkt : tespkt) : bool :=
  tespkt_is_event pkt && (et_PKT (tespkt_etype pkt) =? TESPKT_TYPE_TRACE)
  && (et_T (tespkt_etype pkt) =? 0)
  && (et_TR (tespkt_etype pkt) =? TESPKT_TRACE_TYPE_DP).

Definition tespkt_is_trace_dptr (pkt : tespkt) : bool :=
  tespkt_is_event pkt && (et_PKT (tespkt_etype pkt) =? TESPKT_TYPE_TRACE)
  && (et_T (tespkt_etype pkt) =? 0)
  && (et_TR (tespkt_etype pkt) =? TESPKT_TRACE_TYPE_DPTR).

Definition tespkt_is_multipeak (pkt : tespkt) : bool :=
  tespkt_is_pulse pkt || (tespkt_is_trace pkt && negb (tespkt_is_trace_avg pkt)).

Definition tespkt_is_trace_long (pkt : tespkt) : bool :=
  tespkt_is_trace pkt && negb (tespkt_is_trace_dp pkt).

(** ** Accessors for MCA frames *)

Definition mca_hdr (pkt : tespkt) : tespkt_mca_hdr := load_mca_hdr pkt body.

Definition tespkt_mca_nbins (pkt : tespkt) : Z :=
  if tespkt_is_header pkt
  then to_u16 (Z.quot (tespkt_flen pkt - TESPKT_HDR_LEN - TESPKT_MCA_HDR_LEN)
                      TESPKT_MCA_BIN_LEN)
  else to_u16 (Z.quot (tespkt_flen pkt - TESPKT_HDR_LEN) TESPKT_MCA_BIN_LEN).

Definition tespkt_mca_nbins_tot (pkt : tespkt) : Z :=
  to_u16 (ftohl (mh_last_bin (mca_hdr pkt) + 1)).

(** TES_MCASIZE_BUG is defined: the size comes from the last bin. *)
Definition tespkt_mca_size (pkt : tespkt) : Z :=
  to_u32 (tespkt_mca_nbins_tot pkt * TESPKT_MCA_BIN_LEN + TESPKT_MCA_HDR_LEN).

Definition tespkt_mca_lvalue (pkt : tespkt) : Z :=
  to_u32 (ftohl (mh_lowest_value (mca_hdr pkt))).
Definition tespkt_mca_mfreq (pkt : tespkt) : Z :=
  to_u16 (ftohl (mh_most_frequent (mca_hdr pkt))).
Definition tespkt_mca_total (pkt : tespkt) : Z :=
  to_u64 (ftohl (mh_total (mca_hdr pkt))).
Definition tespkt_mca_startt (pkt : tespkt) : Z :=
  to_u64 (ftohl (mh_start_time (mca_hdr pkt))).
Definition tespkt_mca_stopt (pkt : tespkt) : Z :=
  to_u64 (ftohl (mh_stop_time (mca_hdr pkt))).

Definition tespkt_mca_bin (pkt : tespkt) (bin : Z) : Z :=
  if tespkt_is_header pkt
  then ftohl (load32 pkt (body + bin * TESPKT_MCA_BIN_LEN + TESPKT_MCA_HDR_LEN))
  else ftohl (load32 pkt (body + bin * TESPKT_MCA_BIN_LEN)).

Definition tespkt_mca_fl (pkt : tespkt) : tespkt_mca_flags := mh_flags (mca_hdr pkt).

(** ** Accessors for event frames *)

Definition tespkt_esize (pkt : tespkt) : Z := ftohs (pk_esize (load_tes_hdr pkt)).

Definition tespkt_true_esize (pkt : tespkt) : Z :=
  to_u16 (Z.shiftl (ftohs (pk_esize (load_tes_hdr pkt))) 3).

Definition tespkt_event_nums (pkt : tespkt) : exec Z :=
  if tespkt_is_trace pkt
  then mret (if tespkt_is_header pkt || tespkt_is_trace_dp pkt then 1 else 0)
  else if tespkt_true_esize pkt =? 0 then fail DivByZero
  else mret (to_u16 (Z.quot (tespkt_flen pkt - TESPKT_HDR_LEN)
                            (tespkt_true_esize pkt))).

(** Offset of event [e] in the frame. *)
Definition tespkt_ehdr (pkt : tespkt) (e : Z) : Z :=
  body + e * tespkt_true_esize pkt.

Definition tespkt_event_toff (pkt : tespkt) (e : Z) : Z :=
  ftohs (eh_toff (load_event_hdr pkt (tespkt_ehdr pkt e))).

Definition tespkt_event_area (pkt : tespkt) (e : Z) : Z :=
  if tespkt_is_area pkt
  then ftohs (ah_area (load_area_hdr pkt (tespkt_ehdr pkt e)))
  else ftohs (pl_area (plh_pulse (load_pulse_hdr pkt (tespkt_ehdr pkt e)))).

Definition tick_hdr (pkt : tespkt) : tespkt_tick_hdr := load_tick_hdr pkt body.

Definition tespkt_tick_period (pkt : tespkt) : Z := ftohs (th_period (tick_hdr pkt)).
Definition tespkt_tick_ts (pkt : tespkt) : Z := ftohs (th_ts (tick_hdr pkt)).
Definition tespkt_tick_ovrfl (pkt : tespkt) : Z := ftohs (th_ovrfl (tick_hdr pkt)).
Definition tespkt_tick_err (pkt : tespkt) : Z := ftohs (th_err (tick_hdr pkt)).
Definition tespkt_tick_cfd (pkt : tespkt) : Z := ftohs (th_cfd (tick_hdr pkt)).
Definition tespkt_tick_lost (pkt : tespkt) : Z := ftohs (th_lost (tick_hdr pkt)).

Definition tespkt_peak_height (pkt : tespkt) (e : Z) : Z :=
  ftohs (ph_height (load_peak_hdr pkt (tespkt_ehdr pkt e))).
Definition tespkt_peak_riset (pkt : tespkt) (e : Z) : Z :=
  ftohs (ph_rise_time (load_peak_hdr pkt (tespkt_ehdr pkt e))).

Definition tespkt_pulse_size (pkt : tespkt) (e : Z) : Z :=
  ftohs (plh_size (load_pulse_hdr pkt (tespkt_ehdr pkt e))).
Definition tespkt_pulse_area (pkt : tespkt) (e : Z) : Z :=
  ftohs (pl_area (plh_pulse (load_pulse_hdr pkt (tespkt_ehdr pkt e)))).
Definition tespkt_pulse_len (pkt : tespkt) (e : Z) : Z :=
  ftohs (pl_length (plh_pulse (load_pulse_hdr pkt (tespkt_ehdr pkt e)))).
Definition tespkt_pulse_toff (pkt : tespkt) (e : Z) : Z :=
  ftohs (pl_toffset (plh_pulse (load_pulse_hdr pkt (tespkt_ehdr pkt e)))).

(** TES_VERSION is 1. *)
Definition tespkt_peak_nums (pkt : tespkt) (e : Z) : Z :=
  ef_PC (eh_flags (load_event_hdr pkt (tespkt_ehdr pkt e))).

(** Offset of peak [p] of event [e]. *)
Definition tespkt_peak (pkt : tespkt) (e p : Z) : Z :=
  ftohs (tespkt_ehdr pkt e + TESPKT_PULSE_HDR_LEN + p * TESPKT_PEAK_LEN).

Definition tespkt_multipeak_height (pkt : tespkt) (e p : Z) : Z :=
  ftohs (pk_height (load_peak pkt (tespkt_peak pkt e p))).
Definition tespkt_multipeak_riset (pkt : tespkt) (e p : Z) : Z :=
  ftohs (pk_rise_time (load_peak pkt (tespkt_peak pkt e p))).
Definition tespkt_multipeak_min (pkt : tespkt) (e p : Z) : Z :=
  ftohs (pk_minimum (load_peak pkt (tespkt_peak pkt e p))).
Definition tespkt_multipeak_ptime (pkt : tespkt) (e p : Z) : Z :=
  ftohs (pk_toff (load_peak pkt (tespkt_peak pkt e p))).

Definition tespkt_trace_size (pkt : tespkt) : Z :=
  ftohs (trh_size (load_trace_hdr pkt body)).
Definition tespkt_trace_area (pkt : tespkt) : Z :=
  ftohs (pl_area (tfh_pulse (load_trace_full_hdr pkt body))).
Definition tespkt_trace_len (pkt : tespkt) : Z :=
  ftohs (pl_length (tfh_pulse (load_trace_full_hdr pkt body))).
Definition tespkt_trace_toff (pkt : tespkt) : Z :=
  ftohs (pl_toffset (tfh_pulse (load_trace_full_hdr pkt body))).

Definition tespkt_evt_fl (pkt : tespkt) (e : Z) : tespkt_event_flags :=
  eh_flags (load_event_hdr pkt (tespkt_ehdr pkt e)).
Definition tespkt_tick_fl (pkt : tespkt) : tespkt_tick_flags :=
  th_flags (tick_hdr pkt).
Definition tespkt_trace_fl (pkt : tespkt) : tespkt_trace_flags :=
  trh_tr_flags (load_trace_hdr pkt body).

(** ** Validity *)

Definition TES_EETHTYPE : Z := 1.
Definition TES_EETHLEN : Z := 2.
Definition TES_EEVTTYPE : Z := 4.
Definition TES_EEVTSIZE : Z := 8.
Definition TES_ETRSIZE : Z := 16.
Definition TES_EMCASIZE : Z := 32.
Definition TES_EMCABINS : Z := 64.

Definition _tespkt_errors : list string := [
  "Invalid ether type"; "Invalid frame length"; "Invalid event type";
  "Invalid event size"; "Invalid trace size"; "Invalid histogram size";
  "Invalid bin number in histogram" ]%string.

(** [if (b) rc |= e;] *)
Definition or_if (b : bool) (e rc : Z) : Z := if b then Z.lor rc e else rc.

(** The checks of an event frame, continuing from [rc]. *)
Definition is_valid_event (pkt : tespkt) (flen rc : Z) : Z :=
  let esize := tespkt_esize pkt in
  let rc :=
    if esize =? 0 then Z.lor rc TES_EEVTSIZE
    else or_if (negb (Z.rem (flen - TESPKT_HDR_LEN) (Z.shiftl esize 3) =? 0))
               TES_EETHLEN rc in
  if tespkt_is_tick pkt then
    let rc := or_if (negb (esize =? 3)) TES_EEVTSIZE rc in
    or_if (negb (flen =? TESPKT_HDR_LEN + TESPKT_TICK_HDR_LEN)) TES_EETHLEN rc
  else if tespkt_is_peak pkt || tespkt_is_area pkt then
    or_if (negb (esize =? 1)) TES_EEVTSIZE rc
  else if tespkt_is_trace pkt then
    let rc :=
      if tespkt_is_header pkt then
        let trsize := tespkt_trace_size pkt in
        let rc := or_if (trsize =? 0) TES_ETRSIZE rc in
        or_if (trsize <? flen - TESPKT_HDR_LEN) TES_ETRSIZE rc
      else rc in
    or_if (negb (tespkt_is_trace_dp pkt) && negb (esize =? 1)) TES_EEVTSIZE rc
  else or_if (negb (tespkt_is_pulse pkt)) TES_EEVTTYPE rc.

(** The checks of an MCA frame, continuing from [rc]. *)
Definition is_valid_mca (pkt : tespkt) (flen rc : Z) : Z :=
  if tespkt_is_header pkt then
    let nbins_tot := tespkt_mca_nbins_tot pkt in
    let histsize := tespkt_mca_size pkt in
    let rc := or_if (histsize <? to_u32 (flen - TESPKT_HDR_LEN)) TES_EMCASIZE rc in
    or_if (nbins_tot <=? tespkt_mca_mfreq pkt) TES_EMCABINS rc
  else rc.

Definition tespkt_is_valid (pkt : tespkt) : Z :=
  let rc := 0 in
  let flen := tespkt_flen pkt in
  let rc := or_if (c_true (Z.land flen 7) || (TESPKT_MTU <? flen)) TES_EETHLEN rc in
  let rc := or_if (flen <=? TESPKT_HDR_LEN) TES_EETHLEN rc in
  if tespkt_is_event pkt then is_valid_event pkt flen rc
  else if tespkt_is_mca pkt then is_valid_mca pkt flen rc
  else Z.lor rc TES_EETHTYPE.

(** ** Error strings *)

(** [_tespkt_errors[e]]; the array has seven entries. *)
Definition error_string (e : nat) : exec string :=
  match _tespkt_errors !! e with Some s => mret s | None => fail OutOfBounds end.

(** The loop of [tespkt_perror]; [err] is a 32-bit int, so 32 iterations
    shift out every bit of a non-negative one. *)
Fixpoint perror_loop (fuel : nat) (e : nat) (err : Z) : exec (list string) :=
  match fuel with
  | O => mret []
  | S fuel =>
      if err =? 0 then mret []
      else if c_true (Z.land err 1) then
        s ← error_string e;
        rest ← perror_loop fuel (S e) (Z.shiftr err 1);
        mret (s :: rest)
      else perror_loop fuel (S e) (Z.shiftr err 1)
  end.

Definition tespkt_perror (err : Z) : exec (list string) := perror_loop 32 0 err.

(** The shared search of [tespkt_error] and [tespkt_serror]: the index of the
    lowest set bit, and the value of [err] when it is found. *)
Fixpoint error_loop (fuel : nat) (e : nat) (err : Z) : option (nat * Z) :=
  match fuel with
  | O => None
  | S fuel =>
      if err =? 0 then None
      else if c_true (Z.land err 1) then Some (e, err)
      else error_loop fuel (S e) (Z.shiftr err 1)
  end.

(** NULL when no bit is set. *)
Definition tespkt_error (err : Z) : exec (option string) :=
  match error_loop 32 0 err with
  | Some (e, _) => s ← error_string e; mret (Some s)
  | None => mret None
  end.

(** The string written to the buffer (if any), and the returned value. *)
Definition tespkt_serror (err : Z) : exec (option string * Z) :=
  match error_loop 32 0 err with
  | Some (e, err') => s ← error_string e; mret (Some s, err')
  | None => mret (None, 0)
  end.

(** ** Specification of a valid frame *)

Definition valid_len (pkt : tespkt) : Prop :=
  (8 | tespkt_flen pkt) /\ TESPKT_HDR_LEN < tespkt_flen pkt <= TESPKT_MTU.

Definition payload_len (pkt : tespkt) : Z := tespkt_flen pkt - TESPKT_HDR_LEN.

Record valid_event (pkt : tespkt) : Prop := {
  ve_event : tespkt_is_event pkt = true;
  ve_esize : 0 < tespkt_esize pkt;
  ve_multiple : (8 * tespkt_esize pkt | payload_len pkt);
  ve_tick : tespkt_is_tick pkt = true ->
    tespkt_esize pkt = 3 /\ payload_len pkt = TESPKT_TICK_HDR_LEN;
  ve_fixed : tespkt_is_peak pkt = true \/ tespkt_is_area pkt = true ->
    tespkt_esize pkt = 1;
  ve_trace_hdr : tespkt_is_trace pkt = true -> tespkt_is_header pkt = true ->
    payload_len pkt <= tespkt_trace_size pkt;
  ve_trace : tespkt_is_trace pkt = true -> tespkt_is_trace_dp pkt = false ->
    tespkt_esize pkt = 1;
}.

Record valid_mca (pkt : tespkt) : Prop := {
  vm_mca : tespkt_is_mca pkt = true;
  vm_size : tespkt_is_header pkt = true -> payload_len pkt <= tespkt_mca_size pkt;
  vm_mfreq : tespkt_is_header pkt = true ->
    tespkt_mca_mfreq pkt < tespkt_mca_nbins_tot pkt;
}.

Definition valid_frame (pkt : tespkt) : Prop :=
  valid_len pkt /\ (valid_event pkt \/ valid_mca pkt).

(** ** Lemmas *)

Lemma bitfield_range b i w : 0 <= w -> 0 <= bitfield b i w < 2 ^ w.
Proof.
  intros Hw. unfold bitfield. rewrite Z.land_ones by done.
  apply Z.mod_pos_bound. lia.
Qed.

Lemma et_T_range pkt : 0 <= et_T (tespkt_etype pkt) < 2.
Proof. apply (bitfield_range _ 1 1). lia. Qed.

Lemma et_PKT_range pkt : 0 <= et_PKT (tespkt_etype pkt) < 4.
Proof. apply (bitfield_range _ 2 2). lia. Qed.

Lemma et_TR_range pkt : 0 <= et_TR (tespkt_etype pkt) < 4.
Proof. apply (bitfield_range _ 0 2). lia. Qed.

Lemma ef_CH_range m off : 0 <= ef_CH (load_event_flags m off) < 8.
Proof. apply (bitfield_range _ 0 3). lia. Qed.

Lemma tespkt_flen_range pkt : is_u16 (tespkt_flen pkt).
Proof. apply load16_range. Qed.
Lemma tespkt_fseq_range pkt : is_u16 (tespkt_fseq pkt).
Proof. apply load16_range. Qed.
Lemma tespkt_pseq_range pkt : is_u16 (tespkt_pseq pkt).
Proof. apply load16_range. Qed.
Lemma tespkt_esize_range pkt : is_u16 (tespkt_esize pkt).
Proof. apply load16_range. Qed.
Lemma tespkt_trace_size_range pkt : is_u16 (tespkt_trace_size pkt).
Proof. apply load16_range. Qed.
Lemma tespkt_mca_nbins_range pkt : is_u16 (tespkt_mca_nbins pkt).
Proof. unfold tespkt_mca_nbins. destruct (tespkt_is_header pkt); apply to_u16_range. Qed.
Lemma tespkt_mca_nbins_tot_range pkt : is_u16 (tespkt_mca_nbins_tot pkt).
Proof. apply to_u16_range. Qed.

#[export] Hint Resolve tespkt_flen_range tespkt_fseq_range tespkt_pseq_range
  tespkt_esize_range tespkt_trace_size_range tespkt_mca_nbins_range
  tespkt_mca_nbins_tot_range : tes.

Lemma tespkt_mca_size_eq pkt :
  tespkt_mca_size pkt = 4 * tespkt_mca_nbins_tot pkt + 40.
Proof.
  pose proof (tespkt_mca_nbins_tot_range pkt) as H. unfold is_u16 in H.
  unfold tespkt_mca_size, TESPKT_MCA_BIN_LEN, TESPKT_MCA_HDR_LEN.
  rewrite to_u32_id; [lia | unfold is_u32; lia].
Qed.

Lemma is_event_not_mca pkt : tespkt_is_event pkt = true -> tespkt_is_mca pkt = false.
Proof.
  unfold tespkt_is_event, tespkt_is_mca. intros H%Z.eqb_eq. rewrite H. reflexivity.
Qed.

Lemma is_mca_not_event pkt : tespkt_is_mca pkt = true -> tespkt_is_event pkt = false.
Proof.
  unfold tespkt_is_event, tespkt_is_mca. intros H%Z.eqb_eq. rewrite H. reflexivity.
Qed.

(** Open the type predicates into their conditions on the TES header. *)
Ltac unfold_kind :=
  unfold tespkt_is_multipeak, tespkt_is_trace_long, tespkt_is_tick,
    tespkt_is_peak, tespkt_is_area, tespkt_is_pulse, tespkt_is_trace,
    tespkt_is_trace_sgl, tespkt_is_trace_avg, tespkt_is_trace_dp,
    tespkt_is_trace_dptr, TESPKT_TYPE_PEAK, TESPKT_TYPE_AREA,
    TESPKT_TYPE_PULSE, TESPKT_TYPE_TRACE, TESPKT_TRACE_TYPE_SGL,
    TESPKT_TRACE_TYPE_AVG, TESPKT_TRACE_TYPE_DP, TESPKT_TRACE_TYPE_DPTR in *.

Lemma is_tick_event pkt : tespkt_is_tick pkt = true -> tespkt_is_event pkt = true.
Proof. unfold_kind. intros. bool_hyps. done. Qed.

Lemma is_trace_event pkt : tespkt_is_trace pkt = true -> tespkt_is_event pkt = true.
Proof. unfold_kind. intros. bool_hyps. done. Qed.

Lemma is_trace_avg_trace pkt :
  tespkt_is_trace_avg pkt = true -> tespkt_is_trace pkt = true.
Proof. unfold_kind. intros H. bool_hyps. apply andb_true_iff; split; [|lia]. apply andb_true_iff; split; [done|lia]. Qed.

Lemma is_trace_long_event pkt :
  tespkt_is_trace_long pkt = true -> tespkt_is_event pkt = true.
Proof. unfold_kind. intros. bool_hyps. done. Qed.

Lemma is_tick_not_trace pkt : tespkt_is_tick pkt = true -> tespkt_is_trace pkt = false.
Proof.
  unfold_kind. intros H. bool_hyps. rewrite H0. apply andb_false_iff. right. done.
Qed.

(** The five kinds of event frames exclude each other and cover all events:
    the truth values of the five predicates, as a view. *)
Inductive event_view : bool -> bool -> bool -> bool -> bool -> Prop :=
  | ViewTick : event_view true false false false false
  | ViewPeak : event_view false true false false false
  | ViewArea : event_view false false true false false
  | ViewPulse : event_view false false false true false
  | ViewTrace : event_view false false false false true.

Lemma event_viewP pkt :
  tespkt_is_event pkt = true ->
  event_view (tespkt_is_tick pkt) (tespkt_is_peak pkt) (tespkt_is_area pkt)
    (tespkt_is_pulse pkt) (tespkt_is_trace pkt).
Proof.
  intros He. unfold_kind. rewrite He, !andb_true_l.
  pose proof (et_T_range pkt) as HT. pose proof (et_PKT_range pkt) as HP.
  assert (et_T (tespkt_etype pkt) = 0 \/ et_T (tespkt_etype pkt) = 1)
    as [-> | ->] by lia;
  assert (et_PKT (tespkt_etype pkt) = 0 \/ et_PKT (tespkt_etype pkt) = 1 \/
          et_PKT (tespkt_etype pkt) = 2 \/ et_PKT (tespkt_etype pkt) = 3)
    as [-> | [-> | [-> | ->]]] by lia; constructor.
Qed.

Lemma or_if_testbit b e rc i :
  Z.testbit (or_if b e rc) i = Z.testbit rc i || (b && Z.testbit e i).
Proof.
  unfold or_if. destruct b; simpl.
  - apply Z.lor_spec.
  - rewrite orb_false_r. done.
Qed.

Lemma or_if_nonneg b e rc : 0 <= rc -> 0 <= e -> 0 <= or_if b e rc.
Proof. intros. unfold or_if. destruct b; [apply Z.lor_nonneg|]; done. Qed.

Lemma or_if_zero b e rc :
  0 < e -> or_if b e rc = 0 <-> b = false /\ rc = 0.
Proof.
  intros He. unfold or_if. destruct b.
  - rewrite Z.lor_eq_0_iff. lia.
  - tauto.
Qed.

Lemma lor_or_if rc e : Z.lor rc e = or_if true e rc.
Proof. reflexivity. Qed.

Lemma land_7_mod x : Z.land x 7 = x mod 8.
Proof. apply (Z.land_ones x 3). lia. Qed.

Lemma rem_shiftl_zero a n :
  0 <= a -> 0 < n -> Z.rem a (Z.shiftl n 3) = 0 <-> (8 * n | a).
Proof.
  intros Ha Hn. rewrite Z.shiftl_mul_pow2 by lia.
  replace (n * 2 ^ 3) with (8 * n) by lia.
  rewrite Z.rem_mod_nonneg by lia. apply Z.mod_divide. lia.
Qed.

Lemma rc_len_zero flen :
  is_u16 flen ->
  or_if (flen <=? TESPKT_HDR_LEN) TES_EETHLEN
    (or_if (c_true (Z.land flen 7) || (TESPKT_MTU <? flen)) TES_EETHLEN 0) = 0 <->
  (8 | flen) /\ TESPKT_HDR_LEN < flen <= TESPKT_MTU.
Proof.
  intros Hr. rewrite !or_if_zero by (unfold TES_EETHLEN; lia).
  unfold c_true. rewrite land_7_mod, <- Z.mod_divide by lia.
  split.
  - intros [H1 [H2 _]]. bool_hyps. lia.
  - intros [H1 H2]. repeat split; lia.
Qed.

(** The specification of an event frame with the five kind predicates as
    arguments, to reason by cases on them. *)
Definition event_ok (tick peak area pulse trace hdr dp : bool)
    (esize plen trsize : Z) : Prop :=
  0 < esize /\ (8 * esize | plen) /\
  (tick = true -> esize = 3 /\ plen = TESPKT_TICK_HDR_LEN) /\
  (peak = true \/ area = true -> esize = 1) /\
  (trace = true -> hdr = true -> plen <= trsize) /\
  (trace = true -> dp = false -> esize = 1).

Lemma valid_event_ok pkt :
  valid_event pkt <->
  tespkt_is_event pkt = true /\
  event_ok (tespkt_is_tick pkt) (tespkt_is_peak pkt) (tespkt_is_area pkt)
    (tespkt_is_pulse pkt) (tespkt_is_trace pkt) (tespkt_is_header pkt)
    (tespkt_is_trace_dp pkt) (tespkt_esize pkt) (payload_len pkt)
    (tespkt_trace_size pkt).
Proof.
  unfold event_ok. split.
  - intros []. repeat (split; [assumption|]). assumption.
  - intros (?&?&?&?&?&?&?). split; assumption.
Qed.

Lemma is_valid_event_zero pkt rc :
  tespkt_is_event pkt = true -> TESPKT_HDR_LEN < tespkt_flen pkt ->
  is_valid_event pkt (tespkt_flen pkt) rc = 0 <-> rc = 0 /\ valid_event pkt.
Proof.
  intros He Hl. pose proof (tespkt_esize_range pkt) as Hes. unfold is_u16 in Hes.
  pose proof (tespkt_trace_size_range pkt) as Htr. unfold is_u16 in Htr.
  rewrite valid_event_ok. unfold is_valid_event. rewrite lor_or_if.
  fold (payload_len pkt).
  assert (Hp : tespkt_flen pkt = payload_len pkt + TESPKT_HDR_LEN)
    by (unfold payload_len; lia).
  rewrite Hp in *. clear Hp. unfold TESPKT_HDR_LEN, TESPKT_TICK_HDR_LEN in *.
  assert (Hsz : (if tespkt_esize pkt =? 0 then or_if true TES_EEVTSIZE rc
     else or_if (negb (Z.rem (payload_len pkt) (Z.shiftl (tespkt_esize pkt) 3) =? 0))
            TES_EETHLEN rc) = 0
     <-> rc = 0 /\ 0 < tespkt_esize pkt /\ (8 * tespkt_esize pkt | payload_len pkt)).
  { destruct (Z.eqb_spec (tespkt_esize pkt) 0) as [E|E];
      rewrite or_if_zero by (unfold TES_EEVTSIZE, TES_EETHLEN; lia).
    - split; [intros [[=] _] | lia].
    - rewrite <- rem_shiftl_zero by lia. rewrite negb_false_iff, Z.eqb_eq.
      split; intros; repeat split; try tauto; lia. }
  revert Hsz. generalize (if tespkt_esize pkt =? 0 then or_if true TES_EEVTSIZE rc
     else or_if (negb (Z.rem (payload_len pkt) (Z.shiftl (tespkt_esize pkt) 3) =? 0))
            TES_EETHLEN rc). intros rc' Hsz.
  unfold event_ok, TESPKT_TICK_HDR_LEN. destruct (event_viewP pkt He); simpl orb; cbv iota;
    [..|destruct (tespkt_is_header pkt), (tespkt_is_trace_dp pkt)];
    rewrite ?or_if_zero, Hsz
      by (unfold TES_EEVTSIZE, TES_EETHLEN, TES_ETRSIZE, TES_EEVTTYPE; lia);
    simpl negb; rewrite ?andb_true_l, ?andb_false_l, ?negb_false_iff, ?Z.eqb_eq,
      ?Z.ltb_ge, ?Z.eqb_neq;
    intuition (try congruence; try lia).
Qed.

Lemma is_valid_mca_zero pkt rc :
  tespkt_is_mca pkt = true -> TESPKT_HDR_LEN < tespkt_flen pkt ->
  is_valid_mca pkt (tespkt_flen pkt) rc = 0 <-> rc = 0 /\ valid_mca pkt.
Proof.
  intros Hm Hl. pose proof (tespkt_flen_range pkt) as Hf. unfold is_u16 in Hf.
  unfold is_valid_mca. fold (payload_len pkt).
  rewrite to_u32_id by (unfold is_u32, payload_len, TESPKT_HDR_LEN in *; lia).
  destruct (tespkt_is_header pkt) eqn:Eh.
  - rewrite !or_if_zero by (unfold TES_EMCASIZE, TES_EMCABINS; lia).
    rewrite Z.ltb_ge, Z.leb_gt. split.
    + intros (?&?&?). split; [done|]. split; auto.
    + intros (?&[]). auto.
  - split; [intros ?; split; [done|]; split; congruence | tauto].
Qed.

Lemma or_if_len_nonneg flen :
  0 <= or_if (flen <=? TESPKT_HDR_LEN) TES_EETHLEN
    (or_if (c_true (Z.land flen 7) || (TESPKT_MTU <? flen)) TES_EETHLEN 0).
Proof. unfold TES_EETHLEN. repeat apply or_if_nonneg; lia. Qed.

(** When the length check has already failed, the error stays set. *)
Lemma is_valid_event_keeps pkt flen rc :
  0 < rc -> is_valid_event pkt flen rc <> 0.
Proof.
  intros Hrc. unfold is_valid_event. rewrite lor_or_if.
  repeat case_if; rewrite ?or_if_zero
    by (unfold TES_EEVTSIZE, TES_EETHLEN, TES_ETRSIZE, TES_EEVTTYPE; lia);
    intuition lia.
Qed.

Lemma is_valid_mca_keeps pkt flen rc : 0 < rc -> is_valid_mca pkt flen rc <> 0.
Proof.
  intros Hrc. unfold is_valid_mca. case_if;
    rewrite ?or_if_zero by (unfold TES_EMCASIZE, TES_EMCABINS; lia); intuition lia.
Qed.

Lemma valid_iff pkt : tespkt_is_valid pkt = 0 <-> valid_frame pkt.
Proof.
  unfold tespkt_is_valid, valid_frame, valid_len.
  pose proof (rc_len_zero _ (tespkt_flen_range pkt)) as Hlen.
  pose proof (or_if_len_nonneg (tespkt_flen pkt)) as Hnn.
  rewrite <- Hlen. revert Hlen Hnn.
  generalize (or_if (tespkt_flen pkt <=? TESPKT_HDR_LEN) TES_EETHLEN
    (or_if (c_true (Z.land (tespkt_flen pkt) 7) || (TESPKT_MTU <? tespkt_flen pkt))
       TES_EETHLEN 0)). intros rc Hlen Hnn.
  destruct (tespkt_is_event pkt) eqn:He; [|destruct (tespkt_is_mca pkt) eqn:Hm].
  - destruct (Z.eq_dec rc 0) as [E|E].
    + rewrite is_valid_event_zero by (done || lia).
      pose proof (is_event_not_mca pkt He). split; [tauto|].
      intros [? [?|[]]]; [tauto|congruence].
    + pose proof (is_valid_event_keeps pkt (tespkt_flen pkt) rc). intuition lia.
  - destruct (Z.eq_dec rc 0) as [E|E].
    + rewrite is_valid_mca_zero by (done || lia). split; [tauto|].
      intros [? [[]|?]]; [congruence|tauto].
    + pose proof (is_valid_mca_keeps pkt (tespkt_flen pkt) rc). intuition lia.
  - rewrite Z.lor_eq_0_iff. unfold TES_EETHTYPE. split; [lia|].
    intros [_ [[]|[]]]; congruence.
Qed.

#[export] Instance valid_frame_dec pkt : Decision (valid_frame pkt).
Proof.
  destruct (decide (tespkt_is_valid pkt = 0)) as [H|H].
  - left. apply valid_iff, H.
  - right. intros Hv. apply H, valid_iff, Hv.
Defined.

Lemma valid_frame_len pkt : valid_frame pkt ->
  (8 | payload_len pkt) /\ 8 <= payload_len pkt <= 1472 /\
  tespkt_flen pkt = 24 + payload_len pkt.
Proof.
  intros [[[k Hk] Hl] _]. unfold payload_len, TESPKT_HDR_LEN, TESPKT_MTU in *.
  split; [exists (k - 3); lia | lia].
Qed.

Lemma valid_frame_event pkt :
  valid_frame pkt -> tespkt_is_event pkt = true -> valid_event pkt.
Proof.
  intros [_ [H|[]]] He; [done|]. pose proof (is_event_not_mca pkt He). congruence.
Qed.

Lemma valid_frame_mca pkt :
  valid_frame pkt -> tespkt_is_mca pkt = true -> valid_mca pkt.
Proof.
  intros [_ [[]|H]] He; [|done]. pose proof (is_mca_not_event pkt He). congruence.
Qed.

(** In a valid event frame the event size is not truncated to 16 bits. *)
Lemma valid_true_esize pkt :
  valid_frame pkt -> tespkt_is_event pkt = true ->
  tespkt_true_esize pkt = 8 * tespkt_esize pkt /\
  0 < tespkt_true_esize pkt <= payload_len pkt /\
  (tespkt_true_esize pkt | payload_len pkt).
Proof.
  intros Hv He. pose proof (valid_frame_event pkt Hv He) as [_ Hes Hm _ _ _ _].
  pose proof (valid_frame_len pkt Hv) as (_ & Hl & _).
  assert (Hle : 8 * tespkt_esize pkt <= payload_len pkt)
    by (apply Z.divide_pos_le; [lia|done]).
  assert (E : tespkt_true_esize pkt = 8 * tespkt_esize pkt).
  { unfold tespkt_true_esize. fold (tespkt_esize pkt).
    rewrite Z.shiftl_mul_pow2 by lia.
    rewrite to_u16_id by (unfold is_u16; lia). lia. }
  rewrite E. split; [done|]. split; [lia|done].
Qed.

Lemma valid_event_nums pkt :
  valid_frame pkt -> tespkt_is_event pkt = true -> tespkt_is_trace pkt = false ->
  exists n, tespkt_event_nums pkt = Done n /\ 1 <= n <= 184 /\
    n * tespkt_true_esize pkt = payload_len pkt.
Proof.
  intros Hv He Hr. pose proof (valid_true_esize pkt Hv He) as (Ht & Hpos & [k Hk]).
  pose proof (valid_frame_len pkt Hv) as (_ & Hl & _).
  assert (1 <= k <= 184) by nia.
  exists k. unfold tespkt_event_nums. rewrite Hr.
  destruct (Z.eqb_spec (tespkt_true_esize pkt) 0); [lia|].
  fold (payload_len pkt). rewrite Hk, Z.quot_mul by lia.
  rewrite to_u16_id by (unfold is_u16; lia). split; [done|]. split; lia.
Qed.

Lemma trace_event_nums pkt :
  tespkt_is_trace pkt = true ->
  tespkt_event_nums pkt =
    Done (if tespkt_is_header pkt || tespkt_is_trace_dp pkt then 1 else 0).
Proof. intros H. unfold tespkt_event_nums. rewrite H. done. Qed.

Lemma valid_event_nums_done pkt :
  valid_frame pkt -> tespkt_is_event pkt = true ->
  exists n, tespkt_event_nums pkt = Done n /\ 0 <= n <= 184.
Proof.
  intros Hv He. destruct (tespkt_is_trace pkt) eqn:Er.
  - rewrite (trace_event_nums pkt Er). eexists; split; [done|].
    case_if; lia.
  - destruct (valid_event_nums pkt Hv He Er) as (n & ? & ? & _).
    exists n. split; [done|lia].
Qed.

Lemma valid_tick_nums pkt :
  valid_frame pkt -> tespkt_is_tick pkt = true -> tespkt_event_nums pkt = Done 1.
Proof.
  intros Hv Ht. pose proof (is_tick_event pkt Ht) as He.
  destruct (valid_event_nums pkt Hv He (is_tick_not_trace pkt Ht))
    as (n & Hn & _ & Hk).
  pose proof (valid_frame_event pkt Hv He) as [_ _ _ Htk _ _ _].
  destruct (Htk Ht) as [Hes Hpl]. unfold TESPKT_TICK_HDR_LEN in Hpl.
  destruct (valid_true_esize pkt Hv He) as (E & _ & _).
  rewrite Hn. f_equal. nia.
Qed.

(** The bins of a valid MCA frame fill its payload, after the MCA header in a
    header frame that has room for one. *)
Lemma mca_nbins_cont pkt :
  valid_frame pkt -> tespkt_is_header pkt = false ->
  payload_len pkt = 4 * tespkt_mca_nbins pkt.
Proof.
  intros Hv Hh. pose proof (valid_frame_len pkt Hv) as ([k Hk] & Hl & _).
  unfold tespkt_mca_nbins. rewrite Hh. fold (payload_len pkt).
  unfold TESPKT_MCA_BIN_LEN. rewrite Hk.
  replace (k * 8) with ((2 * k) * 4) by lia. rewrite Z.quot_mul by lia.
  rewrite to_u16_id by (unfold is_u16; lia). lia.
Qed.

Lemma mca_nbins_hdr pkt :
  valid_frame pkt -> tespkt_is_header pkt = true ->
  TESPKT_MCA_HDR_LEN <= payload_len pkt ->
  payload_len pkt = TESPKT_MCA_HDR_LEN + 4 * tespkt_mca_nbins pkt.
Proof.
  intros Hv Hh Hm. pose proof (valid_frame_len pkt Hv) as ([k Hk] & Hl & _).
  unfold tespkt_mca_nbins. rewrite Hh. fold (payload_len pkt).
  unfold TESPKT_MCA_BIN_LEN, TESPKT_MCA_HDR_LEN in *. rewrite Hk.
  replace (k * 8 - 40) with ((2 * k - 10) * 4) by lia. rewrite Z.quot_mul by lia.
  rewrite to_u16_id by (unfold is_u16; lia). lia.
Qed.

(** ** Error codes *)

Definition error_bits : list Z :=
  [TES_EETHTYPE; TES_EETHLEN; TES_EEVTTYPE; TES_EEVTSIZE; TES_ETRSIZE;
   TES_EMCASIZE; TES_EMCABINS].

Lemma or_if_u7 b e rc : 0 <= rc < 128 -> In e error_bits -> 0 <= or_if b e rc < 128.
Proof.
  intros Hrc He. unfold or_if. destruct b; [|done].
  assert (0 <= e < 128) by (simpl in He; unfold TES_EETHTYPE, TES_EETHLEN, TES_EEVTTYPE, TES_EEVTSIZE,
      TES_ETRSIZE, TES_EMCASIZE, TES_EMCABINS in He; lia).
  split; [apply Z.lor_nonneg; lia|].
  destruct (Z.eq_dec (Z.lor rc e) 0) as [->|Hne]; [lia|].
  assert (0 <= Z.lor rc e) by (apply Z.lor_nonneg; lia).
  apply (Z.log2_lt_pow2 _ 7); [lia|]. rewrite Z.log2_lor by lia.
  apply Z.max_lub_lt.
  - destruct (Z.eq_dec rc 0) as [->|]; [cbn; lia|]. apply Z.log2_lt_pow2; lia.
  - destruct (Z.eq_dec e 0) as [->|]; [cbn; lia|]. apply Z.log2_lt_pow2; lia.
Qed.

Lemma is_valid_u7 pkt : 0 <= tespkt_is_valid pkt < 128.
Proof.
  assert (Hor : forall b e rc, 0 <= rc < 128 -> In e error_bits ->
    0 <= or_if b e rc < 128) by exact or_if_u7.
  unfold tespkt_is_valid, is_valid_event, is_valid_mca. rewrite !lor_or_if.
  repeat case_if; repeat (apply Hor; [|simpl; tauto]); lia.
Qed.

(** The strings of the error bits set in [err], lowest bit first. *)
Definition error_strings (err : Z) : list string :=
  omap (fun e => if Z.testbit err (Z.of_nat e) then _tespkt_errors !! e else None)
    (seq 0 7).

Lemma forall_below (n : nat) (P : Z -> Prop) :
  Forall (fun k => P (Z.of_nat k)) (seq 0 n) -> forall z, 0 <= z < Z.of_nat n -> P z.
Proof.
  intros H z Hz. rewrite List.Forall_forall in H.
  specialize (H (Z.to_nat z)). rewrite Z2Nat.id in H by lia. apply H.
  apply in_seq. lia.
Qed.

Lemma perror_spec err :
  0 <= err < 128 -> tespkt_perror err = Done (error_strings err).
Proof.
  apply (forall_below 128 (fun err => tespkt_perror err = Done (error_strings err))).
  repeat constructor.
Qed.

Lemma error_spec err :
  0 <= err < 128 -> tespkt_error err = Done (head (error_strings err)).
Proof.
  apply (forall_below 128
    (fun err => tespkt_error err = Done (head (error_strings err)))).
  repeat constructor.
Qed.

Lemma serror_spec err :
  0 < err < 128 ->
  exists s, tespkt_serror err =
    Done (Some s, Z.shiftr err (Z.log2 (Z.land err (- err)))) /\
    head (error_strings err) = Some s.
Proof.
  intros H. assert (H' : 0 <= err - 1 < 127) by lia.
  replace err with (err - 1 + 1) by lia. revert H'. generalize (err - 1). clear.
  apply (forall_below 127 (fun z => exists s, tespkt_serror (z + 1) =
    Done (Some s, Z.shiftr (z + 1) (Z.log2 (Z.land (z + 1) (- (z + 1))))) /\
    head (error_strings (z + 1)) = Some s)).
  repeat constructor; eexists; split; vm_compute; reflexivity.
Qed.

(** ** The self test *)

(** Assignment to a bit-field of the byte at [off]. *)
Definition set_bitfield (b i w v : Z) : Z :=
  Z.lor (Z.land b (Z.lnot (Z.shiftl (Z.ones w) i)))
        (Z.shiftl (Z.land v (Z.ones w)) i).
Definition set_bits (m : bytes) (off i w v : Z) : bytes :=
  store8 m off (set_bitfield (load8 m off) i w v).

Definition set_et_TR (m : bytes) (off v : Z) : bytes := set_bits m off 0 2 v.
Definition set_et_T (m : bytes) (off v : Z) : bytes := set_bits m (off + 1) 1 1 v.
Definition set_et_PKT (m : bytes) (off v : Z) : bytes := set_bits m (off + 1) 2 2 v.

Definition sizeof_mca_hdr : Z := 2 + 2 + 4 + 2 + 2 + 4 + 8 + 8 + 8.
Definition sizeof_tick_hdr : Z := 4 + 2 + 2 + 8 + 1 + 1 + 1 + 1 + 4.
Definition sizeof_peak_hdr : Z := 2 + 2 + 2 + 2.
Definition sizeof_peak : Z := 2 + 2 + 2 + 2.
Definition sizeof_area_hdr : Z := 4 + 2 + 2.
Definition sizeof_pulse : Z := 4 + 2 + 2.
Definition sizeof_pulse_hdr : Z := 2 + 2 + 2 + 2 + sizeof_pulse.
Definition sizeof_trace_hdr : Z := 2 + 2 + 2 + 2.
Definition sizeof_trace_full_hdr : Z := sizeof_trace_hdr + sizeof_pulse.

Definition TESPKT_MCA_FLAGS_MASK : Z := 0x000fffff.
Definition TESPKT_EVT_FLAGS_MASK : Z := 0xffff.
Definition TESPKT_TICK_FLAGS_MASK : Z := 0x0703.
Definition TESPKT_TRACE_FLAGS_MASK : Z := 0x7fff.
Definition TESPKT_EVT_TYPE_MASK : Z := 0x030e.
Definition TESPKT_EVT_PKT_TYPE_MASK : Z := 0x000e.

Definition self_test_sizes : exec unit :=
  c_assert (body =? TESPKT_HDR_LEN);;
  c_assert (sizeof_mca_hdr =? TESPKT_MCA_HDR_LEN);;
  c_assert (sizeof_tick_hdr =? TESPKT_TICK_HDR_LEN);;
  c_assert (sizeof_peak_hdr =? TESPKT_PEAK_HDR_LEN);;
  c_assert (sizeof_peak =? TESPKT_PEAK_LEN);;
  c_assert (sizeof_area_hdr =? TESPKT_AREA_HDR_LEN);;
  c_assert (sizeof_pulse =? TESPKT_PULSE_LEN);;
  c_assert (sizeof_pulse_hdr =? TESPKT_PULSE_HDR_LEN);;
  c_assert (sizeof_trace_hdr =? TESPKT_TRACE_HDR_LEN);;
  c_assert (sizeof_trace_full_hdr =? TESPKT_TRACE_FULL_HDR_LEN).

Fixpoint self_test_errors (n : nat) (e : nat) : exec unit :=
  match n with
  | O => mret tt
  | S n =>
      got ← tespkt_error (Z.shiftl 1 (Z.of_nat e));
      want ← error_string e;
      c_assert (bool_decide (got = Some want));;
      self_test_errors n (S e)
  end.

Definition self_test_flags : exec unit :=
  let et := set_et_PKT (set_et_T [x00; x00] 0 1) 0 3 in
  c_assert (ntohs (load16 et 0) =? TESPKT_EVT_PKT_TYPE_MASK);;
  let et := set_et_TR et 0 3 in
  c_assert (ntohs (load16 et 0) =? TESPKT_EVT_TYPE_MASK);;
  let mf := set_bits (set_bits (set_bits (set_bits (set_bits
              [x00; x00; x00; x00] 1 0 4 0x0f) 2 4 4 0x0f) 2 0 4 0x0f)
              3 3 5 0x1f) 3 0 3 0x07 in
  c_assert (ntohl (load32 mf 0) =? TESPKT_MCA_FLAGS_MASK);;
  let ef := set_bits (set_bits (set_bits (set_bits (set_bits (set_bits (set_bits (set_bits
              [x00; x00] 0 4 4 0x0f) 0 3 1 1) 0 0 3 7) 1 6 2 3) 1 4 2 3) 1 2 2 3)
              1 1 1 1) 1 0 1 1 in
  c_assert (ntohs (load16 ef 0) =? TESPKT_EVT_FLAGS_MASK);;
  let tf := set_bits (set_bits (set_bits (set_bits (set_bits
              [x00; x00] 0 2 1 1) 0 1 1 1) 0 0 1 1) 1 1 1 1) 1 0 1 1 in
  c_assert (ntohs (load16 tf 0) =? TESPKT_TICK_FLAGS_MASK);;
  let trf := set_bits (set_bits (set_bits (set_bits (set_bits (set_bits
              [x00; x00] 0 6 1 1) 0 5 1 1) 0 0 5 0x1f) 1 6 2 3) 1 4 2 3) 1 0 4 0x0f in
  c_assert (ntohs (load16 trf 0) =? TESPKT_TRACE_FLAGS_MASK).

Definition tespkt_self_test : exec unit :=
  self_test_sizes;; self_test_errors 7 0;; self_test_flags.

Example self_test_passes : tespkt_self_test = Done tt.
Proof. vm_compute. reflexivity. Qed.

Lemma bitfield_set_same b i w v :
  0 <= b -> 0 <= i -> 0 <= w ->
  bitfield (set_bitfield b i w v) i w = v mod 2 ^ w.
Proof.
  intros Hb Hi Hw. unfold bitfield, set_bitfield.
  rewrite <- Z.land_ones by done. apply Z.bits_inj'. intros n Hn.
  rewrite !Z.land_spec, Z.shiftr_spec, Z.lor_spec, Z.land_spec, Z.lnot_spec,
    !Z.shiftl_spec, Z.land_spec by lia.
  replace (n + i - i) with n by lia.
  rewrite Z.testbit_ones_nonneg by lia.
  destruct (n <? w), (Z.testbit b (n + i)), (Z.testbit v n); reflexivity.
Qed.

Lemma bitfield_set_other b i w v j u :
  0 <= i -> 0 <= w -> 0 <= j -> 0 <= u -> i + w <= j \/ j + u <= i ->
  bitfield (set_bitfield b i w v) j u = bitfield b j u.
Proof.
  intros Hi Hw Hj Hu Hd. unfold bitfield, set_bitfield.
  apply Z.bits_inj'. intros n Hn.
  rewrite !Z.land_spec, !Z.shiftr_spec, Z.lor_spec, Z.land_spec, Z.lnot_spec,
    !Z.shiftl_spec by lia.
  destruct (Z.ltb_spec n u) as [Hlt|Hge].
  - destruct (Z.ltb_spec (n + j - i) 0) as [Hneg|Hpos].
    + rewrite !(Z.testbit_neg_r _ (n + j - i)) by done. simpl.
      rewrite andb_true_r, orb_false_r. done.
    + rewrite Z.land_spec, !Z.testbit_ones_nonneg by lia.
      rewrite (proj2 (Z.ltb_ge (n + j - i) w)) by lia. simpl.
      rewrite andb_false_r, andb_true_r, orb_false_r. done.
  - rewrite (Z.testbit_ones_nonneg u n) by lia.
    rewrite (proj2 (Z.ltb_ge n u)) by lia. rewrite !andb_false_r. done.
Qed.

Lemma set_bitfield_u8 b i w v :
  is_u8 b -> 0 <= i -> 0 <= w -> i + w <= 8 -> is_u8 (set_bitfield b i w v).
Proof.
  intros [Hb0 Hb] Hi Hw Hiw. unfold is_u8.
  assert (E : set_bitfield b i w v = set_bitfield b i w v mod 2 ^ 8).
  { rewrite <- Z.land_ones by lia. apply Z.bits_inj'. intros n Hn.
    rewrite Z.land_spec, Z.testbit_ones_nonneg by lia.
    destruct (Z.ltb_spec n 8); [rewrite andb_true_r; done|].
    rewrite andb_false_r. unfold set_bitfield.
    rewrite Z.lor_spec, Z.land_spec, Z.shiftl_spec, Z.land_spec by lia.
    rewrite (Z.testbit_ones_nonneg w) by lia.
    rewrite (proj2 (Z.ltb_ge (n - i) w)) by lia.
    rewrite <- (Z.mod_small b (2 ^ 8)) by lia.
    rewrite Z.mod_pow2_bits_high by lia. rewrite andb_false_r. done. }
  rewrite E. apply Z.mod_pos_bound. lia.
Qed.

(** ** Sample frames, for the witnesses *)

Definition le16 (z : Z) : bytes := [byte_of_Z z; byte_of_Z (Z.shiftr z 8)].
Definition zeros (n : nat) : bytes := replicate n x00.

(** A frame with the given low byte of the ethernet type (0xb5 event, 0xb6
    MCA), length, sequence numbers, event size and type bytes, and payload. *)
Definition sample_frame (ety : byte) (flen fseq pseq esize : Z)
    (et0 et1 : byte) (payload : bytes) : tespkt :=
  zeros 12 ++ [x88; ety] ++ le16 flen ++ le16 fseq ++ le16 pseq ++ le16 esize
  ++ [et0; et1] ++ payload.

Definition sample_tick (fseq toff : Z) : tespkt :=
  sample_frame xb5 48 fseq 0 3 x00 x02 (zeros 6 ++ le16 toff ++ zeros 16).

(** One peak event of the given channel and delay. *)
Definition sample_peak (fseq ch toff : Z) : tespkt :=
  sample_frame xb5 32 fseq 0 1 x00 x00
    (zeros 4 ++ [byte_of_Z ch; x00] ++ le16 toff).

(** A pulse frame of [n] events of 16 bytes each. *)
Definition sample_pulse (fseq n : Z) : tespkt :=
  sample_frame xb5 (24 + 16 * n) fseq 0 2 x00 x08 (zeros (16 * Z.to_nat n)).

(** A frame of an average trace: [size] bytes in total, [n] in this frame. *)
Definition sample_avgtr_hdr (fseq size n : Z) : tespkt :=
  sample_frame xb5 (24 + n) fseq 0 1 x01 x0c (le16 size ++ zeros (Z.to_nat n - 2)).
Definition sample_avgtr_cont (fseq pseq n : Z) : tespkt :=
  sample_frame xb5 (24 + n) fseq pseq 1 x01 x0c (zeros (Z.to_nat n)).

(** A header frame of a histogram of [last + 1] bins with [n] of them here,
    and a frame with [n] more bins. *)
Definition sample_mca_hdr (fseq last n : Z) : tespkt :=
  sample_frame xb6 (64 + 4 * n) fseq 0 0 x00 x00
    (le16 (44 + 4 * last) ++ le16 last ++ zeros 36 ++ zeros (4 * Z.to_nat n)).
Definition sample_mca_cont (fseq pseq n : Z) : tespkt :=
  sample_frame xb6 (24 + 4 * n) fseq pseq 0 x00 x00 (zeros (4 * Z.to_nat n)).

Example sample_tick_valid : tespkt_is_valid (sample_tick 7 100) = 0.
Proof. vm_compute. reflexivity. Qed.
Example sample_pulse_valid : tespkt_is_valid (sample_pulse 7 3) = 0.
Proof. vm_compute. reflexivity. Qed.
Example sample_mca_valid : tespkt_is_valid (sample_mca_hdr 7 3 2) = 0.
Proof. vm_compute. reflexivity. Qed.

(** ** Properties *)

(** C33: a frame is accepted by [tespkt_is_valid] (the result is 0) exactly
    when it meets the specification [valid_frame]: length a multiple of 8 above
    the header and at most the MTU, and the event or MCA conditions. *)
Theorem tespkt_is_valid_correct pkt : tespkt_is_valid pkt = 0 <-> valid_frame pkt.
Proof. apply valid_iff. Qed.



(** Every result of [tespkt_is_valid] is a combination of the seven error
    bits, the invalid-event-type bit is never among them (two bits of packet
    type and one tick bit leave no other kind), and [tespkt_perror] prints
    exactly the strings of the set bits without reading past the table. *)
Theorem tespkt_is_valid_errors pkt :
  0 <= tespkt_is_valid pkt < 128 /\
  Z.testbit (tespkt_is_valid pkt) 2 = false /\
  tespkt_perror (tespkt_is_valid pkt) = Done (error_strings (tespkt_is_valid pkt)).
Proof.
  pose proof (is_valid_u7 pkt) as Hr.
  split; [done|]. split; [|by apply perror_spec].
  unfold tespkt_is_valid, is_valid_event, is_valid_mca. rewrite !lor_or_if.
  destruct (tespkt_is_event pkt) eqn:He;
    [destruct (event_viewP pkt He)|]; simpl orb; simpl negb; repeat case_if;
    rewrite ?or_if_testbit; unfold TES_EETHTYPE, TES_EETHLEN, TES_EEVTTYPE,
      TES_EEVTSIZE, TES_ETRSIZE, TES_EMCASIZE, TES_EMCABINS; simpl;
    rewrite ?andb_false_r; done.
Qed.

(** [tespkt_serror] writes the string of the lowest set bit and returns
    the error shifted right until that bit is bit 0, with the bit still set;
    clearing the bit and calling again would name a different error. *)
Theorem tespkt_serror_shifts err :
  0 < err < 128 ->
  exists s err', tespkt_serror err = Done (Some s, err') /\
    head (error_strings err) = Some s /\ Z.odd err' = true /\
    err' = Z.shiftr err (Z.log2 (Z.land err (- err))).
Proof.
  intros H. destruct (serror_spec err H) as (s & Hs & Hh).
  exists s. eexists. split; [exact Hs|]. split; [done|]. split; [|done].
  clear Hs Hh s. revert err H. intros err H. assert (H' : 0 <= err - 1 < 127) by lia.
  replace err with (err - 1 + 1) by lia. revert H'. generalize (err - 1). clear.
  apply (forall_below 127 (fun z =>
    Z.odd (Z.shiftr (z + 1) (Z.log2 (Z.land (z + 1) (- (z + 1))))) = true)).
  repeat constructor.
Qed.

Lemma tespkt_serror_shifts_witness :
  exists s err', tespkt_serror 10 = Done (Some s, err') /\
    head (error_strings 10) = Some s /\ Z.odd err' = true /\
    err' = Z.shiftr 10 (Z.log2 (Z.land 10 (- 10))).
Proof. apply (tespkt_serror_shifts 10). lia. Defined.

(** Clients reason with the lemmas above, not with the byte loads. *)
#[global] Arguments tespkt_flen : simpl never.
#[global] Arguments tespkt_fseq : simpl never.
#[global] Arguments tespkt_pseq : simpl never.
#[global] Arguments tespkt_esize : simpl never.
#[global] Arguments tespkt_is_header : simpl never.
#[global] Arguments tespkt_is_mca : simpl never.
#[global] Arguments tespkt_is_event : simpl never.
#[global] Arguments tespkt_is_tick : simpl never.
#[global] Arguments tespkt_is_trace : simpl never.
#[global] Arguments tespkt_is_trace_dp : simpl never.
#[global] Arguments tespkt_is_trace_avg : simpl never.
#[global] Arguments tespkt_is_trace_long : simpl never.
#[global] Arguments tespkt_mca_nbins : simpl never.
#[global] Arguments tespkt_mca_nbins_tot : simpl never.
#[global] Arguments tespkt_mca_size : simpl never.
#[global] Arguments tespkt_event_nums : simpl never.
#[global] Arguments tespkt_trace_size : simpl never.
#[global] Arguments tespkt_event_toff : simpl never.
#[global] Arguments tespkt_evt_fl : simpl never.
#[global] Arguments ef_CH : simpl never.
