(* ===== verification/TespktPrint.v ===== *)
(** * Printing packets (src/include/net/tespkt.h)

    The Ethernet addresses of a packet and [tespkt_pretty_print].  What is
    printed is a list of lines, each for one of the two streams; the numbers are
    within the width of their formats, as the accessors give them. *)

From Stdlib Require Import ZArith Lia Strings.String Strings.Byte.
From stdpp Require Import base option list numbers decidable.
From S2P Require Import Prelude Sys Path Tespkt.

Open Scope Z_scope.

Module Print.

(** ** Ethernet addresses *)

Definition hex_digit (n : Z) : byte := byte_of_Z (if n <? 10 then 48 + n else 87 + n).
(** ["%x"] of a byte. *)
Definition hex (b : byte) : bytes :=
  let n := Z_of_byte b in
  if n <? 16 then [hex_digit n] else [hex_digit (n / 16); hex_digit (n mod 16)].

(** [ether_ntoa]: six numbers, separated by colons. *)
Fixpoint ether_ntoa (addr : bytes) : bytes :=
  match addr with
  | [] => []
  | [b] => hex b
  | b :: addr => hex b ++ x3a :: ether_ntoa addr
  end.

(** [ether_dhost] and [ether_shost], the first members of a packet. *)
Definition tespkt_dst_eth_aton (pkt : tespkt) : bytes := take 6 pkt.
Definition tespkt_src_eth_aton (pkt : tespkt) : bytes := take 6 (drop 6 pkt).
Definition tespkt_dst_eth_ntoa (pkt : tespkt) : bytes := ether_ntoa (tespkt_dst_eth_aton pkt).
Definition tespkt_src_eth_ntoa (pkt : tespkt) : bytes := ether_ntoa (tespkt_src_eth_aton pkt).

(** ** Printing *)

Inductive line : Type := Out (text : bytes) | Err (text : bytes).

Definition put (label : string) (n : Z) : line := Out (lit label ++ dec n).
Definition puts (text : string) : line := Out (lit text).

Definition print_hdr (pkt : tespkt) : list line := [
  Out (lit "Destination MAC:     " ++ tespkt_dst_eth_ntoa pkt);
  Out (lit "Source MAC:          " ++ tespkt_src_eth_ntoa pkt);
  put "Packet length:       " (tespkt_flen pkt);
  put "Frame sequence:      " (tespkt_fseq pkt);
  put "Protocol sequence:   " (tespkt_pseq pkt)].

Definition print_mca (pkt : tespkt) : list line :=
  [puts "Stream type:         MCA"; put "Number of bins:      " (tespkt_mca_nbins pkt)] ++
  if negb (tespkt_is_header pkt) then []
  else
    let mf := tespkt_mca_fl pkt in [
    put "Size:                " (tespkt_mca_size pkt);
    put "Flag Q:              " (mf_Q mf);
    put "Flag V:              " (mf_V mf);
    put "Flag T:              " (mf_T mf);
    put "Flag N:              " (mf_N mf);
    put "Flag C:              " (mf_C mf);
    put "Total number of bins:" (tespkt_mca_nbins_tot pkt);
    put "Lowest value:        " (tespkt_mca_lvalue pkt);
    put "Most frequent bin:   " (tespkt_mca_mfreq pkt);
    put "Total:               " (tespkt_mca_total pkt);
    put "Start time:          " (tespkt_mca_startt pkt);
    put "Stop time:           " (tespkt_mca_stopt pkt)].

Definition print_tick (pkt : tespkt) : list line :=
  let tf := tespkt_tick_fl pkt in [
  put "Tick flag MF:        " (tf_MF tf);
  put "Tick flag EL:        " (tf_EL tf);
  put "Tick flag TL:        " (tf_TL tf);
  put "Tick flag T:         " (tf_T tf);
  put "Tick flag N:         " (tf_N tf);
  put "Period:              " (tespkt_tick_period pkt);
  put "Timestamp:           " (tespkt_tick_ts pkt);
  put "Error ovrfl:         " (tespkt_tick_ovrfl pkt);
  put "Error err:           " (tespkt_tick_err pkt);
  put "Error cfd:           " (tespkt_tick_cfd pkt);
  put "Events lost:         " (tespkt_tick_lost pkt);
  puts "Type:                Tick"].

Definition print_event (pkt : tespkt) (e : Z) : list line :=
  let ef := tespkt_evt_fl pkt e in [
  put "Event time offset:   " (tespkt_event_toff pkt e);
  put "Event flag PC:       " (ef_PC ef);
  put "Event flag O:        " (ef_O ef);
  put "Event flag CH:       " (ef_CH ef);
  put "Event flag TT:       " (ef_TT ef);
  put "Event flag HT:       " (ef_HT ef);
  put "Event flag PT:       " (ef_PT ef);
  put "Event flag T:        " (ef_T ef);
  put "Event flag N:        " (ef_N ef)].

(** What follows the flags of an event and whether the function returns then. *)
Definition print_kind (pkt : tespkt) (e : Z) : list line * bool :=
  if tespkt_is_peak pkt then
    ([puts "Type:                Peak";
      put "Height:              " (tespkt_peak_height pkt e);
      put "Rise time:           " (tespkt_peak_riset pkt e)], true)
  else if tespkt_is_area pkt then
    ([puts "Type:                Area";
      put "Area:                " (tespkt_event_area pkt e)], true)
  else if tespkt_is_pulse pkt then
    ([puts "Type:                Pulse";
      put "Size:                " (tespkt_pulse_size pkt e);
      put "Area:                " (tespkt_pulse_area pkt e);
      put "Length:              " (tespkt_pulse_len pkt e);
      put "Time offset:         " (tespkt_pulse_toff pkt e)], true)
  else if negb (tespkt_is_trace pkt) then ([Err (lit "Unknown event type")], true)
  else ([], false).

(** The loop over the events; [n] is their number, at most [fuel]. *)
Fixpoint print_events (fuel : nat) (pkt : tespkt) (n e : Z) : exec (list line * bool) :=
  if e <? n then
    match fuel with
    | O => fail NoFuel
    | S fuel =>
        let '(kind, return_) := print_kind pkt e in
        if return_ : bool then mret (print_event pkt e ++ kind, true)
        else
          '(ls, r) ← print_events fuel pkt n (e + 1);
          mret (print_event pkt e ++ kind ++ ls, r)
    end
  else mret ([], false).

Definition print_trace (pkt : tespkt) : list line :=
  let trf := tespkt_trace_fl pkt in [
  puts "Type:                Trace";
  put "Trace flag MH:       " (trf_MH trf);
  put "Trace flag MP:       " (trf_MP trf);
  put "Trace flag STR:      " (trf_STR trf);
  put "Trace flag TT:       " (trf_TT trf);
  put "Trace flag TS:       " (trf_TS trf);
  put "Trace flag OFF:      " (trf_OFF trf);
  put "Trace size:          " (tespkt_trace_size pkt)] ++
  if tespkt_is_trace_avg pkt then [puts "Trace type:          Average"]
  else [
    put "Area:                " (tespkt_trace_area pkt);
    put "Length:              " (tespkt_trace_len pkt);
    put "Time offset:         " (tespkt_trace_toff pkt);
    if tespkt_is_trace_sgl pkt then puts "Trace type:          Single"
    else if tespkt_is_trace_dp pkt then puts "Trace type:          Dot product"
    else if tespkt_is_trace_dptr pkt then puts "Trace type:          Dot product with trace"
    else Err (lit "Unknown trace type")].

(** At most as many events as fit 16 bits. *)
Definition tespkt_pretty_print (pkt : tespkt) : exec (list line) :=
  if tespkt_is_mca pkt then mret (print_hdr pkt ++ print_mca pkt)
  else if negb (tespkt_is_event pkt)
  then mret (print_hdr pkt ++ [Err (lit "Unknown stream type")])
  else
    n ← tespkt_event_nums pkt;
    let ls := print_hdr pkt ++ [
      puts "Stream type:         Event";
      put "Event size:          " (tespkt_esize pkt);
      put "Number of events:    " n] in
    if tespkt_is_tick pkt then mret (ls ++ print_tick pkt)
    else
      '(evs, return_) ← print_events (Z.to_nat n) pkt n 0;
      mret (ls ++ evs ++ if return_ : bool then [] else print_trace pkt).

(** ** Specification *)

(** What a valid packet is called. *)
Definition kind (pkt : tespkt) : string :=
  if tespkt_is_mca pkt then "Stream type:         MCA"
  else if tespkt_is_tick pkt then "Type:                Tick"
  else if tespkt_is_peak pkt then "Type:                Peak"
  else if tespkt_is_area pkt then "Type:                Area"
  else if tespkt_is_pulse pkt then "Type:                Pulse"
  else if tespkt_is_trace_sgl pkt then "Trace type:          Single"
  else if tespkt_is_trace_avg pkt then "Trace type:          Average"
  else if tespkt_is_trace_dp pkt then "Trace type:          Dot product"
  else "Trace type:          Dot product with trace".

Definition is_out (l : line) : Prop := match l with Out _ => True | Err _ => False end.

Lemma trace_types pkt : tespkt_is_trace pkt = true ->
  tespkt_is_trace_avg pkt = false -> tespkt_is_trace_sgl pkt = false ->
  tespkt_is_trace_dp pkt = false -> tespkt_is_trace_dptr pkt = true.
Proof.
  pose proof (et_TR_range pkt). unfold_kind. intros ->. cbn [andb]. lia.
Qed.

(** A trace: its events, of which there is one or none, and then the rest. *)
Lemma print_events_trace pkt n :
  tespkt_is_trace pkt = true -> n = 0 \/ n = 1 ->
  exists ls, print_events (Z.to_nat n) pkt n 0 = Done (ls, false) /\ Forall is_out ls /\
    (length ls <= 9)%nat.
Proof.
  intros Ht Hn. assert (Ek : print_kind pkt 0 = ([], false)).
  { unfold print_kind. rewrite Ht. pose proof (event_viewP pkt (is_trace_event pkt Ht)) as Hv.
    rewrite Ht in Hv. by inversion Hv. }
  destruct Hn as [-> | ->]; [exists []; split; [done|]; split; [by constructor|simpl; lia]|].
  exists (print_event pkt 0 ++ [] ++ []). split; [|split; [by repeat constructor|simpl; lia]]. change (Z.to_nat 1) with 1%nat. cbn [print_events].
  change (0 <? 1) with true. cbv iota. by rewrite Ek.
Qed.

Lemma print_trace_kind pkt : tespkt_is_trace pkt = true ->
  Forall is_out (print_trace pkt) /\ puts (kind pkt) ∈ print_trace pkt /\
  (length (print_trace pkt) <= 12)%nat.
Proof.
  intros Ht. assert (Ek : kind pkt = (if tespkt_is_trace_sgl pkt then "Trace type:          Single"
    else if tespkt_is_trace_avg pkt then "Trace type:          Average"
    else if tespkt_is_trace_dp pkt then "Trace type:          Dot product"
    else "Trace type:          Dot product with trace")%string).
  { unfold kind. pose proof (event_viewP pkt (is_trace_event pkt Ht)) as Hv. rewrite Ht in Hv.
    rewrite (is_event_not_mca pkt (is_trace_event pkt Ht)). by inversion Hv. }
  rewrite Ek. unfold print_trace. pose proof (trace_types pkt Ht) as Htt.
  assert (Hx : tespkt_is_trace_avg pkt = true -> tespkt_is_trace_sgl pkt = false)
    by (unfold_kind; destruct (tespkt_is_event pkt && _ && _); [cbn [andb]; lia|done]).
  destruct (tespkt_is_trace_avg pkt).
  - rewrite Hx by done. split; [by repeat constructor|]. split; [|simpl; lia].
    apply elem_of_app. right. by apply list_elem_of_here.
  - destruct (tespkt_is_trace_sgl pkt); [|destruct (tespkt_is_trace_dp pkt); [|rewrite Htt by done]];
      (split; [by repeat constructor|]); (split; [|simpl; lia]); apply elem_of_app; right;
      do 3 apply list_elem_of_further; apply list_elem_of_here.
Qed.

Lemma print_events_first pkt n :
  tespkt_is_event pkt = true -> tespkt_is_tick pkt = false -> tespkt_is_trace pkt = false -> 1 <= n ->
  exists ls, print_events (Z.to_nat n) pkt n 0 = Done (print_event pkt 0 ++ ls, true) /\ 
    Forall is_out ls /\ puts (kind pkt) ∈ ls /\ (length ls <= 5)%nat.
Proof.
  intros He Ht Hr Hn. destruct (Z.to_nat n) as [|m] eqn:En; [lia|]. cbn [print_events].
  rewrite (proj2 (Z.ltb_lt 0 n)) by lia. pose proof (event_viewP pkt He) as Hv.
  unfold print_kind, kind. rewrite (is_event_not_mca pkt He). rewrite Ht, Hr in *.
  inversion Hv; eexists; (split; [reflexivity|]); (split; [by repeat constructor|]);
    (split; [by apply list_elem_of_here|simpl; lia]).
Qed.
End Print.

Import Print.

(** A valid packet is printed without failing, all of it on the first stream,
    and named after its kind.  Of the events in a packet only the first is shown
    (one that has more lines than this shows no other). *)
Theorem pretty_print_valid pkt : valid_frame pkt ->
  exists ls, tespkt_pretty_print pkt = Done ls /\ Forall is_out ls /\ puts (kind pkt) ∈ ls /\
    (length ls <= 29)%nat.
Proof.
  intros Hv. unfold tespkt_pretty_print. destruct (tespkt_is_mca pkt) eqn:Em.
  { eexists. split; [reflexivity|]. unfold kind, print_mca. rewrite Em.
    destruct (negb _); (split; [by repeat constructor|]); (split; [|simpl; lia]);
      do 5 apply list_elem_of_further; by apply list_elem_of_here. }
  destruct (tespkt_is_event pkt) eqn:He.
  2:{ destruct Hv as [_ [[]|[]]]; congruence. }
  cbn [negb]. destruct (valid_event_nums_done pkt Hv He) as (n & En & Hn). rewrite En.
  cbn [mbind exec_bind]. destruct (tespkt_is_tick pkt) eqn:Et.
  { eexists. split; [reflexivity|]. unfold kind. rewrite Em, Et. split; [by repeat constructor|].
    split; [|simpl; lia]. apply elem_of_app. right. by do 11 apply list_elem_of_further; apply list_elem_of_here. }
  destruct (tespkt_is_trace pkt) eqn:Er.
  - rewrite trace_event_nums in En by done. injection En as <-.
    set (n := if _ || _ then 1 else 0). assert (Hn01 : n = 0 \/ n = 1) by (unfold n; case_if; auto).
    destruct (print_events_trace pkt n Er Hn01) as (ls & E & Hls & Hlen). rewrite E.
    destruct (print_trace_kind pkt Er) as (Ht & Hk & Hl). cbn [mbind exec_bind].
    eexists. split; [reflexivity|].
    split; [rewrite !Forall_app; repeat split; try done; by repeat constructor|].
    split; [rewrite !elem_of_app; auto|]. rewrite !length_app. change (length (print_hdr pkt)) with 5%nat.
    cbn [length]. lia.
  - destruct (valid_event_nums pkt Hv He Er) as (n' & En' & Hn' & _). rewrite En in En'. injection En' as <-.
    destruct (print_events_first pkt n He Et Er ltac:(lia)) as (ls & E & Hls & Hk & Hlen). rewrite E.
    cbn [mbind exec_bind]. eexists. split; [reflexivity|]. rewrite app_nil_r.
    split; [rewrite !Forall_app; repeat split; try done; by repeat constructor|].
    split; [rewrite !elem_of_app; auto|]. rewrite !length_app. change (length (print_hdr pkt)) with 5%nat.
    change (length (print_event pkt 0)) with 9%nat. cbn [length]. lia.
Qed.

(** Three peaks, of which the second and the third are not printed. *)
Definition three_peaks : tespkt :=
  sample_frame xb5 48 7 1 1 x00 x00 (zeros 24).

Lemma pretty_print_valid_witness :
  valid_frame three_peaks /\
  exists ls, tespkt_pretty_print three_peaks = Done ls /\ puts "Type:                Peak" ∈ ls.
Proof.
  assert (Hv : valid_frame three_peaks) by (by apply valid_iff).
  split; [done|]. destruct (pretty_print_valid three_peaks Hv) as (ls & E & _ & Hk & _).
  exists ls. split; [exact E|exact Hk].
Defined.

(** What is printed of them. *)
Example first_peak_only :
  (fun ls => drop 7 ls) <$> match tespkt_pretty_print three_peaks with Done ls => Some ls | _ => None end =
  Some [put "Number of events:    " 3; put "Event time offset:   " 0; put "Event flag PC:       " 0;
        put "Event flag O:        " 0; put "Event flag CH:       " 0; put "Event flag TT:       " 0;
        put "Event flag HT:       " 0; put "Event flag PT:       " 0; put "Event flag T:        " 0;
        put "Event flag N:        " 0; puts "Type:                Peak"; put "Height:              " 0;
        put "Rise time:           " 0].
Proof. reflexivity. Qed.

(** A packet with an event size of zero. *)
Example print_by_zero :
  tespkt_pretty_print (sample_frame xb5 48 7 1 0 x00 x00 (zeros 24)) = Failed DivByZero.
Proof. reflexivity. Qed.

Example print_address :
  tespkt_src_eth_ntoa (zeros 6 ++ [x00; x0f; xa5; xff; x10; x01]) = lit "0:f:a5:ff:10:1".
Proof. reflexivity. Qed.
