(* ===== verification/TespktGen.v ===== *)
(** * Frame generation (include/net/tespkt_gen.h)

    The setters used by the packet generators, as functions from the frame
    before to the frame after.  The properties relate them to the readers of
    Tespkt: what a setter writes is what the reader returns, truncated to the
    width of the field, and the other header fields stay as they were. *)

From Stdlib Require Import ZArith Lia Strings.Byte.
From stdpp Require Import base option list numbers decidable.
From S2P Require Import Prelude Tespkt.

Open Scope Z_scope.

(** [htofs]: the payload has the byte order of the host. *)
Definition htofs (x : Z) : Z := x.

Definition tespkt_set_type_mca (pkt : tespkt) : tespkt :=
  store16 pkt 12 (htons ETHERTYPE_F_MCA).
Definition tespkt_set_type_evt (pkt : tespkt) : tespkt :=
  store16 pkt 12 (htons ETHERTYPE_F_EVENT).

Definition tespkt_set_fseq (pkt : tespkt) (seq : Z) : tespkt :=
  store16 pkt 16 (htofs seq).
Definition tespkt_set_pseq (pkt : tespkt) (seq : Z) : tespkt :=
  store16 pkt 18 (htofs seq).
Definition tespkt_inc_fseq (pkt : tespkt) (seq : Z) : tespkt :=
  store16 pkt 16 (htofs (tespkt_fseq pkt + seq)).
Definition tespkt_inc_pseq (pkt : tespkt) (seq : Z) : tespkt :=
  store16 pkt 18 (htofs (tespkt_pseq pkt + seq)).

Definition tespkt_set_len (pkt : tespkt) (len : Z) : tespkt :=
  store16 pkt 14 (htofs len).
Definition tespkt_inc_len (pkt : tespkt) (len : Z) : tespkt :=
  store16 pkt 14 (htofs (tespkt_flen pkt + len)).

Definition tespkt_set_esize (pkt : tespkt) (size : Z) : tespkt :=
  store16 pkt 20 (htofs size).

(** Offset of [tes_hdr.etype]. *)
Definition etype_off : Z := 22.

Definition tespkt_set_etype_tick (pkt : tespkt) : tespkt :=
  let pkt := tespkt_set_esize pkt 3 in
  let pkt := set_et_T pkt etype_off 1 in
  let pkt := set_et_PKT pkt etype_off 0 in
  set_et_TR pkt etype_off 0.

Definition tespkt_set_etype_nontrace (pkt : tespkt) (pkt_type : Z) : tespkt :=
  let pkt := set_et_T pkt etype_off 0 in
  let pkt := set_et_PKT pkt etype_off pkt_type in
  set_et_TR pkt etype_off 0.

Definition tespkt_set_etype_trace (pkt : tespkt) (tr_type : Z) : tespkt :=
  let pkt := tespkt_set_esize pkt 1 in
  let pkt := set_et_T pkt etype_off 0 in
  let pkt := set_et_PKT pkt etype_off TESPKT_TYPE_TRACE in
  set_et_TR pkt etype_off tr_type.

(** ** Lemmas *)

(** A store of two bytes away from a two-byte field leaves it. *)
Lemma load16_store16_ne (m : bytes) off off' v :
  0 <= off -> 0 <= off' -> off + 1 < off' \/ off' + 1 < off ->
  load16 (store16 m off v) off' = load16 m off'.
Proof.
  intros. unfold load16. rewrite !load8_store16_ne by lia. done.
Qed.

Lemma load16_set_bits_ne (m : bytes) off i w v off' :
  0 <= off -> 0 <= off' -> off <> off' -> off <> off' + 1 ->
  load16 (set_bits m off i w v) off' = load16 m off'.
Proof.
  intros. unfold load16, set_bits. rewrite !load8_store8_ne by lia. done.
Qed.

Lemma length_set_bits (m : bytes) off i w v : length (set_bits m off i w v) = length m.
Proof. apply length_store8. Qed.

Lemma bitfield_set_bits_eq (m : bytes) off i w v :
  0 <= off < Z.of_nat (length m) -> 0 <= i -> 0 <= w -> i + w <= 8 ->
  bitfield (load8 (set_bits m off i w v) off) i w = v mod 2 ^ w.
Proof.
  intros. unfold set_bits. rewrite load8_store8_eq by lia.
  rewrite to_u8_id by (apply set_bitfield_u8; auto using load8_range).
  apply bitfield_set_same; try lia. apply load8_range.
Qed.

Lemma bitfield_set_bits_ne (m : bytes) off i w v j u :
  0 <= off < Z.of_nat (length m) -> 0 <= i -> 0 <= w -> i + w <= 8 ->
  0 <= j -> 0 <= u -> i + w <= j \/ j + u <= i ->
  bitfield (load8 (set_bits m off i w v) off) j u = bitfield (load8 m off) j u.
Proof.
  intros. unfold set_bits. rewrite load8_store8_eq by lia.
  rewrite to_u8_id by (apply set_bitfield_u8; auto using load8_range).
  apply bitfield_set_other; lia.
Qed.

Lemma load8_set_bits_ne (m : bytes) off i w v off' :
  0 <= off -> 0 <= off' -> off <> off' ->
  load8 (set_bits m off i w v) off' = load8 m off'.
Proof. intros. apply load8_store8_ne; lia. Qed.

(** Reads through one setter, the side conditions decided by [lia]. *)
Ltac read_side := rewrite ?length_set_bits, ?length_store16; lia.
Ltac read_through :=
  match goal with
  | |- context [load16 (store16 ?m ?o ?v) ?o'] =>
      first [ rewrite (load16_store16_eq m o v) by read_side
            | rewrite (load16_store16_ne m o o' v) by read_side ]
  | |- context [load16 (set_bits ?m ?o ?i ?w ?v) ?o'] =>
      rewrite (load16_set_bits_ne m o i w v o') by read_side
  | |- context [bitfield (load8 (set_bits ?m ?o ?i ?w ?v) ?o) ?j ?u] =>
      first [ rewrite (bitfield_set_bits_eq m o i w v) by read_side
            | rewrite (bitfield_set_bits_ne m o i w v j u) by read_side ]
  | |- context [load8 (set_bits ?m ?o ?i ?w ?v) ?o'] =>
      rewrite (load8_set_bits_ne m o i w v o') by read_side
  | |- context [load8 (store16 ?m ?o ?v) ?o'] =>
      rewrite (load8_store16_ne m o o' v) by read_side
  end.

(** Compute a header field of a frame built by setters. *)
Ltac gen_fields :=
  unfold tespkt_set_etype_tick, tespkt_set_etype_nontrace, tespkt_set_etype_trace,
    tespkt_set_esize, tespkt_set_len, tespkt_inc_len, tespkt_set_fseq, tespkt_set_pseq,
    tespkt_inc_fseq, tespkt_inc_pseq, tespkt_set_type_mca, tespkt_set_type_evt,
    tespkt_flen, tespkt_fseq, tespkt_pseq, tespkt_esize, tespkt_etype,
    load_tes_hdr, load_event_type, set_et_T, set_et_PKT, set_et_TR, etype_off,
    htofs, ftohs in *; cbn [pk_ether_type pk_length pk_fseq pk_pseq pk_esize pk_etype
    et_TR et_T et_PKT Z.add Pos.add Pos.succ] in *;
  repeat read_through.

(** The header fields of a frame, to state what a setter changes. *)
Definition hdr_fields (pkt : tespkt) : Z * Z * Z * Z * Z * (Z * Z * Z) :=
  (pk_ether_type (load_tes_hdr pkt), tespkt_flen pkt, tespkt_fseq pkt,
   tespkt_pseq pkt, tespkt_esize pkt,
   (et_T (tespkt_etype pkt), et_PKT (tespkt_etype pkt), et_TR (tespkt_etype pkt))).

(** ** Properties *)

(** Each setter of a 16-bit header field writes the value modulo 2^16 to
    its own field, the increments add modulo 2^16, and every other header
    field keeps its value. *)
Theorem set_header_fields pkt v :
  24 <= Z.of_nat (length pkt) ->
  let '(ty, len, fs, ps, es, et) := hdr_fields pkt in
  hdr_fields (tespkt_set_len pkt v) = (ty, to_u16 v, fs, ps, es, et) /\
  hdr_fields (tespkt_set_fseq pkt v) = (ty, len, to_u16 v, ps, es, et) /\
  hdr_fields (tespkt_set_pseq pkt v) = (ty, len, fs, to_u16 v, es, et) /\
  hdr_fields (tespkt_set_esize pkt v) = (ty, len, fs, ps, to_u16 v, et) /\
  hdr_fields (tespkt_inc_len pkt v) = (ty, to_u16 (len + v), fs, ps, es, et) /\
  hdr_fields (tespkt_inc_fseq pkt v) = (ty, len, to_u16 (fs + v), ps, es, et) /\
  hdr_fields (tespkt_inc_pseq pkt v) = (ty, len, fs, to_u16 (ps + v), es, et).
Proof.
  intros H. unfold hdr_fields. gen_fields. repeat split.
Qed.

Lemma set_header_fields_witness :
  hdr_fields (tespkt_set_len (sample_tick 1 2) 70000) =
    (46472, 4464, 1, 0, 3, (1, 0, 0)).
Proof.
  pose proof (set_header_fields (sample_tick 1 2) 70000) as H.
  destruct H as [H _]; [vm_compute; congruence|]. rewrite H. vm_compute. reflexivity.
Defined.

(** The event-type setters produce frames of the kind they name: a tick
    of three words, a non-trace event of the given packet type, a trace of the
    given trace type; on event frames the kind predicates recognise them. *)
Theorem set_etype_kinds pkt ty :
  24 <= Z.of_nat (length pkt) -> tespkt_is_event pkt = true -> 0 <= ty < 4 ->
  tespkt_is_tick (tespkt_set_etype_tick pkt) = true /\
  tespkt_esize (tespkt_set_etype_tick pkt) = 3 /\
  tespkt_is_event (tespkt_set_etype_nontrace pkt ty) = true /\
  tespkt_is_tick (tespkt_set_etype_nontrace pkt ty) = false /\
  et_PKT (tespkt_etype (tespkt_set_etype_nontrace pkt ty)) = ty /\
  tespkt_is_trace (tespkt_set_etype_trace pkt ty) = true /\
  et_TR (tespkt_etype (tespkt_set_etype_trace pkt ty)) = ty /\
  tespkt_esize (tespkt_set_etype_trace pkt ty) = 1.
Proof.
  intros H He Hty. unfold_kind. unfold tespkt_is_event in *. gen_fields.
  rewrite He. unfold TESPKT_TYPE_TRACE.
  rewrite !(Z.mod_small ty) by lia. repeat split.
Qed.

Lemma set_etype_kinds_witness :
  tespkt_is_trace_avg (tespkt_set_etype_trace (sample_peak 1 0 2) 1) = true.
Proof.
  pose proof (set_etype_kinds (sample_peak 1 0 2) 1) as H.
  destruct H as (_ & _ & _ & _ & _ & H & H' & _);
    [vm_compute; congruence | vm_compute; reflexivity | lia |].
  unfold_kind. bool_hyps. rewrite H, H', H0, H1. reflexivity.
Defined.
