(* ===== verification/Tesif.v ===== *)
(** * Rings of the network interface (include/net/tesif_*.h, src/lib/tesif.c)

    The structs hold the members of the netmap structs that tesif.c reads or
    writes: of a ring the number of slots, the three indices and the slots, of
    a descriptor the first, last and current ring of each direction.  A slot
    holds its length and the contents of its buffer.  Functions that move an
    index return the ring after.  Opening, closing, injecting and dispatching
    forward to netmap, which is outside of src/: the class [NetmapApi] stands
    for it. *)

From Stdlib Require Import ZArith Lia.
From stdpp Require Import base option list numbers decidable.
From S2P Require Import Prelude.

Open Scope Z_scope.

Record netmap_slot : Type := {
  slot_len : Z;
  slot_buf : bytes;
}.

Record tes_ifring : Type := {
  num_slots : Z;
  nr_buf_size : Z;
  head : Z;
  cur : Z;
  tail : Z;
  slots : list netmap_slot;
}.

Definition set_head (r : tes_ifring) (v : Z) : tes_ifring :=
  {| num_slots := num_slots r; nr_buf_size := nr_buf_size r; head := v;
     cur := cur r; tail := tail r; slots := slots r |}.
Definition set_cur (r : tes_ifring) (v : Z) : tes_ifring :=
  {| num_slots := num_slots r; nr_buf_size := nr_buf_size r; head := head r;
     cur := v; tail := tail r; slots := slots r |}.

Record tes_ifdesc : Type := {
  first_tx_ring : Z;
  last_tx_ring : Z;
  cur_tx_ring : Z;
  first_rx_ring : Z;
  last_rx_ring : Z;
  cur_rx_ring : Z;
  tx_rings : list tes_ifring;
  rx_rings : list tes_ifring;
}.

Definition set_cur_tx_ring (d : tes_ifdesc) (v : Z) : tes_ifdesc :=
  {| first_tx_ring := first_tx_ring d; last_tx_ring := last_tx_ring d;
     cur_tx_ring := v; first_rx_ring := first_rx_ring d;
     last_rx_ring := last_rx_ring d; cur_rx_ring := cur_rx_ring d;
     tx_rings := tx_rings d; rx_rings := rx_rings d |}.
Definition set_cur_rx_ring (d : tes_ifdesc) (v : Z) : tes_ifdesc :=
  {| first_tx_ring := first_tx_ring d; last_tx_ring := last_tx_ring d;
     cur_tx_ring := cur_tx_ring d; first_rx_ring := first_rx_ring d;
     last_rx_ring := last_rx_ring d; cur_rx_ring := v;
     tx_rings := tx_rings d; rx_rings := rx_rings d |}.

(** ** Helpers *)

Definition s_ring_preceding (ring : tes_ifring) (idx : Z) : Z :=
  if idx =? 0 then to_u32 (num_slots ring - 1) else idx - 1.

Definition s_ring_following (ring : tes_ifring) (idx : Z) : Z :=
  if to_u32 (idx + 1) =? num_slots ring then 0 else to_u32 (idx + 1).

Definition slot (ring : tes_ifring) (idx : Z) : exec netmap_slot :=
  match slots ring !! Z.to_nat idx with
  | Some s => mret s
  | None => fail OutOfBounds
  end.

Definition s_buf (ring : tes_ifring) (idx : Z) : exec bytes :=
  s ← slot ring idx; mret (slot_buf s).

Definition ring_at (rings : list tes_ifring) (idx : Z) : exec tes_ifring :=
  match rings !! Z.to_nat idx with
  | Some r => mret r
  | None => fail OutOfBounds
  end.

Definition s_txring (ifd : tes_ifdesc) (idx : Z) : exec tes_ifring :=
  ring_at (tx_rings ifd) idx.
Definition s_rxring (ifd : tes_ifdesc) (idx : Z) : exec tes_ifring :=
  ring_at (rx_rings ifd) idx.

(** ** Manager *)

(** The descriptor after and the ring, [None] for NULL. *)
Definition tes_if_rewind_txring (ifd : tes_ifdesc) : exec (tes_ifdesc * option tes_ifring) :=
  let ifd := set_cur_tx_ring ifd (first_tx_ring ifd) in
  r ← s_txring ifd (cur_tx_ring ifd); mret (ifd, Some r).
Definition tes_if_previous_txring (ifd : tes_ifdesc) : exec (tes_ifdesc * option tes_ifring) :=
  if cur_tx_ring ifd =? first_tx_ring ifd then mret (ifd, None)
  else
    let ifd := set_cur_tx_ring ifd (to_u16 (cur_tx_ring ifd - 1)) in
    r ← s_txring ifd (cur_tx_ring ifd); mret (ifd, Some r).
Definition tes_if_next_txring (ifd : tes_ifdesc) : exec (tes_ifdesc * option tes_ifring) :=
  if cur_tx_ring ifd =? last_tx_ring ifd then mret (ifd, None)
  else
    let ifd := set_cur_tx_ring ifd (to_u16 (cur_tx_ring ifd + 1)) in
    r ← s_txring ifd (cur_tx_ring ifd); mret (ifd, Some r).
Definition tes_if_goto_txring (ifd : tes_ifdesc) (idx : Z) : exec (tes_ifdesc * option tes_ifring) :=
  let idx := to_u16 (idx + first_tx_ring ifd) in
  if last_tx_ring ifd <? idx then mret (ifd, None)
  else
    let ifd := set_cur_tx_ring ifd idx in
    r ← s_txring ifd (cur_tx_ring ifd); mret (ifd, Some r).
Definition tes_if_goto_last_txring (ifd : tes_ifdesc) : exec (tes_ifdesc * option tes_ifring) :=
  let ifd := set_cur_tx_ring ifd (last_tx_ring ifd) in
  r ← s_txring ifd (cur_tx_ring ifd); mret (ifd, Some r).

Definition tes_if_rewind_rxring (ifd : tes_ifdesc) : exec (tes_ifdesc * option tes_ifring) :=
  let ifd := set_cur_rx_ring ifd (first_rx_ring ifd) in
  r ← s_rxring ifd (cur_rx_ring ifd); mret (ifd, Some r).
Definition tes_if_previous_rxring (ifd : tes_ifdesc) : exec (tes_ifdesc * option tes_ifring) :=
  if cur_rx_ring ifd =? first_rx_ring ifd then mret (ifd, None)
  else
    let ifd := set_cur_rx_ring ifd (to_u16 (cur_rx_ring ifd - 1)) in
    r ← s_rxring ifd (cur_rx_ring ifd); mret (ifd, Some r).
Definition tes_if_next_rxring (ifd : tes_ifdesc) : exec (tes_ifdesc * option tes_ifring) :=
  if cur_rx_ring ifd =? last_rx_ring ifd then mret (ifd, None)
  else
    let ifd := set_cur_rx_ring ifd (to_u16 (cur_rx_ring ifd + 1)) in
    r ← s_rxring ifd (cur_rx_ring ifd); mret (ifd, Some r).
Definition tes_if_goto_rxring (ifd : tes_ifdesc) (idx : Z) : exec (tes_ifdesc * option tes_ifring) :=
  let idx := to_u16 (idx + first_rx_ring ifd) in
  if last_rx_ring ifd <? idx then mret (ifd, None)
  else
    let ifd := set_cur_rx_ring ifd idx in
    r ← s_rxring ifd (cur_rx_ring ifd); mret (ifd, Some r).
Definition tes_if_goto_last_rxring (ifd : tes_ifdesc) : exec (tes_ifdesc * option tes_ifring) :=
  let ifd := set_cur_rx_ring ifd (last_rx_ring ifd) in
  r ← s_rxring ifd (cur_rx_ring ifd); mret (ifd, Some r).

(** The ring after and the buffer, [None] for NULL. *)
Definition tes_ifring_rewind_buf (ring : tes_ifring) : exec (tes_ifring * option bytes) :=
  let ring := set_cur ring (head ring) in
  b ← s_buf ring (cur ring); mret (ring, Some b).
Definition tes_ifring_previous_buf (ring : tes_ifring) : exec (tes_ifring * option bytes) :=
  if cur ring =? head ring then mret (ring, None)
  else
    let ring := set_cur ring (s_ring_preceding ring (cur ring)) in
    b ← s_buf ring (cur ring); mret (ring, Some b).
Definition tes_ifring_next_buf (ring : tes_ifring) : exec (tes_ifring * option bytes) :=
  let ring := set_cur ring (s_ring_following ring (cur ring)) in
  if cur ring =? tail ring then mret (ring, None)
  else b ← s_buf ring (cur ring); mret (ring, Some b).
Definition tes_ifring_goto_buf (ring : tes_ifring) (idx : Z) : exec (tes_ifring * option bytes) :=
  let ring := set_cur ring idx in
  b ← s_buf ring (cur ring); mret (ring, Some b).
Definition tes_ifring_goto_last_buf (ring : tes_ifring) : exec (tes_ifring * option bytes) :=
  let ring := set_cur ring (s_ring_preceding ring (tail ring)) in
  b ← s_buf ring (cur ring); mret (ring, Some b).
Definition tes_ifring_release_one_buf (ring : tes_ifring) : exec (tes_ifring * option bytes) :=
  let ring := set_head ring (s_ring_following ring (head ring)) in
  b ← s_buf ring (head ring); mret (ring, Some b).
Definition tes_ifring_release_to_buf (ring : tes_ifring) (idx : Z) : exec (tes_ifring * option bytes) :=
  let ring := set_head ring idx in
  b ← s_buf ring (head ring); mret (ring, Some b).
Definition tes_ifring_release_done_buf (ring : tes_ifring) : exec (tes_ifring * option bytes) :=
  let ring := set_head ring (cur ring) in
  b ← s_buf ring (head ring); mret (ring, Some b).

(** The loop of [tes_ifring_wait_for_more]; [None] when the fuel runs out. *)
Fixpoint reduce_cur (fuel : nat) (n c : Z) : option Z :=
  match fuel with
  | O => None
  | S fuel => if n <=? c then reduce_cur fuel n (c - n) else Some c
  end.

(** As many iterations as [c] holds [num_slots], plus the final test. *)
Definition tes_ifring_wait_for_more (ring : tes_ifring) (num : Z) : option tes_ifring :=
  let c := to_u32 (tail ring + num) in
  c' ← reduce_cur (S (Z.to_nat (c / num_slots ring))) (num_slots ring) c;
  Some (set_cur ring c').

Definition tes_ifring_release_all (ring : tes_ifring) : tes_ifring :=
  set_head (set_cur ring (tail ring)) (tail ring).

(** ** Reader *)

Definition tes_if_txrings (ifd : tes_ifdesc) : Z :=
  to_u16 (last_tx_ring ifd - first_tx_ring ifd + 1).
Definition tes_if_rxrings (ifd : tes_ifdesc) : Z :=
  to_u16 (last_rx_ring ifd - first_rx_ring ifd + 1).

Definition tes_if_first_txring (ifd : tes_ifdesc) : exec tes_ifring :=
  s_txring ifd (first_tx_ring ifd).
Definition tes_if_cur_txring (ifd : tes_ifdesc) : exec tes_ifring :=
  s_txring ifd (cur_tx_ring ifd).
Definition tes_if_last_txring (ifd : tes_ifdesc) : exec tes_ifring :=
  s_txring ifd (last_tx_ring ifd).
Definition tes_if_first_rxring (ifd : tes_ifdesc) : exec tes_ifring :=
  s_rxring ifd (first_rx_ring ifd).
Definition tes_if_cur_rxring (ifd : tes_ifdesc) : exec tes_ifring :=
  s_rxring ifd (cur_rx_ring ifd).
Definition tes_if_last_rxring (ifd : tes_ifdesc) : exec tes_ifring :=
  s_rxring ifd (last_rx_ring ifd).

(** The ring, [None] for NULL. *)
Definition tes_if_txring (ifd : tes_ifdesc) (idx : Z) : exec (option tes_ifring) :=
  let idx := to_u16 (idx + first_tx_ring ifd) in
  if (idx <? first_tx_ring ifd) || (last_tx_ring ifd <? idx) then mret None
  else r ← s_txring ifd idx; mret (Some r).
Definition tes_if_preceding_txring (ifd : tes_ifdesc) (idx : Z) : exec (option tes_ifring) :=
  let idx := to_u16 (idx + first_tx_ring ifd) in
  if (idx <=? first_tx_ring ifd) || (last_tx_ring ifd <? idx - 1) then mret None
  else r ← s_txring ifd (idx - 1); mret (Some r).
Definition tes_if_following_txring (ifd : tes_ifdesc) (idx : Z) : exec (option tes_ifring) :=
  let idx := to_u16 (idx + first_tx_ring ifd) in
  if (idx + 1 <? first_tx_ring ifd) || (last_tx_ring ifd <=? idx) then mret None
  else r ← s_txring ifd (idx + 1); mret (Some r).
Definition tes_if_rxring (ifd : tes_ifdesc) (idx : Z) : exec (option tes_ifring) :=
  let idx := to_u16 (idx + first_rx_ring ifd) in
  if (idx <? first_rx_ring ifd) || (last_rx_ring ifd <? idx) then mret None
  else r ← s_rxring ifd idx; mret (Some r).
Definition tes_if_preceding_rxring (ifd : tes_ifdesc) (idx : Z) : exec (option tes_ifring) :=
  let idx := to_u16 (idx + first_rx_ring ifd) in
  if (idx <=? first_rx_ring ifd) || (last_rx_ring ifd <? idx - 1) then mret None
  else r ← s_rxring ifd (idx - 1); mret (Some r).
Definition tes_if_following_rxring (ifd : tes_ifdesc) (idx : Z) : exec (option tes_ifring) :=
  let idx := to_u16 (idx + first_rx_ring ifd) in
  if (idx + 1 <? first_rx_ring ifd) || (last_rx_ring ifd <=? idx) then mret None
  else r ← s_rxring ifd (idx + 1); mret (Some r).

Definition tes_if_cur_txring_id (ifd : tes_ifdesc) : Z :=
  to_u16 (cur_tx_ring ifd - first_tx_ring ifd).
Definition tes_if_last_txring_id (ifd : tes_ifdesc) : Z :=
  to_u16 (last_tx_ring ifd - first_tx_ring ifd).
Definition tes_if_cur_rxring_id (ifd : tes_ifdesc) : Z :=
  to_u16 (cur_rx_ring ifd - first_rx_ring ifd).
Definition tes_if_last_rxring_id (ifd : tes_ifdesc) : Z :=
  to_u16 (last_rx_ring ifd - first_rx_ring ifd).

Definition tes_ifring_bufs (ring : tes_ifring) : Z := num_slots ring.
Definition tes_ifring_buf_size (ring : tes_ifring) : Z := nr_buf_size ring.

(** Both slots are on the same side of the head. *)
Definition same_region (ring : tes_ifring) (ida idb : Z) : bool :=
  ((head ring <=? ida) && (head ring <=? idb))
  || ((ida <? head ring) && (idb <? head ring)).

Definition tes_ifring_compare_ids (ring : tes_ifring) (ida idb : Z) : Z :=
  if ida =? idb then 0
  else if same_region ring ida idb then (if ida <? idb then -1 else 1)
  else if ida <? idb then 1 else -1.

Definition tes_ifring_earlier_id (ring : tes_ifring) (ida idb : Z) : Z :=
  if ida =? idb then ida
  else if same_region ring ida idb then (if ida <? idb then ida else idb)
  else if ida <? idb then idb else ida.

Definition tes_ifring_later_id (ring : tes_ifring) (ida idb : Z) : Z :=
  if ida =? idb then ida
  else if same_region ring ida idb then (if ida <? idb then idb else ida)
  else if ida <? idb then ida else idb.

Definition tes_ifring_head (ring : tes_ifring) : Z := head ring.
Definition tes_ifring_cur (ring : tes_ifring) : Z := cur ring.
Definition tes_ifring_preceding (ring : tes_ifring) (idx : Z) : Z :=
  s_ring_preceding ring idx.
Definition tes_ifring_following (ring : tes_ifring) (idx : Z) : Z :=
  s_ring_following ring idx.
Definition tes_ifring_tail (ring : tes_ifring) : Z := tail ring.

Definition tes_if_cur_txbuf (ifd : tes_ifdesc) : exec bytes :=
  ring ← s_txring ifd (cur_tx_ring ifd); s_buf ring (cur ring).
Definition tes_if_cur_rxbuf (ifd : tes_ifdesc) : exec bytes :=
  ring ← s_rxring ifd (cur_rx_ring ifd); s_buf ring (cur ring).

Definition tes_ifring_head_buf (ring : tes_ifring) : exec bytes := s_buf ring (head ring).
Definition tes_ifring_cur_buf (ring : tes_ifring) : exec bytes := s_buf ring (cur ring).
Definition tes_ifring_buf (ring : tes_ifring) (idx : Z) : exec bytes := s_buf ring idx.

Definition tes_ifring_preceding_buf (ring : tes_ifring) (idx : Z) : exec (option bytes) :=
  if idx =? head ring then mret None
  else b ← s_buf ring (s_ring_preceding ring idx); mret (Some b).
Definition tes_ifring_following_buf (ring : tes_ifring) (idx : Z) : exec (option bytes) :=
  let idx := s_ring_following ring idx in
  if idx =? tail ring then mret None
  else b ← s_buf ring idx; mret (Some b).
Definition tes_ifring_last_buf (ring : tes_ifring) : exec bytes :=
  s_buf ring (s_ring_preceding ring (tail ring)).

Definition tes_ifring_cur_len (ring : tes_ifring) : exec Z :=
  s ← slot ring (cur ring); mret (slot_len s).
Definition tes_ifring_len (ring : tes_ifring) (idx : Z) : exec Z :=
  s ← slot ring idx; mret (slot_len s).

Definition tes_ifring_pending (ring : tes_ifring) : Z :=
  if cur ring <=? tail ring then tail ring - cur ring
  else to_u32 (num_slots ring + tail ring - cur ring).
Definition tes_ifring_done (ring : tes_ifring) : Z :=
  if head ring <=? cur ring then cur ring - head ring
  else to_u32 (num_slots ring + cur ring - head ring).
Definition tes_ifring_total (ring : tes_ifring) : Z :=
  if head ring <=? tail ring then tail ring - head ring
  else to_u32 (num_slots ring + tail ring - head ring).

(** ** Specification: a ring is a cycle read from its head *)

Definition slot_id (r : tes_ifring) (i : Z) : Prop := 0 <= i < num_slots r.

(** What netmap guarantees of a ring: the indices are slots, and the slot
    count fits half the range of uint32_t. *)
Record ring_ok (r : tes_ifring) : Prop := {
  ro_slots : 0 < num_slots r < 2 ^ 31;
  ro_len : Z.of_nat (length (slots r)) = num_slots r;
  ro_head : slot_id r (head r);
  ro_cur : slot_id r (cur r);
  ro_tail : slot_id r (tail r);
}.

(** Number of slots from [i] to [j] going forward. *)
Definition fwd (r : tes_ifring) (i j : Z) : Z := (j - i) mod num_slots r.

Lemma fwd_range r i j : 0 < num_slots r -> 0 <= fwd r i j < num_slots r.
Proof. intros. apply Z.mod_pos_bound. done. Qed.

(** [fwd] without the modulus, for two slots of the ring. *)
Lemma fwd_cases r i j :
  0 < num_slots r -> slot_id r i -> slot_id r j ->
  fwd r i j = if i <=? j then j - i else num_slots r + j - i.
Proof.
  unfold slot_id, fwd. intros Hn Hi Hj. destruct (Z.leb_spec i j).
  - apply Z.mod_small. lia.
  - rewrite <- (Z.mod_add _ 1) by lia. rewrite Z.mod_small by lia. lia.
Qed.

Lemma ring_ok_pos r : ring_ok r -> 0 < num_slots r.
Proof. intros [H _ _ _ _]. lia. Qed.
#[export] Hint Resolve ring_ok_pos ro_head ro_cur ro_tail : tes.

Lemma following_slot r i :
  ring_ok r -> slot_id r i ->
  s_ring_following r i = (i + 1) mod num_slots r.
Proof.
  intros [Hn _ _ _ _] Hi. unfold slot_id, s_ring_following in *.
  rewrite to_u32_id by (unfold is_u32; lia).
  destruct (Z.eqb_spec (i + 1) (num_slots r)) as [->|].
  - rewrite Z.mod_same by lia. done.
  - rewrite Z.mod_small by lia. done.
Qed.

Lemma preceding_slot r i :
  ring_ok r -> slot_id r i ->
  s_ring_preceding r i = (i - 1) mod num_slots r.
Proof.
  intros [Hn _ _ _ _] Hi. unfold slot_id, s_ring_preceding in *.
  destruct (Z.eqb_spec i 0) as [->|].
  - rewrite to_u32_id by (unfold is_u32; lia).
    rewrite <- (Z.mod_add _ 1) by lia. rewrite Z.mod_small by lia. lia.
  - rewrite Z.mod_small by lia. done.
Qed.

Lemma following_slot_id r i : ring_ok r -> slot_id r i -> slot_id r (s_ring_following r i).
Proof.
  intros H Hi. rewrite following_slot by done. apply Z.mod_pos_bound.
  by apply ring_ok_pos.
Qed.

Lemma preceding_slot_id r i : ring_ok r -> slot_id r i -> slot_id r (s_ring_preceding r i).
Proof.
  intros H Hi. rewrite preceding_slot by done. apply Z.mod_pos_bound.
  by apply ring_ok_pos.
Qed.

Lemma preceding_following r i :
  ring_ok r -> slot_id r i -> s_ring_preceding r (s_ring_following r i) = i.
Proof.
  intros H Hi. pose proof (ring_ok_pos r H).
  rewrite preceding_slot, following_slot by (auto using following_slot_id).
  rewrite Zminus_mod_idemp_l. replace (i + 1 - 1) with i by lia.
  apply Z.mod_small, Hi.
Qed.

Lemma following_preceding r i :
  ring_ok r -> slot_id r i -> s_ring_following r (s_ring_preceding r i) = i.
Proof.
  intros H Hi. pose proof (ring_ok_pos r H).
  rewrite following_slot, preceding_slot by (auto using preceding_slot_id).
  rewrite Z.add_mod_idemp_l by lia. replace (i - 1 + 1) with i by lia.
  apply Z.mod_small, Hi.
Qed.

(** Going one slot forward from [i], short of [j], leaves one slot less. *)
Lemma fwd_following r i j :
  ring_ok r -> slot_id r i -> slot_id r j -> i <> j ->
  fwd r (s_ring_following r i) j = fwd r i j - 1.
Proof.
  intros H Hi Hj Hne. pose proof (ring_ok_pos r H).
  pose proof (following_slot_id r i H Hi) as Hf.
  rewrite !fwd_cases by done. destruct H as [Hn _ _ _ _].
  unfold s_ring_following, slot_id in *.
  rewrite to_u32_id in * by (unfold is_u32; lia).
  destruct (Z.eqb_spec (i + 1) (num_slots r)); repeat case_if; bool_hyps; lia.
Qed.

Lemma fwd_zero r i j :
  0 < num_slots r -> slot_id r i -> slot_id r j -> fwd r i j = 0 <-> i = j.
Proof.
  intros Hn Hi Hj. rewrite fwd_cases by done. unfold slot_id in *.
  destruct (Z.leb_spec i j); lia.
Qed.

Lemma slot_done r i : ring_ok r -> slot_id r i -> exists s, slot r i = Done s.
Proof.
  intros [_ Hl _ _ _] Hi. unfold slot, slot_id in *.
  destruct (lookup_lt_is_Some_2 (slots r) (Z.to_nat i)) as [s Hs]; [lia|].
  rewrite Hs. eexists. done.
Qed.

Lemma s_buf_done r i : ring_ok r -> slot_id r i -> exists b, s_buf r i = Done b.
Proof.
  intros H Hi. destruct (slot_done r i H Hi) as [s Hs]. unfold s_buf. rewrite Hs.
  eexists. done.
Qed.

Lemma slot_s_buf r i s : slot r i = Done s -> s_buf r i = Done (slot_buf s).
Proof. intros H. unfold s_buf. rewrite H. done. Qed.

Lemma earlier_id_fwd r a b :
  ring_ok r -> slot_id r a -> slot_id r b ->
  (tes_ifring_earlier_id r a b = a \/ tes_ifring_earlier_id r a b = b) /\
  fwd r (head r) (tes_ifring_earlier_id r a b) =
    Z.min (fwd r (head r) a) (fwd r (head r) b).
Proof.
  intros H Ha Hb. pose proof (ring_ok_pos r H) as Hn. pose proof (ro_head r H) as Hh.
  assert (Hid : tes_ifring_earlier_id r a b = a \/ tes_ifring_earlier_id r a b = b).
  { unfold tes_ifring_earlier_id. repeat case_if; auto. }
  split; [done|].
  assert (He : slot_id r (tes_ifring_earlier_id r a b)) by (destruct Hid as [->| ->]; done).
  rewrite !fwd_cases by done. clear Hid He.
  unfold tes_ifring_earlier_id, same_region, slot_id in *.
  destruct (Z.eqb_spec a b); [subst; lia|].
  destruct (Z.leb_spec (head r) a), (Z.leb_spec (head r) b),
    (Z.ltb_spec a (head r)), (Z.ltb_spec b (head r)), (Z.ltb_spec a b);
    try lia; simpl; repeat case_if; bool_hyps; lia.
Qed.

Lemma compare_ids_fwd r a b :
  ring_ok r -> slot_id r a -> slot_id r b ->
  tes_ifring_compare_ids r a b = Z.sgn (fwd r (head r) a - fwd r (head r) b).
Proof.
  intros H Ha Hb. pose proof (ring_ok_pos r H) as Hn. pose proof (ro_head r H) as Hh.
  rewrite !fwd_cases by done. unfold tes_ifring_compare_ids, same_region, slot_id in *.
  destruct (Z.eqb_spec a b); [subst; lia|].
  destruct (Z.leb_spec (head r) a), (Z.leb_spec (head r) b),
    (Z.ltb_spec a (head r)), (Z.ltb_spec b (head r)), (Z.ltb_spec a b);
    try lia; simpl; lia.
Qed.

Lemma later_id_other r a b :
  tes_ifring_later_id r a b = a + b - tes_ifring_earlier_id r a b.
Proof.
  unfold tes_ifring_later_id, tes_ifring_earlier_id. repeat case_if; bool_hyps; lia.
Qed.

Lemma ring_count r i j :
  ring_ok r -> slot_id r i -> slot_id r j ->
  (if i <=? j then j - i else to_u32 (num_slots r + j - i)) = fwd r i j.
Proof.
  intros H Hi Hj. rewrite fwd_cases by (auto with tes).
  destruct H as [Hn _ _ _ _]. unfold slot_id in *.
  destruct (Z.leb_spec i j); [done|]. apply to_u32_id. unfold is_u32. lia.
Qed.

Lemma reduce_cur_mod n c fuel :
  0 < n -> 0 <= c -> (Z.to_nat (c / n) < fuel)%nat ->
  reduce_cur fuel n c = Some (c mod n).
Proof.
  intros Hn. revert c. induction fuel as [|fuel IH]; intros c Hc Hf; [lia|].
  simpl. destruct (Z.leb_spec n c) as [Hle|Hlt].
  - assert (E : (c - n) / n = c / n - 1)
      by (replace (c - n) with (c + (-1) * n) by lia; rewrite Z.div_add by lia; lia).
    assert (0 < c / n) by (apply Z.div_str_pos; lia).
    rewrite IH by lia. f_equal.
    replace (c - n) with (c + (-1) * n) by lia. apply Z.mod_add. lia.
  - rewrite Z.mod_small by lia. done.
Qed.

Lemma set_cur_ok r v : ring_ok r -> slot_id r v -> ring_ok (set_cur r v).
Proof. intros [] Hv. split; done. Qed.

Lemma set_head_ok r v : ring_ok r -> slot_id r v -> ring_ok (set_head r v).
Proof. intros [] Hv. split; done. Qed.
#[export] Hint Resolve set_cur_ok set_head_ok following_slot_id preceding_slot_id : tes.

(** A descriptor whose rings are all there and well formed. *)
Record ifd_ok (d : tes_ifdesc) : Prop := {
  io_first : 0 <= first_rx_ring d <= last_rx_ring d;
  io_last : last_rx_ring d < 2 ^ 15;
  io_len : last_rx_ring d < Z.of_nat (length (rx_rings d));
  io_rings : Forall ring_ok (rx_rings d);
}.

Lemma rxring_done d i :
  ifd_ok d -> 0 <= i < tes_if_rxrings d ->
  exists r, tes_if_rxring d i = Done (Some r) /\ ring_ok r.
Proof.
  intros [Hf Hl Hn Hr] Hi. unfold tes_if_rxrings, tes_if_rxring in *.
  rewrite to_u16_id in Hi by (unfold is_u16; lia).
  rewrite !to_u16_id by (unfold is_u16; lia).
  destruct (Z.ltb_spec (i + first_rx_ring d) (first_rx_ring d)); [lia|].
  destruct (Z.ltb_spec (last_rx_ring d) (i + first_rx_ring d)); [lia|].
  cbn [orb]. unfold s_rxring, ring_at.
  destruct (lookup_lt_is_Some_2 (rx_rings d) (Z.to_nat (i + first_rx_ring d)))
    as [r Hr']; [lia|].
  rewrite Hr'. exists r. split; [done|].
  eapply Forall_lookup_1; eassumption.
Qed.

Lemma rxring_null d i :
  ifd_ok d -> is_u16 i -> i + first_rx_ring d < 2 ^ 16 -> tes_if_rxrings d <= i ->
  tes_if_rxring d i = Done None.
Proof.
  intros [Hf Hl Hn Hr] Hi Hs Hge. unfold tes_if_rxrings, tes_if_rxring, is_u16 in *.
  rewrite to_u16_id in Hge by (unfold is_u16; lia).
  rewrite to_u16_id by (unfold is_u16; lia).
  rewrite (proj2 (Z.ltb_lt (last_rx_ring d) (i + first_rx_ring d))) by lia.
  rewrite orb_true_r. done.
Qed.

(** ** Properties *)

Definition sample_ring (n h c t : Z) : tes_ifring :=
  {| num_slots := n; nr_buf_size := 2048; head := h; cur := c; tail := t;
     slots := replicate (Z.to_nat n) {| slot_len := 0; slot_buf := [] |} |}.

Lemma sample_ring_ok n h c t :
  0 < n < 2 ^ 31 -> 0 <= h < n -> 0 <= c < n -> 0 <= t < n ->
  ring_ok (sample_ring n h c t).
Proof.
  intros. split; unfold slot_id; simpl; rewrite ?length_replicate; lia.
Qed.

(** Comparing two slots of a ring is comparing how far they are from
    the head going forward: [compare_ids] is the sign of the difference,
    [earlier_id] and [later_id] pick the nearer and the farther one.  So the
    coordinator's choice of the slowest task never runs past a task's head. *)
Theorem ring_order_correct r a b :
  ring_ok r -> slot_id r a -> slot_id r b ->
  tes_ifring_compare_ids r a b = Z.sgn (fwd r (head r) a - fwd r (head r) b) /\
  fwd r (head r) (tes_ifring_earlier_id r a b) =
    Z.min (fwd r (head r) a) (fwd r (head r) b) /\
  fwd r (head r) (tes_ifring_later_id r a b) =
    Z.max (fwd r (head r) a) (fwd r (head r) b).
Proof.
  intros H Ha Hb. destruct (earlier_id_fwd r a b H Ha Hb) as [Hid He].
  split; [by apply compare_ids_fwd|]. split; [done|].
  rewrite later_id_other. destruct Hid as [E|E]; rewrite E in *.
  - replace (a + b - a) with b by lia. lia.
  - replace (a + b - b) with a by lia. lia.
Qed.

Lemma ring_order_correct_witness :
  tes_ifring_compare_ids (sample_ring 8 5 6 3) 6 1 = -1 /\
  tes_ifring_earlier_id (sample_ring 8 5 6 3) 6 1 = 6.
Proof.
  destruct (ring_order_correct (sample_ring 8 5 6 3) 6 1) as (H & _ & _);
    [apply sample_ring_ok; lia | split; simpl; lia | split; simpl; lia |].
  rewrite H. split; vm_compute; reflexivity.
Defined.

(** on a well-formed ring [following] and [preceding] are inverse steps
    round the cycle that stay inside it, and the counters are distances:
    [done] from head to cur, [pending] from cur to tail, [total] from head to
    tail; when the cursor lies between head and tail, total is their sum. *)
Theorem ring_counts_correct r :
  ring_ok r ->
  (forall i, slot_id r i ->
    slot_id r (tes_ifring_following r i) /\
    tes_ifring_preceding r (tes_ifring_following r i) = i /\
    tes_ifring_following r (tes_ifring_preceding r i) = i) /\
  tes_ifring_done r = fwd r (head r) (cur r) /\
  tes_ifring_pending r = fwd r (cur r) (tail r) /\
  tes_ifring_total r = fwd r (head r) (tail r) /\
  (fwd r (head r) (cur r) <= fwd r (head r) (tail r) ->
   tes_ifring_total r = tes_ifring_done r + tes_ifring_pending r).
Proof.
  intros H.
  assert (Hd : tes_ifring_done r = fwd r (head r) (cur r)) by (apply ring_count; auto with tes).
  assert (Hp : tes_ifring_pending r = fwd r (cur r) (tail r)) by (apply ring_count; auto with tes).
  assert (Ht : tes_ifring_total r = fwd r (head r) (tail r)) by (apply ring_count; auto with tes).
  split.
  { intros i Hi. split; [by apply following_slot_id|].
    split; [by apply preceding_following | by apply following_preceding]. }
  repeat (split; [done|]). rewrite Hd, Hp, Ht.
  rewrite !fwd_cases by auto with tes.
  destruct H as [Hn _ Hh Hc Hta]. unfold slot_id in *.
  repeat case_if; bool_hyps; lia.
Qed.

Lemma ring_counts_correct_witness :
  tes_ifring_total (sample_ring 8 5 6 3) =
    tes_ifring_done (sample_ring 8 5 6 3) + tes_ifring_pending (sample_ring 8 5 6 3).
Proof.
  apply (ring_counts_correct (sample_ring 8 5 6 3)).
  - apply sample_ring_ok; lia.
  - vm_compute. congruence.
Defined.

(** [tes_ifring_wait_for_more] returns for every ring with slots: its
    loop brings the cursor, wherever tail + num falls, back to a slot of the
    ring, namely tail + num (as a uint32_t) modulo the number of slots. *)
Theorem wait_for_more_terminates r num :
  ring_ok r ->
  exists r', tes_ifring_wait_for_more r num = Some r' /\ ring_ok r' /\
    cur r' = to_u32 (tail r + num) mod num_slots r /\
    head r' = head r /\ tail r' = tail r.
Proof.
  intros H. pose proof (ring_ok_pos r H) as Hn.
  pose proof (to_u32_range (tail r + num)) as [Hc _].
  unfold tes_ifring_wait_for_more.
  rewrite reduce_cur_mod by lia. simpl. eexists. split; [done|].
  split; [|done]. apply set_cur_ok; [done|]. apply Z.mod_pos_bound. done.
Qed.

Lemma wait_for_more_terminates_witness :
  exists r', tes_ifring_wait_for_more (sample_ring 8 5 6 3) 30 = Some r' /\ cur r' = 1.
Proof.
  destruct (wait_for_more_terminates (sample_ring 8 5 6 3) 30) as (r' & H & _ & Hc & _).
  - apply sample_ring_ok; lia.
  - exists r'. split; [exact H | rewrite Hc; vm_compute; reflexivity].
Defined.

(** ** What is forwarded *)

Module Netmap.

(** The interface of netmap: its descriptors and requests, and its functions.
    An injection and a dispatch change the descriptor; the handler of a dispatch
    changes its argument. *)
Class NetmapApi : Type := {
  nm_desc : Type;
  nmreq : Type;
  nm_pkthdr : Type;
  nm_open : bytes -> option nmreq -> Z -> option nm_desc -> option nm_desc;
  nm_close : nm_desc -> Z;
  nm_fd : nm_desc -> Z;
  ni_name : nm_desc -> bytes;
  nm_inject : nm_desc -> bytes -> Z -> Z * nm_desc;
  nm_dispatch : forall A, nm_desc -> Z -> (A -> nm_pkthdr -> bytes -> A) -> A -> Z * nm_desc * A;
}.

Section Forward.
Context `{NetmapApi}.

Definition tes_if_open (name : bytes) (req : option nmreq) (flags : Z) (arg : option nm_desc)
    : option nm_desc := nm_open name req flags arg.
Definition tes_if_close (ifd : nm_desc) : Z := nm_close ifd.
Definition tes_if_fd (ifd : nm_desc) : Z := nm_fd ifd.
Definition tes_if_name (ifd : nm_desc) : bytes := ni_name ifd.
Definition tes_if_inject (ifd : nm_desc) (buf : bytes) (len : Z) : Z * nm_desc := nm_inject ifd buf len.
Definition tes_if_dispatch {A} (ifd : nm_desc) (cnt : Z) (handler : A -> nm_pkthdr -> bytes -> A) (arg : A)
    : Z * nm_desc * A := nm_dispatch A ifd cnt handler arg.
End Forward.
End Netmap.
