(* ===== verification/Task.v ===== *)
(** * The task framework (src/bin/tesd_tasks.h, src/bin/tesd_tasks.c)

    A task is a record with the members of [struct _task_t] that its handlers
    read or write, over the type of its own data.  Calls to ZeroMQ are an
    ordered log of actions in the task; their results are functions of the log
    and the arguments (class [ZEnv]), so that they may differ from call to
    call.  What a task supplies (its packet handler and its activation hooks)
    is the class [TaskImpl]; the class [TaskLaws] of TaskTheory.v is what the
    dispatcher relies on.  DEBUG_LEVEL is the default, TESTING:
    assertions are compiled in, the VERBOSE statistics are not. *)

From Stdlib Require Import ZArith Lia Strings.String Strings.Byte.
From stdpp Require Import base option list numbers decidable sets.
From S2P Require Import Prelude Tespkt Tesif.

Open Scope Z_scope.

Definition NUM_RINGS : Z := 4.
Definition ring_ids : list Z := [0; 1; 2; 3].

Definition SIG_INIT : Z := 0.
Definition SIG_STOP : Z := 1.
Definition SIG_DIED : Z := 2.
Definition SIG_WAKEUP : Z := 3.

Definition TASK_SLEEP : Z := 1.
Definition TASK_ERROR : Z := -1.

Inductive zmq_type : Type := ZMQ_REP | ZMQ_XPUB.

(** ** Calls to ZeroMQ *)

Inductive action : Type :=
  | ZmqSend (frontend : nat) (data : bytes)
  | ZsockSend (frontend : nat) (picture : string) (args : list zarg)
  | ZloopReader (frontend : nat)
  | ZloopReaderEnd (frontend : nat)
  | ZloopTimer (delay : Z)
  | ZloopTimerEnd (tid : Z)
  (* made only by the body of the thread *)
  | ZsockSignal (sig : Z)
  | ZsockNew (frontend : nat)
  | ZsockAttach (frontend : nat) (addresses : string)
  | ZsockDestroy (frontend : nat)
  | ZloopNew
  | ZloopReaderPipe
  | ZloopDestroy
  | SetAffinity (cpu : Z)
  | GetAffinity
  | BlockSignals.

(** Results of the calls that can fail: -1 on error. *)
Class ZEnv : Type := {
  zmq_send_rc : list action -> nat -> bytes -> Z;
  zloop_reader_rc : list action -> nat -> Z;
  zloop_timer_rc : list action -> Z -> Z;
}.

(** The documented behaviour used by some theorems: registering a reader
    succeeds. *)
Class ZEnvReader `{ZEnv} : Prop :=
  zloop_reader_ok : forall l i, zloop_reader_rc l i = 0.

(** ** Tasks *)

Record task_endp : Type := {
  ep_handler : bool;      (* the handler is not NULL *)
  ep_type : zmq_type;
  ep_nsubs : Z;
  ep_automute : bool;
  ep_autosleep : bool;
}.

Definition set_nsubs (e : task_endp) (v : Z) : task_endp :=
  {| ep_handler := ep_handler e; ep_type := ep_type e; ep_nsubs := v;
     ep_automute := ep_automute e; ep_autosleep := ep_autosleep e |}.

Record task (D : Type) : Type := Task {
  frontends : list task_endp;
  heads : list Z;
  prev_fseq : Z;
  prev_pseq_mca : Z;
  prev_pseq_tr : Z;
  just_activated : bool;
  error : bool;
  busy : bool;
  active : bool;
  data : D;
  log : list action;
}.
Arguments Task {D}.
Arguments frontends {D}.
Arguments heads {D}.
Arguments prev_fseq {D}.
Arguments prev_pseq_mca {D}.
Arguments prev_pseq_tr {D}.
Arguments just_activated {D}.
Arguments error {D}.
Arguments busy {D}.
Arguments active {D}.
Arguments data {D}.
Arguments log {D}.

Section Setters.
Context {D : Type}.
Implicit Types t : task D.

Definition set_frontends t v : task D :=
  Task v (heads t) (prev_fseq t) (prev_pseq_mca t) (prev_pseq_tr t)
    (just_activated t) (error t) (busy t) (active t) (data t) (log t).
Definition set_heads t v : task D :=
  Task (frontends t) v (prev_fseq t) (prev_pseq_mca t) (prev_pseq_tr t)
    (just_activated t) (error t) (busy t) (active t) (data t) (log t).
Definition set_prev_fseq t v : task D :=
  Task (frontends t) (heads t) v (prev_pseq_mca t) (prev_pseq_tr t)
    (just_activated t) (error t) (busy t) (active t) (data t) (log t).
Definition set_prev_pseq_mca t v : task D :=
  Task (frontends t) (heads t) (prev_fseq t) v (prev_pseq_tr t)
    (just_activated t) (error t) (busy t) (active t) (data t) (log t).
Definition set_prev_pseq_tr t v : task D :=
  Task (frontends t) (heads t) (prev_fseq t) (prev_pseq_mca t) v
    (just_activated t) (error t) (busy t) (active t) (data t) (log t).
Definition set_just_activated t v : task D :=
  Task (frontends t) (heads t) (prev_fseq t) (prev_pseq_mca t) (prev_pseq_tr t)
    v (error t) (busy t) (active t) (data t) (log t).
Definition set_error t v : task D :=
  Task (frontends t) (heads t) (prev_fseq t) (prev_pseq_mca t) (prev_pseq_tr t)
    (just_activated t) v (busy t) (active t) (data t) (log t).
Definition set_busy t v : task D :=
  Task (frontends t) (heads t) (prev_fseq t) (prev_pseq_mca t) (prev_pseq_tr t)
    (just_activated t) (error t) v (active t) (data t) (log t).
Definition set_active t v : task D :=
  Task (frontends t) (heads t) (prev_fseq t) (prev_pseq_mca t) (prev_pseq_tr t)
    (just_activated t) (error t) (busy t) v (data t) (log t).
Definition set_data t v : task D :=
  Task (frontends t) (heads t) (prev_fseq t) (prev_pseq_mca t) (prev_pseq_tr t)
    (just_activated t) (error t) (busy t) (active t) v (log t).
Definition emit t (a : action) : task D :=
  Task (frontends t) (heads t) (prev_fseq t) (prev_pseq_mca t) (prev_pseq_tr t)
    (just_activated t) (error t) (busy t) (active t) (data t) (log t ++ [a]).
End Setters.

(** What a task supplies to the framework; [None] is a NULL hook. *)
Class TaskImpl (D : Type) : Type := {
  pkt_handler : task D -> tespkt -> Z -> Z -> Z -> exec (Z * task D);
  data_wakeup : option (task D -> exec (Z * task D));
  data_sleep : option (task D -> exec (Z * task D));
}.

(** [tes_if_rxring (self->ifd, r)], dereferenced by its user. *)
Definition rxring (ifd : tes_ifdesc) (r : Z) : exec tes_ifring :=
  p ← tes_if_rxring ifd r; deref p.

Section Framework.
Context {D : Type} `{ZEnv} `{!TaskImpl D}.
Implicit Types t : task D.

(** [self->heads[r]] *)
Definition head_of t (r : Z) : Z := nth (Z.to_nat r) (heads t) 0.
Definition set_head_of t (r v : Z) : task D :=
  set_heads t (<[Z.to_nat r := v]> (heads t)).

(** A hook that may be NULL. *)
Definition run_hook (h : option (task D -> exec (Z * task D))) t : exec (Z * task D) :=
  match h with Some f => f t | None => mret (0, t) end.

(** ** Activation *)

Fixpoint mute_frontends (i : nat) (eps : list task_endp) t : task D :=
  match eps with
  | [] => t
  | ep :: eps =>
      mute_frontends (S i) eps
        (if ep_automute ep then emit t (ZloopReaderEnd i) else t)
  end.

Fixpoint sync_heads (ifd : tes_ifdesc) (rs : list Z) t : exec (task D) :=
  match rs with
  | [] => mret t
  | r :: rs =>
      ring ← rxring ifd r;
      sync_heads ifd rs (set_head_of t r (tes_ifring_head ring))
  end.

Definition task_activate (ifd : tes_ifdesc) t : exec (Z * task D) :=
  '(rc, t) ← run_hook data_wakeup t;
  if c_true rc then mret (TASK_ERROR, t)
  else
    let t := mute_frontends 0 (frontends t) t in
    t ← sync_heads ifd ring_ids t;
    let t := set_active t true in
    mret (0, set_just_activated t true).

Fixpoint unmute_frontends (i : nat) (eps : list task_endp) t : exec (Z * task D) :=
  match eps with
  | [] => mret (0, t)
  | ep :: eps =>
      if negb (ep_automute ep) then unmute_frontends (S i) eps t
      else
        dbg_assert (ep_handler ep);;
        let rc := zloop_reader_rc (log t) i in
        let t := emit t (ZloopReader i) in
        if rc =? -1 then mret (TASK_ERROR, t) else unmute_frontends (S i) eps t
  end.

Definition task_deactivate t : exec (Z * task D) :=
  '(rc, t) ← run_hook data_sleep t;
  if c_true rc then mret (TASK_ERROR, t)
  else
    '(rc, t) ← unmute_frontends 0 (frontends t) t;
    if c_true rc then mret (rc, t) else mret (0, set_active t false).

(** ** Choosing the ring *)

(** The frame sequence at the task's head in ring [r], [None] when the ring
    has no packet for the task. *)
Definition head_fseq (ifd : tes_ifdesc) t (r : Z) : exec (option Z) :=
  ring ← rxring ifd r;
  if tes_ifring_tail ring =? head_of t r then mret None
  else pkt ← tes_ifring_buf ring (head_of t r); mret (Some (tespkt_fseq pkt)).

(** [(uint16_t)~0 >> 1] *)
Definition thres_gap : Z := Z.shiftr UINT16_MAX 1.

(** The loop after activation: the chosen ring and [prev_fseq]. *)
Fixpoint first_ring (ifd : tes_ifdesc) (rs : list Z) (next prev : Z) t : exec (Z * Z) :=
  match rs with
  | [] => mret (next, prev)
  | r :: rs =>
      o ← head_fseq ifd t r;
      match o with
      | None => first_ring ifd rs next prev t
      | Some cur_fseq =>
          if (r =? 0) || (thres_gap <? cur_fseq - prev)
          then first_ring ifd rs r (to_u16 (cur_fseq - 1)) t
          else first_ring ifd rs next prev t
      end
  end.

(** The loop otherwise: the chosen ring and the jump in sequence. *)
Fixpoint closest_ring (ifd : tes_ifdesc) (rs : list Z) (next missed : Z) t : exec (Z * Z) :=
  match rs with
  | [] => mret (next, missed)
  | r :: rs =>
      o ← head_fseq ifd t r;
      match o with
      | None => closest_ring ifd rs next missed t
      | Some cur_fseq =>
          let fseq_gap := to_u16 (cur_fseq - prev_fseq t - 1) in
          if fseq_gap <=? missed
          then if fseq_gap =? 0 then mret (r, fseq_gap)
               else closest_ring ifd rs r fseq_gap t
          else closest_ring ifd rs next missed t
      end
  end.

(** The ring (or -1), the missed frames, and the task. *)
Definition s_task_next_ring (ifd : tes_ifdesc) t : exec (Z * Z * task D) :=
  if just_activated t then
    '(next, prev) ← first_ring ifd ring_ids (-1) (prev_fseq t) t;
    mret (next, 0, set_prev_fseq t prev)
  else
    '(next, missed) ← closest_ring ifd ring_ids (-1) UINT16_MAX t;
    mret (next, missed, t).

(** ** Dispatching a ring *)

(** Error flags and length of a packet, checked against the slot. *)
Definition slot_check (pkt : tespkt) (len : Z) : Z * Z :=
  let err := tespkt_is_valid pkt in
  let flen := tespkt_flen pkt in
  if len <? flen then (Z.lor err TES_EETHLEN, len) else (err, flen).

(** After the handler: remember the sequence numbers of the packet. *)
Definition update_seq (pkt : tespkt) t : task D :=
  let t := set_prev_fseq t (tespkt_fseq pkt) in
  if tespkt_is_mca pkt then set_prev_pseq_mca t (tespkt_pseq pkt)
  else if tespkt_is_trace_long pkt then set_prev_pseq_tr t (tespkt_pseq pkt)
  else t.

(** The body of the loop of [s_task_dispatch], for one packet. *)
Definition dispatch_one (ring : tes_ifring) (ring_id : Z) t : exec (Z * task D) :=
  pkt ← tes_ifring_buf ring (head_of t ring_id);
  len ← tes_ifring_len ring (head_of t ring_id);
  let '(err, flen) := slot_check pkt len in
  dbg_assert (flen <=? TESPKT_MTU);;
  let fseq_gap := to_u16 (tespkt_fseq pkt - prev_fseq t - 1) in
  '(rc, t) ← pkt_handler t pkt flen fseq_gap err;
  mret (rc, update_seq pkt t).

Fixpoint dispatch_loop (fuel : nat) (ring : tes_ifring) (ring_id : Z) t : exec (Z * task D) :=
  if head_of t ring_id =? tes_ifring_tail ring then mret (0, t)
  else
    match fuel with
    | O => fail NoFuel
    | S fuel =>
        '(rc, t) ← dispatch_one ring ring_id t;
        if c_true rc then mret (rc, t)
        else dispatch_loop fuel ring ring_id
               (set_head_of t ring_id (tes_ifring_following ring (head_of t ring_id)))
    end.

(** A ring holds less than [num_slots] packets. *)
Definition s_task_dispatch (ifd : tes_ifdesc) (ring_id missed : Z) t : exec (Z * task D) :=
  ring ← rxring ifd ring_id;
  dbg_assert (negb (head_of t ring_id =? tes_ifring_tail ring));;
  dispatch_loop (Z.to_nat (num_slots ring)) ring ring_id t.

(** ** Signals *)

(** The loop over the rings; the task with its error flag. *)
Fixpoint process_rings (fuel : nat) (ifd : tes_ifdesc) t : exec (task D) :=
  match fuel with
  | O => fail NoFuel
  | S fuel =>
      '(next_ring_id, missed, t) ← s_task_next_ring ifd t;
      if next_ring_id <? 0 then mret t
      else
        '(rc, t) ← s_task_dispatch ifd next_ring_id missed t;
        let t := set_just_activated t false in
        if rc =? TASK_SLEEP then
          '(rc, t) ← task_deactivate t; mret t
        else if rc =? TASK_ERROR then mret (set_error t true)
        else process_rings fuel ifd t
  end.

(** Every dispatch empties a ring or ends the loop. *)
Definition process_fuel : nat := 5.

Definition s_sig_hn (ifd : tes_ifdesc) (sig : Z) t : exec (Z * task D) :=
  dbg_assert (negb (busy t));;
  let t := set_busy t true in
  dbg_assert (negb (sig =? -1));;
  if sig =? SIG_STOP then mret (-1, t)
  else
    dbg_assert (sig =? SIG_WAKEUP);;
    if negb (active t) then mret (0, set_busy t false)
    else
      t ← process_rings process_fuel ifd t;
      let t := set_busy t false in
      mret (if error t then -1 else 0, t).

(** ** Subscriptions *)

(** The first byte of the C string that [zmsg_popstr] returns. *)
Definition first_char (frame : bytes) : Z := load8 frame 0.

(** [msg] is the list of frames received on frontend [reader]. *)
Definition s_sub_hn (ifd : tes_ifdesc) (reader : nat) (msg : list bytes) t : exec (Z * task D) :=
  match msg with
  | [frame] =>
      ep ← match frontends t !! reader with
           | Some ep => mret ep
           | None => fail AssertFail
           end;
      let stat := first_char frame in
      if (stat =? 0) || (stat =? 1) then
        nsubs ← (if stat =? 0
                 then dbg_assert (0 <? ep_nsubs ep);; mret (to_u32 (ep_nsubs ep - 1))
                 else mret (to_u32 (ep_nsubs ep + 1)));
        let t := set_frontends t (<[reader := set_nsubs ep nsubs]> (frontends t)) in
        if nsubs =? 1 then '(_, t) ← task_activate ifd t; mret (0, t)
        else if nsubs =? 0 then '(_, t) ← task_deactivate t; mret (0, t)
        else mret (0, t)
      else mret (0, t)
  | _ => mret (0, t)
  end.
End Framework.
