(* ===== verification/TaskTheory.v ===== *)
(** * Theory of the task framework

    The contract between dispatcher and tasks ([TaskLaws]), the queues that
    the rings are for a task, and the theorems of src/bin/tesd_tasks.c:
    dispatching refines a fold of the handler over the waiting packets, the
    choice of ring, activation, subscriptions and the wakeup handler. *)

From Stdlib Require Import ZArith Lia Strings.String Strings.Byte.
From stdpp Require Import base option list numbers decidable sets.
From S2P Require Import Prelude Tespkt Tesif Task.

Open Scope Z_scope.

(** ** What the dispatcher passes to a handler *)

(** [pkt] is the buffer, [flen] the length the handler may read, [err] the
    error flags: no error means a valid frame of that length. *)
Record frame_args (pkt : tespkt) (flen err : Z) : Prop := {
  fa_pos : 0 <= flen <= TESPKT_MTU;
  fa_buf : flen <= Z.of_nat (length pkt);
  fa_valid : err = 0 -> valid_frame pkt /\ flen = tespkt_flen pkt;
}.

(** A slot as the network interface fills it: the length fits the buffer. *)
Definition slot_filled (s : netmap_slot) : Prop :=
  is_u16 (slot_len s) /\ slot_len s <= Z.of_nat (length (slot_buf s)).

(** The frame is not longer than the MTU, by its header or by its slot. *)
Definition slot_mtu (s : netmap_slot) : Prop :=
  Z.min (slot_len s) (tespkt_flen (slot_buf s)) <= TESPKT_MTU.

Lemma lor_nonzero a b : 0 < b -> Z.lor a b <> 0.
Proof. intros Hb H%Z.lor_eq_0_iff. lia. Qed.

Lemma slot_check_args s err flen :
  slot_filled s -> slot_mtu s -> slot_check (slot_buf s) (slot_len s) = (err, flen) ->
  frame_args (slot_buf s) flen err.
Proof.
  intros [Hu Hb] Hm. unfold slot_check, slot_mtu in *.
  pose proof (tespkt_flen_range (slot_buf s)) as Hf.
  unfold is_u16 in *. destruct (Z.ltb_spec (slot_len s) (tespkt_flen (slot_buf s)));
    intros [= <- <-].
  - split; [lia|lia|]. intros E. exfalso. revert E. apply lor_nonzero.
    unfold TES_EETHLEN. lia.
  - split; [lia|lia|]. intros E%valid_iff. done.
Qed.

(** The framework members are untouched and the log only grows. *)
Record same_frame {D} (t t' : task D) : Prop := {
  sf_frontends : frontends t' = frontends t;
  sf_heads : heads t' = heads t;
  sf_prev_fseq : prev_fseq t' = prev_fseq t;
  sf_prev_pseq_mca : prev_pseq_mca t' = prev_pseq_mca t;
  sf_prev_pseq_tr : prev_pseq_tr t' = prev_pseq_tr t;
  sf_just_activated : just_activated t' = just_activated t;
  sf_error : error t' = error t;
  sf_busy : busy t' = busy t;
  sf_active : active t' = active t;
  sf_log : exists l, log t' = log t ++ l;
}.

Lemma same_frame_refl {D} (t : task D) : same_frame t t.
Proof. split; try done. exists []. by rewrite app_nil_r. Qed.

Lemma same_frame_data {D} (t : task D) d : same_frame t (set_data t d).
Proof. split; try done. exists []. by rewrite app_nil_r. Qed.

Lemma same_frame_emit {D} (t : task D) a : same_frame t (emit t a).
Proof. split; try done. eexists; done. Qed.

Lemma same_frame_trans {D} (t1 t2 t3 : task D) :
  same_frame t1 t2 -> same_frame t2 t3 -> same_frame t1 t3.
Proof.
  intros [] []. split; try congruence.
  destruct sf_log0 as [l E], sf_log1 as [l' E']. exists (l ++ l').
  by rewrite E', E, app_assoc.
Qed.

#[export] Hint Resolve same_frame_refl same_frame_data same_frame_emit : tes.

(** The bytes of a frame after its header. *)
Definition payload (pkt : tespkt) : bytes :=
  take (Z.to_nat (payload_len pkt)) (drop (Z.to_nat TESPKT_HDR_LEN) pkt).

Lemma length_payload pkt flen err :
  frame_args pkt flen err -> err = 0 ->
  Z.of_nat (length (payload pkt)) = payload_len pkt.
Proof.
  intros [H1 H2 H3] He. destruct (H3 He) as [Hv ->].
  pose proof (valid_frame_len pkt Hv) as (_ & Hl & _).
  unfold payload, payload_len, TESPKT_HDR_LEN in *.
  rewrite length_take, length_drop. lia.
Qed.

Lemma valid_frame_args pkt :
  valid_frame pkt -> tespkt_flen pkt <= Z.of_nat (length pkt) ->
  frame_args pkt (tespkt_flen pkt) 0.
Proof.
  intros Hv Hl. pose proof (valid_frame_len pkt Hv) as (_ & Hp & _).
  unfold payload_len, TESPKT_HDR_LEN, TESPKT_MTU in *. split; [|done..].
  unfold TESPKT_MTU. lia.
Qed.

Definition rc_handler (rc : Z) : Prop := rc = 0 \/ rc = TASK_SLEEP \/ rc = TASK_ERROR.

(** What the dispatcher relies on.  [I] is the invariant of the task's data,
    [A] what is assumed of the packets on the wire.  The handler then never
    fails, returns one of the three codes and keeps the invariant; so do the
    activation hooks. *)
Class TaskLaws {D} `{!TaskImpl D} (I : D -> Prop) (A : tespkt -> Prop) : Prop := {
  handler_ok : forall t pkt flen missed err,
    I (data t) -> A pkt -> frame_args pkt flen err -> is_u16 missed ->
    wp (pkt_handler t pkt flen missed err)
      (fun '(rc, t') => rc_handler rc /\ I (data t') /\ same_frame t t');
  wakeup_ok : forall t : task D, I (data t) ->
    wp (run_hook data_wakeup t)
      (fun '(rc, t') => rc = 0 /\ I (data t') /\ same_frame t t');
  sleep_ok : forall t : task D, I (data t) ->
    wp (run_hook data_sleep t)
      (fun '(rc, t') => rc = 0 /\ I (data t') /\ same_frame t t');
}.

(** ** Rings and the task's queues *)

Section Queues.
Context {D : Type}.
Implicit Types t : task D.

(** The task's heads are slots of the interface's four rings. *)
Record heads_ok (ifd : tes_ifdesc) t : Prop := {
  ho_len : length (heads t) = 4%nat;
  ho_ring : forall r, r ∈ ring_ids -> exists ring,
    rxring ifd r = Done ring /\ ring_ok ring /\ slot_id ring (head_of t r);
}.

(** The [n] slots from [i] on. *)
Fixpoint ring_seg (ring : tes_ifring) (i : Z) (n : nat) : list netmap_slot :=
  match n with
  | O => []
  | S n =>
      match slot ring i with
      | Done s => s :: ring_seg ring (s_ring_following ring i) n
      | Failed _ => []
      end
  end.

(** The packets of a ring the task has not seen: from its head to the tail. *)
Definition waiting_in (ring : tes_ifring) (h : Z) : list netmap_slot :=
  ring_seg ring h (Z.to_nat (fwd ring h (tail ring))).

Definition waiting (ifd : tes_ifdesc) t (r : Z) : list netmap_slot :=
  match rxring ifd r with
  | Done ring => waiting_in ring (head_of t r)
  | Failed _ => []
  end.

Lemma waiting_nil ring h :
  ring_ok ring -> slot_id ring h -> waiting_in ring h = [] <-> h = tail ring.
Proof.
  intros Hr Hh. unfold waiting_in.
  pose proof (fwd_zero ring h (tail ring) (ring_ok_pos ring Hr) Hh (ro_tail ring Hr)) as Hz.
  pose proof (fwd_range ring h (tail ring) (ring_ok_pos ring Hr)) as Hf.
  destruct (Z.to_nat (fwd ring h (tail ring))) as [|n] eqn:E.
  - split; [intros _; apply Hz; lia | done].
  - simpl. destruct (slot_done ring h Hr Hh) as [s ->].
    split; [done|]. intros H%Hz. lia.
Qed.

Lemma waiting_cons ring h :
  ring_ok ring -> slot_id ring h -> h <> tail ring ->
  exists s, slot ring h = Done s /\
    waiting_in ring h = s :: waiting_in ring (s_ring_following ring h).
Proof.
  intros Hr Hh Hne. unfold waiting_in.
  rewrite fwd_following by auto with tes.
  pose proof (fwd_zero ring h (tail ring) (ring_ok_pos ring Hr) Hh (ro_tail ring Hr)) as Hz.
  pose proof (fwd_range ring h (tail ring) (ring_ok_pos ring Hr)) as Hf.
  destruct (Z.to_nat (fwd ring h (tail ring))) as [|n] eqn:E; [lia|].
  destruct (slot_done ring h Hr Hh) as [s Hs]. exists s. split; [done|].
  simpl. rewrite Hs. do 2 f_equal. lia.
Qed.

Lemma waiting_length ring h :
  ring_ok ring -> slot_id ring h ->
  Z.of_nat (length (waiting_in ring h)) = fwd ring h (tail ring).
Proof.
  intros Hr. pose proof (fwd_range ring h (tail ring) (ring_ok_pos ring Hr)) as Hf.
  unfold waiting_in.
  assert (G : forall n i, slot_id ring i -> length (ring_seg ring i n) = n).
  { induction n as [|n IH]; intros i Hi; [done|]. simpl.
    destruct (slot_done ring i Hr Hi) as [s ->]. simpl.
    rewrite IH by auto with tes. done. }
  intros Hh. rewrite G by done. lia.
Qed.

Lemma head_of_set t r r' v :
  length (heads t) = 4%nat -> r ∈ ring_ids -> r' ∈ ring_ids ->
  head_of (set_head_of t r v) r' = if r =? r' then v else head_of t r'.
Proof.
  intros Hl Hr Hr'. unfold head_of, set_head_of, set_heads. simpl heads.
  assert (0 <= r < 4) by (unfold ring_ids in Hr; set_unfold in Hr; lia).
  assert (0 <= r' < 4) by (unfold ring_ids in Hr'; set_unfold in Hr'; lia).
  destruct (Z.eqb_spec r r') as [<-|].
  - rewrite nth_insert_eq by lia. done.
  - rewrite nth_insert_ne by lia. done.
Qed.
End Queues.

(** ** Choosing the ring *)

Section NextRing.
Context {D : Type}.
Implicit Types t : task D.

Definition waiting_fseq (ifd : tes_ifdesc) t (r : Z) : option Z :=
  match waiting ifd t r with
  | [] => None
  | s :: _ => Some (tespkt_fseq (slot_buf s))
  end.

(** Frames missed if the next packet were taken from ring [r]. *)
Definition gap (ifd : tes_ifdesc) t (r : Z) : option Z :=
  (fun f => to_u16 (f - prev_fseq t - 1)) <$> waiting_fseq ifd t r.

Lemma gap_none ifd t r : gap ifd t r = None <-> waiting ifd t r = [].
Proof. unfold gap, waiting_fseq. destruct (waiting ifd t r); done. Qed.

Lemma gap_u16 ifd t r g : gap ifd t r = Some g -> is_u16 g.
Proof.
  unfold gap. destruct (waiting_fseq ifd t r); [|done]. intros [= <-].
  apply to_u16_range.
Qed.

Lemma head_fseq_spec ifd t r :
  heads_ok ifd t -> r ∈ ring_ids -> head_fseq ifd t r = Done (waiting_fseq ifd t r).
Proof.
  intros Hh Hr. destruct (ho_ring ifd t Hh r Hr) as (ring & E & Hok & Hs).
  unfold head_fseq, waiting_fseq, waiting. rewrite E. cbn.
  unfold tes_ifring_tail. destruct (Z.eqb_spec (tail ring) (head_of t r)) as [Et|Et].
  - rewrite (proj2 (waiting_nil ring (head_of t r) Hok Hs)) by done. done.
  - destruct (waiting_cons ring (head_of t r) Hok Hs) as (s & Es & ->); [congruence|].
    unfold tes_ifring_buf. rewrite (slot_s_buf _ _ _ Es). done.
Qed.

(** The invariant of the search loop over the rings left in [rs]. *)
Lemma closest_ring_spec ifd t rs next missed :
  heads_ok ifd t -> (forall r, r ∈ rs -> r ∈ ring_ids) ->
  exists next' missed', closest_ring ifd rs next missed t = Done (next', missed') /\
    (next' = next /\ missed' = missed /\
       (forall r g, r ∈ rs -> gap ifd t r = Some g -> missed < g)
     \/ next' ∈ rs /\ gap ifd t next' = Some missed' /\ missed' <= missed /\
       (forall r g, r ∈ rs -> gap ifd t r = Some g -> missed' <= g)).
Proof.
  intros Hh. revert next missed. induction rs as [|r rs IH]; intros next missed Hin.
  { exists next, missed. split; [done|]. left. set_solver. }
  simpl. rewrite head_fseq_spec by (done || set_solver). cbn.
  destruct (waiting_fseq ifd t r) as [f|] eqn:Ef.
  2:{ assert (Hg : gap ifd t r = None) by (unfold gap; by rewrite Ef).
      destruct (IH next missed) as (n' & m' & -> & H); [set_solver|].
      exists n', m'. split; [done|]. destruct H as [(?&?&H)|(?&?&?&H)]; [left|right].
      - repeat split; try done. intros r' g [->|Hr']%elem_of_cons; [congruence|eauto].
      - repeat split; try done; [set_solver|].
        intros r' g [->|Hr']%elem_of_cons; [congruence|eauto]. }
  assert (Hg : gap ifd t r = Some (to_u16 (f - prev_fseq t - 1)))
    by (unfold gap; by rewrite Ef).
  set (g := to_u16 (f - prev_fseq t - 1)) in *.
  destruct (Z.leb_spec g missed) as [Hle|Hgt].
  - destruct (Z.eqb_spec g 0) as [Hg0|Hg0].
    + exists r, g. split; [done|]. right. split; [set_solver|]. repeat split; try done.
      intros r' g' _ Hr'. pose proof (gap_u16 _ _ _ _ Hr') as [? _]. lia.
    + destruct (IH r g) as (n' & m' & -> & H); [set_solver|].
      exists n', m'. split; [done|]. right. destruct H as [(->&->&H)|(?&?&?&H)].
      * split; [set_solver|]. repeat split; try done.
        intros r' g' [->|Hr']%elem_of_cons E; [rewrite Hg in E; injection E; lia|].
        specialize (H _ _ Hr' E). lia.
      * split; [set_solver|]. repeat split; try done; [lia|].
        intros r' g' [->|Hr']%elem_of_cons E; [rewrite Hg in E; injection E; lia|].
        eauto.
  - destruct (IH next missed) as (n' & m' & -> & H); [set_solver|].
    exists n', m'. split; [done|]. destruct H as [(->&->&H)|(?&?&?&H)]; [left|right].
    + repeat split; try done.
      intros r' g' [->|Hr']%elem_of_cons E; [rewrite Hg in E; injection E; lia|]. eauto.
    + split; [set_solver|]. repeat split; try done.
      intros r' g' [->|Hr']%elem_of_cons E; [rewrite Hg in E; injection E; lia|]. eauto.
Qed.

Lemma ring_ids_range r : r ∈ ring_ids -> 0 <= r < 4.
Proof. unfold ring_ids. intros H. set_unfold in H. lia. Qed.

Lemma next_ring_running ifd t :
  heads_ok ifd t -> just_activated t = false ->
  exists next missed, s_task_next_ring ifd t = Done (next, missed, t) /\
    (next = -1 /\ (forall r, r ∈ ring_ids -> waiting ifd t r = [])
     \/ next ∈ ring_ids /\ gap ifd t next = Some missed /\
        (forall r g, r ∈ ring_ids -> gap ifd t r = Some g -> missed <= g)).
Proof.
  intros Hh Hj. unfold s_task_next_ring. rewrite Hj.
  destruct (closest_ring_spec ifd t ring_ids (-1) UINT16_MAX Hh) as (n & m & E & H);
    [done|].
  exists n, m. split; [rewrite E; done|]. destruct H as [(->&->&H)|(?&?&?&?)]; [left|by right].
  split; [done|]. intros r Hr. destruct (gap ifd t r) as [g|] eqn:Eg.
  - specialize (H r g Hr Eg). pose proof (gap_u16 _ _ _ _ Eg) as [_ ?].
    unfold UINT16_MAX in H. lia.
  - by apply gap_none.
Qed.

(** A packet that the choice of ring passes over right after activation. *)
Definition passed_over (prev r f : Z) : Prop := r <> 0 /\ f - prev <= thres_gap.

Lemma first_ring_spec ifd t rs next prev :
  heads_ok ifd t -> (forall r, r ∈ rs -> r ∈ ring_ids) ->
  exists next' prev', first_ring ifd rs next prev t = Done (next', prev') /\
    (next' = next /\ prev' = prev /\
       (forall r f, r ∈ rs -> waiting_fseq ifd t r = Some f -> passed_over prev r f)
     \/ next' ∈ rs /\ waiting ifd t next' <> []).
Proof.
  intros Hh. revert next prev. induction rs as [|r rs IH]; intros next prev Hin.
  { exists next, prev. split; [done|]. left. do 2 (split; [done|]). set_solver. }
  simpl. rewrite head_fseq_spec by (done || set_solver). cbn.
  destruct (waiting_fseq ifd t r) as [f|] eqn:Ef.
  2:{ destruct (IH next prev) as (n & p & -> & H); [set_solver|]. exists n, p.
      split; [done|]. destruct H as [(?&?&H)|[??]]; [left|right; split; [set_solver|done]].
      do 2 (split; [done|]). intros r' f [->|Hr']%elem_of_cons E; [congruence|eauto]. }
  destruct ((r =? 0) || (thres_gap <? f - prev)) eqn:Ec.
  - assert (Hw : waiting ifd t r <> []) by (unfold waiting_fseq in Ef; by destruct (waiting ifd t r)).
    destruct (IH r (to_u16 (f - 1))) as (n & p & -> & H); [set_solver|]. exists n, p.
    split; [done|]. right. destruct H as [(->&_)|[??]]; split; (done || set_solver).
  - destruct (IH next prev) as (n & p & -> & H); [set_solver|]. exists n, p.
    split; [done|]. destruct H as [(?&?&H)|[??]]; [left|right; split; [set_solver|done]].
    do 2 (split; [done|]). intros r' f' [->|Hr']%elem_of_cons E; [|eauto].
    rewrite Ef in E. injection E as <-. unfold passed_over. bool_hyps. lia.
Qed.

Lemma ring_zero : 0 ∈ ring_ids.
Proof. left. Qed.

Lemma next_ring_activated ifd t :
  heads_ok ifd t -> just_activated t = true ->
  exists next prev, s_task_next_ring ifd t = Done (next, 0, set_prev_fseq t prev) /\
    (next = -1 /\ prev = prev_fseq t /\ (forall r f, r ∈ ring_ids ->
       waiting_fseq ifd t r = Some f -> passed_over (prev_fseq t) r f)
     \/ next ∈ ring_ids /\ waiting ifd t next <> []).
Proof.
  intros Hh Hj. unfold s_task_next_ring. rewrite Hj.
  destruct (first_ring_spec ifd t ring_ids (-1) (prev_fseq t) Hh) as (n & p & E & H1); [done|].
  exists n, p. split; [rewrite E; done|done].
Qed.

(** The first ring is never passed over. *)
Lemma passed_over_first ifd t :
  (forall r f, r ∈ ring_ids -> waiting_fseq ifd t r = Some f -> passed_over (prev_fseq t) r f) ->
  waiting ifd t 0 = [].
Proof.
  intros Hp. destruct (waiting ifd t 0) as [|s l] eqn:E; [done|].
  destruct (Hp 0 (tespkt_fseq (slot_buf s)) ring_zero) as [? _]; [|done].
  unfold waiting_fseq. by rewrite E.
Qed.

(** With every ring empty but the last three, right after activation. *)
Lemma next_ring_skips ifd t :
  heads_ok ifd t -> just_activated t = true -> waiting ifd t 0 = [] ->
  (forall r f, r ∈ ring_ids -> waiting_fseq ifd t r = Some f ->
     f - prev_fseq t <= thres_gap) ->
  s_task_next_ring ifd t = Done (-1, 0, set_prev_fseq t (prev_fseq t)).
Proof.
  intros Hh Hj H0 Hf. unfold s_task_next_ring. rewrite Hj.
  assert (G : forall rs, (forall r, r ∈ rs -> r ∈ ring_ids) ->
    first_ring ifd rs (-1) (prev_fseq t) t = Done (-1, prev_fseq t)).
  { induction rs as [|r rs IH]; intros Hin; [done|]. simpl.
    rewrite head_fseq_spec by (done || set_solver). cbn.
    destruct (waiting_fseq ifd t r) as [f|] eqn:Ef; [|apply IH; set_solver].
    destruct (Z.eqb_spec r 0) as [->|_].
    { unfold waiting_fseq in Ef. rewrite H0 in Ef. done. }
    rewrite (proj2 (Z.ltb_ge _ _)) by (apply Hf with r; [set_solver|done]).
    simpl. apply IH. set_solver. }
  rewrite G by done. done.
Qed.
End NextRing.

(** ** Dispatching refines a fold over the waiting packets *)

(** The members that dispatching leaves alone. *)
Record same_ctl {D} (t t' : task D) : Prop := {
  sc_frontends : frontends t' = frontends t;
  sc_just_activated : just_activated t' = just_activated t;
  sc_error : error t' = error t;
  sc_busy : busy t' = busy t;
  sc_active : active t' = active t;
}.

Lemma same_ctl_refl {D} (t : task D) : same_ctl t t.
Proof. by split. Qed.

Lemma same_ctl_trans {D} (t1 t2 t3 : task D) :
  same_ctl t1 t2 -> same_ctl t2 t3 -> same_ctl t1 t3.
Proof. intros [] []. split; congruence. Qed.

Lemma same_frame_ctl {D} (t t' : task D) : same_frame t t' -> same_ctl t t'.
Proof. intros []. by split. Qed.

Lemma same_ctl_set_head {D} (t : task D) r v : same_ctl t (set_head_of t r v).
Proof. by split. Qed.

Lemma update_seq_ctl {D} pkt (t : task D) :
  same_ctl t (update_seq pkt t) /\ heads (update_seq pkt t) = heads t /\
  data (update_seq pkt t) = data t.
Proof. unfold update_seq. repeat case_if; by repeat split. Qed.

Lemma update_seq_log {D} pkt (t : task D) : log (update_seq pkt t) = log t.
Proof. unfold update_seq. by repeat case_if. Qed.

#[export] Hint Resolve same_ctl_refl same_frame_ctl same_ctl_set_head : tes.

(** A task whose heads and rings agree with another's sees the same queues. *)
Lemma waiting_heads {D} ifd (t t' : task D) r :
  heads t' = heads t -> waiting ifd t' r = waiting ifd t r.
Proof. intros E. unfold waiting, head_of. by rewrite E. Qed.

Lemma heads_ok_heads {D D'} ifd (t : task D) (t' : task D') :
  heads t' = heads t -> heads_ok ifd t -> heads_ok ifd t'.
Proof. intros E [Hl Hr]. unfold head_of in *. split; unfold head_of; by rewrite E. Qed.

Lemma length_set_head_of {D} (t : task D) r v :
  length (heads (set_head_of t r v)) = length (heads t).
Proof. apply length_insert. Qed.

Lemma heads_ok_set_head {D} ifd (t : task D) r ring v :
  heads_ok ifd t -> r ∈ ring_ids -> rxring ifd r = Done ring -> slot_id ring v ->
  heads_ok ifd (set_head_of t r v).
Proof.
  intros [Hl Hh] Hr E Hv. split; [by rewrite length_set_head_of|].
  intros r' Hr'. destruct (Hh r' Hr') as (ring' & E' & Hok & Hs).
  exists ring'. split; [done|]. split; [done|]. rewrite head_of_set by done.
  destruct (Z.eqb_spec r r') as [->|]; [|done].
  rewrite E in E'. by injection E' as <-.
Qed.

Lemma waiting_set_head_ne {D} ifd (t : task D) r r' v :
  length (heads t) = 4%nat -> r ∈ ring_ids -> r' ∈ ring_ids -> r' <> r ->
  waiting ifd (set_head_of t r v) r' = waiting ifd t r'.
Proof.
  intros Hl Hr Hr' Hne. unfold waiting. rewrite head_of_set by done.
  by rewrite (proj2 (Z.eqb_neq r r')) by congruence.
Qed.

Lemma waiting_set_head_eq {D} ifd (t : task D) r ring v :
  length (heads t) = 4%nat -> r ∈ ring_ids -> rxring ifd r = Done ring ->
  waiting ifd (set_head_of t r v) r = waiting_in ring v.
Proof.
  intros Hl Hr E. unfold waiting. rewrite E, head_of_set by done.
  by rewrite Z.eqb_refl.
Qed.

Section Dispatch.
Context {D : Type} `{ZEnv} `{!TaskImpl D} (I : D -> Prop) (A : tespkt -> Prop)
  `{!TaskLaws I A}.
Implicit Types t : task D.

(** One packet, handed to the task with its length, gap and error flags. *)
Definition handle_slot (s : netmap_slot) t : exec (Z * task D) :=
  let '(err, flen) := slot_check (slot_buf s) (slot_len s) in
  dbg_assert (flen <=? TESPKT_MTU);;
  let gap := to_u16 (tespkt_fseq (slot_buf s) - prev_fseq t - 1) in
  '(rc, t) ← pkt_handler t (slot_buf s) flen gap err;
  mret (rc, update_seq (slot_buf s) t).

(** The abstract dispatcher: the packets in order until one stops it; the
    head moves past every packet but the one that stopped it. *)
Fixpoint run_slots (ring : tes_ifring) (r : Z) (ss : list netmap_slot) t : exec (Z * task D) :=
  match ss with
  | [] => mret (0, t)
  | s :: ss =>
      '(rc, t) ← handle_slot s t;
      if c_true rc then mret (rc, t)
      else run_slots ring r ss (set_head_of t r (tes_ifring_following ring (head_of t r)))
  end.

(** The calls of the handler, one by one: the packets it was handed with their
    rings, in order, and the one it stopped at with the code returned.  Each
    call is given the packet at the task's head in its ring, and the head
    moves past it unless the handler stopped.  In between the framework only
    sets the sequence remembered when it has just been activated, and clears
    that flag. *)
Inductive handed (ifd : tes_ifdesc) :
    task D -> list (Z * netmap_slot) -> option (Z * netmap_slot * Z) -> task D -> Prop :=
| handed_none t : handed ifd t [] None t
| handed_next t r ring s ss t1 l o t' :
    r ∈ ring_ids -> rxring ifd r = Done ring -> waiting ifd t r = s :: ss ->
    handle_slot s t = Done (0, t1) ->
    handed ifd (set_head_of t1 r (tes_ifring_following ring (head_of t1 r))) l o t' ->
    handed ifd t ((r, s) :: l) o t'
| handed_stop t r s ss rc t1 :
    r ∈ ring_ids -> waiting ifd t r = s :: ss -> handle_slot s t = Done (rc, t1) ->
    c_true rc = true -> handed ifd t [] (Some (r, s, rc)) t1
| handed_synced t p l o t' :
    just_activated t = true -> handed ifd (set_prev_fseq t p) l o t' -> handed ifd t l o t'
| handed_ran t l o t' :
    handed ifd (set_just_activated t false) l o t' -> handed ifd t l o t'.

(** The packets of a ring among those handed over. *)
Definition of_ring (r : Z) (l : list (Z * netmap_slot)) : list netmap_slot :=
  flat_map (fun '(r', s) => if r' =? r then [s] else []) l.

Lemma of_ring_app r l l' : of_ring r (l ++ l') = of_ring r l ++ of_ring r l'.
Proof. apply flat_map_app. Qed.

Lemma handed_app ifd t l t1 l' o t' :
  handed ifd t l None t1 -> handed ifd t1 l' o t' -> handed ifd t (l ++ l') o t'.
Proof.
  intros Hl. remember None as n eqn:En. revert En. induction Hl; intros En Hl'; simpl; try done.
  - eapply handed_next; eauto.
  - eapply handed_synced; eauto.
  - eapply handed_ran; eauto.
Qed.

Definition slot_good (s : netmap_slot) : Prop :=
  slot_filled s /\ slot_mtu s /\ A (slot_buf s).

Lemma handle_slot_ok s t :
  I (data t) -> slot_good s ->
  wp (handle_slot s t) (fun '(rc, t') =>
    rc_handler rc /\ I (data t') /\ same_ctl t t' /\ heads t' = heads t).
Proof.
  intros HI (Hf & Hm & HA). unfold handle_slot.
  destruct (slot_check (slot_buf s) (slot_len s)) as [err flen] eqn:Es.
  pose proof (slot_check_args s err flen Hf Hm Es) as Ha.
  apply wp_dbg_assert_bind; [destruct Ha; lia|]. apply wp_bind.
  eapply wp_mono; [by apply handler_ok; eauto with tes|].
  intros [rc t'] (Hrc & HI' & Hsf). simpl.
  destruct (update_seq_ctl (slot_buf s) t') as (Hc & Hh & Hd).
  rewrite Hd, Hh. split; [done|]. split; [done|].
  split; [|apply Hsf]. eapply same_ctl_trans; [by apply same_frame_ctl|done].
Qed.

Lemma dispatch_one_slot ring r s t :
  slot ring (head_of t r) = Done s -> dispatch_one ring r t = handle_slot s t.
Proof.
  intros E. unfold dispatch_one, tes_ifring_buf, tes_ifring_len.
  rewrite (slot_s_buf _ _ _ E), E. done.
Qed.

(** What a run over the packets waiting in ring [r] leaves. *)
Record dispatched (ifd : tes_ifdesc) (r rc : Z) t t' : Prop := {
  di_rc : rc_handler rc;
  di_data : I (data t');
  di_ctl : same_ctl t t';
  di_heads : heads_ok ifd t';
  di_all : rc = 0 -> waiting ifd t' r = [];
  di_suffix : exists done, waiting ifd t r = done ++ waiting ifd t' r;
  di_others : forall r', r' ∈ ring_ids -> r' <> r -> waiting ifd t' r' = waiting ifd t r';
  di_handed : exists l o, handed ifd t l o t' /\
    (rc = 0 /\ o = None \/ exists s, o = Some (r, s, rc) /\ waiting ifd t' r <> []);
}.

Lemma run_slots_ok ifd ring r ss t :
  heads_ok ifd t -> r ∈ ring_ids -> rxring ifd r = Done ring -> ring_ok ring ->
  waiting ifd t r = ss -> Forall slot_good ss -> I (data t) ->
  wp (run_slots ring r ss t) (fun '(rc, t') => dispatched ifd r rc t t').
Proof.
  intros Hh Hr E Hok. revert t Hh. induction ss as [|s ss IH]; intros t Hh Hw Hg HI.
  { simpl. split; try done; [by left|by exists []|]. exists [], None.
    split; [apply handed_none|by left]. }
  assert (Hs : slot_id ring (head_of t r)).
  { destruct (ho_ring ifd t Hh r Hr) as (ring' & E' & _ & Hs).
    rewrite E in E'. by injection E' as <-. }
  apply Forall_cons in Hg as [Hg Hgs]. simpl.
  pose proof (proj1 (wp_Done _ _) (handle_slot_ok s t HI Hg))
    as ([rc t1] & Eh & Hrc & HI1 & Hc1 & Hh1). rewrite Eh. simpl.
  destruct (c_true rc) eqn:Ec.
  { simpl. split; try done.
    - by apply heads_ok_heads with t.
    - intros ->. discriminate.
    - exists []. by rewrite (waiting_heads ifd t t1).
    - intros. by apply waiting_heads.
    - exists [], (Some (r, s, rc)). split; [by apply handed_stop with ss|]. right.
      exists s. split; [done|]. rewrite (waiting_heads ifd t t1) by done. by rewrite Hw. }
  assert (Hrc0 : rc = 0) by (unfold c_true in Ec; bool_hyps; lia). subst rc.
  assert (Hho : head_of t1 r = head_of t r) by (unfold head_of; by rewrite Hh1).
  assert (Hl : length (heads t1) = 4%nat) by (rewrite Hh1; apply Hh).
  assert (Hw1 : waiting ifd (set_head_of t1 r (tes_ifring_following ring (head_of t1 r))) r = ss).
  { rewrite (waiting_set_head_eq ifd t1 r ring) by done. rewrite Hho.
    unfold waiting in Hw. rewrite E in Hw.
    destruct (decide (head_of t r = tail ring)) as [Ht|Ht].
    - rewrite (proj2 (waiting_nil ring _ Hok Hs)) in Hw by done. discriminate.
    - destruct (waiting_cons ring (head_of t r) Hok Hs Ht) as (s' & _ & Ec').
      rewrite Ec' in Hw. by injection Hw. }
  eapply wp_mono; [apply IH|].
  - eapply heads_ok_set_head; eauto; [by apply heads_ok_heads with t|].
    rewrite Hho. by apply following_slot_id.
  - done.
  - done.
  - done.
  - intros [rc' t'] []. split; try done.
    + eapply same_ctl_trans; [apply Hc1|]. by eapply same_ctl_trans; [apply same_ctl_set_head|].
    + destruct di_suffix0 as [l El]. exists (s :: l).
      rewrite Hw, <- Hw1, El at 1. done.
    + intros r' Hr' Hne. rewrite di_others0 by done.
      rewrite waiting_set_head_ne by done. by apply waiting_heads.
    + destruct di_handed0 as (l & o & Hl' & Ho). exists ((r, s) :: l), o.
      split; [by apply handed_next with ring ss t1|done].
Qed.

Lemma dispatch_loop_run ifd ring r ss t fuel :
  heads_ok ifd t -> r ∈ ring_ids -> rxring ifd r = Done ring -> ring_ok ring ->
  waiting ifd t r = ss -> (length ss <= fuel)%nat -> Forall slot_good ss -> I (data t) ->
  dispatch_loop fuel ring r t = run_slots ring r ss t.
Proof.
  intros Hh Hr E Hok. revert t fuel Hh.
  induction ss as [|s ss IH]; intros t fuel Hh Hw Hf Hg HI;
    (destruct (ho_ring ifd t Hh r Hr) as (ring' & E' & _ & Hs);
     rewrite E in E'; injection E' as <-; pose proof Hw as Hw';
     unfold waiting in Hw'; rewrite E in Hw').
  { apply waiting_nil in Hw'; [|done..].
    destruct fuel; simpl; by rewrite (proj2 (Z.eqb_eq _ _)). }
  assert (Ht : head_of t r <> tail ring).
  { intros Ht. rewrite (proj2 (waiting_nil ring _ Hok Hs)) in Hw' by done. discriminate. }
  destruct (waiting_cons ring (head_of t r) Hok Hs Ht) as (s' & Es & Ec).
  rewrite Ec in Hw'. injection Hw' as -> Hrest.
  destruct fuel as [|fuel]; [simpl in Hf; lia|]. simpl dispatch_loop.
  rewrite (proj2 (Z.eqb_neq _ _)) by done.
  rewrite (dispatch_one_slot ring r s t Es). simpl run_slots.
  apply Forall_cons in Hg as [Hg Hgs].
  pose proof (proj1 (wp_Done _ _) (handle_slot_ok s t HI Hg))
    as ([rc t1] & -> & _ & HI1 & _ & Hh1). cbn.
  destruct (c_true rc); [done|].
  assert (Hho : head_of t1 r = head_of t r) by (unfold head_of; by rewrite Hh1).
  apply IH; try done.
  - eapply heads_ok_set_head; eauto; [by apply heads_ok_heads with t|].
    rewrite Hho. by apply following_slot_id.
  - rewrite (waiting_set_head_eq ifd t1 r ring); [by rewrite Hho|rewrite Hh1; apply Hh|done..].
  - simpl in Hf. lia.
Qed.

Lemma s_task_dispatch_run ifd r ring missed t :
  heads_ok ifd t -> r ∈ ring_ids -> rxring ifd r = Done ring ->
  waiting ifd t r <> [] -> Forall slot_good (waiting ifd t r) -> I (data t) ->
  s_task_dispatch ifd r missed t = run_slots ring r (waiting ifd t r) t /\
  wp (s_task_dispatch ifd r missed t) (fun '(rc, t') => dispatched ifd r rc t t').
Proof.
  intros Hh Hr E Hne Hg HI.
  destruct (ho_ring ifd t Hh r Hr) as (ring' & E' & Hok & Hs).
  rewrite E in E'. injection E' as <-.
  assert (Ed : s_task_dispatch ifd r missed t = run_slots ring r (waiting ifd t r) t).
  { unfold s_task_dispatch. rewrite E. cbn. unfold tes_ifring_tail.
    assert (Ht : head_of t r <> tail ring).
    { intros Ht. apply Hne. unfold waiting. rewrite E. by apply waiting_nil. }
    rewrite (proj2 (Z.eqb_neq _ _)) by done. cbn.
    eapply dispatch_loop_run; try done.
    pose proof (waiting_length ring (head_of t r) Hok Hs) as Hl.
    pose proof (fwd_range ring (head_of t r) (tail ring) (ring_ok_pos ring Hok)).
    unfold waiting. rewrite E. lia. }
  split; [done|]. rewrite Ed. by apply run_slots_ok.
Qed.
End Dispatch.

(** ** Activation and deactivation *)

Lemma sync_heads_ok {D} ifd (t : task D) rs :
  heads_ok ifd t -> (forall r, r ∈ rs -> r ∈ ring_ids) ->
  exists t', sync_heads ifd rs t = Done t' /\ heads_ok ifd t' /\ same_ctl t t' /\
    data t' = data t /\ log t' = log t /\ prev_fseq t' = prev_fseq t /\
    (forall r, r ∈ ring_ids -> r ∉ rs -> head_of t' r = head_of t r) /\
    (forall r ring, r ∈ rs -> rxring ifd r = Done ring -> head_of t' r = head ring).
Proof.
  revert t. induction rs as [|r rs IH]; intros t Hh Hin.
  { exists t. split; [done|]. do 5 (split; [by eauto with tes|]). split; [done|set_solver]. }
  assert (Hr : r ∈ ring_ids) by set_solver.
  destruct (ho_ring ifd t Hh r Hr) as (ring & E & Hok & Hs).
  simpl. rewrite E. cbn. unfold tes_ifring_head.
  destruct (IH (set_head_of t r (head ring))) as (t' & -> & Hh' & Hc & Hd & Hl & Hp & H1 & H2).
  { eapply heads_ok_set_head; eauto with tes. }
  { set_solver. }
  exists t'. do 2 (split; [done|]).
  split; [by eapply same_ctl_trans; [apply same_ctl_set_head|]|].
  do 3 (split; [done|]). split.
  - intros r' Hr' Hn. rewrite H1 by set_solver.
    rewrite head_of_set by (done || apply Hh).
    by rewrite (proj2 (Z.eqb_neq r r')) by set_solver.
  - intros r' ring' Hr' E'. destruct (decide (r' ∈ rs)) as [Hi|Hi]; [by eapply H2|].
    apply elem_of_cons in Hr' as [->|]; [|done].
    rewrite H1 by done. rewrite head_of_set by (done || apply Hh).
    rewrite Z.eqb_refl. congruence.
Qed.

Section Activation.
Context {D : Type} `{ZEnv} `{!TaskImpl D} (I : D -> Prop) (A : tespkt -> Prop)
  `{!TaskLaws I A}.
Implicit Types t : task D.

(** A frontend that is muted while the task is active has a handler, so that
    it can be polled again. *)
Definition frontends_ok t : Prop :=
  Forall (fun ep => ep_automute ep = true -> ep_handler ep = true) (frontends t).

(** Indices of the frontends muted while the task is active. *)
Fixpoint muted (i : nat) (eps : list task_endp) : list nat :=
  match eps with
  | [] => []
  | ep :: eps => (if ep_automute ep then [i] else []) ++ muted (S i) eps
  end.

Lemma mute_frontends_emits i eps t :
  mute_frontends i eps t = fold_left emit (ZloopReaderEnd <$> muted i eps) t.
Proof.
  revert i t. induction eps as [|ep eps IH]; intros i t; [done|]. simpl.
  rewrite IH, fmap_app, fold_left_app. by destruct (ep_automute ep).
Qed.

Lemma unmute_frontends_emits `{!ZEnvReader} i eps t :
  Forall (fun ep => ep_automute ep = true -> ep_handler ep = true) eps ->
  unmute_frontends i eps t = Done (0, fold_left emit (ZloopReader <$> muted i eps) t).
Proof.
  revert i t. induction eps as [|ep eps IH]; intros i t; [done|].
  rewrite Forall_cons. intros [He Hr]. simpl.
  destruct (ep_automute ep); simpl; [|by apply IH].
  rewrite He by done. cbn. rewrite zloop_reader_ok. simpl. by rewrite IH.
Qed.

Lemma emits_frame t l : same_frame t (fold_left emit l t).
Proof.
  revert t. induction l as [|a l IH]; intros t; [apply same_frame_refl|].
  simpl. eapply same_frame_trans; [apply same_frame_emit|apply IH].
Qed.

Lemma emits_data t l : data (fold_left emit l t) = data t.
Proof. revert t. induction l as [|a l IH]; intros t; [done|]. simpl. by rewrite IH. Qed.

Lemma emits_log t l : log (fold_left emit l t) = log t ++ l.
Proof.
  revert t. induction l as [|a l IH]; intros t; simpl; [by rewrite app_nil_r|].
  rewrite IH. simpl. by rewrite <- app_assoc.
Qed.

Lemma unmute_frontends_frame i eps t :
  Forall (fun ep => ep_automute ep = true -> ep_handler ep = true) eps ->
  wp (unmute_frontends i eps t) (fun '(rc, t') =>
    (rc = 0 \/ rc = TASK_ERROR) /\ data t' = data t /\ same_frame t t').
Proof.
  revert i t. induction eps as [|ep eps IH]; intros i t.
  { intros _. simpl. eauto with tes. }
  rewrite Forall_cons. intros [He Hr]. simpl.
  destruct (ep_automute ep); simpl; [|by apply IH].
  rewrite He by done. cbn.
  case_if; [simpl; split; [by right|]; split; [done|apply same_frame_emit]|].
  eapply wp_mono; [by apply IH|]. intros [rc t'] (? & ? & ?).
  split; [done|]. split; [done|]. eapply same_frame_trans; [apply same_frame_emit|done].
Qed.

(** Deactivation keeps everything but the active flag. *)
Lemma task_deactivate_ok t :
  I (data t) -> frontends_ok t ->
  wp (task_deactivate t) (fun '(rc, t') =>
    I (data t') /\ heads t' = heads t /\ frontends t' = frontends t /\
    error t' = error t /\ busy t' = busy t /\ just_activated t' = just_activated t /\
    (rc = 0 /\ active t' = false \/ rc = TASK_ERROR /\ active t' = active t)).
Proof.
  intros HI Hf. unfold task_deactivate. apply wp_bind.
  eapply wp_mono; [by apply sleep_ok|]. intros [rc t1] (-> & HI1 & Hs1). cbn.
  apply wp_bind. eapply wp_mono.
  { apply unmute_frontends_frame. rewrite (sf_frontends _ _ Hs1). apply Hf. }
  intros [rc t2] (Hrc & Hd & Hs2).
  assert (Hs : same_frame t t2) by by eapply same_frame_trans.
  destruct Hs. destruct Hrc as [-> | ->]; simpl; rewrite ?Hd; eauto 10.
Qed.

(** When frontends can be polled again, deactivation succeeds and polls
    exactly the muted ones, in order, after the sleep hook. *)
Lemma task_deactivate_done `{!ZEnvReader} t :
  I (data t) -> frontends_ok t ->
  exists t1 t', run_hook data_sleep t = Done (0, t1) /\
    task_deactivate t = Done (0, t') /\ I (data t') /\ active t' = false /\
    data t' = data t1 /\ log t' = log t1 ++ (ZloopReader <$> muted 0 (frontends t)).
Proof.
  intros HI Hf. unfold task_deactivate.
  destruct (proj1 (wp_Done _ _) (sleep_ok t HI)) as ([rc t1] & E & -> & HI1 & Hs1).
  rewrite E. cbn. rewrite (sf_frontends _ _ Hs1), unmute_frontends_emits by done. cbn.
  eexists t1, _. do 2 (split; [done|]). simpl. by rewrite !emits_data, emits_log.
Qed.

Lemma task_activate_ok ifd t :
  I (data t) -> heads_ok ifd t ->
  wp (task_activate ifd t) (fun '(rc, t') =>
    rc = 0 /\ I (data t') /\ heads_ok ifd t' /\ active t' = true /\
    just_activated t' = true /\ frontends t' = frontends t /\ busy t' = busy t /\
    error t' = error t /\
    (forall r ring, r ∈ ring_ids -> rxring ifd r = Done ring -> head_of t' r = head ring) /\
    (exists t1, run_hook data_wakeup t = Done (0, t1) /\ data t' = data t1 /\
       log t' = log t1 ++ (ZloopReaderEnd <$> muted 0 (frontends t)))).
Proof.
  intros HI Hh. unfold task_activate.
  destruct (proj1 (wp_Done _ _) (wakeup_ok t HI)) as ([rc t1] & Ew & -> & HI1 & Hs1).
  rewrite Ew. cbn -[wp sync_heads mute_frontends ring_ids].
  rewrite mute_frontends_emits.
  set (t2 := fold_left emit _ t1).
  assert (Hs2 : same_frame t t2) by (eapply same_frame_trans; [done|apply emits_frame]).
  destruct (sync_heads_ok ifd t2 ring_ids) as (t3 & E & Hh3 & Hc & Hd & Hl & _ & _ & H2).
  { eapply heads_ok_heads; [apply Hs2|done]. }
  { done. }
  rewrite E. simpl. destruct Hc, Hs2.
  assert (Hd2 : data t2 = data t1) by apply emits_data. rewrite Hd, Hd2.
  split; [done|]. split; [done|]. split; [by apply heads_ok_heads with t3|].
  do 2 (split; [done|]). split; [congruence|]. split; [congruence|].
  split; [congruence|]. split; [apply H2|].
  exists t1. do 2 (split; [done|]). rewrite Hl. unfold t2.
  by rewrite emits_log, (sf_frontends _ _ Hs1).
Qed.
End Activation.

(** ** The wakeup handler *)

Section Wakeup.
Context {D : Type} `{ZEnv} `{!TaskImpl D} (I : D -> Prop) (A : tespkt -> Prop)
  `{!TaskLaws I A}.
Implicit Types t : task D.

Definition all_good (ifd : tes_ifdesc) t : Prop :=
  forall r, r ∈ ring_ids -> Forall (slot_good A) (waiting ifd t r).

Definition all_empty (ifd : tes_ifdesc) t : Prop :=
  forall r, r ∈ ring_ids -> waiting ifd t r = [].

(** Number of rings in [rs] with packets for the task. *)
Fixpoint nonempty (ifd : tes_ifdesc) t (rs : list Z) : nat :=
  match rs with
  | [] => 0
  | r :: rs => (match waiting ifd t r with [] => 0 | _ => 1 end + nonempty ifd t rs)%nat
  end.

Lemma nonempty_le ifd t t' rs :
  (forall r, r ∈ rs -> waiting ifd t r = [] -> waiting ifd t' r = []) ->
  (nonempty ifd t' rs <= nonempty ifd t rs)%nat.
Proof.
  induction rs as [|r rs IH]; intros Hw; [done|]. simpl.
  specialize (IH ltac:(set_solver)). specialize (Hw r ltac:(set_solver)).
  destruct (waiting ifd t r); [rewrite Hw by done; lia|].
  destruct (waiting ifd t' r); lia.
Qed.

Lemma nonempty_lt ifd t t' rs r :
  (forall r, r ∈ rs -> waiting ifd t r = [] -> waiting ifd t' r = []) ->
  r ∈ rs -> waiting ifd t r <> [] -> waiting ifd t' r = [] ->
  (nonempty ifd t' rs < nonempty ifd t rs)%nat.
Proof.
  induction rs as [|r' rs IH]; intros Hw Hr Hne He; [set_solver|]. simpl.
  assert (Hle : (nonempty ifd t' rs <= nonempty ifd t rs)%nat)
    by (apply nonempty_le; set_solver).
  pose proof (Hw r' ltac:(set_solver)) as Hw'.
  apply elem_of_cons in Hr as [<-|Hr].
  - rewrite He. destruct (waiting ifd t r); [done|lia].
  - specialize (IH ltac:(set_solver) Hr Hne He).
    destruct (waiting ifd t r'); [rewrite Hw' by done; lia|].
    destruct (waiting ifd t' r'); lia.
Qed.

(** [t'] has seen some of the packets waiting for [t], none twice. *)
Definition progress (ifd : tes_ifdesc) t t' : Prop :=
  forall r, r ∈ ring_ids -> exists done, waiting ifd t r = done ++ waiting ifd t' r.

Lemma progress_refl ifd t : progress ifd t t.
Proof. intros r _. by exists []. Qed.

Lemma progress_trans ifd t1 t2 t3 :
  progress ifd t1 t2 -> progress ifd t2 t3 -> progress ifd t1 t3.
Proof.
  intros H1 H2 r Hr. destruct (H1 r Hr) as [l1 E1], (H2 r Hr) as [l2 E2].
  exists (l1 ++ l2). by rewrite E1, E2, app_assoc.
Qed.

Lemma progress_heads ifd t1 t2 t3 :
  heads t3 = heads t2 -> progress ifd t1 t2 -> progress ifd t1 t3.
Proof. intros E Hp r Hr. rewrite (waiting_heads ifd t2 t3) by done. by apply Hp. Qed.

Lemma progress_good ifd t t' : progress ifd t t' -> all_good ifd t -> all_good ifd t'.
Proof.
  intros Hp Hg r Hr. destruct (Hp r Hr) as [l E]. specialize (Hg r Hr).
  rewrite E in Hg. by apply Forall_app in Hg as [_ ?].
Qed.

Lemma dispatched_progress ifd r rc t t' :
  dispatched I ifd r rc t t' -> progress ifd t t'.
Proof.
  intros [] r' Hr'. destruct (decide (r' = r)) as [->|Hne]; [done|].
  exists []. by rewrite di_others0.
Qed.

(** What the calls of the handler hand over, and what they leave. *)
Record handed_post (ifd : tes_ifdesc) t l (o : option (Z * netmap_slot * Z)) t' : Prop := {
  hp_data : I (data t');
  hp_heads : heads_ok ifd t';
  hp_queues : forall r, r ∈ ring_ids -> waiting ifd t r = of_ring r l ++ waiting ifd t' r;
  hp_frontends : frontends t' = frontends t;
  hp_stop : forall r s rc, o = Some (r, s, rc) -> exists ss, waiting ifd t' r = s :: ss;
}.

(** Past the first packet of a ring. *)
Lemma pop_slot ifd r ring s ss t :
  heads_ok ifd t -> r ∈ ring_ids -> rxring ifd r = Done ring -> waiting ifd t r = s :: ss ->
  let t' := set_head_of t r (tes_ifring_following ring (head_of t r)) in
  heads_ok ifd t' /\ forall r', r' ∈ ring_ids ->
    waiting ifd t r' = (if r =? r' then [s] else []) ++ waiting ifd t' r'.
Proof.
  intros Hh Hr E Hw t'. destruct (ho_ring ifd t Hh r Hr) as (ring' & E' & Hok & Hs).
  rewrite E in E'. injection E' as <-. split.
  { eapply heads_ok_set_head; eauto. by apply following_slot_id. }
  intros r' Hr'. destruct (Z.eqb_spec r r') as [<-|Hne].
  2:{ unfold t'. by rewrite waiting_set_head_ne by (done || apply Hh). }
  unfold t'. rewrite (waiting_set_head_eq ifd t r ring) by (done || apply Hh).
  rewrite Hw. unfold waiting in Hw. rewrite E in Hw.
  assert (Ht : head_of t r <> tail ring).
  { intros Ht. by rewrite (proj2 (waiting_nil ring _ Hok Hs)) in Hw. }
  destruct (waiting_cons ring (head_of t r) Hok Hs Ht) as (s' & _ & Ec).
  rewrite Ec in Hw. by injection Hw as -> <-.
Qed.

Lemma queues_good ifd t t' (q : Z -> list netmap_slot) :
  (forall r, r ∈ ring_ids -> waiting ifd t r = q r ++ waiting ifd t' r) ->
  all_good ifd t -> all_good ifd t'.
Proof. intros Hq. apply progress_good. intros r Hr. exists (q r). by apply Hq. Qed.

(** The first packet of a ring, handed over. *)
Lemma handle_first ifd t r s ss rc t1 :
  heads_ok ifd t -> all_good ifd t -> I (data t) -> r ∈ ring_ids -> waiting ifd t r = s :: ss ->
  handle_slot s t = Done (rc, t1) ->
  I (data t1) /\ heads_ok ifd t1 /\ (forall r', waiting ifd t1 r' = waiting ifd t r') /\
  heads t1 = heads t /\ same_ctl t t1.
Proof.
  intros Hh Hg HI Hr Hw E. specialize (Hg r Hr). rewrite Hw in Hg.
  apply Forall_cons in Hg as [Hs _]. pose proof (handle_slot_ok I A s t HI Hs) as Hx.
  rewrite E in Hx. destruct Hx as (_ & HI1 & Hc & Hh1). split; [done|].
  split; [by apply heads_ok_heads with t|]. split; [intros r'; by apply waiting_heads|done].
Qed.

Lemma handed_queues ifd t l o t' :
  handed ifd t l o t' -> heads_ok ifd t -> all_good ifd t -> I (data t) ->
  handed_post ifd t l o t'.
Proof.
  induction 1 as [t|t r ring s ss t1 l o t' Hr E Hw Eh _ IH|t r s ss rc t1 Hr Hw Eh _
    |t p l o t' _ _ IH|t l o t' _ IH]; intros Hh Hg HI; [by split|..].
  - destruct (handle_first ifd t r s ss 0 t1) as (HI1 & Hh1 & Hw1 & _ & Hc); try done.
    destruct (pop_slot ifd r ring s ss t1 Hh1 Hr E) as [Hp Hq]; [by rewrite Hw1|].
    assert (Hg1 : all_good ifd t1) by (intros r' Hr'; rewrite Hw1; by apply Hg).
    destruct IH as [HI' Hh' Hq' Hf' Hst]; [done|by apply (queues_good ifd t1 _ (fun r' => if r =? r' then [s] else []))|done|].
    split; try done; [|by rewrite Hf', <- (sc_frontends _ _ Hc)]. intros r' Hr'. rewrite <- Hw1, Hq, Hq' by done. simpl. by rewrite app_assoc.
  - destruct (handle_first ifd t r s ss rc t1) as (HI1 & Hh1 & Hw1 & _ & Hc); try done.
    split; [done|done|intros r' _; by rewrite Hw1|apply Hc|].
    intros r' s' rc' [= <- <- <-]. exists ss. by rewrite Hw1.
  - destruct IH as [H1 H2 H3 H4 H5]; [by apply heads_ok_heads with t|done..|by split].
  - destruct IH as [H1 H2 H3 H4 H5]; [by apply heads_ok_heads with t|done..|by split].
Qed.

(** How a wakeup that handed over [l] ends: with every ring drained; with
    nothing done, right after activation and with the first ring empty, when
    the packets of the other rings are passed over; or stopped by the handler,
    which puts the task to sleep or sets its error flag. *)
Definition wakeup_end (ifd : tes_ifdesc) t (l : list (Z * netmap_slot))
    (o : option (Z * netmap_slot * Z)) t1 t' : Prop :=
  match o with
  | None => t' = t1 /\
      (all_empty ifd t' \/ l = [] /\ just_activated t = true /\
         forall r f, r ∈ ring_ids -> waiting_fseq ifd t r = Some f -> passed_over (prev_fseq t) r f)
  | Some (_, _, rc) =>
      rc = TASK_SLEEP /\ task_deactivate (set_just_activated t1 false) = Done (0, t')
      \/ rc = TASK_ERROR /\ t' = set_error (set_just_activated t1 false) true
  end.

(** The state when the loop over the rings ends. *)
Record processed (ifd : tes_ifdesc) t t' : Prop := {
  pr_data : I (data t');
  pr_heads : heads_ok ifd t';
  pr_frontends : frontends t' = frontends t;
  pr_busy : busy t' = busy t;
  pr_error : error t' = true \/ error t' = error t;
  pr_progress : progress ifd t t';
  pr_run : exists l o t1, handed ifd t l o t1 /\ heads t' = heads t1 /\ wakeup_end ifd t l o t1 t';
}.

Lemma next_ring_any ifd t :
  heads_ok ifd t ->
  exists next missed prev, s_task_next_ring ifd t = Done (next, missed, set_prev_fseq t prev) /\
    (just_activated t = true \/ prev = prev_fseq t) /\
    (next = -1 /\ prev = prev_fseq t /\ (all_empty ifd t \/ just_activated t = true /\
       forall r f, r ∈ ring_ids -> waiting_fseq ifd t r = Some f -> passed_over (prev_fseq t) r f)
     \/ next ∈ ring_ids /\ waiting ifd t next <> []).
Proof.
  intros Hh. destruct (just_activated t) eqn:Ej.
  - destruct (next_ring_activated ifd t Hh Ej) as (n & p & E & H1).
    exists n, 0, p. split; [done|]. split; [by left|].
    destruct H1 as [(->&->&H1)|]; [left; by eauto|by right].
  - destruct (next_ring_running ifd t Hh Ej) as (n & m & E & H1).
    exists n, m, (prev_fseq t). split; [rewrite E; by destruct t|]. split; [by right|].
    destruct H1 as [[-> Hw]|(Hn & Hg & _)]; [left; by eauto|]. right. split; [done|].
    intros Hw. apply gap_none in Hw. congruence.
Qed.

Lemma set_prev_fseq_same t : set_prev_fseq t (prev_fseq t) = t.
Proof. by destruct t. Qed.

(** The ring chosen, with the sequence it leaves remembered. *)
Lemma handed_chosen ifd t p l o t' :
  just_activated t = true \/ p = prev_fseq t ->
  handed ifd (set_prev_fseq t p) l o t' -> handed ifd t l o t'.
Proof. intros [Hj| ->] Hl; [by eapply handed_synced|by rewrite set_prev_fseq_same in Hl]. Qed.

Lemma processed_trans ifd t l t1 t' :
  frontends t1 = frontends t -> busy t1 = busy t -> error t1 = error t -> just_activated t1 = false ->
  progress ifd t t1 -> handed ifd t l None t1 -> processed ifd t1 t' -> processed ifd t t'.
Proof.
  intros Hf Hb He Hj Hp Hl []. split; [done|done|congruence|congruence| | |].
  { destruct pr_error0; [by left|right; congruence]. }
  { by apply progress_trans with t1. }
  destruct pr_run0 as (l' & o & t2 & Hl' & Hh & Hend).
  exists (l ++ l'), o, t2. split; [by eapply handed_app|]. split; [done|].
  destruct o as [[[r s] rc]|]; [done|]. destruct Hend as [-> [|(_ & Hj' & _)]]; [|congruence].
  split; [done|by left].
Qed.

(** The task goes to sleep. *)
Lemma sleep_processed `{!ZEnvReader} ifd t l r s t1 :
  heads_ok ifd t1 -> I (data t1) -> frontends_ok t1 -> frontends t1 = frontends t -> busy t1 = busy t ->
  error t1 = error t -> progress ifd t t1 -> handed ifd t l (Some (r, s, TASK_SLEEP)) t1 ->
  wp ('(_, t2) ← task_deactivate (set_just_activated t1 false); mret t2) (processed ifd t).
Proof.
  intros Hh HI Hf Ef Eb Ee Hp Hl. set (t2 := set_just_activated t1 false).
  pose proof (task_deactivate_ok I A t2 HI Hf) as Hd.
  destruct (task_deactivate_done I A t2 HI Hf) as (? & t3 & _ & E3 & _ & Ha3 & _).
  rewrite E3 in Hd |- *. destruct Hd as (HI3 & Hh3 & Hf3 & He3 & Hb3 & _).
  simpl in *. split; simpl; [done|by apply heads_ok_heads with t1|congruence..| | |].
  - right. congruence.
  - by apply progress_heads with t1.
  - exists l, (Some (r, s, TASK_SLEEP)), t1. split; [done|]. split; [done|]. by left.
Qed.

Lemma process_rings_ok `{!ZEnvReader} ifd fuel t :
  heads_ok ifd t -> all_good ifd t -> I (data t) -> frontends_ok t ->
  (nonempty ifd t ring_ids < fuel)%nat ->
  wp (process_rings fuel ifd t) (processed ifd t).
Proof.
  revert t. induction fuel as [|fuel IH]; intros t Hh Hg HI Hf Hlt; [lia|].
  simpl. destruct (next_ring_any ifd t Hh) as (n & m & p & -> & Hp0 & Hn). cbn.
  destruct Hn as [(-> & -> & He)|[Hn Hne]]; simpl.
  { rewrite set_prev_fseq_same. split; try done; [by right|apply progress_refl|].
    exists [], None, t. split; [apply handed_none|]. do 2 (split; [done|]). naive_solver. }
  set (t0 := set_prev_fseq t p).
  assert (Hw0 : forall r, waiting ifd t0 r = waiting ifd t r)
    by (intros r; by apply waiting_heads).
  assert (Hh0 : heads_ok ifd t0) by by apply heads_ok_heads with t.
  rewrite (proj2 (Z.ltb_ge _ _)) by (apply ring_ids_range in Hn; lia).
  destruct (ho_ring ifd t0 Hh0 n Hn) as (ring & E & Hok & Hs).
  destruct (s_task_dispatch_run I A ifd n ring m t0) as [_ Hd]; try done.
  { by apply Hg. }
  apply wp_bind. eapply wp_mono; [exact Hd|]. intros [rc t1] Hdi.
  assert (Hp : progress ifd t t1).
  { apply progress_trans with t0; [|by eapply dispatched_progress].
    apply progress_heads with t; [done|apply progress_refl]. }
  destruct Hdi as [Hrc HI1 Hc Hh1 Hall _ Hoth (l & o & Hl & Ho)]. destruct Hc.
  apply (handed_chosen ifd t p l o t1 Hp0) in Hl.
  assert (Hf1 : frontends_ok t1) by (unfold frontends_ok; by rewrite sc_frontends0).
  destruct Hrc as [-> |[-> | ->]]; cbn; (destruct Ho as [[Hz ->]|(s & -> & Hst)]; [try done|]).
  2:{ by rewrite (Hall eq_refl) in Hst. }
  - eapply wp_mono; [apply IH; try done|].
    + by apply heads_ok_heads with t1.
    + by apply progress_good with t.
    + apply Nat.lt_le_trans with (nonempty ifd t ring_ids); [|lia].
      apply nonempty_lt with n; try done.
      * intros r Hr Hz'. rewrite (waiting_heads ifd t1) by done.
        destruct (decide (r = n)) as [->|Hrn]; [by apply Hall|].
        rewrite Hoth by done. by rewrite Hw0.
      * rewrite (waiting_heads ifd t1) by done. by apply Hall.
    + intros t' Ht'. apply (processed_trans ifd t l (set_just_activated t1 false)); try done.
      rewrite <- (app_nil_r l). eapply handed_app; [exact Hl|]. apply handed_ran, handed_none.
  - by apply sleep_processed with l n s.
  - split; simpl; try done.
    + by apply heads_ok_heads with t1.
    + by left.
    + exists l, (Some (n, s, TASK_ERROR)), t1. split; [done|]. split; [done|]. by right.
Qed.
End Wakeup.

(** ** Subscriptions *)

Section Subscriptions.
Context {D : Type} `{ZEnv} `{!TaskImpl D} (I : D -> Prop) (A : tespkt -> Prop)
  `{!TaskLaws I A} `{!ZEnvReader}.
Implicit Types t : task D.

(** A task that sleeps without subscribers, and its publishing frontend. *)
Record sub_inv (ifd : tes_ifdesc) (reader : nat) (n : Z) t : Prop := {
  si_data : I (data t);
  si_heads : heads_ok ifd t;
  si_frontends : frontends_ok t;
  si_ep : exists ep, frontends t !! reader = Some ep /\ ep_nsubs ep = n;
  si_active : active t = (0 <? n);
}.

Lemma frontends_ok_insert t i ep n :
  frontends_ok t -> frontends t !! i = Some ep ->
  frontends_ok (set_frontends t (<[i := set_nsubs ep n]> (frontends t))).
Proof.
  intros Hf Hi. unfold frontends_ok. simpl. apply Forall_insert; [done|].
  simpl. exact (Forall_lookup_1 _ _ _ _ Hf Hi).
Qed.

Lemma sub_inv_frontend ifd reader n n' ep t t' :
  frontends t !! reader = Some ep -> frontends_ok t ->
  frontends t' = <[reader := set_nsubs ep n']> (frontends t) ->
  I (data t') -> heads_ok ifd t' -> active t' = (0 <? n') ->
  sub_inv ifd reader n t -> sub_inv ifd reader n' t'.
Proof.
  intros He Hf Hf' HI Hh Ha _. split; try done.
  - pose proof (frontends_ok_insert t reader ep n' Hf He) as G.
    unfold frontends_ok in *. by rewrite Hf'.
  - exists (set_nsubs ep n'). split; [|done]. rewrite Hf'.
    apply list_lookup_insert_eq. by eapply lookup_lt_Some.
Qed.

(** The count after a message, [None] when the assertion on it fails. *)
Definition subs_after (n : Z) (msg : list bytes) : option Z :=
  match msg with
  | [frame] =>
      if first_char frame =? 0 then if 0 <? n then Some (n - 1) else None
      else if first_char frame =? 1 then Some (n + 1) else Some n
  | _ => Some n
  end.

(** What the handler does once the count is updated. *)
Lemma sub_update_ok ifd reader n n' ep t :
  sub_inv ifd reader n t -> frontends t !! reader = Some ep ->
  0 <= n' <= n + 1 -> n <> n' -> (n' = 0 \/ n' = 1 \/ 0 < n) ->
  let t1 := set_frontends t (<[reader := set_nsubs ep n']> (frontends t)) in
  wp (if n' =? 1 then '(_, t) ← task_activate ifd t1; mret (0, t)
      else if n' =? 0 then '(_, t) ← task_deactivate t1; mret (0, t)
      else mret (0, t1))
    (fun '(rc, t') => rc = 0 /\ sub_inv ifd reader n' t').
Proof.
  intros Hs He Hn Hne Hpos t1. pose proof Hs as [HI Hh Hf _ Ha].
  assert (Hf1 : frontends_ok t1) by by apply frontends_ok_insert.
  assert (Hh1 : heads_ok ifd t1) by by apply heads_ok_heads with t.
  destruct (Z.eqb_spec n' 1) as [->|H1].
  { apply wp_bind. eapply wp_mono; [by apply (task_activate_ok I A)|].
    intros [rc t2] (_ & HI2 & Hh2 & Ha2 & _ & Hf2 & _). simpl. split; [done|].
    by eapply sub_inv_frontend. }
  destruct (Z.eqb_spec n' 0) as [->|Hz].
  { pose proof (task_deactivate_ok I A t1 HI Hf1) as Hd.
    destruct (task_deactivate_done I A t1 HI Hf1) as (? & t2 & _ & E & _ & Ha2 & _).
    rewrite E in Hd |- *. destruct Hd as (HI2 & Hh2 & Hf2 & _). simpl. split; [done|].
    eapply sub_inv_frontend; try done. by apply heads_ok_heads with t1. }
  simpl. split; [done|]. eapply sub_inv_frontend; try done. simpl. rewrite Ha. lia.
Qed.
End Subscriptions.

(** ** Properties *)

(** A recording task: its data is the list of frame sequence, gap and error
    of the packets its handler was given; it sleeps on an invalid packet. *)
Module Recorder.
Definition seen : Type := list (Z * Z * Z).

Definition handler (t : task seen) (pkt : tespkt) (flen missed err : Z) : exec (Z * task seen) :=
  let t := set_data t (data t ++ [(tespkt_fseq pkt, missed, err)]) in
  mret (if c_true err then TASK_SLEEP else 0, t).

#[export] Instance impl : TaskImpl seen :=
  {| pkt_handler := handler; data_wakeup := None; data_sleep := None |}.

#[export] Instance env : ZEnv :=
  {| zmq_send_rc := fun _ _ _ => 0; zloop_reader_rc := fun _ _ => 0;
     zloop_timer_rc := fun _ _ => 1 |}.

#[export] Instance env_reader : ZEnvReader.
Proof. done. Qed.

#[export] Instance laws : TaskLaws (fun _ : seen => True) (fun _ => True).
Proof.
  split.
  - intros t pkt flen missed err _ _ _ _. simpl. split; [|eauto with tes].
    case_if; [right; by left|by left].
  - intros t _. simpl. eauto with tes.
  - intros t _. simpl. eauto with tes.
Qed.

Definition ring_of (h : Z) (fseqs : list Z) : tes_ifring :=
  {| num_slots := 8; nr_buf_size := 2048; head := h; cur := h;
     tail := (h + Z.of_nat (length fseqs)) mod 8;
     slots := rotate (Z.to_nat (8 - h))
       (take 8 (((fun f => {| slot_len := 64; slot_buf := sample_tick f 0 ++ zeros 16 |}) <$> fseqs)
                ++ replicate 8 {| slot_len := 0; slot_buf := [] |})) |}.

Definition ifd_of (r0 r1 r2 r3 : tes_ifring) : tes_ifdesc :=
  {| first_tx_ring := 0; last_tx_ring := 0; cur_tx_ring := 0; first_rx_ring := 0;
     last_rx_ring := 3; cur_rx_ring := 0; tx_rings := []; rx_rings := [r0; r1; r2; r3] |}.

Definition endp (n : Z) : task_endp :=
  {| ep_handler := true; ep_type := ZMQ_XPUB; ep_nsubs := n; ep_automute := true;
     ep_autosleep := true |}.

Definition task_of (hs : list Z) (prev : Z) (just act : bool) (n : Z) : task seen :=
  Task [endp n] hs prev 0 0 just false false act [] [].

Definition ifd : tes_ifdesc :=
  ifd_of (ring_of 6 [11; 14; 15]) (ring_of 0 [10]) (ring_of 0 []) (ring_of 3 [12; 13]).

Lemma ifd_heads_ok prev just act n : heads_ok ifd (task_of [6; 0; 0; 3] prev just act n).
Proof.
  split; [done|]. intros r Hr. unfold ring_ids in Hr.
  repeat (apply elem_of_cons in Hr as [->|Hr]; [eexists; split; [reflexivity|];
    split; [split; try done; vm_compute; split; congruence|vm_compute; split; congruence]|]).
  by apply elem_of_nil in Hr.
Qed.

Lemma ifd_good prev just act n :
  all_good (fun _ => True) ifd (task_of [6; 0; 0; 3] prev just act n).
Proof.
  intros r Hr. unfold ring_ids in Hr.
  repeat (apply elem_of_cons in Hr as [->|Hr];
    [repeat constructor; vm_compute; congruence|]).
  by apply elem_of_nil in Hr.
Qed.

Example runs_in_sequence :
  (fun '(rc, t) => (rc, data t, active t, prev_fseq t)) <$>
    match s_sig_hn ifd SIG_WAKEUP (task_of [6; 0; 0; 3] 9 false true 1) with
    | Done x => Some x | Failed _ => None
    end = Some (0, [(10, 0, 0); (11, 0, 0); (14, 2, 0); (15, 0, 0); (12, 65532, 0); (13, 0, 0)],
                true, 13).
Proof. vm_compute. reflexivity. Qed.
End Recorder.

#[local] Existing Instances Recorder.impl Recorder.env Recorder.env_reader Recorder.laws.

(** C1: a woken task never fails.  If its rings are well formed, its data
    invariant holds, the packets waiting for it fit its buffers and the MTU and
    its muted frontends can be polled again, then on SIG_WAKEUP an active task
    calls its handler over a list of packets which, ring by ring, are those
    waiting, in order from its head and none twice; those not handed over still
    wait.  It ends in one of three ways: every ring is drained; the handler
    stopped it at a packet, which still waits, and the task has gone to sleep
    or has its error flag set; or, only right after activation with the first
    ring empty, when every packet in front is at most 32767 above the sequence
    remembered, it returns without having handed over any.  The busy flag is
    cleared, invariant and heads are intact, and -1 is returned exactly when
    the error flag is set. *)
Theorem s_sig_hn_wakeup {D} `{ZEnv} `{!ZEnvReader} `{!TaskImpl D} (I : D -> Prop)
    (A : tespkt -> Prop) `{!TaskLaws I A} ifd (t : task D) :
  heads_ok ifd t -> all_good A ifd t -> I (data t) -> frontends_ok t ->
  busy t = false -> active t = true -> error t = false ->
  exists rc t' l o t1 t2, s_sig_hn ifd SIG_WAKEUP t = Done (rc, t') /\
    handed ifd (set_busy t true) l o t1 /\
    wakeup_end ifd (set_busy t true) l o t1 t2 /\ t' = set_busy t2 false /\
    rc = (if error t' then -1 else 0) /\
    (forall r, r ∈ ring_ids -> waiting ifd t r = of_ring r l ++ waiting ifd t' r) /\
    (forall r s rc, o = Some (r, s, rc) -> exists ss, waiting ifd t' r = s :: ss) /\
    I (data t') /\ heads_ok ifd t'.
Proof.
  intros Hh Hg HI Hf Hb Ha He. unfold s_sig_hn. rewrite Hb. cbn -[process_rings].
  rewrite Ha. cbn -[process_rings].
  assert (Hh0 : heads_ok ifd (set_busy t true)) by by apply heads_ok_heads with t.
  destruct (proj1 (wp_Done _ _) (process_rings_ok I A ifd process_fuel (set_busy t true)
    Hh0 Hg HI Hf ltac:(cbn -[waiting]; repeat case_match; unfold process_fuel; lia)))
    as (t2 & -> & [HI2 Hh2 _ _ _ _ (l & o & t1 & Hl & Hh1 & Hend)]).
  destruct (handed_queues I A ifd _ l o t1 Hl Hh0 Hg HI) as [_ _ Hq _ Hst].
  eexists _, _, l, o, t1, t2. split; [done|]. do 4 (split; [done|]).
  assert (Hw : forall r, waiting ifd (set_busy t2 false) r = waiting ifd t1 r)
    by (intros r; by apply waiting_heads).
  split; [intros r Hr; rewrite Hw; by apply Hq|].
  split; [intros r s rc Ho; rewrite Hw; by apply Hst with rc|].
  split; [done|by apply heads_ok_heads with t2].
Qed.

Lemma s_sig_hn_wakeup_witness :
  exists rc t' l (o : option (Z * netmap_slot * Z)), s_sig_hn Recorder.ifd SIG_WAKEUP (Recorder.task_of [6; 0; 0; 3] 9 false true 1)
      = Done (rc, t') /\ busy t' = false /\ data t' <> [] /\
    (forall r, r ∈ ring_ids -> waiting Recorder.ifd (Recorder.task_of [6; 0; 0; 3] 9 false true 1) r
       = of_ring r l ++ waiting Recorder.ifd t' r) /\
    (forall r s rc, o = Some (r, s, rc) -> exists ss, waiting Recorder.ifd t' r = s :: ss).
Proof.
  destruct (s_sig_hn_wakeup (fun _ => True) (fun _ => True) Recorder.ifd
    (Recorder.task_of [6; 0; 0; 3] 9 false true 1))
    as (rc & t' & l & o & t1 & t2 & E & _ & _ & Ht & _ & Hq & Hst & _).
  - apply Recorder.ifd_heads_ok.
  - apply Recorder.ifd_good.
  - exact Logic.I.
  - repeat constructor.
  - reflexivity.
  - reflexivity.
  - reflexivity.
  - exists rc, t', l, o. split; [exact E|]. split; [by rewrite Ht|]. split; [|by split].
    vm_compute in E. injection E as _ <-. discriminate.
Defined.

(** C2: dispatching a ring is exactly running the task's handler over the
    packets between the task's head and the ring's tail, in order, each with
    its length, error flags and sequence gap, until the handler stops it: the
    loop needs no more fuel than the ring has slots, every packet handed over
    is dropped from the ring's queue (the one that stopped it is not), the
    ring is drained when 0 is returned and the other rings keep their queues. *)
Theorem s_task_dispatch_correct {D} `{ZEnv} `{!TaskImpl D} (I : D -> Prop)
    (A : tespkt -> Prop) `{!TaskLaws I A} ifd r ring missed (t : task D) :
  heads_ok ifd t -> r ∈ ring_ids -> rxring ifd r = Done ring ->
  waiting ifd t r <> [] -> Forall (slot_good A) (waiting ifd t r) -> I (data t) ->
  exists rc t', s_task_dispatch ifd r missed t = Done (rc, t') /\
    run_slots ring r (waiting ifd t r) t = Done (rc, t') /\
    rc_handler rc /\ I (data t') /\ heads_ok ifd t' /\
    (rc = 0 -> waiting ifd t' r = []) /\
    (exists done, waiting ifd t r = done ++ waiting ifd t' r) /\
    (forall r', r' ∈ ring_ids -> r' <> r -> waiting ifd t' r' = waiting ifd t r').
Proof.
  intros Hh Hr E Hne Hg HI.
  destruct (s_task_dispatch_run I A ifd r ring missed t) as [Ed Hw]; try done.
  apply wp_Done in Hw as ([rc t'] & E1 & []).
  exists rc, t'. split; [done|]. split; [by rewrite <- Ed|]. repeat (split; [done|]). done.
Qed.

Lemma s_task_dispatch_correct_witness :
  exists rc t', s_task_dispatch Recorder.ifd 0 0 (Recorder.task_of [6; 0; 0; 3] 9 false true 1)
    = Done (rc, t') /\ rc_handler rc.
Proof.
  destruct (s_task_dispatch_correct (fun _ => True) (fun _ => True) Recorder.ifd 0
    (Recorder.ring_of 6 [11; 14; 15]) 0
    (Recorder.task_of [6; 0; 0; 3] 9 false true 1)) as (rc & t' & E & _ & Hr & _).
  - apply Recorder.ifd_heads_ok.
  - left.
  - reflexivity.
  - vm_compute. congruence.
  - apply (Recorder.ifd_good 9 false true 1 0). left.
  - exact Logic.I.
  - exists rc, t'. split; [exact E|exact Hr].
Defined.

(** C37: while a task runs, the ring chosen is one whose next packet is the
    closest, modulo 2^16, after the last frame seen, with that distance
    reported as missed, and -1 exactly when no ring has a packet.  Right after
    activation some ring with a packet is chosen if the first ring has one,
    but the other rings count only when their frame sequence is more than
    32767 above the one remembered, in signed arithmetic: when the first ring
    is empty they may all be passed over. *)
Theorem s_task_next_ring_correct {D} ifd (t : task D) :
  heads_ok ifd t ->
  (just_activated t = false ->
   exists next missed, s_task_next_ring ifd t = Done (next, missed, t) /\
    (next = -1 /\ all_empty ifd t
     \/ next ∈ ring_ids /\ gap ifd t next = Some missed /\
        (forall r g, r ∈ ring_ids -> gap ifd t r = Some g -> missed <= g))) /\
  (just_activated t = true ->
   (waiting ifd t 0 <> [] ->
    exists next prev, s_task_next_ring ifd t = Done (next, 0, set_prev_fseq t prev) /\
      next ∈ ring_ids /\ waiting ifd t next <> []) /\
   (waiting ifd t 0 = [] ->
    (forall r f, r ∈ ring_ids -> waiting_fseq ifd t r = Some f -> f <= prev_fseq t + 32767) ->
    s_task_next_ring ifd t = Done (-1, 0, t))).
Proof.
  intros Hh. split; [apply next_ring_running; done|]. intros Hj. split.
  - intros Hw. destruct (next_ring_activated ifd t Hh Hj) as (n & p & E & [(_ & _ & H1)|H1]).
    + by apply passed_over_first in H1.
    + by exists n, p.
  - intros Hw Hf. rewrite next_ring_skips; [by destruct t|done..|].
    intros r f Hr E. specialize (Hf r f Hr E). change thres_gap with 32767. lia.
Qed.

Lemma s_task_next_ring_correct_witness :
  exists next missed, s_task_next_ring Recorder.ifd (Recorder.task_of [6; 0; 0; 3] 9 false true 1)
    = Done (next, missed, Recorder.task_of [6; 0; 0; 3] 9 false true 1).
Proof.
  destruct (s_task_next_ring_correct Recorder.ifd (Recorder.task_of [6; 0; 0; 3] 9 false true 1)
    (Recorder.ifd_heads_ok 9 false true 1)) as [H _].
  destruct (H eq_refl) as (next & missed & E & _). exists next, missed. exact E.
Defined.

(** activating a task points its heads at the rings' heads, so that it
    sees no packet received earlier than the ring's oldest, marks it active and
    just activated; deactivating it afterwards polls exactly the frontends that
    activation stopped polling, in order, and clears the flag. *)
Theorem activation_correct {D} `{ZEnv} `{!ZEnvReader} `{!TaskImpl D} (I : D -> Prop)
    (A : tespkt -> Prop) `{!TaskLaws I A} ifd (t : task D) :
  I (data t) -> heads_ok ifd t -> frontends_ok t ->
  exists t1 t2 t3, task_activate ifd t = Done (0, t1) /\
    active t1 = true /\ just_activated t1 = true /\ heads_ok ifd t1 /\ I (data t1) /\
    (forall r ring, r ∈ ring_ids -> rxring ifd r = Done ring -> head_of t1 r = head ring) /\
    run_hook data_sleep t1 = Done (0, t2) /\
    task_deactivate t1 = Done (0, t3) /\ active t3 = false /\ I (data t3) /\
    log t3 = log t2 ++ (ZloopReader <$> muted 0 (frontends t)).
Proof.
  intros HI Hh Hf.
  destruct (proj1 (wp_Done _ _) (task_activate_ok I A ifd t HI Hh))
    as ([rc t1] & E & -> & HI1 & Hh1 & Ha & Hj & Hf1 & _ & _ & H2 & _).
  destruct (task_deactivate_done I A t1 HI1) as (t2 & t3 & E2 & E3 & HI3 & Ha3 & _ & Hl).
  { unfold frontends_ok. by rewrite Hf1. }
  rewrite Hf1 in Hl. exists t1, t2, t3. done.
Qed.

Lemma activation_correct_witness :
  exists t1 t3, task_activate Recorder.ifd (Recorder.task_of [0; 0; 0; 0] 0 false false 0)
      = Done (0, t1) /\ task_deactivate t1 = Done (0, t3) /\ active t3 = false.
Proof.
  destruct (activation_correct (fun _ => True) (fun _ => True) Recorder.ifd
    (Recorder.task_of [0; 0; 0; 0] 0 false false 0)) as (t1 & t2 & t3 & E1 & _ & _ & _ & _ & _ & _ & E3 & Ha & _).
  - exact Logic.I.
  - split; [reflexivity|]. intros r Hr.
    destruct (ho_ring _ _ (Recorder.ifd_heads_ok 0 false false 0) r Hr) as (ring & E & Hok & _).
    exists ring. split; [exact E|]. split; [exact Hok|].
    replace (head_of _ r) with 0; [pose proof (ring_ok_pos _ Hok); split; lia|].
    unfold ring_ids in Hr. repeat (apply elem_of_cons in Hr as [->|Hr]; [reflexivity|]).
    by apply elem_of_nil in Hr.
  - repeat constructor.
  - exists t1, t3. split; [exact E1|]. split; [exact E3|exact Ha].
Defined.

(** The subscription handler counts subscriptions and keeps a task active
    exactly while it has subscribers: spurious messages change nothing, a first
    byte of 1 adds one and of 0 takes one away, and the only failure is the
    assertion on an unsubscription with none left.  (Every time the count
    becomes 1, also on the way down, the task is activated anew.) *)
Theorem s_sub_hn_correct {D} `{ZEnv} `{!ZEnvReader} `{!TaskImpl D} (I : D -> Prop)
    (A : tespkt -> Prop) `{!TaskLaws I A} ifd reader n msg (t : task D) :
  sub_inv I ifd reader n t -> 0 <= n < 2 ^ 32 - 1 ->
  match subs_after n msg with
  | None => s_sub_hn ifd reader msg t = Failed AssertFail
  | Some n' => exists t', s_sub_hn ifd reader msg t = Done (0, t') /\ sub_inv I ifd reader n' t' /\
      (n' = n -> t' = t)
  end.
Proof.
  intros Hs Hn. pose proof (si_ep _ _ _ _ _ Hs) as (ep & He & Hep).
  destruct msg as [|frame [|]]; simpl; [by exists t| |by exists t]. rewrite He. cbn.
  assert (G : forall n', 0 <= n' <= n + 1 -> n <> n' -> (n' = 0 \/ n' = 1 \/ 0 < n) ->
    exists t', (if n' =? 1 then '(_, t) ← task_activate ifd (set_frontends t (<[reader := set_nsubs ep n']> (frontends t))); mret (0, t)
      else if n' =? 0 then '(_, t) ← task_deactivate (set_frontends t (<[reader := set_nsubs ep n']> (frontends t))); mret (0, t)
      else mret (0, set_frontends t (<[reader := set_nsubs ep n']> (frontends t)))) = Done (0, t')
    /\ sub_inv I ifd reader n' t' /\ (n' = n -> t' = t)).
  { intros n' H1 H2 H3.
    destruct (proj1 (wp_Done _ _) (sub_update_ok I A ifd reader n n' ep t Hs He H1 H2 H3))
      as ([rc t'] & E & -> & Hs'). by exists t'. }
  destruct (Z.eqb_spec (first_char frame) 0); simpl.
  - rewrite Hep. destruct (Z.ltb_spec 0 n); [|done]. cbn.
    rewrite to_u32_id by (unfold is_u32; lia). apply G; lia.
  - destruct (Z.eqb_spec (first_char frame) 1); simpl; [|by exists t].
    rewrite Hep, to_u32_id by (unfold is_u32; lia). apply G; lia.
Qed.

Lemma s_sub_hn_correct_witness :
  exists t', s_sub_hn Recorder.ifd 0 [[Byte.x01]] (Recorder.task_of [6; 0; 0; 3] 0 false false 0)
    = Done (0, t') /\ active t' = true.
Proof.
  destruct (s_sub_hn_correct (fun _ => True) (fun _ => True) Recorder.ifd 0 0 [[Byte.x01]]
    (Recorder.task_of [6; 0; 0; 3] 0 false false 0)) as (t' & E & Hs & _).
  - split; [exact Logic.I|apply Recorder.ifd_heads_ok|repeat constructor| |reflexivity].
    eexists. split; reflexivity.
  - lia.
  - exists t'. split; [exact E|]. exact (si_active _ _ _ _ _ Hs).
Defined.

(** A frame longer than the MTU, by its header and by its slot, which
    validation flags with TES_EETHLEN, is not passed to the task as an invalid
    packet: the dispatcher's assertion on the length stops the server. *)
Theorem oversize_frame_aborts {D} `{ZEnv} `{!TaskImpl D} ring r s (t : task D) :
  slot ring (head_of t r) = Done s -> TESPKT_MTU < slot_len s ->
  TESPKT_MTU < tespkt_flen (slot_buf s) ->
  dispatch_one ring r t = Failed AssertFail.
Proof.
  intros E Hl Hf. rewrite (dispatch_one_slot ring r s t E). unfold handle_slot, slot_check.
  destruct (Z.ltb_spec (slot_len s) (tespkt_flen (slot_buf s)));
    by rewrite (proj2 (Z.leb_gt _ _)).
Qed.

Lemma oversize_frame_aborts_witness :
  let s := {| slot_len := 2000; slot_buf := sample_frame Byte.xb5 2000 0 0 1 x00 x00 (zeros 1976) |} in
  let ring := {| num_slots := 1; nr_buf_size := 2048; head := 0; cur := 0; tail := 0; slots := [s] |} in
  dispatch_one ring 0 (Recorder.task_of [0; 0; 0; 0] 0 false true 1) = Failed AssertFail.
Proof.
  intros s ring. apply (oversize_frame_aborts ring 0 s).
  - reflexivity.
  - reflexivity.
  - vm_compute. reflexivity.
Defined.
