(* ===== verification/TaskInfo.v ===== *)
(** * The packet statistics task (src/bin/tesd_task_info.c)

    A client asks for the packet statistics of the next seconds: the request
    handler starts a timer and activates the task, the packet handler counts,
    the timeout handler deactivates the task and sends the counters.  What they
    are documented to be is [promised], what the frames that continue a
    histogram add to the events [spurious]. *)

From Stdlib Require Import ZArith Lia Strings.String Strings.Byte.
From stdpp Require Import base option list numbers decidable.
From S2P Require Import Prelude Tespkt Tesif Task TaskTheory.

Open Scope Z_scope.

Definition TES_INFO_REQ_OK : Z := 0.
Definition TES_INFO_REQ_EINV : Z := 1.
Definition TES_INFO_REP_PIC : string := "18888888".

Module Info.

Record s_data_t : Type := {
  received : Z;
  missed : Z;
  bad : Z;
  ticks : Z;
  mcas : Z;
  traces : Z;
  events : Z;
}.

(** [static struct s_data_t info], and the result of the [memset]. *)
Definition zero_data : s_data_t :=
  {| received := 0; missed := 0; bad := 0; ticks := 0; mcas := 0; traces := 0;
     events := 0 |}.

Definition set_bad d v := {| received := received d; missed := missed d; bad := v;
  ticks := ticks d; mcas := mcas d; traces := traces d; events := events d |}.
Definition set_ticks d v := {| received := received d; missed := missed d; bad := bad d;
  ticks := v; mcas := mcas d; traces := traces d; events := events d |}.
Definition set_mcas d v := {| received := received d; missed := missed d; bad := bad d;
  ticks := ticks d; mcas := v; traces := traces d; events := events d |}.
Definition set_traces d v := {| received := received d; missed := missed d; bad := bad d;
  ticks := ticks d; mcas := mcas d; traces := v; events := events d |}.
Definition set_events d v := {| received := received d; missed := missed d; bad := bad d;
  ticks := ticks d; mcas := mcas d; traces := traces d; events := v |}.

Section Handlers.
Context `{ZEnv}.
Implicit Types t : task s_data_t.

Definition task_info_pkt_hn t (pkt : tespkt) (flen missed_ err : Z) : exec (Z * task s_data_t) :=
  let info := data t in
  let is_header := tespkt_is_header pkt in
  let is_tr_header := (tespkt_is_trace_long pkt && is_header) || tespkt_is_trace_dp pkt in
  let is_mca_header := tespkt_is_mca pkt && is_header in
  let info :=
    {| received := to_u64 (received info + 1); missed := to_u64 (missed info + missed_);
       bad := bad info; ticks := ticks info; mcas := mcas info;
       traces := traces info; events := events info |} in
  if c_true err then mret (0, set_data t (set_bad info (to_u64 (bad info + 1))))
  else if tespkt_is_tick pkt
  then mret (0, set_data t (set_ticks info (to_u64 (ticks info + 1))))
  else if is_mca_header
  then mret (0, set_data t (set_mcas info (to_u64 (mcas info + 1))))
  else if is_tr_header
  then mret (0, set_data t (set_traces info (to_u64 (traces info + 1))))
  else
    n ← tespkt_event_nums pkt;
    mret (0, set_data t (set_events info (to_u64 (events info + n)))).

Definition task_info_init t : Z * task s_data_t := (0, set_data t zero_data).

#[export] Instance impl : TaskImpl s_data_t :=
  {| pkt_handler := task_info_pkt_hn; data_wakeup := None; data_sleep := None |}.

Definition s_timeout_hn t : exec (Z * task s_data_t) :=
  '(_, t) ← task_deactivate t;
  let info := data t in
  let t := emit t (ZsockSend 0 TES_INFO_REP_PIC
    [ZNum TES_INFO_REQ_OK; ZNum (received info); ZNum (missed info); ZNum (bad info);
     ZNum (ticks info); ZNum (mcas info); ZNum (traces info); ZNum (events info)]) in
  mret (0, set_data t zero_data).

(** [timeout] is the number received with picture "4". *)
Definition task_info_req_hn (ifd : tes_ifdesc) (timeout : Z) t : exec (Z * task s_data_t) :=
  if timeout =? 0 then
    mret (0, emit t (ZsockSend 0 TES_INFO_REP_PIC
      [ZNum TES_INFO_REQ_EINV; ZNum 0; ZNum 0; ZNum 0; ZNum 0; ZNum 0]))
  else
    let delay := to_u32 (1000 * timeout) in
    let tid := zloop_timer_rc (log t) delay in
    let t := emit t (ZloopTimer delay) in
    if tid =? -1 then mret (TASK_ERROR, t)
    else '(_, t) ← task_activate ifd t; mret (0, t).
End Handlers.

(** ** Specification: counting a list of packets *)

(** A packet as the handler is given it. *)
Record seen : Type := { s_pkt : tespkt; s_missed : Z; s_err : Z }.

Inductive kind : Type := KBad | KTick | KMca | KTrace | KEvents.

#[export] Instance kind_eq_dec : EqDecision kind.
Proof. solve_decision. Defined.

Definition kind_of (s : seen) : kind :=
  if c_true (s_err s) then KBad
  else if tespkt_is_tick (s_pkt s) then KTick
  else if tespkt_is_mca (s_pkt s) && tespkt_is_header (s_pkt s) then KMca
  else if (tespkt_is_trace_long (s_pkt s) && tespkt_is_header (s_pkt s))
          || tespkt_is_trace_dp (s_pkt s) then KTrace
  else KEvents.

Definition count (k : kind) (l : list seen) : Z :=
  Z.of_nat (length (List.filter (fun s => bool_decide (kind_of s = k)) l)).

Definition events_of (s : seen) : Z :=
  match tespkt_event_nums (s_pkt s) with Done n => n | Failed _ => 0 end.

Definition sum_Z (l : list Z) : Z := fold_right Z.add 0 l.

(** The counters after [l], from zero, without wrap-around. *)
Definition tally (l : list seen) : s_data_t :=
  {| received := Z.of_nat (length l);
     missed := sum_Z (List.map s_missed l);
     bad := count KBad l;
     ticks := count KTick l;
     mcas := count KMca l;
     traces := count KTrace l;
     events := sum_Z (List.map events_of (List.filter (fun s => bool_decide (kind_of s = KEvents)) l)) |}.

Definition add_data (a b : s_data_t) : s_data_t :=
  {| received := to_u64 (received a + received b); missed := to_u64 (missed a + missed b);
     bad := to_u64 (bad a + bad b); ticks := to_u64 (ticks a + ticks b);
     mcas := to_u64 (mcas a + mcas b); traces := to_u64 (traces a + traces b);
     events := to_u64 (events a + events b) |}.

(** The handler divides by the event size of a frame without an error that is
    neither tick nor header, also of an MCA frame, which has no events. *)
Definition countable (pkt : tespkt) : Prop :=
  tespkt_is_mca pkt = true -> tespkt_is_header pkt = false -> tespkt_true_esize pkt <> 0.

(** ** What the documentation promises

    The reply has the numbers of packets processed, missed and invalid, of ticks,
    of headers of histograms and of traces, and of the other events, that is
    those in event frames which are neither ticks nor traces. *)

Definition good (s : seen) : bool := negb (c_true (s_err s)).
Definition good_and (p : tespkt -> bool) (s : seen) : bool := good s && p (s_pkt s).
Definition number (p : seen -> bool) (l : list seen) : Z := Z.of_nat (length (List.filter p l)).

Definition mca_header (pkt : tespkt) : bool := tespkt_is_mca pkt && tespkt_is_header pkt.
(** A dot product is one frame, and counts as a trace. *)
Definition starts_trace (pkt : tespkt) : bool :=
  tespkt_is_trace pkt && (tespkt_is_trace_dp pkt || tespkt_is_header pkt).
Definition plain_events (pkt : tespkt) : bool :=
  tespkt_is_event pkt && negb (tespkt_is_tick pkt) && negb (tespkt_is_trace pkt).
Definition mca_cont (pkt : tespkt) : bool := tespkt_is_mca pkt && negb (tespkt_is_header pkt).
Definition trace_cont (pkt : tespkt) : bool := tespkt_is_trace pkt && negb (starts_trace pkt).

Definition in_frames (p : tespkt -> bool) (per : tespkt -> Z) (l : list seen) : Z :=
  sum_Z (List.map (fun s => per (s_pkt s)) (List.filter (good_and p) l)).

(** The payload is an array of events of esize times eight bytes. *)
Definition events_in (pkt : tespkt) : Z := payload_len pkt / (8 * tespkt_esize pkt).

Definition promised (l : list seen) : s_data_t :=
  {| received := Z.of_nat (length l);
     missed := sum_Z (List.map s_missed l);
     bad := number (fun s => negb (good s)) l;
     ticks := number (good_and tespkt_is_tick) l;
     mcas := number (good_and mca_header) l;
     traces := number (good_and starts_trace) l;
     events := in_frames plain_events events_in l |}.

(** What is added to the events for the other frames of histograms, which have
    no events: the payload divided by an event size that is not defined for
    them, in 16 bits. *)
Definition spurious (l : list seen) : Z :=
  in_frames mca_cont (fun pkt => payload_len pkt / to_u16 (8 * tespkt_esize pkt)) l.

(** One on which the division fails. *)
Definition divides (s : seen) : bool :=
  good_and mca_cont s && (to_u16 (8 * tespkt_esize (s_pkt s)) =? 0).

Record data_ok (d : s_data_t) : Prop := {
  ok_received : is_u64 (received d);
  ok_missed : is_u64 (missed d);
  ok_bad : is_u64 (bad d);
  ok_ticks : is_u64 (ticks d);
  ok_mcas : is_u64 (mcas d);
  ok_traces : is_u64 (traces d);
  ok_events : is_u64 (events d);
}.

Section Counting.
Context `{ZEnv}.
Implicit Types t : task s_data_t.

Fixpoint run_pkts (l : list seen) t : exec (Z * task s_data_t) :=
  match l with
  | [] => mret (0, t)
  | s :: l =>
      '(rc, t) ← task_info_pkt_hn t (s_pkt s) (tespkt_flen (s_pkt s)) (s_missed s) (s_err s);
      if c_true rc then mret (rc, t) else run_pkts l t
  end.

Lemma countable_nums pkt :
  valid_frame pkt -> countable pkt ->
  (tespkt_is_mca pkt && tespkt_is_header pkt = false) ->
  exists n, tespkt_event_nums pkt = Done n.
Proof.
  intros Hv Hc Hm. destruct (tespkt_is_event pkt) eqn:He.
  - destruct (valid_event_nums_done pkt Hv He) as (n & -> & _). by exists n.
  - assert (Hmca : tespkt_is_mca pkt = true).
    { destruct Hv as [_ [[H1 _ _ _ _ _ _]|[H1 _ _]]]; congruence. }
    rewrite Hmca in Hm. simpl in Hm. specialize (Hc Hmca Hm).
    unfold tespkt_event_nums.
    assert (Ht : tespkt_is_trace pkt = false).
    { destruct (tespkt_is_trace pkt) eqn:E; [|done]. apply is_trace_event in E. congruence. }
    rewrite Ht, (proj2 (Z.eqb_neq _ _)) by done. by eexists.
Qed.

(** One packet adds its own tally. *)
Lemma pkt_hn_adds t s flen :
  data_ok (data t) -> (s_err s = 0 -> valid_frame (s_pkt s)) ->
  (s_err s = 0 -> countable (s_pkt s)) ->
  task_info_pkt_hn t (s_pkt s) flen (s_missed s) (s_err s) =
    Done (0, set_data t (add_data (data t) (tally [s]))).
Proof.
  intros [] Hv Hc. unfold task_info_pkt_hn, add_data, tally, count, kind_of, events_of.
  assert (Hn : c_true (s_err s) = false ->
    tespkt_is_mca (s_pkt s) && tespkt_is_header (s_pkt s) = false ->
    exists n, tespkt_event_nums (s_pkt s) = Done n).
  { intros E1 E2. assert (E0 : s_err s = 0) by (unfold c_true in E1; by bool_hyps).
    apply countable_nums; [by apply Hv|by apply Hc|done]. }
  simpl. destruct (c_true (s_err s)); [|destruct (tespkt_is_tick (s_pkt s));
    [|destruct (tespkt_is_mca (s_pkt s) && tespkt_is_header (s_pkt s)) eqn:Em;
    [|destruct ((tespkt_is_trace_long (s_pkt s) && tespkt_is_header (s_pkt s))
        || tespkt_is_trace_dp (s_pkt s))]]]; simpl;
    [..|destruct (Hn eq_refl eq_refl) as [n ->]; simpl];
    unfold set_bad, set_ticks, set_mcas, set_traces, set_events; simpl;
    rewrite ?Z.add_0_r; do 4 f_equal; by rewrite to_u64_id.
Qed.

Lemma tally_app s l : 
  tally (s :: l) = {|
    received := received (tally [s]) + received (tally l);
    missed := missed (tally [s]) + missed (tally l);
    bad := bad (tally [s]) + bad (tally l);
    ticks := ticks (tally [s]) + ticks (tally l);
    mcas := mcas (tally [s]) + mcas (tally l);
    traces := traces (tally [s]) + traces (tally l);
    events := events (tally [s]) + events (tally l) |}.
Proof.
  unfold tally, count, sum_Z. simpl. destruct (kind_of s); simpl; f_equal; lia.
Qed.

Lemma add_data_assoc d l s :
  add_data (add_data d (tally [s])) (tally l) = add_data d (tally (s :: l)).
Proof.
  rewrite (tally_app s l). generalize (tally [s]), (tally l). intros a b.
  unfold add_data, to_u64. simpl.
  f_equal; rewrite Zplus_mod_idemp_l; f_equal; lia.
Qed.

Lemma add_data_ok a b : data_ok (add_data a b).
Proof. split; apply to_u64_range. Qed.

Lemma run_pkts_good l t :
  data_ok (data t) ->
  Forall (fun s => s_err s = 0 -> valid_frame (s_pkt s)) l ->
  Forall (fun s => s_err s = 0 -> countable (s_pkt s)) l ->
  run_pkts l t = Done (0, set_data t (add_data (data t) (tally l))).
Proof.
  revert t. induction l as [|s l IH]; intros t Hd Hl Hl'.
  - simpl. do 2 f_equal. destruct t as [? ? ? ? ? ? ? ? ? d ?], d, Hd.
    unfold set_data, add_data. simpl in *. by rewrite !Z.add_0_r, !to_u64_id.
  - apply Forall_cons_1 in Hl as [Hv Hl]. apply Forall_cons_1 in Hl' as [Hc Hl']. simpl.
    rewrite pkt_hn_adds by done. cbn -[tally add_data].
    rewrite IH by (done || apply add_data_ok). simpl data.
    by rewrite add_data_assoc.
Qed.

Lemma run_pkts_adds l t :
  data_ok (data t) ->
  Forall (fun s => (s_err s = 0 -> valid_frame (s_pkt s)) /\ countable (s_pkt s)) l ->
  run_pkts l t = Done (0, set_data t (add_data (data t) (tally l))).
Proof.
  intros Hd Hl. apply run_pkts_good; [done|..]; apply Forall_forall; intros s Hs;
    rewrite Forall_forall in Hl; destruct (Hl s Hs); auto.
Qed.

(** *** The counters and the promise *)

Lemma true_esize_eq pkt : tespkt_true_esize pkt = to_u16 (8 * tespkt_esize pkt).
Proof.
  unfold tespkt_true_esize. fold (tespkt_esize pkt). rewrite Z.shiftl_mul_pow2 by lia. f_equal. lia.
Qed.

Lemma divides_countable s : divides s = false -> s_err s = 0 -> countable (s_pkt s).
Proof.
  unfold divides, good_and, good, mca_cont. intros Hd He Hm Hh. rewrite He, Hm, Hh in Hd.
  cbn in Hd. rewrite true_esize_eq. lia.
Qed.

Lemma divides_fails t s flen : divides s = true ->
  task_info_pkt_hn t (s_pkt s) flen (s_missed s) (s_err s) = Failed DivByZero.
Proof.
  unfold divides, good_and, good, mca_cont. rewrite <- true_esize_eq. intros Hd.
  apply andb_true_iff in Hd as [[Hg [Hm Hh%negb_true_iff]%andb_true_iff]%andb_true_iff Hz].
  apply negb_true_iff in Hg. pose proof (is_mca_not_event _ Hm) as Hn.
  assert (Hr : tespkt_is_trace (s_pkt s) = false) by (unfold tespkt_is_trace; by rewrite Hn).
  assert (Hk : tespkt_is_tick (s_pkt s) = false) by (unfold tespkt_is_tick; by rewrite Hn).
  assert (Hl : tespkt_is_trace_dp (s_pkt s) = false) by (unfold tespkt_is_trace_dp; by rewrite Hn).
  unfold task_info_pkt_hn. rewrite Hm, Hh, Hk, Hl, !andb_false_r, Hg.
  assert (Hn0 : tespkt_event_nums (s_pkt s) = Failed DivByZero)
    by (unfold tespkt_event_nums; by rewrite Hr, Hz).
  cbn -[tespkt_event_nums]. by rewrite Hn0.
Qed.

Lemma run_pkts_app l1 l2 t : run_pkts (l1 ++ l2) t =
  '(rc, t) ← run_pkts l1 t; if c_true rc then mret (rc, t) else run_pkts l2 t.
Proof.
  revert t. induction l1 as [|s l IH]; intros t; cbn [app run_pkts]; [done|].
  destruct (task_info_pkt_hn _ _ _ _ _) as [[rc t1]|f]; [|done]. cbn [mbind exec_bind].
  destruct (c_true rc) eqn:E; [by cbn; rewrite E|]. apply IH.
Qed.

(** The counters add up the frames one by one. *)
Lemma number_cons p s l : number p (s :: l) = number p [s] + number p l.
Proof. unfold number. cbn [List.filter]. destruct (p s); cbn [length]; lia. Qed.

Lemma in_frames_cons p per s l : in_frames p per (s :: l) = in_frames p per [s] + in_frames p per l.
Proof. unfold in_frames, sum_Z. cbn [List.filter]. destruct (good_and p s); cbn; lia. Qed.

Lemma promised_cons s l : promised (s :: l) = {|
    received := received (promised [s]) + received (promised l);
    missed := missed (promised [s]) + missed (promised l);
    bad := bad (promised [s]) + bad (promised l);
    ticks := ticks (promised [s]) + ticks (promised l);
    mcas := mcas (promised [s]) + mcas (promised l);
    traces := traces (promised [s]) + traces (promised l);
    events := events (promised [s]) + events (promised l) |} /\
  spurious (s :: l) = spurious [s] + spurious l.
Proof.
  unfold promised, spurious. cbn [received missed bad ticks mcas traces events].
  rewrite (in_frames_cons mca_cont _ s l), (in_frames_cons plain_events _ s l),
    !(number_cons _ s l). split; [|done]. f_equal; [cbn; lia|]. unfold sum_Z. cbn. lia.
Qed.

(** The number of events in a valid frame that is neither bad, tick nor header. *)
Lemma plain_event_nums pkt : valid_frame pkt -> plain_events pkt = true ->
  tespkt_event_nums pkt = Done (events_in pkt).
Proof.
  unfold plain_events. intros Hv Hp. bool_hyps. destruct (tespkt_is_trace pkt) eqn:Hr; [done|].
  destruct (valid_event_nums pkt Hv) as (n & -> & Hn & Hp); [done..|].
  destruct (valid_true_esize pkt Hv) as (E & Hpos & _); [done|]. rewrite E in Hp, Hpos.
  unfold events_in. rewrite <- Hp, Z.div_mul by lia. done.
Qed.

Lemma mca_cont_nums pkt : valid_frame pkt -> mca_cont pkt = true -> countable pkt ->
  tespkt_event_nums pkt = Done (payload_len pkt / to_u16 (8 * tespkt_esize pkt)).
Proof.
  unfold mca_cont. intros Hv Hm Hc. apply andb_true_iff in Hm as [Hm Hh%negb_true_iff].
  specialize (Hc Hm Hh). pose proof (valid_frame_len pkt Hv) as (_ & Hl & _).
  assert (Hr : tespkt_is_trace pkt = false)
    by (unfold tespkt_is_trace; by rewrite (is_mca_not_event pkt Hm)).
  unfold tespkt_event_nums. rewrite Hr, true_esize_eq in *.
  rewrite (proj2 (Z.eqb_neq _ _)) by done. fold (payload_len pkt). do 2 f_equal.
  assert (0 < to_u16 (8 * tespkt_esize pkt)) by (pose proof (to_u16_range (8 * tespkt_esize pkt)); unfold is_u16 in *; lia).
  rewrite Z.quot_div_nonneg by lia. apply to_u16_id. unfold is_u16.
  pose proof (Z.div_le_upper_bound (payload_len pkt) (to_u16 (8 * tespkt_esize pkt)) (payload_len pkt)).
  pose proof (Z.div_pos (payload_len pkt) (to_u16 (8 * tespkt_esize pkt))). nia.
Qed.

Definition report (l : list seen) : s_data_t :=
  set_events (promised l) (events (promised l) + spurious l).

(** One frame is in one class. *)
Lemma report_one s : (s_err s = 0 -> valid_frame (s_pkt s)) -> (s_err s = 0 -> countable (s_pkt s)) ->
  tally [s] = report [s].
Proof.
  intros Hv Hc. unfold report, promised, spurious, tally, count, number, in_frames, good_and.
  cbn [List.filter List.map received missed bad ticks mcas traces events set_events length].
  unfold kind_of, good. assert (He : c_true (s_err s) = false -> s_err s = 0)
    by (unfold c_true; intros E; by bool_hyps).
  destruct (c_true (s_err s)); [done|]. specialize (Hv (He eq_refl)). specialize (Hc (He eq_refl)).
  clear He. cbn [negb andb].
  destruct (tespkt_is_tick (s_pkt s)) eqn:Hk.
  { pose proof (is_tick_event _ Hk) as Hev. pose proof (is_event_not_mca _ Hev) as Hm.
    pose proof (is_tick_not_trace _ Hk) as Hr. unfold mca_header, starts_trace, plain_events, mca_cont.
    by rewrite Hm, Hr, Hk, Hev. }
  destruct (tespkt_is_mca (s_pkt s)) eqn:Hm.
  { pose proof (is_mca_not_event _ Hm) as Hev.
    assert (Hr : tespkt_is_trace (s_pkt s) = false) by (unfold tespkt_is_trace; by rewrite Hev).
    assert (Hl : tespkt_is_trace_dp (s_pkt s) = false) by (unfold tespkt_is_trace_dp; by rewrite Hev).
    pose proof (mca_cont_nums (s_pkt s) Hv) as Hn.
    unfold mca_header, starts_trace, plain_events, tespkt_is_trace_long.
    unfold mca_cont in *. unfold events_of. rewrite Hm, Hr, Hl, Hev in *.
    destruct (tespkt_is_header (s_pkt s)); [done|].
    cbn [andb orb negb]. rewrite (bool_decide_eq_true_2 (KEvents = KEvents)) by done.
    cbn [List.map]. rewrite (Hn eq_refl Hc). unfold sum_Z. cbn. f_equal; lia. }
  assert (Hev : tespkt_is_event (s_pkt s) = true) by (destruct Hv as [_ [[]|[]]]; congruence).
  unfold mca_header, mca_cont. rewrite Hm. cbn [andb].
  assert (Et : starts_trace (s_pkt s) = (tespkt_is_trace_long (s_pkt s) && tespkt_is_header (s_pkt s))
    || tespkt_is_trace_dp (s_pkt s)).
  { unfold starts_trace, tespkt_is_trace_long, tespkt_is_trace_dp, tespkt_is_trace.
    destruct (_ =? TESPKT_TYPE_TRACE), (_ =? 0), (_ =? TESPKT_TRACE_TYPE_DP), (tespkt_is_header _);
      rewrite Hev; done. }
  rewrite <- Et. destruct (tespkt_is_trace (s_pkt s)) eqn:Hr.
  - pose proof (trace_event_nums _ Hr) as Hn. unfold plain_events. rewrite Hr, Hev, Hk. cbn [negb andb].
    destruct (starts_trace (s_pkt s)) eqn:Hs; [done|]. unfold events_of.
    cbn [andb orb negb]. rewrite (bool_decide_eq_true_2 (KEvents = KEvents)) by done.
    cbn [List.map]. rewrite Hn.
    unfold starts_trace in Hs. rewrite Hr in Hs. cbn [andb] in Hs.
    rewrite orb_comm in Hs. by rewrite Hs.
  - assert (Hs : starts_trace (s_pkt s) = false) by (unfold starts_trace; by rewrite Hr).
    assert (Hp : plain_events (s_pkt s) = true) by (unfold plain_events; by rewrite Hev, Hk, Hr).
    rewrite Hs, Hp. unfold events_of.
    cbn [andb orb negb]. rewrite (bool_decide_eq_true_2 (KEvents = KEvents)) by done.
    cbn [List.map]. rewrite (plain_event_nums _ Hv Hp). unfold sum_Z. cbn.
    f_equal; lia.
Qed.

Lemma tally_report l : Forall (fun s => s_err s = 0 -> valid_frame (s_pkt s)) l ->
  Forall (fun s => s_err s = 0 -> countable (s_pkt s)) l -> tally l = report l.
Proof.
  induction l as [|s l IH]; intros Hv Hc; [done|].
  apply Forall_cons_1 in Hv as [Hv Hvl]. apply Forall_cons_1 in Hc as [Hc Hcl].
  rewrite tally_app, (report_one s Hv Hc), (IH Hvl Hcl). unfold report.
  destruct (promised_cons s l) as [-> ->]. unfold set_events.
  cbn [received missed bad ticks mcas traces events]. f_equal. lia.
Qed.

#[export] Instance laws : TaskLaws data_ok countable.
Proof.
  split.
  - intros t pkt flen missed err HI HA [_ _ Hv] _.
    change (pkt_handler t pkt flen missed err) with (task_info_pkt_hn t pkt flen missed err).
    assert (Hv' : err = 0 -> valid_frame pkt) by (intros E; by apply Hv).
    pose proof (pkt_hn_adds t {| s_pkt := pkt; s_missed := missed; s_err := err |} flen HI Hv' (fun _ => HA)) as E.
    cbn [s_pkt s_missed s_err] in E. rewrite E. simpl. split; [by left|]. split; [apply add_data_ok|apply same_frame_data].
  - intros t HI. simpl. eauto with tes.
  - intros t HI. simpl. eauto with tes.
Qed.
End Counting.

(** ** Properties *)

(** One client, polled while the task is not active. *)
Definition endp : task_endp :=
  {| ep_handler := true; ep_type := ZMQ_REP; ep_nsubs := 0; ep_automute := true;
     ep_autosleep := false |}.

Definition idle_task (hs : list Z) : task s_data_t :=
  Task [endp] hs 0 0 0 false false false false zero_data [].

(** The counters come back as [ZNum]s. *)
Definition reply_of (d : s_data_t) : action :=
  ZsockSend 0 TES_INFO_REP_PIC
    [ZNum TES_INFO_REQ_OK; ZNum (received d); ZNum (missed d); ZNum (bad d);
     ZNum (ticks d); ZNum (mcas d); ZNum (traces d); ZNum (events d)].
End Info.

#[local] Existing Instances Info.impl Info.laws.

(** C38: over any sequence of packets, each free of error flags only if valid, the
    handler adds to its counters, modulo 2^64, what the reply is documented to
    have: the packets, the frames missed, the bad frames, the ticks, the headers
    of histograms, the traces that begin (dot products among them), and the
    events in the event frames that are neither ticks nor traces, which are the
    payload divided by the event size.  The one exception is the frames of
    histograms that are not headers: to the events it adds their payload divided
    by their event size, which is not defined for them, and at the first of them
    where this is 0 in 16 bits the division stops the server.  Nothing else
    stops it. *)
Theorem info_counts_correct (l : list Info.seen) (t : task Info.s_data_t) :
  Info.data_ok (data t) ->
  Forall (fun s => Info.s_err s = 0 -> valid_frame (Info.s_pkt s)) l ->
  (Forall (fun s => Info.divides s = false) l ->
   Info.run_pkts l t = Done (0, set_data t (Info.add_data (data t)
     (Info.set_events (Info.promised l)
       (Info.events (Info.promised l) + Info.spurious l))))) /\
  (forall l1 s l2, l = l1 ++ s :: l2 -> Forall (fun s => Info.divides s = false) l1 ->
   Info.divides s = true -> Info.run_pkts l t = Failed DivByZero).
Proof.
  intros Hd Hv.
  assert (Hc : forall l, Forall (fun s => Info.divides s = false) l ->
    Forall (fun s => Info.s_err s = 0 -> Info.countable (Info.s_pkt s)) l).
  { intros l0 Hl. apply Forall_forall. rewrite Forall_forall in Hl. intros s Hs.
    by apply Info.divides_countable, Hl. }
  split.
  - intros Hl. rewrite (Info.run_pkts_good l t Hd Hv (Hc l Hl)).
    by rewrite (Info.tally_report l Hv (Hc l Hl)).
  - intros l1 s l2 -> Hl Hs. apply Forall_app in Hv as [Hv _].
    rewrite Info.run_pkts_app, (Info.run_pkts_good l1 t Hd Hv (Hc l1 Hl)).
    cbn [mbind exec_bind c_true Z.eqb negb Info.run_pkts].
    by rewrite Info.divides_fails.
Qed.

Definition info_sample : list Info.seen :=
  [{| Info.s_pkt := sample_tick 1 0; Info.s_missed := 0; Info.s_err := 0 |};
   {| Info.s_pkt := sample_peak 4 0 0; Info.s_missed := 2; Info.s_err := 0 |};
   {| Info.s_pkt := sample_pulse 5 3; Info.s_missed := 0; Info.s_err := 0 |};
   {| Info.s_pkt := sample_mca_hdr 6 99 50; Info.s_missed := 0; Info.s_err := 0 |};
   {| Info.s_pkt := zeros 64; Info.s_missed := 0; Info.s_err := 1 |}].

Lemma info_sample_ok :
  Forall (fun s => (Info.s_err s = 0 -> valid_frame (Info.s_pkt s)) /\
                   Info.countable (Info.s_pkt s)) info_sample.
Proof.
  repeat (apply Forall_cons_2; [split; [simpl; intros E; try discriminate E;
    apply valid_iff; vm_compute; reflexivity|intros E; vm_compute in E |- *; discriminate]|]).
  apply Forall_nil_2.
Qed.

Lemma zero_data_ok : Info.data_ok Info.zero_data.
Proof. split; unfold is_u64; simpl; lia. Qed.

Lemma info_counts_correct_witness :
  Info.run_pkts info_sample (Info.idle_task [0; 0; 0; 0]) =
    Done (0, set_data (Info.idle_task [0; 0; 0; 0])
      {| Info.received := 5; Info.missed := 2; Info.bad := 1; Info.ticks := 1;
         Info.mcas := 1; Info.traces := 0; Info.events := 4 |}) /\
  Info.run_pkts (info_sample ++ [{| Info.s_pkt := sample_mca_cont 7 1 20; Info.s_missed := 0;
    Info.s_err := 0 |}]) (Info.idle_task [0; 0; 0; 0]) = Failed DivByZero.
Proof.
  assert (Hv : Forall (fun s => Info.s_err s = 0 -> valid_frame (Info.s_pkt s)) info_sample).
  { apply Forall_forall. intros s Hs.
    exact (proj1 (proj1 (Forall_forall _ _) info_sample_ok s Hs)). }
  assert (Hd : Forall (fun s => Info.divides s = false) info_sample).
  { repeat (apply Forall_cons_2; [vm_compute; reflexivity|]). apply Forall_nil_2. }
  split.
  - destruct (info_counts_correct info_sample (Info.idle_task [0; 0; 0; 0])) as [E _].
    + apply zero_data_ok.
    + exact Hv.
    + rewrite (E Hd). vm_compute. reflexivity.
  - eapply (proj2 (info_counts_correct _ (Info.idle_task [0; 0; 0; 0]) zero_data_ok _)).
    + reflexivity.
    + exact Hd.
    + vm_compute. reflexivity.
  Unshelve. apply Forall_app. split; [exact Hv|]. apply Forall_singleton. intros _.
    apply valid_iff. vm_compute. reflexivity.
Defined.

(** An idle task that accepts a request activates itself and asks for one
    timer of 1000 * timeout milliseconds (a uint32_t product: the delay is what
    was asked for only up to 4294967 seconds); when the timer fires, whatever
    packets came in between, it is deactivated, its client is polled again and
    is sent the counters of exactly those packets, and the counters are zeroed
    for the next request. *)
Theorem info_request_cycle `{ZEnv} `{!ZEnvReader} ifd timeout l (t : task Info.s_data_t) :
  heads_ok ifd t -> frontends t = [Info.endp] -> data t = Info.zero_data ->
  is_u32 timeout -> timeout <> 0 ->
  zloop_timer_rc (log t) (to_u32 (1000 * timeout)) <> -1 ->
  Forall (fun s => (Info.s_err s = 0 -> valid_frame (Info.s_pkt s)) /\
                   Info.countable (Info.s_pkt s)) l ->
  exists t1 t2 t3, Info.task_info_req_hn ifd timeout t = Done (0, t1) /\
    active t1 = true /\
    log t1 = log t ++ [ZloopTimer (to_u32 (1000 * timeout)); ZloopReaderEnd 0] /\
    (to_u32 (1000 * timeout) = 1000 * timeout <-> timeout <= 4294967) /\
    Info.run_pkts l t1 = Done (0, t2) /\
    Info.s_timeout_hn t2 = Done (0, t3) /\
    active t3 = false /\ data t3 = Info.zero_data /\
    log t3 = log t1 ++
      [ZloopReader 0; Info.reply_of (Info.add_data Info.zero_data (Info.tally l))].
Proof.
  intros Hh Hf Hd Hu Hz Ht Hl. unfold Info.task_info_req_hn.
  rewrite (proj2 (Z.eqb_neq _ _) Hz), (proj2 (Z.eqb_neq _ _) Ht).
  set (t0 := emit t _).
  assert (Hd0 : Info.data_ok (data t0)) by (simpl; rewrite Hd; apply zero_data_ok).
  destruct (proj1 (wp_Done _ _) (task_activate_ok Info.data_ok Info.countable ifd t0 Hd0
    (heads_ok_heads ifd t t0 eq_refl Hh)))
    as ([rc t1] & E1 & -> & Hd1 & Hh1 & Ha1 & _ & Hf1 & _ & _ & _ & (x & [= <-] & Ed1 & El1)).
  set (t2 := set_data t1 (Info.add_data (data t1) (Info.tally l))).
  destruct (task_deactivate_done Info.data_ok Info.countable t2 (Info.add_data_ok _ _))
    as (y & t3 & [= <-] & E3 & _ & Ha3 & Ed3 & El3).
  { unfold frontends_ok. simpl. rewrite Hf1. simpl. rewrite Hf. repeat constructor. }
  simpl in *. rewrite Hf in *. rewrite Hd in Ed1.
  eexists t1, t2, _. rewrite E1. split; [done|]. split; [done|].
  split; [rewrite El1; simpl; by rewrite <- app_assoc|].
  split; [unfold is_u32, to_u32 in *; split; intros; [|apply Z.mod_small; lia];
          pose proof (Z.mod_pos_bound (1000 * timeout) (2 ^ 32)); lia|].
  split; [by apply Info.run_pkts_adds|].
  split; [unfold Info.s_timeout_hn; by rewrite E3|]. simpl.
  do 2 (split; [done|]). rewrite El3, Ed3, Ed1, Hf1. simpl. by rewrite <- app_assoc.
Qed.

Lemma info_request_cycle_witness :
  exists t1 t2 t3,
    Info.task_info_req_hn (H := Recorder.env) Recorder.ifd 3 (Info.idle_task [6; 0; 0; 3])
      = Done (0, t1) /\ Info.run_pkts info_sample t1 = Done (0, t2) /\
    Info.s_timeout_hn (H := Recorder.env) t2 = Done (0, t3) /\ active t3 = false.
Proof.
  destruct (info_request_cycle (H := Recorder.env) (H0 := Recorder.env_reader)
    Recorder.ifd 3 info_sample (Info.idle_task [6; 0; 0; 3]))
    as (t1 & t2 & t3 & E1 & _ & _ & _ & E2 & E3 & Ha & _).
  - apply (heads_ok_heads Recorder.ifd (Recorder.task_of [6; 0; 0; 3] 0 false false 0)).
    + reflexivity.
    + apply Recorder.ifd_heads_ok.
  - reflexivity.
  - reflexivity.
  - unfold is_u32. lia.
  - discriminate.
  - discriminate.
  - apply info_sample_ok.
  - exists t1, t2, t3. split; [exact E1|]. split; [exact E2|]. split; [exact E3|exact Ha].
Defined.

(** The divisor is not checked: a valid continuation frame of a histogram
    whose event size is 0 is counted as an event frame and stops the server
    with an integer division by zero. *)
Theorem info_mca_cont_div_by_zero (t : task Info.s_data_t) pkt flen missed :
  valid_frame pkt -> tespkt_is_mca pkt = true -> tespkt_is_header pkt = false ->
  tespkt_esize pkt = 0 ->
  Info.task_info_pkt_hn t pkt flen missed 0 = Failed DivByZero.
Proof.
  intros Hv Hm Hh He. pose proof (is_mca_not_event pkt Hm) as Hn.
  assert (Hr : tespkt_is_trace pkt = false).
  { destruct (tespkt_is_trace pkt) eqn:E; [|done]. apply is_trace_event in E. congruence. }
  assert (Hk : tespkt_is_tick pkt = false).
  { destruct (tespkt_is_tick pkt) eqn:E; [|done]. apply is_tick_event in E. congruence. }
  assert (Hl : tespkt_is_trace_dp pkt = false).
  { unfold tespkt_is_trace_dp. by rewrite Hn. }
  unfold Info.task_info_pkt_hn. rewrite Hm, Hh, Hk, Hl, !andb_false_r.
  assert (Hn0 : tespkt_event_nums pkt = Failed DivByZero).
  { unfold tespkt_event_nums, tespkt_true_esize. rewrite Hr.
    change (ftohs _) with (tespkt_esize pkt). by rewrite He. }
  cbn -[tespkt_event_nums]. by rewrite Hn0.
Qed.

Lemma info_mca_cont_div_by_zero_witness :
  Info.task_info_pkt_hn (Info.idle_task [0; 0; 0; 0]) (sample_mca_cont 9 1 20) 104 0 0
    = Failed DivByZero.
Proof.
  apply info_mca_cont_div_by_zero.
  - apply valid_iff. vm_compute. reflexivity.
  - vm_compute. reflexivity.
  - vm_compute. reflexivity.
  - vm_compute. reflexivity.
Defined.

(** The reply to a malformed request carries five counters where the
    reply's picture, the one clients read it with, has seven. *)
Theorem info_einv_reply_short `{ZEnv} ifd (t : task Info.s_data_t) :
  exists args, Info.task_info_req_hn ifd 0 t =
      Done (0, emit t (ZsockSend 0 TES_INFO_REP_PIC args)) /\
    length args = 6%nat /\ String.length TES_INFO_REP_PIC = 8%nat.
Proof. eexists. split; [reflexivity|split; reflexivity]. Qed.
