(* ===== verification/TaskHist.v ===== *)
(** * The histogram task (src/bin/tesd_task_hist.c)

    MCA frames are collected in a buffer and published as one message when the
    last bin is in.  The abstract specification is a collector that keeps the
    bytes of the current histogram or nothing. *)

From Stdlib Require Import ZArith Lia Strings.String Strings.Byte.
From stdpp Require Import base option list numbers decidable.
From S2P Require Import Prelude Tespkt Tesif Task TaskTheory.

Open Scope Z_scope.

Module Hist.

Record s_data_t : Type := {
  nbins : Z;
  cur_nbins : Z;
  size : Z;
  cur_size : Z;
  discard : bool;
  buf : bytes;
}.

Definition s_clear (hist : s_data_t) : s_data_t :=
  {| nbins := 0; cur_nbins := 0; size := 0; cur_size := 0; discard := false;
     buf := buf hist |}.

Definition set_discard (hist : s_data_t) (b : bool) : s_data_t :=
  {| nbins := nbins hist; cur_nbins := cur_nbins hist; size := size hist;
     cur_size := cur_size hist; discard := b; buf := buf hist |}.

Section Handlers.
Context `{ZEnv}.
Implicit Types t : task s_data_t.

(** The [else] branch: a header frame starts a histogram. *)
Definition start_hist (pkt : tespkt) (hist : s_data_t) : exec s_data_t :=
  let hist := if 0 <? cur_nbins hist then set_discard hist true else hist in
  let hist := if discard hist then s_clear hist else hist in
  dbg_assert (nbins hist =? 0);;
  dbg_assert (size hist =? 0);;
  dbg_assert (cur_nbins hist =? 0);;
  dbg_assert (cur_size hist =? 0);;
  dbg_assert (negb (discard hist));;
  mret {| nbins := tespkt_mca_nbins_tot pkt; cur_nbins := cur_nbins hist;
          size := tespkt_mca_size pkt; cur_size := cur_size hist;
          discard := discard hist; buf := buf hist |}.

(** From the second [dbg_assert (! hist->discard)] on. *)
Definition add_frame t (pkt : tespkt) (flen : Z) (hist : s_data_t) : exec (Z * task s_data_t) :=
  dbg_assert (negb (discard hist));;
  let cur := to_u16 (cur_nbins hist + tespkt_mca_nbins pkt) in
  let hist := {| nbins := nbins hist; cur_nbins := cur; size := size hist;
                 cur_size := cur_size hist; discard := discard hist; buf := buf hist |} in
  if nbins hist <? cur_nbins hist then mret (0, set_data t (set_discard hist true))
  else
    let paylen := to_u16 (flen - TESPKT_HDR_LEN) in
    dbg_assert (cur_size hist <=? to_u32 (TES_HIST_MAXSIZE - paylen));;
    src ← mem_read pkt TESPKT_HDR_LEN paylen;
    b ← memcpy (buf hist) (cur_size hist) src;
    let hist := {| nbins := nbins hist; cur_nbins := cur_nbins hist; size := size hist;
                   cur_size := to_u32 (cur_size hist + paylen);
                   discard := discard hist; buf := b |} in
    if cur_nbins hist =? nbins hist then
      dbg_assert (cur_size hist =? size hist);;
      msg ← mem_read (buf hist) 0 (cur_size hist);
      let rc := zmq_send_rc (log t) 0%nat msg in
      let t := emit (set_data t hist) (ZmqSend 0 msg) in
      if rc =? -1 then mret (TASK_ERROR, t)
      else mret (0, set_data t (s_clear hist))
    else
      dbg_assert (cur_size hist <? size hist);;
      mret (0, set_data t hist).

Definition task_hist_pkt_hn t (pkt : tespkt) (flen missed err : Z) : exec (Z * task s_data_t) :=
  if c_true err then mret (0, t)
  else if negb (tespkt_is_mca pkt) then mret (0, t)
  else
    let hist := data t in
    if negb (tespkt_is_header pkt) then
      if discard hist then mret (0, t)
      else if negb (to_u16 (tespkt_pseq pkt - prev_pseq_mca t) =? 1)
      then mret (0, set_data t (set_discard hist true))
      else add_frame t pkt flen hist
    else hist ← start_hist pkt hist; add_frame t pkt flen hist.

(** [static struct s_data_t hist], with [discard] set. *)
Definition init_data : s_data_t :=
  {| nbins := 0; cur_nbins := 0; size := 0; cur_size := 0; discard := true;
     buf := replicate (Z.to_nat TES_HIST_MAXSIZE) x00 |}.
Definition task_hist_init t : Z * task s_data_t := (0, set_data t init_data).

Definition task_hist_wakeup t : exec (Z * task s_data_t) :=
  mret (0, set_data t (set_discard (s_clear (data t)) true)).

#[export] Instance impl : TaskImpl s_data_t :=
  {| pkt_handler := task_hist_pkt_hn; data_wakeup := Some task_hist_wakeup;
     data_sleep := None |}.
End Handlers.

(** ** Specification *)

(** The collector: the number of bins and the bytes of the histogram being
    received, [None] between histograms. *)
Definition state : Type := option (Z * bytes).

(** Take the bytes [b] of a histogram of [n] bins: the new state and the
    message published. *)
Definition collect (n : Z) (b : bytes) : state * option bytes :=
  let total := 4 * n + TESPKT_MCA_HDR_LEN in
  if total <? Z.of_nat (length b) then (None, None)
  else if Z.of_nat (length b) =? total then (None, Some b)
  else (Some (n, b), None).

(** One valid MCA frame; [in_seq] tells that it follows the previous one. *)
Definition spec_step (st : state) (pkt : tespkt) (in_seq : bool) : state * option bytes :=
  if tespkt_is_header pkt
  then if payload_len pkt <? TESPKT_MCA_HDR_LEN then (None, None)
       else collect (tespkt_mca_nbins_tot pkt) (payload pkt)
  else match st with
       | Some (n, b) => if in_seq then collect n (b ++ payload pkt) else (None, None)
       | None => (None, None)
       end.

(** What the task assumes of the frames it is sent: a header frame carries a
    bin and its histogram fits the buffer. *)
Definition fits (pkt : tespkt) : Prop :=
  tespkt_is_mca pkt = true -> tespkt_is_header pkt = true ->
  tespkt_mca_nbins_tot pkt <= 16384 /\ payload_len pkt <> TESPKT_MCA_HDR_LEN.

(** The collector's state of a task's data. *)
Definition abs (h : s_data_t) : state :=
  if discard h || (cur_nbins h =? nbins h) then None
  else Some (nbins h, take (Z.to_nat (cur_size h)) (buf h)).

Record data_ok (h : s_data_t) : Prop := {
  ok_buf : Z.of_nat (length (buf h)) = TES_HIST_MAXSIZE;
  ok_state : discard h = true
    \/ (nbins h = 0 /\ cur_nbins h = 0 /\ size h = 0 /\ cur_size h = 0)
    \/ (0 < cur_nbins h <= nbins h /\ nbins h <= 16384 /\
        size h = 4 * nbins h + 40 /\ cur_size h = 4 * cur_nbins h + 40);
}.

Section Refinement.
Context `{ZEnv}.
Implicit Types t : task s_data_t.

(** What [add_frame] does to a histogram it is about to extend: [n0] bins
    are in. *)
Definition ready (h : s_data_t) : Prop :=
  discard h = false /\ 0 <= cur_nbins h <= nbins h /\ nbins h <= 16384 /\
  size h = 4 * nbins h + 40 /\ Z.of_nat (length (buf h)) = TES_HIST_MAXSIZE /\
  0 <= cur_size h <= 4 * nbins h + 40.

(** The outcome of a handler for the spec's result: new state and message. *)
Definition outcome t (r : state * option bytes) (x : Z * task s_data_t) : Prop :=
  let '(rc, t') := x in
  data_ok (data t') /\ same_frame t t' /\
  match r.2 with
  | None => rc = 0 /\ log t' = log t /\ abs (data t') = r.1
  | Some msg => log t' = log t ++ [ZmqSend 0 msg] /\ abs (data t') = r.1 /\
      rc = (if zmq_send_rc (log t) 0%nat msg =? -1 then TASK_ERROR else 0)
  end.

Lemma outcome_discard t h :
  Z.of_nat (length (buf h)) = TES_HIST_MAXSIZE ->
  outcome t (None, None) (0, set_data t (set_discard h true)).
Proof.
  intros Hb. split; [|split; [apply same_frame_data|by simpl]].
  split; [done|by left].
Qed.

Lemma outcome_publish t h msg :
  Z.of_nat (length (buf h)) = TES_HIST_MAXSIZE -> discard h = false ->
  0 < cur_nbins h -> cur_nbins h = nbins h -> nbins h <= 16384 ->
  size h = 4 * nbins h + 40 -> cur_size h = 4 * cur_nbins h + 40 ->
  wp (if zmq_send_rc (log t) 0%nat msg =? -1
      then mret (TASK_ERROR, emit (set_data t h) (ZmqSend 0 msg))
      else mret (0, set_data (emit (set_data t h) (ZmqSend 0 msg)) (s_clear h)))
    (outcome t (None, Some msg)).
Proof.
  intros Hb Hd Hpos He Hn Hs Hc. unfold outcome. simpl.
  destruct (zmq_send_rc _ _ _ =? -1); simpl;
    (split; [split; [done|right]|split; [split; simpl; eauto|]]).
  - right. lia.
  - split; [done|]. split; [|done]. unfold abs. by rewrite He, Z.eqb_refl, orb_true_r.
  - left. done.
  - done.
Qed.

Lemma outcome_more t h n b :
  Z.of_nat (length (buf h)) = TES_HIST_MAXSIZE -> discard h = false ->
  0 < cur_nbins h < nbins h -> nbins h <= 16384 ->
  size h = 4 * nbins h + 40 -> cur_size h = 4 * cur_nbins h + 40 ->
  n = nbins h -> take (Z.to_nat (cur_size h)) (buf h) = b ->
  outcome t (Some (n, b), None) (0, set_data t h).
Proof.
  intros Hb Hd Hpos Hn Hs Hc -> <-.
  split; [split; [done|right; right; simpl; lia]|]. split; [apply same_frame_data|].
  simpl. do 2 (split; [done|]). unfold abs.
  by rewrite Hd, (proj2 (Z.eqb_neq (cur_nbins h) _)) by lia.
Qed.

Lemma add_frame_collects t pkt flen h n :
  ready h -> frame_args pkt flen 0 ->
  n = tespkt_mca_nbins pkt -> 0 < n -> n + cur_nbins h < 2 ^ 16 ->
  cur_size h + payload_len pkt = 4 * (cur_nbins h + n) + 40 ->
  wp (add_frame t pkt flen h)
    (outcome t (collect (nbins h) (take (Z.to_nat (cur_size h)) (buf h) ++ payload pkt))).
Proof.
  intros (Hd & Hc & Hn & Hs & Hb & Hcs) Ha -> Hpos Hu Hsz.
  pose proof (length_payload pkt flen 0 Ha eq_refl) as Hp.
  destruct Ha as [Hf1 Hf2 Hf3]. destruct (Hf3 eq_refl) as [Hv ->].
  pose proof (valid_frame_len pkt Hv) as (_ & Hl & _).
  unfold TES_HIST_MAXSIZE, TESPKT_MTU, TESPKT_HDR_LEN in *.
  assert (Hlen : Z.of_nat (length (take (Z.to_nat (cur_size h)) (buf h) ++ payload pkt))
    = 4 * (cur_nbins h + tespkt_mca_nbins pkt) + 40)
    by (rewrite length_app, length_take; lia).
  unfold add_frame, collect. rewrite Hd, Hlen. apply wp_dbg_assert_bind; [done|].
  cbn [nbins cur_nbins size cur_size buf discard].
  rewrite (to_u16_id (cur_nbins h + _)) by (unfold is_u16; lia).
  change TESPKT_MCA_HDR_LEN with 40. change TES_HIST_MAXSIZE with 65576.
  destruct (Z.ltb_spec (nbins h) (cur_nbins h + tespkt_mca_nbins pkt)) as [Hx|Hx].
  { rewrite (proj2 (Z.ltb_lt _ _)) by lia. by apply outcome_discard. }
  rewrite (proj2 (Z.ltb_ge (4 * nbins h + 40) _)) by lia.
  change (tespkt_flen pkt - TESPKT_HDR_LEN) with (payload_len pkt).
  unfold payload_len, TESPKT_HDR_LEN in *.
  rewrite to_u16_id by (unfold is_u16; lia).
  rewrite (to_u32_id (65576 - _)) by (unfold is_u32; lia).
  apply wp_dbg_assert_bind; [lia|].
  rewrite mem_read_Done by lia.
  change (take _ (drop _ pkt)) with (payload pkt). cbn [mbind exec_bind].
  rewrite memcpy_Done by lia. cbn [mbind exec_bind].
  rewrite (to_u32_id (cur_size h + _)) by (unfold is_u32; lia).
  cbn [nbins cur_nbins size cur_size buf discard].
  set (b := splice (buf h) (Z.to_nat (cur_size h)) (payload pkt)).
  assert (Hbl : length b = length (buf h)) by (apply length_splice; lia).
  assert (Hbt : take (Z.to_nat (cur_size h + (tespkt_flen pkt - 24))) b
    = take (Z.to_nat (cur_size h)) (buf h) ++ payload pkt).
  { unfold b. rewrite <- take_splice by lia. f_equal. lia. }
  destruct (Z.eqb_spec (cur_nbins h + tespkt_mca_nbins pkt) (nbins h)) as [He|He].
  - rewrite (proj2 (Z.eqb_eq _ (4 * nbins h + 40))) by lia.
    apply wp_dbg_assert_bind; [lia|].
    rewrite mem_read_Done by lia. cbn [mbind exec_bind]. rewrite drop_0, Hbt.
    apply outcome_publish; simpl; rewrite ?Hbl; try done; lia.
  - rewrite (proj2 (Z.eqb_neq _ (4 * nbins h + 40))) by lia.
    apply wp_dbg_assert_bind; [lia|].
    apply outcome_more; simpl; rewrite ?Hbl; try done; lia.
Qed.

(** A header frame shorter than the MCA header counts its bins as a negative
    number in 16 bits. *)
Lemma add_frame_short t pkt flen h :
  ready h -> cur_nbins h = 0 -> valid_frame pkt -> tespkt_is_header pkt = true ->
  payload_len pkt < TESPKT_MCA_HDR_LEN ->
  wp (add_frame t pkt flen h) (outcome t (None, None)).
Proof.
  intros (Hd & _ & Hn & _ & Hb & _) Hc Hv Hh Hlt.
  pose proof (valid_frame_len pkt Hv) as ([k Hk] & Hl & _).
  unfold add_frame. rewrite Hd. apply wp_dbg_assert_bind; [done|].
  cbn [nbins cur_nbins]. rewrite Hc. unfold tespkt_mca_nbins. rewrite Hh.
  change (tespkt_flen pkt - TESPKT_HDR_LEN) with (payload_len pkt).
  unfold TESPKT_MCA_HDR_LEN, TESPKT_MCA_BIN_LEN in *. rewrite Hk.
  replace (k * 8 - 40) with ((2 * k - 10) * 4) by lia. rewrite Z.quot_mul by lia.
  assert (E : to_u16 (2 * k - 10) = 2 * k - 10 + 2 ^ 16).
  { unfold to_u16. rewrite <- (Z.mod_add _ 1) by lia. rewrite Z.mod_small; lia. }
  rewrite E, Z.add_0_l, (to_u16_id (2 * k - 10 + 2 ^ 16)) by (unfold is_u16; lia).
  rewrite (proj2 (Z.ltb_lt _ _)) by lia. by apply outcome_discard.
Qed.

(** After a header frame the collector is ready, whatever it held. *)
Lemma start_hist_ready pkt h :
  data_ok h -> tespkt_mca_nbins_tot pkt <= 16384 ->
  exists h', start_hist pkt h = Done h' /\ ready h' /\ cur_nbins h' = 0 /\
    cur_size h' = 0 /\ nbins h' = tespkt_mca_nbins_tot pkt.
Proof.
  intros [Hb Hs] Hn. pose proof (tespkt_mca_nbins_tot_range pkt) as [H0 _].
  unfold start_hist. cbv zeta.
  set (h1 := if 0 <? cur_nbins h then set_discard h true else h).
  set (h2 := if discard h1 then s_clear h1 else h1).
  assert (G : (nbins h2 = 0 /\ size h2 = 0 /\ cur_nbins h2 = 0 /\ cur_size h2 = 0) /\
    discard h2 = false /\ buf h2 = buf h).
  { unfold h2, h1. destruct (Z.ltb_spec 0 (cur_nbins h)); [done|].
    destruct (discard h) eqn:Ed; [done|]. rewrite Ed.
    destruct Hs as [?|[?|?]]; [congruence|tauto|lia]. }
  destruct G as ((-> & -> & -> & ->) & -> & ->). eexists. split; [reflexivity|].
  unfold ready. simpl. rewrite tespkt_mca_size_eq. repeat split; lia.
Qed.

Lemma cont_bins pkt : valid_frame pkt -> tespkt_is_header pkt = false ->
  payload_len pkt = 4 * tespkt_mca_nbins pkt /\ 2 <= tespkt_mca_nbins pkt <= 368.
Proof.
  intros Hv Hh. pose proof (mca_nbins_cont pkt Hv Hh).
  pose proof (valid_frame_len pkt Hv) as (_ & ? & _). lia.
Qed.

(** More bins when none is missing. *)
Lemma add_frame_extra t pkt flen h :
  Z.of_nat (length (buf h)) = TES_HIST_MAXSIZE -> discard h = false ->
  0 <= cur_nbins h -> cur_nbins h = nbins h -> nbins h <= 16384 ->
  valid_frame pkt -> tespkt_is_header pkt = false ->
  wp (add_frame t pkt flen h) (outcome t (None, None)).
Proof.
  intros Hb Hd H0 He Hn Hv Hh. destruct (cont_bins pkt Hv Hh) as [_ Hk].
  unfold add_frame. rewrite Hd. apply wp_dbg_assert_bind; [done|].
  cbn [nbins cur_nbins]. rewrite to_u16_id by (unfold is_u16; lia).
  rewrite (proj2 (Z.ltb_lt _ _)) by lia. by apply outcome_discard.
Qed.

Lemma header_step t pkt flen h :
  data_ok h -> fits pkt -> frame_args pkt flen 0 -> tespkt_is_mca pkt = true ->
  tespkt_is_header pkt = true ->
  wp (hist ← start_hist pkt h; add_frame t pkt flen hist)
    (outcome t (if payload_len pkt <? TESPKT_MCA_HDR_LEN then (None, None)
                else collect (tespkt_mca_nbins_tot pkt) (payload pkt))).
Proof.
  intros Hok Hfit Ha Hm Hh. destruct (Hfit Hm Hh) as [Hn Hne].
  destruct (start_hist_ready pkt h Hok Hn) as (h' & -> & Hr & Hc & Hcs & Ht).
  cbn [mbind exec_bind]. destruct (fa_valid _ _ _ Ha eq_refl) as [Hv _].
  destruct (Z.ltb_spec (payload_len pkt) TESPKT_MCA_HDR_LEN) as [Hs|Hs].
  { by apply add_frame_short. }
  pose proof (mca_nbins_hdr pkt Hv Hh Hs) as Hp.
  pose proof (valid_frame_len pkt Hv) as (_ & ? & _).
  unfold TESPKT_MCA_HDR_LEN in *. rewrite <- Ht.
  replace (payload pkt) with (take (Z.to_nat (cur_size h')) (buf h') ++ payload pkt)
    by (by rewrite Hcs).
  apply add_frame_collects with (tespkt_mca_nbins pkt); try done; lia.
Qed.

Lemma hist_step t pkt flen missed :
  data_ok (data t) -> fits pkt -> frame_args pkt flen 0 -> tespkt_is_mca pkt = true ->
  wp (task_hist_pkt_hn t pkt flen missed 0)
    (outcome t (spec_step (abs (data t)) pkt
                  (to_u16 (tespkt_pseq pkt - prev_pseq_mca t) =? 1))).
Proof.
  intros Hok Hfit Ha Hm. unfold task_hist_pkt_hn, spec_step. rewrite Hm. simpl.
  destruct (tespkt_is_header pkt) eqn:Hh; simpl; [by apply header_step|].
  destruct (fa_valid _ _ _ Ha eq_refl) as [Hv _].
  destruct (cont_bins pkt Hv Hh) as [Hp Hk].
  unfold abs at 1. destruct (discard (data t)) eqn:Ed; simpl.
  { split; [done|]. split; [apply same_frame_refl|]. simpl. do 2 (split; [done|]).
    unfold abs. by rewrite Ed. }
  destruct Hok as [Hb [?|Hs]]; [congruence|].
  destruct (to_u16 _ =? 1); simpl.
  2:{ destruct (cur_nbins (data t) =? nbins (data t)); by apply outcome_discard. }
  destruct (Z.eqb_spec (cur_nbins (data t)) (nbins (data t))) as [He|He].
  { apply add_frame_extra; try done; lia. }
  destruct Hs as [?|(Hc & Hn & Hsz & Hcs)]; [lia|].
  apply add_frame_collects with (tespkt_mca_nbins pkt); try done; try lia.
  unfold ready. repeat split; try done; lia.
Qed.

#[export] Instance laws : TaskLaws data_ok fits.
Proof.
  split.
  - intros t pkt flen missed err HI HA Ha _.
    assert (Hskip : wp (mret (0, t)) (fun '(rc, t') =>
      rc_handler rc /\ data_ok (data t') /\ same_frame t t'))
      by (simpl; split; [by left|split; [done|apply same_frame_refl]]).
    unfold pkt_handler, impl. destruct (c_true err) eqn:Ee.
    { unfold task_hist_pkt_hn. by rewrite Ee. }
    destruct (tespkt_is_mca pkt) eqn:Em.
    2:{ unfold task_hist_pkt_hn. by rewrite Ee, Em. }
    assert (err = 0) as -> by (unfold c_true in Ee; by bool_hyps).
    eapply wp_mono; [by apply hist_step|]. intros [rc t'] (Hd & Hf & Hr).
    split; [|done]. destruct (_.2) as [msg|].
    + destruct Hr as (_ & _ & ->). case_if; [right; right; done|by left].
    + left. apply Hr.
  - intros t [Hb _]. simpl. split; [done|]. split; [|apply same_frame_data].
    split; [done|by left].
  - intros t HI. simpl. eauto with tes.
Qed.

(** A sequence of frames, with the bookkeeping of the dispatcher. *)
Fixpoint run_frames (l : list tespkt) t : exec (Z * task s_data_t) :=
  match l with
  | [] => mret (0, t)
  | pkt :: l =>
      '(rc, t) ← task_hist_pkt_hn t pkt (tespkt_flen pkt) 0 0;
      let t := update_seq pkt t in
      if c_true rc then mret (rc, t) else run_frames l t
  end.

(** The collector over a sequence of frames: final state and messages. *)
Fixpoint spec_run (st : state) (prev : Z) (l : list tespkt) : state * list bytes :=
  match l with
  | [] => (st, [])
  | pkt :: l =>
      let '(st, msg) := spec_step st pkt (to_u16 (tespkt_pseq pkt - prev) =? 1) in
      let '(st, msgs) := spec_run st (tespkt_pseq pkt) l in
      (st, match msg with Some m => m :: msgs | None => msgs end)
  end.

Definition good_frame (pkt : tespkt) : Prop :=
  valid_frame pkt /\ fits pkt /\ tespkt_is_mca pkt = true /\
  tespkt_flen pkt <= Z.of_nat (length pkt).

Lemma good_frame_args pkt : good_frame pkt -> frame_args pkt (tespkt_flen pkt) 0.
Proof. intros (? & _ & _ & ?). by apply valid_frame_args. Qed.

Lemma update_seq_mca pkt t :
  tespkt_is_mca pkt = true -> prev_pseq_mca (update_seq pkt t) = tespkt_pseq pkt.
Proof. intros E. unfold update_seq. by rewrite E. Qed.

Lemma run_frames_spec l t :
  (forall lg i b, zmq_send_rc lg i b <> -1) ->
  data_ok (data t) -> Forall good_frame l ->
  exists t', run_frames l t = Done (0, t') /\ data_ok (data t') /\
    abs (data t') = (spec_run (abs (data t)) (prev_pseq_mca t) l).1 /\
    log t' = log t ++ (ZmqSend 0 <$> (spec_run (abs (data t)) (prev_pseq_mca t) l).2).
Proof.
  intros Hz. revert t. induction l as [|pkt l IH]; intros t Hd Hl.
  { exists t. simpl. by rewrite app_nil_r. }
  apply Forall_cons_1 in Hl as [Hg Hl]. pose proof Hg as (_ & Hf & Hm & _). simpl.
  destruct (proj1 (wp_Done _ _) (hist_step t pkt (tespkt_flen pkt) 0 Hd Hf
    (good_frame_args pkt Hg) Hm)) as ([rc t1] & -> & Hd1 & Hs1 & Ho).
  destruct (spec_step _ pkt _) as [st msg]. cbn [fst snd] in Ho.
  destruct (update_seq_ctl pkt t1) as (_ & _ & Hdt).
  assert (Hrc : rc = 0 /\ log t1 = log t ++ (ZmqSend 0 <$> option_list msg) /\
    abs (data t1) = st).
  { destruct msg as [m|].
    - destruct Ho as (Hl1 & Ha & ->). rewrite (proj2 (Z.eqb_neq _ _)) by apply Hz. done.
    - destruct Ho as (-> & Hl1 & Ha). by rewrite app_nil_r. }
  destruct Hrc as (-> & Hl1 & Ha). cbn -[spec_run].
  destruct (IH (update_seq pkt t1)) as (t' & E & Hd' & Ha' & Hl'); [by rewrite Hdt|done|].
  rewrite Hdt, Ha, update_seq_mca in Ha', Hl' by done.
  exists t'. split; [done|]. split; [done|]. rewrite Ha', Hl', update_seq_log, Hl1.
  destruct (spec_run st (tespkt_pseq pkt) l) as [st' msgs]. split; [done|].
  destruct msg; simpl; by rewrite <- app_assoc.
Qed.

(** *** Frames that do not fit *)

(** A valid MCA frame, whatever its header says. *)
Definition mca_frame (pkt : tespkt) : Prop :=
  valid_frame pkt /\ tespkt_is_mca pkt = true /\ tespkt_flen pkt <= Z.of_nat (length pkt).

#[export] Instance fits_dec pkt : Decision (fits pkt).
Proof. unfold fits. apply _. Defined.

(** All that the bounds of the buffer need. *)
Record safe (h : s_data_t) : Prop := {
  sa_buf : Z.of_nat (length (buf h)) = TES_HIST_MAXSIZE;
  sa_size : discard h = false -> 0 <= cur_size h <= TES_HIST_MAXSIZE;
}.

Lemma data_ok_safe h : data_ok h -> safe h.
Proof.
  intros [Hb Hs]. split; [done|]. intros Hd. unfold TES_HIST_MAXSIZE.
  destruct Hs as [?|[?|?]]; [congruence|lia..].
Qed.

(** The handler returns 0 with safe data, or stops at an assertion. *)
Definition asserts (m : exec (Z * task s_data_t)) : Prop :=
  match m with Done (rc, t') => rc = 0 /\ safe (data t') | Failed f => f = AssertFail end.

Lemma asserts_dbg b (m : exec (Z * task s_data_t)) :
  (b = true -> asserts m) -> asserts (dbg_assert b;; m).
Proof. intros Hm. destruct b; [by apply Hm|done]. Qed.

Lemma safe_discard h b : safe h -> safe (set_discard h true) /\ (b = true -> safe (s_clear h)).
Proof. intros [Hb _]. by split; [|intros _]; split. Qed.

Lemma add_frame_safe t pkt h : (forall lg i b, zmq_send_rc lg i b <> -1) ->
  safe h -> mca_frame pkt -> asserts (add_frame t pkt (tespkt_flen pkt) h).
Proof.
  intros Hz [Hb Hc] (Hv & _ & Hl). pose proof (valid_frame_len pkt Hv) as (_ & Hp & _).
  unfold add_frame. apply asserts_dbg. intros Hd%negb_true_iff. specialize (Hc Hd).
  cbn [nbins cur_nbins size cur_size buf discard]. destruct (_ <? _); [by split|].
  change (tespkt_flen pkt - TESPKT_HDR_LEN) with (payload_len pkt).
  unfold payload_len, TESPKT_HDR_LEN, TES_HIST_MAXSIZE in *.
  rewrite (to_u16_id (tespkt_flen pkt - 24)), (to_u32_id (65576 - _))
    by (unfold is_u16, is_u32; lia).
  apply asserts_dbg. intros Hs%Z.leb_le. rewrite mem_read_Done by lia. cbn [mbind exec_bind].
  set (src := take _ _). assert (Hsrc : Z.of_nat (length src) = tespkt_flen pkt - 24)
    by (unfold src; rewrite length_take, length_drop; lia).
  rewrite memcpy_Done by lia. cbn [mbind exec_bind].
  cbn [nbins cur_nbins size cur_size buf discard]. rewrite to_u32_id by (unfold is_u32; lia).
  assert (Hbl : length (splice (buf h) (Z.to_nat (cur_size h)) src) = length (buf h))
    by (apply length_splice; lia).
  destruct (_ =? nbins h); apply asserts_dbg; intros _.
  - rewrite mem_read_Done by lia. cbn [mbind exec_bind].
    rewrite (proj2 (Z.eqb_neq _ _)) by apply Hz.
    split; [done|]. split; cbn; [by rewrite Hbl|done].
  - split; [done|]. split; cbn; [by rewrite Hbl|]. unfold TES_HIST_MAXSIZE. lia.
Qed.

Lemma start_hist_safe pkt h : safe h ->
  match start_hist pkt h with Done h' => safe h' | Failed f => f = AssertFail end.
Proof.
  intros [Hb Hc]. unfold start_hist. cbv zeta.
  set (h1 := if 0 <? cur_nbins h then _ else h). set (h2 := if discard h1 then _ else h1).
  assert (Hs2 : buf h2 = buf h) by (unfold h2, h1; by destruct (0 <? _), (discard _)).
  unfold dbg_assert. destruct (nbins h2 =? 0); [|done]. destruct (size h2 =? 0); [|done].
  destruct (cur_nbins h2 =? 0); [|done]. destruct (Z.eqb_spec (cur_size h2) 0) as [E|E]; [|done].
  destruct (negb (discard h2)); [|done]. split; cbn; [by rewrite Hs2|]. intros _.
  rewrite E. unfold TES_HIST_MAXSIZE. lia.
Qed.

Lemma hist_safe t pkt missed : (forall lg i b, zmq_send_rc lg i b <> -1) ->
  safe (data t) -> mca_frame pkt -> asserts (task_hist_pkt_hn t pkt (tespkt_flen pkt) missed 0).
Proof.
  intros Hz Hs Hm. unfold task_hist_pkt_hn. cbn [c_true Z.eqb negb].
  rewrite (proj1 (proj2 Hm)). cbn [negb]. destruct (tespkt_is_header pkt); cbn [negb].
  - pose proof (start_hist_safe pkt (data t) Hs) as Hh.
    destruct (start_hist pkt (data t)) as [h'|f]; [by apply add_frame_safe|exact Hh].
  - destruct (discard (data t)); [done|]. destruct (negb _); [|by apply add_frame_safe].
    split; [done|]. by apply (safe_discard (data t) true).
Qed.

Lemma run_frames_safe l : (forall lg i b, zmq_send_rc lg i b <> -1) -> Forall mca_frame l ->
  forall t, safe (data t) -> asserts (run_frames l t).
Proof.
  intros Hz. induction 1 as [|pkt l Hm Hl IH]; intros t Hs; cbn [run_frames]; [done|].
  pose proof (hist_safe t pkt 0 Hz Hs Hm) as Hp.
  destruct (task_hist_pkt_hn _ _ _ _ _) as [[rc t1]|f]; [|exact Hp]. destruct Hp as [-> Hs1].
  cbn [mbind exec_bind c_true Z.eqb negb]. apply IH.
  destruct (update_seq_ctl pkt t1) as (_ & _ & Hdt). by rewrite Hdt.
Qed.

Lemma run_frames_app l1 l2 t : run_frames (l1 ++ l2) t =
  '(rc, t) ← run_frames l1 t; if c_true rc then mret (rc, t) else run_frames l2 t.
Proof.
  revert t. induction l1 as [|pkt l IH]; intros t; cbn [app run_frames]; [done|].
  destruct (task_hist_pkt_hn _ _ _ _ _) as [[rc t1]|f]; [|done]. cbn [mbind exec_bind].
  destruct (c_true rc) eqn:E; [by cbn; rewrite E|]. apply IH.
Qed.

(** The frames up to the first one that does not fit, and the others. *)
Fixpoint fitting (l : list tespkt) : list tespkt * list tespkt :=
  match l with
  | [] => ([], [])
  | pkt :: l' => if decide (fits pkt) then (pkt :: (fitting l').1, (fitting l').2) else ([], l)
  end.

Lemma fitting_ok l : l = (fitting l).1 ++ (fitting l).2 /\ Forall fits (fitting l).1 /\
  (Forall fits l -> fitting l = (l, [])).
Proof.
  induction l as [|pkt l (El & Hf & Ha)]; cbn [fitting]; [done|].
  destruct (decide (fits pkt)) as [Hp|Hp]; cbn [fst snd].
  - split; [by rewrite El at 1|]. split; [by constructor|].
    intros Hl. apply Forall_cons_1 in Hl as [_ Hl]. by rewrite (Ha Hl).
  - split; [done|]. split; [done|]. by intros [? _]%Forall_cons_1.
Qed.

(** The frames that continue a histogram, in protocol sequence. *)
Fixpoint in_sequence (prev : Z) (fs : list tespkt) : Prop :=
  match fs with
  | [] => True
  | f :: fs => tespkt_is_header f = false /\ to_u16 (tespkt_pseq f - prev) = 1 /\
               in_sequence (tespkt_pseq f) fs
  end.

Lemma good_payload pkt : good_frame pkt -> Z.of_nat (length (payload pkt)) = payload_len pkt.
Proof. intros Hg. by apply (length_payload pkt (tespkt_flen pkt) 0 (good_frame_args pkt Hg)). Qed.

Lemma collect_partial n b fs :
  Forall good_frame fs -> fs <> [] ->
  Z.of_nat (length (b ++ concat (payload <$> fs))) = 4 * n + TESPKT_MCA_HDR_LEN ->
  collect n b = (Some (n, b), None).
Proof.
  intros Hg Hne Hl. destruct fs as [|f fs]; [done|].
  apply Forall_cons_1 in Hg as [Hg _]. pose proof (good_payload f Hg) as Hp.
  destruct Hg as (Hv & _). pose proof (valid_frame_len f Hv) as (_ & Hpl & _).
  revert Hl. simpl. rewrite !length_app. intros Hl. unfold collect.
  rewrite (proj2 (Z.ltb_ge _ _)), (proj2 (Z.eqb_neq _ _)) by lia. done.
Qed.

Lemma collect_full n b :
  Z.of_nat (length b) = 4 * n + TESPKT_MCA_HDR_LEN -> collect n b = (None, Some b).
Proof.
  intros E. unfold collect. by rewrite (proj2 (Z.ltb_ge _ _)), (proj2 (Z.eqb_eq _ _)) by lia.
Qed.

Lemma spec_run_conts n b prev fs :
  Forall good_frame fs -> fs <> [] -> in_sequence prev fs ->
  Z.of_nat (length (b ++ concat (payload <$> fs))) = 4 * n + TESPKT_MCA_HDR_LEN ->
  spec_run (Some (n, b)) prev fs = (None, [b ++ concat (payload <$> fs)]).
Proof.
  revert b prev. induction fs as [|f fs IH]; intros b prev Hg Hne Hs Hl; [done|].
  apply Forall_cons_1 in Hg as [Hg Hgs]. destruct Hs as (Hh & Hq & Hs).
  simpl in Hl |- *. unfold spec_step. rewrite Hh, Hq. simpl.
  rewrite app_assoc in Hl |- *. destruct (decide (fs = [])) as [->|Hn].
  - simpl in Hl |- *. rewrite app_nil_r in Hl |- *. by rewrite collect_full.
  - rewrite collect_partial with (fs := fs) by done. by rewrite IH.
Qed.

Lemma spec_run_full st prev f fs :
  Forall good_frame (f :: fs) -> tespkt_is_header f = true ->
  in_sequence (tespkt_pseq f) fs ->
  Z.of_nat (length (concat (payload <$> (f :: fs)))) = tespkt_mca_size f ->
  TESPKT_MCA_HDR_LEN <= payload_len f ->
  spec_run st prev (f :: fs) = (None, [concat (payload <$> (f :: fs))]).
Proof.
  intros Hg Hh Hs Hl Hp. apply Forall_cons_1 in Hg as [_ Hg].
  rewrite tespkt_mca_size_eq in Hl. simpl in Hl |- *. unfold spec_step.
  rewrite Hh, (proj2 (Z.ltb_ge _ _)) by lia.
  destruct (decide (fs = [])) as [->|Hn].
  - simpl in Hl |- *. rewrite app_nil_r in Hl |- *. by rewrite collect_full.
  - rewrite collect_partial with (fs := fs) by done. by rewrite spec_run_conts.
Qed.
End Refinement.
End Hist.

#[local] Existing Instances Hist.impl Hist.laws.

(** ** Properties *)

Definition hist_task : task Hist.s_data_t :=
  Task [] [0; 0; 0; 0] 0 7 0 false false false true Hist.init_data [].

(** C34: the histogram task refines the collector on any sequence of valid MCA
    frames, up to the first header that does not fit, that is which carries no
    bin at all, or announces more than 16384 bins: when sending works, no
    assertion fails until then, the messages sent are exactly the collector's, in
    order, and the task's state is the collector's.  From then on the task may
    only stop at an assertion, which hist_empty_header_aborts shows it do;
    on no sequence is a byte read or written outside the packet or the buffer. *)
Theorem hist_refines_collector `{ZEnv} (l : list tespkt) (t : task Hist.s_data_t) :
  (forall lg i b, zmq_send_rc lg i b <> -1) ->
  Hist.data_ok (data t) -> Forall Hist.mca_frame l ->
  let l1 := (Hist.fitting l).1 in let l2 := (Hist.fitting l).2 in
  exists t1, (Hist.run_frames l1 t = Done (0, t1) /\ Hist.data_ok (data t1) /\
     Hist.abs (data t1) = (Hist.spec_run (Hist.abs (data t)) (prev_pseq_mca t) l1).1 /\
     log t1 = log t ++
       (ZmqSend 0 <$> (Hist.spec_run (Hist.abs (data t)) (prev_pseq_mca t) l1).2)) /\
    Hist.run_frames l t = Hist.run_frames l2 t1 /\
    match Hist.run_frames l2 t1 with Done (rc, _) => rc = 0 | Failed f => f = AssertFail end.
Proof.
  intros Hz Hd Hl l1 l2. destruct (Hist.fitting_ok l) as (El & Hf & _).
  fold l1 l2 in El. fold l1 in Hf. rewrite El in Hl. apply Forall_app in Hl as [Hl1 Hl2].
  destruct (Hist.run_frames_spec l1 t Hz Hd) as (t1 & E & Hd1 & Ha & Hlog).
  { apply Forall_forall. intros pkt Hp. rewrite Forall_forall in Hl1, Hf.
    destruct (Hl1 pkt Hp) as (? & ? & ?). split; [done|]. split; [by apply Hf|done]. }
  exists t1. split; [done|]. split; [by rewrite El, Hist.run_frames_app, E|].
  pose proof (Hist.run_frames_safe l2 Hz Hl2 t1 (Hist.data_ok_safe _ Hd1)) as Hs.
  destruct (Hist.run_frames l2 t1) as [[rc t']|f]; [by destruct Hs|exact Hs].
Qed.

Definition hist_frames : list tespkt :=
  [sample_mca_cont 0 1 10; sample_mca_hdr 1 29 10; sample_mca_cont 2 1 10;
   sample_mca_cont 3 2 10].

Lemma hist_frames_good : Forall Hist.good_frame hist_frames.
Proof.
  repeat (apply Forall_cons_2; [split; [apply valid_iff; vm_compute; reflexivity|
    split; [intros _ E; vm_compute in E |- *; split; congruence|
    split; [vm_compute; reflexivity|vm_compute; congruence]]]|]).
  apply Forall_nil_2.
Qed.

Lemma hist_init_ok : Hist.data_ok Hist.init_data.
Proof. split; [vm_compute; reflexivity|left; reflexivity]. Qed.

(** The histogram of the three last frames, and then a header without bins. *)
Definition hist_frames_empty : list tespkt := hist_frames ++ [sample_mca_hdr 4 9 0].

Lemma hist_refines_collector_witness : exists t1,
  Hist.run_frames (H := Recorder.env) hist_frames hist_task = Done (0, t1) /\
  exists msg, log t1 = [ZmqSend 0 msg] /\ length msg = 160%nat.
Proof.
  destruct (hist_refines_collector (H := Recorder.env) hist_frames_empty hist_task)
    as (t1 & (E & _ & _ & Elog) & _).
  - discriminate.
  - apply hist_init_ok.
  - apply Forall_app. split.
    + apply Forall_forall. intros pkt Hp.
      destruct (proj1 (Forall_forall _ _) hist_frames_good pkt Hp) as (Hv & _ & Hm & Hlen).
      split; [exact Hv|split; [exact Hm|exact Hlen]].
    + apply Forall_singleton. split; [apply valid_iff; vm_compute; reflexivity|].
      split; [vm_compute; reflexivity|vm_compute; congruence].
  - exists t1. split; [exact E|]. rewrite Elog. eexists.
    split; [vm_compute; reflexivity|vm_compute; reflexivity].
Defined.

(** a histogram whose frames arrive complete and in protocol sequence is
    published once, when its last frame is in, as the concatenation of their
    payloads (as long as its header says), whatever was collected before. *)
Theorem hist_complete_published `{ZEnv} f fs (t : task Hist.s_data_t) :
  (forall lg i b, zmq_send_rc lg i b <> -1) ->
  Hist.data_ok (data t) -> Forall Hist.good_frame (f :: fs) ->
  tespkt_is_header f = true -> TESPKT_MCA_HDR_LEN <= payload_len f ->
  Hist.in_sequence (tespkt_pseq f) fs ->
  Z.of_nat (length (concat (payload <$> (f :: fs)))) = tespkt_mca_size f ->
  exists t', Hist.run_frames (f :: fs) t = Done (0, t') /\
    log t' = log t ++ [ZmqSend 0 (concat (payload <$> (f :: fs)))] /\
    Hist.abs (data t') = None.
Proof.
  intros Hz Hd Hg Hh Hp Hs Hl.
  destruct (Hist.run_frames_spec (f :: fs) t Hz Hd Hg) as (t' & E & _ & Ha & Hlog).
  rewrite Hist.spec_run_full in Ha, Hlog by done. by exists t'.
Qed.

Lemma hist_complete_published_witness :
  exists t', Hist.run_frames (H := Recorder.env) (drop 1 hist_frames) hist_task = Done (0, t') /\
    Hist.abs (data t') = None.
Proof.
  destruct (hist_complete_published (H := Recorder.env) (sample_mca_hdr 1 29 10)
    [sample_mca_cont 2 1 10; sample_mca_cont 3 2 10] hist_task) as (t' & E & _ & Ha).
  - discriminate.
  - apply hist_init_ok.
  - apply (Forall_cons_1 _ _ _ hist_frames_good).
  - vm_compute. reflexivity.
  - vm_compute. congruence.
  - vm_compute. repeat split.
  - vm_compute. reflexivity.
  - exists t'. split; [exact E|exact Ha].
Defined.

(** A header frame without bins leaves the task in a state that the next
    header trips over: the assertion that the last histogram was cleared
    fails.  Both frames are valid. *)
Theorem hist_empty_header_aborts `{ZEnv} f g flen missed (t : task Hist.s_data_t) :
  Hist.data_ok (data t) -> valid_frame f -> tespkt_is_mca f = true ->
  tespkt_is_header f = true -> payload_len f = TESPKT_MCA_HDR_LEN ->
  tespkt_flen f <= Z.of_nat (length f) -> tespkt_mca_nbins_tot f <= 16384 ->
  tespkt_is_mca g = true -> tespkt_is_header g = true ->
  exists t', Hist.task_hist_pkt_hn t f (tespkt_flen f) missed 0 = Done (0, t') /\
    Hist.task_hist_pkt_hn t' g flen missed 0 = Failed AssertFail.
Proof.
  intros Hd Hv Hm Hh Hp Hl Hn Hmg Hhg. pose proof (valid_frame_mca f Hv Hm) as [_ _ Hmf].
  specialize (Hmf Hh). assert (0 <= tespkt_mca_mfreq f) by apply to_u16_range.
  destruct (Hist.start_hist_ready f (data t) Hd Hn) as (h & Es & Hr & Hc & Hcs & Ht).
  destruct Hr as (Hdi & _ & _ & Hs & Hb & _).
  assert (Hz : tespkt_mca_nbins f = 0).
  { pose proof (mca_nbins_hdr f Hv Hh) as G. rewrite Hp in G. lia. }
  unfold TES_HIST_MAXSIZE, TESPKT_MCA_HDR_LEN, payload_len, TESPKT_HDR_LEN in *.
  assert (Ea : exists b, Hist.add_frame t f (tespkt_flen f) h = Done (0, set_data t
    {| Hist.nbins := Hist.nbins h; Hist.cur_nbins := 0; Hist.size := Hist.size h;
       Hist.cur_size := 40; Hist.discard := false; Hist.buf := b |})).
  { unfold Hist.add_frame. rewrite Hdi, Hc, Hz, Hcs, Hs, Ht. change (to_u16 (0 + 0)) with 0.
    cbn -[Z.eqb]. rewrite (proj2 (Z.ltb_ge _ 0)) by lia.
    unfold TES_HIST_MAXSIZE, TESPKT_HDR_LEN. rewrite Hp. change (to_u16 40) with 40. cbn -[Z.eqb].
    rewrite mem_read_Done by lia. cbn -[Z.eqb].
    rewrite memcpy_Done by (rewrite ?length_take, ?length_drop; lia).
    cbn -[Z.eqb]. change (to_u32 (0 + 40)) with 40.
    rewrite (proj2 (Z.eqb_neq 0 _)), (proj2 (Z.ltb_lt _ _)) by lia. by eexists. }
  destruct Ea as [b Ea]. eexists. split.
  { unfold Hist.task_hist_pkt_hn. rewrite Hm, Hh. simpl. rewrite Es. exact Ea. }
  unfold Hist.task_hist_pkt_hn, Hist.start_hist. rewrite Hmg, Hhg. simpl.
  by rewrite (proj2 (Z.eqb_neq (Hist.nbins h) 0)) by lia.
Qed.

Lemma hist_empty_header_aborts_witness :
  exists t', Hist.task_hist_pkt_hn (H := Recorder.env) hist_task (sample_mca_hdr 1 9 0) 64 0 0
      = Done (0, t') /\
    Hist.task_hist_pkt_hn (H := Recorder.env) t' (sample_mca_hdr 2 9 10) 104 0 0 = Failed AssertFail.
Proof.
  apply (hist_empty_header_aborts (H := Recorder.env) (sample_mca_hdr 1 9 0)
    (sample_mca_hdr 2 9 10) 104 0 hist_task).
  - apply hist_init_ok.
  - apply valid_iff. vm_compute. reflexivity.
  - vm_compute. reflexivity.
  - vm_compute. reflexivity.
  - vm_compute. reflexivity.
  - vm_compute. congruence.
  - vm_compute. congruence.
  - vm_compute. reflexivity.
  - vm_compute. reflexivity.
Defined.
