(* ===== verification/TaskAvgtr.v ===== *)
(** * The average trace task (src/bin/tesd_task_avgtr.c)

    A client asks for the next average trace within some seconds; its frames
    are collected in a buffer and sent as one reply, or an error is. *)

From Stdlib Require Import ZArith Lia Strings.String Strings.Byte.
From stdpp Require Import base option list numbers decidable.
From S2P Require Import Prelude Tespkt Tesif Task TaskTheory.

Open Scope Z_scope.

Definition TES_AVGTR_REQ_OK : Z := 0.
Definition TES_AVGTR_REQ_EINV : Z := 1.
Definition TES_AVGTR_REQ_ETOUT : Z := 2.
Definition TES_AVGTR_REQ_EERR : Z := 3.
Definition TES_AVGTR_REP_PIC : string := "1b".

Module Avgtr.

Record s_data_t : Type := {
  timer : Z;
  size : Z;
  cur_size : Z;
  recording : bool;
  buf : bytes;
}.

Section Handlers.
Context `{ZEnv}.
Implicit Types t : task s_data_t.

(** From the label [done] on. *)
Definition finish t (rep : Z) : exec (Z * task s_data_t) :=
  let trace := data t in
  let t := emit t (ZloopTimerEnd (timer trace)) in
  t ← (if rep =? TES_AVGTR_REQ_EERR
       then mret (emit t (ZsockSend 0 TES_AVGTR_REP_PIC [ZNum TES_AVGTR_REQ_EERR; ZChunk []]))
       else if rep =? TES_AVGTR_REQ_OK
       then msg ← mem_read (buf trace) 0 (size trace);
            mret (emit t (ZsockSend 0 TES_AVGTR_REP_PIC [ZNum TES_AVGTR_REQ_OK; ZChunk msg]))
       else c_assert false;; mret t);
  mret (TASK_SLEEP, set_data t
    {| timer := timer trace; size := 0; cur_size := 0; recording := false;
       buf := buf trace |}).

(** From "Append the data" on. *)
Definition append t (pkt : tespkt) (flen : Z) : exec (Z * task s_data_t) :=
  let trace := data t in
  let paylen := to_u16 (flen - TESPKT_HDR_LEN) in
  dbg_assert (cur_size trace <=? to_u32 (TES_AVGTR_MAXSIZE - paylen));;
  src ← mem_read pkt TESPKT_HDR_LEN paylen;
  b ← memcpy (buf trace) (cur_size trace) src;
  let trace := {| timer := timer trace; size := size trace;
                  cur_size := to_u16 (cur_size trace + paylen);
                  recording := recording trace; buf := b |} in
  let t := set_data t trace in
  if cur_size trace =? size trace then finish t TES_AVGTR_REQ_OK else mret (0, t).

Definition task_avgtr_pkt_hn t (pkt : tespkt) (flen missed err : Z) : exec (Z * task s_data_t) :=
  if negb (tespkt_is_trace_avg pkt) then mret (0, t)
  else
    let trace := data t in
    let trace :=
      if negb (recording trace) && tespkt_is_header pkt
      then {| timer := timer trace; size := tespkt_trace_size pkt;
              cur_size := cur_size trace; recording := true; buf := buf trace |}
      else trace in
    let t := set_data t trace in
    if negb (recording trace) then mret (0, t)
    else if c_true err then finish t TES_AVGTR_REQ_EERR
    else if (0 <? cur_size trace) &&
            negb (to_u16 (tespkt_pseq pkt - prev_pseq_tr t) =? 1)
    then finish t TES_AVGTR_REQ_EERR
    else append t pkt flen.

#[export] Instance impl : TaskImpl s_data_t :=
  {| pkt_handler := task_avgtr_pkt_hn; data_wakeup := None; data_sleep := None |}.

Definition s_timeout_hn t : exec (Z * task s_data_t) :=
  '(_, t) ← task_deactivate t;
  mret (0, emit t (ZsockSend 0 TES_AVGTR_REP_PIC [ZNum TES_AVGTR_REQ_ETOUT; ZChunk []])).

Definition task_avgtr_req_hn (ifd : tes_ifdesc) (timeout : Z) t : exec (Z * task s_data_t) :=
  if timeout =? 0 then
    mret (0, emit t (ZsockSend 0 TES_AVGTR_REP_PIC [ZNum TES_AVGTR_REQ_EINV; ZChunk []]))
  else
    let delay := to_u32 (1000 * timeout) in
    let tid := zloop_timer_rc (log t) delay in
    let t := emit t (ZloopTimer delay) in
    if tid =? -1 then mret (TASK_ERROR, t)
    else
      let trace := data t in
      dbg_assert (negb (recording trace));;
      let t := set_data t {| timer := tid; size := size trace; cur_size := cur_size trace;
                             recording := recording trace; buf := buf trace |} in
      '(_, t) ← task_activate ifd t;
      mret (0, t).

Definition init_data : s_data_t :=
  {| timer := 0; size := 0; cur_size := 0; recording := false;
     buf := replicate (Z.to_nat TES_AVGTR_MAXSIZE) x00 |}.
Definition task_avgtr_init t : Z * task s_data_t := (0, set_data t init_data).
End Handlers.

(** ** Specification *)

(** The size announced and the bytes received of the trace being recorded. *)
Definition state : Type := option (Z * bytes).

Inductive reply : Type := Trace (b : bytes) | Dropped.

(** What one frame does: the trace goes on, a reply ends it, or it outgrows
    the buffer and the server stops. *)
Inductive result : Type := Goes (st : state) | Replies (r : reply) | Overflows.

Definition extend (n : Z) (b : bytes) : result :=
  if TES_AVGTR_MAXSIZE <? Z.of_nat (length b) then Overflows
  else if Z.of_nat (length b) =? n then Replies (Trace b)
  else Goes (Some (n, b)).

(** One frame of an average trace; [ok] tells that it is valid, [in_seq] that
    it follows the previous trace frame. *)
Definition spec_step (st : state) (pkt : tespkt) (ok in_seq : bool) : result :=
  match st with
  | None =>
      if negb (tespkt_is_header pkt) then Goes None
      else if ok then extend (tespkt_trace_size pkt) (payload pkt) else Replies Dropped
  | Some (n, b) =>
      if ok && in_seq then extend n (b ++ payload pkt) else Replies Dropped
  end.

Definition abs (d : s_data_t) : state :=
  if recording d then Some (size d, take (Z.to_nat (cur_size d)) (buf d)) else None.

Record data_ok (d : s_data_t) : Prop := {
  ok_buf : Z.of_nat (length (buf d)) = TES_AVGTR_MAXSIZE;
  ok_idle : recording d = false -> cur_size d = 0;
  ok_rec : recording d = true -> 0 < cur_size d <= TES_AVGTR_MAXSIZE;
  ok_8 : (8 | cur_size d);
  ok_size : is_u16 (size d);
}.

Definition reply_of (r : reply) : action :=
  ZsockSend 0 TES_AVGTR_REP_PIC
    match r with
    | Trace b => [ZNum TES_AVGTR_REQ_OK; ZChunk b]
    | Dropped => [ZNum TES_AVGTR_REQ_EERR; ZChunk []]
    end.

Section Refinement.
Implicit Types t : task s_data_t.

Definition outcome t (r : result) (x : exec (Z * task s_data_t)) : Prop :=
  match r with
  | Overflows => x = Failed AssertFail
  | Goes st => exists t', x = Done (0, t') /\ data_ok (data t') /\ same_frame t t' /\
      log t' = log t /\ abs (data t') = st /\ timer (data t') = timer (data t)
  | Replies r => exists t', x = Done (TASK_SLEEP, t') /\ data_ok (data t') /\
      same_frame t t' /\ abs (data t') = None /\
      log t' = log t ++ [ZloopTimerEnd (timer (data t)); reply_of r]
  end.

Lemma finish_dropped t d :
  Z.of_nat (length (buf d)) = TES_AVGTR_MAXSIZE -> timer d = timer (data t) ->
  outcome t (Replies Dropped) (finish (set_data t d) TES_AVGTR_REQ_EERR).
Proof.
  intros Hb Ht. eexists. split; [reflexivity|].
  split; [split; simpl; first [done|apply Z.divide_0_r|unfold is_u16; lia]|].
  simpl. rewrite Ht. split; [split; simpl; rewrite <- ?app_assoc; eauto|].
  by rewrite <- app_assoc.
Qed.

Lemma finish_trace t d b :
  Z.of_nat (length (buf d)) = TES_AVGTR_MAXSIZE -> timer d = timer (data t) ->
  0 <= size d <= TES_AVGTR_MAXSIZE -> take (Z.to_nat (size d)) (buf d) = b ->
  outcome t (Replies (Trace b)) (finish (set_data t d) TES_AVGTR_REQ_OK).
Proof.
  intros Hb Ht Hs <-. unfold finish. simpl.
  rewrite mem_read_Done by lia. simpl. rewrite drop_0. eexists. split; [reflexivity|].
  split; [split; simpl; first [done|apply Z.divide_0_r|unfold is_u16; lia]|].
  simpl. rewrite Ht. split; [split; simpl; rewrite <- ?app_assoc; eauto|].
  by rewrite <- app_assoc.
Qed.

(** The same data with the announced size [n], recording. *)
Lemma append_extends t pkt flen d :
  frame_args pkt flen 0 -> Z.of_nat (length (buf d)) = TES_AVGTR_MAXSIZE ->
  recording d = true -> 0 <= cur_size d <= TES_AVGTR_MAXSIZE -> (8 | cur_size d) ->
  is_u16 (size d) -> timer d = timer (data t) ->
  outcome t (extend (size d) (take (Z.to_nat (cur_size d)) (buf d) ++ payload pkt))
    (append (set_data t d) pkt flen).
Proof.
  intros Ha Hb Hr Hc H8 Hu Ht. pose proof (length_payload pkt flen 0 Ha eq_refl) as Hp.
  destruct Ha as [Hf1 Hf2 Hf3]. destruct (Hf3 eq_refl) as [Hv ->].
  pose proof (valid_frame_len pkt Hv) as (Hd & Hl & _).
  unfold append. change (data (set_data t d)) with d.
  change (tespkt_flen pkt - TESPKT_HDR_LEN) with (payload_len pkt).
  unfold extend, TES_AVGTR_MAXSIZE, is_u16 in *.
  rewrite (to_u16_id (payload_len pkt)) by (unfold is_u16; lia).
  rewrite (to_u32_id (65528 - _)) by (unfold is_u32; lia).
  assert (Hlen : Z.of_nat (length (take (Z.to_nat (cur_size d)) (buf d) ++ payload pkt))
    = cur_size d + payload_len pkt) by (rewrite length_app, length_take; lia).
  rewrite Hlen. destruct (Z.ltb_spec 65528 (cur_size d + payload_len pkt)) as [Hx|Hx].
  { by rewrite (proj2 (Z.leb_gt (cur_size d) _)) by lia. }
  rewrite (proj2 (Z.leb_le (cur_size d) _)) by lia.
  assert (Hfl : payload_len pkt = tespkt_flen pkt - 24) by done.
  cbn [dbg_assert c_assert mbind exec_bind].
  rewrite mem_read_Done by (unfold TESPKT_HDR_LEN; lia).
  change (take _ (drop _ pkt)) with (payload pkt). cbn [mbind exec_bind].
  rewrite memcpy_Done by lia. cbn [mbind exec_bind cur_size size buf timer recording].
  rewrite (to_u16_id (cur_size d + _)) by (unfold is_u16; lia).
  set (b := splice (buf d) (Z.to_nat (cur_size d)) (payload pkt)).
  assert (Hbl : length b = length (buf d)) by (apply length_splice; lia).
  assert (Hbt : take (Z.to_nat (cur_size d + payload_len pkt)) b
    = take (Z.to_nat (cur_size d)) (buf d) ++ payload pkt).
  { unfold b. rewrite <- take_splice by lia. f_equal. lia. }
  change (set_data (set_data t d) ?x) with (set_data t x).
  destruct (Z.eqb_spec (cur_size d + payload_len pkt) (size d)) as [He|He].
  - apply finish_trace; unfold TES_AVGTR_MAXSIZE; simpl; rewrite ?Hbl, <- ?He; try done; lia.
  - eexists. split; [reflexivity|]. rewrite Hr.
    split; [split; unfold TES_AVGTR_MAXSIZE; simpl; rewrite ?Hbl; try done; try lia|].
    { by apply Z.divide_add_r. }
    split; [apply same_frame_data|]. split; [done|]. split; [|done].
    unfold abs. simpl. by rewrite Hbt.
Qed.

Lemma avgtr_step t pkt flen missed err :
  data_ok (data t) -> frame_args pkt flen err ->
  tespkt_is_trace_avg pkt = true ->
  outcome t (spec_step (abs (data t)) pkt (err =? 0)
               (to_u16 (tespkt_pseq pkt - prev_pseq_tr t) =? 1))
    (task_avgtr_pkt_hn t pkt flen missed err).
Proof.
  intros [Hb Hi Hr H8 Hu] Ha Htr. unfold task_avgtr_pkt_hn, abs, spec_step, c_true.
  rewrite Htr. simpl.
  destruct (recording (data t)) eqn:Er; simpl.
  - rewrite Er. specialize (Hr eq_refl). simpl.
    destruct (Z.eqb_spec err 0) as [->|]; simpl; [|by apply finish_dropped].
    rewrite (proj2 (Z.ltb_lt _ _)) by lia. simpl.
    destruct (_ =? 1); simpl; [|by apply finish_dropped].
    apply append_extends; try done; lia.
  - specialize (Hi eq_refl). destruct (tespkt_is_header pkt); simpl.
    + destruct (Z.eqb_spec err 0) as [->|]; simpl; [|by apply finish_dropped].
      rewrite Hi. simpl.
      replace (payload pkt) with (take (Z.to_nat 0) (buf (data t)) ++ payload pkt) by done.
      apply (append_extends t pkt flen {| timer := timer (data t);
        size := tespkt_trace_size pkt; cur_size := 0; recording := true;
        buf := buf (data t) |}); simpl; try done.
      * apply Z.divide_0_r.
      * apply tespkt_trace_size_range.
    + rewrite Er. simpl. eexists. split; [reflexivity|].
      split; [split; simpl; first [done|congruence]|]. split; [apply same_frame_data|].
      split; [done|]. split; [|done]. unfold abs. simpl. by rewrite Er.
Qed.

(** A sequence of frames with the bookkeeping of the dispatcher, up to the
    one that ends the job. *)
Fixpoint run_frames (l : list tespkt) t : exec (Z * task s_data_t) :=
  match l with
  | [] => mret (0, t)
  | pkt :: l =>
      '(rc, t) ← task_avgtr_pkt_hn t pkt (tespkt_flen pkt) 0 0;
      let t := update_seq pkt t in
      if c_true rc then mret (rc, t) else run_frames l t
  end.

Definition good_frame (pkt : tespkt) : Prop :=
  valid_frame pkt /\ tespkt_is_trace_avg pkt = true /\
  tespkt_flen pkt <= Z.of_nat (length pkt).

(** The frames that continue a trace, in protocol sequence. *)
Fixpoint in_sequence (prev : Z) (fs : list tespkt) : Prop :=
  match fs with
  | [] => True
  | f :: fs => to_u16 (tespkt_pseq f - prev) = 1 /\ in_sequence (tespkt_pseq f) fs
  end.

Lemma trace_frame_args pkt : good_frame pkt -> frame_args pkt (tespkt_flen pkt) 0.
Proof. intros (? & _ & ?). by apply valid_frame_args. Qed.

Lemma trace_payload pkt : good_frame pkt ->
  Z.of_nat (length (payload pkt)) = payload_len pkt /\ 8 <= payload_len pkt.
Proof.
  intros Hg. split; [by eapply length_payload; [apply trace_frame_args|]|].
  destruct Hg as (Hv & _). apply (valid_frame_len pkt Hv).
Qed.

Lemma is_trace_avg_long pkt :
  tespkt_is_trace_avg pkt = true ->
  tespkt_is_trace_long pkt = true /\ tespkt_is_mca pkt = false.
Proof.
  intros E. split.
  - unfold_kind. bool_hyps. rewrite H0, H1, H2, H. reflexivity.
  - apply is_event_not_mca. unfold_kind. by bool_hyps.
Qed.

Lemma update_seq_tr pkt t :
  tespkt_is_trace_avg pkt = true -> prev_pseq_tr (update_seq pkt t) = tespkt_pseq pkt.
Proof.
  intros E. destruct (is_trace_avg_long pkt E) as [H1 H2]. unfold update_seq.
  by rewrite H1, H2.
Qed.

Lemma extend_partial n b fs :
  Forall good_frame fs -> fs <> [] -> n <= TES_AVGTR_MAXSIZE ->
  Z.of_nat (length (b ++ concat (payload <$> fs))) = n -> extend n b = Goes (Some (n, b)).
Proof.
  intros Hg Hne Hn Hl. destruct fs as [|f fs]; [done|].
  apply Forall_cons_1 in Hg as [Hg _]. destruct (trace_payload f Hg) as [Hp Hp8].
  revert Hl. simpl. rewrite !length_app. intros Hl. unfold extend.
  by rewrite (proj2 (Z.ltb_ge _ _)), (proj2 (Z.eqb_neq _ _)) by lia.
Qed.

Lemma extend_full n b :
  n <= TES_AVGTR_MAXSIZE -> Z.of_nat (length b) = n -> extend n b = Replies (Trace b).
Proof.
  intros Hn E. unfold extend. by rewrite (proj2 (Z.ltb_ge _ _)), (proj2 (Z.eqb_eq _ _)) by lia.
Qed.

(** The last reply of a job, and the state after it. *)
Definition replied t (r : reply) (x : exec (Z * task s_data_t)) : Prop :=
  exists t', x = Done (TASK_SLEEP, t') /\ data_ok (data t') /\ abs (data t') = None /\
    log t' = log t ++ [ZloopTimerEnd (timer (data t)); reply_of r].

(** One frame after which only [fs] are missing: the run goes on or ends. *)
Lemma run_frames_step t pkt fs n b :
  data_ok (data t) -> good_frame pkt ->
  spec_step (abs (data t)) pkt true (to_u16 (tespkt_pseq pkt - prev_pseq_tr t) =? 1)
    = extend n b ->
  n <= TES_AVGTR_MAXSIZE -> Forall good_frame fs ->
  Z.of_nat (length (b ++ concat (payload <$> fs))) = n ->
  (forall t1, data_ok (data t1) -> abs (data t1) = Some (n, b) -> log t1 = log t ->
     timer (data t1) = timer (data t) -> prev_pseq_tr t1 = tespkt_pseq pkt -> fs <> [] ->
     replied t1 (Trace (b ++ concat (payload <$> fs))) (run_frames fs t1)) ->
  replied t (Trace (b ++ concat (payload <$> fs))) (run_frames (pkt :: fs) t).
Proof.
  intros Hd Hg Hs Hn Hgs Hl Hk. pose proof Hg as (_ & Htr & _).
  pose proof (avgtr_step t pkt (tespkt_flen pkt) 0 0 Hd (trace_frame_args pkt Hg) Htr) as Ho.
  change (0 =? 0) with true in Ho. rewrite Hs in Ho. simpl run_frames.
  destruct (decide (fs = [])) as [->|Hne].
  - simpl in Hl |- *. rewrite app_nil_r in Hl |- *. rewrite extend_full in Ho by done.
    destruct Ho as (t1 & -> & Hd1 & _ & Ha1 & Hl1). simpl.
    destruct (update_seq_ctl pkt t1) as (_ & _ & Hdt).
    eexists. split; [reflexivity|]. by rewrite Hdt, update_seq_log.
  - rewrite extend_partial with (fs := fs) in Ho by done.
    destruct Ho as (t1 & -> & Hd1 & _ & Hl1 & Ha1 & Ht1). cbn -[run_frames].
    destruct (update_seq_ctl pkt t1) as (_ & _ & Hdt).
    destruct (Hk (update_seq pkt t1)) as (t' & E & Hd' & Ha' & Hl');
      rewrite ?Hdt, ?update_seq_log; try done; [by apply update_seq_tr|].
    exists t'. split; [done|]. do 2 (split; [done|]).
    by rewrite Hl', Hdt, Ht1, update_seq_log, Hl1.
Qed.

Lemma run_conts n b fs t :
  data_ok (data t) -> abs (data t) = Some (n, b) -> Forall good_frame fs -> fs <> [] ->
  in_sequence (prev_pseq_tr t) fs -> n <= TES_AVGTR_MAXSIZE ->
  Z.of_nat (length (b ++ concat (payload <$> fs))) = n ->
  replied t (Trace (b ++ concat (payload <$> fs))) (run_frames fs t).
Proof.
  revert b t. induction fs as [|f fs IH]; intros b t Hd Ha Hg Hne Hs Hn Hl; [done|].
  apply Forall_cons_1 in Hg as [Hg Hgs]. destruct Hs as [Hq Hs].
  simpl in Hl |- *. rewrite app_assoc in Hl |- *.
  apply run_frames_step with n; try done.
  - by rewrite Ha, Hq.
  - intros t1 Hd1 Ha1 _ _ Hp1 Hne1. apply IH; try done. by rewrite Hp1.
Qed.

Lemma payloads_8 fs : Forall good_frame fs ->
  (8 | Z.of_nat (length (concat (payload <$> fs)))).
Proof.
  induction 1 as [|f fs Hg _ IH]; [apply Z.divide_0_r|]. simpl. rewrite length_app.
  destruct (trace_payload f Hg) as [Hp _]. destruct Hg as (Hv & _).
  pose proof (valid_frame_len f Hv) as (Hd & _).
  rewrite Nat2Z.inj_add. apply Z.divide_add_r; [by rewrite Hp|done].
Qed.
End Refinement.
End Avgtr.

#[local] Existing Instance Avgtr.impl.

(** ** Properties *)

Definition avgtr_task : task Avgtr.s_data_t :=
  Task [{| ep_handler := true; ep_type := ZMQ_REP; ep_nsubs := 0; ep_automute := true;
           ep_autosleep := false |}] [0; 0; 0; 0] 0 0 7 false false false true
    Avgtr.init_data [].

(** C35: on every frame of an average trace, valid or not, the handler does
    what the specification's recorder does: it records, or ends the job by
    cancelling the timer and sending the trace or the error, asking to be put
    to sleep, or, when the trace outgrows the buffer, stops at the assertion
    on the size.  Nothing else can fail: no access leaves packet or buffer. *)
Theorem avgtr_refines_recorder (t : task Avgtr.s_data_t) pkt flen missed err :
  Avgtr.data_ok (data t) -> frame_args pkt flen err -> tespkt_is_trace_avg pkt = true ->
  Avgtr.outcome t
    (Avgtr.spec_step (Avgtr.abs (data t)) pkt (err =? 0)
       (to_u16 (tespkt_pseq pkt - prev_pseq_tr t) =? 1))
    (Avgtr.task_avgtr_pkt_hn t pkt flen missed err).
Proof. intros Hd Ha Htr. by apply Avgtr.avgtr_step. Qed.

Lemma avgtr_init_ok : Avgtr.data_ok Avgtr.init_data.
Proof.
  split; [vm_compute; reflexivity|done|discriminate|apply Z.divide_0_r|].
  unfold is_u16. simpl. lia.
Qed.

Lemma avgtr_refines_recorder_witness :
  Avgtr.outcome avgtr_task (Avgtr.Replies (Avgtr.Trace (payload (sample_avgtr_hdr 1 80 80))))
    (Avgtr.task_avgtr_pkt_hn avgtr_task (sample_avgtr_hdr 1 80 80) 104 0 0).
Proof.
  apply (avgtr_refines_recorder avgtr_task (sample_avgtr_hdr 1 80 80) 104 0 0).
  - apply avgtr_init_ok.
  - split; [vm_compute; split; congruence|vm_compute; congruence|].
    intros _. split; [apply valid_iff; vm_compute; reflexivity|vm_compute; reflexivity].
  - vm_compute. reflexivity.
Defined.

(** a trace whose frames arrive complete and in protocol sequence, adding
    up to the size its header announces, is sent to the client, when its last
    frame is in, as the concatenation of their payloads; the timer is
    cancelled and the recorder is empty again. *)
Theorem avgtr_complete_sent f fs (t : task Avgtr.s_data_t) :
  Avgtr.data_ok (data t) -> Avgtr.recording (data t) = false ->
  Forall Avgtr.good_frame (f :: fs) -> tespkt_is_header f = true ->
  Avgtr.in_sequence (tespkt_pseq f) fs ->
  Z.of_nat (length (concat (payload <$> (f :: fs)))) = tespkt_trace_size f ->
  exists t', Avgtr.run_frames (f :: fs) t = Done (TASK_SLEEP, t') /\
    Avgtr.abs (data t') = None /\
    log t' = log t ++ [ZloopTimerEnd (Avgtr.timer (data t));
      ZsockSend 0 TES_AVGTR_REP_PIC
        [ZNum TES_AVGTR_REQ_OK; ZChunk (concat (payload <$> (f :: fs)))]].
Proof.
  intros Hd Hi Hg Hh Hs Hl. pose proof (tespkt_trace_size_range f) as Hu.
  pose proof (Avgtr.payloads_8 (f :: fs) Hg) as [k Hk]. rewrite Hl in Hk.
  pose proof (Forall_cons_1 _ _ _ Hg) as [Hf Hfs].
  destruct (Avgtr.run_frames_step t f fs (tespkt_trace_size f) (payload f))
    as (t' & E & _ & Ha & Hlog); try done.
  - unfold Avgtr.abs. rewrite Hi. simpl. by rewrite Hh.
  - unfold TES_AVGTR_MAXSIZE, is_u16 in *. lia.
  - intros t1 Hd1 Ha1 _ _ Hp1 Hne. apply Avgtr.run_conts with (tespkt_trace_size f); try done.
    + by rewrite Hp1.
    + unfold TES_AVGTR_MAXSIZE, is_u16 in *. lia.
  - by exists t'.
Qed.

Lemma avgtr_complete_sent_witness :
  exists t', Avgtr.run_frames [sample_avgtr_hdr 1 160 80; sample_avgtr_cont 2 1 80] avgtr_task
      = Done (TASK_SLEEP, t') /\ Avgtr.abs (data t') = None.
Proof.
  destruct (avgtr_complete_sent (sample_avgtr_hdr 1 160 80) [sample_avgtr_cont 2 1 80] avgtr_task)
    as (t' & E & Ha & _).
  - apply avgtr_init_ok.
  - reflexivity.
  - repeat (apply Forall_cons_2; [split; [apply valid_iff; vm_compute; reflexivity|
      split; [vm_compute; reflexivity|vm_compute; congruence]]|]). apply Forall_nil_2.
  - vm_compute. reflexivity.
  - vm_compute. split; [reflexivity|exact Logic.I].
  - vm_compute. reflexivity.
  - exists t'. split; [exact E|exact Ha].
Defined.

(** A timeout in the middle of a trace replies and deactivates the task
    but does not clear the recorder, so the client's next request, well formed
    and with its timer set, fails the assertion that nothing is being
    recorded. *)
Theorem avgtr_timeout_poisons `{ZEnv} `{!ZEnvReader} ifd timeout (t t1 : task Avgtr.s_data_t) :
  Avgtr.recording (data t) = true -> frontends_ok t ->
  Avgtr.s_timeout_hn t = Done (0, t1) ->
  timeout <> 0 -> zloop_timer_rc (log t1) (to_u32 (1000 * timeout)) <> -1 ->
  active t1 = false /\ Avgtr.recording (data t1) = true /\
  Avgtr.task_avgtr_req_hn ifd timeout t1 = Failed AssertFail.
Proof.
  intros Hr Hf E Hz Ht.
  unfold Avgtr.s_timeout_hn, task_deactivate in E. cbn in E.
  rewrite unmute_frontends_emits in E by done. cbn in E. injection E as <-.
  set (t1 := emit _ _) in *.
  assert (Hr1 : Avgtr.recording (data t1) = true) by (unfold t1; simpl; by rewrite emits_data).
  split; [done|]. split; [done|]. unfold Avgtr.task_avgtr_req_hn.
  rewrite (proj2 (Z.eqb_neq _ _) Hz), (proj2 (Z.eqb_neq _ _) Ht).
  change (data (emit t1 ?a)) with (data t1). by rewrite Hr1.
Qed.

(** A task half-way through a trace. *)
Definition avgtr_half : task Avgtr.s_data_t :=
  set_data avgtr_task
    {| Avgtr.timer := 7; Avgtr.size := 160; Avgtr.cur_size := 80; Avgtr.recording := true;
       Avgtr.buf := replicate (Z.to_nat TES_AVGTR_MAXSIZE) x00 |}.

Lemma avgtr_timeout_poisons_witness :
  exists t1, Avgtr.s_timeout_hn (H := Recorder.env) avgtr_half = Done (0, t1) /\
    Avgtr.task_avgtr_req_hn (H := Recorder.env) Recorder.ifd 5 t1 = Failed AssertFail.
Proof.
  eexists. split; [reflexivity|].
  apply (avgtr_timeout_poisons (H := Recorder.env) (H0 := Recorder.env_reader)
    Recorder.ifd 5 avgtr_half).
  - reflexivity.
  - repeat constructor.
  - reflexivity.
  - discriminate.
  - discriminate.
Defined.
