(* ===== verification/TaskJitter.v ===== *)
(** * The jitter task (src/bin/tesd_task_jitter.c)

    A histogram of the delays between the events of a channel and those of a
    reference channel, published every so many ticks.  TES_NCHANNELS is 2, so
    there is one histogram. *)

From Stdlib Require Import ZArith Lia Strings.String Strings.Byte.
From stdpp Require Import base option list numbers decidable.
From S2P Require Import Prelude Tespkt Tesif Task TaskTheory.

Open Scope Z_scope.

Definition TES_NCHANNELS : Z := 2.
Definition TES_JITTER_NBINS : Z := 1022.
Definition TES_JITTER_NHISTS : Z := TES_NCHANNELS - 1.
Definition TES_JITTER_HDR_LEN : Z := 8.
Definition TES_JITTER_SUBSIZE : Z := 4096.
Definition TES_JITTER_SIZE : Z := TES_JITTER_HDR_LEN + TES_JITTER_SUBSIZE * TES_JITTER_NHISTS.
Definition CONF_LEN : Z := 16.
Definition TES_JITTER_REP_PIC : string := "18".
Definition MAX_SIMULT_POINTS : Z := 16.
Definition ENDP_REP : nat := 0.
Definition ENDP_PUB : nat := 1.
Definition BIN_OFFSET : Z := 511.

Module Jitter.

Record s_conf_t : Type := { conf_ticks : Z; conf_ref_ch : Z }.

Record s_point_t : Type := { delay_since : Z; delay_until : Z; hid : Z }.

Record s_subhist_t : Type := { sub_ch : Z; bins : list Z }.

Record s_hist_t : Type := { hdr_ref_ch : Z; hdr_nhists : Z; hists : list s_subhist_t }.

Record s_data_t : Type := {
  cur_conf : s_conf_t;
  conf : s_conf_t;
  hist : s_hist_t;
  ticks : Z;
  points : list s_point_t;
  cur_npts : Z;
  publishing : bool;
}.

Definition set_conf d v := {| cur_conf := cur_conf d; conf := v; hist := hist d;
  ticks := ticks d; points := points d; cur_npts := cur_npts d; publishing := publishing d |}.
Definition set_ticks d v := {| cur_conf := cur_conf d; conf := conf d; hist := hist d;
  ticks := v; points := points d; cur_npts := cur_npts d; publishing := publishing d |}.
Definition set_hist d v := {| cur_conf := cur_conf d; conf := conf d; hist := v;
  ticks := ticks d; points := points d; cur_npts := cur_npts d; publishing := publishing d |}.
Definition set_points d v n := {| cur_conf := cur_conf d; conf := conf d; hist := hist d;
  ticks := ticks d; points := v; cur_npts := n; publishing := publishing d |}.
Definition set_publishing d v := {| cur_conf := cur_conf d; conf := conf d; hist := hist d;
  ticks := ticks d; points := points d; cur_npts := cur_npts d; publishing := v |}.

(** [data->points[p]] *)
Definition get_point (ps : list s_point_t) (p : Z) : exec s_point_t :=
  if p <? 0 then fail OutOfBounds
  else match ps !! Z.to_nat p with Some pt => mret pt | None => fail OutOfBounds end.
Definition put_point (ps : list s_point_t) (p : Z) (pt : s_point_t) : list s_point_t :=
  <[Z.to_nat p := pt]> ps.

Definition s_add_to_since (pt : s_point_t) (delay : Z) : s_point_t :=
  {| delay_since := if UINT16_MAX <? delay_since pt + delay then UINT16_MAX
                    else to_u16 (delay_since pt + delay);
     delay_until := delay_until pt; hid := hid pt |}.
Definition s_add_to_until (pt : s_point_t) (delay : Z) : s_point_t :=
  {| delay_since := delay_since pt;
     delay_until := if UINT16_MAX <? delay_until pt + delay then UINT16_MAX
                    else to_u16 (delay_until pt + delay);
     hid := hid pt |}.

(** The bin of a point. *)
Definition bin_of (pt : s_point_t) : Z :=
  let bin := delay_since pt in
  let bin := if delay_until pt <? bin then - delay_until pt else bin in
  let bin := bin + BIN_OFFSET in
  if bin <? 0 then 0
  else if TES_JITTER_NBINS <=? bin then TES_JITTER_NBINS - 1
  else bin.

(** [hist->bins[bin]++] *)
Definition inc_bin (h : s_subhist_t) (bin : Z) : exec s_subhist_t :=
  match bins h !! Z.to_nat bin with
  | Some n => mret {| sub_ch := sub_ch h; bins := <[Z.to_nat bin := to_u32 (n + 1)]> (bins h) |}
  | None => fail OutOfBounds
  end.

(** The loop over the [n] points from [p] on. *)
Fixpoint save_loop (n : nat) (p : Z) (ps : list s_point_t) (h : s_hist_t) : exec s_hist_t :=
  match n with
  | O => mret h
  | S n =>
      pt ← get_point ps p;
      dbg_assert (hid pt <? TES_JITTER_NHISTS);;
      dbg_assert (0 <=? hid pt);;
      sub ← match hists h !! Z.to_nat (hid pt) with
            | Some sub => mret sub | None => fail OutOfBounds end;
      sub ← inc_bin sub (bin_of pt);
      save_loop n (p + 1) ps
        {| hdr_ref_ch := hdr_ref_ch h; hdr_nhists := hdr_nhists h;
           hists := <[Z.to_nat (hid pt) := sub]> (hists h) |}
  end.

Definition ghost (since : Z) : s_point_t :=
  {| delay_since := since; delay_until := 0; hid := -1 |}.

Definition s_save_points (d : s_data_t) : exec s_data_t :=
  h ← save_loop (Z.to_nat (cur_npts d - 1)) 0 (points d) (hist d);
  _ ← get_point (points d) 0;
  mret (set_points (set_hist d h) (put_point (points d) 0 (ghost 0)) 1).

(** The channels of the histograms, skipping the reference. *)
Fixpoint sub_channels (n : nat) (ch ref_ch : Z) : list s_subhist_t :=
  match n with
  | O => []
  | S n =>
      let ch := if ch =? ref_ch then ch + 1 else ch in
      {| sub_ch := to_u8 ch; bins := replicate (Z.to_nat TES_JITTER_NBINS) 0 |}
      :: sub_channels n (ch + 1) ref_ch
  end.

Definition s_prep_next (d : s_data_t) : exec s_data_t :=
  let d :=
    {| cur_conf := conf d; conf := conf d;
       hist := {| hdr_ref_ch := conf_ref_ch (conf d); hdr_nhists := TES_JITTER_NHISTS;
                  hists := sub_channels (Z.to_nat TES_JITTER_NHISTS) 0 (conf_ref_ch (conf d)) |};
       ticks := 0; points := points d; cur_npts := cur_npts d; publishing := publishing d |} in
  if publishing d then
    dbg_assert (0 <? cur_npts d);;
    pt ← get_point (points d) (cur_npts d - 1);
    let ps := put_point (points d) 0 pt in
    pt0 ← get_point ps 0;
    dbg_assert (hid pt0 =? -1);;
    mret (set_ticks (set_points d ps 1) 1)
  else
    dbg_assert (cur_npts d =? 0);;
    mret d.

(** The loop that adds the delay to all but the last point. *)
Fixpoint until_loop (n : nat) (p : Z) (delay : Z) (ps : list s_point_t) : exec (list s_point_t) :=
  match n with
  | O => mret ps
  | S n =>
      pt ← get_point ps p;
      until_loop n (p + 1) delay (put_point ps p (s_add_to_until pt delay))
  end.

(** The body of the loop over events; [true] when the handler returns there. *)
Definition event_step (d : s_data_t) (delay CH : Z) (is_tick : bool) : exec (bool * s_data_t) :=
  let is_ref := (CH =? conf_ref_ch (cur_conf d)) && negb is_tick in
  let make_new := negb is_ref && negb is_tick in
  if negb is_ref && (cur_npts d =? 0) then mret (true, d)
  else
    ps ← until_loop (Z.to_nat (cur_npts d - 1)) 0 delay (points d);
    ps ← (if is_ref then mret ps
          else pt ← get_point ps (cur_npts d - 1);
               mret (put_point ps (cur_npts d - 1) (s_add_to_since pt delay)));
    let d := set_points d ps (cur_npts d) in
    d ← (if is_ref then s_save_points d else mret d);
    dbg_assert (0 <? cur_npts d);;
    if make_new then
      dbg_assert (negb (CH =? conf_ref_ch (cur_conf d)));;
      if cur_npts d <? MAX_SIMULT_POINTS - 1 then
        let i := cur_npts d - 1 in
        new_entry ← get_point (points d) i;
        _ ← get_point (points d) (i + 1);
        let h := if conf_ref_ch (cur_conf d) <? CH then CH - 1 else CH in
        let ps := put_point (points d) i
          {| delay_since := delay_since new_entry; delay_until := delay_until new_entry;
             hid := h |} in
        let ps := put_point ps (i + 1) (ghost (delay_since new_entry)) in
        mret (false, set_points d ps (to_u8 (cur_npts d + 1)))
      else mret (false, d)
    else mret (false, d).

(** The loop over the events from [e] on. *)
Fixpoint event_loop (fuel : nat) (pkt : tespkt) (is_tick is_trace : bool) (e : Z)
    (d : s_data_t) : exec (bool * s_data_t) :=
  n ← tespkt_event_nums pkt;
  if n <=? e then mret (false, d)
  else
    match fuel with
    | O => fail NoFuel
    | S fuel =>
        (if is_tick || is_trace then dbg_assert (e =? 0) else mret tt);;
        let delay := tespkt_event_toff pkt e in
        let ef := tespkt_evt_fl pkt e in
        '(ret, d) ← event_step d delay (ef_CH ef) is_tick;
        if ret : bool then mret (true, d)
        else event_loop fuel pkt is_tick is_trace (e + 1) d
    end.

(** Bytes of the histogram in memory: packed header, then the sub-histograms. *)
Definition le32 (z : Z) : bytes :=
  [byte_of_Z z; byte_of_Z (Z.shiftr z 8); byte_of_Z (Z.shiftr z 16); byte_of_Z (Z.shiftr z 24)].
Definition sub_bytes (h : s_subhist_t) : bytes :=
  replicate 7 x00 ++ [byte_of_Z (sub_ch h)] ++ concat (le32 <$> bins h).
Definition hist_bytes (h : s_hist_t) : bytes :=
  replicate 6 x00 ++ [byte_of_Z (hdr_ref_ch h); byte_of_Z (hdr_nhists h)]
  ++ concat (sub_bytes <$> hists h).

Section Handlers.
Context `{ZEnv}.
Implicit Types t : task s_data_t.

Definition task_jitter_req_hn (ref_ch ticks_ : Z) t : exec (Z * task s_data_t) :=
  let d := data t in
  let d := if (ticks_ =? 0) || (TES_JITTER_NHISTS <? ref_ch) then d
           else set_conf d {| conf_ticks := ticks_; conf_ref_ch := ref_ch |} in
  mret (0, emit (set_data t d) (ZsockSend ENDP_REP TES_JITTER_REP_PIC
             [ZNum (conf_ref_ch (conf d)); ZNum (conf_ticks (conf d))])).

(** A frame has at most 184 events. *)
Definition event_fuel : nat := 184.

(** The end of the handler: publish when the ticks are in. *)
Definition publish t (d : s_data_t) : exec (Z * task s_data_t) :=
  if ticks d =? to_u64 (conf_ticks (cur_conf d) + 1) then
    let rc := zmq_send_rc (log t) ENDP_PUB (hist_bytes (hist d)) in
    let t := emit t (ZmqSend ENDP_PUB (hist_bytes (hist d))) in
    if rc =? -1 then mret (TASK_ERROR, set_data t d)
    else
      d ← s_prep_next d;
      dbg_assert (ticks d <=? conf_ticks (cur_conf d));;
      mret (0, set_data t d)
  else
    dbg_assert (ticks d <=? conf_ticks (cur_conf d));;
    mret (0, set_data t d).

Definition task_jitter_pkt_hn t (pkt : tespkt) (flen missed err : Z) : exec (Z * task s_data_t) :=
  let d := data t in
  dbg_assert (0 <? conf_ticks (cur_conf d));;
  dbg_assert (cur_npts d <? MAX_SIMULT_POINTS);;
  let is_tick := tespkt_is_tick pkt in
  let d := if negb (publishing d) && is_tick then set_publishing d true else d in
  if negb (publishing d) || c_true err || negb (tespkt_is_event pkt)
  then mret (0, set_data t d)
  else
    let is_trace := tespkt_is_trace_long pkt in
    if is_trace && negb (tespkt_is_header pkt) then mret (0, set_data t d)
    else
      let d := if is_tick then set_ticks d (to_u64 (ticks d + 1)) else d in
      '(ret, d) ← event_loop event_fuel pkt is_tick is_trace 0 d;
      if ret : bool then mret (0, set_data t d) else publish t d.

Definition zero_point : s_point_t := {| delay_since := 0; delay_until := 0; hid := 0 |}.

(** The static data with the default configuration. *)
Definition init_data : s_data_t :=
  {| cur_conf := {| conf_ticks := 0; conf_ref_ch := 0 |};
     conf := {| conf_ticks := 5; conf_ref_ch := 0 |};
     hist := {| hdr_ref_ch := 0; hdr_nhists := 0;
                hists := [{| sub_ch := 0; bins := replicate (Z.to_nat TES_JITTER_NBINS) 0 |}] |};
     ticks := 0; points := replicate (Z.to_nat MAX_SIMULT_POINTS) zero_point;
     cur_npts := 0; publishing := false |}.

(** Sizes of the structs, as laid out. *)
Definition sizeof_hist_hdr : Z := 6 + 1 + 1.
Definition sizeof_subhist : Z := 7 + 1 + 4 * TES_JITTER_NBINS.
Definition sizeof_hist : Z := sizeof_hist_hdr + TES_JITTER_NHISTS * sizeof_subhist.
Definition sizeof_conf : Z := 16.

(** [self->frontends[i].type == ty] *)
Definition has_type t (i : nat) (ty : zmq_type) : bool :=
  match frontends t !! i, ty with
  | Some ep, ZMQ_REP => match ep_type ep with ZMQ_REP => true | ZMQ_XPUB => false end
  | Some ep, ZMQ_XPUB => match ep_type ep with ZMQ_XPUB => true | ZMQ_REP => false end
  | None, _ => false
  end.

Definition task_jitter_init t : exec (Z * task s_data_t) :=
  c_assert (TES_JITTER_NHISTS =? TES_NCHANNELS - 1);;
  c_assert (sizeof_hist_hdr =? TES_JITTER_HDR_LEN);;
  c_assert (sizeof_hist =? TES_JITTER_SIZE);;
  c_assert (sizeof_subhist =? TES_JITTER_SUBSIZE);;
  c_assert (sizeof_conf =? CONF_LEN);;
  c_assert (BIN_OFFSET =? Z.quot TES_JITTER_NBINS 2);;
  c_assert (has_type t ENDP_REP ZMQ_REP);;
  c_assert (has_type t ENDP_PUB ZMQ_XPUB);;
  mret (0, set_data t init_data).

Definition task_jitter_wakeup t : exec (Z * task s_data_t) :=
  let d := set_publishing
    (set_points (data t) (replicate (Z.to_nat MAX_SIMULT_POINTS) zero_point) 0) false in
  d ← s_prep_next d;
  mret (0, set_data t d).

#[export] Instance impl : TaskImpl s_data_t :=
  {| pkt_handler := task_jitter_pkt_hn; data_wakeup := Some task_jitter_wakeup;
     data_sleep := None |}.
End Handlers.

(** ** Specification: the points between two reference events *)

(** An event as the task sees it: its delay since the previous event, and
    whether it is a reference event, a tick, or goes to histogram [h]. *)
Inductive event : Type := Ref (delay : Z) | Tick (delay : Z) | Other (delay h : Z).

Definition sat (z : Z) : Z := Z.min UINT16_MAX z.

(** The points tracked since the last reference event, the delay since it,
    and the histogram; no points before the first reference event. *)
Record state : Type := { st_pts : option (list s_point_t * Z); st_hist : s_hist_t }.

Definition add_until (delay : Z) (pt : s_point_t) : s_point_t :=
  {| delay_since := delay_since pt; delay_until := sat (delay_until pt + delay);
     hid := hid pt |}.

(** One more in the bin of a point. *)
Definition count_point (h : s_hist_t) (pt : s_point_t) : s_hist_t :=
  {| hdr_ref_ch := hdr_ref_ch h; hdr_nhists := hdr_nhists h;
     hists := alter (fun sub => {| sub_ch := sub_ch sub;
       bins := alter (fun n => to_u32 (n + 1)) (Z.to_nat (bin_of pt)) (bins sub) |})
       (Z.to_nat (hid pt)) (hists h) |}.

(** At most 14 points are tracked. *)
Definition max_points : nat := 14.

Definition spec_event (st : state) (ev : event) : state :=
  match st_pts st, ev with
  | None, Ref _ => {| st_pts := Some ([], 0); st_hist := st_hist st |}
  | None, _ => st
  | Some (pts, g), Ref d =>
      {| st_pts := Some ([], 0);
         st_hist := fold_left count_point (add_until d <$> pts) (st_hist st) |}
  | Some (pts, g), Tick d =>
      {| st_pts := Some (add_until d <$> pts, sat (g + d)); st_hist := st_hist st |}
  | Some (pts, g), Other d h =>
      let pts := add_until d <$> pts in
      {| st_pts := Some (if (length pts <? max_points)%nat
                         then pts ++ [{| delay_since := sat (g + d); delay_until := 0; hid := h |}]
                         else pts, sat (g + d));
         st_hist := st_hist st |}
  end.

Definition good_point (pt : s_point_t) : Prop :=
  is_u16 (delay_since pt) /\ is_u16 (delay_until pt) /\ 0 <= hid pt < TES_JITTER_NHISTS.

Definition hist_ok (h : s_hist_t) : Prop :=
  Z.of_nat (length (hists h)) = TES_JITTER_NHISTS /\
  Forall (fun sub => Z.of_nat (length (bins sub)) = TES_JITTER_NBINS) (hists h).

(** The data holds the state [st]. *)
Record holds (d : s_data_t) (st : state) : Prop := {
  ho_len : Z.of_nat (length (points d)) = MAX_SIMULT_POINTS;
  ho_hist : hist d = st_hist st;
  ho_hist_ok : hist_ok (hist d);
  ho_pts : match st_pts st with
           | None => cur_npts d = 0
           | Some (pts, g) => (exists rest, points d = pts ++ ghost g :: rest) /\
               cur_npts d = Z.of_nat (length pts) + 1 /\ (length pts <= max_points)%nat /\
               Forall good_point pts /\ is_u16 g
           end;
}.

(** ** The loops *)

Lemma get_point_app l1 pt l2 p :
  p = Z.of_nat (length l1) -> get_point (l1 ++ pt :: l2) p = Done pt.
Proof.
  intros ->. unfold get_point. rewrite (proj2 (Z.ltb_ge _ _)) by lia.
  rewrite Nat2Z.id, lookup_app_r, Nat.sub_diag by lia. done.
Qed.

Lemma put_point_app l1 pt pt' l2 p :
  p = Z.of_nat (length l1) -> put_point (l1 ++ pt :: l2) p pt' = l1 ++ pt' :: l2.
Proof.
  intros ->. unfold put_point. rewrite Nat2Z.id.
  rewrite insert_app_r_alt, Nat.sub_diag by lia. done.
Qed.

Lemma add_to_until_sat pt delay :
  is_u16 (delay_until pt) -> is_u16 delay -> s_add_to_until pt delay = add_until delay pt.
Proof.
  intros H1 H2. unfold s_add_to_until, add_until, sat, is_u16 in *. f_equal.
  destruct (Z.ltb_spec UINT16_MAX (delay_until pt + delay)); unfold UINT16_MAX in *;
    [lia|rewrite to_u16_id by (unfold is_u16; lia); lia].
Qed.

Lemma add_to_since_sat pt delay :
  is_u16 (delay_since pt) -> is_u16 delay ->
  s_add_to_since pt delay =
    {| delay_since := sat (delay_since pt + delay); delay_until := delay_until pt;
       hid := hid pt |}.
Proof.
  intros H1 H2. unfold s_add_to_since, sat, is_u16 in *. f_equal.
  destruct (Z.ltb_spec UINT16_MAX (delay_since pt + delay)); unfold UINT16_MAX in *;
    [lia|rewrite to_u16_id by (unfold is_u16; lia); lia].
Qed.

Lemma until_loop_app l1 l2 l3 delay p :
  p = Z.of_nat (length l1) -> Forall good_point l2 -> is_u16 delay ->
  until_loop (length l2) p delay (l1 ++ l2 ++ l3) = Done (l1 ++ (add_until delay <$> l2) ++ l3).
Proof.
  revert l1 p. induction l2 as [|pt l2 IH]; intros l1 p Hp Hg Hd; [done|].
  apply Forall_cons_1 in Hg as [Hpt Hg]. simpl.
  rewrite get_point_app by done. simpl. rewrite put_point_app by done.
  rewrite add_to_until_sat by (done || apply Hpt).
  specialize (IH (l1 ++ [add_until delay pt]) (p + 1)).
  rewrite <- !app_assoc in IH. simpl in IH. apply IH; [|done..].
  rewrite length_app. simpl. lia.
Qed.

Lemma bin_of_range pt : 0 <= bin_of pt < TES_JITTER_NBINS.
Proof. unfold bin_of, TES_JITTER_NBINS. repeat case_if; bool_hyps; lia. Qed.

Lemma count_point_ok h pt : hist_ok h -> hist_ok (count_point h pt).
Proof.
  intros [Hl Hb]. split; simpl; [by rewrite length_alter|].
  apply Forall_alter; [done|]. intros sub Hs Hf. simpl. by rewrite length_alter.
Qed.

Lemma alter_insert {A} (f : A -> A) (l : list A) i x :
  l !! i = Some x -> alter f i l = <[i := f x]> l.
Proof.
  revert i. induction l as [|y l IH]; intros [|i] H; try done; simpl in *.
  - by injection H as ->.
  - f_equal. by apply IH.
Qed.

Lemma save_loop_app l1 l2 l3 h p :
  p = Z.of_nat (length l1) -> Forall good_point l2 -> hist_ok h ->
  save_loop (length l2) p (l1 ++ l2 ++ l3) h = Done (fold_left count_point l2 h) /\
  hist_ok (fold_left count_point l2 h).
Proof.
  revert l1 p h. induction l2 as [|pt l2 IH]; intros l1 p h Hp Hg Hok; [done|].
  apply Forall_cons_1 in Hg as [(_ & _ & Hh) Hg]. simpl.
  rewrite get_point_app by done. simpl.
  rewrite (proj2 (Z.ltb_lt _ _)), (proj2 (Z.leb_le _ _)) by lia. simpl.
  pose proof Hok as [Hl Hb].
  destruct (lookup_lt_is_Some_2 (hists h) (Z.to_nat (hid pt))) as [sub Hs]; [lia|].
  rewrite Hs. simpl. pose proof (Forall_lookup_1 _ _ _ _ Hb Hs) as Hbl. simpl in Hbl.
  pose proof (bin_of_range pt) as Hr. unfold inc_bin.
  destruct (lookup_lt_is_Some_2 (bins sub) (Z.to_nat (bin_of pt))) as [n Hn]; [lia|].
  rewrite Hn. simpl.
  destruct (IH (l1 ++ [pt]) (p + 1) (count_point h pt)) as [E1 E2];
    [rewrite length_app; simpl; lia|done|by apply count_point_ok|].
  rewrite <- !app_assoc in E1. simpl in E1. split; [|done]. rewrite <- E1. f_equal.
  unfold count_point. f_equal. rewrite (alter_insert _ _ _ _ Hs).
  by rewrite (alter_insert _ _ _ _ Hn).
Qed.

(** ** One event *)

Lemma sat_u16 a b : is_u16 a -> is_u16 b -> is_u16 (sat (a + b)).
Proof. unfold is_u16, sat, UINT16_MAX. lia. Qed.

Lemma add_until_good delay pt : is_u16 delay -> good_point pt -> good_point (add_until delay pt).
Proof. intros Hd (H1 & H2 & H3). split; [done|]. split; [by apply sat_u16|done]. Qed.

Lemma add_until_goods delay pts :
  is_u16 delay -> Forall good_point pts -> Forall good_point (add_until delay <$> pts).
Proof.
  intros Hd Hg. apply Forall_fmap. revert Hg. apply Forall_impl.
  intros pt. by apply add_until_good.
Qed.

(** The event a frame's delay and channel stand for. *)
Definition event_of (d : s_data_t) (delay CH : Z) (is_tick : bool) : event :=
  if is_tick then Tick delay
  else if CH =? conf_ref_ch (cur_conf d) then Ref delay
  else Other delay (if conf_ref_ch (cur_conf d) <? CH then CH - 1 else CH).

(** What the loop over events leaves alone. *)
Definition same_job (d d' : s_data_t) : Prop :=
  cur_conf d' = cur_conf d /\ conf d' = conf d /\ ticks d' = ticks d /\
  publishing d' = publishing d.

Lemma put_point_0 pt ps : ps <> [] -> put_point ps 0 pt = pt :: drop 1 ps.
Proof. by destruct ps. Qed.

(** A reference event on a task that tracks [pts]. *)
Lemma s_save_points_spec d pts g rest :
  points d = pts ++ ghost g :: rest -> cur_npts d = Z.of_nat (length pts) + 1 ->
  Forall good_point pts -> hist_ok (hist d) ->
  Z.of_nat (length (points d)) = MAX_SIMULT_POINTS ->
  exists d', s_save_points d = Done d' /\ same_job d d' /\ cur_npts d' = 1 /\
    holds d' {| st_pts := Some ([], 0); st_hist := fold_left count_point pts (hist d) |}.
Proof.
  intros Hp Hn Hg Hh Hl. unfold s_save_points. rewrite Hn, Hp.
  replace (Z.to_nat (Z.of_nat (length pts) + 1 - 1)) with (length pts) by lia.
  destruct (save_loop_app [] pts (ghost g :: rest) (hist d) 0) as [E Hok]; [done..|].
  simpl in E. rewrite E. simpl.
  assert (exists x, get_point (pts ++ ghost g :: rest) 0 = Done x) as [x ->]
    by (destruct pts; by eexists).
  simpl. eexists. split; [reflexivity|]. split; [done|]. split; [done|].
  assert (Hne : pts ++ ghost g :: rest <> []) by by destruct pts.
  split; simpl; try done.
  - rewrite put_point_0 by done. rewrite Hp in Hl. rewrite <- Hl. simpl.
    rewrite length_drop. destruct (pts ++ ghost g :: rest); [done|simpl; lia].
  - split; [eexists; by rewrite put_point_0|]. split; [done|].
    split; [unfold max_points; lia|]. split; [constructor|unfold is_u16; lia].
Qed.

Lemma first_ref_spec d :
  cur_npts d = 0 -> hist_ok (hist d) -> Z.of_nat (length (points d)) = MAX_SIMULT_POINTS ->
  exists d', s_save_points d = Done d' /\ same_job d d' /\ cur_npts d' = 1 /\
    holds d' {| st_pts := Some ([], 0); st_hist := hist d |}.
Proof.
  intros Hn Hh Hl. unfold s_save_points. rewrite Hn. simpl.
  unfold MAX_SIMULT_POINTS in Hl. destruct (points d) as [|p ps] eqn:Ep; [done|].
  simpl. eexists. split; [reflexivity|]. split; [done|]. split; [done|].
  split; simpl; try done.
  split; [by eexists|]. split; [done|].
  split; [unfold max_points; lia|]. split; [constructor|unfold is_u16; lia].
Qed.

Definition chan_ok (d : s_data_t) (CH : Z) (is_tick : bool) : Prop :=
  0 <= conf_ref_ch (cur_conf d) <= TES_JITTER_NHISTS /\
  (is_tick = false -> 0 <= CH < TES_NCHANNELS).

Lemma hid_range d CH is_tick :
  chan_ok d CH is_tick -> is_tick = false -> CH <> conf_ref_ch (cur_conf d) ->
  0 <= (if conf_ref_ch (cur_conf d) <? CH then CH - 1 else CH) < TES_JITTER_NHISTS.
Proof.
  intros [H1 H2] Ht Hne. specialize (H2 Ht). unfold TES_JITTER_NHISTS, TES_NCHANNELS in *.
  case_if; bool_hyps; lia.
Qed.

(** A new point takes the place of the last one, with a new last one after. *)
Lemma new_point_spec pts g rest h :
  Z.of_nat (length (pts ++ ghost g :: rest)) = MAX_SIMULT_POINTS ->
  (length pts < max_points)%nat ->
  let i := Z.of_nat (length pts) in
  let ps := pts ++ ghost g :: rest in
  exists x rest', get_point ps (i + 1) = Done x /\
    put_point (put_point ps i {| delay_since := g; delay_until := 0; hid := h |}) (i + 1) (ghost g)
      = (pts ++ [{| delay_since := g; delay_until := 0; hid := h |}]) ++ ghost g :: rest' /\
    length ((pts ++ [{| delay_since := g; delay_until := 0; hid := h |}]) ++ ghost g :: rest')
      = length ps.
Proof.
  intros Hl Hm i ps. unfold MAX_SIMULT_POINTS, max_points in *.
  rewrite length_app in Hl. simpl in Hl.
  destruct rest as [|x rest]; [simpl in Hl; lia|]. exists x, rest. unfold ps, i. split.
  - change (ghost g :: x :: rest) with ([ghost g] ++ x :: rest). rewrite app_assoc.
    apply get_point_app. rewrite length_app. simpl. lia.
  - rewrite put_point_app by done.
    change (?a :: x :: rest) with ([a] ++ x :: rest). rewrite app_assoc.
    rewrite put_point_app by (rewrite length_app; simpl; lia). split; [done|].
    rewrite !length_app. simpl. lia.
Qed.

Lemma event_step_waiting d st delay CH is_tick :
  holds d st -> st_pts st = None ->
  exists r d', event_step d delay CH is_tick = Done (r, d') /\ same_job d d' /\
    holds d' (spec_event st (event_of d delay CH is_tick)) /\
    r = (cur_npts d' =? 0).
Proof.
  intros Hh Hst. pose proof Hh as [Hl Hhi Hok Hp]. rewrite Hst in Hp.
  unfold event_step, event_of, spec_event. rewrite Hst, Hp.
  destruct is_tick; simpl.
  { rewrite !andb_false_r. simpl. exists true, d. rewrite Hp. done. }
  destruct (CH =? conf_ref_ch (cur_conf d)); simpl.
  2:{ exists true, d. by rewrite Hp. }
  destruct (first_ref_spec (set_points d (points d) 0)) as (d' & -> & Hj & Hn & Hd'); try done.
  simpl. rewrite Hn. simpl. exists false, d'. simpl in Hd'. rewrite Hhi in Hd'.
  by rewrite Hn.
Qed.

(** An event while points are followed: a tick, a reference event or another. *)
Section TrackEvent.
Context (d : s_data_t) (st : state) (delay CH : Z) (is_tick : bool) (pts : list s_point_t) (g : Z).
Hypotheses (Hh : holds d st) (Hst : st_pts st = Some (pts, g)).
Hypotheses (Hd : is_u16 delay) (Hch : chan_ok d CH is_tick).
Let pts' := add_until delay <$> pts.

Definition event_tracked : Prop :=
  exists d', event_step d delay CH is_tick = Done (false, d') /\ same_job d d' /\
    holds d' (spec_event st (event_of d delay CH is_tick)) /\ cur_npts d' <> 0.

(** The points once the delay is added to them. *)
Record tracked (rest : list s_point_t) : Prop := {
  tk_cur : cur_npts d = Z.of_nat (length pts) + 1;
  tk_max : (length pts <= max_points)%nat;
  tk_loop : until_loop (Z.to_nat (cur_npts d - 1)) 0 delay (points d) = Done (pts' ++ ghost g :: rest);
  tk_len : Z.of_nat (length (pts' ++ ghost g :: rest)) = MAX_SIMULT_POINTS;
  tk_good : Forall good_point pts' /\ length pts' = length pts;
  tk_ghost : is_u16 g /\ s_add_to_since (ghost g) delay = ghost (sat (g + delay));
  tk_get : forall x, get_point (pts' ++ ghost x :: rest) (cur_npts d - 1) = Done (ghost x);
  tk_put : forall x y, put_point (pts' ++ x :: rest) (cur_npts d - 1) y = pts' ++ y :: rest;
}.

Lemma track_until : exists rest, tracked rest.
Proof.
  destruct Hh as [Hl _ _ Hp]. rewrite Hst in Hp. destruct Hp as ((rest & Hps) & Hn & Hm & Hg & Hgu).
  exists rest. assert (Hlen : length pts' = length pts) by apply length_fmap.
  split; try done.
  - replace (Z.to_nat (cur_npts d - 1)) with (length pts) by lia.
    pose proof (until_loop_app [] pts (ghost g :: rest) delay 0 eq_refl Hg Hd) as Eu.
    simpl in Eu. by rewrite Hps, Eu.
  - rewrite <- Hl, Hps, !length_app. simpl. by rewrite Hlen.
  - split; [by apply add_until_goods|done].
  - split; [done|by rewrite add_to_since_sat].
  - intros x. apply get_point_app. lia.
  - intros x y. apply put_point_app. lia.
Qed.

Lemma event_tick : is_tick = true -> event_tracked.
Proof.
  intros Ht. destruct track_until as (rest & [Hn Hm Eu Hlp [Hg Hlen] [Hgu Esat] Hgp Hpp]).
  unfold event_tracked, event_step, event_of, spec_event. rewrite Hst, Ht.
  rewrite (proj2 (Z.eqb_neq (cur_npts d) 0)), !andb_false_r, Eu by lia. simpl.
  rewrite Hgp. simpl. rewrite Hpp, Esat. simpl.
  rewrite (proj2 (Z.ltb_lt 0 (cur_npts d))) by lia. simpl. fold pts'.
  destruct Hh as [Hl Hhi Hok _]. eexists. split; [reflexivity|]. split; [done|]. split; [|simpl; lia].
  split; simpl; try done.
  - rewrite <- Hlp, !length_app. done.
  - split; [by eexists|]. rewrite Hlen. repeat split; try done; apply sat_u16; done.
Qed.

Lemma event_ref : is_tick = false -> CH = conf_ref_ch (cur_conf d) -> event_tracked.
Proof.
  intros Ht Hr. destruct track_until as (rest & [Hn Hm Eu Hlp [Hg Hlen] [Hgu Esat] Hgp Hpp]).
  unfold event_tracked, event_step, event_of, spec_event. rewrite Hst, Ht.
  rewrite (proj2 (Z.eqb_neq (cur_npts d) 0)), !andb_false_r, Eu by lia. simpl.
  rewrite (proj2 (Z.eqb_eq _ _) Hr). simpl. fold pts'. destruct Hh as [Hl Hhi Hok _].
  destruct (s_save_points_spec (set_points d (pts' ++ ghost g :: rest) (cur_npts d))
    pts' g rest) as (d' & -> & Hj & Hn' & Hd'); try done; [simpl; lia|].
  simpl. rewrite Hn'. simpl. exists d'. simpl in Hd'. rewrite Hhi in Hd'. by rewrite Hn'.
Qed.

Lemma event_other : is_tick = false -> CH <> conf_ref_ch (cur_conf d) -> event_tracked.
Proof.
  intros Ht Hr. destruct track_until as (rest & [Hn Hm Eu Hlp [Hg Hlen] [Hgu Esat] Hgp Hpp]).
  unfold event_tracked, event_step, event_of, spec_event. rewrite Hst, Ht.
  rewrite (proj2 (Z.eqb_neq (cur_npts d) 0)), !andb_false_r, Eu by lia. simpl.
  rewrite (proj2 (Z.eqb_neq CH (conf_ref_ch (cur_conf d)))) by done. simpl. fold pts'.
  rewrite Hgp. simpl. rewrite Hpp, Esat. simpl.
  rewrite (proj2 (Z.ltb_lt 0 (cur_npts d))) by lia. simpl.
  rewrite (proj2 (Z.eqb_neq CH (conf_ref_ch (cur_conf d)))) by done. simpl.
  assert (Hlt : (cur_npts d <? MAX_SIMULT_POINTS - 1) = (length pts' <? max_points)%nat).
  { unfold MAX_SIMULT_POINTS, max_points. apply eq_bool_prop_intro.
    rewrite !Is_true_true, Z.ltb_lt, Nat.ltb_lt. lia. }
  destruct Hh as [Hl Hhi Hok _].
  rewrite Hlt. destruct (Nat.ltb_spec (length pts') max_points) as [Hx|Hx].
  - rewrite Hgp. simpl.
    destruct (new_point_spec pts' (sat (g + delay)) rest
      (if conf_ref_ch (cur_conf d) <? CH then CH - 1 else CH)) as (x & rest' & E1 & E2 & E3).
    { rewrite <- Hlp, !length_app. done. }
    { done. }
    replace (cur_npts d - 1) with (Z.of_nat (length pts')) by lia.
    rewrite E1. simpl. rewrite E2. rewrite to_u8_id by (unfold is_u8, max_points in *; lia).
    eexists. split; [reflexivity|]. split; [done|]. split; [|simpl; lia].
    split; simpl; try done; [by rewrite E3, <- Hlp, !length_app|].
    split; [by eexists|]. rewrite length_app. simpl. split; [lia|]. split; [unfold max_points in *; lia|].
    split; [|by apply sat_u16]. apply Forall_app_2; [done|]. apply Forall_cons_2; [|constructor].
    split; [by apply sat_u16|]. split; [unfold is_u16; simpl; lia|]. simpl. rewrite Ht in Hch. by eapply hid_range.
  - eexists. split; [reflexivity|]. split; [done|]. split; [|simpl; lia].
    split; simpl; try done; [by rewrite <- Hlp, !length_app|].
    split; [by eexists|]. repeat split; try done; try lia; apply sat_u16; done.
Qed.

Lemma event_step_tracking : event_tracked.
Proof.
  generalize event_tick event_ref event_other. case is_tick; [auto|].
  intros _ Hr Ho. destruct (Z.eq_dec CH (conf_ref_ch (cur_conf d))); auto.
Qed.
End TrackEvent.

(** ** The events of a frame *)

Definition is_ref_event (ev : event) : bool :=
  match ev with Ref _ => true | _ => false end.

(** The events of a frame in order; [true] when the rest is skipped because no
    reference event was seen yet. *)
Fixpoint spec_events (st : state) (evs : list event) : bool * state :=
  match evs with
  | [] => (false, st)
  | ev :: evs =>
      match st_pts st with
      | None => if is_ref_event ev then spec_events (spec_event st ev) evs else (true, st)
      | Some _ => spec_events (spec_event st ev) evs
      end
  end.

Definition frame_event (d : s_data_t) (pkt : tespkt) (is_tick : bool) (e : Z) : event :=
  event_of d (tespkt_event_toff pkt e) (ef_CH (tespkt_evt_fl pkt e)) is_tick.

(** The [n] events from [e] on. *)
Fixpoint frame_events (d : s_data_t) (pkt : tespkt) (is_tick : bool) (n : nat) (e : Z) : list event :=
  match n with
  | O => []
  | S n => frame_event d pkt is_tick e :: frame_events d pkt is_tick n (e + 1)
  end.

Lemma event_of_conf d d' delay CH is_tick :
  cur_conf d' = cur_conf d -> event_of d' delay CH is_tick = event_of d delay CH is_tick.
Proof. unfold event_of. by intros ->. Qed.

Lemma frame_events_conf d d' pkt is_tick n e :
  cur_conf d' = cur_conf d -> frame_events d' pkt is_tick n e = frame_events d pkt is_tick n e.
Proof.
  intros E. revert e. induction n as [|n IH]; intros e; [done|]. simpl. f_equal; [|apply IH].
  by apply event_of_conf.
Qed.

Lemma same_job_trans d1 d2 d3 : same_job d1 d2 -> same_job d2 d3 -> same_job d1 d3.
Proof. intros (?&?&?&?) (?&?&?&?). repeat split; congruence. Qed.

Definition chans_ok (d : s_data_t) (pkt : tespkt) (is_tick : bool) (n : Z) : Prop :=
  forall e, 0 <= e < n -> chan_ok d (ef_CH (tespkt_evt_fl pkt e)) is_tick.

Lemma event_step_spec d st pkt is_tick e :
  holds d st -> chan_ok d (ef_CH (tespkt_evt_fl pkt e)) is_tick ->
  exists r d', event_step d (tespkt_event_toff pkt e) (ef_CH (tespkt_evt_fl pkt e)) is_tick
      = Done (r, d') /\ same_job d d' /\
    holds d' (spec_event st (frame_event d pkt is_tick e)) /\
    r = match st_pts st with
        | None => negb (is_ref_event (frame_event d pkt is_tick e)) | Some _ => false end.
Proof.
  intros Hh Hc. destruct (st_pts st) as [[pts g]|] eqn:Hst.
  - destruct (event_step_tracking d st (tespkt_event_toff pkt e)
      (ef_CH (tespkt_evt_fl pkt e)) is_tick pts g Hh Hst) as (d' & E & Hj & Hd' & _); [|done|].
    + apply load16_range.
    + by exists false, d'.
  - destruct (event_step_waiting d st (tespkt_event_toff pkt e)
      (ef_CH (tespkt_evt_fl pkt e)) is_tick Hh Hst) as (r & d' & E & Hj & Hd' & ->).
    exists (cur_npts d' =? 0), d'. do 3 (split; [done|]).
    destruct Hd' as [_ _ _ Hp]. unfold spec_event in Hp. rewrite Hst in Hp.
    unfold frame_event. destruct (event_of _ _ _ _); simpl in *; [|by rewrite Hst in Hp; rewrite Hp..].
    destruct Hp as (_ & -> & _). done.
Qed.

Lemma event_loop_spec pkt is_tick is_trace n : forall k fuel e d st,
  tespkt_event_nums pkt = Done n -> (is_tick || is_trace = true -> n = 1) ->
  0 <= e -> e + Z.of_nat k = n -> (k <= fuel)%nat ->
  holds d st -> chans_ok d pkt is_tick n ->
  exists d', event_loop fuel pkt is_tick is_trace e d =
      Done ((spec_events st (frame_events d pkt is_tick k e)).1, d') /\
    same_job d d' /\ holds d' (spec_events st (frame_events d pkt is_tick k e)).2.
Proof.
  induction k as [|k IH]; intros fuel e d st En Hone He Hek Hf Hh Hc.
  { exists d. destruct fuel; simpl; rewrite En; simpl;
      by rewrite (proj2 (Z.leb_le _ _)) by lia. }
  destruct fuel as [|fuel]; [lia|]. simpl. rewrite En. simpl.
  rewrite (proj2 (Z.leb_gt _ _)) by lia.
  assert (E1 : (if is_tick || is_trace then dbg_assert (e =? 0) else mret tt) = Done tt).
  { destruct (is_tick || is_trace); [|done]. specialize (Hone eq_refl).
    by rewrite (proj2 (Z.eqb_eq e 0)) by lia. }
  rewrite E1. cbn [mbind exec_bind].
  destruct (event_step_spec d st pkt is_tick e Hh) as (r & d1 & -> & Hj & Hd1 & Hr);
    [apply Hc; lia|]. cbn [mbind exec_bind].
  assert (Hcont : forall st1, holds d1 st1 -> exists d',
    event_loop fuel pkt is_tick is_trace (e + 1) d1 =
      Done ((spec_events st1 (frame_events d pkt is_tick k (e + 1))).1, d') /\
    same_job d d' /\ holds d' (spec_events st1 (frame_events d pkt is_tick k (e + 1))).2).
  { intros st1 Hs1. destruct (IH fuel (e + 1) d1 st1) as (d' & E & Hj' & Hd'); try done; try lia.
    - unfold chans_ok, chan_ok. destruct Hj as (-> & _). exact Hc.
    - rewrite (frame_events_conf d d1) in E, Hd' by apply Hj. exists d'.
      split; [done|]. split; [by eapply same_job_trans|done]. }
  destruct (st_pts st) as [p|] eqn:Hst; subst r; [by apply Hcont|].
  destruct (is_ref_event _) eqn:Er; simpl; [by apply Hcont|].
  exists d1. split; [done|]. split; [done|].
  unfold spec_event in Hd1. rewrite Hst in Hd1.
  destruct (frame_event d pkt is_tick e); done.
Qed.

(** ** Publishing *)

Definition conf_ok (c : s_conf_t) : Prop :=
  0 < conf_ticks c < 2 ^ 64 /\ 0 <= conf_ref_ch c <= TES_JITTER_NHISTS.

Record job_ok (d : s_data_t) (st : state) : Prop := {
  jo_holds : holds d st;
  jo_cur : conf_ok (cur_conf d);
  jo_conf : conf_ok (conf d);
  jo_ticks : is_u64 (ticks d);
  jo_publishing : st_pts st = None \/ publishing d = true;
}.

(** A histogram without points for the configuration [c]. *)
Definition fresh_hist (c : s_conf_t) : s_hist_t :=
  {| hdr_ref_ch := conf_ref_ch c; hdr_nhists := TES_JITTER_NHISTS;
     hists := sub_channels (Z.to_nat TES_JITTER_NHISTS) 0 (conf_ref_ch c) |}.

Lemma fresh_hist_ok c : hist_ok (fresh_hist c).
Proof. split; [done|]. simpl. repeat constructor. Qed.


Section Handler.
Context `{ZEnv}.
Implicit Types t : task s_data_t.



(** A frame the task looks at: valid, of events, at the start of a trace if it
    is one, with the channels the server knows, once a tick was seen. *)
Record counted (d : s_data_t) (pkt : tespkt) : Prop := {
  co_valid : valid_frame pkt;
  co_event : tespkt_is_event pkt = true;
  co_header : tespkt_is_trace_long pkt = true -> tespkt_is_header pkt = true;
  co_started : publishing d = true \/ tespkt_is_tick pkt = true;
  co_chans : forall n, tespkt_event_nums pkt = Done n -> tespkt_is_tick pkt = false ->
    forall e, 0 <= e < n -> ef_CH (tespkt_evt_fl pkt e) < TES_NCHANNELS;
}.

Definition ticks_after (d : s_data_t) (pkt : tespkt) : Z :=
  if tespkt_is_tick pkt then to_u64 (ticks d + 1) else ticks d.

(** The events of a counted frame. *)
Definition events_of (d : s_data_t) (pkt : tespkt) : list event :=
  match tespkt_event_nums pkt with
  | Done n => frame_events d pkt (tespkt_is_tick pkt) (Z.to_nat n) 0
  | Failed _ => []
  end.

Lemma counted_nums d pkt :
  counted d pkt -> exists n, tespkt_event_nums pkt = Done n /\ 1 <= n <= 184 /\
    (tespkt_is_tick pkt || tespkt_is_trace_long pkt = true -> n = 1).
Proof.
  intros [Hv He Hh _ _].
  destruct (tespkt_is_tick pkt) eqn:Et.
  { exists 1. rewrite valid_tick_nums by done. repeat split; lia. }
  destruct (tespkt_is_trace pkt) eqn:Er.
  - exists 1. rewrite trace_event_nums by done.
    destruct (tespkt_is_trace_long pkt) eqn:El.
    + rewrite Hh by done. repeat split; lia.
    + unfold tespkt_is_trace_long in El. rewrite Er in El.
      destruct (tespkt_is_trace_dp pkt); [|done]. rewrite orb_true_r. repeat split; lia.
  - destruct (valid_event_nums pkt Hv He Er) as (n & -> & Hn & _). exists n.
    unfold tespkt_is_trace_long. rewrite Er. done.
Qed.

Lemma event_chan_range pkt e : 0 <= ef_CH (tespkt_evt_fl pkt e) < 8.
Proof. apply ef_CH_range. Qed.

Lemma pkt_hn_events t pkt flen missed st :
  job_ok (data t) st -> counted (data t) pkt ->
  exists d', task_jitter_pkt_hn t pkt flen missed 0 =
      (if (spec_events st (events_of (data t) pkt)).1 then Done (0, set_data t d')
       else publish t d') /\
    job_ok d' (spec_events st (events_of (data t) pkt)).2 /\
    ticks d' = ticks_after (data t) pkt /\ cur_conf d' = cur_conf (data t) /\
    conf d' = conf (data t) /\ publishing d' = true.
Proof.
  intros [Hh Hc Hcf Hu Hp] Hco. destruct (counted_nums _ _ Hco) as (n & En & Hn & Hone).
  destruct Hco as [Hv He Hhd Hst Hch]. unfold task_jitter_pkt_hn, events_of. rewrite En.
  set (d0 := if negb (publishing (data t)) && tespkt_is_tick pkt
             then set_publishing (data t) true else data t).
  assert (Hd0 : holds d0 st /\ publishing d0 = true /\ ticks d0 = ticks (data t) /\
    cur_conf d0 = cur_conf (data t) /\ conf d0 = conf (data t)).
  { unfold d0. destruct (publishing (data t)) eqn:Ep; simpl; [done|].
    destruct Hst as [?| ->]; [congruence|]. simpl. destruct Hh. split; [by split|done]. }
  destruct Hd0 as (Hh0 & Hp0 & Ht0 & Hc0 & Hcf0).
  destruct Hc as [Hc1 Hc2].
  rewrite (proj2 (Z.ltb_lt 0 _)) by lia. cbn [dbg_assert c_assert mbind exec_bind].
  rewrite (proj2 (Z.ltb_lt (cur_npts (data t)) _)).
  2:{ destruct Hh as [_ _ _ Hpts]. unfold MAX_SIMULT_POINTS.
      destruct (st_pts st) as [[pts g]|]; unfold max_points in *; lia. }
  cbn [dbg_assert c_assert mbind exec_bind]. rewrite Hp0, He. cbn [negb orb c_true Z.eqb].
  assert (Htr : tespkt_is_trace_long pkt && negb (tespkt_is_header pkt) = false).
  { destruct (tespkt_is_trace_long pkt); [|done]. by rewrite Hhd. }
  rewrite Htr.
  set (d1 := if tespkt_is_tick pkt then set_ticks d0 (to_u64 (ticks d0 + 1)) else d0).
  assert (Hd1 : holds d1 st /\ publishing d1 = true /\ ticks d1 = ticks_after (data t) pkt /\
    cur_conf d1 = cur_conf (data t) /\ conf d1 = conf (data t)).
  { unfold d1, ticks_after. rewrite Ht0. destruct (tespkt_is_tick pkt); [|done].
    destruct Hh0. split; [by split|done]. }
  destruct Hd1 as (Hh1 & Hp1 & Ht1 & Hc1' & Hcf1).
  destruct (event_loop_spec pkt (tespkt_is_tick pkt) (tespkt_is_trace_long pkt) n
    (Z.to_nat n) event_fuel 0 d1 st) as (d' & E & (J1 & J2 & J3 & J4) & Hd'); try done; try lia.
  { unfold event_fuel. lia. }
  { intros e He'. split; [by rewrite Hc1'|]. intros Hk. split; [apply event_chan_range|].
    by apply (Hch n). }
  rewrite (frame_events_conf (data t) d1) in E, Hd' by done. rewrite E.
  exists d'. cbn [mbind exec_bind]. split; [by destruct (spec_events _ _).1|].
  rewrite J1, J2, J3, J4, Hc1', Hcf1, Ht1, Hp1. split; [|done].
  split; [done|by rewrite J1, Hc1'|by rewrite J2, Hcf1| |right; by rewrite J4].
  rewrite J3, Ht1. unfold ticks_after. case_if; [apply to_u64_range|done].
Qed.



End Handler.

(** ** Closed form of an interval between two reference events *)

(** An event of another channel that goes to histogram [h], or a tick. *)
Record between : Type := { b_delay : Z; b_hist : option Z }.

Definition event_between (b : between) : event :=
  match b_hist b with Some h => Other (b_delay b) h | None => Tick (b_delay b) end.

Definition total (bs : list between) : Z := fold_right (fun b z => b_delay b + z) 0 bs.

(** The points of an interval: of each event of another channel the time since
    the reference before it and the time until the one after it, both
    saturated; [acc] is the time since the reference so far. *)
Fixpoint interval_points (acc : Z) (bs : list between) (last : Z) : list s_point_t :=
  match bs with
  | [] => []
  | b :: bs =>
      match b_hist b with
      | Some h => [{| delay_since := sat (acc + b_delay b);
                      delay_until := sat (total bs + last); hid := h |}]
      | None => []
      end ++ interval_points (acc + b_delay b) bs last
  end.

Definition others (bs : list between) : nat :=
  length (List.filter (fun b => bool_decide (b_hist b <> None)) bs).

Lemma sat_sat a b : 0 <= a -> 0 <= b -> sat (sat a + b) = sat (a + b).
Proof. unfold sat, UINT16_MAX. lia. Qed.

Lemma add_until_add a b pt :
  0 <= delay_until pt -> 0 <= a -> 0 <= b ->
  add_until b (add_until a pt) = add_until (a + b) pt.
Proof.
  intros. unfold add_until. simpl. f_equal. rewrite sat_sat by lia. f_equal. lia.
Qed.

Lemma add_until_adds a b pts :
  Forall good_point pts -> 0 <= a -> 0 <= b ->
  add_until b <$> (add_until a <$> pts) = add_until (a + b) <$> pts.
Proof.
  intros Hg Ha Hb. rewrite <- list_fmap_compose. apply list_fmap_ext. intros i pt Hi.
  pose proof (Forall_lookup_1 _ _ _ _ Hg Hi) as (_ & [? _] & _). simpl.
  by apply add_until_add.
Qed.

Definition between_ok (b : between) : Prop :=
  is_u16 (b_delay b) /\ match b_hist b with Some h => 0 <= h < TES_JITTER_NHISTS | None => True end.

Lemma total_nonneg bs : Forall between_ok bs -> 0 <= total bs.
Proof. induction 1 as [|b bs [[? _] _] _ IH]; simpl; lia. Qed.

Lemma spec_other pts acc h d k :
  0 <= acc -> 0 <= d -> (length pts < max_points)%nat ->
  spec_event {| st_pts := Some (pts, sat acc); st_hist := h |} (Other d k) =
  {| st_pts := Some ((add_until d <$> pts)
       ++ [{| delay_since := sat (acc + d); delay_until := 0; hid := k |}], sat (acc + d));
     st_hist := h |}.
Proof.
  intros Ha Hd Hm. unfold spec_event, st_pts, st_hist.
  rewrite length_fmap, (proj2 (Nat.ltb_lt _ _)), sat_sat by lia. done.
Qed.

Lemma spec_tick pts acc h d :
  0 <= acc -> 0 <= d ->
  spec_event {| st_pts := Some (pts, sat acc); st_hist := h |} (Tick d) =
  {| st_pts := Some (add_until d <$> pts, sat (acc + d)); st_hist := h |}.
Proof. intros Ha Hd. unfold spec_event, st_pts, st_hist. by rewrite sat_sat by lia. Qed.

Lemma interval_spec bs last acc pts h :
  Forall between_ok bs -> is_u16 last -> 0 <= acc -> Forall good_point pts ->
  (length pts + others bs <= max_points)%nat ->
  spec_event (fold_left spec_event (event_between <$> bs)
    {| st_pts := Some (pts, sat acc); st_hist := h |}) (Ref last) =
  {| st_pts := Some ([], 0);
     st_hist := fold_left count_point
       ((add_until (total bs + last) <$> pts) ++ interval_points acc bs last) h |}.
Proof.
  intros Hb [Hl Hl']. revert acc pts. induction bs as [|b bs IH]; intros acc pts Ha Hg Hm.
  { simpl. by rewrite app_nil_r. }
  apply Forall_cons_1 in Hb as [[Hd Hh] Hb]. pose proof (total_nonneg bs Hb) as Ht.
  pose proof Hd as [Hd0 _].
  change (fold_left spec_event (event_between <$> b :: bs) ?st)
    with (fold_left spec_event (event_between <$> bs) (spec_event st (event_between b))).
  unfold event_between at 2. unfold others in Hm. simpl in Hm. simpl interval_points.
  destruct (b_hist b) as [k|].
  - rewrite bool_decide_true in Hm by done. simpl in Hm.
    rewrite spec_other by (done || lia). rewrite IH; [|done|lia| |].
    + rewrite fmap_app, add_until_adds by (done || lia).
      rewrite <- app_assoc. simpl total. by rewrite Z.add_assoc.
    + apply Forall_app_2; [by apply add_until_goods|]. apply Forall_cons_2; [|constructor].
      split; [unfold is_u16, sat, UINT16_MAX; simpl; lia|].
      split; [unfold is_u16; simpl; lia|done].
    + rewrite length_app, length_fmap. unfold others. simpl. lia.
  - rewrite bool_decide_false in Hm by (intros G; by apply G).
    rewrite spec_tick by (done || lia).
    rewrite IH; [|done|lia|by apply add_until_goods|by rewrite length_fmap].
    rewrite add_until_adds by (done || lia). simpl total. by rewrite Z.add_assoc.
Qed.

(** Events as read from frames: delay, channel, whether of a tick frame. *)
Fixpoint run_events (evs : list (Z * Z * bool)) (d : s_data_t) : exec s_data_t :=
  match evs with
  | [] => mret d
  | (delay, CH, is_tick) :: evs =>
      '(_, d) ← event_step d delay CH is_tick; run_events evs d
  end.

Definition raw_event (d : s_data_t) (x : Z * Z * bool) : event :=
  event_of d x.1.1 x.1.2 x.2.

Definition between_of (d : s_data_t) (x : Z * Z * bool) : between :=
  {| b_delay := x.1.1;
     b_hist := if x.2 then None
               else Some (if conf_ref_ch (cur_conf d) <? x.1.2 then x.1.2 - 1 else x.1.2) |}.

(** An event that is no reference, of a channel with a histogram, or a tick. *)
Definition raw_between (d : s_data_t) (x : Z * Z * bool) : Prop :=
  is_u16 x.1.1 /\ chan_ok d x.1.2 x.2 /\ (x.2 = false -> x.1.2 <> conf_ref_ch (cur_conf d)).

Lemma raw_between_event d x :
  raw_between d x ->
  raw_event d x = event_between (between_of d x) /\ between_ok (between_of d x).
Proof.
  destruct x as [[delay CH] is_tick]. intros (Hu & Hc & Hr).
  unfold raw_event, event_of, between_of, event_between, between_ok. simpl in *.
  destruct is_tick; [done|]. rewrite (proj2 (Z.eqb_neq _ _)) by auto.
  split; [done|]. split; [done|]. apply (hid_range d CH false Hc eq_refl). auto.
Qed.

Lemma run_events_holds evs d st :
  holds d st -> st_pts st <> None ->
  Forall (fun x => is_u16 x.1.1 /\ chan_ok d x.1.2 x.2) evs ->
  exists d', run_events evs d = Done d' /\ same_job d d' /\
    holds d' (fold_left spec_event (raw_event d <$> evs) st).
Proof.
  revert d st. induction evs as [|[[delay CH] is_tick] evs IH]; intros d st Hh Hs Hg.
  { by exists d. }
  apply Forall_cons_1 in Hg as [[Hu Hc] Hg]. simpl in Hu, Hc.
  destruct (st_pts st) as [[pts g]|] eqn:Hst; [|done].
  destruct (event_step_tracking d st delay CH is_tick pts g Hh Hst Hu Hc)
    as (d1 & E & Hj & Hd1 & _). simpl run_events. rewrite E. cbn [mbind exec_bind].
  pose proof Hj as (Hcc & _).
  destruct (IH d1 _ Hd1) as (d' & E' & Hj' & Hd').
  - unfold spec_event. rewrite Hst. by destruct (event_of _ _ _ _).
  - revert Hg. apply Forall_impl. intros x [? Hx]. split; [done|].
    unfold chan_ok. by rewrite Hcc.
  - exists d'. split; [done|]. split; [by eapply same_job_trans|].
    change (fold_left spec_event (raw_event d <$> (delay, CH, is_tick) :: evs) st) with
      (fold_left spec_event (raw_event d <$> evs) (spec_event st (event_of d delay CH is_tick))).
    assert (Ef : raw_event d1 <$> evs = raw_event d <$> evs).
    { apply list_fmap_ext. intros i x _. by apply event_of_conf. }
    by rewrite <- Ef.
Qed.

Section Ticks.
Context `{ZEnv}.
Implicit Types t : task s_data_t.

(** A sequence of frames without errors, with the dispatcher's bookkeeping. *)
Fixpoint run_frames (l : list tespkt) t : exec (Z * task s_data_t) :=
  match l with
  | [] => mret (0, t)
  | pkt :: l =>
      '(rc, t) ← task_jitter_pkt_hn t pkt (tespkt_flen pkt) 0 0;
      let t := update_seq pkt t in
      if c_true rc then mret (rc, t) else run_frames l t
  end.

Lemma tick_counted d pkt :
  valid_frame pkt -> tespkt_is_tick pkt = true -> counted d pkt.
Proof.
  intros Hv Ht. split; [done|by apply is_tick_event| |by right|].
  - intros Hl. unfold tespkt_is_trace_long in Hl.
    by rewrite (is_tick_not_trace pkt Ht) in Hl.
  - intros n _ Hk. congruence.
Qed.

(** Ticks alone are counted and nothing else happens. *)
Lemma waiting_ticks l t st :
  job_ok (data t) st -> st_pts st = None ->
  Forall (fun pkt => valid_frame pkt /\ tespkt_is_tick pkt = true) l ->
  ticks (data t) + Z.of_nat (length l) < 2 ^ 64 ->
  exists t', run_frames l t = Done (0, t') /\ job_ok (data t') st /\
    ticks (data t') = ticks (data t) + Z.of_nat (length l) /\
    cur_conf (data t') = cur_conf (data t) /\
    (l <> [] -> publishing (data t') = true).
Proof.
  revert t. induction l as [|pkt l IH]; intros t Hj Hst Hl Hlt.
  { exists t. simpl. rewrite Z.add_0_r. done. }
  apply Forall_cons_1 in Hl as [[Hv Ht] Hl]. simpl in Hlt. simpl run_frames.
  pose proof (tick_counted (data t) pkt Hv Ht) as Hco.
  destruct (pkt_hn_events t pkt (tespkt_flen pkt) 0 st Hj Hco) as (d' & -> & Hd' & E1 & E2 & _ & E4).
  assert (Es : spec_events st (events_of (data t) pkt) = (true, st)).
  { unfold events_of. rewrite (valid_tick_nums pkt Hv Ht), Ht. simpl. rewrite Hst. done. }
  rewrite Es in Hd' |- *. cbn [mbind exec_bind fst snd c_true Z.eqb negb].
  destruct (update_seq_ctl pkt (set_data t d')) as (_ & _ & Hdt). simpl in Hdt.
  assert (Hn : ticks d' = ticks (data t) + 1).
  { rewrite E1. unfold ticks_after. rewrite Ht. destruct Hj as [_ _ _ [? ?] _].
    apply to_u64_id. unfold is_u64. lia. }
  destruct (IH (update_seq pkt (set_data t d'))) as (t' & E & Hj' & Ht' & Hc' & Hp');
    rewrite ?Hdt; try done; [lia|].
  exists t'. split; [done|]. split; [done|]. rewrite Ht', Hc', Hdt, Hn. simpl length.
  split; [lia|]. split; [done|]. intros _. destruct l; [|by apply Hp'].
  simpl in E. injection E as <-. by rewrite Hdt.
Qed.

Lemma spec_events_some st evs : st_pts st <> None -> (spec_events st evs).1 = false.
Proof.
  revert st. induction evs as [|ev evs IH]; intros st Hs; [done|]. simpl.
  destruct (st_pts st) as [[pts g]|] eqn:E; [|done]. apply IH. unfold spec_event.
  rewrite E. by destruct ev.
Qed.

Lemma first_ref_not_skipped d st pkt :
  counted d pkt -> tespkt_is_tick pkt = false ->
  ef_CH (tespkt_evt_fl pkt 0) = conf_ref_ch (cur_conf d) ->
  (spec_events st (events_of d pkt)).1 = false.
Proof.
  intros Hco Ht Hr. destruct (counted_nums _ _ Hco) as (n & En & Hn & _).
  unfold events_of. rewrite En. destruct (Z.to_nat n) as [|k] eqn:Ek; [lia|]. simpl.
  assert (Ev : frame_event d pkt (tespkt_is_tick pkt) 0 = Ref (tespkt_event_toff pkt 0))
    by (unfold frame_event, event_of; by rewrite Ht, Hr, Z.eqb_refl).
  rewrite Ev. destruct (st_pts st) as [[pts g]|] eqn:E; simpl;
    apply spec_events_some; unfold spec_event; by rewrite E.
Qed.
End Ticks.
End Jitter.

#[local] Existing Instance Jitter.impl.

(** ** Properties *)


(** A task woken up with the configuration that publishes every tick. *)
Definition jitter_woken : task Jitter.s_data_t :=
  let c := {| Jitter.conf_ticks := 1; Jitter.conf_ref_ch := 0 |} in
  Task [] [0; 0; 0; 0] 0 0 0 false false false true
    {| Jitter.cur_conf := c; Jitter.conf := c; Jitter.hist := Jitter.fresh_hist c;
       Jitter.ticks := 0; Jitter.points := replicate 16 Jitter.zero_point;
       Jitter.cur_npts := 0; Jitter.publishing := false |} [].

Definition jitter_waiting : Jitter.state :=
  {| Jitter.st_pts := None;
     Jitter.st_hist := Jitter.fresh_hist {| Jitter.conf_ticks := 1; Jitter.conf_ref_ch := 0 |} |}.

Lemma jitter_woken_ok : Jitter.job_ok (data jitter_woken) jitter_waiting.
Proof.
  split.
  - split; [reflexivity|reflexivity|apply Jitter.fresh_hist_ok|reflexivity].
  - split; vm_compute; split; congruence.
  - split; vm_compute; split; congruence.
  - split; vm_compute; congruence.
  - left. reflexivity.
Qed.


(** between two reference events, at most 14 events of other channels
    among any number of ticks, the histogram gains one point per event of
    another channel: in its channel's bins, at the saturated time since the
    reference before it, or minus the time until the one after it if that is
    shorter, 511 being the bin of delay 0 and the outer bins taking the rest. *)
Theorem jitter_interval_counted (d : Jitter.s_data_t) h evs last :
  Jitter.holds d {| Jitter.st_pts := Some ([], 0); Jitter.st_hist := h |} ->
  Forall (Jitter.raw_between d) evs ->
  (Jitter.others (Jitter.between_of d <$> evs) <= Jitter.max_points)%nat ->
  is_u16 last -> Jitter.chan_ok d (Jitter.conf_ref_ch (Jitter.cur_conf d)) false ->
  (exists d', Jitter.run_events
      (evs ++ [(last, Jitter.conf_ref_ch (Jitter.cur_conf d), false)]) d = Done d' /\
    Jitter.holds d' {| Jitter.st_pts := Some ([], 0);
      Jitter.st_hist := fold_left Jitter.count_point
        (Jitter.interval_points 0 (Jitter.between_of d <$> evs) last) h |}) /\
  (forall pt, Jitter.bin_of pt = Z.max 0 (Z.min 1021 (511 +
    if Jitter.delay_until pt <? Jitter.delay_since pt
    then - Jitter.delay_until pt else Jitter.delay_since pt))).
Proof.
  intros Hh Hb Hm Hl Hc. split.
  2:{ intros pt. unfold Jitter.bin_of, TES_JITTER_NBINS, BIN_OFFSET.
      repeat case_if; bool_hyps; lia. }
  destruct (Jitter.run_events_holds
    (evs ++ [(last, Jitter.conf_ref_ch (Jitter.cur_conf d), false)]) d _ Hh)
    as (d' & E & _ & Hd'); [done| |].
  { apply Forall_app_2; [|by apply Forall_cons_2].
    revert Hb. apply Forall_impl. intros x (? & ? & _). done. }
  exists d'. split; [done|]. rewrite fmap_app, fold_left_app in Hd'.
  assert (Ee : Jitter.raw_event d <$> evs = Jitter.event_between <$> (Jitter.between_of d <$> evs)).
  { rewrite <- list_fmap_compose. apply list_fmap_ext. intros i x Hi.
    by apply Jitter.raw_between_event, (Forall_lookup_1 _ _ _ _ Hb Hi). }
  assert (Er : Jitter.raw_event d (last, Jitter.conf_ref_ch (Jitter.cur_conf d), false)
    = Jitter.Ref last) by (unfold Jitter.raw_event, Jitter.event_of; simpl; by rewrite Z.eqb_refl).
  rewrite Ee in Hd'. simpl fmap in Hd'. simpl fold_left in Hd' at 1. rewrite Er in Hd'.
  change 0 with (Jitter.sat 0) in Hd' at 1. rewrite Jitter.interval_spec in Hd'; try done.
  apply Forall_fmap. revert Hb. apply Forall_impl. intros x Hx.
  by apply Jitter.raw_between_event.
Qed.

Definition jitter_tracking : Jitter.s_data_t :=
  Jitter.set_points (data jitter_woken) (Jitter.ghost 0 :: replicate 15 Jitter.zero_point) 1.

Lemma jitter_tracking_ok :
  Jitter.holds jitter_tracking
    {| Jitter.st_pts := Some ([], 0); Jitter.st_hist := Jitter.hist jitter_tracking |}.
Proof.
  split; [reflexivity|reflexivity|apply Jitter.fresh_hist_ok|].
  split; [eexists; reflexivity|]. split; [reflexivity|].
  split; [unfold Jitter.max_points; simpl; lia|]. split; [constructor|unfold is_u16; lia].
Qed.

Lemma jitter_interval_counted_witness :
  exists d', Jitter.run_events [(300, 1, false); (50, 7, true); (20, 0, false)] jitter_tracking
    = Done d' /\
    Jitter.st_hist {| Jitter.st_pts := None; Jitter.st_hist := Jitter.hist d' |} =
      fold_left Jitter.count_point
        [{| Jitter.delay_since := 300; Jitter.delay_until := 70; Jitter.hid := 0 |}]
        (Jitter.hist jitter_tracking).
Proof.
  destruct (jitter_interval_counted jitter_tracking (Jitter.hist jitter_tracking)
    [(300, 1, false); (50, 7, true)] 20) as [(d' & E & Hd') _].
  - apply jitter_tracking_ok.
  - repeat (apply Forall_cons_2; [split; [unfold is_u16; simpl; lia|
      split; [split; [vm_compute; split; congruence|intros E; vm_compute in E |- *;
        try discriminate E; split; congruence]|vm_compute; congruence]]|]).
    apply Forall_nil_2.
  - vm_compute. lia.
  - unfold is_u16. lia.
  - split; [vm_compute; split; congruence|intros _; vm_compute; split; congruence].
  - exists d'. split; [exact E|]. simpl. rewrite (Jitter.ho_hist _ _ Hd'). reflexivity.
Defined.

(** If no reference event comes with the first [conf.ticks + 1] ticks after
    waking up, the ticks already counted stop the server when one does come:
    any number of tick frames above that, then a frame that starts with a
    reference event, fail the assertion on the number of ticks. *)
Theorem jitter_late_reference_aborts `{ZEnv} (t : task Jitter.s_data_t) st l pkt :
  Jitter.job_ok (data t) st -> Jitter.st_pts st = None ->
  Forall (fun pkt => valid_frame pkt /\ tespkt_is_tick pkt = true) l ->
  Jitter.conf_ticks (Jitter.cur_conf (data t)) + 1
    < Jitter.ticks (data t) + Z.of_nat (length l) < 2 ^ 64 ->
  valid_frame pkt -> tespkt_is_peak pkt = true -> l <> [] ->
  (forall n, tespkt_event_nums pkt = Done n -> forall e, 0 <= e < n ->
     ef_CH (tespkt_evt_fl pkt e) < TES_NCHANNELS) ->
  ef_CH (tespkt_evt_fl pkt 0) = Jitter.conf_ref_ch (Jitter.cur_conf (data t)) ->
  Jitter.run_frames (l ++ [pkt]) t = Failed AssertFail.
Proof.
  intros Hj Hst Hl Ht Hv Hpk Hne Hch Hr.
  destruct (Jitter.waiting_ticks l t st Hj Hst Hl) as (t1 & E & Hj1 & Ht1 & Hc1 & Hp1); [lia|].
  assert (Happ : forall l t t1, Jitter.run_frames l t = Done (0, t1) ->
    Jitter.run_frames (l ++ [pkt]) t = Jitter.run_frames [pkt] t1).
  { clear. induction l as [|f l IH]; intros t t1 E; [by injection E as ->|].
    simpl in E |- *. destruct (Jitter.task_jitter_pkt_hn _ _ _ _ _) as [[rc t2]|]; [|done].
    simpl in E |- *. destruct (c_true rc) eqn:Ec; [|by apply IH].
    injection E as -> _. discriminate. }
  rewrite (Happ _ _ _ E).
  assert (Het : tespkt_is_event pkt = true /\ tespkt_is_tick pkt = false /\
    tespkt_is_trace_long pkt = false).
  { clear -Hpk. unfold_kind. apply andb_true_iff in Hpk as [[Ee Ep]%andb_true_iff Et].
    apply Z.eqb_eq in Ep, Et. by rewrite Ee, Ep, Et. }
  destruct Het as (He & Hnt & Hnl).
  assert (Hco : Jitter.counted (data t1) pkt).
  { split; [done|done|congruence|left; by apply Hp1|]. intros n En _. by apply Hch. }
  destruct (Jitter.pkt_hn_events t1 pkt (tespkt_flen pkt) 0 st Hj1 Hco)
    as (d' & E1 & _ & Ht' & Hc' & _).
  simpl. rewrite E1, Jitter.first_ref_not_skipped by (done || congruence).
  unfold Jitter.ticks_after in Ht'. rewrite Hnt in Ht'.
  unfold Jitter.publish. rewrite Ht', Hc', Hc1, Ht1.
  destruct Hj as [_ [Hc _] _ _ _]. rewrite to_u64_id by (unfold is_u64; lia).
  rewrite (proj2 (Z.eqb_neq _ _)), (proj2 (Z.leb_gt _ _)) by lia. done.
Qed.

Lemma jitter_late_reference_aborts_witness :
  Jitter.run_frames (H := Recorder.env)
    ([sample_tick 1 0; sample_tick 2 0; sample_tick 3 0] ++ [sample_peak 4 0 7]) jitter_woken
    = Failed AssertFail.
Proof.
  apply (jitter_late_reference_aborts (H := Recorder.env) jitter_woken jitter_waiting).
  - apply jitter_woken_ok.
  - reflexivity.
  - repeat (apply Forall_cons_2; [split; [apply valid_iff; vm_compute; reflexivity|
      vm_compute; reflexivity]|]). apply Forall_nil_2.
  - vm_compute. split; reflexivity.
  - apply valid_iff. vm_compute. reflexivity.
  - vm_compute. reflexivity.
  - discriminate.
  - intros n En e He. vm_compute in En. injection En as <-.
    assert (e = 0) as -> by lia. vm_compute. reflexivity.
  - vm_compute. reflexivity.
Defined.

(** Events of channels the server does not know of are not dropped: one
    between two reference events stops the server at the assertion on the
    histogram's number. *)
Theorem jitter_channel_aborts (d : Jitter.s_data_t) h delay CH last :
  Jitter.holds d {| Jitter.st_pts := Some ([], 0); Jitter.st_hist := h |} ->
  Jitter.conf_ok (Jitter.cur_conf d) -> TES_NCHANNELS <= CH ->
  Jitter.run_events [(delay, CH, false); (last, Jitter.conf_ref_ch (Jitter.cur_conf d), false)] d
    = Failed AssertFail.
Proof.
  intros [Hl _ _ ((rest & Hp) & Hn & _)] [_ Hr] HC. simpl in Hp, Hn.
  rewrite Hp in Hl. unfold MAX_SIMULT_POINTS, TES_JITTER_NHISTS, TES_NCHANNELS in *.
  destruct rest as [|x rest]; [done|].
  assert (Hne : (CH =? Jitter.conf_ref_ch (Jitter.cur_conf d)) = false) by lia.
  assert (Hlt : (Jitter.conf_ref_ch (Jitter.cur_conf d) <? CH) = true) by lia.
  assert (E1 : Jitter.event_step d delay CH false = Done (false,
    Jitter.set_points (Jitter.set_points d
        (Jitter.s_add_to_since (Jitter.ghost 0) delay :: x :: rest) 1)
      ({| Jitter.delay_since := Jitter.delay_since (Jitter.s_add_to_since (Jitter.ghost 0) delay);
          Jitter.delay_until := 0; Jitter.hid := CH - 1 |}
       :: Jitter.ghost (Jitter.delay_since (Jitter.s_add_to_since (Jitter.ghost 0) delay)) :: rest) 2)).
  { unfold Jitter.event_step. rewrite Hne, Hn, Hp. simpl. rewrite Hne, Hlt. reflexivity. }
  unfold Jitter.run_events. rewrite E1. cbn [mbind exec_bind].
  unfold Jitter.event_step. simpl. rewrite Z.eqb_refl. simpl.
  unfold Jitter.s_save_points. simpl.
  by rewrite (proj2 (Z.ltb_ge (CH - 1) TES_JITTER_NHISTS)) by
    (unfold TES_JITTER_NHISTS, TES_NCHANNELS; lia).
Qed.

Lemma jitter_channel_aborts_witness :
  Jitter.run_events [(10, 2, false); (5, 0, false)] jitter_tracking = Failed AssertFail.
Proof.
  apply (jitter_channel_aborts jitter_tracking (Jitter.hist jitter_tracking) 10 2 5).
  - apply jitter_tracking_ok.
  - split; vm_compute; split; congruence.
  - vm_compute. congruence.
Defined.
