(* ===== verification/Coordinator.v ===== *)
(** * The coordinator (src/bin/tesd.c and its side of src/bin/tesd_tasks.c)

    On new packets the coordinator takes the heads of the slowest active task,
    wakes the tasks up and releases to the network interface the slots that
    every active task has seen.  Of a task it reads the active and busy flags
    and the heads.  The system of coordinator, tasks and interface is a step
    relation in which the accesses of a poll, the moves of the tasks and
    arrivals interleave; its invariant is that no slot a task has to read is
    released. *)

From Stdlib Require Import ZArith Lia Strings.String Strings.Ascii Strings.Byte.
From stdpp Require Import base option list numbers decidable sets relations.
From S2P Require Import Prelude Tespkt Tesif Task TaskTheory.

Open Scope Z_scope.

(** ** Tasks as the coordinator sees them *)

Record c_task : Type := { c_active : bool; c_busy : bool; c_heads : list Z }.

Definition c_head (t : c_task) (r : Z) : Z := nth (Z.to_nat r) (c_heads t) 0.

Definition c_view {D} (t : task D) : c_task :=
  {| c_active := active t; c_busy := busy t; c_heads := heads t |}.

(** The earlier of the heads and a task's heads, ring by ring. *)
Fixpoint earlier_heads (ifd : tes_ifdesc) (rs : list Z) (heads : list Z) (t : c_task) : exec (list Z) :=
  match rs with
  | [] => mret heads
  | r :: rs =>
      ring ← rxring ifd r;
      earlier_heads ifd rs
        (<[Z.to_nat r := tes_ifring_earlier_id ring (nth (Z.to_nat r) heads 0) (c_head t r)]> heads) t
  end.

(** The loop over the tasks; [None] until an active one is found. *)
Fixpoint get_heads_loop (ifd : tes_ifdesc) (ts : list c_task) (heads : option (list Z))
    : exec (option (list Z)) :=
  match ts with
  | [] => mret heads
  | t :: ts =>
      if c_active t then
        heads ← match heads with
                | Some heads => earlier_heads ifd ring_ids heads t
                | None => mret (c_head t <$> ring_ids)
                end;
        get_heads_loop ifd ts (Some heads)
      else get_heads_loop ifd ts heads
  end.

Definition tasks_get_heads (ifd : tes_ifdesc) (ts : list c_task) : exec (option (list Z)) :=
  get_heads_loop ifd ts None.

(** Results of [zsock_signal], by task. *)
Class SignalEnv : Type := signal_rc : nat -> Z.

(** The return value and the tasks signalled, from task [i] on. *)
Fixpoint wakeup_loop `{SignalEnv} (i : nat) (ts : list c_task) : Z * list nat :=
  match ts with
  | [] => (0, [])
  | t :: ts =>
      if c_active t && negb (c_busy t) then
        if signal_rc i =? -1 then (-1, [i])
        else let '(rc, l) := wakeup_loop (S i) ts in (rc, i :: l)
      else wakeup_loop (S i) ts
  end.

Definition tasks_wakeup `{SignalEnv} (ts : list c_task) : Z * list nat := wakeup_loop 0 ts.

(** Registered for a task's end of the pipe: any other signal is a bug. *)
Definition s_die_hn (sig : Z) : exec Z :=
  if sig =? SIG_DIED then mret (-1) else c_assert false;; mret 0.

(** ** New packets *)

Record stats_accumulated_t : Type := {
  received : Z;
  missed : Z;
  polled : Z;
  skipped : Z;
}.

(** [data->ifd] and the latest statistics: the part of [struct data_t] that the
    handler of new packets reads and writes. *)
Record rings_data_t : Type := { d_ifd : tes_ifdesc; latest : stats_accumulated_t }.

(** The ring [r] of the interface replaced. *)
Definition put_rxring (ifd : tes_ifdesc) (r : Z) (ring : tes_ifring) : tes_ifdesc :=
  {| first_tx_ring := first_tx_ring ifd; last_tx_ring := last_tx_ring ifd;
     cur_tx_ring := cur_tx_ring ifd; first_rx_ring := first_rx_ring ifd;
     last_rx_ring := last_rx_ring ifd; cur_rx_ring := cur_rx_ring ifd;
     tx_rings := tx_rings ifd;
     rx_rings := <[Z.to_nat (to_u16 (r + first_rx_ring ifd)) := ring]> (rx_rings ifd) |}.

(** The new head of a ring. *)
Definition new_head (heads : option (list Z)) (r : Z) (ring : tes_ifring) : Z :=
  match heads with
  | None => tes_ifring_tail ring
  | Some heads => nth (Z.to_nat r) heads 0
  end.

(** The body of the loop: whether the ring was skipped, and the data. *)
Definition release_ring (heads : option (list Z)) (r : Z) (d : rings_data_t) : exec (bool * rings_data_t) :=
  ring ← rxring (d_ifd d) r;
  if tes_ifring_tail ring =? tes_ifring_head ring then mret (true, d)
  else
    let nh := new_head heads r ring in
    if nh =? tes_ifring_head ring then mret (true, d)
    else
      pkt ← tes_ifring_cur_buf ring;
      let fseqA := tespkt_fseq pkt in
      p ← tes_ifring_preceding_buf ring nh;
      dbg_assert (match p with Some _ => true | None => false end);;
      pkt ← deref p;
      let fseqB := tespkt_fseq pkt in
      '(ring, _) ← tes_ifring_goto_buf ring nh;
      dbg_assert (tes_ifring_cur ring =? nh);;
      let num_new := tes_ifring_done ring in
      let l := latest d in
      let l := {| received := to_u64 (received l + num_new);
                  missed := to_u64 (missed l + to_u16 (fseqB - fseqA - num_new + 1));
                  polled := polled l; skipped := skipped l |} in
      '(ring, _) ← tes_ifring_release_done_buf ring;
      dbg_assert (tes_ifring_head ring =? tes_ifring_cur ring);;
      mret (false, {| d_ifd := put_rxring (d_ifd d) r ring; latest := l |}).

Fixpoint release_loop (heads : option (list Z)) (rs : list Z) (skip : bool) (d : rings_data_t)
    : exec (bool * rings_data_t) :=
  match rs with
  | [] => mret (skip, d)
  | r :: rs =>
      '(s, d) ← release_ring heads r d;
      release_loop heads rs (skip && s) d
  end.

(** The return value, the tasks signalled and the data. *)
Definition s_new_pkts_hn `{SignalEnv} (ts : list c_task) (d : rings_data_t) : exec (Z * list nat * rings_data_t) :=
  heads ← tasks_get_heads (d_ifd d) ts;
  let '(rc, sigs) := tasks_wakeup ts in
  if c_true rc then mret (-1, sigs, d)
  else
    let l := latest d in
    let d := {| d_ifd := d_ifd d;
                latest := {| received := received l; missed := missed l;
                             polled := to_u64 (polled l + 1); skipped := skipped l |} |} in
    '(skip, d) ← release_loop heads ring_ids true d;
    let l := latest d in
    mret (0, sigs,
      {| d_ifd := d_ifd d;
         latest := {| received := received l; missed := missed l; polled := polled l;
                      skipped := if skip : bool then to_u64 (skipped l + 1) else skipped l |} |}).

(** ** Statistics *)

Record stats_t : Type := {
  last_update : option Z;   (* [None] for a zero timeval *)
  st_latest : stats_accumulated_t;
  total : stats_accumulated_t;
}.

Definition zero_stats : stats_accumulated_t :=
  {| received := 0; missed := 0; polled := 0; skipped := 0 |}.

(** [now] is the time of day and [final] that [loop] is NULL.  What is logged
    is not modelled, but the integer division in it is: packets per poll. *)
Definition s_log_stats (final : bool) (now : Z) (s : stats_t) : exec stats_t :=
  match last_update s with
  | None => mret {| last_update := Some now; st_latest := st_latest s; total := total s |}
  | Some _ =>
      let a := st_latest s in let b := total s in
      _ ← (if negb final && c_true (polled a)
           then (if polled a =? 0 then fail DivByZero else mret (Z.quot (received a) (polled a)))
           else mret 0);
      mret {| last_update := Some now; st_latest := zero_stats;
              total := {| received := to_u64 (received b + received a);
                          missed := to_u64 (missed b + missed a);
                          polled := to_u64 (polled b + polled a);
                          skipped := to_u64 (skipped b + skipped a) |} |}
  end.

(** ** Specification: releasing what every active task has seen *)

(** A slot of the ring that belongs to the program, or its tail. *)
Definition in_window (ring : tes_ifring) (h : Z) : Prop :=
  slot_id ring h /\ fwd ring (head ring) h <= fwd ring (head ring) (tail ring).

(** The interface's rings between two calls of the handler: the cursor is left
    at the head. *)
Record coord_ok (ifd : tes_ifdesc) : Prop := {
  co_ifd : ifd_ok ifd;
  co_four : last_rx_ring ifd = first_rx_ring ifd + 3;
  co_cur : forall r ring, r ∈ ring_ids -> rxring ifd r = Done ring -> cur ring = head ring;
}.

Definition task_in_window (ifd : tes_ifdesc) (t : c_task) : Prop :=
  c_active t = true ->
  forall r ring, r ∈ ring_ids -> rxring ifd r = Done ring -> in_window ring (c_head t r).

(** [h] is the head, in ring [r], of an active task that no other is behind. *)
Definition slowest (ring : tes_ifring) (r : Z) (ts : list c_task) (h : Z) : Prop :=
  (exists t, t ∈ ts /\ c_active t = true /\ h = c_head t r) /\
  (forall t, t ∈ ts -> c_active t = true ->
     fwd ring (head ring) h <= fwd ring (head ring) (c_head t r)).

(** A ring with everything before [h] released. *)
Definition released (ring : tes_ifring) (h : Z) : tes_ifring := set_head (set_cur ring h) h.

Lemma fwd_released r h i j : fwd (released r h) i j = fwd r i j.
Proof. done. Qed.

(** Distances add up going forward. *)
Lemma fwd_sub ring a b c :
  0 < num_slots ring -> slot_id ring a -> slot_id ring b -> slot_id ring c ->
  fwd ring a b <= fwd ring a c -> fwd ring b c = fwd ring a c - fwd ring a b.
Proof.
  intros Hn Ha Hb Hc. rewrite !fwd_cases by done. unfold slot_id in *.
  repeat case_if; bool_hyps; lia.
Qed.

Lemma released_window ring h h' :
  ring_ok ring -> in_window ring h -> in_window ring h' ->
  fwd ring (head ring) h <= fwd ring (head ring) h' ->
  ring_ok (released ring h) /\ in_window (released ring h) h'.
Proof.
  intros Hr [Hh _] [Hh' Ht] Hle. pose proof (ring_ok_pos ring Hr) as Hn.
  split; [by apply set_head_ok; [apply set_cur_ok|]|]. split; [done|].
  change (head (released ring h)) with h. change (tail (released ring h)) with (tail ring).
  change (fwd (released ring h)) with (fwd ring).
  rewrite !(fwd_sub ring (head ring) h) by (auto with tes; lia). lia.
Qed.

Section Rings.
Implicit Types ifd : tes_ifdesc.

Lemma rxring_ok ifd r :
  coord_ok ifd -> r ∈ ring_ids -> exists ring, rxring ifd r = Done ring /\ ring_ok ring.
Proof.
  intros [Hi H4 _] Hr. apply ring_ids_range in Hr.
  destruct (rxring_done ifd r Hi) as (ring & E & Hok).
  - unfold tes_if_rxrings. rewrite H4. replace (_ - _ + 1) with 4 by lia. done.
  - exists ring. split; [|done]. unfold rxring. by rewrite E.
Qed.

(** The index of ring [r] in the descriptor. *)
Lemma rxring_index ifd r :
  ifd_ok ifd -> last_rx_ring ifd = first_rx_ring ifd + 3 -> r ∈ ring_ids ->
  to_u16 (r + first_rx_ring ifd) = r + first_rx_ring ifd /\
  rxring ifd r = match rx_rings ifd !! Z.to_nat (r + first_rx_ring ifd) with
                 | Some ring => Done ring | None => Failed OutOfBounds end.
Proof.
  intros [Hf Hl Hn _] H4 Hr%ring_ids_range.
  assert (E : to_u16 (r + first_rx_ring ifd) = r + first_rx_ring ifd)
    by (apply to_u16_id; unfold is_u16; lia).
  split; [done|]. unfold rxring, tes_if_rxring. rewrite E.
  rewrite (proj2 (Z.ltb_ge _ _)), (proj2 (Z.ltb_ge (last_rx_ring ifd) _)) by lia. simpl.
  unfold s_rxring, ring_at. by destruct (rx_rings ifd !! _).
Qed.

Lemma put_rxring_ok ifd r ring :
  coord_ok ifd -> r ∈ ring_ids -> ring_ok ring -> cur ring = head ring ->
  coord_ok (put_rxring ifd r ring) /\
  (forall r', r' ∈ ring_ids -> rxring (put_rxring ifd r ring) r' =
     if r =? r' then Done ring else rxring ifd r').
Proof.
  intros [Hi H4 Hc] Hr Hok Hcur. pose proof (ring_ids_range r Hr) as Hrr.
  destruct (rxring_index ifd r Hi H4 Hr) as [Ei _].
  assert (Hi' : ifd_ok (put_rxring ifd r ring)).
  { destruct Hi as [H1 H2 H3 H5]. split; simpl; rewrite ?length_insert; try done.
    by apply Forall_insert. }
  assert (G : forall r', r' ∈ ring_ids -> rxring (put_rxring ifd r ring) r' =
     if r =? r' then Done ring else rxring ifd r').
  { intros r' Hr'. destruct (rxring_index (put_rxring ifd r ring) r' Hi' H4 Hr') as [_ ->].
    destruct (rxring_index ifd r' Hi H4 Hr') as [_ ->]. simpl. rewrite Ei.
    pose proof (ring_ids_range r' Hr'). destruct Hi as [Hf Hl Hn _].
    destruct (Z.eqb_spec r r') as [<-|Hne].
    - by rewrite list_lookup_insert_eq by lia.
    - by rewrite list_lookup_insert_ne by lia. }
  split; [|done]. split; [done|done|]. intros r' ring' Hr'. rewrite G by done.
  destruct (Z.eqb_spec r r') as [<-|Hne]; [by intros [= <-]|by apply Hc].
Qed.

Lemma earlier_heads_spec ifd rs hs t :
  coord_ok ifd -> (forall r, r ∈ rs -> r ∈ ring_ids) -> NoDup rs -> length hs = 4%nat ->
  exists hs', earlier_heads ifd rs hs t = Done hs' /\ length hs' = 4%nat /\
    (forall r ring, r ∈ rs -> rxring ifd r = Done ring ->
       nth (Z.to_nat r) hs' 0 = tes_ifring_earlier_id ring (nth (Z.to_nat r) hs 0) (c_head t r)) /\
    (forall r, r ∈ ring_ids -> r ∉ rs -> nth (Z.to_nat r) hs' 0 = nth (Z.to_nat r) hs 0).
Proof.
  intros Hco. revert hs. induction rs as [|r rs IH]; intros hs Hin Hnd Hl.
  { exists hs. repeat split; try done. intros r ring Hr. by apply elem_of_nil in Hr. }
  apply NoDup_cons in Hnd as [Hnr Hnd].
  assert (Hr : r ∈ ring_ids) by (apply Hin; left).
  destruct (rxring_ok ifd r Hco Hr) as (ring & E & _). simpl. rewrite E. simpl.
  destruct (IH (<[Z.to_nat r := tes_ifring_earlier_id ring (nth (Z.to_nat r) hs 0) (c_head t r)]> hs))
    as (hs' & -> & Hl' & H1 & H2); [intros; apply Hin; by right|done|by rewrite length_insert|].
  pose proof (ring_ids_range r Hr). exists hs'. do 2 (split; [done|]). split.
  - intros r' ring' Hr' E'. apply elem_of_cons in Hr' as [->|Hr'].
    + rewrite E in E'. injection E' as <-. rewrite H2 by done.
      apply nth_insert_eq. lia.
    + rewrite (H1 r' ring') by done. rewrite nth_insert_ne; [done|].
      assert (r' ∈ ring_ids) as Hr2%ring_ids_range by (apply Hin; by right).
      intros Heq. apply Hnr. by replace r with r' by lia.
  - intros r' Hr' Hn'. rewrite H2 by (try done; intros ?; apply Hn'; by right).
    apply nth_insert_ne. apply ring_ids_range in Hr'. intros Heq. apply Hn'.
    replace r' with r by lia. left.
Qed.

Definition heads_spec ifd (ts : list c_task) (o : option (list Z)) : Prop :=
  match o with
  | None => forall t, t ∈ ts -> c_active t = false
  | Some hs => length hs = 4%nat /\
      forall r ring, r ∈ ring_ids -> rxring ifd r = Done ring ->
        slowest ring r ts (nth (Z.to_nat r) hs 0)
  end.

Lemma heads_spec_inactive ifd ts t o :
  c_active t = false -> heads_spec ifd ts o -> heads_spec ifd (ts ++ [t]) o.
Proof.
  intros Ht. destruct o as [hs|]; simpl.
  - intros [Hl H]. split; [done|]. intros r ring Hr E.
    destruct (H r ring Hr E) as [(t' & Hi & Ha & He) Hm]. split.
    + exists t'. split; [apply elem_of_app; by left|done].
    + intros t'' [Hi'|Hi']%elem_of_app Ha'; [by apply Hm|].
      apply list_elem_of_singleton in Hi' as ->. congruence.
  - intros H t' [Hi|Hi]%elem_of_app; [by apply H|].
    by apply list_elem_of_singleton in Hi as ->.
Qed.

Lemma first_heads_spec ifd ts t :
  c_active t = true -> heads_spec ifd ts None ->
  heads_spec ifd (ts ++ [t]) (Some (c_head t <$> ring_ids)).
Proof.
  intros Ha Hn. split; [done|]. intros r ring Hr E.
  assert (Er : nth (Z.to_nat r) (c_head t <$> ring_ids) 0 = c_head t r).
  { unfold ring_ids in Hr. repeat (apply elem_of_cons in Hr as [->|Hr]; [done|]).
    by apply elem_of_nil in Hr. }
  rewrite Er. split.
  - exists t. split; [apply elem_of_app; right; left|done].
  - intros t' [Hi|Hi]%elem_of_app Ha'; [rewrite Hn in Ha' by done; done|].
    by apply list_elem_of_singleton in Hi as ->.
Qed.

Lemma next_heads_spec ifd ts t hs hs' :
  coord_ok ifd -> c_active t = true -> Forall (task_in_window ifd) (ts ++ [t]) ->
  heads_spec ifd ts (Some hs) -> length hs' = 4%nat ->
  (forall r ring, r ∈ ring_ids -> rxring ifd r = Done ring ->
     nth (Z.to_nat r) hs' 0 = tes_ifring_earlier_id ring (nth (Z.to_nat r) hs 0) (c_head t r)) ->
  heads_spec ifd (ts ++ [t]) (Some hs').
Proof.
  intros Hco Ha Hw [Hl H] Hl' He. split; [done|]. intros r ring Hr E.
  destruct (rxring_ok ifd r Hco Hr) as (ring' & E' & Hok). rewrite E in E'. injection E' as <-.
  destruct (H r ring Hr E) as [(t1 & Hi1 & Ha1 & E1) Hm].
  rewrite List.Forall_forall in Hw.
  assert (Hwin : forall u, u ∈ ts ++ [t] -> c_active u = true -> slot_id ring (c_head u r)).
  { intros u Hu Hau. apply list_elem_of_In in Hu. by apply (Hw u Hu Hau r ring). }
  assert (Ht : t ∈ ts ++ [t]) by (apply elem_of_app; right; left).
  assert (Ht1 : t1 ∈ ts ++ [t]) by (apply elem_of_app; by left).
  destruct (earlier_id_fwd ring (nth (Z.to_nat r) hs 0) (c_head t r) Hok) as [Hor Hmin];
    [rewrite E1; by apply Hwin|by apply Hwin|].
  rewrite (He r ring Hr E). split.
  - destruct Hor as [->| ->]; [exists t1|exists t]; done.
  - intros u [Hu|Hu]%elem_of_app Hau; rewrite Hmin.
    + specialize (Hm u Hu Hau). lia.
    + apply list_elem_of_singleton in Hu as ->. lia.
Qed.

Lemma get_heads_loop_spec ifd ts2 : forall ts1 o,
  coord_ok ifd -> Forall (task_in_window ifd) (ts1 ++ ts2) -> heads_spec ifd ts1 o ->
  exists o', get_heads_loop ifd ts2 o = Done o' /\ heads_spec ifd (ts1 ++ ts2) o'.
Proof.
  induction ts2 as [|t ts2 IH]; intros ts1 o Hco Hw Ho.
  { exists o. rewrite app_nil_r. done. }
  replace (ts1 ++ t :: ts2) with ((ts1 ++ [t]) ++ ts2) in * by (by rewrite <- app_assoc).
  assert (Hw1 : Forall (task_in_window ifd) (ts1 ++ [t])) by (by apply Forall_app in Hw as [? _]).
  cbn [get_heads_loop]. destruct (c_active t) eqn:Ha;
    [|apply IH; try done; by apply heads_spec_inactive].
  destruct o as [hs|].
  - pose proof Ho as [Hl _].
    destruct (earlier_heads_spec ifd ring_ids hs t Hco) as (hs' & -> & Hl' & He & _);
      [done|repeat constructor; set_solver|done|].
    apply IH; try done. apply next_heads_spec with hs; done.
  - apply IH; try done. by apply first_heads_spec.
Qed.

Lemma tasks_get_heads_spec ifd ts :
  coord_ok ifd -> Forall (task_in_window ifd) ts ->
  exists o, tasks_get_heads ifd ts = Done o /\ heads_spec ifd ts o.
Proof.
  intros Hco Hw. destruct (get_heads_loop_spec ifd ts [] None Hco Hw) as (o & E & Ho).
  - intros t Ht. by apply elem_of_nil in Ht.
  - by exists o.
Qed.
End Rings.

(** ** What the release of a ring counts *)

(** Frames lost within a run of packets, by their sequence numbers. *)
Fixpoint seq_gaps (l : list netmap_slot) : Z :=
  match l with
  | a :: l' =>
      match l' with
      | b :: _ => to_u16 (tespkt_fseq (slot_buf b) - tespkt_fseq (slot_buf a) - 1) + seq_gaps l'
      | [] => 0
      end
  | [] => 0
  end.

(** The packets from the head of a ring to the slot [h]. *)
Definition before (ring : tes_ifring) (h : Z) : list netmap_slot :=
  ring_seg ring (head ring) (Z.to_nat (fwd ring (head ring) h)).

Lemma ring_seg_gaps ring h :
  ring_ok ring -> slot_id ring h -> forall n i,
  slot_id ring i -> i <> h -> fwd ring i h = Z.of_nat n ->
  exists a b, slot ring i = Done a /\ slot ring (s_ring_preceding ring h) = Done b /\
    to_u16 (tespkt_fseq (slot_buf b) - tespkt_fseq (slot_buf a) - Z.of_nat n + 1) =
      to_u16 (seq_gaps (ring_seg ring i n)).
Proof.
  intros Hr Hh. induction n as [|n IH]; intros i Hi Hne Hf.
  { apply fwd_zero in Hf; [done|auto with tes|done|done]. }
  destruct (slot_done ring i Hr Hi) as [a Ea]. exists a.
  pose proof (fwd_following ring i h Hr Hi Hh Hne) as Hff.
  cbn [ring_seg]. rewrite Ea.
  destruct (decide (s_ring_following ring i = h)) as [<-|Hne'].
  - exists a. rewrite preceding_following by done. do 2 (split; [done|]).
    replace n with 0%nat by (pose proof (proj2 (fwd_zero ring _ _ (ring_ok_pos ring Hr) Hh Hh) eq_refl); lia).
    simpl. f_equal. lia.
  - destruct (IH (s_ring_following ring i)) as (a' & b & Ea' & Eb & Eg);
      [auto with tes|done|lia|].
    exists b. do 2 (split; [done|]). destruct n as [|n].
    { exfalso. apply Hne'. apply fwd_zero with ring; [auto with tes|auto with tes|done|lia]. }
    cbn [ring_seg] in *. rewrite Ea' in *. cbn [seq_gaps] in *.
    unfold to_u16 in *. rewrite Zplus_mod_idemp_l, <- (Zplus_mod_idemp_r _ (_ - _ - 1)), <- Eg.
    rewrite Zplus_mod_idemp_r. f_equal. lia.
Qed.

(** A ring the handler releases to [h], and the counts it adds. *)
Definition released_data (d : rings_data_t) (r : Z) (ring : tes_ifring) (h : Z) : rings_data_t :=
  {| d_ifd := put_rxring (d_ifd d) r (released ring h);
     latest := {| received := to_u64 (received (latest d) + fwd ring (head ring) h);
                  missed := to_u64 (missed (latest d) + to_u16 (seq_gaps (before ring h)));
                  polled := polled (latest d); skipped := skipped (latest d) |} |}.

Lemma release_ring_ok heads r d ring :
  rxring (d_ifd d) r = Done ring -> ring_ok ring -> cur ring = head ring ->
  in_window ring (new_head heads r ring) ->
  release_ring heads r d =
    Done (if new_head heads r ring =? head ring then (true, d)
          else (false, released_data d r ring (new_head heads r ring))).
Proof.
  intros E Hr Hc [Hs Hw]. unfold release_ring. rewrite E. cbn -[Z.eqb]. clear E.
  unfold tes_ifring_tail, tes_ifring_head. set (nh := new_head heads r ring) in *.
  pose proof (ring_ok_pos ring Hr) as Hn. pose proof (ro_head ring Hr) as Hh.
  destruct (Z.eqb_spec (tail ring) (head ring)) as [Et|Et].
  { rewrite Et, (proj2 (fwd_zero ring _ _ Hn Hh Hh) eq_refl) in Hw.
    pose proof (fwd_range ring (head ring) nh Hn).
    assert (head ring = nh) as <- by (apply (fwd_zero ring); [done..|lia]).
    by rewrite Z.eqb_refl. }
  destruct (Z.eqb_spec nh (head ring)) as [En|En]; [done|].
  pose proof (fwd_range ring (head ring) nh Hn).
  destruct (ring_seg_gaps ring nh Hr Hs (Z.to_nat (fwd ring (head ring) nh)) (head ring))
    as (a & b & Ea & Eb & Eg); [done|congruence|lia|].
  unfold tes_ifring_cur_buf. rewrite Hc, (slot_s_buf _ _ _ Ea). cbn -[Z.eqb to_u16 to_u64].
  unfold tes_ifring_preceding_buf. rewrite (proj2 (Z.eqb_neq _ _) En), (slot_s_buf _ _ _ Eb).
  cbn -[Z.eqb to_u16 to_u64]. destruct (slot_done ring nh Hr Hs) as [s Es].
  unfold tes_ifring_goto_buf. change (s_buf (set_cur ring nh)) with (s_buf ring).
  change (cur (set_cur ring nh)) with nh.
  rewrite (slot_s_buf _ _ _ Es). cbn -[Z.eqb to_u16 to_u64].
  unfold tes_ifring_cur. change (cur (set_cur ring nh)) with nh. rewrite Z.eqb_refl.
  cbn -[Z.eqb to_u16 to_u64]. unfold tes_ifring_release_done_buf.
  change (cur (set_cur ring nh)) with nh.
  change (s_buf (set_head (set_cur ring nh) nh)) with (s_buf ring).
  change (head (set_head (set_cur ring nh) nh)) with nh.
  rewrite (slot_s_buf _ _ _ Es). cbn -[Z.eqb to_u16 to_u64].
  change (head (set_head (set_cur ring nh) nh)) with nh.
  change (cur (set_head (set_cur ring nh) nh)) with nh. rewrite Z.eqb_refl. cbn -[to_u16 to_u64].
  unfold released_data, before, tes_ifring_done.
  change (cur (set_cur ring nh)) with nh. change (head (set_cur ring nh)) with (head ring).
  change (num_slots (set_cur ring nh)) with (num_slots ring).
  rewrite ring_count by done. rewrite <- Eg, Z2Nat.id by lia. done.
Qed.

(** ** The loop over the rings *)

(** A count summed over rings. *)
Definition ring_sum (f : Z -> tes_ifring -> Z) (ifd : tes_ifdesc) (rs : list Z) : Z :=
  foldr (fun r n => match rxring ifd r with Done ring => f r ring | Failed _ => 0 end + n) 0 rs.

Lemma ring_sum_ext f ifd ifd' rs :
  (forall r, r ∈ rs -> rxring ifd r = rxring ifd' r) -> ring_sum f ifd rs = ring_sum f ifd' rs.
Proof.
  intros H. induction rs as [|r rs IH]; [done|]. simpl. rewrite H by left.
  rewrite IH; [done|]. intros r' Hr'. apply H. by right.
Qed.

Lemma released_same ring : cur ring = head ring -> released ring (head ring) = ring.
Proof. destruct ring. simpl. by intros ->. Qed.

(** The packets of ring [r] released, and the frames lost among them. *)
Definition num_released heads (r : Z) (ring : tes_ifring) : Z :=
  fwd ring (head ring) (new_head heads r ring).
Definition num_missed heads (r : Z) (ring : tes_ifring) : Z :=
  to_u16 (seq_gaps (before ring (new_head heads r ring))).
Definition num_moved heads (r : Z) (ring : tes_ifring) : Z :=
  if new_head heads r ring =? head ring then 0 else 1.

Definition heads_in_window heads ifd (rs : list Z) : Prop :=
  forall r ring, r ∈ rs -> rxring ifd r = Done ring -> in_window ring (new_head heads r ring).

Definition counts_ok (l : stats_accumulated_t) : Prop := is_u64 (received l) /\ is_u64 (missed l).

(** The rings of [d'] are those of [d] with the rings [rs] released. *)
Record released_rings heads (rs : list Z) (skip skip' : bool) (d d' : rings_data_t) : Prop := {
  rr_ok : coord_ok (d_ifd d');
  rr_rings : forall r ring, r ∈ ring_ids -> rxring (d_ifd d) r = Done ring ->
    rxring (d_ifd d') r =
      Done (if bool_decide (r ∈ rs) then released ring (new_head heads r ring) else ring);
  rr_counts : counts_ok (latest d');
  rr_received : received (latest d') =
    to_u64 (received (latest d) + ring_sum (num_released heads) (d_ifd d) rs);
  rr_missed : missed (latest d') =
    to_u64 (missed (latest d) + ring_sum (num_missed heads) (d_ifd d) rs);
  rr_polled : polled (latest d') = polled (latest d);
  rr_skipped : skipped (latest d') = skipped (latest d);
  rr_skip : skip' = skip && (ring_sum (num_moved heads) (d_ifd d) rs =? 0);
}.

Lemma ring_sum_moved heads ifd rs : 0 <= ring_sum (num_moved heads) ifd rs.
Proof.
  induction rs as [|r rs IH]; simpl; [done|]. unfold num_moved at 1.
  destruct (rxring ifd r); repeat case_if; lia.
Qed.

Lemma release_step heads r d s d1 ring :
  coord_ok (d_ifd d) -> counts_ok (latest d) -> r ∈ ring_ids ->
  rxring (d_ifd d) r = Done ring -> ring_ok ring -> in_window ring (new_head heads r ring) ->
  (s, d1) = (if new_head heads r ring =? head ring then (true, d)
             else (false, released_data d r ring (new_head heads r ring))) ->
  coord_ok (d_ifd d1) /\ counts_ok (latest d1) /\
  (forall r', r' ∈ ring_ids -> rxring (d_ifd d1) r' =
     if r =? r' then Done (released ring (new_head heads r ring)) else rxring (d_ifd d) r') /\
  received (latest d1) = to_u64 (received (latest d) + num_released heads r ring) /\
  missed (latest d1) = to_u64 (missed (latest d) + num_missed heads r ring) /\
  polled (latest d1) = polled (latest d) /\ skipped (latest d1) = skipped (latest d) /\
  s = (num_moved heads r ring =? 0).
Proof.
  intros Hco [Hu Hm] Hr E Hok Hw. pose proof (co_cur _ Hco r ring Hr E) as Hc.
  unfold num_released, num_missed, num_moved, before.
  destruct (Z.eqb_spec (new_head heads r ring) (head ring)) as [En|En]; intros [= -> ->].
  - rewrite En, (proj2 (fwd_zero ring _ _ (ring_ok_pos ring Hok) (ro_head ring Hok)
      (ro_head ring Hok)) eq_refl). simpl.
    do 2 (split; [done|]). split.
    { intros r' Hr'. rewrite released_same by done.
      destruct (Z.eqb_spec r r') as [<-|]; [by rewrite E|done]. }
    rewrite !Z.add_0_r, !to_u64_id by done. done.
  - destruct (put_rxring_ok (d_ifd d) r (released ring (new_head heads r ring))) as [Ho Hp]; try done.
    { apply (released_window ring _ (new_head heads r ring)); done. }
    split; [done|]. split; [split; apply to_u64_range|]. repeat split; try done.
Qed.

Lemma release_loop_ok heads : forall rs skip d,
  coord_ok (d_ifd d) -> counts_ok (latest d) -> NoDup rs -> (forall r, r ∈ rs -> r ∈ ring_ids) ->
  heads_in_window heads (d_ifd d) rs ->
  exists skip' d', release_loop heads rs skip d = Done (skip', d') /\
    released_rings heads rs skip skip' d d'.
Proof.
  induction rs as [|r rs IH]; intros skip d Hco Hu Hnd Hin Hw.
  { exists skip, d. split; [done|]. destruct (Hu). split; try done; simpl.
    - by rewrite Z.add_0_r, to_u64_id.
    - by rewrite Z.add_0_r, to_u64_id.
    - by rewrite andb_true_r. }
  apply NoDup_cons in Hnd as [Hnr Hnd].
  assert (Hr : r ∈ ring_ids) by (apply Hin; left).
  destruct (rxring_ok _ r Hco Hr) as (ring & E & Hok).
  assert (Hwr : in_window ring (new_head heads r ring)) by (apply Hw; [left|done]).
  cbn [release_loop]. rewrite (release_ring_ok heads r d ring) by (try done; by apply (co_cur _ Hco r)).
  destruct (if new_head heads r ring =? head ring then _ else _) as [s d1] eqn:E1.
  destruct (release_step heads r d s d1 ring) as (Hco1 & Hu1 & G & Hrec & Hmis & Hp & Hs & Hsk);
    [done..|].
  assert (Hne : forall r', r' ∈ rs -> rxring (d_ifd d1) r' = rxring (d_ifd d) r').
  { intros r' Hr'. rewrite G by (apply Hin; by right).
    destruct (Z.eqb_spec r r') as [->|]; done. }
  destruct (IH (skip && s) d1 Hco1 Hu1 Hnd) as (skip' & d' & Ed & []).
  { intros; apply Hin; by right. }
  { intros r' ring' Hr' E'. rewrite Hne in E' by done. apply Hw; [by right|done]. }
  exists skip', d'. split; [done|]. rewrite !(ring_sum_ext _ (d_ifd d1) (d_ifd d)) in * by done.
  split; try done; cbn [ring_sum foldr]; rewrite ?E; fold (ring_sum (num_released heads) (d_ifd d) rs)
    (ring_sum (num_missed heads) (d_ifd d) rs) (ring_sum (num_moved heads) (d_ifd d) rs).
  - intros r' ring' Hr' E'. specialize (G r' Hr'). destruct (Z.eqb_spec r r') as [Heq|Hne'].
    + subst r'. rewrite (rr_rings0 r _ Hr' G), bool_decide_eq_false_2 by done.
      rewrite bool_decide_eq_true_2 by left. congruence.
    + rewrite (rr_rings0 r' ring' Hr') by congruence.
      do 2 f_equal. repeat case_bool_decide; try done; set_solver.
  - rewrite rr_received0, Hrec. unfold to_u64. rewrite Zplus_mod_idemp_l. f_equal. lia.
  - rewrite rr_missed0, Hmis. unfold to_u64. rewrite Zplus_mod_idemp_l. f_equal. lia.
  - congruence.
  - congruence.
  - rewrite rr_skip0, Hsk, <- andb_assoc. f_equal. apply eq_bool_prop_intro.
    pose proof (ring_sum_moved heads (d_ifd d) rs). unfold num_moved at 1 3.
    destruct (_ =? head ring); simpl; rewrite ?andb_true_l; [done|].
    rewrite (proj2 (Z.eqb_neq (1 + _) 0)) by lia. done.
Qed.

(** ** The handler *)

Definition signals_ok `{SignalEnv} : Prop := forall i, signal_rc i <> -1.

Definition sleeping (ts : list c_task) (n : nat) : Prop :=
  exists t, ts !! n = Some t /\ c_active t = true /\ c_busy t = false.

Lemma wakeup_loop_ok `{SignalEnv} : signals_ok -> forall ts i,
  exists l, wakeup_loop i ts = (0, l) /\ NoDup l /\
    forall n, n ∈ l <-> (i <= n)%nat /\ sleeping ts (n - i).
Proof.
  intros Hs. induction ts as [|t ts IH]; intros i.
  { exists []. split; [done|]. split; [constructor|]. intros n. split.
    - intros Hn. by apply elem_of_nil in Hn.
    - intros (_ & t & Ht & _). done. }
  destruct (IH (S i)) as (l & E & Hnd & Hl). simpl. rewrite E.
  assert (Hcons : forall n, n <> i -> (S i <= n)%nat /\ sleeping ts (n - S i) <->
      (i <= n)%nat /\ sleeping (t :: ts) (n - i)).
  { intros n Hn. split; intros [Hle Hx]; (split; [lia|]).
    - by replace (n - i)%nat with (S (n - S i)) by lia.
    - by replace (n - i)%nat with (S (n - S i)) in Hx by lia. }
  destruct (c_active t && negb (c_busy t)) eqn:Ec.
  - rewrite (proj2 (Z.eqb_neq _ _) (Hs i)). exists (i :: l). split; [done|].
    split; [constructor; [intros [Hx _]%Hl; lia|done]|]. intros n.
    destruct (decide (n = i)) as [->|Hn]; [|rewrite elem_of_cons, Hl, Hcons by done; tauto].
    split; [intros _|left]. split; [lia|]. rewrite Nat.sub_diag. exists t. split; [done|].
    by apply andb_true_iff in Ec as [-> Hb%negb_true_iff].
  - exists l. split; [done|]. split; [done|]. intros n.
    destruct (decide (n = i)) as [->|Hn]; [|by rewrite Hl, Hcons].
    rewrite Hl. split; [intros [? _]; lia|]. rewrite Nat.sub_diag.
    intros (_ & t' & [= <-] & Ha & Hb). by rewrite Ha, Hb in Ec.
Qed.

Lemma heads_spec_window ifd ts heads :
  coord_ok ifd -> Forall (task_in_window ifd) ts -> heads_spec ifd ts heads ->
  heads_in_window heads ifd ring_ids.
Proof.
  intros Hco Hw Hh r ring Hr E. rewrite List.Forall_forall in Hw. destruct heads as [hs|]; simpl.
  - destruct Hh as [_ Hh]. destruct (Hh r ring Hr E) as [(t & Ht & Ha & ->) _].
    apply (Hw t); [by apply list_elem_of_In|done|done|done].
  - destruct (rxring_ok ifd r Hco Hr) as (ring' & E' & Hok). assert (ring' = ring) as -> by congruence.
    split; [by apply ro_tail|done].
Qed.

Lemma release_keeps_window ifd ifd' ts heads :
  coord_ok ifd -> Forall (task_in_window ifd) ts -> heads_spec ifd ts heads ->
  (forall r ring, r ∈ ring_ids -> rxring ifd r = Done ring ->
     rxring ifd' r = Done (released ring (new_head heads r ring))) ->
  Forall (task_in_window ifd') ts.
Proof.
  intros Hco Hw Hh Hrel. pose proof (heads_spec_window ifd ts heads Hco Hw Hh) as Hwin.
  rewrite List.Forall_forall in Hw |- *. intros t Ht Ha r ring' Hr E'.
  destruct (rxring_ok ifd r Hco Hr) as (ring & E & Hok).
  rewrite (Hrel r ring Hr E) in E'. injection E' as <-.
  apply released_window; [done|by apply Hwin|by apply (Hw t Ht Ha r ring)|].
  apply list_elem_of_In in Ht. destruct heads as [hs|].
  - destruct Hh as [_ Hh]. destruct (Hh r ring Hr E) as [_ Hm]. by apply Hm.
  - rewrite (Hh t Ht) in Ha. done.
Qed.

(** What the handler does to its data, [heads] being those of the slowest task. *)
Record polled_ok ts heads (d d' : rings_data_t) : Prop := {
  po_heads : heads_spec (d_ifd d) ts heads;
  po_ok : coord_ok (d_ifd d');
  po_window : Forall (task_in_window (d_ifd d')) ts;
  po_rings : forall r ring, r ∈ ring_ids -> rxring (d_ifd d) r = Done ring ->
    rxring (d_ifd d') r = Done (released ring (new_head heads r ring));
  po_counts : counts_ok (latest d');
  po_received : received (latest d') =
    to_u64 (received (latest d) + ring_sum (num_released heads) (d_ifd d) ring_ids);
  po_missed : missed (latest d') =
    to_u64 (missed (latest d) + ring_sum (num_missed heads) (d_ifd d) ring_ids);
  po_polled : polled (latest d') = to_u64 (polled (latest d) + 1);
  po_skipped : skipped (latest d') =
    if ring_sum (num_moved heads) (d_ifd d) ring_ids =? 0
    then to_u64 (skipped (latest d) + 1) else skipped (latest d);
}.

Lemma ring_ids_NoDup : NoDup ring_ids.
Proof. repeat constructor; set_solver. Qed.

Lemma s_new_pkts_hn_ok `{SignalEnv} ts d :
  signals_ok -> coord_ok (d_ifd d) -> Forall (task_in_window (d_ifd d)) ts ->
  counts_ok (latest d) ->
  exists sigs heads d', s_new_pkts_hn ts d = Done (0, sigs, d') /\
    (NoDup sigs /\ forall n, n ∈ sigs <-> sleeping ts n) /\ polled_ok ts heads d d'.
Proof.
  intros Hs Hco Hw Hu. unfold s_new_pkts_hn.
  destruct (tasks_get_heads_spec _ ts Hco Hw) as (heads & -> & Hh). cbn -[release_loop to_u64].
  unfold tasks_wakeup. destruct (wakeup_loop_ok Hs ts 0) as (sigs & -> & Hnd & Hsl).
  cbn -[release_loop to_u64].
  pose proof (heads_spec_window _ ts heads Hco Hw Hh) as Hwin.
  destruct (release_loop_ok heads ring_ids true
    {| d_ifd := d_ifd d; latest := {| received := received (latest d); missed := missed (latest d);
         polled := to_u64 (polled (latest d) + 1); skipped := skipped (latest d) |} |})
    as (skip & d' & -> & Hr); [done|done|exact ring_ids_NoDup|done|done|].
  destruct Hr as [Ho Hrings Hcts Hrec Hmis Hpol Hski Hskip]. cbn -[to_u64] in *.
  exists sigs, heads. eexists. split; [done|].
  split. { split; [done|]. intros n. rewrite Hsl, Nat.sub_0_r. split; [tauto|split; [lia|done]]. }
  assert (Hrings' : forall r ring, r ∈ ring_ids -> rxring (d_ifd d) r = Done ring ->
      rxring (d_ifd d') r = Done (released ring (new_head heads r ring))).
  { intros r ring Hr E. rewrite (Hrings r ring Hr E). by rewrite bool_decide_eq_true_2. }
  split; try done; simpl.
  - by apply release_keeps_window with (d_ifd d) heads.
  - rewrite Hskip. simpl. by rewrite Hski.
Qed.

(** ** The coordinator, the tasks and the interface together *)

(** What happens between two polls.  netmap moves a ring's tail forward, never
    past its head. *)
Record ring_receives (ring ring' : tes_ifring) : Prop := {
  rv_ok : ring_ok ring';
  rv_slots : num_slots ring' = num_slots ring;
  rv_head : head ring' = head ring;
  rv_cur : cur ring' = cur ring;
  rv_tail : fwd ring (head ring) (tail ring) <= fwd ring (head ring) (tail ring');
}.

(** A task sees packets, goes to sleep, or is activated at the rings' heads. *)
Inductive task_step (ifd : tes_ifdesc) (t t' : c_task) : Prop :=
  | TaskSees :
      c_active t = true ->
      (forall r ring, r ∈ ring_ids -> rxring ifd r = Done ring ->
         slot_id ring (c_head t' r) /\
         fwd ring (c_head t' r) (tail ring) <= fwd ring (c_head t r) (tail ring)) ->
      task_step ifd t t'
  | TaskSleeps : c_active t' = false -> task_step ifd t t'
  | TaskActivates :
      (forall r ring, r ∈ ring_ids -> rxring ifd r = Done ring -> c_head t' r = head ring) ->
      task_step ifd t t'.

(** The accesses a task makes one by one: its head in a ring moves past one
    slot, its busy flag changes, it goes to sleep. *)
Inductive task_moves (ifd : tes_ifdesc) (t : c_task) : c_task -> Prop :=
  | MovesHead r ring :
      c_active t = true -> r ∈ ring_ids -> rxring ifd r = Done ring -> c_head t r <> tail ring ->
      task_moves ifd t {| c_active := true; c_busy := c_busy t;
        c_heads := <[Z.to_nat r := tes_ifring_following ring (c_head t r)]> (c_heads t) |}
  | MovesBusy b :
      task_moves ifd t {| c_active := c_active t; c_busy := b; c_heads := c_heads t |}
  | MovesToSleep :
      task_moves ifd t {| c_active := false; c_busy := c_busy t; c_heads := c_heads t |}.

(** Where the coordinator is in a poll, with the local state it has: between
    polls or ended; looking at the active flag of task [i]; reading the heads
    of task [i] in the rings left; waking up the tasks from [i] on; releasing
    the rings left.  [updated] and [heads] are the variables of
    [tasks_get_heads], which returns NULL or the heads. *)
Inductive poll_phase : Type :=
  | Idle
  | Stopped
  | Looking (i : nat) (updated : bool) (heads : list Z)
  | Reading (i : nat) (rs : list Z) (updated : bool) (heads : list Z)
  | Waking (i : nat) (heads : option (list Z))
  | Releasing (rs : list Z) (skip : bool) (heads : option (list Z)).

(** The next access of the coordinator.  A ring is released in one step: its
    head and cursor are the coordinator's alone. *)
Definition poll_step `{SignalEnv} (ts : list c_task) (ph : poll_phase) (d : rings_data_t)
    : exec (poll_phase * rings_data_t) :=
  match ph with
  | Idle => mret (Looking 0 false (replicate 4 0), d)
  | Stopped => mret (Stopped, d)
  | Looking i updated heads =>
      match ts !! i with
      | None => mret (Waking 0 (if updated then Some heads else None), d)
      | Some t =>
          if c_active t then mret (Reading i ring_ids updated heads, d)
          else mret (Looking (S i) updated heads, d)
      end
  | Reading i [] _ heads => mret (Looking (S i) true heads, d)
  | Reading i (r :: rs) updated heads =>
      match ts !! i with
      | None => fail OutOfBounds
      | Some t =>
          ring ← rxring (d_ifd d) r;
          let h := if updated
                   then tes_ifring_earlier_id ring (nth (Z.to_nat r) heads 0) (c_head t r)
                   else c_head t r in
          mret (Reading i rs updated (<[Z.to_nat r := h]> heads), d)
      end
  | Waking i heads =>
      match ts !! i with
      | None =>
          let l := latest d in
          mret (Releasing ring_ids true heads,
            {| d_ifd := d_ifd d;
               latest := {| received := received l; missed := missed l;
                            polled := to_u64 (polled l + 1); skipped := skipped l |} |})
      | Some t =>
          if c_active t && negb (c_busy t) && (signal_rc i =? -1) then mret (Stopped, d)
          else mret (Waking (S i) heads, d)
      end
  | Releasing [] skip heads =>
      let l := latest d in
      mret (Idle,
        {| d_ifd := d_ifd d;
           latest := {| received := received l; missed := missed l; polled := polled l;
                        skipped := if skip : bool then to_u64 (skipped l + 1) else skipped l |} |})
  | Releasing (r :: rs) skip heads =>
      '(s, d) ← release_ring heads r d;
      mret (Releasing rs (skip && s) heads, d)
  end.

(** The system: the coordinator's data, where it is, and the tasks. *)
Record system : Type := {
  sys_data : rings_data_t;
  sys_phase : poll_phase;
  sys_tasks : list c_task;
}.

(** Packets arrive, tasks read and the coordinator polls in any order, one
    access at a time.  Only activation, which copies the rings' heads and sets
    the active flag, is a single step, taken between two polls: see
    [late_activation_overrun] for one in the middle of a poll. *)
Inductive sys_step `{SignalEnv} : system -> system -> Prop :=
  | StepReceive d ph ts r ring ring' :
      r ∈ ring_ids -> rxring (d_ifd d) r = Done ring -> ring_receives ring ring' ->
      sys_step {| sys_data := d; sys_phase := ph; sys_tasks := ts |}
        {| sys_data := {| d_ifd := put_rxring (d_ifd d) r ring'; latest := latest d |};
           sys_phase := ph; sys_tasks := ts |}
  | StepTask d ph ts i t t' :
      ts !! i = Some t -> task_moves (d_ifd d) t t' ->
      sys_step {| sys_data := d; sys_phase := ph; sys_tasks := ts |}
        {| sys_data := d; sys_phase := ph; sys_tasks := <[i := t']> ts |}
  | StepActivate d ts i t t' :
      ts !! i = Some t ->
      (forall r ring, r ∈ ring_ids -> rxring (d_ifd d) r = Done ring -> c_head t' r = head ring) ->
      sys_step {| sys_data := d; sys_phase := Idle; sys_tasks := ts |}
        {| sys_data := d; sys_phase := Idle; sys_tasks := <[i := t']> ts |}
  | StepPoll d d' ph ph' ts :
      poll_step ts ph d = Done (ph', d') ->
      sys_step {| sys_data := d; sys_phase := ph; sys_tasks := ts |}
        {| sys_data := d'; sys_phase := ph'; sys_tasks := ts |}.

(** *** The invariant *)

(** No head collected is ahead of the task's in the rings [rs]. *)
Definition not_behind (ifd : tes_ifdesc) (rs hs : list Z) (t : c_task) : Prop :=
  forall r ring, r ∈ rs -> rxring ifd r = Done ring ->
    fwd ring (head ring) (nth (Z.to_nat r) hs 0) <= fwd ring (head ring) (c_head t r).

(** A task the coordinator has read: accounted for if it is still active. *)
Definition accounted (ifd : tes_ifdesc) (updated : bool) (hs : list Z) (t : c_task) : Prop :=
  c_active t = true -> updated = true /\ not_behind ifd ring_ids hs t.

Definition hs_in_window (ifd : tes_ifdesc) (rs hs : list Z) : Prop :=
  forall r ring, r ∈ rs -> rxring ifd r = Done ring -> in_window ring (nth (Z.to_nat r) hs 0).

(** What the coordinator relies on in the rest of the poll. *)
Definition heads_safe (ifd : tes_ifdesc) (rs : list Z) (ts : list c_task) (o : option (list Z)) : Prop :=
  match o with
  | None => Forall (fun t => c_active t = false) ts
  | Some hs => hs_in_window ifd rs hs /\
      Forall (fun t => c_active t = true -> not_behind ifd rs hs t) ts
  end.

Definition phase_ok (ifd : tes_ifdesc) (ts : list c_task) (ph : poll_phase) : Prop :=
  match ph with
  | Idle | Stopped => True
  | Looking i u hs =>
      length hs = 4%nat /\ (u = true -> hs_in_window ifd ring_ids hs) /\
      Forall (accounted ifd u hs) (take i ts)
  | Reading i rs u hs =>
      length hs = 4%nat /\ (u = true -> hs_in_window ifd ring_ids hs) /\
      Forall (accounted ifd u hs) (take i ts) /\
      exists seen t, ring_ids = seen ++ rs /\ ts !! i = Some t /\
        hs_in_window ifd seen hs /\ (c_active t = true -> not_behind ifd seen hs t) /\
        forall r ring, r ∈ rs -> rxring ifd r = Done ring -> in_window ring (c_head t r)
  | Waking _ o => heads_safe ifd ring_ids ts o
  | Releasing rs _ o => (exists seen, ring_ids = seen ++ rs) /\ heads_safe ifd rs ts o
  end.

Record sys_ok (s : system) : Prop := {
  so_coord : coord_ok (d_ifd (sys_data s));
  so_counts : counts_ok (latest (sys_data s));
  so_window : Forall (task_in_window (d_ifd (sys_data s))) (sys_tasks s);
  so_phase : phase_ok (d_ifd (sys_data s)) (sys_tasks s) (sys_phase s);
}.

Lemma window_seen ring h h' :
  ring_ok ring -> in_window ring h -> slot_id ring h' ->
  fwd ring h' (tail ring) <= fwd ring h (tail ring) -> in_window ring h'.
Proof.
  intros Hr [Hh Hw] Hh' Hle. split; [done|].
  pose proof (ring_ok_pos ring Hr). pose proof (ro_head ring Hr). pose proof (ro_tail ring Hr).
  rewrite !fwd_cases in * by done. unfold slot_id in *.
  destruct (Z.leb_spec (head ring) h), (Z.leb_spec (head ring) (tail ring)),
    (Z.leb_spec h' (tail ring)), (Z.leb_spec h (tail ring)), (Z.leb_spec (head ring) h'); lia.
Qed.

Lemma window_receives ring ring' h :
  ring_receives ring ring' -> in_window ring h -> in_window ring' h.
Proof.
  intros [_ Hn Hhd _ Ht] [Hh Hw]. split; [unfold slot_id; rewrite Hn; exact Hh|].
  unfold fwd in *. rewrite Hn, Hhd. by apply Z.le_trans with ((tail ring - head ring) mod num_slots ring).
Qed.

Lemma head_in_window ring : ring_ok ring -> in_window ring (head ring).
Proof.
  intros Hr. pose proof (ring_ok_pos ring Hr) as Hn. pose proof (ro_head ring Hr) as Hh.
  split; [done|]. rewrite (proj2 (fwd_zero ring _ _ Hn Hh Hh) eq_refl).
  apply (fwd_range ring (head ring) (tail ring) Hn).
Qed.

Lemma task_step_window ifd t t' :
  coord_ok ifd -> task_step ifd t t' -> task_in_window ifd t -> task_in_window ifd t'.
Proof.
  intros Hco Hst Hw Ha r ring Hr E. destruct (rxring_ok ifd r Hco Hr) as (ring' & E' & Hok).
  assert (ring' = ring) as -> by congruence. destruct Hst as [Ha' Hs|Hs|Hs].
  - destruct (Hs r ring Hr E) as [Hi Hle]. apply window_seen with (c_head t r); try done.
    by apply Hw.
  - congruence.
  - rewrite (Hs r ring Hr E). by apply head_in_window.
Qed.

(** *** Tasks and arrivals only help *)

(** Moving past a slot stays in the window and never goes backwards. *)
Lemma window_following ring h :
  ring_ok ring -> in_window ring h -> h <> tail ring ->
  in_window ring (s_ring_following ring h) /\
  fwd ring (head ring) h <= fwd ring (head ring) (s_ring_following ring h).
Proof.
  intros Hr Hw Hne. pose proof Hw as [Hh Hle]. pose proof (ring_ok_pos ring Hr) as Hn.
  pose proof (ro_head ring Hr) as Hhd. pose proof (ro_tail ring Hr) as Ht.
  pose proof (following_slot_id ring h Hr Hh) as Hs.
  pose proof (fwd_following ring h (tail ring) Hr Hh Ht Hne) as Hf.
  assert (Hw' : in_window ring (s_ring_following ring h))
    by (apply window_seen with h; [done..|lia]).
  split; [done|]. destruct Hw' as [_ Hle'].
  pose proof (fwd_sub ring (head ring) h (tail ring) Hn Hhd Hh Ht Hle).
  pose proof (fwd_sub ring (head ring) _ (tail ring) Hn Hhd Hs Ht Hle'). lia.
Qed.

(** What every access of a task to its own state keeps. *)
Record advances (ifd : tes_ifdesc) (t t' : c_task) : Prop := {
  ad_active : c_active t' = true -> c_active t = true;
  ad_heads : forall r ring, r ∈ ring_ids -> rxring ifd r = Done ring ->
    in_window ring (c_head t r) ->
    in_window ring (c_head t' r) /\
    fwd ring (head ring) (c_head t r) <= fwd ring (head ring) (c_head t' r);
}.

Lemma advances_refl ifd t : advances ifd t t.
Proof. by split. Qed.

Lemma task_moves_advances ifd t t' : coord_ok ifd -> task_moves ifd t t' -> advances ifd t t'.
Proof.
  intros Hco [r ring Ha Hr E Hne|b|]; [|by split; [done|]..].
  split; [done|]. intros r' ring' Hr' E' Hw.
  pose proof (ring_ids_range r Hr) as Hrr. pose proof (ring_ids_range r' Hr') as Hrr'.
  match goal with |- in_window _ (c_head ?u _) /\ _ => set (t1 := u) end.
  destruct (decide (r = r' /\ (Z.to_nat r < length (c_heads t))%nat)) as [[<- Hl]|Hne'].
  - destruct (rxring_ok ifd r Hco Hr') as (ring'' & E'' & Hok).
    assert (ring'' = ring) as -> by congruence. assert (ring' = ring) as -> by congruence.
    assert (c_head t1 r = s_ring_following ring (c_head t r)) as -> by by apply nth_insert_eq.
    by apply window_following.
  - assert (c_head t1 r' = c_head t r') as ->; [|done].
    unfold c_head at 1. simpl. destruct (decide (r = r')) as [<-|Hx].
    + rewrite list_insert_ge; [done|]. destruct (decide (Z.to_nat r < length (c_heads t))%nat); [|lia].
      by destruct Hne'.
    + rewrite nth_insert_ne by lia. done.
Qed.

Lemma advances_same ifd ts : Forall2 (advances ifd) ts ts.
Proof. induction ts; constructor; [apply advances_refl|done]. Qed.

(** Rings that only received packets. *)
Definition grows (ifd ifd' : tes_ifdesc) : Prop :=
  forall r ring', r ∈ ring_ids -> rxring ifd' r = Done ring' ->
    exists ring, rxring ifd r = Done ring /\ head ring' = head ring /\
      (forall i j, fwd ring' i j = fwd ring i j) /\
      (forall h, in_window ring h -> in_window ring' h).

Lemma grows_refl ifd : grows ifd ifd.
Proof. intros r ring Hr E. by exists ring. Qed.

Lemma receive_grows ifd r ring ring' :
  coord_ok ifd -> r ∈ ring_ids -> rxring ifd r = Done ring -> ring_receives ring ring' ->
  coord_ok (put_rxring ifd r ring') /\ grows ifd (put_rxring ifd r ring').
Proof.
  intros Hco Hr E Hrv. destruct (put_rxring_ok ifd r ring' Hco Hr) as [Ho Hp].
  { apply Hrv. }
  { rewrite (rv_cur _ _ Hrv), (rv_head _ _ Hrv). by apply (co_cur ifd Hco r). }
  split; [done|]. intros r' ring'' Hr' E'. rewrite Hp in E' by done.
  destruct (Z.eqb_spec r r') as [<-|]; [|by exists ring''].
  injection E' as <-. exists ring. split; [done|]. split; [apply Hrv|]. split.
  - intros i j. unfold fwd. by rewrite (rv_slots _ _ Hrv).
  - intros h. by apply window_receives.
Qed.

Section Mono.
Variables (ifd ifd' : tes_ifdesc).
Hypothesis Hg : grows ifd ifd'.

Lemma window_mono t t' : advances ifd t t' -> task_in_window ifd t -> task_in_window ifd' t'.
Proof using Hg.
  intros Had Hw Ha r ring' Hr E'. destruct (Hg r ring' Hr E') as (ring & E & _ & _ & Hin).
  apply Hin. apply (ad_heads _ _ _ Had r ring Hr E). by apply Hw, E; [apply Had|].
Qed.

Lemma hs_window_mono rs hs :
  (forall r, r ∈ rs -> r ∈ ring_ids) -> hs_in_window ifd rs hs -> hs_in_window ifd' rs hs.
Proof using Hg.
  intros Hin Hw r ring' Hr E'. destruct (Hg r ring' (Hin r Hr) E') as (ring & E & _ & _ & Hi).
  by apply Hi, Hw.
Qed.

Lemma not_behind_mono rs hs t t' :
  (forall r, r ∈ rs -> r ∈ ring_ids) -> advances ifd t t' ->
  (forall r ring, r ∈ rs -> rxring ifd r = Done ring -> in_window ring (c_head t r)) ->
  not_behind ifd rs hs t -> not_behind ifd' rs hs t'.
Proof using Hg.
  intros Hin Had Hw Hb r ring' Hr E'.
  destruct (Hg r ring' (Hin r Hr) E') as (ring & E & -> & Hf & _). rewrite !Hf.
  destruct (ad_heads _ _ _ Had r ring (Hin r Hr) E (Hw r ring Hr E)) as [_ Hle].
  specialize (Hb r ring Hr E). lia.
Qed.

Lemma accounted_mono u hs t t' :
  advances ifd t t' -> task_in_window ifd t -> accounted ifd u hs t -> accounted ifd' u hs t'.
Proof using Hg.
  intros Had Hw Hac Ha. pose proof (ad_active _ _ _ Had Ha) as Ha0.
  destruct (Hac Ha0) as [Hu Hb]. split; [done|].
  apply not_behind_mono with t; try done. by apply Hw.
Qed.
End Mono.

Lemma Forall2_mono {T} (P Q R : T -> Prop) (S : T -> T -> Prop) ts ts' :
  (forall t t', S t t' -> Q t -> P t -> R t') -> Forall2 S ts ts' -> Forall Q ts -> Forall P ts ->
  Forall R ts'.
Proof.
  intros HS. induction 1 as [|t t' ts ts' Ht _ IH]; [done|].
  rewrite !Forall_cons. intros [??] [??]. split; [by eapply HS|by apply IH].
Qed.

Lemma sub_rings seen rs r : ring_ids = seen ++ rs -> r ∈ seen \/ r ∈ rs -> r ∈ ring_ids.
Proof. intros ->. by rewrite elem_of_app. Qed.

Lemma heads_safe_mono ifd ifd' rs ts ts' o :
  grows ifd ifd' -> Forall2 (advances ifd) ts ts' -> Forall (task_in_window ifd) ts ->
  (forall r, r ∈ rs -> r ∈ ring_ids) -> heads_safe ifd rs ts o -> heads_safe ifd' rs ts' o.
Proof.
  intros Hg H2 Hw Hin. destruct o as [hs|]; simpl.
  - intros [Hh Hb]. split; [by apply hs_window_mono with ifd|].
    revert H2 Hw Hb. apply Forall2_mono. intros t t' Had Hwt Hbt Ha.
    pose proof (ad_active _ _ _ Had Ha) as Ha0. apply not_behind_mono with ifd t; try done.
    + intros r ring Hr. apply Hwt; [done|by apply Hin].
    + by apply Hbt.
  - revert Hw. apply (Forall2_mono _ _ _ (advances ifd)); [|done].
    intros t t' Had _ Ha. destruct (c_active t') eqn:E; [|done].
    by rewrite (ad_active _ _ _ Had E) in Ha.
Qed.

Lemma phase_ok_mono ifd ifd' ts ts' ph :
  grows ifd ifd' -> Forall2 (advances ifd) ts ts' -> Forall (task_in_window ifd) ts ->
  phase_ok ifd ts ph -> phase_ok ifd' ts' ph.
Proof.
  intros Hg H2 Hw. destruct ph as [| |i u hs|i rs u hs|i o|rs skip o]; simpl; try done.
  - intros (Hl & Hh & Hac). split; [done|]. split; [intros; apply hs_window_mono with ifd; auto|].
    eapply Forall2_mono; [|by apply Forall2_take, H2|by apply Forall_take, Hw|exact Hac].
    intros t t'. by apply accounted_mono.
  - intros (Hl & Hh & Hac & seen & t & Hs & Ht & Hws & Hb & Hr).
    split; [done|]. split; [intros; apply hs_window_mono with ifd; auto|]. split.
    { eapply Forall2_mono; [|by apply Forall2_take, H2|by apply Forall_take, Hw|exact Hac].
      intros t1 t1'. by apply accounted_mono. }
    destruct (Forall2_lookup_l _ _ _ _ _ H2 Ht) as (t' & Ht' & Had).
    pose proof (Forall_lookup_1 _ _ _ _ Hw Ht) as Hwt.
    exists seen, t'. do 2 (split; [done|]). split.
    { apply hs_window_mono with ifd; try done. intros r Hr'. eapply sub_rings; eauto. }
    split.
    { intros Ha. pose proof (ad_active _ _ _ Had Ha) as Ha0.
      apply not_behind_mono with ifd t; try done; [intros r Hr'; eapply sub_rings; eauto| |by apply Hb].
      intros r ring Hr' E. apply Hwt; [done| |done]. eapply sub_rings; eauto. }
    intros r ring' Hr' E'. assert (Hri : r ∈ ring_ids) by (eapply sub_rings; eauto).
    destruct (Hg r ring' Hri E') as (ring & E & _ & _ & Hin). apply Hin.
    apply (ad_heads _ _ _ Had r ring Hri E). by apply Hr.
  - by apply heads_safe_mono.
  - intros [[seen Hs] Hsafe]. split; [by exists seen|].
    eapply heads_safe_mono; eauto. intros r Hr. eapply sub_rings; eauto.
Qed.

(** *** The coordinator's own accesses *)

Lemma hs_insert hs r v r' :
  length hs = 4%nat -> r ∈ ring_ids -> r' ∈ ring_ids ->
  nth (Z.to_nat r') (<[Z.to_nat r := v]> hs) 0 = if r =? r' then v else nth (Z.to_nat r') hs 0.
Proof.
  intros Hl Hr%ring_ids_range Hr'%ring_ids_range. destruct (Z.eqb_spec r r') as [<-|].
  - rewrite nth_insert_eq by lia. done.
  - rewrite nth_insert_ne by lia. done.
Qed.

(** The head collected for a ring, moved to [v], not ahead of what it was. *)
Lemma not_behind_insert ifd rs hs r ring v t :
  length hs = 4%nat -> r ∈ ring_ids -> (forall r', r' ∈ rs -> r' ∈ ring_ids) ->
  rxring ifd r = Done ring ->
  fwd ring (head ring) v <= fwd ring (head ring) (nth (Z.to_nat r) hs 0) ->
  not_behind ifd rs hs t -> not_behind ifd rs (<[Z.to_nat r := v]> hs) t.
Proof.
  intros Hl Hr Hin E Hle Hb r' ring' Hr' E'. rewrite hs_insert by auto.
  specialize (Hb r' ring' Hr' E'). destruct (Z.eqb_spec r r') as [<-|]; [|done].
  assert (ring' = ring) as -> by congruence. lia.
Qed.

Lemma hs_window_insert ifd rs hs r ring v :
  length hs = 4%nat -> r ∈ ring_ids -> (forall r', r' ∈ rs -> r' ∈ ring_ids) ->
  rxring ifd r = Done ring -> in_window ring v -> hs_in_window ifd rs hs ->
  hs_in_window ifd rs (<[Z.to_nat r := v]> hs).
Proof.
  intros Hl Hr Hin E Hv Hw r' ring' Hr' E'. rewrite hs_insert by auto.
  destruct (Z.eqb_spec r r') as [<-|]; [|by apply Hw]. by assert (ring' = ring) as -> by congruence.
Qed.

(** One head of the task being read is collected. *)
Lemma read_head_ok ifd ts i r rs u hs ring v :
  coord_ok ifd -> rxring ifd r = Done ring -> phase_ok ifd ts (Reading i (r :: rs) u hs) ->
  in_window ring v ->
  (forall t, ts !! i = Some t -> fwd ring (head ring) v <= fwd ring (head ring) (c_head t r)) ->
  (u = true -> fwd ring (head ring) v <= fwd ring (head ring) (nth (Z.to_nat r) hs 0)) ->
  phase_ok ifd ts (Reading i rs u (<[Z.to_nat r := v]> hs)).
Proof.
  intros Hco E (Hl & Hu & Hac & seen & t & Hs & Ht & Hws & Hb & Hr) Hv Hct Hle.
  assert (Hri : r ∈ ring_ids) by (eapply sub_rings; [done|right; left]).
  assert (Hin : forall r', r' ∈ seen -> r' ∈ ring_ids) by (intros; eapply sub_rings; eauto).
  assert (Hnr : r ∉ seen).
  { pose proof ring_ids_NoDup as Hnd. rewrite Hs in Hnd.
    apply NoDup_app in Hnd as (_ & Hnd & _). intros Hx. apply (Hnd r Hx). left. }
  split; [by rewrite length_insert|]. split.
  { intros Hut. by apply hs_window_insert with ring; auto. }
  split.
  { eapply List.Forall_impl; [|exact Hac]. intros t' Hac' Ha. destruct (Hac' Ha) as [Hut Hb'].
    split; [done|]. apply not_behind_insert with ring; auto. }
  exists (seen ++ [r]), t. split; [by rewrite <- app_assoc|]. split; [done|]. split; [|split].
  - intros r' ring' [Hr'| ->%list_elem_of_singleton]%elem_of_app E'; rewrite hs_insert by auto.
    + destruct (Z.eqb_spec r r') as [<-|]; [done|by apply Hws].
    + rewrite Z.eqb_refl. by assert (ring' = ring) as -> by congruence.
  - intros Ha r' ring' [Hr'| ->%list_elem_of_singleton]%elem_of_app E'; rewrite hs_insert by auto.
    + destruct (Z.eqb_spec r r') as [<-|]; [done|by apply Hb].
    + rewrite Z.eqb_refl. assert (ring' = ring) as -> by congruence. by apply Hct.
  - intros r' ring' Hr'. apply Hr. by right.
Qed.

(** One ring is released. *)
Lemma release_one_ok ts r rs skip o d :
  coord_ok (d_ifd d) -> counts_ok (latest d) -> Forall (task_in_window (d_ifd d)) ts ->
  phase_ok (d_ifd d) ts (Releasing (r :: rs) skip o) ->
  exists s d', release_ring o r d = Done (s, d') /\
    sys_ok {| sys_data := d'; sys_phase := Releasing rs (skip && s) o; sys_tasks := ts |}.
Proof.
  intros Hco Hct Hw [[seen Hs] Hsafe].
  assert (Hri : r ∈ ring_ids) by (eapply sub_rings; [done|right; left]).
  assert (Hnr : r ∉ rs).
  { pose proof ring_ids_NoDup as Hnd. rewrite Hs in Hnd.
    apply NoDup_app in Hnd as (_ & _ & Hnd). by apply NoDup_cons in Hnd as [? _]. }
  destruct (rxring_ok _ r Hco Hri) as (ring & E & Hok).
  assert (Hnh : in_window ring (new_head o r ring)).
  { destruct o as [hs|]; simpl in *; [apply Hsafe; [left|done]|].
    split; [by apply ro_tail|done]. }
  rewrite (release_ring_ok o r d ring E Hok (co_cur _ Hco r ring Hri E) Hnh).
  destruct (if new_head o r ring =? head ring then _ else _) as [s d1] eqn:E1.
  destruct (release_step o r d s d1 ring) as (Hco1 & Hct1 & G & _); [done..|].
  exists s, d1. split; [done|]. split; [done|done| |].
  - (* every active task's head is still in the window *)
    rewrite Forall_forall in Hw |- *. intros t Ht Ha r' ring' Hr' E'. rewrite G in E' by done.
    destruct (Z.eqb_spec r r') as [<-|]; [|by apply (Hw t)].
    injection E' as <-. apply released_window; [done..|by apply (Hw t)|].
    destruct o as [hs|]; simpl in Hsafe |- *.
    + destruct Hsafe as [_ Hb]. rewrite Forall_forall in Hb. apply (Hb t Ht Ha r ring); [left|done].
    + rewrite Forall_forall in Hsafe. by rewrite Hsafe in Ha.
  - (* the other rings have not changed *)
    assert (Hne : forall r' ring', r' ∈ rs -> rxring (d_ifd d1) r' = Done ring' ->
        rxring (d_ifd d) r' = Done ring').
    { intros r' ring' Hr' E'. rewrite G in E' by (eapply sub_rings; [done|right; by right]).
      by destruct (Z.eqb_spec r r') as [->|]. }
    split; [exists (seen ++ [r]); by rewrite <- app_assoc|].
    destruct o as [hs|]; simpl in *; [|done]. destruct Hsafe as [Hh Hb]. split.
    + intros r' ring' Hr' E'. apply Hh; [by right|by apply Hne].
    + eapply List.Forall_impl; [|exact Hb]. intros t Hbt Ha r' ring' Hr' E'.
      apply (Hbt Ha); [by right|by apply Hne].
Qed.

(** The coordinator never fails and its next access keeps the invariant. *)
Lemma poll_step_ok `{SignalEnv} d ph ts :
  sys_ok {| sys_data := d; sys_phase := ph; sys_tasks := ts |} ->
  exists ph' d', poll_step ts ph d = Done (ph', d') /\
    sys_ok {| sys_data := d'; sys_phase := ph'; sys_tasks := ts |}.
Proof.
  intros [Hco Hct Hw Hp]. simpl in Hco, Hct, Hw, Hp.
  destruct ph as [| |i u hs|i [|r rs] u hs|i o|[|r rs] skip o]; cbn [poll_step].
  - eexists _, _. split; [done|]. split; [done..|]. by split; [|split].
  - by eexists _, _.
  - destruct Hp as (Hl & Hu & Hac). destruct (ts !! i) as [t|] eqn:Ei.
    + destruct (c_active t) eqn:Ha; eexists _, _; (split; [done|]); (split; [done..|]).
      * split; [done|]. split; [done|]. split; [done|]. exists [], t. do 2 (split; [done|]).
        split; [intros r ring Hr; by apply elem_of_nil in Hr|].
        split; [intros _ r ring Hr; by apply elem_of_nil in Hr|].
        by apply (Forall_lookup_1 _ _ _ _ Hw Ei).
      * split; [done|]. split; [done|]. cbn [sys_tasks]. rewrite (take_S_r _ _ _ Ei). apply Forall_app. split; [done|].
        apply Forall_singleton. intros Ha'. congruence.
    + eexists _, _. split; [done|]. split; [done..|]. rewrite take_ge in Hac by (by apply lookup_ge_None_1).
      destruct u; simpl.
      * split; [by apply Hu|]. eapply List.Forall_impl; [|exact Hac]. intros t Ht Ha. by apply Ht.
      * eapply List.Forall_impl; [|exact Hac]. intros t Ht. destruct (c_active t) eqn:Ha; [|done].
        by destruct (Ht Ha).
  - destruct Hp as (Hl & Hu & Hac & seen & t & Hs & Ht & Hws & Hb & _).
    rewrite app_nil_r in Hs. subst seen. eexists _, _. split; [done|]. split; [done..|].
    split; [done|]. split; [done|]. cbn [sys_tasks]. rewrite (take_S_r _ _ _ Ht). apply Forall_app. split.
    + eapply List.Forall_impl; [|exact Hac]. intros t' Hac' Ha. by destruct (Hac' Ha).
    + apply Forall_singleton. by split; [|apply Hb].
  - pose proof Hp as (Hl & Hu & _ & seen & t & Hs & Ht & _ & _ & Hr). rewrite Ht.
    assert (Hri : r ∈ ring_ids) by (eapply sub_rings; [done|right; left]).
    destruct (rxring_ok _ r Hco Hri) as (ring & E & Hok). rewrite E. cbn.
    assert (Hct' : in_window ring (c_head t r)) by (apply Hr; [left|done]).
    eexists _, _. split; [done|]. split; [done..|]. cbn [sys_data sys_phase sys_tasks] in *. destruct u.
    + pose proof (Hu eq_refl r ring Hri E) as Hwh.
      destruct (earlier_id_fwd ring _ _ Hok (proj1 Hwh) (proj1 Hct')) as [Hor Hmin].
      apply read_head_ok with ring; try done.
      * by destruct Hor as [->| ->].
      * intros t' Ht'. assert (t' = t) as -> by congruence. lia.
      * intros _. lia.
    + apply read_head_ok with ring; try done.
      intros t' Ht'. by assert (t' = t) as -> by congruence.
  - destruct (ts !! i) as [t|].
    + case_if; eexists _, _; (split; [done|]); by split.
    + eexists _, _. split; [done|]. split; [done|done|done|]. by split; [exists []|].
  - eexists _, _. split; [done|]. by split.
  - destruct (release_one_ok ts r rs skip o d) as (s & d' & -> & Hok); [done..|].
    by eexists _, _.
Qed.

Lemma sys_step_ok `{SignalEnv} s s' : sys_step s s' -> sys_ok s -> sys_ok s'.
Proof.
  intros [d ph ts r ring ring' Hr E Hrv|d ph ts i t t' Hi Ht|d ts i t t' Hi Hhd|d d' ph ph' ts E] Hs.
  - destruct Hs as [Hco Hct Hw Hp]. simpl in *.
    destruct (receive_grows _ r ring ring' Hco Hr E Hrv) as [Hco' Hg].
    split; [done|done| |by apply phase_ok_mono with (d_ifd d) ts; [|apply advances_same|..]].
    eapply List.Forall_impl; [|exact Hw]. intros t. apply window_mono with (1 := Hg). apply advances_refl.
  - destruct Hs as [Hco Hct Hw Hp]. simpl in *.
    pose proof (task_moves_advances _ t t' Hco Ht) as Had.
    assert (H2 : Forall2 (advances (d_ifd d)) ts (<[i := t']> ts)).
    { rewrite <- (list_insert_id ts i t Hi) at 1. by apply Forall2_insert; [apply advances_same|]. }
    split; [done|done| |by apply phase_ok_mono with (d_ifd d) ts; [apply grows_refl|..]].
    apply Forall_insert; [done|]. apply window_mono with (d_ifd d) t; [apply grows_refl|done|].
    by apply (Forall_lookup_1 _ _ _ _ Hw Hi).
  - destruct Hs as [Hco Hct Hw Hp]. simpl in *. split; [done|done| |done].
    apply Forall_insert; [done|]. intros _ r ring Hr E. simpl in E. rewrite (Hhd r ring Hr E).
    destruct (rxring_ok _ r Hco Hr) as (ring' & E' & Hok). assert (ring' = ring) as -> by congruence.
    by apply head_in_window.
  - destruct (poll_step_ok d ph ts Hs) as (ph1 & d1 & E1 & Hok).
    rewrite E in E1. by injection E1 as <- <-.
Qed.

(** *** A poll that nothing interrupts *)

Lemma earlier_heads_length ifd rs : forall hs t hs',
  earlier_heads ifd rs hs t = Done hs' -> length hs' = length hs.
Proof.
  induction rs as [|r rs IH]; intros hs t hs' E; simpl in E; [by injection E as <-|].
  destruct (rxring ifd r) as [ring|]; [|done]. apply IH in E. by rewrite E, length_insert.
Qed.

(** The coordinator's accesses with the tasks as they are. *)
Definition poll_next `{SignalEnv} (ts : list c_task) (x y : poll_phase * rings_data_t) : Prop :=
  poll_step ts x.1 x.2 = Done y.

Section Uninterrupted.
Context `{SignalEnv} (ts : list c_task).

(** The heads of a task compared, or copied, ring by ring. *)
Lemma reads_rings i t rs (u : bool) hs hs' d :
  ts !! i = Some t ->
  (if u then earlier_heads (d_ifd d) rs hs t
   else mret (foldl (fun hs r => <[Z.to_nat r := c_head t r]> hs) hs rs)) = Done hs' ->
  (forall r, r ∈ rs -> exists ring, rxring (d_ifd d) r = Done ring) ->
  rtc (poll_next ts) (Reading i rs u hs, d) (Looking (S i) true hs', d).
Proof using Type.
  intros Ht. revert hs. induction rs as [|r rs IH]; intros hs E Hr.
  { apply rtc_once. unfold poll_next. simpl. by destruct u; injection E as <-. }
  destruct (Hr r) as [ring Er]; [by left|].
  eapply rtc_l; [|apply IH; [|intros r' Hr'; apply Hr; by right]].
  - unfold poll_next. simpl. rewrite Ht, Er. done.
  - destruct u; [|done]. simpl in E. by rewrite Er in E.
Qed.

Lemma copied_heads t hs :
  length hs = 4%nat ->
  foldl (fun hs r => <[Z.to_nat r := c_head t r]> hs) hs ring_ids = c_head t <$> ring_ids.
Proof using Type. by destruct hs as [|? [|? [|? [|? [|]]]]]. Qed.

Lemma looks_tasks d ts2 : forall ts1 u hs o,
  (forall r, r ∈ ring_ids -> exists ring, rxring (d_ifd d) r = Done ring) ->
  ts = ts1 ++ ts2 -> length hs = 4%nat ->
  get_heads_loop (d_ifd d) ts2 (if u : bool then Some hs else None) = Done o ->
  rtc (poll_next ts) (Looking (length ts1) u hs, d) (Waking 0 o, d).
Proof using Type.
  induction ts2 as [|t ts2 IH]; intros ts1 u hs o Hr Hts Hl E.
  { apply rtc_once. unfold poll_next. simpl. rewrite lookup_ge_None_2 by (rewrite Hts, app_nil_r; lia).
    injection E as <-. done. }
  assert (Ht : ts !! length ts1 = Some t) by (rewrite Hts; by apply list_lookup_middle).
  assert (Hts' : ts = (ts1 ++ [t]) ++ ts2) by (by rewrite <- app_assoc).
  assert (Hlen : length (ts1 ++ [t]) = S (length ts1)) by (rewrite length_app; simpl; lia).
  cbn [get_heads_loop] in E. destruct (c_active t) eqn:Ha.
  2:{ eapply rtc_l; [unfold poll_next; simpl; rewrite Ht, Ha; done|]. rewrite <- Hlen. by apply IH. }
  eapply rtc_l; [unfold poll_next; simpl; rewrite Ht, Ha; done|].
  set (hs1 := if u then earlier_heads (d_ifd d) ring_ids hs t else mret (c_head t <$> ring_ids)).
  assert (E1 : exists hs', hs1 = Done hs' /\ length hs' = 4%nat /\
      get_heads_loop (d_ifd d) ts2 (Some hs') = Done o).
  { unfold hs1. destruct u; [|by eexists].
    destruct (earlier_heads (d_ifd d) ring_ids hs t) as [hs'|] eqn:E1; [|done].
    exists hs'. split; [done|]. split; [|done]. by rewrite (earlier_heads_length _ _ _ _ _ E1). }
  destruct E1 as (hs' & E1 & Hl' & E2). etrans.
  - apply (reads_rings _ t ring_ids u hs hs'); [done| |done].
    destruct u; [done|]. by rewrite copied_heads.
  - rewrite <- Hlen. by apply (IH _ true).
Qed.

Lemma wakes_tasks d o ts2 : forall ts1 sigs rc,
  ts = ts1 ++ ts2 -> wakeup_loop (length ts1) ts2 = (rc, sigs) -> rc = 0 ->
  rtc (poll_next ts) (Waking (length ts1) o, d) (Waking (length ts) o, d).
Proof using Type.
  induction ts2 as [|t ts2 IH]; intros ts1 sigs rc Hts E Hrc.
  { by rewrite Hts, app_nil_r. }
  assert (Ht : ts !! length ts1 = Some t) by (rewrite Hts; by apply list_lookup_middle).
  assert (Hts' : ts = (ts1 ++ [t]) ++ ts2) by (by rewrite <- app_assoc).
  assert (Hlen : length (ts1 ++ [t]) = S (length ts1)) by (rewrite length_app; simpl; lia).
  simpl in E. destruct (wakeup_loop (S (length ts1)) ts2) as [rc' l] eqn:El. rewrite <- Hlen in El.
  assert (Hc : c_active t && negb (c_busy t) && (signal_rc (length ts1) =? -1) = false /\ rc' = 0).
  { destruct (c_active t && negb (c_busy t)); [|by injection E as <- _].
    destruct (signal_rc (length ts1) =? -1); injection E; intros; subst; done. }
  destruct Hc as [Hc ->]. eapply rtc_l; [unfold poll_next; simpl; rewrite Ht, Hc; done|].
  rewrite <- Hlen. by eapply IH.
Qed.

Lemma releases_rings o rs : forall skip d skip' d',
  release_loop o rs skip d = Done (skip', d') ->
  rtc (poll_next ts) (Releasing rs skip o, d) (Releasing [] skip' o, d').
Proof using Type.
  induction rs as [|r rs IH]; intros skip d skip' d' E; simpl in E.
  { injection E as <- <-. apply rtc_refl. }
  destruct (release_ring o r d) as [[s d1]|] eqn:E1; [|done].
  eapply rtc_l; [|by apply IH]. unfold poll_next. simpl. by rewrite E1.
Qed.

(** A poll whose accesses nothing comes between is [s_new_pkts_hn]. *)
Lemma poll_uninterrupted d sigs d' :
  (forall r, r ∈ ring_ids -> exists ring, rxring (d_ifd d) r = Done ring) ->
  s_new_pkts_hn ts d = Done (0, sigs, d') -> rtc (poll_next ts) (Idle, d) (Idle, d').
Proof using Type.
  intros Hr. unfold s_new_pkts_hn, tasks_get_heads, tasks_wakeup.
  destruct (get_heads_loop (d_ifd d) ts None) as [o|] eqn:Eh; [|done].
  cbn -[release_loop to_u64]. destruct (wakeup_loop 0 ts) as [rc l] eqn:Ew.
  cbn -[release_loop to_u64]. destruct (c_true rc) eqn:Erc; [done|].
  destruct (release_loop o ring_ids true _) as [[skip d1]|] eqn:El; [|done].
  cbn -[to_u64]. intros [= _ <-].
  assert (Hrc : rc = 0) by (unfold c_true in Erc; bool_hyps; lia).
  eapply rtc_l; [done|]. etrans; [by apply (looks_tasks d ts []) with (o := o)|].
  etrans; [by apply (wakes_tasks d o ts []) with (sigs := l) (rc := rc)|].
  eapply rtc_l; [unfold poll_next; simpl; by rewrite lookup_ge_None_2 by lia|].
  etrans; [by apply releases_rings|]. by apply rtc_once.
Qed.
End Uninterrupted.

(** A task's wakeup is a step of the system. *)
Lemma progress_step {D} ifd (t t' : task D) :
  heads_ok ifd t -> heads_ok ifd t' -> progress ifd t t' -> active t = true ->
  task_step ifd (c_view t) (c_view t').
Proof.
  intros Hh Hh' Hp Ha. apply TaskSees; [done|]. intros r ring Hr E.
  change (c_head (c_view t') r) with (head_of t' r). change (c_head (c_view t) r) with (head_of t r).
  destruct (ho_ring _ _ Hh' r Hr) as (ring' & E' & Hok & Hs'). rewrite E in E'. injection E' as <-.
  destruct (ho_ring _ _ Hh r Hr) as (ring' & E' & _ & Hs). rewrite E in E'. injection E' as <-.
  split; [done|]. destruct (Hp r Hr) as [l El]. apply (f_equal length) in El.
  unfold waiting in El. rewrite E, length_app in El.
  pose proof (waiting_length ring (head_of t r) Hok Hs).
  pose proof (waiting_length ring (head_of t' r) Hok Hs'). lia.
Qed.

(** The calls of a task's handler, as accesses one by one. *)
Section Accesses.
Context {D : Type} `{ZEnv} `{!TaskImpl D} (I : D -> Prop) (A : tespkt -> Prop) `{!TaskLaws I A}.

Lemma c_view_same (t t' : task D) : heads t' = heads t -> same_ctl t t' -> c_view t' = c_view t.
Proof using Type. intros Hh []. unfold c_view. congruence. Qed.

Lemma handed_moves ifd (t : task D) l o t' :
  handed ifd t l o t' -> heads_ok ifd t -> all_good A ifd t -> I (data t) -> active t = true ->
  rtc (task_moves ifd) (c_view t) (c_view t') /\ active t' = true.
Proof using Type*.
  induction 1 as [t|t r ring s ss t1 l o t' Hr E Hw Eh _ IH|t r s ss rc t1 Hr Hw Eh _
    |t p l o t' _ _ IH|t l o t' _ IH]; intros Hh Hg HI Ha; [by split; [apply rtc_refl|]|..].
  - destruct (handle_first I A ifd t r s ss 0 t1) as (HI1 & Hh1 & Hw1 & Ehd & Hc); try done.
    destruct (pop_slot ifd r ring s ss t1 Hh1 Hr E) as [Hp Hq]; [by rewrite Hw1|].
    assert (Hg1 : all_good A ifd t1) by (intros r' Hr'; rewrite Hw1; by apply Hg).
    assert (Ha1 : active t1 = true) by (by rewrite (sc_active _ _ Hc)).
    destruct IH as [Hm Ha']; [done| |done|done|].
    { by apply (queues_good A ifd t1 _ (fun r' => if r =? r' then [s] else [])). }
    split; [|done]. eapply rtc_l; [|exact Hm]. rewrite <- (c_view_same t t1) by done.
    replace (c_view (set_head_of t1 r _)) with
      {| c_active := true; c_busy := c_busy (c_view t1);
         c_heads := <[Z.to_nat r := tes_ifring_following ring (c_head (c_view t1) r)]> (c_heads (c_view t1)) |}
      by (unfold c_view; simpl; by rewrite Ha1).
    apply MovesHead; try done. intros Ht. destruct (ho_ring ifd t1 Hh1 r Hr) as (ring' & E' & Hok & Hs).
    rewrite E in E'. injection E' as <-. specialize (Hw1 r). rewrite Hw in Hw1.
    unfold waiting in Hw1. by rewrite E, (proj2 (waiting_nil ring _ Hok Hs) Ht) in Hw1.
  - destruct (handle_first I A ifd t r s ss rc t1) as (_ & _ & _ & Ehd & Hc); try done.
    rewrite (c_view_same t t1), (sc_active _ _ Hc) by done. by split; [apply rtc_refl|].
  - apply IH; try done. by apply heads_ok_heads with t.
  - apply IH; try done. by apply heads_ok_heads with t.
Qed.

Lemma wakeup_end_moves `{!ZEnvReader} ifd (t : task D) l o t1 t' :
  wakeup_end ifd t l o t1 t' -> I (data t1) -> frontends_ok t1 ->
  rtc (task_moves ifd) (c_view t1) (c_view t').
Proof using Type*.
  intros Hend HI Hf. destruct o as [[[r s] rc]|]; [|destruct Hend as [-> _]; apply rtc_refl].
  destruct Hend as [[_ E]|[_ ->]]; [|apply rtc_refl].
  pose proof (task_deactivate_ok I A (set_just_activated t1 false) HI Hf) as Hd.
  rewrite E in Hd. destruct Hd as (_ & Hh & _ & _ & Hb & _ & [[_ Ha]|[? _]]); [|done].
  apply rtc_once. unfold c_view. rewrite Hh, Hb, Ha. apply MovesToSleep.
Qed.

(** Activation is the step [StepActivate]. *)
Lemma activate_step ifd (t : task D) rc t' :
  I (data t) -> heads_ok ifd t -> task_activate ifd t = Done (rc, t') ->
  c_active (c_view t') = true /\
  forall r ring, r ∈ ring_ids -> rxring ifd r = Done ring -> c_head (c_view t') r = head ring.
Proof using Type*.
  intros HI Hh E. pose proof (task_activate_ok I A ifd t HI Hh) as Hw. rewrite E in Hw.
  destruct Hw as (_ & _ & _ & Ha & _ & _ & _ & _ & Hhd & _). by split.
Qed.
End Accesses.

(** Nothing but the tail is left in the window when a ring is released to it. *)
Lemma tail_window_head ring :
  ring_ok ring ->
  fwd ring (tail ring) (head ring) <= fwd ring (tail ring) (tail ring) -> head ring = tail ring.
Proof.
  intros Hok Hle. pose proof (ring_ok_pos ring Hok) as Hn. pose proof (ro_tail ring Hok) as Ht.
  rewrite (proj2 (fwd_zero ring _ _ Hn Ht Ht) eq_refl) in Hle.
  pose proof (fwd_range ring (tail ring) (head ring) Hn).
  symmetry. apply (fwd_zero ring); [done|done|by apply ro_head|lia].
Qed.

Lemma no_active_heads ifd ts :
  Forall (fun u => c_active u = false) ts -> tasks_get_heads ifd ts = Done None.
Proof.
  unfold tasks_get_heads. induction ts as [|u ts IH]; [done|].
  intros Hf. apply Forall_cons_1 in Hf as [Hu Hts]. simpl. rewrite Hu. by apply IH.
Qed.

(** ** Sample system *)

Module Sample.
#[export] Instance env : SignalEnv := fun _ => 0.

Definition ts : list c_task :=
  [{| c_active := true; c_busy := false; c_heads := [0; 1; 0; 4] |};
   {| c_active := false; c_busy := false; c_heads := [3; 3; 3; 3] |};
   {| c_active := true; c_busy := true; c_heads := [7; 0; 0; 5] |}].

Definition d : rings_data_t := {| d_ifd := Recorder.ifd; latest := zero_stats |}.

(** The interface's rings start at 6, 0, 0 and 3. *)
Lemma each_ring (P : Z -> tes_ifring -> Prop) :
  P 0 (Recorder.ring_of 6 [11; 14; 15]) -> P 1 (Recorder.ring_of 0 [10]) ->
  P 2 (Recorder.ring_of 0 []) -> P 3 (Recorder.ring_of 3 [12; 13]) ->
  forall r ring, r ∈ ring_ids -> rxring Recorder.ifd r = Done ring -> P r ring.
Proof.
  intros H0 H1 H2 H3 r ring Hr. unfold ring_ids in Hr.
  repeat (apply elem_of_cons in Hr as [->|Hr]; [by intros [= <-]|]). by apply elem_of_nil in Hr.
Qed.

Lemma ifd_coord_ok : coord_ok Recorder.ifd.
Proof.
  split; [split; try done|done|by apply each_ring].
  repeat (apply Forall_cons_2; [split; try done; vm_compute; split; congruence|]).
  apply Forall_nil_2.
Qed.

Lemma ts_in_window : Forall (task_in_window Recorder.ifd) ts.
Proof.
  repeat (apply Forall_cons_2; [intros Ha; try done;
    apply (each_ring (fun r ring => in_window ring (c_head _ r)));
    (split; [split|]; vm_compute; congruence)|]).
  apply Forall_nil_2.
Qed.

Lemma counts_zero : counts_ok zero_stats.
Proof. split; vm_compute; split; congruence. Qed.

Lemma signals : signals_ok.
Proof. by intros i. Qed.

Example poll_result :
  (fun '(rc, sigs, d') => (rc, sigs, latest d', head <$> rx_rings (d_ifd d'))) <$>
    match s_new_pkts_hn ts d with Done x => Some x | Failed _ => None end
  = Some (0, [0%nat], {| received := 2; missed := 0; polled := 1; skipped := 0 |}, [7; 0; 0; 4]).
Proof. vm_compute. reflexivity. Qed.

(** A poll in the middle of which the first task reads a packet. *)
Definition sys : system := {| sys_data := d; sys_phase := Idle; sys_tasks := ts |}.

Definition moved : list c_task :=
  <[0%nat := {| c_active := true; c_busy := false; c_heads := [1; 1; 0; 4] |}]> ts.

Fixpoint poll_run (n : nat) (us : list c_task) (x : poll_phase * rings_data_t)
    : exec (poll_phase * rings_data_t) :=
  match n with
  | O => mret x
  | S n => y ← poll_step us x.1 x.2; poll_run n us y
  end.

Lemma poll_run_steps us n : forall x y,
  poll_run n us x = Done y ->
  rtc sys_step {| sys_data := x.2; sys_phase := x.1; sys_tasks := us |}
    {| sys_data := y.2; sys_phase := y.1; sys_tasks := us |}.
Proof.
  induction n as [|n IH]; intros x y E; simpl in E; [injection E as <-; apply rtc_refl|].
  destruct (poll_step us x.1 x.2) as [[ph d']|] eqn:E1; [|done].
  eapply rtc_l; [by apply StepPoll|]. by apply (IH (ph, d')).
Qed.

Lemma interleaved :
  exists s', rtc sys_step sys s' /\ sys_phase s' = Idle /\
    c_heads <$> sys_tasks s' = [[1; 1; 0; 4]; [3; 3; 3; 3]; [7; 0; 0; 5]] /\
    head <$> rx_rings (d_ifd (sys_data s')) = [7; 0; 0; 4].
Proof.
  destruct (poll_run 4 ts (Idle, d)) as [x|] eqn:E1; [|by vm_compute in E1].
  destruct (poll_run 20 moved x) as [y|] eqn:E2.
  2:{ vm_compute in E1. injection E1 as <-. by vm_compute in E2. }
  assert (E3 : (y.1, head <$> rx_rings (d_ifd y.2), d_ifd x.2) = (Idle, [7; 0; 0; 4], d_ifd d)).
  { vm_compute in E1. injection E1 as <-. vm_compute in E2. injection E2 as <-. reflexivity. }
  injection E3 as Ey Eh Ex.
  exists {| sys_data := y.2; sys_phase := y.1; sys_tasks := moved |}.
  split; [|by split; [|split]].
  etrans; [by apply (poll_run_steps ts 4 (Idle, d) x)|].
  etrans; [|by apply (poll_run_steps moved 20 x y)].
  apply rtc_once. apply StepTask with {| c_active := true; c_busy := false; c_heads := [0; 1; 0; 4] |};
    [done|].
  apply (MovesHead _ {| c_active := true; c_busy := false; c_heads := [0; 1; 0; 4] |}
    0 (Recorder.ring_of 6 [11; 14; 15])); [done|left|by rewrite Ex|by vm_compute].
Qed.
End Sample.

#[local] Existing Instance Sample.env.

(** ** Properties *)

(** C3: on new packets the coordinator never fails when the task heads are in
    their rings' windows.  It wakes up exactly the active tasks that are not
    busy; the new head of each ring is the head of an active task no other
    active task is behind, or the tail when no task is active; every active
    task's head is still in the window, and so are the packets it has not
    seen; the cursor is left at the head.  The packets released are added to
    the received count and the gaps in their sequence numbers to the missed
    one; a poll is counted, as skipped if no ring moved. *)
Theorem s_new_pkts_hn_correct `{SignalEnv} ts d :
  signals_ok -> coord_ok (d_ifd d) -> Forall (task_in_window (d_ifd d)) ts ->
  counts_ok (latest d) ->
  exists sigs heads d', s_new_pkts_hn ts d = Done (0, sigs, d') /\
    (NoDup sigs /\ forall n, n ∈ sigs <-> sleeping ts n) /\ polled_ok ts heads d d'.
Proof. exact (s_new_pkts_hn_ok ts d). Qed.

Lemma s_new_pkts_hn_correct_witness :
  exists sigs d', s_new_pkts_hn Sample.ts Sample.d = Done (0, sigs, d') /\
    NoDup sigs /\ Forall (task_in_window (d_ifd d')) Sample.ts.
Proof.
  destruct (s_new_pkts_hn_correct Sample.ts Sample.d) as (sigs & heads & d' & E & [Hn _] & Hp).
  - exact Sample.signals.
  - exact Sample.ifd_coord_ok.
  - exact Sample.ts_in_window.
  - exact Sample.counts_zero.
  - exists sigs, d'. split; [exact E|]. split; [exact Hn|]. apply Hp.
Defined.

(** C4: no slot a task has still to read is given back to the interface, and
    the coordinator never fails, however its accesses in a poll (a task's
    flags, one head at a time, the release of one ring), the arrival of
    packets, and the single head moves of the tasks and their going to sleep
    come between one another.  That is, from a state in which every active
    task's heads are in the rings' windows and what the coordinator has read is
    not ahead of any task, every reachable state is such a state and has a
    next access.  A task is activated between two polls: one activated in the
    middle of a poll can be overrun ([late_activation_overrun]). *)
Theorem tasks_stay_in_window `{SignalEnv} s s' :
  sys_ok s -> rtc sys_step s s' ->
  sys_ok s' /\
  exists ph d, poll_step (sys_tasks s') (sys_phase s') (sys_data s') = Done (ph, d).
Proof.
  intros Hok Hr. assert (Hok' : sys_ok s').
  { induction Hr as [|s s1 s' Hst _ IH]; [done|]. apply IH. by apply sys_step_ok with s. }
  split; [done|]. destruct s' as [d ph ts].
  destruct (poll_step_ok d ph ts Hok') as (ph' & d' & E & _). by exists ph', d'.
Qed.

Lemma tasks_stay_in_window_witness :
  exists s', rtc sys_step Sample.sys s' /\ sys_phase s' = Idle /\
    c_heads <$> sys_tasks s' = [[1; 1; 0; 4]; [3; 3; 3; 3]; [7; 0; 0; 5]] /\
    head <$> rx_rings (d_ifd (sys_data s')) = [7; 0; 0; 4] /\ sys_ok s'.
Proof.
  destruct Sample.interleaved as (s' & Hr & Hph & Hts & Hrx).
  exists s'. do 4 (split; [assumption|]).
  apply (fun Hok => tasks_stay_in_window Sample.sys s' Hok Hr).
  split; [exact Sample.ifd_coord_ok|exact Sample.counts_zero|exact Sample.ts_in_window|exact Logic.I].
Defined.

(** C5: the handler of a task's wakeup, whatever the task, only moves the heads
    forward, never past the tail, as a step of a task in that system; taken
    apart it is a sequence of the system's single accesses, in which each head
    moves one slot at a time, after the handler has been given the slot. *)
Theorem wakeup_refines_step {D} `{ZEnv} `{!ZEnvReader} `{!TaskImpl D} (I : D -> Prop)
    (A : tespkt -> Prop) `{!TaskLaws I A} ifd (t : task D) rc t' :
  heads_ok ifd t -> all_good A ifd t -> I (data t) -> frontends_ok t -> active t = true ->
  s_sig_hn ifd SIG_WAKEUP t = Done (rc, t') ->
  task_step ifd (c_view t) (c_view t') /\ rtc (task_moves ifd) (c_view t) (c_view t').
Proof.
  intros Hh Hg HI Hf Ha. unfold s_sig_hn. destruct (busy t); [done|].
  cbn -[process_rings]. rewrite Ha. cbn -[process_rings].
  assert (Hh0 : heads_ok ifd (set_busy t true)) by by apply heads_ok_heads with t.
  destruct (proj1 (wp_Done _ _) (process_rings_ok I A ifd process_fuel (set_busy t true)
    Hh0 Hg HI Hf ltac:(cbn -[waiting]; repeat case_match; unfold process_fuel; lia)))
    as (t2 & -> & [HI2 Hh2 _ _ _ Hp (l & o & t1 & Hl & Hh1 & Hend)]).
  intros [= _ <-]. split.
  { apply progress_step; [done|by apply heads_ok_heads with t2| |done].
    by apply progress_heads with t2. }
  destruct (handed_moves I A ifd _ l o t1 Hl Hh0 Hg HI Ha) as [Hm _].
  destruct (handed_queues I A ifd _ l o t1 Hl Hh0 Hg HI) as [HI1 _ _ Hf1 _].
  eapply rtc_l; [apply (MovesBusy ifd (c_view t) true)|]. etrans; [exact Hm|].
  eapply rtc_r; [|apply (MovesBusy ifd (c_view t2) false)].
  apply (wakeup_end_moves I A ifd _ l o t1 t2 Hend HI1).
  unfold frontends_ok. by rewrite Hf1.
Qed.

#[local] Existing Instances Recorder.impl Recorder.env Recorder.env_reader Recorder.laws.

Lemma wakeup_refines_step_witness :
  exists rc t', s_sig_hn Recorder.ifd SIG_WAKEUP (Recorder.task_of [6; 0; 0; 3] 9 false true 1)
      = Done (rc, t') /\ heads t' <> [6; 0; 0; 3] /\
    task_step Recorder.ifd (c_view (Recorder.task_of [6; 0; 0; 3] 9 false true 1)) (c_view t') /\
    rtc (task_moves Recorder.ifd) (c_view (Recorder.task_of [6; 0; 0; 3] 9 false true 1)) (c_view t').
Proof.
  destruct (s_sig_hn Recorder.ifd SIG_WAKEUP (Recorder.task_of [6; 0; 0; 3] 9 false true 1))
    as [[rc t']|] eqn:E; [|by vm_compute in E].
  exists rc, t'. split; [reflexivity|]. split.
  - vm_compute in E. injection E as _ <-. vm_compute. congruence.
  - apply (wakeup_refines_step (fun _ => True) (fun _ => True) Recorder.ifd
      (Recorder.task_of [6; 0; 0; 3] 9 false true 1) rc t').
    + apply Recorder.ifd_heads_ok.
    + apply Recorder.ifd_good.
    + exact Logic.I.
    + repeat constructor.
    + reflexivity.
    + exact E.
Defined.

(** A poll is not atomic.  A task that is activated after the coordinator
    found no active task, and before it releases the rings, is left with a
    head outside the window of every ring that had packets: those it goes on
    to read have been given back to the interface. *)
Theorem late_activation_overrun d ts heads t r ring :
  coord_ok (d_ifd d) -> counts_ok (latest d) ->
  Forall (fun u => c_active u = false) ts -> tasks_get_heads (d_ifd d) ts = Done heads ->
  c_active t = true ->
  (forall r ring, r ∈ ring_ids -> rxring (d_ifd d) r = Done ring -> c_head t r = head ring) ->
  r ∈ ring_ids -> rxring (d_ifd d) r = Done ring -> head ring <> tail ring ->
  exists skip d', release_loop heads ring_ids true d = Done (skip, d') /\
    task_in_window (d_ifd d) t /\ ~ task_in_window (d_ifd d') t.
Proof.
  intros Hco Hct Hin Eh Ha Hh Hr E Hne. rewrite no_active_heads in Eh by done.
  injection Eh as <-. destruct (rxring_ok _ r Hco Hr) as (ring' & Er & Hok).
  assert (ring' = ring) as -> by congruence.
  destruct (release_loop_ok None ring_ids true d Hco Hct ring_ids_NoDup) as (skip & d' & Ed & Hrel).
  { done. }
  { intros r' ring' Hr' Er'. destruct (rxring_ok _ r' Hco Hr') as (ring'' & Er'' & Hok').
    assert (ring'' = ring') as -> by congruence. split; [by apply ro_tail|done]. }
  exists skip, d'. split; [done|]. split.
  - apply task_step_window with {| c_active := false; c_busy := false; c_heads := [] |}; [done| |done].
    by apply TaskActivates.
  - intros Hw. pose proof (rr_rings _ _ _ _ _ _ Hrel r ring Hr E) as Er'.
    rewrite bool_decide_eq_true_2 in Er' by done. destruct (Hw Ha r _ Hr Er') as [_ Hle].
    rewrite (Hh r ring Hr E) in Hle. apply Hne.
    apply tail_window_head; [done|]. exact Hle.
Qed.

Lemma late_activation_overrun_witness :
  exists skip d', release_loop None ring_ids true Sample.d = Done (skip, d') /\
    ~ task_in_window (d_ifd d') {| c_active := true; c_busy := false; c_heads := [6; 0; 0; 3] |}.
Proof.
  destruct (late_activation_overrun Sample.d
    [{| c_active := false; c_busy := false; c_heads := [0; 0; 0; 0] |}] None
    {| c_active := true; c_busy := false; c_heads := [6; 0; 0; 3] |}
    0 (Recorder.ring_of 6 [11; 14; 15])) as (skip & d' & E & _ & Hw).
  - exact Sample.ifd_coord_ok.
  - exact Sample.counts_zero.
  - repeat constructor.
  - reflexivity.
  - reflexivity.
  - by apply Sample.each_ring.
  - left.
  - reflexivity.
  - vm_compute. congruence.
  - exists skip, d'. split; [exact E|exact Hw].
Defined.

(** The periodic and the final statistics update never fail (the average
    is not computed without a poll) and lose no count: the totals and the
    latest counts sum, modulo 2^64, to what they did, the time is recorded,
    and unless it is the first update the latest counts restart from zero. *)
Theorem log_stats_conserves final now s :
  exists s', s_log_stats final now s = Done s' /\ last_update s' = Some now /\
    (last_update s <> None -> st_latest s' = zero_stats) /\
    Forall (fun f : stats_accumulated_t -> Z =>
              to_u64 (f (total s') + f (st_latest s')) = to_u64 (f (total s) + f (st_latest s)))
      [received; missed; polled; skipped].
Proof.
  unfold s_log_stats. destruct (last_update s) as [u|].
  - assert (Hd : exists q, (if negb final && c_true (polled (st_latest s))
        then (if polled (st_latest s) =? 0 then fail DivByZero
              else mret (Z.quot (received (st_latest s)) (polled (st_latest s))))
        else mret 0) = Done q).
    { unfold c_true. destruct final, (polled (st_latest s) =? 0); simpl; by eexists. }
    destruct Hd as [q ->]. eexists. split; [done|]. do 2 (split; [done|]).
    repeat constructor; simpl; by rewrite Z.add_0_r, to_u64_id by apply to_u64_range.
  - eexists. split; [done|]. split; [done|]. split; [done|]. repeat constructor.
Qed.
