(* ===== verification/Aiobuf.v ===== *)
(** * Write buffers of the capture task (src/bin/tesd_task_cap.c)

    Frames are copied to a circular buffer and written to a file in batches by
    asynchronous I/O.  Addresses are offsets into the buffer, so that its base
    is 0 and its ceiling BUFSIZE.  The results of the system calls are given as
    functions of the calls made so far; the calls are logged, each [aio_write]
    with the bytes that are in its region when it is made. *)

From Stdlib Require Import ZArith Lia Strings.Byte.
From stdpp Require Import base option list numbers decidable.
From S2P Require Import Prelude Tespkt.

Open Scope Z_scope.

Definition BUFSIZE : Z := 10485760.
Definition MINSIZE : Z := 512000.

Definition EAGAIN : Z := 11.
Definition EINPROGRESS : Z := 115.
Definition ECANCELED : Z := 125.

Inductive aio_call : Type :=
  | AioError
  | AioSuspend
  | AioReturn
  | AioWrite (off : Z) (data : bytes)
  | Unlink
  | OpenFile
  | Ftruncate (len : Z)
  | CloseFile
  | Munmap.

(** Results of the calls, with the [errno] where the code looks at it, and the
    number of times a loop that waits for the service is unrolled. *)
Class AioEnv : Type := {
  mmap_ok : bool;
  aio_error_rc : list aio_call -> Z;
  aio_suspend_rc : list aio_call -> Z;
  aio_return_rc : list aio_call -> Z * Z;
  aio_write_rc : list aio_call -> Z * Z;
  access_rc : list aio_call -> Z;
  unlink_rc : list aio_call -> Z;
  open_rc : list aio_call -> Z;
  aio_retries : nat;
}.

Module Aiobuf.

Record s_aiobuf_t : Type := {
  aio_fildes : Z;
  aio_offset : Z;
  aio_buf : Z;
  aio_nbytes : Z;
  zone : bytes;
  tail : Z;
  cur : Z;
  waiting : Z;
  enqueued : Z;
  size : Z;
  calls : list aio_call;
}.

Definition set_zone a z c := {| aio_fildes := aio_fildes a; aio_offset := aio_offset a;
  aio_buf := aio_buf a; aio_nbytes := aio_nbytes a; zone := z; tail := tail a; cur := c;
  waiting := waiting a; enqueued := enqueued a; size := size a; calls := calls a |}.
Definition set_batch a t w e s := {| aio_fildes := aio_fildes a; aio_offset := aio_offset a;
  aio_buf := aio_buf a; aio_nbytes := aio_nbytes a; zone := zone a; tail := t; cur := cur a;
  waiting := w; enqueued := e; size := s; calls := calls a |}.
Definition set_waiting a w := set_batch a (tail a) w (enqueued a) (size a).
Definition set_aio a o b n := {| aio_fildes := aio_fildes a; aio_offset := o;
  aio_buf := b; aio_nbytes := n; zone := zone a; tail := tail a; cur := cur a;
  waiting := waiting a; enqueued := enqueued a; size := size a; calls := calls a |}.
Definition set_fildes a f := {| aio_fildes := f; aio_offset := aio_offset a;
  aio_buf := aio_buf a; aio_nbytes := aio_nbytes a; zone := zone a; tail := tail a; cur := cur a;
  waiting := waiting a; enqueued := enqueued a; size := size a; calls := calls a |}.
Definition call a c := {| aio_fildes := aio_fildes a; aio_offset := aio_offset a;
  aio_buf := aio_buf a; aio_nbytes := aio_nbytes a; zone := zone a; tail := tail a; cur := cur a;
  waiting := waiting a; enqueued := enqueued a; size := size a; calls := calls a ++ [c] |}.

Section Operations.
Context `{AioEnv}.
Implicit Types a : s_aiobuf_t.

Definition s_init_aiobuf a : Z * s_aiobuf_t :=
  let a := set_fildes a (-1) in
  if negb mmap_ok then (-1, a)
  else
    let a := set_zone a (replicate (Z.to_nat BUFSIZE) x00) 0 in
    (0, set_batch a 0 (waiting a) (enqueued a) (size a)).

(** The base is NULL exactly if no zone is mapped. *)
Definition s_fin_aiobuf a : s_aiobuf_t :=
  match zone a with
  | [] => a
  | _ => call (set_zone a [] (cur a)) Munmap
  end.

(** [excl] is [fmode & O_EXCL]. *)
Definition s_open_aiobuf a (excl : bool) : exec (Z * s_aiobuf_t) :=
  dbg_assert (aio_fildes a =? -1);;
  dbg_assert (size a =? 0);;
  dbg_assert (cur a =? tail a);;
  dbg_assert (cur a =? 0);;
  dbg_assert (waiting a =? 0);;
  dbg_assert (enqueued a =? 0);;
  let '(rc, a) :=
    if negb excl && (access_rc (calls a) =? 0)
    then (unlink_rc (calls a), call a Unlink) else (0, a) in
  if rc =? -1 then mret (-1, a)
  else
    let fd := open_rc (calls a) in
    let a := set_fildes (call a OpenFile) fd in
    mret (if fd =? -1 then -1 else 0, a).

Definition s_close_aiobuf a : s_aiobuf_t :=
  if aio_fildes a =? -1 then a
  else
    let a := call (call a (Ftruncate (size a))) CloseFile in
    {| aio_fildes := -1; aio_offset := 0; aio_buf := 0; aio_nbytes := 0; zone := zone a;
       tail := 0; cur := 0; waiting := 0; enqueued := 0; size := 0; calls := calls a |}.

(** [aio_write] on the control block. *)
Definition aio_write a : exec (Z * Z * s_aiobuf_t) :=
  src ← mem_read (zone a) (aio_buf a) (aio_nbytes a);
  mret (aio_write_rc (calls a), call a (AioWrite (aio_offset a) src)).

Fixpoint write_loop (fuel : nat) a : exec (Z * s_aiobuf_t) :=
  match fuel with
  | O => fail NoFuel
  | S fuel =>
      '(rc, errno, a) ← aio_write a;
      if (rc =? -1) && (errno =? EAGAIN) then write_loop fuel a else mret (rc, a)
  end.

Definition queue_as_is a : exec (Z * s_aiobuf_t) :=
  dbg_assert (negb (tail a =? BUFSIZE));;
  if enqueued a =? 0 then
    dbg_assert (waiting a =? 0);;
    mret (0, a)
  else
    let a := set_aio a (size a) (tail a) (enqueued a) in
    '(rc, a) ← write_loop aio_retries a;
    mret (if rc =? -1 then -1 else EINPROGRESS, a).

Definition prepare_next a : exec (Z * s_aiobuf_t) :=
  let size' := to_u64 (size a + enqueued a) in
  let tail' := tail a + enqueued a in
  let tail' := if tail' =? BUFSIZE then 0 else tail' in
  dbg_assert (tail' <? BUFSIZE);;
  let enqueued' := if cur a <? tail' then BUFSIZE - tail' else cur a - tail' in
  dbg_assert (enqueued' <=? waiting a);;
  let waiting' := to_u64 (waiting a - enqueued') in
  dbg_assert ((waiting' =? 0) || (tail' + enqueued' =? BUFSIZE));;
  queue_as_is (set_batch a tail' waiting' enqueued' size').

Definition s_queue_aiobuf a (force : bool) : exec (Z * s_aiobuf_t) :=
  if enqueued a =? 0 then prepare_next a
  else
    let rc := aio_error_rc (calls a) in
    let a := call a AioError in
    if negb force && (rc =? EINPROGRESS) then mret (EINPROGRESS, a)
    else
      let '(stop, rc, a) :=
        if rc =? EINPROGRESS then
          let src := aio_suspend_rc (calls a) in
          let a := call a AioSuspend in
          if src =? -1 then (true, src, a)
          else (false, aio_error_rc (calls a), call a AioError)
        else (false, rc, a) in
      if stop : bool then mret (-1, a)
      else if c_true rc then
        dbg_assert (negb (rc =? ECANCELED) && negb (rc =? EINPROGRESS));;
        mret (-1, a)
      else
        let '(wrc, errno) := aio_return_rc (calls a) in
        let a := call a AioReturn in
        if (wrc =? -1) && (errno =? EAGAIN) then queue_as_is a
        else if wrc =? -1 then mret (-1, a)
        else if negb (to_u64 wrc =? enqueued a) then
          dbg_assert (0 <? enqueued a);;
          mret (-2, a)
        else prepare_next a.

(** There is space for another frame. *)
Definition room a : bool := to_u64 (enqueued a + waiting a) <=? BUFSIZE - TESPKT_MTU.

Fixpoint force_loop (fuel : nat) (jobrc : Z) a : exec (Z * s_aiobuf_t) :=
  if negb (room a) && (jobrc =? EINPROGRESS) then
    match fuel with
    | O => fail NoFuel
    | S fuel => '(jobrc, a) ← s_queue_aiobuf a true; force_loop fuel jobrc a
    end
  else mret (jobrc, a).

(** Copying the frame, the cursor wrapping around at the ceiling. *)
Definition copy_frame a (buf : bytes) (len : Z) : exec s_aiobuf_t :=
  let reserve := len - (BUFSIZE - cur a) in
  a ← (if reserve <? 0 then
         src ← mem_read buf 0 len;
         z ← memcpy (zone a) (cur a) src;
         mret (set_zone a z (cur a + len))
       else
         src ← mem_read buf 0 (len - reserve);
         z ← memcpy (zone a) (cur a) src;
         z ← (if 0 <? reserve then
                src ← mem_read buf (len - reserve) reserve; memcpy z 0 src
              else mret z);
         mret (set_zone a z reserve));
  mret (set_waiting a (to_u64 (waiting a + len))).

Definition s_try_queue_aiobuf a (buf : bytes) (len : Z) : exec (Z * s_aiobuf_t) :=
  dbg_assert (negb (aio_fildes a =? -1));;
  dbg_assert (0 <? len);;
  dbg_assert (room a);;
  dbg_assert (0 <=? cur a);;
  dbg_assert (0 <=? tail a);;
  dbg_assert (cur a <? BUFSIZE);;
  dbg_assert (tail a + enqueued a <=? BUFSIZE);;
  dbg_assert ((cur a <? tail a) || (tail a + enqueued a <=? cur a));;
  dbg_assert (cur a =? tail a + enqueued a + waiting a -
                       (if cur a <? tail a then BUFSIZE else 0));;
  let reserve := len - (BUFSIZE - cur a) in
  a ← copy_frame a buf len;
  if (waiting a <? MINSIZE) && (reserve <? 0) && room a then mret (0, a)
  else
    '(jobrc, a) ← s_queue_aiobuf a false;
    '(jobrc, a) ← force_loop aio_retries jobrc a;
    dbg_assert (room a);;
    mret (jobrc, a).

(** The loop for one buffer in [s_flush]. *)
Fixpoint flush_loop (fuel : nat) a : exec s_aiobuf_t :=
  match fuel with
  | O => fail NoFuel
  | S fuel =>
      '(jobrc, a) ← s_queue_aiobuf a true;
      if jobrc =? EINPROGRESS then flush_loop fuel a else mret a
  end.

Fixpoint s_flush (aio : list s_aiobuf_t) : exec (list s_aiobuf_t) :=
  match aio with
  | [] => mret []
  | a :: aio =>
      a ← flush_loop aio_retries a;
      aio ← s_flush aio;
      mret (a :: aio)
  end.
End Operations.

(** ** Specification: a cyclic stretch of the buffer *)

Lemma BUFSIZE_val : BUFSIZE = 10485760.
Proof. reflexivity. Qed.

(** The [n] bytes from offset [i] on, wrapping around at the ceiling. *)
Definition cyc (z : bytes) (i : Z) (n : nat) : bytes :=
  (fun k => nth (Z.to_nat ((i + Z.of_nat k) mod BUFSIZE)) z x00) <$> seq 0 n.

Lemma length_cyc z i n : length (cyc z i n) = n.
Proof. unfold cyc. by rewrite length_fmap, length_seq. Qed.

Lemma cyc_ext z z' i j n :
  (forall k, (k < n)%nat -> nth (Z.to_nat ((i + Z.of_nat k) mod BUFSIZE)) z x00 =
                      nth (Z.to_nat ((j + Z.of_nat k) mod BUFSIZE)) z' x00) ->
  cyc z i n = cyc z' j n.
Proof.
  intros H. apply list_fmap_ext. intros k0 k Hk. apply lookup_seq in Hk. apply H. lia.
Qed.

Lemma cyc_app z i n m :
  cyc z i (n + m) = cyc z i n ++ cyc z ((i + Z.of_nat n) mod BUFSIZE) m.
Proof.
  unfold cyc. rewrite seq_app, fmap_app. f_equal. simpl.
  rewrite <- (Nat.add_0_r n) at 1. rewrite <- fmap_add_seq, <- list_fmap_compose.
  apply list_fmap_ext. intros k0 k Hk. simpl. f_equal. f_equal.
  rewrite Zplus_mod_idemp_l. f_equal. lia.
Qed.

(** A stretch that does not wrap around is what the system call reads. *)
Lemma cyc_contiguous z i n :
  0 <= i -> i + Z.of_nat n <= BUFSIZE -> Z.of_nat (length z) = BUFSIZE ->
  take n (drop (Z.to_nat i) z) = cyc z i n.
Proof.
  intros Hi Hn Hz. apply list_eq. intros k. unfold cyc. rewrite list_lookup_fmap.
  destruct (decide (k < n)%nat) as [Hk|Hk].
  - rewrite lookup_take_lt, lookup_drop by done. rewrite lookup_seq_lt by done. simpl.
    rewrite Z.mod_small by lia.
    destruct (lookup_lt_is_Some_2 z (Z.to_nat i + k)) as [b Hb]; [lia|]. rewrite Hb. f_equal.
    replace (Z.to_nat (i + Z.of_nat k)) with (Z.to_nat i + k)%nat by lia.
    by rewrite (nth_lookup_Some _ _ _ _ Hb).
  - rewrite lookup_take_ge, lookup_seq_ge by lia. done.
Qed.

Lemma nth_splice z off src j :
  (off + length src <= length z)%nat ->
  nth j (splice z off src) x00 =
    if decide (off <= j < off + length src)%nat then nth (j - off) src x00 else nth j z x00.
Proof.
  intros Hl. unfold splice. rewrite !nth_lookup.
  destruct (decide _) as [Hj|Hj].
  - rewrite lookup_app_r by (rewrite length_take; lia).
    rewrite lookup_app_l by (rewrite length_take; lia). do 2 f_equal. rewrite length_take. lia.
  - f_equal. destruct (decide (j < off)%nat).
    + rewrite lookup_app_l by (rewrite length_take; lia). by rewrite lookup_take_lt.
    + rewrite lookup_app_r, length_take by (rewrite length_take; lia).
      rewrite lookup_app_r by lia. rewrite lookup_drop. f_equal. lia.
Qed.

(** The buffer after copying [src] at [c]. *)
Record copied (z z' : bytes) (c : Z) (src : bytes) : Prop := {
  cp_length : length z' = length z;
  cp_nth : forall j, 0 <= j < BUFSIZE ->
    nth (Z.to_nat j) z' x00 =
      if (j - c) mod BUFSIZE <? Z.of_nat (length src)
      then nth (Z.to_nat ((j - c) mod BUFSIZE)) src x00 else nth (Z.to_nat j) z x00;
}.

Lemma mod_sub_cases j c :
  0 <= j < BUFSIZE -> 0 <= c < BUFSIZE ->
  (j - c) mod BUFSIZE = if c <=? j then j - c else BUFSIZE + j - c.
Proof.
  intros Hj Hc. destruct (Z.leb_spec c j).
  - apply Z.mod_small. lia.
  - rewrite <- (Z.mod_add _ 1) by (rewrite BUFSIZE_val; lia). rewrite Z.mod_small by lia. lia.
Qed.

Lemma mod_add_cases i n :
  0 <= i < BUFSIZE -> 0 <= n < BUFSIZE ->
  (i + n) mod BUFSIZE = if i + n <? BUFSIZE then i + n else i + n - BUFSIZE.
Proof.
  intros Hi Hn. destruct (Z.ltb_spec (i + n) BUFSIZE).
  - apply Z.mod_small. lia.
  - rewrite <- (Z.mod_add _ (-1)) by (rewrite BUFSIZE_val; lia). rewrite Z.mod_small by lia. lia.
Qed.

(** The stretch up to the cursor grows by what is copied there, and nothing
    of it is overwritten. *)
Lemma cyc_copied z z' i n src :
  copied z z' ((i + Z.of_nat n) mod BUFSIZE) src -> 0 <= i < BUFSIZE ->
  Z.of_nat n + Z.of_nat (length src) <= BUFSIZE ->
  cyc z' i (n + length src) = cyc z i n ++ src.
Proof.
  intros [_ Hnth] Hi Hl. pose proof BUFSIZE_val as HN. rewrite cyc_app.
  assert (Hm : forall x, 0 <= x mod BUFSIZE < BUFSIZE) by (intros; apply Z.mod_pos_bound; lia).
  f_equal.
  - apply cyc_ext. intros k Hk. rewrite Hnth by apply Hm. rewrite <- Zminus_mod.
    replace (i + Z.of_nat k - (i + Z.of_nat n)) with (Z.of_nat k - Z.of_nat n + 0) by lia.
    rewrite <- (Z.mod_add _ 1) by lia. rewrite (Z.mod_small (_ + 1 * BUFSIZE)) by lia.
    rewrite (proj2 (Z.ltb_ge _ _)) by lia. done.
  - apply list_eq. intros k. unfold cyc. rewrite list_lookup_fmap.
    destruct (decide (k < length src)%nat) as [Hk|Hk].
    + rewrite lookup_seq_lt by done. simpl. rewrite Hnth by apply Hm.
      rewrite Zminus_mod_idemp_l.
      replace ((i + Z.of_nat n) mod BUFSIZE + Z.of_nat k - (i + Z.of_nat n) mod BUFSIZE)
        with (Z.of_nat k) by lia.
      rewrite Z.mod_small, (proj2 (Z.ltb_lt _ _)) by lia. rewrite Nat2Z.id.
      destruct (lookup_lt_is_Some_2 src k Hk) as [b Hb]. rewrite Hb.
      by rewrite (nth_lookup_Some _ _ _ _ Hb).
    + rewrite lookup_seq_ge, (lookup_ge_None_2 src) by lia. done.
Qed.

Section CopyFrame.
Context (a : s_aiobuf_t) (buf : bytes) (len : Z).
Hypotheses (Hz : Z.of_nat (length (zone a)) = BUFSIZE) (Hc : 0 <= cur a < BUFSIZE).
Hypotheses (Hl : 0 < len < BUFSIZE) (Hb : len <= Z.of_nat (length buf)) (Hw : is_u64 (waiting a + len)).

Definition frame_copied : Prop :=
  exists z, copy_frame a buf len =
      Done (set_waiting (set_zone a z ((cur a + len) mod BUFSIZE)) (waiting a + len)) /\
    copied (zone a) z (cur a) (take (Z.to_nat len) buf).

(** The frame ends before the end of the zone. *)
Lemma copy_below : len - (BUFSIZE - cur a) < 0 -> frame_copied.
Proof.
  intros Hr. unfold frame_copied, copy_frame. pose proof BUFSIZE_val as HN.
  assert (Hlen : Z.of_nat (length (take (Z.to_nat len) buf)) = len) by (rewrite length_take; lia).
  rewrite (proj2 (Z.ltb_lt _ _) Hr).
  rewrite mem_read_Done by lia. cbn -[to_u64]. rewrite memcpy_Done by (rewrite ?drop_0; lia).
  cbn -[to_u64]. rewrite ?drop_0, to_u64_id by done. eexists. split.
  { rewrite (Z.mod_small (cur a + len)) by lia. done. }
  split; [rewrite length_splice; lia|]. intros j Hj. rewrite nth_splice by lia.
  rewrite Hlen, mod_sub_cases by done.
  destruct (decide _), (Z.leb_spec (cur a) j), (Z.ltb_spec (j - cur a) len),
    (Z.ltb_spec (BUFSIZE + j - cur a) len); try lia; try done.
  f_equal. lia.
Qed.

(** The rest of the frame goes to the start of the zone. *)
Lemma copy_wraps : 0 <= len - (BUFSIZE - cur a) -> frame_copied.
Proof.
  intros Hr. unfold frame_copied, copy_frame. pose proof BUFSIZE_val as HN.
  assert (Hlen : Z.of_nat (length (take (Z.to_nat len) buf)) = len) by (rewrite length_take; lia).
  rewrite (proj2 (Z.ltb_ge _ _) Hr).
  set (r := len - (BUFSIZE - cur a)) in *. rewrite (mem_read_Done buf 0) by lia.
  cbn -[to_u64]. rewrite ?drop_0.
  assert (H1 : Z.of_nat (length (take (Z.to_nat (len - r)) buf)) = len - r)
    by (rewrite length_take; lia).
  rewrite memcpy_Done by lia. cbn -[to_u64].
  assert (E : ((cur a + len) mod BUFSIZE) = r).
  { rewrite mod_add_cases by lia. destruct (Z.ltb_spec (cur a + len) BUFSIZE); lia. }
  rewrite E. set (z1 := splice (zone a) (Z.to_nat (cur a)) (take (Z.to_nat (len - r)) buf)).
  assert (Hz1 : length z1 = length (zone a)) by (apply length_splice; lia).
  assert (Hn1 : forall j, 0 <= j < BUFSIZE -> nth (Z.to_nat j) z1 x00 =
      if cur a <=? j then nth (Z.to_nat (j - cur a)) (take (Z.to_nat len) buf) x00
      else nth (Z.to_nat j) (zone a) x00).
  { intros j Hj. unfold z1. rewrite nth_splice by lia.
    destruct (decide _), (Z.leb_spec (cur a) j); try lia; [|done].
    rewrite !nth_lookup, !lookup_take_lt by lia. do 2 f_equal. lia. }
  destruct (Z.ltb_spec 0 r) as [Hr0|Hr0].
  - rewrite mem_read_Done by lia. cbn -[to_u64].
    assert (H2 : Z.of_nat (length (take (Z.to_nat r) (drop (Z.to_nat (len - r)) buf))) = r)
      by (rewrite length_take, length_drop; lia).
    rewrite memcpy_Done by lia. cbn -[to_u64]. rewrite to_u64_id by done.
    eexists. split; [done|]. split; [rewrite length_splice; lia|].
    intros j Hj. rewrite nth_splice by lia. rewrite Hlen, mod_sub_cases by done.
    destruct (decide _) as [Hd|Hd].
    + destruct (Z.leb_spec (cur a) j), (Z.ltb_spec (BUFSIZE + j - cur a) len); try lia.
      rewrite !nth_lookup, !lookup_take_lt, lookup_drop by lia. do 2 f_equal. lia.
    + rewrite Hn1 by done.
      destruct (Z.leb_spec (cur a) j), (Z.ltb_spec (j - cur a) len),
        (Z.ltb_spec (BUFSIZE + j - cur a) len); try lia; done.
  - cbn -[to_u64]. rewrite to_u64_id by done. eexists. split; [done|]. split; [done|].
    intros j Hj. rewrite Hn1 by done. rewrite Hlen, mod_sub_cases by done.
    destruct (Z.leb_spec (cur a) j), (Z.ltb_spec (j - cur a) len),
      (Z.ltb_spec (BUFSIZE + j - cur a) len); try lia; done.
Qed.

Lemma copy_frame_ok : frame_copied.
Proof. destruct (Z.lt_ge_cases (len - (BUFSIZE - cur a)) 0); [by apply copy_below|by apply copy_wraps]. Qed.
End CopyFrame.

(** ** Specification: the file and the bytes still in the buffer *)

(** A write at an offset, extending the file as far as needed. *)
Definition file_write (f : bytes) (off : nat) (data : bytes) : bytes :=
  take off f ++ replicate (off - length f) x00 ++ data ++ drop (off + length data) f.

(** The file, if every write that was queued lands; a file is opened new. *)
Definition file_step (f : bytes) (c : aio_call) : bytes :=
  match c with
  | AioWrite off data => file_write f (Z.to_nat off) data
  | Ftruncate n => resize (Z.to_nat n) x00 f
  | OpenFile | Unlink => []
  | _ => f
  end.

Definition file_of (l : list aio_call) : bytes := fold_left file_step l [].

Definition batch_step (b : option (Z * bytes)) (c : aio_call) : option (Z * bytes) :=
  match c with AioWrite off data => Some (off, data) | _ => b end.

(** The batch last handed over. *)
Definition last_batch (l : list aio_call) : option (Z * bytes) := fold_left batch_step l None.

Definition quiet (c : aio_call) : Prop := forall f b, file_step f c = f /\ batch_step b c = b.

Lemma file_of_snoc l c : file_of (l ++ [c]) = file_step (file_of l) c.
Proof. unfold file_of. by rewrite fold_left_app. Qed.

Lemma last_batch_snoc l c : last_batch (l ++ [c]) = batch_step (last_batch l) c.
Proof. unfold last_batch. by rewrite fold_left_app. Qed.

(** Writing what comes next, or once more what is there. *)
Lemma file_write_next (stream data : bytes) (s m : nat) :
  (s <= m <= s + length data)%nat -> (s + length data <= length stream)%nat ->
  take (length data) (drop s stream) = data ->
  file_write (take m stream) s data = take (s + length data) stream.
Proof.
  intros Hm Hl Hd. unfold file_write.
  rewrite take_take, length_take, drop_ge by (rewrite length_take; lia).
  replace (s - m `min` length stream)%nat with 0%nat by lia.
  replace (s `min` m)%nat with s by lia. rewrite app_nil_r. simpl.
  rewrite <- Hd at 1. by rewrite take_take_drop.
Qed.

(** The geometry of the buffer, and the bytes of [stream] it holds: those from
    [size] on.  The first [enqueued] of them are handed over to the service. *)
Record geo a (stream : bytes) : Prop := {
  ge_length : Z.of_nat (length (zone a)) = BUFSIZE;
  ge_tail : 0 <= tail a < BUFSIZE;
  ge_enqueued : 0 <= enqueued a;
  ge_waiting : 0 <= waiting a < BUFSIZE;
  ge_total : enqueued a + waiting a <= BUFSIZE;
  ge_ceil : tail a + enqueued a <= BUFSIZE;
  ge_cur : cur a = (tail a + (enqueued a + waiting a)) mod BUFSIZE;
  ge_size : 0 <= size a;
  ge_stream : size a + enqueued a + waiting a = Z.of_nat (length stream);
  ge_small : Z.of_nat (length stream) < 2 ^ 63;
  ge_bytes : drop (Z.to_nat (size a)) stream =
    cyc (zone a) (tail a) (Z.to_nat (enqueued a + waiting a));
}.

(** What was handed over is still in the buffer and, with what is in the file,
    it is a prefix of [stream]. *)
Record zone_ok a (stream : bytes) : Prop := {
  zo_geo : geo a stream;
  zo_file : file_of (calls a) = take (Z.to_nat (size a + enqueued a)) stream;
  zo_batch : 0 < enqueued a ->
    last_batch (calls a) = Some (size a, cyc (zone a) (tail a) (Z.to_nat (enqueued a)));
}.

(** Only the calls and the control block differ. *)
Record same_zone a a' : Prop := {
  sz_fildes : aio_fildes a' = aio_fildes a;
  sz_zone : zone a' = zone a;
  sz_tail : tail a' = tail a;
  sz_cur : cur a' = cur a;
  sz_waiting : waiting a' = waiting a;
  sz_enqueued : enqueued a' = enqueued a;
  sz_size : size a' = size a;
}.

Lemma same_zone_trans a1 a2 a3 : same_zone a1 a2 -> same_zone a2 a3 -> same_zone a1 a3.
Proof. intros [] []. split; congruence. Qed.

Lemma same_zone_call a c : same_zone a (call a c).
Proof. by split. Qed.
#[local] Hint Resolve same_zone_call : tes.

Lemma geo_same a a' stream : same_zone a a' -> geo a stream -> geo a' stream.
Proof. intros [] []. split; congruence. Qed.

Lemma zone_ok_quiet a c stream : quiet c -> zone_ok a stream -> zone_ok (call a c) stream.
Proof.
  intros Hq [Hg Hf Hb]. split; [by apply geo_same with a|..].
  - simpl. rewrite file_of_snoc. destruct (Hq (file_of (calls a)) None) as [-> _]. exact Hf.
  - simpl. rewrite last_batch_snoc. destruct (Hq [] (last_batch (calls a))) as [_ ->]. exact Hb.
Qed.

(** The part of the stream that is handed over. *)
Lemma geo_batch a stream :
  geo a stream ->
  take (Z.to_nat (enqueued a)) (drop (Z.to_nat (size a)) stream) =
    cyc (zone a) (tail a) (Z.to_nat (enqueued a)).
Proof.
  intros []. rewrite ge_bytes0, Z2Nat.inj_add by lia. rewrite cyc_app.
  by rewrite take_app_length' by (by rewrite length_cyc).
Qed.

Lemma geo_batch_read a stream :
  geo a stream -> mem_read (zone a) (tail a) (enqueued a) =
    Done (cyc (zone a) (tail a) (Z.to_nat (enqueued a))).
Proof.
  intros []. rewrite mem_read_Done by lia. by rewrite cyc_contiguous by lia.
Qed.

(** ** Queueing *)

Section Queueing.
Context `{AioEnv}.

(** What the manual promises in any case. *)
Class AioLaws : Prop := {
  after_suspend : forall l, aio_error_rc (l ++ [AioSuspend]) <> EINPROGRESS;
  not_cancelled : forall l, aio_error_rc l <> ECANCELED;
}.

(** The service completes what it accepts, and accepts it in the end. *)
Record aio_good : Prop := {
  ag_suspend : forall l, aio_suspend_rc l <> -1;
  ag_error : forall l, aio_error_rc l = 0 \/ aio_error_rc l = EINPROGRESS;
  ag_return : forall l off data, last_batch l = Some (off, data) ->
    (aio_return_rc l).1 = Z.of_nat (length data);
  ag_write : forall l, (aio_write_rc l).1 = -1 -> (aio_write_rc l).2 = EAGAIN;
  ag_retry : forall l off data, exists k, (k < aio_retries)%nat /\
    (aio_write_rc (l ++ replicate k (AioWrite off data))).1 <> -1;
  ag_fuel : (4 <= aio_retries)%nat;
}.

(** [Q] holds of the result if there is one; there is one if the service is good. *)
Definition wpg {A} (m : exec A) (Q : A -> Prop) : Prop :=
  match m with Done x => Q x | Failed NoFuel => ~ aio_good | Failed _ => False end.

Lemma wpg_bind {A B} (m : exec A) (k : A -> exec B) Q :
  wpg m (fun a => wpg (k a) Q) -> wpg (m ≫= k) Q.
Proof. destruct m; done. Qed.

Lemma wpg_mono {A} (m : exec A) (P Q : A -> Prop) :
  wpg m P -> (forall a, P a -> Q a) -> wpg m Q.
Proof. destruct m as [|[]]; simpl; auto. Qed.

Lemma wpg_assert {B} (b : bool) (k : unit -> exec B) Q :
  b = true -> wpg (k tt) Q -> wpg (dbg_assert b ≫= k) Q.
Proof. intros -> Hk. exact Hk. Qed.

Lemma write_once a stream m c :
  geo a stream -> size a <= m <= size a + enqueued a -> 0 < enqueued a ->
  file_of (calls a) = take (Z.to_nat m) stream ->
  c = AioWrite (size a) (cyc (zone a) (tail a) (Z.to_nat (enqueued a))) ->
  zone_ok (call a c) stream.
Proof.
  intros Hg Hm He Hf ->. pose proof (geo_batch a stream Hg) as Hb. destruct Hg as [].
  split; [split; done|..].
  - simpl. rewrite file_of_snoc, Hf. simpl.
    rewrite file_write_next; rewrite ?length_cyc; try lia; [|done].
    f_equal. lia.
  - intros _. simpl. by rewrite last_batch_snoc.
Qed.

Lemma write_loop_ok a0 stream fuel : forall a m,
  geo a stream -> size a <= m <= size a + enqueued a -> 0 < enqueued a ->
  aio_offset a = size a -> aio_buf a = tail a -> aio_nbytes a = enqueued a ->
  file_of (calls a) = take (Z.to_nat m) stream -> same_zone a0 a ->
  (aio_good -> exists k, (k < fuel)%nat /\ (aio_write_rc (calls a ++ replicate k
     (AioWrite (size a) (cyc (zone a) (tail a) (Z.to_nat (enqueued a)))))).1 <> -1) ->
  wpg (write_loop fuel a) (fun '(rc, a') =>
    same_zone a0 a' /\ zone_ok a' stream /\ (aio_good -> rc <> -1)).
Proof.
  induction fuel as [|fuel IH]; intros a m Hg Hm He Ho Hb Hn Hf Hs Hk.
  { simpl. intros Hgood. destruct (Hk Hgood) as (k & ? & _). lia. }
  cbn [write_loop]. unfold aio_write. rewrite Hb, Hn, Ho, geo_batch_read with a stream by done.
  set (c := AioWrite (size a) (cyc (zone a) (tail a) (Z.to_nat (enqueued a)))) in *. simpl.
  pose proof (write_once a stream m c Hg Hm He Hf eq_refl) as Hok.
  destruct (aio_write_rc (calls a)) as [rc errno] eqn:Er.
  destruct (Z.eqb_spec rc (-1)) as [->|Hrc].
  - destruct (Z.eqb_spec errno EAGAIN) as [->|He'].
    + destruct Hok as [Hg' Hf' _]. apply IH with (size a + enqueued a); try done;
        [simpl; lia|by apply same_zone_trans with a|].
      intros Hgood. destruct (Hk Hgood) as ([|k] & Hlt & Hne).
      * rewrite app_nil_r, Er in Hne. by destruct Hne.
      * exists k. split; [lia|]. simpl. by rewrite <- app_assoc.
    + simpl. split; [by apply same_zone_trans with a|]. split; [done|].
      intros Hgood _. apply He'. pose proof (ag_write Hgood (calls a)) as Hw.
      rewrite Er in Hw. by apply Hw.
  - simpl. split; [by apply same_zone_trans with a|]. split; done.
Qed.

(** Result of queueing a batch that the buffer is ready for. *)
Definition queued a stream (rc : Z) a' : Prop :=
  zone_ok a' stream /\ same_zone a a' /\
  (rc = 0 /\ enqueued a = 0 \/ 0 < enqueued a /\ (rc = EINPROGRESS \/ rc = -1)) /\
  (aio_good -> rc <> -1).

Lemma queue_as_is_ok a stream m :
  geo a stream -> size a <= m <= size a + enqueued a ->
  file_of (calls a) = take (Z.to_nat m) stream -> (enqueued a = 0 -> waiting a = 0) ->
  wpg (queue_as_is a) (fun '(rc, a') => queued a stream rc a').
Proof.
  intros Hg Hm Hf H0. unfold queue_as_is. pose proof Hg as [].
  apply wpg_assert; [apply negb_true_iff, Z.eqb_neq; lia|].
  destruct (Z.eqb_spec (enqueued a) 0) as [He|He].
  - apply wpg_assert; [by apply Z.eqb_eq, H0|]. simpl. split.
    { split; [done| |lia]. by replace (size a + enqueued a) with m by lia. }
    split; [by split|]. split; [by left|done].
  - apply wpg_bind. eapply wpg_mono.
    { apply (write_loop_ok a stream aio_retries (set_aio a (size a) (tail a) (enqueued a)) m);
        simpl; try done; try lia; try (by apply geo_same with a).
      intros Hgood. apply (ag_retry Hgood). }
    intros [rc a'] (Hs & Hz & Hrc). simpl. split; [done|]. split; [done|].
    split.
    + right. split; [lia|]. destruct (rc =? -1); auto.
    + intros Hgood. destruct (Z.eqb_spec rc (-1)); [|done]. exfalso. by apply Hrc.
Qed.

(** The batch after the one that is written. *)
Record next_batch a tail' waiting' enqueued' : Prop := {
  nb_tail : 0 <= tail' < BUFSIZE;
  nb_next : tail' = (tail a + enqueued a) mod BUFSIZE;
  nb_enqueued : 0 <= enqueued';
  nb_waiting : 0 <= waiting';
  nb_sum : enqueued' + waiting' = waiting a;
  nb_ceil : tail' + enqueued' <= BUFSIZE;
  nb_some : enqueued' = 0 -> waiting' = 0;
  nb_wraps : waiting' = 0 \/ tail' + enqueued' = BUFSIZE;
  nb_rest : waiting a = 0 \/ tail a + enqueued a = BUFSIZE -> waiting' = 0;
}.

Lemma next_batch_ok a stream :
  geo a stream ->
  let tail' := if tail a + enqueued a =? BUFSIZE then 0 else tail a + enqueued a in
  let enqueued' := if cur a <? tail' then BUFSIZE - tail' else cur a - tail' in
  next_batch a tail' (waiting a - enqueued') enqueued'.
Proof.
  intros [] tail' enqueued'.
  assert (Ht : 0 <= tail' < BUFSIZE /\ tail' = (tail a + enqueued a) mod BUFSIZE).
  { unfold tail'. destruct (Z.eqb_spec (tail a + enqueued a) BUFSIZE) as [E|E].
    - rewrite E, Z_mod_same_full. pose proof BUFSIZE_val. lia.
    - rewrite Z.mod_small; lia. }
  destruct Ht as [Ht Htm].
  assert (Hc : cur a = (tail' + waiting a) mod BUFSIZE)
    by (rewrite ge_cur0, Htm, Zplus_mod_idemp_l; f_equal; lia).
  rewrite mod_add_cases in Hc by lia. clearbody tail'. unfold enqueued'.
  destruct (Z.ltb_spec (tail' + waiting a) BUFSIZE), (Z.ltb_spec (cur a) tail'); try lia;
    split; try done; try lia.
  intros [Hw|Hw]; [lia|]. rewrite Hw, Z_mod_same_full in Htm. lia.
Qed.

Lemma geo_next a stream t w e :
  geo a stream -> next_batch a t w e -> geo (set_batch a t w e (size a + enqueued a)) stream.
Proof.
  intros [] []. split; simpl; try done; try lia.
  - rewrite ge_cur0, nb_next0, nb_sum0, Zplus_mod_idemp_l. f_equal. lia.
  - rewrite nb_sum0, Z2Nat.inj_add, <- drop_drop, ge_bytes0 by lia.
    rewrite Z2Nat.inj_add, cyc_app by lia. rewrite drop_app_length' by (by rewrite length_cyc).
    rewrite Z2Nat.id by lia. by rewrite nb_next0.
Qed.

(** Result of preparing the next batch. *)
Record prepared a stream (rc : Z) a' : Prop := {
  pp_ok : zone_ok a' stream;
  pp_fildes : aio_fildes a' = aio_fildes a;
  pp_zone : zone a' = zone a;
  pp_cur : cur a' = cur a;
  pp_total : enqueued a' + waiting a' = waiting a;
  pp_wraps : waiting a' = 0 \/ tail a' + enqueued a' = BUFSIZE;
  pp_rest : waiting a = 0 \/ tail a + enqueued a = BUFSIZE -> waiting a' = 0;
  pp_rc : rc = 0 /\ enqueued a' = 0 /\ waiting a' = 0 \/
          0 < enqueued a' /\ (rc = EINPROGRESS \/ rc = -1);
  pp_good : aio_good -> rc <> -1;
}.

Lemma prepare_next_ok a stream :
  geo a stream -> file_of (calls a) = take (Z.to_nat (size a + enqueued a)) stream ->
  wpg (prepare_next a) (fun '(rc, a') => prepared a stream rc a').
Proof.
  intros Hg Hf. unfold prepare_next. pose proof (next_batch_ok a stream Hg) as Hn. simpl in Hn.
  set (t := if tail a + enqueued a =? BUFSIZE then 0 else tail a + enqueued a) in *.
  set (e := if cur a <? t then BUFSIZE - t else cur a - t) in *.
  pose proof (geo_next a stream _ _ _ Hg Hn) as Hg'.
  pose proof Hg as []. pose proof Hn as []. pose proof BUFSIZE_val.
  rewrite !to_u64_id by (unfold is_u64; lia).
  apply wpg_assert; [apply Z.ltb_lt; lia|]. apply wpg_assert; [apply Z.leb_le; lia|].
  apply wpg_assert; [lia|].
  eapply wpg_mono.
  - apply (queue_as_is_ok _ stream (size a + enqueued a) Hg'); simpl; [lia|done|done].
  - intros [rc a'] (Hz & Hs & Hrc & Hgood). destruct Hs; simpl in *.
    split; try congruence; try done; try lia.
Qed.

(** How many batches away from an empty buffer. *)
Definition rank a : nat :=
  if waiting a =? 0 then (if enqueued a =? 0 then 0 else 1)
  else if tail a + enqueued a =? BUFSIZE then 2 else 3.

(** Result of trying to queue, forced or not. *)
Record tried (force : bool) a stream (rc : Z) a' : Prop := {
  tr_ok : zone_ok a' stream;
  tr_fildes : aio_fildes a' = aio_fildes a;
  tr_zone : zone a' = zone a;
  tr_cur : cur a' = cur a;
  tr_total : enqueued a' + waiting a' <= enqueued a + waiting a;
  tr_rc : rc = 0 /\ enqueued a' = 0 /\ waiting a' = 0 \/
          0 < enqueued a' /\ (rc = EINPROGRESS \/ rc = -1 \/ rc = -2);
  tr_good : aio_good -> 0 <= rc;
  tr_rank : aio_good -> force = true -> (rank a' <= pred (rank a))%nat;
  tr_released : aio_good -> force = true -> enqueued a' + waiting a' = waiting a;
}.

Lemma prepared_tried force a0 a stream rc a' :
  zone_ok a0 stream -> same_zone a0 a -> prepared a stream rc a' -> tried force a0 stream rc a'.
Proof.
  intros Hz0 [] []. pose proof (zo_geo _ _ Hz0) as []. pose proof (zo_geo _ _ pp_ok0) as Hg'.
  assert (Hrank : (rank a' <= pred (rank a0))%nat).
  { unfold rank. rewrite sz_waiting0, sz_tail0, sz_enqueued0 in *. destruct Hg'.
    destruct (Z.eqb_spec (waiting a0) 0), (Z.eqb_spec (waiting a') 0),
      (Z.eqb_spec (enqueued a0) 0), (Z.eqb_spec (enqueued a') 0),
      (Z.eqb_spec (tail a0 + enqueued a0) BUFSIZE), (Z.eqb_spec (tail a' + enqueued a') BUFSIZE);
      simpl; lia. }
  split; try congruence; try done; try lia.
  intros Hgood. specialize (pp_good0 Hgood). unfold EINPROGRESS in *. lia.
Qed.

Lemma same_tried a0 a stream rc :
  zone_ok a stream -> same_zone a0 a -> 0 < enqueued a0 ->
  rc = EINPROGRESS \/ rc = -1 \/ rc = -2 -> (aio_good -> rc = EINPROGRESS) ->
  tried false a0 stream rc a.
Proof.
  intros Hz [] He Hrc Hg. split; try congruence; try done; try lia.
  intros Hgood%Hg. subst. unfold EINPROGRESS. lia.
Qed.

Lemma failed_tried force a0 a stream rc :
  zone_ok a stream -> same_zone a0 a -> 0 < enqueued a0 ->
  rc = -1 \/ rc = -2 -> ~ aio_good -> tried force a0 stream rc a.
Proof. intros Hz [] He Hrc Hg. split; try congruence; try done; lia. Qed.

Lemma quiet_error : quiet AioError. Proof. done. Qed.
Lemma quiet_suspend : quiet AioSuspend. Proof. done. Qed.
Lemma quiet_return : quiet AioReturn. Proof. done. Qed.

(** The end of the job has been reported: what the code does next. *)
Lemma after_return_ok force a0 a stream :
  zone_ok a0 stream -> zone_ok a stream -> same_zone a0 a -> 0 < enqueued a0 ->
  wpg (let '(wrc, errno) := aio_return_rc (calls a) in
       let a := call a AioReturn in
       if (wrc =? -1) && (errno =? EAGAIN) then queue_as_is a
       else if wrc =? -1 then mret (-1, a)
       else if negb (to_u64 wrc =? enqueued a) then
         dbg_assert (0 <? enqueued a);;
         mret (-2, a)
       else prepare_next a)
    (fun '(rc, a') => tried force a0 stream rc a').
Proof.
  intros Hz0 Hz Hs He. pose proof (zone_ok_quiet a AioReturn stream quiet_return Hz) as Hz1.
  pose proof (same_zone_trans _ _ _ Hs (same_zone_call a AioReturn)) as Hs1.
  assert (Hret : aio_good -> (aio_return_rc (calls a)).1 = enqueued a0).
  { intros Hgood. pose proof Hs as []. rewrite <- sz_enqueued0 in *.
    rewrite (ag_return Hgood _ _ _ (zo_batch _ _ Hz He)), length_cyc. lia. }
  destruct (aio_return_rc (calls a)) as [wrc errno]. simpl in Hret.
  set (a1 := call a AioReturn) in *. cbn [fst snd].
  destruct (Z.eqb_spec wrc (-1)) as [->|Hw]; simpl.
  - assert (Hbad : ~ aio_good) by (intros Hgood; specialize (Hret Hgood); lia).
    destruct (Z.eqb_spec errno EAGAIN) as [_|_].
    + eapply wpg_mono.
      { destruct Hz1. apply (queue_as_is_ok a1 stream (size a1 + enqueued a1)); try done.
        - destruct zo_geo0. lia.
        - destruct Hs1. lia. }
      intros [rc a'] (Hz' & Hs' & Hrc & _). pose proof Hs1 as [].
      pose proof (same_zone_trans _ _ _ Hs1 Hs') as [].
      split; try congruence; try done; lia.
    + simpl. apply failed_tried; try done. by left.
  - destruct (Z.eqb_spec (to_u64 wrc) (enqueued a)) as [Hq|Hq]; simpl.
    + eapply wpg_mono; [apply prepare_next_ok; apply Hz1|].
      intros [rc a'] Hp. by apply prepared_tried with a1.
    + pose proof Hs as []. apply wpg_assert; [apply Z.ltb_lt; lia|]. simpl.
      apply failed_tried; try done; [by right|]. intros Hgood. specialize (Hret Hgood).
      destruct (zo_geo _ _ Hz0). apply Hq. rewrite sz_enqueued0, Hret. apply to_u64_id.
      unfold is_u64. lia.
Qed.

Lemma s_queue_aiobuf_ok `{!AioLaws} a stream force :
  zone_ok a stream ->
  wpg (s_queue_aiobuf a force) (fun '(rc, a') => tried force a stream rc a').
Proof.
  intros Hz. unfold s_queue_aiobuf. cbv zeta. destruct (Z.eqb_spec (enqueued a) 0) as [He|He].
  { eapply wpg_mono; [apply prepare_next_ok; apply Hz|]. intros [rc a'] Hp.
    by apply prepared_tried with a; [|split|]. }
  assert (He' : 0 < enqueued a) by (destruct (zo_geo _ _ Hz); lia).
  pose proof (zone_ok_quiet a AioError stream quiet_error Hz) as Hz1.
  set (a1 := call a AioError) in *. pose proof (same_zone_call a AioError) as Hs1. fold a1 in Hs1.
  destruct (Z.eqb_spec (aio_error_rc (calls a)) EINPROGRESS) as [Er|Er].
  - destruct force; cbv beta iota delta [negb andb]; [|by apply same_tried; try done; left].
    pose proof (zone_ok_quiet a1 AioSuspend stream quiet_suspend Hz1) as Hz2.
    set (a2 := call a1 AioSuspend) in *.
    pose proof (same_zone_trans _ _ _ Hs1 (same_zone_call a1 AioSuspend)) as Hs2. fold a2 in Hs2.
    destruct (Z.eqb_spec (aio_suspend_rc (calls a1)) (-1)) as [Esu|Esu].
    { cbv beta iota. apply failed_tried; try done; [by left|]. intros Hgood. by apply (ag_suspend Hgood) in Esu. }
    pose proof (zone_ok_quiet a2 AioError stream quiet_error Hz2) as Hz3.
    pose proof (same_zone_trans _ _ _ Hs2 (same_zone_call a2 AioError)) as Hs3.
    cbv beta iota. unfold c_true.
    destruct (Z.eqb_spec (aio_error_rc (calls a2)) 0) as [E0|E0]; cbv beta iota delta [negb].
    + by apply after_return_ok.
    + apply wpg_assert; [rewrite (proj2 (Z.eqb_neq _ _) (not_cancelled _)),
        (proj2 (Z.eqb_neq (aio_error_rc (calls a2)) _) (after_suspend (calls a1))); done|].
      apply failed_tried; try done; [by left|]. intros Hgood.
      destruct (ag_error Hgood (calls a2)) as [|Hi]; [done|].
      by apply (after_suspend (calls a1)) in Hi.
  - rewrite andb_false_r. cbv beta iota. unfold c_true.
    destruct (Z.eqb_spec (aio_error_rc (calls a)) 0) as [E0|E0]; cbv beta iota delta [negb].
    + by apply after_return_ok.
    + apply wpg_assert; [rewrite (proj2 (Z.eqb_neq _ _) (not_cancelled _)),
        (proj2 (Z.eqb_neq _ _) Er); done|].
      apply failed_tried; try done; [by left|]. intros Hgood.
      by destruct (ag_error Hgood (calls a)).
Qed.

(** ** Adding a frame and flushing *)

(** A buffer between two frames: there is room for one more, and while nothing
    is handed over less than MINSIZE is waiting. *)
Record aio_ok a stream : Prop := {
  ao_zone : zone_ok a stream;
  ao_fildes : aio_fildes a <> -1;
  ao_room : enqueued a + waiting a <= BUFSIZE - TESPKT_MTU;
  ao_idle : enqueued a = 0 -> waiting a < MINSIZE;
}.

Lemma room_spec a stream :
  geo a stream -> room a = (enqueued a + waiting a <=? BUFSIZE - TESPKT_MTU).
Proof. intros []. unfold room. rewrite to_u64_id by (unfold is_u64; lia). done. Qed.

Lemma rank_zero a : 0 <= waiting a -> 0 <= enqueued a -> rank a = 0%nat ->
  enqueued a = 0 /\ waiting a = 0.
Proof.
  intros Hw He. unfold rank.
  destruct (Z.eqb_spec (waiting a) 0), (Z.eqb_spec (enqueued a) 0),
    (Z.eqb_spec (tail a + enqueued a) BUFSIZE); lia.
Qed.

(** The end of forcing: the reason it stopped. *)
Record forced a stream (rc : Z) a' : Prop := {
  fo_ok : zone_ok a' stream;
  fo_fildes : aio_fildes a' = aio_fildes a;
  fo_zone : zone a' = zone a;
  fo_cur : cur a' = cur a;
  fo_stop : room a' = true \/ rc = -1 \/ rc = -2;
  fo_rc : rc = 0 \/ rc = EINPROGRESS \/ rc = -1 \/ rc = -2;
  fo_good : aio_good -> 0 <= rc;
  fo_idle : enqueued a' = 0 -> waiting a' = 0;
}.

Lemma tried_rc force a stream rc a' :
  tried force a stream rc a' -> rc = 0 \/ rc = EINPROGRESS \/ rc = -1 \/ rc = -2.
Proof. intros []. lia. Qed.

Lemma tried_room force a stream rc a' : tried force a stream rc a' -> rc = 0 -> room a' = true.
Proof.
  intros Ht Hrc. pose proof (tr_rc _ _ _ _ _ Ht) as Hcase.
  rewrite (room_spec a' stream) by apply Ht. apply Z.leb_le.
  pose proof BUFSIZE_val. unfold TESPKT_MTU, EINPROGRESS in *. lia.
Qed.

Lemma force_loop_ok `{!AioLaws} stream fuel : forall rc a,
  zone_ok a stream -> rc = 0 \/ rc = EINPROGRESS \/ rc = -1 \/ rc = -2 ->
  (rc = 0 -> room a = true) -> (aio_good -> 0 <= rc) -> (aio_good -> (rank a < fuel)%nat) ->
  (enqueued a = 0 -> waiting a = 0) ->
  wpg (force_loop fuel rc a) (fun '(rc', a') => forced a stream rc' a').
Proof.
  induction fuel as [|fuel IH]; intros rc a Hz Hrc Hr0 Hg Hf Hi.
  all: cbn [force_loop]; destruct (room a) eqn:Er; cbn [negb andb];
    try (simpl; split; try done; by left).
  all: destruct (Z.eqb_spec rc EINPROGRESS) as [Ei|Ei];
    [|simpl; split; try done; right;
      destruct Hrc as [Hz0|[Hz0|Hz0]]; [specialize (Hr0 Hz0); congruence|congruence|exact Hz0]].
  { simpl. intros Hgood. specialize (Hf Hgood). lia. }
  apply wpg_bind. eapply wpg_mono; [by apply s_queue_aiobuf_ok with (stream := stream)|].
  intros [rc' a'] Ht. simpl. eapply wpg_mono.
  - apply (IH rc' a'); [apply Ht|apply (tried_rc _ _ _ _ _ Ht)|apply (tried_room _ _ _ _ _ Ht)|apply Ht|
      |pose proof (tr_rc _ _ _ _ _ Ht); lia].
    intros Hgood. pose proof (tr_rank _ _ _ _ _ Ht Hgood eq_refl) as Hk.
      specialize (Hf Hgood). destruct (rank a) eqn:Ek; [|lia].
      exfalso. destruct (zo_geo _ _ Hz). destruct (rank_zero a) as [H1 H2]; [lia..|done|].
      rewrite (room_spec a stream) in Er by apply Hz. rewrite H1, H2 in Er.
      pose proof BUFSIZE_val. unfold TESPKT_MTU in Er. lia.
  - intros [rc'' a''] []. destruct Ht. split; try done; congruence.
Qed.

Lemma rank_le a : (rank a <= 3)%nat.
Proof. unfold rank. repeat case_if; lia. Qed.

(** The buffer with one more frame in it. *)
Lemma zone_ok_copied a stream z pkt len :
  zone_ok a stream -> Z.of_nat (length pkt) = len ->
  enqueued a + waiting a + len <= BUFSIZE -> waiting a + len < BUFSIZE ->
  Z.of_nat (length stream) + len < 2 ^ 63 -> copied (zone a) z (cur a) pkt ->
  zone_ok (set_waiting (set_zone a z ((cur a + len) mod BUFSIZE)) (waiting a + len))
    (stream ++ pkt).
Proof.
  intros [Hg Hf Hb] Hl Ht Hw Hs Hc. pose proof (geo_batch a stream Hg) as Hbt. pose proof Hg as [].
  assert (Hg' : geo (set_waiting (set_zone a z ((cur a + len) mod BUFSIZE)) (waiting a + len))
    (stream ++ pkt)).
  { split; simpl; rewrite ?length_app; try done; try lia.
    - rewrite (cp_length _ _ _ _ Hc). done.
    - rewrite ge_cur0, Zplus_mod_idemp_l. f_equal. lia.
    - rewrite drop_app_le, ge_bytes0 by lia.
      replace (Z.to_nat (enqueued a + (waiting a + len)))
        with (Z.to_nat (enqueued a + waiting a) + length pkt)%nat by lia.
      symmetry. apply cyc_copied; [|done|lia]. rewrite Z2Nat.id, <- ge_cur0 by lia. done. }
  split; [done|..]; simpl.
  - rewrite Hf, take_app_le by lia. done.
  - intros He. rewrite (Hb He). do 2 f_equal.
    pose proof (geo_batch _ _ Hg') as Hb'. simpl in Hb'.
    rewrite <- Hb', <- Hbt. rewrite drop_app_le by lia. rewrite take_app_le; [done|].
    rewrite length_drop. lia.
Qed.

(** Adding a frame: either it is in the stream the buffer and the file hold, or
    the job failed while the buffer was full and the server stops. *)
Definition added a (stream : bytes) (m : exec (Z * s_aiobuf_t)) : Prop :=
  match m with
  | Done (rc, a') => aio_ok a' stream /\ aio_fildes a' = aio_fildes a /\
      (rc = 0 \/ rc = EINPROGRESS \/ rc = -1 \/ rc = -2) /\ (aio_good -> 0 <= rc)
  | Failed AssertFail => ~ aio_good /\
      exists rc a', (rc = -1 \/ rc = -2) /\ zone_ok a' stream /\ room a' = false
  | Failed NoFuel => ~ aio_good
  | Failed _ => False
  end.

Lemma cursor_asserts a stream :
  geo a stream -> enqueued a + waiting a < BUFSIZE ->
  ((cur a <? tail a) || (tail a + enqueued a <=? cur a)) = true /\
  (cur a =? tail a + enqueued a + waiting a - (if cur a <? tail a then BUFSIZE else 0)) = true.
Proof.
  intros [] Ht. rewrite mod_add_cases in ge_cur0 by lia.
  destruct (Z.ltb_spec (tail a + (enqueued a + waiting a)) BUFSIZE);
    destruct (Z.ltb_spec (cur a) (tail a)); split; bool_lia.
Qed.

(** The part of [s_try_queue_aiobuf] after the frame has been copied. *)
Definition after_copy a (wrapped : bool) : exec (Z * s_aiobuf_t) :=
  if (waiting a <? MINSIZE) && negb wrapped && room a then mret (0, a)
  else
    '(jobrc, a) ← s_queue_aiobuf a false;
    '(jobrc, a) ← force_loop aio_retries jobrc a;
    dbg_assert (room a);;
    mret (jobrc, a).

Lemma try_queue_copy a stream buf len :
  aio_ok a stream -> 0 < len <= TESPKT_MTU -> len <= Z.of_nat (length buf) ->
  Z.of_nat (length stream) + len < 2 ^ 63 ->
  exists a2, s_try_queue_aiobuf a buf len =
      after_copy a2 (negb (len - (BUFSIZE - cur a) <? 0)) /\
    zone_ok a2 (stream ++ take (Z.to_nat len) buf) /\ aio_fildes a2 = aio_fildes a /\
    enqueued a2 = enqueued a /\ waiting a2 = waiting a + len /\ calls a2 = calls a.
Proof.
  intros [Hz Hfd Hro Hidle] Hl Hb Hsm. pose proof (zo_geo _ _ Hz) as Hg. pose proof BUFSIZE_val as HN.
  assert (Hmtu : TESPKT_MTU = 1496) by done. assert (Hmin : MINSIZE = 512000) by done.
  assert (Hw : waiting a + len < BUFSIZE).
  { destruct Hg. destruct (decide (enqueued a = 0)) as [He%Hidle|]; lia. }
  destruct (cursor_asserts a stream Hg) as [Ha1 Ha2]; [lia|].
  assert (Hroom : room a = true) by (rewrite (room_spec a stream Hg); lia).
  pose proof Hg as []. assert (Hcur : 0 <= cur a < BUFSIZE)
    by (rewrite ge_cur0; apply Z.mod_pos_bound; lia).
  unfold s_try_queue_aiobuf. rewrite (proj2 (Z.eqb_neq _ _) Hfd), Hroom, Ha1, Ha2.
  rewrite (proj2 (Z.ltb_lt 0 len)), (proj2 (Z.leb_le 0 (cur a))), (proj2 (Z.leb_le 0 (tail a))),
    (proj2 (Z.ltb_lt (cur a) BUFSIZE)), (proj2 (Z.leb_le (tail a + enqueued a) BUFSIZE)) by lia.
  cbn [negb c_assert dbg_assert mbind exec_bind].
  destruct (copy_frame_ok a buf len) as (z & -> & Hc); try done; [lia|unfold is_u64; lia|].
  cbn [mbind exec_bind]. eexists. split; [unfold after_copy; by rewrite negb_involutive|].
  split; [|done]. apply zone_ok_copied; try done; [rewrite length_take|]; lia.
Qed.

Lemma s_try_queue_aiobuf_ok `{!AioLaws} a stream buf len :
  aio_ok a stream -> 0 < len <= TESPKT_MTU -> len <= Z.of_nat (length buf) ->
  Z.of_nat (length stream) + len < 2 ^ 63 ->
  added a (stream ++ take (Z.to_nat len) buf) (s_try_queue_aiobuf a buf len).
Proof.
  intros Hok Hl Hb Hsm.
  destruct (try_queue_copy a stream buf len Hok Hl Hb Hsm) as (a2 & -> & Hz2 & Hfd & _ & _ & _).
  destruct Hok as [_ Hfd0 _ _]. assert (Hmin : MINSIZE = 512000) by done.
  set (stream2 := stream ++ take (Z.to_nat len) buf) in *. unfold after_copy.
  destruct ((waiting a2 <? MINSIZE) && _ && room a2) eqn:Ecase.
  { bool_hyps. simpl. split; [|split; [done|split; [by left|done]]].
    split; [done|by rewrite Hfd| |done]. rewrite (room_spec a2 stream2) in * by apply Hz2. lia. }
  pose proof (s_queue_aiobuf_ok a2 stream2 false Hz2) as Hq.
  destruct (s_queue_aiobuf a2 false) as [[rc1 a3]|f]; [|destruct f; try done; by destruct Hq].
  cbn [mbind exec_bind]. simpl in Hq. assert (Hfu : aio_good -> (rank a3 < aio_retries)%nat).
  { intros Hgood. pose proof (ag_fuel Hgood). pose proof (rank_le a3). lia. }
  pose proof (force_loop_ok stream2 aio_retries rc1 a3 (tr_ok _ _ _ _ _ Hq) (tried_rc _ _ _ _ _ Hq)
    (tried_room _ _ _ _ _ Hq) (tr_good _ _ _ _ _ Hq) Hfu
    ltac:(pose proof (tr_rc _ _ _ _ _ Hq); lia)) as Hfo.
  destruct (force_loop aio_retries rc1 a3) as [[rc2 a4]|f]; [|destruct f; try done; by destruct Hfo].
  cbn [mbind exec_bind]. simpl in Hfo. destruct Hfo.
  assert (Hfd4 : aio_fildes a4 = aio_fildes a) by (by rewrite fo_fildes0, (tr_fildes _ _ _ _ _ Hq)).
  destruct (room a4) eqn:Er; simpl.
  - split; [|split; [done|done]]. split; [done|by rewrite Hfd4|..].
    + rewrite (room_spec a4 stream2) in Er by apply fo_ok0. lia.
    + intros He%fo_idle0. lia.
  - destruct fo_stop0 as [|Hstop]; [done|]. split.
    + intros Hgood. specialize (fo_good0 Hgood). lia.
    + by exists rc2, a4.
Qed.

(** Flushed: nothing is left in the buffer. *)
Record flushed a stream a' : Prop := {
  fl_ok : zone_ok a' stream;
  fl_fildes : aio_fildes a' = aio_fildes a;
  fl_enqueued : enqueued a' = 0;
  fl_waiting : waiting a' = 0;
}.

Lemma flush_loop_ok `{!AioLaws} stream : aio_good -> forall fuel a,
  zone_ok a stream -> (Nat.max 1 (rank a) <= fuel)%nat ->
  exists a', flush_loop fuel a = Done a' /\ flushed a stream a'.
Proof.
  intros Hgood. induction fuel as [|fuel IH]; intros a Hz Hf; [lia|]. cbn [flush_loop].
  pose proof (s_queue_aiobuf_ok a stream true Hz) as Hq.
  destruct (s_queue_aiobuf a true) as [[rc a1]|f]; [|destruct f; try done; by destruct Hq].
  cbn [mbind exec_bind]. simpl in Hq.
  pose proof (tr_rc _ _ _ _ _ Hq) as Hrc. pose proof (tr_good _ _ _ _ _ Hq Hgood) as Hg.
  pose proof (tr_rank _ _ _ _ _ Hq Hgood eq_refl) as Hk.
  destruct Hrc as [(-> & He & Hw)|[He [->|Hrc]]]; [| |lia].
  - exists a1. split; [done|]. split; try done; apply Hq.
  - simpl. destruct (IH a1) as (a' & E & []); [apply Hq| |].
    + assert (rank a1 <> 0%nat).
      { intros Hr. destruct (zo_geo _ _ (tr_ok _ _ _ _ _ Hq)).
        destruct (rank_zero a1); [lia..|done|lia]. }
      lia.
    + exists a'. split; [done|]. split; try done.
      by rewrite fl_fildes0, (tr_fildes _ _ _ _ _ Hq).
Qed.

Lemma s_flush_ok `{!AioLaws} aio streams :
  aio_good -> Forall2 zone_ok aio streams ->
  exists aio', s_flush aio = Done aio' /\
    Forall2 (fun a' stream => zone_ok a' stream /\ enqueued a' = 0 /\ waiting a' = 0) aio' streams.
Proof.
  intros Hgood. induction 1 as [|a stream aio streams Hz _ IH]; [by exists []|].
  destruct (flush_loop_ok stream Hgood aio_retries a Hz) as (a' & E & []).
  { pose proof (ag_fuel Hgood). pose proof (rank_le a). lia. }
  destruct IH as (aio' & E' & Hf). exists (a' :: aio'). simpl. rewrite E. simpl. rewrite E'.
  split; [done|]. by constructor.
Qed.

(** ** A whole job *)

(** A buffer between jobs. *)
Record idle a : Prop := {
  id_length : Z.of_nat (length (zone a)) = BUFSIZE;
  id_fildes : aio_fildes a = -1;
  id_tail : tail a = 0;
  id_cur : cur a = 0;
  id_waiting : waiting a = 0;
  id_enqueued : enqueued a = 0;
  id_size : size a = 0;
}.

Lemma s_init_aiobuf_idle a :
  mmap_ok = true -> waiting a = 0 -> enqueued a = 0 -> size a = 0 ->
  exists a', s_init_aiobuf a = (0, a') /\ idle a'.
Proof.
  intros Hm Hw He Hs. unfold s_init_aiobuf. rewrite Hm. eexists. split; [done|].
  split; [|done..]. cbn [zone set_batch set_zone]. rewrite length_replicate.
  apply Z2Nat.id. by rewrite BUFSIZE_val.
Qed.

Lemma s_open_aiobuf_ok a excl :
  idle a -> exists rc a', s_open_aiobuf a excl = Done (rc, a') /\
    (rc = -1 /\ idle a' \/ rc = 0 /\ aio_ok a' []).
Proof.
  intros []. unfold s_open_aiobuf.
  rewrite id_fildes0, id_size0, id_cur0, id_tail0, id_waiting0, id_enqueued0. simpl.
  set (p := if _ : bool then (unlink_rc (calls a), call a Unlink) else (0, a)).
  assert (Hp : same_zone a p.2) by (unfold p; case_if; by split).
  destruct p as [rc a1]. simpl in Hp. destruct (Z.eqb_spec rc (-1)) as [_|_].
  { eexists _, _. split; [done|]. left. split; [done|]. destruct Hp. split; cbn; congruence. }
  eexists _, _. split; [done|]. destruct Hp. destruct (Z.eqb_spec (open_rc (calls a1)) (-1)) as [Ho|Ho].
  { left. split; [done|]. split; cbn; congruence. }
  right. split; [done|]. pose proof BUFSIZE_val.
  split; [split; [split|..]|..]; simpl;
    rewrite ?sz_zone0, ?sz_tail0, ?sz_cur0, ?sz_waiting0, ?sz_enqueued0, ?sz_size0,
      ?id_tail0, ?id_cur0, ?id_waiting0, ?id_enqueued0, ?id_size0; try done; try lia.
  by rewrite file_of_snoc.
Qed.

Lemma s_close_aiobuf_ok a stream :
  zone_ok a stream -> aio_fildes a <> -1 -> enqueued a = 0 -> waiting a = 0 ->
  idle (s_close_aiobuf a) /\ file_of (calls (s_close_aiobuf a)) = stream.
Proof.
  intros [[] Hf _] Hfd He Hw. unfold s_close_aiobuf. rewrite (proj2 (Z.eqb_neq _ _) Hfd).
  split; [by split|]. simpl. rewrite !file_of_snoc. simpl. rewrite Hf, He, Z.add_0_r.
  rewrite take_ge by lia. by rewrite resize_all_alt by lia.
Qed.

(** The frames of a job, added one after the other. *)
Fixpoint add_frames (frames : list bytes) a : exec s_aiobuf_t :=
  match frames with
  | [] => mret a
  | f :: frames =>
      '(rc, a) ← s_try_queue_aiobuf a f (Z.of_nat (length f));
      if c_true rc && negb (rc =? EINPROGRESS) then mret a else add_frames frames a
  end.

Definition frame_fits (f : bytes) : Prop := 0 < Z.of_nat (length f) <= TESPKT_MTU.

Lemma add_frames_ok `{!AioLaws} frames : aio_good -> forall a stream,
  aio_ok a stream -> Forall frame_fits frames ->
  Z.of_nat (length (stream ++ concat frames)) < 2 ^ 63 ->
  exists a', add_frames frames a = Done a' /\ aio_ok a' (stream ++ concat frames).
Proof.
  intros Hgood. induction frames as [|f frames IH]; intros a stream Hok Hf Hs.
  { exists a. split; [done|]. simpl. by rewrite app_nil_r. }
  apply Forall_cons_1 in Hf as [Hff Hf]. simpl in Hs. rewrite !length_app in Hs.
  cbn [add_frames].
  pose proof (s_try_queue_aiobuf_ok a stream f (Z.of_nat (length f)) Hok Hff
    ltac:(lia) ltac:(lia)) as Ha.
  rewrite Nat2Z.id, firstn_all in Ha.
  destruct (s_try_queue_aiobuf a f _) as [[rc a1]|e]; cbn [mbind exec_bind].
  - destruct Ha as (Hok1 & _ & Hrc & Hg).
    assert (Ec : c_true rc && negb (rc =? EINPROGRESS) = false).
    { specialize (Hg Hgood). unfold c_true. destruct Hrc as [->|[->|Hrc]]; [done|done|lia]. }
    rewrite Ec. destruct (IH a1 (stream ++ f)) as (a' & E & Hok'); try done.
    + rewrite !length_app. lia.
    + exists a'. split; [done|]. simpl. by rewrite app_assoc.
  - destruct e; try done; by destruct Ha.
Qed.
End Queueing.
End Aiobuf.

(** ** A sample service and a buffer in use *)

Module AioSample.
(** A service that is busy until it is waited for and then completes. *)
#[export] Instance env : AioEnv := {|
  mmap_ok := true;
  aio_error_rc := fun l => match list.last l with Some AioSuspend => 0 | _ => EINPROGRESS end;
  aio_suspend_rc := fun _ => 0;
  aio_return_rc := fun l => match Aiobuf.last_batch l with
                            | Some (_, data) => (Z.of_nat (length data), 0) | None => (-1, 22) end;
  aio_write_rc := fun l => match list.last l with Some (AioWrite _ _) => (0, 0) | _ => (-1, EAGAIN) end;
  access_rc := fun _ => 0; unlink_rc := fun _ => 0; open_rc := fun _ => 7; aio_retries := 4 |}.

(** A service whose jobs fail: no space left on the device. *)
Definition failing : AioEnv := {|
  mmap_ok := true; aio_error_rc := fun _ => 28; aio_suspend_rc := fun _ => 0;
  aio_return_rc := fun _ => (-1, 28); aio_write_rc := fun _ => (0, 0);
  access_rc := fun _ => 0; unlink_rc := fun _ => 0; open_rc := fun _ => 7; aio_retries := 4 |}.

#[export] Instance laws : Aiobuf.AioLaws.
Proof.
  split; intros l; simpl; [by rewrite last_snoc|]. by destruct (list.last l) as [[]|].
Qed.

Lemma good : Aiobuf.aio_good.
Proof.
  split; simpl; try done.
  - intros l. destruct (list.last l) as [[]|]; auto.
  - by intros l off data ->.
  - intros l. by destruct (list.last l) as [[]|].
  - intros l off data. exists 1%nat. split; [lia|]. simpl. by rewrite last_snoc.
Qed.

(** A mapped buffer, before it is opened. *)
Definition fresh : Aiobuf.s_aiobuf_t :=
  Aiobuf.Build_s_aiobuf_t (-1) 0 0 0 (replicate (Z.to_nat BUFSIZE) x00) 0 0 0 0 0 [].

Definition opened : Aiobuf.s_aiobuf_t :=
  Aiobuf.Build_s_aiobuf_t 7 0 0 0 (replicate (Z.to_nat BUFSIZE) x00) 0 0 0 0 0 [OpenFile].

Lemma length_zeros : Z.of_nat (length (replicate (Z.to_nat BUFSIZE) x00)) = BUFSIZE.
Proof. rewrite length_replicate. apply Z2Nat.id. by rewrite Aiobuf.BUFSIZE_val. Qed.

Lemma fresh_idle : Aiobuf.idle fresh.
Proof. split; [exact length_zeros|reflexivity..]. Qed.

(** [n] zero bytes handed over, [w] waiting behind them. *)
Definition busy (n w : Z) : Aiobuf.s_aiobuf_t :=
  Aiobuf.Build_s_aiobuf_t 7 0 0 n (replicate (Z.to_nat BUFSIZE) x00) 0 (n + w) w n 0
    [AioWrite 0 (replicate (Z.to_nat n) x00)].

Lemma cyc_zeros i n : Aiobuf.cyc (replicate (Z.to_nat BUFSIZE) x00) i n = replicate n x00.
Proof.
  symmetry. apply replicate_as_elem_of. split; [apply Aiobuf.length_cyc|].
  intros b (k & -> & _)%list_elem_of_fmap. rewrite nth_lookup.
  destruct (_ !! _) eqn:E; [|done]. by apply lookup_replicate in E as [-> _].
Qed.

Definition busy_sample : Aiobuf.s_aiobuf_t := busy 512000 88000.

Lemma busy_ok n w :
  0 < n -> 0 <= w -> n + w <= BUFSIZE - TESPKT_MTU ->
  Aiobuf.aio_ok (busy n w) (replicate (Z.to_nat (n + w)) x00).
Proof.
  intros Hn Hw Ht. pose proof Aiobuf.BUFSIZE_val. assert (TESPKT_MTU = 1496) by done.
  split; [split; [split|..]|..]; cbn [busy Aiobuf.zone Aiobuf.tail Aiobuf.cur Aiobuf.waiting
    Aiobuf.enqueued Aiobuf.size Aiobuf.calls Aiobuf.aio_fildes]; try exact length_zeros; try lia.
  - rewrite Z.mod_small; lia.
  - rewrite length_replicate. lia.
  - rewrite length_replicate. lia.
  - by rewrite drop_0, cyc_zeros.
  - unfold Aiobuf.file_of. cbn [fold_left Aiobuf.file_step]. unfold Aiobuf.file_write.
    simpl. rewrite drop_nil, app_nil_r, take_replicate. f_equal. lia.
  - intros _. unfold Aiobuf.last_batch. cbn [fold_left Aiobuf.batch_step]. by rewrite cyc_zeros.
Qed.
End AioSample.

#[local] Existing Instances AioSample.env AioSample.laws.

(** ** Properties *)

(** C26: whatever the asynchronous I/O does (fail, never complete, write less),
    adding a frame to a buffer that is in order keeps it in order: the file (if
    all that was handed over lands) and the buffer hold every frame added, once
    and in the order of adding, no byte that is handed over or still waiting is
    overwritten, and no write is queued but of the next bytes.  The exceptions
    are stated: the server can wait for ever, and it stops at an assertion when
    a job has failed and the buffer is full, both of which need the service
    not to be good. *)
Theorem aiobuf_add_safe `{AioEnv} `{!Aiobuf.AioLaws} a stream buf len :
  Aiobuf.aio_ok a stream -> 0 < len <= TESPKT_MTU -> len <= Z.of_nat (length buf) ->
  Z.of_nat (length stream) + len < 2 ^ 63 ->
  Aiobuf.added a (stream ++ take (Z.to_nat len) buf) (Aiobuf.s_try_queue_aiobuf a buf len).
Proof. exact (Aiobuf.s_try_queue_aiobuf_ok a stream buf len). Qed.

(** C27: a job with a service that completes what it accepts: opening an idle
    buffer, adding frames, flushing and closing terminate without a failure
    for any frames up to the MTU, the file is their concatenation, and the
    buffer is idle again, ready for the next job. *)
Theorem aiobuf_job_complete `{AioEnv} `{!Aiobuf.AioLaws} a excl a1 frames :
  Aiobuf.aio_good -> Aiobuf.idle a -> Aiobuf.s_open_aiobuf a excl = Done (0, a1) ->
  Forall Aiobuf.frame_fits frames -> Z.of_nat (length (concat frames)) < 2 ^ 63 ->
  exists a2 a3, Aiobuf.add_frames frames a1 = Done a2 /\ Aiobuf.s_flush [a2] = Done [a3] /\
    Aiobuf.file_of (Aiobuf.calls (Aiobuf.s_close_aiobuf a3)) = concat frames /\
    Aiobuf.idle (Aiobuf.s_close_aiobuf a3).
Proof.
  intros Hgood Hi Ho Hf Hl.
  destruct (Aiobuf.s_open_aiobuf_ok a excl Hi) as (rc & a1' & E & Hrc). rewrite Ho in E.
  injection E as <- <-. destruct Hrc as [[? _]|[_ Hok]]; [done|].
  destruct (Aiobuf.add_frames_ok frames Hgood a1 [] Hok Hf Hl) as (a2 & E2 & Hok2).
  destruct (Aiobuf.flush_loop_ok (concat frames) Hgood aio_retries a2) as (a3 & E3 & []).
  { apply Hok2. }
  { pose proof (Aiobuf.ag_fuel Hgood). pose proof (Aiobuf.rank_le a2). lia. }
  exists a2, a3. split; [done|]. split; [simpl; by rewrite E3|].
  destruct (Aiobuf.s_close_aiobuf_ok a3 (concat frames) fl_ok) as [H1 H2]; try done.
  rewrite fl_fildes. apply Hok2.
Qed.

(** A failed job while the buffer is too full for another frame stops the
    server at an assertion: the error is returned only after it. *)
Theorem aiobuf_full_error_aborts `{AioEnv} a stream buf len e :
  Aiobuf.aio_ok a stream -> 0 < len <= TESPKT_MTU -> len <= Z.of_nat (length buf) ->
  Z.of_nat (length stream) + len < 2 ^ 63 ->
  0 < Aiobuf.enqueued a -> BUFSIZE - TESPKT_MTU < Aiobuf.enqueued a + Aiobuf.waiting a + len ->
  (forall l, aio_error_rc l = e) -> e <> 0 -> e <> EINPROGRESS -> e <> ECANCELED ->
  Aiobuf.s_try_queue_aiobuf a buf len = Failed AssertFail.
Proof.
  intros Hok Hl Hb Hs He Hfull Herr H0 Hi Hc.
  destruct (Aiobuf.try_queue_copy a stream buf len Hok Hl Hb Hs)
    as (a2 & -> & Hz & _ & Ee & Ew & _).
  assert (Hr : forall c, Aiobuf.room (Aiobuf.call a2 c) = false).
  { intros c. rewrite (Aiobuf.room_spec _ _ (Aiobuf.geo_same _ _ _ (Aiobuf.same_zone_call a2 c)
      (Aiobuf.zo_geo _ _ Hz))). simpl. rewrite Ee, Ew. lia. }
  unfold Aiobuf.after_copy. rewrite (Hr AioError : Aiobuf.room a2 = false), andb_false_r.
  unfold Aiobuf.s_queue_aiobuf. cbv zeta. rewrite Ee, !Herr.
  rewrite (proj2 (Z.eqb_neq (Aiobuf.enqueued a) 0)) by lia.
  rewrite (proj2 (Z.eqb_neq e EINPROGRESS)) by done. cbn [negb andb]. unfold c_true.
  rewrite (proj2 (Z.eqb_neq e 0)), (proj2 (Z.eqb_neq e ECANCELED)),
    (proj2 (Z.eqb_neq e EINPROGRESS)) by done.
  cbn [negb andb dbg_assert c_assert mbind exec_bind mret exec_ret].
  destruct aio_retries; cbn [Aiobuf.force_loop]; rewrite Hr; cbn [negb andb];
    change (-1 =? EINPROGRESS) with false; cbn [mbind exec_bind mret exec_ret];
    by rewrite Hr.
Qed.

Lemma aiobuf_add_safe_witness :
  Aiobuf.added AioSample.busy_sample
    (replicate (Z.to_nat 600000) x00 ++ take (Z.to_nat 3) [x01; x02; x03])
    (Aiobuf.s_try_queue_aiobuf AioSample.busy_sample [x01; x02; x03] 3).
Proof.
  apply (aiobuf_add_safe AioSample.busy_sample (replicate (Z.to_nat 600000) x00) [x01; x02; x03] 3).
  - apply (AioSample.busy_ok 512000 88000); [reflexivity|discriminate|discriminate].
  - split; [reflexivity|discriminate].
  - discriminate.
  - rewrite length_replicate, Z2Nat.id; [reflexivity|discriminate].
Defined.

Lemma aiobuf_job_complete_witness :
  exists a2 a3, Aiobuf.s_open_aiobuf AioSample.fresh true = Done (0, AioSample.opened) /\
    Aiobuf.add_frames [[x01; x02]; [x03]] AioSample.opened = Done a2 /\ Aiobuf.s_flush [a2] = Done [a3] /\
    Aiobuf.file_of (Aiobuf.calls (Aiobuf.s_close_aiobuf a3)) = [x01; x02; x03].
Proof.
  destruct (aiobuf_job_complete AioSample.fresh true AioSample.opened [[x01; x02]; [x03]])
    as (a2 & a3 & E2 & E3 & E4 & _).
  - exact AioSample.good.
  - exact AioSample.fresh_idle.
  - reflexivity.
  - repeat constructor; discriminate.
  - reflexivity.
  - exists a2, a3. split; [reflexivity|]. split; [exact E2|]. split; [exact E3|exact E4].
Defined.

Lemma aiobuf_full_error_aborts_witness :
  Aiobuf.s_try_queue_aiobuf (H := AioSample.failing) (AioSample.busy 512000 9972264) [x01] 1
    = Failed AssertFail.
Proof.
  apply (aiobuf_full_error_aborts (H := AioSample.failing) (AioSample.busy 512000 9972264)
    (replicate (Z.to_nat (512000 + 9972264)) x00) [x01] 1 28).
  - apply AioSample.busy_ok; [reflexivity|discriminate|discriminate].
  - split; [reflexivity|discriminate].
  - discriminate.
  - rewrite length_replicate, Z2Nat.id; [reflexivity|discriminate].
  - reflexivity.
  - reflexivity.
  - reflexivity.
  - discriminate.
  - discriminate.
  - discriminate.
Defined.
