(* ===== verification/Capture.v ===== *)
(** * The capture task (src/bin/tesd_task_cap.c)

    Module Cap has the request, the statistics file and the packet handler of
    the task, over the write buffers of Aiobuf.v, one per dataset, the paths of
    Path.v and the conversion of Hdf5.v.  Each buffer has a service of its own;
    the other calls of the task are in the log of the data.  A member of
    [fidx.ftype] that the code leaves unset keeps what was on the stack, which
    is a parameter.  DEBUG_LEVEL is the default, and the optional macros
    (SINGLE_FILE, SAVE_HEADERS, NO_BAD_FRAMES) are not defined, as in the
    source; REQUIRE_FILENAME is. *)

From Stdlib Require Import ZArith Lia Strings.String Strings.Byte.
From stdpp Require Import base option list numbers decidable sets.
From S2P Require Import Prelude Sys Path Hdf5 Tespkt Tesif Task Aiobuf.

Open Scope Z_scope.

Definition FIDX_LEN : Z := 16.
Definition TIDX_LEN : Z := 8.
Definition SIDX_LEN : Z := 16.
Definition STAT_LEN : Z := 64.

Definition FTYPE_PEAK : Z := 0.
Definition FTYPE_AREA : Z := 1.
Definition FTYPE_PULSE : Z := 2.
Definition FTYPE_TRACE_SGL : Z := 3.
Definition FTYPE_TRACE_AVG : Z := 4.
Definition FTYPE_TRACE_DP : Z := 5.
Definition FTYPE_TRACE_DP_TR : Z := 6.
Definition FTYPE_TICK : Z := 7.
Definition FTYPE_MCA : Z := 8.
Definition FTYPE_BAD : Z := 9.

Definition linear_etype (pkt_type tr_type : Z) : Z :=
  if pkt_type =? TESPKT_TYPE_TRACE then 3 + tr_type else pkt_type.

Definition NUM_DSETS : nat := 8.
Definition DSET_FIDX : nat := 0.
Definition DSET_MIDX : nat := 1.
Definition DSET_TIDX : nat := 2.
Definition DSET_RIDX : nat := 3.
Definition DSET_BDAT : nat := 4.
Definition DSET_MDAT : nat := 5.
Definition DSET_TDAT : nat := 6.
Definition DSET_EDAT : nat := 7.

(** Names of the datasets and extensions of the files. *)
Definition s_dsets : list (bytes * bytes) := [
  (lit "fidx", lit "fidx"); (lit "midx", lit "midx"); (lit "tidx", lit "tidx");
  (lit "ridx", lit "ridx"); (lit "bad", lit "bdat"); (lit "mca", lit "mdat");
  (lit "ticks", lit "tdat"); (lit "events", lit "edat")].

Definition TES_CAP_AUTO : Z := 0.
Definition TES_CAP_CAPONLY : Z := 1.
Definition TES_CAP_CONVONLY : Z := 2.
Definition TES_CAP_REP_PIC : string := "18888888".

(** ** Numbers in memory *)

(** The [n] bytes of a little-endian number. *)
Fixpoint le (n : nat) (z : Z) : bytes :=
  match n with O => [] | S n => byte_of_Z z :: le n (z / 256) end.
Fixpoint unle (bs : bytes) : Z :=
  match bs with [] => 0 | b :: bs => Z_of_byte b + 256 * unle bs end.

(** The services of the buffers, the system, the byte that was on the stack
    where the type of the given frame goes, whether memory can be allocated,
    and the result of sending a reply. *)
Class CapEnv : Type := {
  cap_aio : nat -> AioEnv;
  cap_sys : SysEnv;
  cap_stack : Z -> Z;
  cap_malloc : bool;
  zsock_send_rc : list action -> Z;
}.
#[export] Existing Instance cap_sys.

Module Cap.

(** ** Data *)

Record s_stats_t : Type := {
  ticks : Z;
  events : Z;
  traces : Z;
  hists : Z;
  frames : Z;
  frames_lost : Z;
  frames_dropped : Z;
  errors : Z;
}.

Definition zero_stats : s_stats_t := Build_s_stats_t 0 0 0 0 0 0 0 0.

Definition stats_bytes (s : s_stats_t) : bytes :=
  le 8 (ticks s) ++ le 8 (events s) ++ le 8 (traces s) ++ le 8 (hists s) ++
  le 8 (frames s) ++ le 8 (frames_lost s) ++ le 8 (frames_dropped s) ++ le 8 (errors s).

Definition load_stats (m : bytes) : s_stats_t :=
  let f i := unle (take 8 (drop i m)) in
  Build_s_stats_t (f 0%nat) (f 8%nat) (f 16%nat) (f 24%nat) (f 32%nat) (f 40%nat) (f 48%nat) (f 56%nat).

(** [ftype] is the byte of [struct s_ftype_t]. *)
Record s_fidx_t : Type := {
  fi_start : Z;
  fi_length : Z;
  fi_esize : Z;
  fi_changed : Z;
  fi_ftype : Z;
}.

Definition fidx_bytes (f : s_fidx_t) : bytes :=
  le 8 (fi_start f) ++ le 4 (fi_length f) ++ le 2 (fi_esize f) ++ le 1 (fi_changed f) ++
  le 1 (fi_ftype f).

(** The members of the type byte: PT, HDR and SEQ. *)
Definition ft_PT (b : Z) : Z := bitfield b 0 4.
Definition ft_HDR (b : Z) : Z := bitfield b 6 1.
Definition ft_SEQ (b : Z) : Z := bitfield b 7 1.
Definition set_PT (b v : Z) : Z := set_bitfield b 0 4 v.
Definition set_HDR (b v : Z) : Z := set_bitfield b 6 1 v.
Definition set_SEQ (b v : Z) : Z := set_bitfield b 7 1 v.

Record s_tidx_t : Type := { start_frame : Z; stop_frame : Z }.
Definition tidx_bytes (x : s_tidx_t) : bytes := le 4 (start_frame x) ++ le 4 (stop_frame x).

Record s_sidx_t : Type := { si_start : Z; si_length : Z }.
Definition sidx_bytes (x : s_sidx_t) : bytes := le 8 (si_start x) ++ le 8 (si_length x).

(** [cur_stream] and [cur_tick]. *)
Record s_stream_t : Type := {
  idx : s_sidx_t;
  str_size : Z;
  cur_size : Z;
  is_event : bool;
  discard : bool;
}.
Definition zero_stream : s_stream_t := Build_s_stream_t (Build_s_sidx_t 0 0) 0 0 false false.

Record s_tick_t : Type := { tidx : s_tidx_t; nframes : Z }.
Definition zero_tick : s_tick_t := Build_s_tick_t (Build_s_tidx_t 0 0) 0.

(** What the client gave; a string is [None] for NULL. *)
Record s_req_t : Type := {
  min_ticks : Z;
  min_events : Z;
  ovrwtmode : Z;
  async : Z;
  capmode : Z;
  basefname : option bytes;
  measurement : option bytes;
}.

Record s_data_t : Type := {
  st : s_stats_t;
  aio : list Aiobuf.s_aiobuf_t;
  filenames : list bytes;
  cur_stream : s_stream_t;
  cur_tick : s_tick_t;
  prev_esize : Z;
  prev_etype : Z;
  req : s_req_t;
  nocapture : bool;
  noconvert : bool;
  nooverwrite : bool;
  hdf5filename : bytes;
  statfilename : bytes;
  statfd : Z;
  recording : bool;
  sys_log : list sys_call;
}.

Section Setters.
Implicit Types d : s_data_t.

Definition set_st d v : s_data_t :=
  Build_s_data_t v (aio d) (filenames d) (cur_stream d) (cur_tick d) (prev_esize d)
    (prev_etype d) (req d) (nocapture d) (noconvert d) (nooverwrite d) (hdf5filename d)
    (statfilename d) (statfd d) (recording d) (sys_log d).
Definition set_aio d v : s_data_t :=
  Build_s_data_t (st d) v (filenames d) (cur_stream d) (cur_tick d) (prev_esize d)
    (prev_etype d) (req d) (nocapture d) (noconvert d) (nooverwrite d) (hdf5filename d) (statfilename d)
    (statfd d) (recording d) (sys_log d).
Definition set_filenames d v : s_data_t :=
  Build_s_data_t (st d) (aio d) v (cur_stream d) (cur_tick d) (prev_esize d) (prev_etype d)
    (req d) (nocapture d) (noconvert d) (nooverwrite d) (hdf5filename d) (statfilename d)
    (statfd d) (recording d) (sys_log d).
Definition set_stream d v : s_data_t :=
  Build_s_data_t (st d) (aio d) (filenames d) v (cur_tick d) (prev_esize d) (prev_etype d)
    (req d) (nocapture d) (noconvert d) (nooverwrite d) (hdf5filename d) (statfilename d)
    (statfd d) (recording d) (sys_log d).
Definition set_tick d v : s_data_t :=
  Build_s_data_t (st d) (aio d) (filenames d) (cur_stream d) v (prev_esize d) (prev_etype d)
    (req d) (nocapture d) (noconvert d) (nooverwrite d) (hdf5filename d) (statfilename d)
    (statfd d) (recording d) (sys_log d).
Definition set_prev d esize etype : s_data_t :=
  Build_s_data_t (st d) (aio d) (filenames d) (cur_stream d) (cur_tick d) esize etype (req d)
    (nocapture d) (noconvert d) (nooverwrite d) (hdf5filename d) (statfilename d) (statfd d)
    (recording d) (sys_log d).
Definition set_req d v : s_data_t :=
  Build_s_data_t (st d) (aio d) (filenames d) (cur_stream d) (cur_tick d) (prev_esize d)
    (prev_etype d) v (nocapture d) (noconvert d) (nooverwrite d) (hdf5filename d)
    (statfilename d) (statfd d) (recording d) (sys_log d).
Definition set_flags d nocap noconv noovrwt : s_data_t :=
  Build_s_data_t (st d) (aio d) (filenames d) (cur_stream d) (cur_tick d) (prev_esize d)
    (prev_etype d) (req d) nocap noconv noovrwt (hdf5filename d) (statfilename d) (statfd d)
    (recording d) (sys_log d).
Definition set_hdf5filename d v : s_data_t :=
  Build_s_data_t (st d) (aio d) (filenames d) (cur_stream d) (cur_tick d) (prev_esize d)
    (prev_etype d) (req d) (nocapture d) (noconvert d) (nooverwrite d) v (statfilename d)
    (statfd d) (recording d) (sys_log d).
Definition set_statfilename d v : s_data_t :=
  Build_s_data_t (st d) (aio d) (filenames d) (cur_stream d) (cur_tick d) (prev_esize d)
    (prev_etype d) (req d) (nocapture d) (noconvert d) (nooverwrite d) (hdf5filename d) v
    (statfd d) (recording d) (sys_log d).
Definition set_statfd d v : s_data_t :=
  Build_s_data_t (st d) (aio d) (filenames d) (cur_stream d) (cur_tick d) (prev_esize d)
    (prev_etype d) (req d) (nocapture d) (noconvert d) (nooverwrite d) (hdf5filename d)
    (statfilename d) v (recording d) (sys_log d).
Definition set_recording d v : s_data_t :=
  Build_s_data_t (st d) (aio d) (filenames d) (cur_stream d) (cur_tick d) (prev_esize d)
    (prev_etype d) (req d) (nocapture d) (noconvert d) (nooverwrite d) (hdf5filename d)
    (statfilename d) (statfd d) v (sys_log d).
Definition set_sys_log d v : s_data_t :=
  Build_s_data_t (st d) (aio d) (filenames d) (cur_stream d) (cur_tick d) (prev_esize d)
    (prev_etype d) (req d) (nocapture d) (noconvert d) (nooverwrite d) (hdf5filename d)
    (statfilename d) (statfd d) (recording d) v.
End Setters.

(** Updates of the statistics. *)
Definition count_frame (s : s_stats_t) (missed : Z) : s_stats_t :=
  Build_s_stats_t (ticks s) (events s) (traces s) (hists s) (to_u64 (frames s + 1))
    (to_u64 (frames_lost s + missed)) (frames_dropped s) (errors s).
Definition count_tick (s : s_stats_t) : s_stats_t :=
  Build_s_stats_t (to_u64 (ticks s + 1)) (events s) (traces s) (hists s) (frames s)
    (frames_lost s) (frames_dropped s) (errors s).
Definition count_events (s : s_stats_t) (n : Z) : s_stats_t :=
  Build_s_stats_t (ticks s) (to_u64 (events s + n)) (traces s) (hists s) (frames s)
    (frames_lost s) (frames_dropped s) (errors s).
Definition count_trace (s : s_stats_t) : s_stats_t :=
  Build_s_stats_t (ticks s) (to_u64 (events s + 1)) (to_u64 (traces s + 1)) (hists s) (frames s)
    (frames_lost s) (frames_dropped s) (errors s).
Definition count_hist (s : s_stats_t) : s_stats_t :=
  Build_s_stats_t (ticks s) (events s) (traces s) (to_u64 (hists s + 1)) (frames s)
    (frames_lost s) (frames_dropped s) (errors s).

Definition set_names_freed (r : s_req_t) : s_req_t :=
  Build_s_req_t (min_ticks r) (min_events r) (ovrwtmode r) (async r) (capmode r) None None.
Definition set_measurement (r : s_req_t) (m : bytes) : s_req_t :=
  Build_s_req_t (min_ticks r) (min_events r) (ovrwtmode r) (async r) (capmode r)
    (basefname r) (Some m).
Definition set_min_ticks (r : s_req_t) (n : Z) : s_req_t :=
  Build_s_req_t n (min_events r) (ovrwtmode r) (async r) (capmode r) (basefname r) (measurement r).

Section Operations.
Context `{CapEnv, ZEnv}.
Implicit Types (d : s_data_t) (t : task s_data_t).

(** A call of a routine that makes system calls. *)
Definition run {A} (m : sysM A) d : exec (A * s_data_t) :=
  let '(r, l) := m (sys_log d) in
  a ← r; mret (a, set_sys_log d l).

(** ** Requests *)

Definition s_is_req_valid d : Z * s_data_t :=
  match basefname (req d) with
  | None => (TES_CAP_REQ_EINV, d)
  | Some _ =>
      match measurement (req d), cap_malloc with
      | None, false => (TES_CAP_REQ_EFAIL, d)
      | m, _ =>
          let d := match m with None => set_req d (set_measurement (req d) []) | Some _ => d end in
          if negb ((ovrwtmode (req d) =? TES_H5_OVRWT_NONE) ||
                   (ovrwtmode (req d) =? TES_H5_OVRWT_RELINK) ||
                   (ovrwtmode (req d) =? TES_H5_OVRWT_FILE))
          then (TES_CAP_REQ_EINV, d)
          else if negb ((capmode (req d) =? TES_CAP_AUTO) || (capmode (req d) =? TES_CAP_CAPONLY) ||
                        (capmode (req d) =? TES_CAP_CONVONLY))
          then (TES_CAP_REQ_EINV, d)
          else
            let d := if negb (min_events (req d) =? 0) && (min_ticks (req d) =? 0)
                     then set_req d (set_min_ticks (req d) 1) else d in
            let nocap := min_ticks (req d) =? 0 in
            let d := set_flags d nocap (noconvert d) (nooverwrite d) in
            if ((capmode (req d) =? TES_CAP_CONVONLY) && negb nocap) ||
               ((capmode (req d) =? TES_CAP_CAPONLY) && nocap)
            then (TES_CAP_REQ_EINV, d)
            else
              let statusonly := nocap && negb (capmode (req d) =? TES_CAP_CONVONLY) in
              let noconv := statusonly || (capmode (req d) =? TES_CAP_CAPONLY) in
              (TES_CAP_REQ_OK,
               set_flags d nocap noconv (ovrwtmode (req d) =? TES_H5_OVRWT_NONE))
      end
  end.

(** The loop over the datasets: the names that were written, the last of them
    cut where it does not fit. *)
Fixpoint build_names (stat : bytes) (ds : list (bytes * bytes)) : Z * list bytes :=
  match ds with
  | [] => (TES_CAP_REQ_OK, [])
  | (_, ext) :: ds =>
      let '(rc, name) := snprintf PATH_MAX (stat ++ lit "." ++ ext) in
      if (rc =? -1) || (PATH_MAX <=? rc) then (TES_CAP_REQ_EFAIL, [name])
      else let '(rc, names) := build_names stat ds in (rc, name :: names)
  end.

Definition s_task_construct_filenames d : exec (Z * s_data_t) :=
  c_assert (Hdf5.not_null (basefname (req d)));;
  c_assert (Hdf5.not_null (measurement (req d)));;
  base ← deref (basefname (req d));
  meas ← deref (measurement (req d));
  let '(rc, tmpfname) :=
    snprintf PATH_MAX (base ++ (if strlen meas =? 0 then [] else lit "-") ++ meas) in
  if (rc =? -1) || (PATH_MAX <=? rc) then mret (TES_CAP_REQ_EFAIL, d)
  else
    '(stat, d) ← run (s_canonicalize_path tmpfname (nocapture d)) d;
    match stat with
    | None => mret (if nocapture d then TES_CAP_REQ_EABORT else TES_CAP_REQ_EPERM, d)
    | Some stat =>
        let d := set_statfilename d stat in
        '(hdf5, d) ←
          (match strchr meas slash with
           | None => run (s_canonicalize_path (snprintf PATH_MAX (base ++ lit ".hdf5")).2 false) d
           | Some _ => mret (None, d)
           end);
        match hdf5 with
        | None => mret (TES_CAP_REQ_EPERM, d)
        | Some hdf5 =>
            let d := set_hdf5filename d hdf5 in
            let '(rc, names) := build_names stat s_dsets in
            mret (rc, set_filenames d (names ++ drop (length names) (filenames d)))
        end
    end.

Fixpoint open_loop (s : nat) (bufs : list Aiobuf.s_aiobuf_t) (excl : bool)
    : exec (Z * list Aiobuf.s_aiobuf_t) :=
  match bufs with
  | [] => mret (0, [])
  | a :: bufs =>
      '(rc, a) ← Aiobuf.s_open_aiobuf (H := cap_aio s) a excl;
      if rc =? -1 then mret (-1, a :: bufs)
      else '(rc, bufs) ← open_loop (S s) bufs excl; mret (rc, a :: bufs)
  end.

Definition s_open d (excl : bool) : exec (Z * s_data_t) :=
  dbg_assert (ticks (st d) =? 0);;
  dbg_assert (events (st d) =? 0);;
  dbg_assert (traces (st d) =? 0);;
  dbg_assert (hists (st d) =? 0);;
  dbg_assert (frames (st d) =? 0);;
  dbg_assert (frames_lost (st d) =? 0);;
  dbg_assert (frames_dropped (st d) =? 0);;
  dbg_assert (errors (st d) =? 0);;
  dbg_assert (str_size (cur_stream d) =? 0);;
  dbg_assert (cur_size (cur_stream d) =? 0);;
  dbg_assert (nframes (cur_tick d) =? 0);;
  '(rc, bufs) ← open_loop 0 (aio d) excl;
  let d := set_aio d bufs in
  if rc =? -1
  then mret (if nooverwrite d then TES_CAP_REQ_EABORT else TES_CAP_REQ_EFAIL, d)
  else mret (TES_CAP_REQ_OK, d).

Definition s_close d : s_data_t := set_aio d (Aiobuf.s_close_aiobuf <$> aio d).

(** The file is unlinked if it is there: an error is -1. *)
Definition unlink_stat d : exec (Z * s_data_t) :=
  run (fok ← sys (SysAccess (statfilename d));
       if fok =? 0 then sys (SysUnlink (statfilename d)) else mret 0) d.

Definition conv_dset (name : bytes) (ds : bytes * bytes) : Hdf5.hdf5_dset_desc_t :=
  Hdf5.Build_hdf5_dset_desc_t (Some ds.1) 0 (-1) (Some name) 0.

Definition s_conv_data d : exec (Z * s_data_t) :=
  let creq := Hdf5.Build_hdf5_conv_req_t (Some (hdf5filename d)) (measurement (req d))
    (Some (zip_with conv_dset (filenames d) s_dsets)) (Z.of_nat NUM_DSETS)
    (ovrwtmode (req d)) (c_true (async (req d))) in
  run (Hdf5.hdf5_conv creq) d.

(** ** Replies and the statistics file *)

Definition free_names d : s_data_t := set_req d (set_names_freed (req d)).

Definition s_send_err t (status : Z) : task s_data_t :=
  let t := emit t (ZsockSend 0 TES_CAP_REP_PIC (ZNum <$> [status; 0; 0; 0; 0; 0; 0; 0])) in
  set_data t (free_names (data t)).

Definition s_stats_read d : exec (Z * s_data_t) :=
  c_assert (Hdf5.not_null (basefname (req d)));;
  dbg_assert (statfd d =? -1);;
  '(fd, d) ← run (sys (SysOpen (statfilename d) false false)) d;
  let d := set_statfd d fd in
  if fd =? -1 then mret (TES_CAP_REQ_EFAIL, d)
  else
    '((rc, bs), d) ← run (sys_read fd STAT_LEN) d;
    let d := set_st d (load_stats (splice (stats_bytes (st d)) 0 (take (Z.to_nat rc) bs))) in
    '(_, d) ← run (sys_ (SysClose fd)) d;
    let d := set_statfd d (-1) in
    mret (if negb (rc =? STAT_LEN) then TES_CAP_REQ_EFAIL else TES_CAP_REQ_OK, d).

Definition s_stats_write d : exec (Z * s_data_t) :=
  c_assert (Hdf5.not_null (basefname (req d)));;
  dbg_assert (statfd d =? -1);;
  '(fd, d) ← run (sys (SysOpen (statfilename d) true true)) d;
  let d := set_statfd d fd in
  if fd =? -1 then mret (TES_CAP_REQ_EFIN, d)
  else
    '(rc, d) ← run (sys (SysWrite fd (stats_bytes (st d)))) d;
    '(_, d) ← run (sys_ (SysClose fd)) d;
    let d := set_statfd d (-1) in
    mret (if negb (rc =? STAT_LEN) then TES_CAP_REQ_EFIN else TES_CAP_REQ_OK, d).

Definition stats_args (s : s_stats_t) : list Z :=
  [ticks s; events s; traces s; hists s; frames s; frames_lost s; frames_dropped s].

Definition s_stats_send t (status : Z) : exec (Z * task s_data_t) :=
  let d := data t in
  c_assert (Hdf5.not_null (basefname (req d)));;
  dbg_assert (statfd d =? -1);;
  let t := emit t (ZsockSend 0 TES_CAP_REP_PIC (ZNum <$> status :: stats_args (st d))) in
  let rc := zsock_send_rc (log t) in
  let d := set_tick (set_stream (set_st d zero_stats) zero_stream) zero_tick in
  let d := set_recording (free_names d) false in
  mret (if c_true rc then TES_CAP_REQ_EFIN else TES_CAP_REQ_OK, set_data t d).

(** ** Frames *)

(** [s_try_queue_aiobuf] on the buffer of dataset [s]. *)
Definition queue (s : nat) (buf : bytes) (len : Z) d : exec (Z * s_data_t) :=
  a ← deref (aio d !! s);
  '(rc, a) ← Aiobuf.s_try_queue_aiobuf (H := cap_aio s) a buf len;
  mret (rc, set_aio d (<[s := a]> (aio d))).

(** [aiodat->size + aiodat->bufzone.waiting + aiodat->bufzone.enqueued] *)
Definition dat_end (s : nat) d : exec Z :=
  a ← deref (aio d !! s);
  mret (to_u64 (Aiobuf.size a + Aiobuf.waiting a + Aiobuf.enqueued a)).

(** The tick index is written at the next tick. *)
Definition on_tick d : exec (bool * s_data_t) :=
  '(jobrc, d) ← (if 0 <? ticks (st d)
                 then queue DSET_TIDX (tidx_bytes (tidx (cur_tick d))) TIDX_LEN d
                 else mret (0, d));
  mret (jobrc <? 0, set_tick d (Build_s_tick_t (tidx (cur_tick d)) 0)).

(** A tick index with the number of one more event frame. *)
Definition tick_frame (c : s_tick_t) (n : Z) : s_tick_t :=
  Build_s_tick_t
    (if nframes c =? 0 then Build_s_tidx_t (to_u32 n) (stop_frame (tidx c))
     else Build_s_tidx_t (start_frame (tidx c)) (to_u32 n))
    (to_u32 (nframes c + 1)).

Definition on_event (pkt : tespkt) (esize : Z) d : Z * Z * s_data_t :=
  let pt := to_u8 (linear_etype (et_PKT (tespkt_etype pkt)) (et_TR (tespkt_etype pkt))) in
  let changed := if (1 <? frames (st d)) &&
                    (negb (prev_etype d =? pt) || negb (prev_esize d =? esize)) then 1 else 0 in
  let d := set_prev d (to_u8 esize) pt in
  (pt, changed, set_tick d (tick_frame (cur_tick d) (frames (st d) - 1))).

(** The data file, PT, [changed] and whether the job is to finish. *)
Definition choose_file (pkt : tespkt) (esize err : Z) d
    : exec (nat * Z * Z * bool * s_data_t) :=
  if c_true err then mret (DSET_BDAT, FTYPE_BAD, 0, false, d)
  else if tespkt_is_mca pkt then mret (DSET_MDAT, FTYPE_MCA, 0, false, d)
  else if tespkt_is_tick pkt then
    '(fin, d) ← on_tick d;
    mret (DSET_TDAT, FTYPE_TICK, 0, fin, d)
  else
    let '(pt, changed, d) := on_event pkt esize d in
    mret (DSET_EDAT, pt, changed, false, d).

(** [cur_stream] without data. *)
Definition no_stream (c : s_stream_t) (disc : bool) : s_stream_t :=
  Build_s_stream_t (idx c) 0 0 (is_event c) disc.

(** A frame that starts or continues a stream: the index is queued with the
    last one. *)
Definition stream_frame (is_trace : bool) (paylen : Z) d : exec (bool * s_data_t) :=
  let c := cur_stream d in
  let cur := to_u64 (cur_size c + paylen) in
  if str_size c <? cur then mret (false, set_stream d (no_stream c true))
  else if cur =? str_size c then
    let s := if is_trace then DSET_RIDX else DSET_MIDX in
    let d := set_st d (if is_trace then count_trace (st d) else count_hist (st d)) in
    let x := Build_s_sidx_t (si_start (idx c)) (str_size c) in
    let d := set_stream d (Build_s_stream_t x 0 0 (is_event c) (discard c)) in
    '(jobrc, d) ← queue s (sidx_bytes x) SIDX_LEN d;
    mret (jobrc <? 0, d)
  else
    mret (false, set_stream d (Build_s_stream_t (idx c) (str_size c) cur (is_event c) (discard c))).

(** The statistics and the stream index, for a frame without errors whose data
    file is [s]: whether to finish, and whether HDR is set. *)
Definition update_stream (pkt : tespkt) (s : nat) (paylen missed : Z) d
    : exec (bool * bool * s_data_t) :=
  let is_header := tespkt_is_header pkt in
  let is_mca := tespkt_is_mca pkt in
  let is_trace := tespkt_is_trace_long pkt in
  let is_tick := tespkt_is_tick pkt in
  let c := cur_stream d in
  (if 0 <? str_size c then
     dbg_assert (0 <? cur_size c);;
     dbg_assert (cur_size c <? str_size c);;
     dbg_assert (negb (discard c))
   else dbg_assert (cur_size c =? 0));;
  let continues_stream := ((is_trace && is_event c) || (is_mca && negb (is_event c))) &&
    (0 <? str_size c) && negb is_header && (missed =? 0) in
  let starts_stream := (is_trace || is_mca) && is_header && (str_size c =? 0) in
  let interrupts_stream := negb continues_stream && (0 <? str_size c) in
  d ← (if interrupts_stream then
         dbg_assert (is_header || (0 <? missed) || (is_trace && negb (is_event c)) ||
                     (is_mca && is_event c) || (negb is_trace && negb is_mca));;
         mret (set_stream d (no_stream c true))
       else mret d);
  if starts_stream || continues_stream then
    d ← (if starts_stream then
           start ← dat_end s d;
           mret (set_stream d (Build_s_stream_t
             (Build_s_sidx_t start (si_length (idx (cur_stream d))))
             (if is_trace then tespkt_trace_size pkt else tespkt_mca_size pkt)
             (cur_size (cur_stream d)) is_trace false))
         else
           dbg_assert (negb (discard (cur_stream d)) && (missed =? 0));;
           mret d);
    '(fin, d) ← stream_frame is_trace paylen d;
    mret (fin, starts_stream, d)
  else if is_mca || is_trace then
    (if negb interrupts_stream then
       dbg_assert (negb is_header);;
       dbg_assert (str_size (cur_stream d) =? 0)
     else mret tt);;
    mret (false, false, if interrupts_stream then d else set_stream d
      (Build_s_stream_t (idx (cur_stream d)) (str_size (cur_stream d)) (cur_size (cur_stream d))
        (is_event (cur_stream d)) true))
  else if is_tick then
    let d := set_st d (count_tick (st d)) in
    mret ((min_ticks (req d) <? ticks (st d)) && (min_events (req d) <=? events (st d)), false, d)
  else
    n ← tespkt_event_nums pkt;
    mret (false, false, set_st d (count_events (st d) n)).

Fixpoint flush_loop (s : nat) (bufs : list Aiobuf.s_aiobuf_t) : exec (list Aiobuf.s_aiobuf_t) :=
  match bufs with
  | [] => mret []
  | a :: bufs =>
      a ← Aiobuf.flush_loop (H := cap_aio s) (aio_retries (AioEnv := cap_aio s)) a;
      bufs ← flush_loop (S s) bufs;
      mret (a :: bufs)
  end.

Definition s_flush d : exec s_data_t :=
  bufs ← flush_loop 0 (aio d);
  mret (set_aio d bufs).

(** The end of a job. *)
Definition finish_job t : exec (Z * task s_data_t) :=
  d ← s_flush (data t);
  let d := s_close d in
  let status := if (ticks (st d) <? min_ticks (req d)) || (events (st d) <? min_events (req d))
                then TES_CAP_REQ_EWRT else TES_CAP_REQ_OK in
  '(rc, d) ← s_stats_write d;
  let status := if status =? TES_CAP_REQ_OK then to_u8 rc else status in
  '(status, d) ←
    (if (status =? TES_CAP_REQ_OK) && negb (noconvert d)
     then '(rc, d) ← s_conv_data d; mret (to_u8 rc, d)
     else mret (status, d));
  '(_, t) ← s_stats_send (set_data t d) status;
  mret (TASK_SLEEP, t).

(** The type byte of the index entry. *)
Definition frame_ftype (n missed pt : Z) (hdr : bool) : Z :=
  let ft := set_SEQ (cap_stack n) 0 in
  let ft := if 0 <? missed then set_SEQ ft 1 else ft in
  let ft := set_PT ft pt in
  if hdr then set_HDR ft 1 else ft.

(** What the handler does with a frame of a job that is being recorded: whether
    the job is to finish. *)
Definition save_frame (pkt : tespkt) (flen missed err : Z) d : exec (bool * s_data_t) :=
  let d := set_st d (count_frame (st d) missed) in
  let esize := ftohs (tespkt_esize pkt) in
  let paylen := to_u16 (flen - TESPKT_HDR_LEN) in
  '(s, pt, changed, fin1, d) ← choose_file pkt esize err d;
  start ← dat_end s d;
  '(fin2, hdr, d) ←
    (if c_true err then mret (false, false, d) else update_stream pkt s paylen missed d);
  let fidx := Build_s_fidx_t start paylen esize changed
    (frame_ftype (frames (st d)) missed pt hdr) in
  '(jobrc1, d) ← queue s (drop (Z.to_nat TESPKT_HDR_LEN) pkt) paylen d;
  '(jobrc2, d) ← queue DSET_FIDX (fidx_bytes fidx) FIDX_LEN d;
  fend ← dat_end DSET_FIDX d;
  dbg_assert (to_u64 (frames (st d) * FIDX_LEN) =? fend);;
  mret (fin1 || fin2 || (jobrc1 <? 0) || (jobrc2 <? 0), d).

Definition task_cap_pkt_hn t (pkt : tespkt) (flen missed err : Z) : exec (Z * task s_data_t) :=
  let d := data t in
  let d := if negb (recording d) && tespkt_is_tick pkt then set_recording d true else d in
  if negb (recording d) then mret (0, set_data t d)
  else
    '(finishing, d) ← save_frame pkt flen missed err d;
    if (finishing : bool) then finish_job (set_data t d) else mret (0, set_data t d).

(** ** The task *)

#[export] Instance cap_impl : TaskImpl s_data_t := {|
  pkt_handler := task_cap_pkt_hn; data_wakeup := None; data_sleep := None |}.

Definition task_cap_req_hn (ifd : tes_ifdesc) t (msg : s_req_t) : exec (Z * task s_data_t) :=
  dbg_assert (negb (recording (data t)));;
  let '(rc, d) := s_is_req_valid (set_req (data t) msg) in
  let t := set_data t d in
  if negb (rc =? TES_CAP_REQ_OK) then mret (0, s_send_err t rc)
  else
    '(rc, d) ← s_task_construct_filenames d;
    let t := set_data t d in
    if negb (rc =? TES_CAP_REQ_OK) then mret (0, s_send_err t rc)
    else if nocapture d then
      '(rc, d) ← (if negb (noconvert d) then s_conv_data d else mret (TES_CAP_REQ_OK, d));
      let t := set_data t d in
      if negb (rc =? TES_CAP_REQ_OK) then mret (0, s_send_err t rc)
      else
        '(rc, d) ← s_stats_read d;
        let t := set_data t d in
        if negb (rc =? TES_CAP_REQ_OK) then mret (0, s_send_err t rc)
        else '(_, t) ← s_stats_send t TES_CAP_REQ_OK; mret (0, t)
    else
      '(rc, d) ← s_open d (nooverwrite d);
      let t := set_data t d in
      if negb (rc =? TES_CAP_REQ_OK) then
        let t := s_send_err t rc in mret (0, set_data t (s_close (data t)))
      else
        '(rc, d) ← unlink_stat d;
        let t := set_data t d in
        if rc =? -1 then
          let t := s_send_err t TES_CAP_REQ_EFAIL in mret (0, set_data t (s_close (data t)))
        else '(_, t) ← task_activate ifd t; mret (0, t).

Fixpoint init_loop (s : nat) (bufs : list Aiobuf.s_aiobuf_t) : Z * list Aiobuf.s_aiobuf_t :=
  match bufs with
  | [] => (0, [])
  | a :: bufs =>
      let '(rc, a) := Aiobuf.s_init_aiobuf (H := cap_aio s) a in
      if negb (rc =? 0) then (rc, a :: bufs)
      else let '(rc, bufs) := init_loop (S s) bufs in (rc, a :: bufs)
  end.

(** The static structure, all zeros, before it is initialized. *)
Definition zero_aiobuf : Aiobuf.s_aiobuf_t := Aiobuf.Build_s_aiobuf_t 0 0 0 0 [] 0 0 0 0 0 [].
Definition zero_data : s_data_t :=
  Build_s_data_t zero_stats (replicate NUM_DSETS zero_aiobuf) (replicate NUM_DSETS [])
    zero_stream zero_tick 0 0 (Build_s_req_t 0 0 0 0 0 None None) false false false [] [] 0 false [].

(** The sizes of the index structs. *)
Definition check_sizes : exec unit :=
  c_assert (bool_decide (list.last DATAROOT = Some slash));;
  c_assert (Z.of_nat (length (stats_bytes zero_stats)) =? STAT_LEN);;
  c_assert (Z.of_nat (length (fidx_bytes (Build_s_fidx_t 0 0 0 0 0))) =? FIDX_LEN);;
  c_assert (Z.of_nat (length (tidx_bytes (Build_s_tidx_t 0 0))) =? TIDX_LEN);;
  c_assert (Z.of_nat (length (sidx_bytes (Build_s_sidx_t 0 0))) =? SIDX_LEN);;
  c_assert (Nat.eqb (length s_dsets) NUM_DSETS).

(** The data of the task, [None] when it cannot be initialized. *)
Definition task_cap_init : exec (Z * option s_data_t) :=
  check_sizes;;
  let d := set_statfd zero_data (-1) in
  let '(rc, bufs) := init_loop 0 (aio d) in
  mret (if negb (rc =? 0) then (-1, None) else (0, Some (set_aio d bufs))).

(** The end of the task: an unfinished job is ended, then the buffers are
    unmapped. *)
Definition end_job t : exec (Z * task s_data_t) :=
  let d := data t in
  if Hdf5.not_null (basefname (req d)) then
    d ← s_flush d;
    let d := s_close d in
    '(rc1, d) ← s_stats_write d;
    '(rc2, t) ← s_stats_send (set_data t d) TES_CAP_REQ_EWRT;
    mret (if c_true (Z.lor rc1 rc2) then -1 else 0, t)
  else mret (0, t).

Definition task_cap_fin t : exec (Z * task s_data_t) :=
  '(rc, t) ← end_job t;
  mret (rc, set_data t (set_aio (data t) (Aiobuf.s_fin_aiobuf <$> aio (data t)))).
End Operations.
End Cap.
