(* ===== verification/CaptureTheory.v ===== *)
(** * What the capture task writes

    The frames of a job determine the contents of its files: [stream] gives
    them as a function of the history, the frame that came last first.  The
    packet handler refines it, whatever the services of the buffers do; the
    files can be read back through the indices. *)

From Stdlib Require Import ZArith Lia Strings.String Strings.Byte.
From stdpp Require Import base option list numbers decidable sets.
From S2P Require Import Prelude Sys Path Hdf5 Tespkt Tesif Task Aiobuf Capture.

Open Scope Z_scope.

Module CapSpec.
Import Cap.

(** ** Frames and history *)

Record frame : Type := Frame {
  f_pkt : tespkt;
  f_len : Z;
  f_missed : Z;
  f_err : Z;
}.

(** What the dispatcher hands over: the length is checked against the slot, and
    a frame without error flags is valid.  Frames without a payload are left
    out: the handler stops at an assertion on them. *)
Record frame_ok (f : frame) : Prop := {
  fo_len : TESPKT_HDR_LEN < f_len f <= TESPKT_MTU;
  fo_buf : f_len f <= Z.of_nat (length (f_pkt f));
  fo_missed : is_u16 (f_missed f);
  fo_valid : f_err f = 0 -> valid_frame (f_pkt f) /\ f_len f = tespkt_flen (f_pkt f);
}.

Definition bad (f : frame) : bool := c_true (f_err f).
Definition paylen (f : frame) : Z := f_len f - TESPKT_HDR_LEN.
Definition payload (f : frame) : bytes :=
  take (Z.to_nat (paylen f)) (drop (Z.to_nat TESPKT_HDR_LEN) (f_pkt f)).

Definition is_mca (f : frame) : bool := tespkt_is_mca (f_pkt f).
Definition is_tick (f : frame) : bool := tespkt_is_tick (f_pkt f).
Definition is_trace (f : frame) : bool := tespkt_is_trace_long (f_pkt f).
Definition is_header (f : frame) : bool := tespkt_is_header (f_pkt f).

Definition dset_of (f : frame) : nat :=
  if bad f then DSET_BDAT else if is_mca f then DSET_MDAT
  else if is_tick f then DSET_TDAT else DSET_EDAT.

(** The payloads in data file [s]. *)
Fixpoint data_stream (s : nat) (past : list frame) : bytes :=
  match past with
  | [] => []
  | f :: past => data_stream s past ++ (if decide (dset_of f = s) then payload f else [])
  end.
Definition offset (s : nat) (past : list frame) : Z := Z.of_nat (length (data_stream s past)).

(** ** Histograms and traces *)

(** One that is being received: whether it is a trace, where it starts in the
    data file, its size and how much of it is there. *)
Record ongoing : Type := Ongoing {
  og_trace : bool;
  og_start : Z;
  og_size : Z;
  og_got : Z;
}.

(** With [n] more bytes: too many give it up, and the last ones complete it. *)
Definition collect (g : ongoing) (n : Z) : option ongoing * option (bool * s_sidx_t) :=
  let got := og_got g + n in
  if og_size g <? got then (None, None)
  else if got =? og_size g then (None, Some (og_trace g, Build_s_sidx_t (og_start g) (og_size g)))
  else (Some (Ongoing (og_trace g) (og_start g) (og_size g) got), None).

Definition continues (g : ongoing) (f : frame) : bool :=
  (if og_trace g then is_trace f else is_mca f) && negb (is_header f) && (f_missed f =? 0).

Definition size_of (f : frame) : Z :=
  if is_trace f then tespkt_trace_size (f_pkt f) else tespkt_mca_size (f_pkt f).

Definition starts (o : option ongoing) (f : frame) : bool :=
  negb (bad f) && (is_trace f || is_mca f) && is_header f && bool_decide (o = None).

Definition follow (o : option ongoing) (past : list frame) (f : frame)
    : option ongoing * option (bool * s_sidx_t) :=
  if bad f then (o, None)
  else match o with
       | Some g => if continues g f then collect g (paylen f) else (None, None)
       | None =>
           if starts o f
           then collect (Ongoing (is_trace f) (offset (dset_of f) past) (size_of f) 0) (paylen f)
           else (None, None)
       end.

Fixpoint stream_of (past : list frame) : option ongoing :=
  match past with [] => None | f :: past => (follow (stream_of past) past f).1 end.

(** The index entry that a frame completes. *)
Definition entry (past : list frame) (f : frame) : option (bool * s_sidx_t) :=
  (follow (stream_of past) past f).2.

Fixpoint entries (tr : bool) (past : list frame) : list s_sidx_t :=
  match past with
  | [] => []
  | f :: past => entries tr past ++
      match entry past f with
      | Some (tr', x) => if bool_decide (tr = tr') then [x] else []
      | None => []
      end
  end.
Definition sidx_stream (tr : bool) (past : list frame) : bytes := concat (sidx_bytes <$> entries tr past).

(** ** Ticks and counts *)

Definition good_tick (f : frame) : bool := negb (bad f) && is_tick f.

Fixpoint n_ticks (past : list frame) : Z :=
  match past with [] => 0 | f :: past => n_ticks past + (if good_tick f then 1 else 0) end.

(** Events: those of short frames, and the traces that are complete. *)
Definition events_of (past : list frame) (f : frame) : Z :=
  if bad f then 0
  else match entry past f with
       | Some (true, _) => 1
       | Some (false, _) => 0
       | None =>
           if is_mca f || is_trace f || is_tick f then 0
           else match tespkt_event_nums (f_pkt f) with Done n => n | Failed _ => 0 end
       end.
Fixpoint n_events (past : list frame) : Z :=
  match past with [] => 0 | f :: past => n_events past + events_of past f end.
Fixpoint n_lost (past : list frame) : Z :=
  match past with [] => 0 | f :: past => n_lost past + f_missed f end.

Definition stats (past : list frame) : s_stats_t :=
  Build_s_stats_t (to_u64 (n_ticks past)) (to_u64 (n_events past))
    (to_u64 (Z.of_nat (length (entries true past)))) (to_u64 (Z.of_nat (length (entries false past))))
    (to_u64 (Z.of_nat (length past))) (to_u64 (n_lost past)) 0 0.

(** The frame numbers of the events since the last tick. *)
Fixpoint tick_of (past : list frame) : s_tick_t :=
  match past with
  | [] => zero_tick
  | f :: past =>
      let c := tick_of past in
      if bad f || is_mca f then c
      else if is_tick f then Build_s_tick_t (tidx c) 0
      else tick_frame c (Z.of_nat (length past))
  end.

Fixpoint tidx_stream (past : list frame) : bytes :=
  match past with
  | [] => []
  | f :: past => tidx_stream past ++
      (if good_tick f && (0 <? n_ticks past) then tidx_bytes (tidx (tick_of past)) else [])
  end.

(** ** The frame index *)

Definition ptype (f : frame) : Z :=
  if bad f then FTYPE_BAD else if is_mca f then FTYPE_MCA else if is_tick f then FTYPE_TICK
  else linear_etype (et_PKT (tespkt_etype (f_pkt f))) (et_TR (tespkt_etype (f_pkt f))).
Definition is_event_frame (f : frame) : bool := negb (bad f || is_mca f || is_tick f).

(** Event size and type of the last event frame, those of the job before at the
    start. *)
Fixpoint prev_of (p0 : Z * Z) (past : list frame) : Z * Z :=
  match past with
  | [] => p0
  | f :: past => if is_event_frame f then (to_u8 (tespkt_esize (f_pkt f)), ptype f) else prev_of p0 past
  end.

Definition changed (p0 : Z * Z) (past : list frame) (f : frame) : Z :=
  if is_event_frame f && (0 <? Z.of_nat (length past)) &&
     (negb ((prev_of p0 past).2 =? ptype f) || negb ((prev_of p0 past).1 =? tespkt_esize (f_pkt f)))
  then 1 else 0.

Section Files.
Context `{CapEnv}.

Definition fidx (p0 : Z * Z) (past : list frame) (f : frame) : s_fidx_t :=
  Build_s_fidx_t (offset (dset_of f) past) (paylen f) (tespkt_esize (f_pkt f)) (changed p0 past f)
    (frame_ftype (Z.of_nat (length past) + 1) (f_missed f) (ptype f) (starts (stream_of past) f)).

Fixpoint fidx_stream (p0 : Z * Z) (past : list frame) : bytes :=
  match past with [] => [] | f :: past => fidx_stream p0 past ++ fidx_bytes (fidx p0 past f) end.

(** The contents of the file of each dataset. *)
Definition stream (p0 : Z * Z) (s : nat) (past : list frame) : bytes :=
  match s with
  | 0%nat => fidx_stream p0 past
  | 1%nat => sidx_stream false past
  | 2%nat => tidx_stream past
  | 3%nat => sidx_stream true past
  | _ => data_stream s past
  end.

(** When a job with the given minima is complete. *)
Definition complete (mt me : Z) (past : list frame) : bool :=
  match past with
  | [] => false
  | f :: _ => good_tick f && (mt <? n_ticks past) && (me <=? to_u64 (n_events past))
  end.
End Files.

(** ** Bytes *)

Lemma length_le n z : length (le n z) = n.
Proof. revert z. induction n as [|n IH]; intros z; simpl; [done|by rewrite IH]. Qed.

Lemma unle_le n z : unle (le n z) = z mod 256 ^ Z.of_nat n.
Proof.
  revert z. induction n as [|n IH]; intros z; cbn [le unle]; [by rewrite Z.mod_1_r|].
  rewrite Z_of_byte_of_Z, IH, Nat2Z.inj_succ, Z.pow_succ_r by lia. unfold to_u8.
  change (2 ^ 8) with 256. rewrite Z.rem_mul_r by lia. done.
Qed.

Lemma length_fidx x : length (fidx_bytes x) = 16%nat.
Proof. unfold fidx_bytes. by rewrite !length_app, !length_le. Qed.
Lemma length_tidx x : length (tidx_bytes x) = 8%nat.
Proof. unfold tidx_bytes. by rewrite !length_app, !length_le. Qed.
Lemma length_sidx x : length (sidx_bytes x) = 16%nat.
Proof. unfold sidx_bytes. by rewrite !length_app, !length_le. Qed.

Lemma to_u64_add a b : to_u64 (to_u64 a + b) = to_u64 (a + b).
Proof. unfold to_u64. by rewrite Zplus_mod_idemp_l. Qed.

Lemma paylen_range f : frame_ok f -> 0 < paylen f <= 1472.
Proof. intros []. unfold paylen, TESPKT_HDR_LEN, TESPKT_MTU in *. lia. Qed.

Lemma length_f_payload f : frame_ok f -> Z.of_nat (length (payload f)) = paylen f.
Proof.
  intros Hf. pose proof (paylen_range f Hf). destruct Hf. unfold payload, paylen in *.
  rewrite length_take, length_drop. unfold TESPKT_HDR_LEN in *. lia.
Qed.

Section Refinement.
Context `{CapEnv, ZEnv}.
Implicit Types (d : s_data_t) (past : list frame).

Class CapLaws : Prop := cap_laws : forall s, Aiobuf.AioLaws (H := cap_aio s).
#[local] Existing Instance cap_laws.

(** Every service completes what it accepts. *)
Definition cap_good : Prop := forall s, Aiobuf.aio_good (H := cap_aio s).

(** [Q] holds of the result; there is one if the services are good. *)
Definition wpc {A} (m : exec A) (Q : A -> Prop) : Prop :=
  match m with Done x => Q x | Failed AssertFail | Failed NoFuel => ~ cap_good | Failed _ => False end.

Lemma wpc_bind {A B} (m : exec A) (k : A -> exec B) Q :
  wpc m (fun a => wpc (k a) Q) -> wpc (m ≫= k) Q.
Proof. destruct m; done. Qed.
Lemma wpc_mono {A} (m : exec A) (P Q : A -> Prop) :
  wpc m P -> (forall a, P a -> Q a) -> wpc m Q.
Proof. destruct m as [|[]]; simpl; auto. Qed.
Lemma wpc_seq {A B} (m : exec A) (k : A -> exec B) P Q :
  wpc m P -> (forall a, P a -> wpc (k a) Q) -> wpc (m ≫= k) Q.
Proof. intros Hm Hk. apply wpc_bind. by eapply wpc_mono. Qed.
Lemma wpc_assert {B} (b : bool) (k : unit -> exec B) Q :
  b = true -> wpc (k tt) Q -> wpc (dbg_assert b ≫= k) Q.
Proof. by intros ->. Qed.
Lemma wpc_ret {A} (a : A) (Q : A -> Prop) : Q a -> wpc (mret a) Q.
Proof. done. Qed.

(** ** The buffers hold the files *)

Record files d (S : nat -> bytes) : Prop := {
  fs_len : length (aio d) = NUM_DSETS;
  fs_ok : forall s a, aio d !! s = Some a -> Aiobuf.aio_ok a (S s);
}.

Definition append (S : nat -> bytes) (s : nat) (bs : bytes) : nat -> bytes :=
  fun s' => if decide (s' = s) then S s ++ bs else S s'.

Lemma append_same S s bs : append S s bs s = S s ++ bs.
Proof. unfold append. by rewrite decide_True. Qed.
Lemma append_other S s s' bs : s' <> s -> append S s bs s' = S s'.
Proof. intros. unfold append. by rewrite decide_False. Qed.

Lemma files_ext d S S' : (forall s, (s < NUM_DSETS)%nat -> S s = S' s) -> files d S -> files d S'.
Proof.
  intros HS [Hl Hf]. split; [done|]. intros s a Ha. rewrite <- HS; [by apply Hf|].
  rewrite <- Hl. by eapply lookup_lt_Some.
Qed.

Lemma dat_end_ok d S s :
  files d S -> (s < NUM_DSETS)%nat -> dat_end s d = Done (Z.of_nat (length (S s))).
Proof.
  intros [Hl Hf] Hs. unfold dat_end. destruct (lookup_lt_is_Some_2 (aio d) s) as [a Ha]; [lia|].
  rewrite Ha. cbn [deref mbind exec_bind mret exec_ret]. f_equal.
  destruct (Aiobuf.zo_geo _ _ (Aiobuf.ao_zone _ _ (Hf s a Ha))).
  rewrite to_u64_id; [lia|unfold is_u64; lia].
Qed.

(** The same data but for the buffers. *)
Definition queued (d : s_data_t) (S : nat -> bytes) (rc : Z) (d' : s_data_t) : Prop :=
  d' = set_aio d (aio d') /\ files d' S /\ (cap_good -> (rc <? 0) = false).

Lemma queue_ok `{!CapLaws} s buf len d S :
  files d S -> (s < NUM_DSETS)%nat -> 0 < len <= TESPKT_MTU -> len <= Z.of_nat (length buf) ->
  Z.of_nat (length (S s)) + len < 2 ^ 63 ->
  wpc (queue s buf len d) (fun '(rc, d') =>
    queued d (append S s (take (Z.to_nat len) buf)) rc d').
Proof.
  intros [Hl Hf] Hs Hlen Hb Hsm. unfold queue.
  destruct (lookup_lt_is_Some_2 (aio d) s) as [a Ha]; [lia|]. rewrite Ha.
  cbn [deref mbind exec_bind].
  pose proof (Aiobuf.s_try_queue_aiobuf_ok (H := cap_aio s) a (S s) buf len (Hf s a Ha) Hlen Hb Hsm)
    as Hq.
  destruct (Aiobuf.s_try_queue_aiobuf (H := cap_aio s) a buf len) as [[rc a']|[]];
    cbn [exec_bind mret exec_ret wpc Aiobuf.added] in *; try done.
  - destruct Hq as (Hok & _ & _ & Hg). split; [done|]. split.
    + split; [by cbn [aio set_aio]; rewrite length_insert|]. cbn [aio set_aio].
      intros s' a0 Ha'. destruct (decide (s' = s)) as [->|Hne].
      * rewrite list_lookup_insert_eq in Ha' by (by eapply lookup_lt_Some).
        injection Ha' as <-. by rewrite append_same.
      * rewrite list_lookup_insert_ne in Ha' by done. rewrite append_other by done. by apply Hf.
    + intros Hgood. specialize (Hg (Hgood s)). lia.
  - destruct Hq as [Hq _]. intros Hgood. apply Hq, (Hgood s).
  - intros Hgood. apply Hq, (Hgood s).
Qed.

(** What saving a frame leaves alone. *)
Record same_job (d d' : s_data_t) : Prop := {
  sj_filenames : filenames d' = filenames d;
  sj_req : req d' = req d;
  sj_nocapture : nocapture d' = nocapture d;
  sj_noconvert : noconvert d' = noconvert d;
  sj_nooverwrite : nooverwrite d' = nooverwrite d;
  sj_hdf5 : hdf5filename d' = hdf5filename d;
  sj_stat : statfilename d' = statfilename d;
  sj_statfd : statfd d' = statfd d;
  sj_recording : recording d' = recording d;
  sj_log : sys_log d' = sys_log d;
}.

Lemma cap_job_trans d1 d2 d3 : same_job d1 d2 -> same_job d2 d3 -> same_job d1 d3.
Proof. intros [] []. split; congruence. Qed.

Lemma same_job_queued d S rc d' : queued d S rc d' -> same_job d d'.
Proof. intros (-> & _). by split. Qed.

(** The stream that is being received, as the code keeps it. *)
Definition stream_rel (c : s_stream_t) (o : option ongoing) : Prop :=
  match o with
  | None => str_size c = 0 /\ cur_size c = 0
  | Some g => str_size c = og_size g /\ cur_size c = og_got g /\ is_event c = og_trace g /\
      si_start (idx c) = og_start g /\ discard c = false /\ 0 < og_got g < og_size g /\
      og_size g < 2 ^ 32
  end.

Record cap_inv (p0 : Z * Z) past d : Prop := {
  ci_files : files d (fun s => stream p0 s past);
  ci_st : st d = stats past;
  ci_stream : stream_rel (cur_stream d) (stream_of past);
  ci_tick : cur_tick d = tick_of past;
  ci_prev : (prev_esize d, prev_etype d) = prev_of p0 past;
}.

(** Another frame fits in every file. *)
Definition small (p0 : Z * Z) past : Prop :=
  forall s, (s < NUM_DSETS)%nat -> Z.of_nat (length (stream p0 s past)) + TESPKT_MTU < 2 ^ 63.

Lemma length_fidx_stream p0 past : length (fidx_stream p0 past) = (16 * length past)%nat.
Proof. induction past as [|f past IH]; simpl; [done|]. rewrite length_app, IH, length_fidx. lia. Qed.

Lemma small_frames p0 past : small p0 past -> Z.of_nat (length past) < 2 ^ 59.
Proof.
  intros Hs. specialize (Hs 0%nat ltac:(unfold NUM_DSETS; lia)). cbn [stream] in Hs.
  rewrite length_fidx_stream in Hs. unfold TESPKT_MTU in Hs. lia.
Qed.

Lemma n_ticks_range past : 0 <= n_ticks past <= Z.of_nat (length past).
Proof.
  induction past as [|f past IH]; [done|]. cbn [n_ticks length]. destruct (good_tick f); lia.
Qed.

Lemma linear_etype_range pkt : 0 <= linear_etype (et_PKT (tespkt_etype pkt)) (et_TR (tespkt_etype pkt)) <= 6.
Proof.
  pose proof (et_PKT_range pkt). pose proof (et_TR_range pkt). unfold linear_etype, TESPKT_TYPE_TRACE.
  destruct (Z.eqb_spec (et_PKT (tespkt_etype pkt)) 3); lia.
Qed.

(** ** Choosing the file *)

(** The tick index that a frame completes. *)
Definition tick_entry past (f : frame) : bytes :=
  if good_tick f && (0 <? n_ticks past) then tidx_bytes (tidx (tick_of past)) else [].

Lemma on_tick_ok `{!CapLaws} p0 past f d S :
  files d S -> small p0 past -> S 2%nat = tidx_stream past -> good_tick f = true ->
  ticks (st d) = to_u64 (n_ticks past) -> cur_tick d = tick_of past ->
  wpc (on_tick d) (fun '(fin, d') =>
    (cap_good -> fin = false) /\ files d' (append S DSET_TIDX (tick_entry past f)) /\
    st d' = st d /\ cur_stream d' = cur_stream d /\
    cur_tick d' = Build_s_tick_t (tidx (tick_of past)) 0 /\
    prev_esize d' = prev_esize d /\ prev_etype d' = prev_etype d /\ same_job d d').
Proof.
  intros Hf Hs HS Hg Ht Hc. unfold on_tick, tick_entry. rewrite Hg, Ht, Hc. cbn [andb].
  pose proof (n_ticks_range past) as Hn. pose proof (small_frames p0 past Hs) as Hl.
  rewrite to_u64_id by (unfold is_u64; lia).
  destruct (0 <? n_ticks past).
  - eapply wpc_seq.
    + apply (queue_ok DSET_TIDX _ TIDX_LEN d S Hf); [unfold NUM_DSETS, DSET_TIDX; lia|done| |].
      * by rewrite length_tidx.
      * change (S DSET_TIDX) with (S 2%nat). rewrite HS. specialize (Hs 2%nat ltac:(unfold NUM_DSETS; lia)). cbn [stream] in Hs.
        unfold TESPKT_MTU, TIDX_LEN in *. lia.
    + intros [rc d'] (-> & Hf' & Hrc). apply wpc_ret.
      replace (take (Z.to_nat TIDX_LEN) (tidx_bytes (tidx (tick_of past))))
        with (tidx_bytes (tidx (tick_of past))) in Hf'
        by (rewrite take_ge by (rewrite length_tidx; unfold TIDX_LEN; lia); done).
      cbn [cur_tick set_aio]. rewrite Hc. split; [done|]. split; [by destruct Hf'|]. done.
  - apply wpc_ret. rewrite Hc. split; [done|]. split; [|done]. apply files_ext with S; [|by destruct Hf].
    intros s _. unfold append. destruct (decide _) as [->|]; [by rewrite app_nil_r|done].
Qed.

(** The handler's frame, as the dispatcher passes it. *)
Definition esize_of (f : frame) : Z := tespkt_esize (f_pkt f).

Record chosen (p0 : Z * Z) past (f : frame) (d : s_data_t) (s : nat) (pt ch : Z) (fin : bool)
    (d' : s_data_t) : Prop := {
  ch_dset : s = dset_of f;
  ch_pt : pt = ptype f;
  ch_changed : ch = changed p0 past f;
  ch_fin : cap_good -> fin = false;
  ch_files : files d' (append (fun s => stream p0 s past) DSET_TIDX (tick_entry past f));
  ch_st : st d' = st d;
  ch_stream : cur_stream d' = cur_stream d;
  ch_tick : cur_tick d' = tick_of (f :: past);
  ch_prev : (prev_esize d', prev_etype d') = prev_of p0 (f :: past);
  ch_job : same_job d d';
}.

Lemma files_append_nil d S s : files d S -> files d (append S s []).
Proof.
  intros Hf. apply files_ext with S; [|done]. intros s' _. unfold append.
  destruct (decide _) as [->|]; [by rewrite app_nil_r|done].
Qed.

Lemma tick_entry_nil past f : good_tick f = false -> tick_entry past f = [].
Proof. intros E. unfold tick_entry. by rewrite E. Qed.

Lemma is_tick_not_mca f : is_mca f = true -> is_tick f = false.
Proof.
  intros Hm. apply not_true_is_false. intros Ht. unfold is_mca, is_tick in *.
  apply is_tick_event, is_event_not_mca in Ht. congruence.
Qed.

Lemma choose_file_ok `{!CapLaws} p0 past f d :
  small p0 past -> files d (fun s => stream p0 s past) ->
  ticks (st d) = to_u64 (n_ticks past) -> frames (st d) = Z.of_nat (length past) + 1 ->
  cur_tick d = tick_of past -> (prev_esize d, prev_etype d) = prev_of p0 past ->
  wpc (choose_file (f_pkt f) (esize_of f) (f_err f) d) (fun '(s, pt, ch, fin, d') =>
    chosen p0 past f d s pt ch fin d').
Proof.
  intros Hs Hf Ht Hfr Hc Hp. unfold choose_file.
  fold (bad f). fold (is_mca f). fold (is_tick f).
  destruct (bad f) eqn:Eb.
  { apply wpc_ret. split; unfold dset_of, ptype, changed, is_event_frame;
      cbn [tick_of prev_of]; unfold is_event_frame; rewrite ?Eb; try done.
    rewrite tick_entry_nil; [by apply files_append_nil|]. unfold good_tick. by rewrite Eb. }
  destruct (is_mca f) eqn:Em.
  { apply wpc_ret. split; unfold dset_of, ptype, changed, is_event_frame;
      cbn [tick_of prev_of]; unfold is_event_frame; rewrite ?Eb, ?Em; try done.
    rewrite tick_entry_nil; [by apply files_append_nil|].
    unfold good_tick. by rewrite (is_tick_not_mca f Em), andb_false_r. }
  destruct (is_tick f) eqn:Et.
  { eapply wpc_seq; [apply (on_tick_ok p0 past f d _ Hf Hs eq_refl)|].
    - unfold good_tick. by rewrite Eb, Et.
    - done.
    - done.
    - intros [fin d'] (Hfin & Hf' & Hst & Hcs & Hct & Hpe & Hpt & Hj). apply wpc_ret.
      split; unfold dset_of, ptype, changed, is_event_frame;
        cbn [tick_of prev_of]; unfold is_event_frame; rewrite ?Eb, ?Em, ?Et; try done.
      by rewrite Hpe, Hpt. }
  unfold on_event. pose proof (linear_etype_range (f_pkt f)) as Hr.
  assert (Hpt : to_u8 (linear_etype (et_PKT (tespkt_etype (f_pkt f))) (et_TR (tespkt_etype (f_pkt f))))
    = ptype f).
  { unfold ptype. rewrite Eb, Em, Et. apply to_u8_id. unfold is_u8. lia. }
  rewrite Hpt. apply wpc_ret.
  assert (He : is_event_frame f = true) by (unfold is_event_frame; by rewrite Eb, Em, Et).
  split; cbn [tick_of prev_of]; rewrite ?He; try done.
  - unfold dset_of. by rewrite Eb, Em, Et.
  - unfold changed. rewrite He, <- Hp, Hfr. cbn [fst snd andb].
    by replace (1 <? Z.of_nat (length past) + 1) with (0 <? Z.of_nat (length past)) by lia.
  - rewrite tick_entry_nil; [apply files_append_nil; by destruct Hf|].
    unfold good_tick. by rewrite Et, andb_false_r.
  - rewrite Eb, Em, Et. cbn [cur_tick set_tick set_prev st orb]. rewrite Hc, Hfr. f_equal. lia.
Qed.

(** ** Following a stream *)

Definition entry_app (S : nat -> bytes) (e : option (bool * s_sidx_t)) : nat -> bytes :=
  match e with
  | Some (tr, x) => append S (if tr then DSET_RIDX else DSET_MIDX) (sidx_bytes x)
  | None => S
  end.

Definition count_entry (e : option (bool * s_sidx_t)) (s : s_stats_t) : s_stats_t :=
  match e with
  | Some (true, _) => count_trace s
  | Some (false, _) => count_hist s
  | None => s
  end.

Record streamed (S : nat -> bytes) (st' : s_stats_t) (o : option ongoing)
    (e : option (bool * s_sidx_t)) (b : bool) d (fin : bool) d' : Prop := {
  sd_fin : cap_good -> fin = b;
  sd_files : files d' (entry_app S e);
  sd_st : st d' = st';
  sd_rel : stream_rel (cur_stream d') o;
  sd_tick : cur_tick d' = cur_tick d;
  sd_esize : prev_esize d' = prev_esize d;
  sd_etype : prev_etype d' = prev_etype d;
  sd_job : same_job d d';
}.

Lemma streamed_base S st' o e b d0 d fin d' :
  cur_tick d = cur_tick d0 -> prev_esize d = prev_esize d0 -> prev_etype d = prev_etype d0 ->
  same_job d0 d -> streamed S st' o e b d fin d' -> streamed S st' o e b d0 fin d'.
Proof. intros E1 E2 E3 Hj []. split; try done; try congruence. by apply cap_job_trans with d. Qed.

Definition index_room (S : nat -> bytes) : Prop :=
  Z.of_nat (length (S DSET_MIDX)) + SIDX_LEN < 2 ^ 63 /\
  Z.of_nat (length (S DSET_RIDX)) + SIDX_LEN < 2 ^ 63.

Lemma stream_frame_ok `{!CapLaws} S d g n :
  files d S -> index_room S ->
  str_size (cur_stream d) = og_size g -> cur_size (cur_stream d) = og_got g ->
  is_event (cur_stream d) = og_trace g -> si_start (idx (cur_stream d)) = og_start g ->
  discard (cur_stream d) = false -> 0 <= og_got g < 2 ^ 32 -> og_size g < 2 ^ 32 -> 0 < n < 2 ^ 16 ->
  wpc (stream_frame (og_trace g) n d) (fun '(fin, d') =>
    streamed S (count_entry (collect g n).2 (st d)) (collect g n).1 (collect g n).2 false d fin d').
Proof.
  intros Hf [Hm Hr] E1 E2 E3 E4 E5 Hg Hs Hn. unfold stream_frame, collect. rewrite E1, E2.
  rewrite to_u64_id by (unfold is_u64; lia).
  destruct (Z.ltb_spec (og_size g) (og_got g + n)).
  { apply wpc_ret. split; try done. by destruct Hf. }
  destruct (Z.eqb_spec (og_got g + n) (og_size g)) as [E|E].
  - cbn [fst snd]. set (d1 := set_stream _ _).
    assert (Hf1 : files d1 S) by (by destruct Hf).
    assert (Hds : ((if og_trace g then DSET_RIDX else DSET_MIDX) < NUM_DSETS)%nat)
      by (destruct (og_trace g); unfold NUM_DSETS, DSET_RIDX, DSET_MIDX; lia).
    eapply wpc_seq.
    + apply (queue_ok _ _ SIDX_LEN d1 S Hf1 Hds); [done|by rewrite length_sidx|].
      by destruct (og_trace g).
    + intros [rc d'] Hq. apply wpc_ret.
      pose proof (same_job_queued _ _ _ _ Hq) as Hj. destruct Hq as (-> & Hf' & Hrc).
      rewrite take_ge in Hf' by (rewrite length_sidx; unfold SIDX_LEN; lia).
      rewrite E4 in Hf'. split; try done; by destruct (og_trace g).
  - apply wpc_ret. cbn [fst snd]. split; try done; [by destruct Hf|].
    cbn [cur_stream set_stream stream_rel str_size cur_size is_event idx discard og_size og_got
      og_trace og_start]. repeat split; try done; lia.
Qed.

Lemma is_trace_not_mca f : is_trace f = true -> is_mca f = false.
Proof. intros Ht. apply is_event_not_mca, is_trace_long_event, Ht. Qed.

Lemma is_tick_not_long f : is_tick f = true -> is_mca f = false /\ is_trace f = false.
Proof.
  intros Ht. split; [by apply is_event_not_mca, is_tick_event|].
  unfold is_trace, tespkt_is_trace_long. by rewrite (is_tick_not_trace _ Ht).
Qed.

Lemma size_of_range f : 0 <= size_of f < 2 ^ 32.
Proof.
  unfold size_of. pose proof (tespkt_trace_size_range (f_pkt f)) as Ht. unfold is_u16 in Ht.
  pose proof (tespkt_mca_nbins_tot_range (f_pkt f)) as Hm. unfold is_u16 in Hm.
  rewrite tespkt_mca_size_eq. destruct (is_trace f); lia.
Qed.

(** The frames that are neither part of a stream nor end one by being good. *)
Lemma entry_short past f : is_mca f = false -> is_trace f = false -> entry past f = None.
Proof.
  intros Hm Ht. unfold entry, follow, starts, continues. rewrite Hm, Ht.
  destruct (bad f); [done|]. destruct (stream_of past) as [g|]; [by destruct (og_trace g)|done].
Qed.

Lemma stream_short past f : bad f = false -> is_mca f = false -> is_trace f = false ->
  stream_of (f :: past) = None.
Proof.
  intros Hb Hm Ht. cbn [stream_of]. unfold follow, starts, continues. rewrite Hb, Hm, Ht.
  destruct (stream_of past) as [g|]; [by destruct (og_trace g)|done].
Qed.

(** Counting a frame after the entry it completes. *)
Lemma stats_long past f : frame_ok f -> bad f = false -> is_mca f || is_trace f = true ->
  count_entry (entry past f) (count_frame (stats past) (f_missed f)) = stats (f :: past).
Proof.
  intros Hok Hb Hl. unfold stats. cbn [n_ticks n_events n_lost entries length].
  unfold events_of, good_tick. rewrite Hb, Hl. cbn [negb andb orb].
  replace (is_tick f) with false.
  2:{ symmetry. apply not_true_is_false. intros [Hm Ht]%is_tick_not_long. by rewrite Hm, Ht in Hl. }
  rewrite !length_app, !Nat2Z.inj_add, Nat2Z.inj_succ, <- Z.add_1_r, !Z.add_0_r.
  destruct (entry past f) as [[[] x]|]; cbn [count_entry length];
    unfold count_trace, count_hist, count_frame; cbn [ticks events traces hists frames frames_lost
      frames_dropped errors]; rewrite ?to_u64_add; try done; f_equal; try (by rewrite Z.add_0_r).
Qed.

Lemma stats_short past f n : bad f = false -> is_mca f = false -> is_trace f = false ->
  is_tick f = false -> tespkt_event_nums (f_pkt f) = Done n ->
  count_events (count_frame (stats past) (f_missed f)) n = stats (f :: past).
Proof.
  intros Hb Hm Ht Hk Hn. unfold stats. cbn [n_ticks n_events n_lost entries length].
  unfold events_of, good_tick. rewrite (entry_short past f Hm Ht), Hb, Hm, Ht, Hk, Hn.
  cbn [negb andb orb]. rewrite !app_nil_r, Nat2Z.inj_succ, <- Z.add_1_r, !Z.add_0_r.
  unfold count_events, count_frame. cbn. by rewrite !to_u64_add.
Qed.

Lemma stats_tick past f : bad f = false -> is_tick f = true ->
  count_tick (count_frame (stats past) (f_missed f)) = stats (f :: past).
Proof.
  intros Hb Hk. destruct (is_tick_not_long f Hk) as [Hm Ht].
  unfold stats. cbn [n_ticks n_events n_lost entries length].
  unfold events_of, good_tick. rewrite (entry_short past f Hm Ht), Hb, Hm, Ht, Hk.
  cbn [negb andb orb]. rewrite !app_nil_r, Nat2Z.inj_succ, <- Z.add_1_r, !Z.add_0_r.
  unfold count_tick, count_frame. cbn. by rewrite !to_u64_add.
Qed.

Lemma stats_bad past f : bad f = true ->
  count_frame (stats past) (f_missed f) = stats (f :: past).
Proof.
  intros Hb. unfold stats. cbn [n_ticks n_events n_lost entries length].
  unfold events_of, good_tick, entry, follow. rewrite Hb.
  cbn [negb andb snd]. rewrite !app_nil_r, Nat2Z.inj_succ, <- Z.add_1_r, !Z.add_0_r.
  unfold count_frame. cbn. by rewrite !to_u64_add.
Qed.

(** The checks on the stream at the start of a good frame. *)
Lemma stream_asserts {B} c o (k : unit -> exec B) Q :
  stream_rel c o -> wpc (k tt) Q ->
  wpc ((if 0 <? str_size c then
          dbg_assert (0 <? cur_size c);;
          dbg_assert (cur_size c <? str_size c);;
          dbg_assert (negb (discard c))
        else dbg_assert (cur_size c =? 0)) ≫= k) Q.
Proof.
  intros Hr Hk. destruct o as [g|].
  - destruct Hr as (-> & -> & _ & _ & -> & Hg & _).
    rewrite !(proj2 (Z.ltb_lt _ _)) by lia. exact Hk.
  - destruct Hr as [-> ->]. exact Hk.
Qed.

Lemma continues_eq c g f :
  stream_rel c (Some g) ->
  ((is_trace f && is_event c) || (is_mca f && negb (is_event c))) && (0 <? str_size c) &&
    negb (is_header f) && (f_missed f =? 0) = continues g f.
Proof.
  intros (-> & _ & -> & _ & _ & Hg & _). rewrite (proj2 (Z.ltb_lt 0 (og_size g))) by lia.
  unfold continues. destruct (og_trace g); cbn [negb]; by rewrite ?andb_true_r, ?andb_false_r, ?orb_false_r.
Qed.

(** The assertion where a stream is interrupted. *)
Lemma interrupt_assert g f c :
  frame_ok f -> is_event c = og_trace g -> continues g f = false ->
  is_header f || (0 <? f_missed f) || (is_trace f && negb (is_event c)) || (is_mca f && is_event c) ||
    (negb (is_trace f) && negb (is_mca f)) = true.
Proof.
  intros Hok -> Hc. unfold continues in Hc. pose proof (fo_missed _ Hok) as Hm. unfold is_u16 in Hm.
  destruct (is_header f); [done|]. destruct (Z.ltb_spec 0 (f_missed f)); [done|].
  replace (f_missed f =? 0) with true in Hc by lia.
  destruct (og_trace g), (is_trace f), (is_mca f); done.
Qed.

(** The end of the handler of a good frame that belongs to no stream. *)
Definition short_frame (f : frame) d : exec (bool * bool * s_data_t) :=
  if is_tick f then
    let d := set_st d (count_tick (st d)) in
    mret ((min_ticks (req d) <? ticks (st d)) && (min_events (req d) <=? events (st d)), false, d)
  else
    n ← tespkt_event_nums (f_pkt f);
    mret (false, false, set_st d (count_events (st d) n)).

Lemma short_frame_ok S past f d :
  frame_ok f -> bad f = false -> is_mca f = false -> is_trace f = false ->
  files d S -> Z.of_nat (length past) < 2 ^ 59 ->
  st d = count_frame (stats past) (f_missed f) -> stream_rel (cur_stream d) None ->
  wpc (short_frame f d) (fun '(fin, hdr, d') => hdr = false /\
    streamed S (stats (f :: past)) None None
      (complete (min_ticks (req d)) (min_events (req d)) (f :: past)) d fin d').
Proof.
  intros Hok Hb Hm Ht Hf Hl Hst Hr. unfold short_frame, complete, good_tick. rewrite Hb.
  destruct (is_tick f) eqn:Hk.
  - cbv zeta. cbn [negb andb st set_st req]. rewrite Hst, (stats_tick past f Hb Hk).
    apply wpc_ret. split; [done|]. pose proof (n_ticks_range (f :: past)) as Hn. cbn [length] in Hn.
    split; try done; [|by destruct Hf]. intros _. unfold stats. cbn [ticks events].
    rewrite (to_u64_id (n_ticks _)) by (unfold is_u64; lia). done.
  - assert (Hv : valid_frame (f_pkt f)).
    { apply (fo_valid _ Hok). unfold bad, c_true in Hb. lia. }
    assert (He : tespkt_is_event (f_pkt f) = true).
    { destruct Hv as [_ [Hv|Hv]]; [apply Hv|]. destruct Hv as [Hv _ _]. unfold is_mca in Hm. congruence. }
    destruct (valid_event_nums_done _ Hv He) as (n & En & _). rewrite En. cbn [mbind exec_bind].
    apply wpc_ret. split; [done|]. split; try done; [by destruct Hf|].
    cbn [st set_st]. rewrite Hst. by apply stats_short.
Qed.

Lemma long_not_complete mt me past f : is_mca f || is_trace f = true ->
  complete mt me (f :: past) = false.
Proof.
  intros Hl. unfold complete, good_tick. replace (is_tick f) with false; [by rewrite andb_false_r|].
  symmetry. apply not_true_is_false. intros [Hm Ht]%is_tick_not_long. by rewrite Hm, Ht in Hl.
Qed.

(** The end of the handler for a frame of a stream [g], begun or continued. *)
Lemma stream_end_ok `{!CapLaws} S past f g d (hdr : bool) :
  frame_ok f -> bad f = false -> is_mca f || is_trace f = true -> is_trace f = og_trace g ->
  follow (stream_of past) past f = collect g (paylen f) -> files d S -> index_room S ->
  st d = count_frame (stats past) (f_missed f) ->
  str_size (cur_stream d) = og_size g -> cur_size (cur_stream d) = og_got g ->
  is_event (cur_stream d) = og_trace g -> si_start (idx (cur_stream d)) = og_start g ->
  discard (cur_stream d) = false -> 0 <= og_got g < 2 ^ 32 -> og_size g < 2 ^ 32 ->
  wpc (('(fin, d) ← stream_frame (is_trace f) (paylen f) d; mret (fin, hdr, d))
      : exec (bool * bool * s_data_t))
    (fun '(fin, hdr', d') => hdr' = hdr /\
      streamed S (stats (f :: past)) (stream_of (f :: past)) (entry past f)
        (complete (min_ticks (req d)) (min_events (req d)) (f :: past)) d fin d').
Proof.
  intros Hok Hb Hl Htr Hfo Hf Hroom Hst E1 E2 E3 E4 E5 Hg Hs.
  rewrite (long_not_complete _ _ _ _ Hl). pose proof (paylen_range f Hok) as Hp.
  rewrite Htr. eapply wpc_seq; [apply (stream_frame_ok S d g (paylen f)); try done; lia|].
  intros [fin d'] []. apply wpc_ret. split; [done|].
  assert (Ee : entry past f = (collect g (paylen f)).2) by (unfold entry; by rewrite Hfo).
  assert (Es : stream_of (f :: past) = (collect g (paylen f)).1) by (cbn [stream_of]; by rewrite Hfo).
  rewrite <- (stats_long past f Hok Hb Hl), Ee, Es. split; try done. by rewrite sd_st0, Hst.
Qed.

Lemma mca_or_trace (a b : bool) : (a || b) = (b || a).
Proof. by destruct a, b. Qed.

(** One frame of a stream: while one is in progress, and when none is. *)
Section UpdateStream.
Context `{!CapLaws} (S : nat -> bytes) (past : list frame) (f : frame) (d : s_data_t).
Hypotheses (Hok : frame_ok f) (Hb : bad f = false) (Hf : files d S) (Hroom : index_room S).
Hypotheses (Hl : Z.of_nat (length past) < 2 ^ 59) (HS : S (dset_of f) = data_stream (dset_of f) past).
Hypotheses (Hst : st d = count_frame (stats past) (f_missed f)).
Hypothesis Hr : stream_rel (cur_stream d) (stream_of past).

Definition stream_updated : Prop :=
  wpc (update_stream (f_pkt f) (dset_of f) (paylen f) (f_missed f) d)
    (fun '(fin, hdr, d') => hdr = starts (stream_of past) f /\
      streamed S (stats (f :: past)) (stream_of (f :: past)) (entry past f)
        (complete (min_ticks (req d)) (min_events (req d)) (f :: past)) d fin d').

Lemma update_ongoing g : stream_of past = Some g -> stream_updated.
Proof.
  intros Eo. unfold stream_updated, update_stream. cbv zeta.
  fold (is_mca f). fold (is_tick f). fold (is_trace f). fold (is_header f).
  apply stream_asserts with (stream_of past); [done|].
  pose proof (short_frame_ok S past f) as Hshort. unfold short_frame in Hshort. rewrite Eo in *.
  rewrite (continues_eq _ g f Hr). destruct Hr as (E1 & E2 & E3 & E4 & E5 & Hg & Hs).
  assert (Est : starts (Some g) f = false) by (unfold starts; by rewrite andb_false_r).
  rewrite Est, E1, (proj2 (Z.eqb_neq (og_size g) 0)), (proj2 (Z.ltb_lt 0 (og_size g))) by lia.
  rewrite !andb_false_r, andb_true_r. cbn [orb].
  destruct (continues g f) eqn:Ec; cbn [negb].
  - cbn [mbind exec_bind mret exec_ret]. rewrite E5. cbn [negb andb].
    assert (Hmi : (f_missed f =? 0) = true)
      by (unfold continues in Ec; by apply andb_true_iff in Ec as [_ ?]).
    rewrite Hmi. cbn [dbg_assert c_assert].
    apply (stream_end_ok S past f g d false); try done; try lia.
    + unfold continues in Ec. destruct (og_trace g); bool_hyps; apply orb_true_iff; auto.
    + unfold continues in Ec. destruct (og_trace g); bool_hyps; [done|].
      apply not_true_is_false. intros Ht%is_trace_not_mca. congruence.
    + unfold follow. by rewrite Hb, Eo, Ec.
  - rewrite (interrupt_assert g f _ Hok E3 Ec). cbn [dbg_assert c_assert mbind exec_bind mret exec_ret].
    set (d1 := set_stream d _). assert (Hf1 : files d1 S) by (by destruct Hf).
    assert (Eent : entry past f = None) by (unfold entry, follow; by rewrite Hb, Eo, Ec).
    assert (Estr : stream_of (f :: past) = None) by (cbn [stream_of]; unfold follow; by rewrite Hb, Eo, Ec).
    rewrite Eent, Estr. destruct (is_mca f || is_trace f) eqn:El.
    + cbn [mbind exec_bind mret exec_ret wpc]. rewrite (long_not_complete _ _ _ _ El).
      split; [done|]. split; try done. cbn [st set_stream d1]. rewrite Hst.
      pose proof (stats_long past f Hok Hb El) as Hsl. by rewrite Eent in Hsl.
    + apply orb_false_iff in El as [Em Et]. eapply wpc_mono; [by apply Hshort|].
      intros [[fin hdr] d'] [-> Hsd]. split; [done|]. by eapply streamed_base; [..|exact Hsd].
Qed.

Lemma update_between : stream_of past = None -> stream_updated.
Proof.
  intros Eo. unfold stream_updated, update_stream. cbv zeta.
  fold (is_mca f). fold (is_tick f). fold (is_trace f). fold (is_header f).
  apply stream_asserts with (stream_of past); [done|].
  pose proof (short_frame_ok S past f) as Hshort. unfold short_frame in Hshort. rewrite Eo in *.
  destruct Hr as [E1 E2]. rewrite E1. change (0 <? 0) with false. change (0 =? 0) with true.
  rewrite !andb_false_r, !andb_true_r. cbn [andb orb]. rewrite orb_false_r.
  cbn [mbind exec_bind mret exec_ret].
  assert (Est : starts None f = (is_trace f || is_mca f) && is_header f)
    by (unfold starts; rewrite Hb, bool_decide_eq_true_2 by done; by rewrite andb_true_r).
  destruct ((is_trace f || is_mca f) && is_header f) eqn:Es.
  - assert (Hlong : is_mca f || is_trace f = true) by (bool_hyps; by rewrite mca_or_trace).
    assert (Hds : (dset_of f < NUM_DSETS)%nat)
      by (unfold dset_of, NUM_DSETS, DSET_BDAT, DSET_MDAT, DSET_TDAT, DSET_EDAT; repeat case_if; lia).
    rewrite (dat_end_ok d S (dset_of f) Hf Hds), HS. cbn [mbind exec_bind mret exec_ret].
    change (if is_trace f then tespkt_trace_size (f_pkt f) else tespkt_mca_size (f_pkt f))
      with (size_of f). rewrite E2. pose proof (size_of_range f).
    set (d1 := set_stream d _). rewrite Est.
    eapply wpc_mono; [apply (stream_end_ok S past f
      (Ongoing (is_trace f) (offset (dset_of f) past) (size_of f) 0) d1 true); try done|].
    + unfold follow. by rewrite Hb, Eo, Est.
    + by destruct Hf.
    + cbn. lia.
    + intros [[fin hdr] d'] [-> Hsd]. split; [done|]. by eapply streamed_base; [..|exact Hsd].
  - assert (Eent : entry past f = None) by (unfold entry, follow; by rewrite Hb, Eo, Est).
    assert (Estr : stream_of (f :: past) = None) by (cbn [stream_of]; unfold follow; by rewrite Hb, Eo, Est).
    rewrite Eent, Estr, Est. destruct (is_mca f || is_trace f) eqn:El.
    + assert (Eh : is_header f = false).
      { rewrite mca_or_trace in El. rewrite El in Es. done. }
      rewrite Eh, E1. change (0 =? 0) with true.
      cbn [negb dbg_assert c_assert mbind exec_bind mret exec_ret wpc].
      rewrite (long_not_complete _ _ _ _ El). split; [done|].
      split; try done; [by destruct Hf|]. cbn [st set_stream]. rewrite Hst.
      pose proof (stats_long past f Hok Hb El) as Hsl. by rewrite Eent in Hsl.
    + apply orb_false_iff in El as [Em Et]. eapply wpc_mono; [by apply Hshort|].
      intros [[fin hdr] d'] [-> Hsd]. split; [done|]. by eapply streamed_base; [..|exact Hsd].
Qed.

Lemma update_stream_ok : stream_updated.
Proof.
  generalize update_ongoing update_between. case (stream_of past); [|auto].
  intros g Hg _. by apply (Hg g).
Qed.
End UpdateStream.

(** ** One frame *)

Lemma dset_of_range f : (4 <= dset_of f < NUM_DSETS)%nat.
Proof.
  unfold dset_of, NUM_DSETS, DSET_BDAT, DSET_MDAT, DSET_TDAT, DSET_EDAT.
  repeat case_if; lia.
Qed.

Lemma stream_dset p0 past f : stream p0 (dset_of f) past = data_stream (dset_of f) past.
Proof.
  pose proof (dset_of_range f) as Hd. destruct (dset_of f) as [|[|[|[|n]]]]; try lia. done.
Qed.

(** The statistics and the index of streams, of a good frame or a bad one. *)
Lemma follow_ok `{!CapLaws} S past f d :
  frame_ok f -> files d S -> index_room S ->
  Z.of_nat (length past) < 2 ^ 59 -> S (dset_of f) = data_stream (dset_of f) past ->
  st d = count_frame (stats past) (f_missed f) -> stream_rel (cur_stream d) (stream_of past) ->
  wpc (if c_true (f_err f) then mret (false, false, d)
       else update_stream (f_pkt f) (dset_of f) (paylen f) (f_missed f) d)
    (fun '(fin, hdr, d') => hdr = starts (stream_of past) f /\
      streamed S (stats (f :: past)) (stream_of (f :: past)) (entry past f)
        (complete (min_ticks (req d)) (min_events (req d)) (f :: past)) d fin d').
Proof.
  intros Hok Hf Hroom Hl HS Hst Hr. fold (bad f). destruct (bad f) eqn:Hb.
  - apply wpc_ret. split; [unfold starts; by rewrite Hb|].
    assert (Ee : entry past f = None) by (unfold entry, follow; by rewrite Hb).
    assert (Es : stream_of (f :: past) = stream_of past)
      by (cbn [stream_of]; unfold follow; by rewrite Hb).
    assert (Ec : complete (min_ticks (req d)) (min_events (req d)) (f :: past) = false)
      by (unfold complete, good_tick; by rewrite Hb).
    rewrite Ee, Es, Ec, <- (stats_bad past f Hb). by split.
  - by apply update_stream_ok.
Qed.

Lemma append_eq S s bs s' : append S s bs s' = S s' ++ (if decide (s' = s) then bs else []).
Proof. unfold append. case_decide as E; [by rewrite E|by rewrite app_nil_r]. Qed.

Lemma entry_app_eq S e s : entry_app S e s =
  S s ++ (match e with
          | Some (tr, x) => if decide (s = if tr then DSET_RIDX else DSET_MIDX) then sidx_bytes x else []
          | None => [] end).
Proof. destruct e as [[tr x]|]; [apply append_eq|symmetry; apply app_nil_r]. Qed.

(** The contents of the files after a frame. *)
Lemma stream_snoc p0 past f s : (s < NUM_DSETS)%nat ->
  append (append (entry_app (append (fun s => stream p0 s past) DSET_TIDX (tick_entry past f))
    (entry past f)) (dset_of f) (payload f)) DSET_FIDX (fidx_bytes (fidx p0 past f)) s =
  stream p0 s (f :: past).
Proof.
  intros Hs. pose proof (dset_of_range f) as Hd. unfold NUM_DSETS in *.
  rewrite !append_eq, entry_app_eq, append_eq. unfold DSET_FIDX, DSET_TIDX, DSET_RIDX, DSET_MIDX.
  destruct s as [|[|[|[|s]]]];
    [rewrite (decide_False (P := _ = dset_of f)) by lia..|].
  - destruct (entry past f) as [[[] x]|]; cbn; by rewrite !app_nil_r.
  - cbn [stream]. unfold sidx_stream. cbn [entries]. rewrite fmap_app, concat_app.
    destruct (entry past f) as [[[] x]|]; cbn; by rewrite !app_nil_r.
  - destruct (entry past f) as [[[] x]|]; cbn; by rewrite !app_nil_r.
  - cbn [stream]. unfold sidx_stream. cbn [entries]. rewrite fmap_app, concat_app.
    destruct (entry past f) as [[[] x]|]; cbn; by rewrite !app_nil_r.
  - rewrite !(decide_False (P := S (S (S (S s))) = _)) by done. cbn [stream data_stream].
    rewrite (decide_ext (S (S (S (S s))) = dset_of f) (dset_of f = S (S (S (S s))))) by done.
    destruct (entry past f) as [[[] x]|];
      rewrite ?(decide_False (P := S (S (S (S s))) = _)) by done; by rewrite !app_nil_r.
Qed.

Lemma small_index_room p0 past bs : small p0 past ->
  index_room (append (fun s => stream p0 s past) DSET_TIDX bs).
Proof.
  intros Hs. pose proof (Hs 1%nat ltac:(unfold NUM_DSETS; lia)).
  pose proof (Hs 3%nat ltac:(unfold NUM_DSETS; lia)).
  unfold index_room. rewrite !append_other by done.
  unfold TESPKT_MTU, SIDX_LEN, DSET_MIDX, DSET_RIDX in *. lia.
Qed.

(** The end of the handler: the payload and the index entry. *)
Lemma queue_frame_ok `{!CapLaws} p0 past f d (S : nat -> bytes) (fin : bool) :
  frame_ok f -> small p0 past -> files d S ->
  S (dset_of f) = data_stream (dset_of f) past -> S 0%nat = fidx_stream p0 past ->
  frames (st d) = to_u64 (Z.of_nat (length (f :: past))) ->
  wpc ('(jobrc1, d) ← queue (dset_of f) (drop (Z.to_nat TESPKT_HDR_LEN) (f_pkt f)) (paylen f) d;
       '(jobrc2, d) ← queue DSET_FIDX (fidx_bytes (fidx p0 past f)) FIDX_LEN d;
       fend ← dat_end DSET_FIDX d;
       dbg_assert (to_u64 (frames (st d) * FIDX_LEN) =? fend);;
       mret (fin || (jobrc1 <? 0) || (jobrc2 <? 0), d))
    (fun '(fin', d') => (cap_good -> fin' = fin) /\ d' = set_aio d (aio d') /\
      files d' (append (append S (dset_of f) (payload f)) DSET_FIDX (fidx_bytes (fidx p0 past f)))).
Proof.
  intros Hok Hs Hf HS HS0 Hfr. pose proof (small_frames _ _ Hs) as Hl.
  pose proof (paylen_range f Hok) as Hpl. pose proof (dset_of_range f) as Hd.
  pose proof (fo_buf _ Hok) as Hbuf.
  pose proof (Hs (dset_of f) ltac:(lia)) as Hsd. pose proof (Hs 0%nat ltac:(lia)) as Hs0.
  rewrite stream_dset in Hsd. cbn [stream] in Hs0.
  eapply wpc_seq.
  { apply (queue_ok (dset_of f) _ (paylen f) d S Hf); [lia|unfold TESPKT_MTU; lia| |].
    - rewrite length_drop. unfold paylen, TESPKT_HDR_LEN in *. lia.
    - rewrite HS. unfold TESPKT_MTU in Hsd. lia. }
  intros [rc1 d1] (Ed1 & Hf1 & Hrc1). set (S1 := append _ _ _) in Hf1.
  assert (HS1 : S1 DSET_FIDX = fidx_stream p0 past)
    by (unfold S1; rewrite append_other by (unfold DSET_FIDX; lia); done).
  eapply wpc_seq.
  { apply (queue_ok DSET_FIDX _ FIDX_LEN d1 S1 Hf1); [unfold DSET_FIDX; lia|done|by rewrite length_fidx|].
    rewrite HS1. unfold FIDX_LEN, TESPKT_MTU in *. lia. }
  intros [rc2 d2] (Ed2 & Hf2 & Hrc2).
  rewrite (take_ge (fidx_bytes _)) in Hf2 by (rewrite length_fidx; unfold FIDX_LEN; lia).
  rewrite (dat_end_ok d2 _ DSET_FIDX Hf2) by (unfold DSET_FIDX; lia). cbn [mbind exec_bind].
  apply wpc_assert.
  { rewrite Ed2, Ed1. cbn [st set_aio]. rewrite Hfr, append_same, HS1, length_app, length_fidx,
      length_fidx_stream. cbn [length]. apply Z.eqb_eq. unfold FIDX_LEN.
    rewrite (to_u64_id (Z.of_nat _)) by (unfold is_u64; lia).
    rewrite to_u64_id by (unfold is_u64; lia). lia. }
  apply wpc_ret. split; [|split; [by rewrite Ed2, Ed1|exact Hf2]].
  intros Hg. by rewrite (Hrc1 Hg), (Hrc2 Hg), !orb_false_r.
Qed.

Lemma save_frame_ok `{!CapLaws} p0 past f d :
  frame_ok f -> small p0 past -> cap_inv p0 past d ->
  wpc (save_frame (f_pkt f) (f_len f) (f_missed f) (f_err f) d) (fun '(fin, d') =>
    cap_inv p0 (f :: past) d' /\ same_job d d' /\
    (cap_good -> fin = complete (min_ticks (req d)) (min_events (req d)) (f :: past))).
Proof.
  intros Hok Hs [Hf Hst Hr Hc Hp]. pose proof (small_frames _ _ Hs) as Hl.
  pose proof (paylen_range f Hok) as Hpl. pose proof (dset_of_range f) as Hd.
  unfold save_frame. cbv zeta. rewrite Hst.
  change (ftohs (tespkt_esize (f_pkt f))) with (esize_of f).
  replace (to_u16 (f_len f - TESPKT_HDR_LEN)) with (paylen f)
    by (symmetry; apply to_u16_id; unfold is_u16, paylen in *; lia).
  set (d0 := set_st d _).
  eapply wpc_seq.
  { apply (choose_file_ok p0 past f d0); try done; [by destruct Hf|].
    cbn [st set_st frames d0 count_frame stats]. rewrite to_u64_add. apply to_u64_id.
    unfold is_u64. lia. }
  intros [[[[s pt] ch] fin1] d1] [-> -> -> Hfin1 Hf1 Hst1 Hcs1 Hct1 Hp1 Hj1].
  set (S1 := append _ _ _) in Hf1.
  assert (HS1 : S1 (dset_of f) = data_stream (dset_of f) past).
  { unfold S1. rewrite append_other; [apply stream_dset|]. unfold DSET_TIDX. lia. }
  rewrite (dat_end_ok d1 S1 (dset_of f) Hf1), HS1 by lia. cbn [mbind exec_bind].
  eapply wpc_seq.
  { apply (follow_ok S1 past f d1 Hok Hf1); [|done..|by rewrite Hst1|by rewrite Hcs1].
    by apply (small_index_room p0). }
  intros [[fin2 hdr] d2] [-> [Hfin2 Hf2 Hst2 Hr2 Hct2 Hpe2 Hpt2 Hj2]].
  replace (Build_s_fidx_t _ _ _ _ _) with (fidx p0 past f).
  2:{ rewrite Hst2. unfold fidx, offset. f_equal. cbn [frames stats length].
      rewrite to_u64_id by (unfold is_u64; lia). f_equal. lia. }
  eapply wpc_mono; [apply (queue_frame_ok p0 past f d2 _ (fin1 || fin2) Hok Hs Hf2)|].
  - rewrite entry_app_eq, HS1. destruct (entry past f) as [[[] x]|];
      rewrite ?decide_False, ?app_nil_r; unfold DSET_RIDX, DSET_MIDX; try done; lia.
  - rewrite entry_app_eq. destruct (entry past f) as [[[] x]|]; by rewrite app_nil_r.
  - by rewrite Hst2.
  - intros [fin d3] (Hfin & Ed3 & Hf3). rewrite Ed3. split; [|split].
    + split; try done; [|by rewrite <- Hct1|by cbn; rewrite Hpe2, Hpt2].
      rewrite <- Ed3. eapply files_ext; [|exact Hf3]. intros s Hs3. by apply stream_snoc.
    + apply cap_job_trans with d0; [done|]. apply cap_job_trans with d1; [done|].
      by apply cap_job_trans with d2; [done|split].
    + intros Hg. rewrite (Hfin Hg), (Hfin1 Hg), (Hfin2 Hg). by rewrite (sj_req _ _ Hj1).
Qed.
(** No file grows by more than a frame. *)
Lemma stream_bound p0 past s : Forall frame_ok past ->
  Z.of_nat (length (stream p0 s past)) <= 1472 * Z.of_nat (length past).
Proof.
  assert (He : forall tr, (length (entries tr past) <= length past)%nat).
  { intros tr. induction past as [|f past IH]; cbn [entries length]; [lia|]. rewrite length_app.
    destruct (entry past f) as [[tr' x]|]; [case_bool_decide|]; cbn [length]; lia. }
  assert (Hx : forall tr, length (sidx_stream tr past) = (16 * length (entries tr past))%nat).
  { intros tr. unfold sidx_stream. induction (entries tr past) as [|x xs IH]; [done|].
    rewrite fmap_cons. cbn [concat length]. rewrite length_app, length_sidx, IH. lia. }
  intros Hf. destruct s as [|[|[|[|s]]]]; cbn [stream].
  - rewrite length_fidx_stream. lia.
  - rewrite Hx. specialize (He false). lia.
  - clear He Hx. induction Hf as [|f past Hok Hf IH]; cbn [tidx_stream length]; [done|].
    rewrite length_app. destruct (_ && _); [rewrite length_tidx|cbn [length]]; lia.
  - rewrite Hx. specialize (He true). lia.
  - clear He Hx. induction Hf as [|f past Hok Hf IH]; cbn [data_stream length]; [done|].
    rewrite length_app. pose proof (length_f_payload f Hok). pose proof (paylen_range f Hok).
    destruct (decide _); cbn [length]; lia.
Qed.

Lemma small_length p0 past : Forall frame_ok past -> Z.of_nat (length past) < 2 ^ 52 -> small p0 past.
Proof.
  intros Hf Hl s _. pose proof (stream_bound p0 past s Hf). unfold TESPKT_MTU. lia.
Qed.

End Refinement.
End CapSpec.

(** ** A sample job *)

Module CapSample.
Import Cap CapSpec.

(** Every call works; files are written and read in full. *)
Definition sys : SysEnv := {|
  sys_rc := fun l c =>
    if Hdf5.opens c then 1 + Z.of_nat (length l)
    else match c with
         | SysAccess _ => -1 | SysOpen _ _ _ => 5 | SysLseekEnd _ => 100 | SysMmap _ _ => 4096
         | SysWrite _ data => Z.of_nat (length data) | SysRead _ n => n | SysFork => 9 | _ => 0 end;
  sys_errno := fun _ _ => ENOENT;
  sys_path := fun _ path => Some path;
  sys_bytes := fun _ _ => stats_bytes (Build_s_stats_t 2 3 0 1 4 0 0 0);
  sys_pipe := fun _ => (3, 4) |}.

#[export] Instance env : CapEnv := {|
  cap_aio := fun _ => AioSample.env; cap_sys := sys; cap_stack := fun _ => 0; cap_malloc := true;
  zsock_send_rc := fun _ => 0 |}.

#[export] Instance laws : CapLaws.
Proof. intros s. exact AioSample.laws. Qed.

#[export] Instance hdf5_laws : Hdf5.Hdf5Laws.
Proof.
  split.
  - intros l c Hc. cbn. rewrite Hc. lia.
  - intros l fd. discriminate.
  - intros l fd n. discriminate.
Qed.

Lemma cap_sample_good : cap_good.
Proof. intros s. exact AioSample.good. Qed.

Definition the_frame (pkt : tespkt) (missed : Z) : frame := Frame pkt (tespkt_flen pkt) missed 0.

(** A tick, a histogram in one frame, three events and a tick. *)
Definition tick1 : frame := the_frame (sample_tick 1 0) 0.
Definition hist : frame := the_frame (sample_mca_hdr 2 1 2) 0.
Definition pulses : frame := the_frame (sample_pulse 3 3) 0.
Definition tick2 : frame := the_frame (sample_tick 4 9) 0.
Definition job : list frame := [tick1; hist; pulses; tick2].

Lemma the_frame_ok pkt missed : is_u16 missed -> tespkt_is_valid pkt = 0 ->
  TESPKT_HDR_LEN < tespkt_flen pkt <= TESPKT_MTU -> tespkt_flen pkt <= Z.of_nat (length pkt) ->
  frame_ok (the_frame pkt missed).
Proof. intros Hm Hv Hl Hb. split; try done. intros _. split; [by apply valid_iff|done]. Qed.

Lemma job_ok : Forall frame_ok job.
Proof.
  unfold job. repeat apply List.Forall_cons; try apply List.Forall_nil; apply the_frame_ok;
    vm_compute; first [reflexivity|discriminate|split; first [reflexivity|discriminate]].
Qed.

(** The job asks for one tick and one event, to be captured only. *)
Definition the_req : s_req_t := Build_s_req_t 1 1 0 0 TES_CAP_CAPONLY (Some (lit "a")) (Some (lit "b")).
Definition stat : bytes := lit "/media/data/captures/a-b".

(** The data between jobs, and when the files are open. *)
Definition data_of (bufs : Aiobuf.s_aiobuf_t) : s_data_t :=
  Build_s_data_t zero_stats (replicate NUM_DSETS bufs)
    ((fun x => stat ++ lit "." ++ x.2) <$> s_dsets) zero_stream zero_tick 0 0 the_req
    false true true (lit "/media/data/captures/a.hdf5") stat (-1) false [].
Definition idle_data : s_data_t := data_of AioSample.fresh.
Definition open_data : s_data_t := data_of AioSample.opened.

Lemma opens_ok `{AioEnv} a excl a1 :
  Aiobuf.idle a -> Aiobuf.s_open_aiobuf a excl = Done (0, a1) -> Aiobuf.aio_ok a1 [].
Proof.
  intros Hi Ho. destruct (Aiobuf.s_open_aiobuf_ok a excl Hi) as (rc & a' & E & Hrc).
  rewrite Ho in E. injection E as <- <-. by destruct Hrc as [[? _]|[_ ?]].
Qed.

Lemma opened_ok : Aiobuf.aio_ok AioSample.opened [].
Proof. apply (opens_ok (H := AioSample.env) _ true _ AioSample.fresh_idle). reflexivity. Qed.

Lemma open_inv : cap_inv (0, 0) [] open_data.
Proof.
  split; try done. split; [done|]. intros s a Ha. apply lookup_replicate in Ha as [-> _].
  destruct s as [|[|[|[|s]]]]; exact opened_ok.
Qed.
End CapSample.

#[local] Existing Instances CapSample.env CapSample.laws.

(** ** Properties *)

(** C6: whatever the services of the write buffers do, saving a frame that the
    dispatcher hands over refines the specification: the eight files get what
    the history says (the payload in the data file of its class, the entry of
    the frame index, the tick index and the indices of histograms and traces
    when they are complete), the statistics, the stream in progress and the
    tick follow the history, and nothing else of the job changes; with good
    services there is a result, which is to finish the job exactly when a
    good tick makes it complete. *)
Theorem capture_frame_refines `{CapEnv} `{!CapSpec.CapLaws} p0 past f d :
  CapSpec.frame_ok f -> CapSpec.small p0 past -> CapSpec.cap_inv p0 past d ->
  CapSpec.wpc (Cap.save_frame (CapSpec.f_pkt f) (CapSpec.f_len f) (CapSpec.f_missed f) (CapSpec.f_err f) d)
    (fun '(fin, d') => CapSpec.cap_inv p0 (f :: past) d' /\ CapSpec.same_job d d' /\
      (CapSpec.cap_good -> fin =
        CapSpec.complete (Cap.min_ticks (Cap.req d)) (Cap.min_events (Cap.req d)) (f :: past))).
Proof. apply CapSpec.save_frame_ok. Qed.

Lemma capture_frame_refines_witness : exists d',
  Cap.save_frame (sample_tick 1 0) 48 0 0 CapSample.open_data = Done (false, d') /\
  CapSpec.cap_inv (0, 0) [CapSample.tick1] d'.
Proof.
  assert (Hs : CapSpec.small (0, 0) []).
  { intros s _. destruct s as [|[|[|[|s]]]]; vm_compute; reflexivity. }
  pose proof (capture_frame_refines (0, 0) [] CapSample.tick1 CapSample.open_data
    (proj1 (proj1 (Forall_cons _ _ _) CapSample.job_ok)) Hs CapSample.open_inv) as Hr.
  change (CapSpec.f_len CapSample.tick1) with 48 in Hr.
  change (CapSpec.f_pkt CapSample.tick1) with (sample_tick 1 0) in Hr.
  change (CapSpec.f_missed CapSample.tick1) with 0 in Hr.
  change (CapSpec.f_err CapSample.tick1) with 0 in Hr.
  destruct (Cap.save_frame _ _ _ _ _) as [[fin d']|[]]; simpl in Hr; try contradiction;
    try (exfalso; exact (Hr CapSample.cap_sample_good)).
  destruct Hr as (Hi & _ & Hf). exists d'. specialize (Hf CapSample.cap_sample_good). simpl in Hf.
  subst fin. split; [reflexivity|exact Hi].
Defined.
