(* ===== verification/CaptureIndex.v ===== *)
(** * Reading the files of a capture

    The index files are arrays of fixed-size entries.  An entry of the frame
    index leads to the payload of its frame, an entry of a stream index to the
    frames of a histogram or trace that arrived whole ([segment], [whole]), and
    the statistics file reads back as what was written. *)

From Stdlib Require Import ZArith Lia Strings.String Strings.Byte.
From stdpp Require Import base option list numbers decidable sets.
From S2P Require Import Prelude Sys Path Hdf5 Tespkt Tesif Task Aiobuf Capture CaptureTheory.

Open Scope Z_scope.

(** ** Files of entries *)

(** Values of fixed size in a file, and how they are read back. *)
Class Entry (A : Type) : Type := {
  e_size : nat;
  e_bytes : A -> bytes;
  e_read : bytes -> A;
  e_wf : A -> Prop;
  e_length : forall x, length (e_bytes x) = e_size;
  e_read_bytes : forall x, e_wf x -> e_read (e_bytes x) = x;
}.

Definition slice (m : bytes) (start len : Z) : bytes :=
  take (Z.to_nat len) (drop (Z.to_nat start) m).

(** The entry with the given number. *)
Definition entry_at {A} `{Entry A} (file : bytes) (i : nat) : A :=
  e_read (take e_size (drop (i * e_size) file)).

Definition file_of_entries {A} `{Entry A} (xs : list A) : bytes := concat (e_bytes <$> xs).

Lemma file_of_entries_app {A} `{Entry A} (xs ys : list A) :
  file_of_entries (xs ++ ys) = file_of_entries xs ++ file_of_entries ys.
Proof. unfold file_of_entries. by rewrite fmap_app, concat_app. Qed.

Lemma entry_at_lookup {A} `{Entry A} (xs : list A) i x :
  xs !! i = Some x -> e_wf x -> entry_at (file_of_entries xs) i = x.
Proof.
  unfold entry_at. revert i. induction xs as [|y xs IH]; intros i Hi Hx; [done|].
  unfold file_of_entries. rewrite fmap_cons. cbn [concat].
  destruct i as [|i]; cbn [lookup list_lookup Nat.mul] in *.
  - injection Hi as ->. rewrite drop_0, take_app_length' by (symmetry; apply e_length).
    by apply e_read_bytes.
  - rewrite drop_app_ge by (rewrite e_length; lia). rewrite e_length.
    replace (e_size + i * e_size - e_size)%nat with (i * e_size)%nat by lia. by apply IH.
Qed.

Lemma slice_app_mid (a b c : bytes) start len :
  start = Z.of_nat (length a) -> len = Z.of_nat (length b) -> slice (a ++ b ++ c) start len = b.
Proof.
  intros -> ->. unfold slice. rewrite !Nat2Z.id, drop_app_length, take_app_length. done.
Qed.

(** ** Numbers *)

Lemma unle_le_id n z : 0 <= z < 256 ^ Z.of_nat n -> unle (le n z) = z.
Proof. intros Hz. by rewrite CapSpec.unle_le, Z.mod_small. Qed.

Lemma take_le n z (bs : bytes) : take n (le n z ++ bs) = le n z.
Proof. by rewrite take_app_length' by (symmetry; apply CapSpec.length_le). Qed.

Lemma drop_le n m z (bs : bytes) : (n <= m)%nat -> drop m (le n z ++ bs) = drop (m - n) bs.
Proof. intros Hm. rewrite drop_app_ge; rewrite CapSpec.length_le; done. Qed.

Lemma take_le_nil n z : take n (le n z) = le n z.
Proof. by rewrite take_ge by (rewrite CapSpec.length_le; lia). Qed.

(** Reads the fields of a record that was written. *)
Ltac read_le :=
  repeat (rewrite drop_le by lia; cbn [Nat.sub]); rewrite ?drop_0, ?take_le, ?take_le_nil;
  apply unle_le_id; simpl Z.of_nat; lia.

Module CapRead.
Import Cap CapSpec.

(** ** The index entries *)

Definition read_fidx (bs : bytes) : s_fidx_t :=
  Build_s_fidx_t (unle (take 8 bs)) (unle (take 4 (drop 8 bs))) (unle (take 2 (drop 12 bs)))
    (unle (take 1 (drop 14 bs))) (unle (take 1 (drop 15 bs))).
Definition read_tidx (bs : bytes) : s_tidx_t :=
  Build_s_tidx_t (unle (take 4 bs)) (unle (take 4 (drop 4 bs))).
Definition read_sidx (bs : bytes) : s_sidx_t :=
  Build_s_sidx_t (unle (take 8 bs)) (unle (take 8 (drop 8 bs))).

Record fidx_wf (x : s_fidx_t) : Prop := {
  fw_start : is_u64 (fi_start x);
  fw_length : is_u32 (fi_length x);
  fw_esize : is_u16 (fi_esize x);
  fw_changed : is_u8 (fi_changed x);
  fw_ftype : is_u8 (fi_ftype x);
}.
Definition tidx_wf (x : s_tidx_t) : Prop := is_u32 (start_frame x) /\ is_u32 (stop_frame x).
Definition sidx_wf (x : s_sidx_t) : Prop := is_u64 (si_start x) /\ is_u64 (si_length x).

Lemma read_fidx_bytes x : fidx_wf x -> read_fidx (fidx_bytes x) = x.
Proof.
  destruct x as [a b c d e]. intros [Ha Hb Hc Hd He]. unfold is_u64, is_u32, is_u16, is_u8 in *.
  cbn in Ha, Hb, Hc, Hd, He. unfold read_fidx, fidx_bytes.
  cbn [fi_start fi_length fi_esize fi_changed fi_ftype]. f_equal; read_le.
Qed.

Lemma read_tidx_bytes x : tidx_wf x -> read_tidx (tidx_bytes x) = x.
Proof.
  destruct x as [a b]. intros [Ha Hb]. unfold is_u32 in *. cbn in Ha, Hb.
  unfold read_tidx, tidx_bytes. cbn [start_frame stop_frame]. f_equal; read_le.
Qed.

Lemma read_sidx_bytes x : sidx_wf x -> read_sidx (sidx_bytes x) = x.
Proof.
  destruct x as [a b]. intros [Ha Hb]. unfold is_u64 in *. cbn in Ha, Hb.
  unfold read_sidx, sidx_bytes. cbn [si_start si_length]. f_equal; read_le.
Qed.

#[export] Instance fidx_entry : Entry s_fidx_t :=
  Build_Entry _ 16 fidx_bytes read_fidx fidx_wf length_fidx read_fidx_bytes.
#[export] Instance tidx_entry : Entry s_tidx_t :=
  Build_Entry _ 8 tidx_bytes read_tidx tidx_wf length_tidx read_tidx_bytes.
#[export] Instance sidx_entry : Entry s_sidx_t :=
  Build_Entry _ 16 sidx_bytes read_sidx sidx_wf length_sidx read_sidx_bytes.

(** ** The statistics file *)

Record stats_wf (s : s_stats_t) : Prop := {
  sw_ticks : is_u64 (ticks s);
  sw_events : is_u64 (events s);
  sw_traces : is_u64 (traces s);
  sw_hists : is_u64 (hists s);
  sw_frames : is_u64 (frames s);
  sw_lost : is_u64 (frames_lost s);
  sw_dropped : is_u64 (frames_dropped s);
  sw_errors : is_u64 (errors s);
}.

Lemma length_stats s : length (stats_bytes s) = 64%nat.
Proof. unfold stats_bytes. by rewrite !length_app, !length_le. Qed.

Lemma splice_all (m bs : bytes) : length bs = length m -> splice m 0 bs = bs.
Proof.
  intros Hl. unfold splice. change (Z.to_nat 0) with 0%nat. cbn [take].
  rewrite drop_ge by lia. apply app_nil_r.
Qed.

Lemma load_stats_bytes s : stats_wf s -> load_stats (stats_bytes s) = s.
Proof.
  destruct s as [a b c d e f g h]. intros [Ha Hb Hc Hd He Hf Hg Hh]. unfold is_u64 in *.
  cbn in Ha, Hb, Hc, Hd, He, Hf, Hg, Hh. unfold load_stats, stats_bytes.
  cbn [ticks events traces hists frames frames_lost frames_dropped errors]. f_equal; read_le.
Qed.

Lemma stats_ok past : stats_wf (stats past).
Proof. split; try apply to_u64_range; done. Qed.

Section Files.
Context `{CapEnv}.

(** ** The frame index *)

(** What is on the stack is a byte. *)
Definition stack_bytes : Prop := forall n, is_u8 (cap_stack n).

Fixpoint fidxs (p0 : Z * Z) (past : list frame) : list s_fidx_t :=
  match past with [] => [] | f :: past => fidxs p0 past ++ [fidx p0 past f] end.

Lemma fidx_stream_eq p0 past : fidx_stream p0 past = file_of_entries (fidxs p0 past).
Proof.
  induction past as [|f past IH]; [done|]. cbn [fidx_stream fidxs].
  by rewrite file_of_entries_app, <- IH.
Qed.

Lemma length_fidxs p0 past : length (fidxs p0 past) = length past.
Proof. induction past as [|f past IH]; [done|]. cbn [fidxs length]. rewrite length_app, IH. cbn. lia. Qed.

Lemma fidxs_lookup p0 later f past : fidxs p0 (later ++ f :: past) !! length past = Some (fidx p0 past f).
Proof.
  induction later as [|g later IH]; cbn [app fidxs].
  - rewrite lookup_app_r by (rewrite length_fidxs; lia). by rewrite length_fidxs, Nat.sub_diag.
  - rewrite lookup_app_l; [done|]. rewrite length_fidxs, length_app. cbn [length]. lia.
Qed.

(** The data file that PT says. *)
Definition file_of_PT (pt : Z) : nat :=
  if pt =? FTYPE_BAD then DSET_BDAT else if pt =? FTYPE_MCA then DSET_MDAT
  else if pt =? FTYPE_TICK then DSET_TDAT else DSET_EDAT.

Lemma ptype_range f : 0 <= ptype f < 16.
Proof.
  unfold ptype, FTYPE_BAD, FTYPE_MCA, FTYPE_TICK. pose proof (linear_etype_range (f_pkt f)).
  destruct (bad f), (is_mca f), (is_tick f); lia.
Qed.

Lemma file_of_ptype f : file_of_PT (ptype f) = dset_of f.
Proof.
  unfold file_of_PT, ptype, dset_of, FTYPE_BAD, FTYPE_MCA, FTYPE_TICK.
  pose proof (linear_etype_range (f_pkt f)).
  destruct (bad f); [done|]. destruct (is_mca f); [done|]. destruct (is_tick f); [done|].
  by rewrite !(proj2 (Z.eqb_neq _ _)) by lia.
Qed.

Lemma frame_ftype_fields n missed pt hdr : is_u8 (cap_stack n) -> 0 <= pt < 16 ->
  let b := frame_ftype n missed pt hdr in
  is_u8 b /\ ft_PT b = pt /\ ft_SEQ b = (if 0 <? missed then 1 else 0) /\ (hdr = true -> ft_HDR b = 1).
Proof.
  intros Hs Hp. cbv zeta. unfold frame_ftype, ft_PT, ft_SEQ, ft_HDR, set_PT, set_SEQ, set_HDR.
  set (b0 := set_bitfield _ 7 1 0).
  set (b1 := if 0 <? missed then _ else b0).
  assert (Hb0 : is_u8 b0) by (apply set_bitfield_u8; [done|lia..]).
  assert (Hb1 : is_u8 b1) by (unfold b1; case_if; [apply set_bitfield_u8; [done|lia..]|done]).
  assert (Hq1 : bitfield b1 7 1 = if 0 <? missed then 1 else 0).
  { unfold b1, b0. unfold is_u8 in *. destruct (0 <? missed); by rewrite bitfield_set_same by lia. }
  set (b2 := set_bitfield b1 0 4 pt).
  assert (Hb2 : is_u8 b2) by (apply set_bitfield_u8; [done|lia..]).
  assert (Hpt : bitfield b2 0 4 = pt).
  { unfold b2, is_u8 in *. rewrite bitfield_set_same by lia. apply Z.mod_small. lia. }
  assert (Hq2 : bitfield b2 7 1 = if 0 <? missed then 1 else 0)
    by (unfold b2; by rewrite bitfield_set_other by lia).
  destruct hdr; [|done]. split; [apply set_bitfield_u8; [done|lia..]|].
  rewrite !(bitfield_set_other b2) by lia. split; [done|]. split; [done|]. intros _.
  unfold is_u8 in *. by rewrite bitfield_set_same by lia.
Qed.

Lemma data_stream_prefix s later past : data_stream s past `prefix_of` data_stream s (later ++ past).
Proof.
  induction later as [|f later IH]; [done|]. cbn [app data_stream]. by apply prefix_app_r.
Qed.

Lemma slice_prefix (m m' : bytes) start len : m `prefix_of` m' -> 0 <= start -> 0 <= len ->
  start + len <= Z.of_nat (length m) -> slice m' start len = slice m start len.
Proof.
  intros [k ->] Hs Hl Hm. unfold slice. rewrite drop_app_le by lia.
  rewrite take_app_le; [done|]. rewrite length_drop. lia.
Qed.

Lemma payload_located later f past : frame_ok f ->
  slice (data_stream (dset_of f) (later ++ f :: past)) (offset (dset_of f) past) (paylen f) = payload f.
Proof.
  intros Hf. pose proof (paylen_range f Hf). pose proof (length_f_payload f Hf).
  rewrite (slice_prefix (data_stream (dset_of f) (f :: past))).
  - cbn [data_stream]. rewrite decide_True by done. rewrite <- (app_nil_r (payload f)) at 1.
    by apply slice_app_mid.
  - apply data_stream_prefix.
  - unfold offset. lia.
  - lia.
  - cbn [data_stream]. rewrite decide_True by done. rewrite length_app. unfold offset. lia.
Qed.

Lemma tespkt_esize_u16 f : is_u16 (tespkt_esize (f_pkt f)).
Proof. unfold tespkt_esize, ftohs. apply load16_range. Qed.

Lemma fidx_is_wf p0 past f : stack_bytes -> Forall frame_ok (f :: past) ->
  Z.of_nat (length past) < 2 ^ 52 -> fidx_wf (fidx p0 past f).
Proof.
  intros Hst Hf Hl. apply Forall_cons in Hf as [Hok Hf]. pose proof (paylen_range f Hok).
  pose proof (stream_bound p0 past (dset_of f) Hf) as Hb.
  rewrite stream_dset in Hb. split; cbn [fidx fi_start fi_length fi_esize fi_changed fi_ftype].
  - unfold offset, is_u64. lia.
  - unfold is_u32. lia.
  - apply tespkt_esize_u16.
  - unfold changed. by case_if.
  - apply frame_ftype_fields; [apply Hst|apply ptype_range].
Qed.

(** ** The indices of histograms and traces *)

Lemma sidx_stream_eq tr past : sidx_stream tr past = file_of_entries (entries tr past).
Proof. done. Qed.

Definition kind (tr : bool) (f : frame) : bool := if tr then is_trace f else is_mca f.
Definition stream_file (tr : bool) : nat := if tr then DSET_EDAT else DSET_MDAT.

(** The frames of a histogram or trace of the given size, the last one first:
    a header that announces the size; then frames of its kind that are not
    headers, with none missed in front of them; bad frames may come in between,
    and frames may be missed in front of those. *)
Inductive segment (tr : bool) (size : Z) : list frame -> Prop :=
  | seg_header h :
      bad h = false -> kind tr h = true -> is_header h = true -> size_of h = size ->
      segment tr size [h]
  | seg_next f seg :
      bad f = false -> kind tr f = true -> is_header f = false -> f_missed f = 0 ->
      segment tr size seg -> segment tr size (f :: seg)
  | seg_bad f seg : bad f = true -> segment tr size seg -> segment tr size (f :: seg).

(** The payloads of the good frames, in the order of arrival. *)
Fixpoint good_payloads (seg : list frame) : bytes :=
  match seg with
  | [] => []
  | f :: seg => good_payloads seg ++ (if bad f then [] else payload f)
  end.

(** A frame of the stream that arrived whole: its last frame completes it. *)
Definition whole (tr : bool) (size : Z) (seg : list frame) : Prop :=
  segment tr size seg /\ (exists f seg', seg = f :: seg' /\ bad f = false) /\
  size = Z.of_nat (length (good_payloads seg)).

Lemma dset_of_kind tr f : bad f = false -> kind tr f = true -> dset_of f = stream_file tr.
Proof.
  intros Hb Hk. unfold dset_of. rewrite Hb. destruct tr; cbn [kind stream_file] in *.
  - rewrite (is_trace_not_mca f Hk). destruct (is_tick f) eqn:Et; [|done].
    apply is_tick_not_long in Et as [_ Et]. congruence.
  - by rewrite Hk.
Qed.

Lemma dset_of_bad tr f : bad f = true -> dset_of f <> stream_file tr.
Proof. unfold dset_of. intros ->. by destruct tr. Qed.

Lemma data_stream_app s later past :
  data_stream s (later ++ past) = data_stream s past ++ data_stream s later.
Proof.
  induction later as [|f later IH]; cbn [app data_stream]; [by rewrite app_nil_r|].
  by rewrite IH, app_assoc.
Qed.

(** The frames of a stream are what their part of the data file has. *)
Lemma segment_payloads tr size seg :
  segment tr size seg -> data_stream (stream_file tr) seg = good_payloads seg.
Proof.
  induction 1 as [h Hb Hk _ _|f seg Hb Hk _ _ _ IH|f seg Hb _ IH];
    cbn [data_stream good_payloads]; rewrite ?Hb, ?IH.
  - by rewrite decide_True by by apply dset_of_kind.
  - by rewrite decide_True by by apply dset_of_kind.
  - by rewrite decide_False by by apply dset_of_bad.
Qed.

(** What is known of the stream that is being received. *)
Definition following (past : list frame) (g : ongoing) : Prop :=
  exists seg earlier, past = seg ++ earlier /\ segment (og_trace g) (og_size g) seg /\
    og_start g = offset (stream_file (og_trace g)) earlier /\
    og_got g = Z.of_nat (length (good_payloads seg)).

(** What is known of an entry. *)
Definition located (past : list frame) (tr : bool) (x : s_sidx_t) : Prop :=
  exists seg earlier, past = seg ++ earlier /\ whole tr (si_length x) seg /\
    si_start x = offset (stream_file tr) earlier.

Lemma collect_inv tr size f seg earlier :
  frame_ok f -> bad f = false -> segment tr size (f :: seg) ->
  match collect (Ongoing tr (offset (stream_file tr) earlier) size
           (Z.of_nat (length (good_payloads seg)))) (paylen f) with
  | (Some g, None) => following (f :: seg ++ earlier) g
  | (None, Some (tr', x)) => located (f :: seg ++ earlier) tr' x
  | (None, None) => True
  | (Some _, Some _) => False
  end.
Proof.
  intros Hok Hb Hs. pose proof (length_f_payload f Hok) as Hp.
  assert (Hl : Z.of_nat (length (good_payloads (f :: seg))) =
      Z.of_nat (length (good_payloads seg)) + paylen f)
    by (cbn [good_payloads]; rewrite Hb, length_app; lia).
  unfold collect. cbn [og_size og_got og_trace og_start]. rewrite <- Hl.
  destruct (size <? _); [done|].
  destruct (Z.eqb_spec (Z.of_nat (length (good_payloads (f :: seg)))) size) as [E|E].
  - exists (f :: seg), earlier. split; [done|]. split; [|done]. split; [done|].
    split; [by exists f, seg|done].
  - by exists (f :: seg), earlier.
Qed.

Lemma continues_spec g f : continues g f = true ->
  kind (og_trace g) f = true /\ is_header f = false /\ f_missed f = 0.
Proof.
  unfold continues, kind. intros Hc. destruct (og_trace g); bool_hyps; split_and!; try done; lia.
Qed.

Lemma starts_spec f : starts None f = true ->
  bad f = false /\ kind (is_trace f) f = true /\ is_header f = true.
Proof.
  unfold starts, kind. intros Hs. apply andb_true_iff in Hs as [Hs _].
  apply andb_true_iff in Hs as [Hs Hh]. apply andb_true_iff in Hs as [Hb Hl].
  destruct (bad f), (is_trace f); done.
Qed.

Lemma header_trace tr f : kind tr f = true -> is_trace f = tr.
Proof.
  destruct tr; cbn [kind]; [done|]. intros Hm. destruct (is_trace f) eqn:E; [|done].
  by rewrite (is_trace_not_mca f E) in Hm.
Qed.

Lemma header_starts tr f : bad f = false -> kind tr f = true -> is_header f = true -> starts None f = true.
Proof.
  intros Hb Hk Hh. unfold starts. rewrite Hb, Hh. destruct tr; cbn [kind] in Hk; rewrite Hk; [done|].
  by rewrite orb_true_r.
Qed.

Lemma following_bad past f g : bad f = true -> following past g -> following (f :: past) g.
Proof.
  intros Hb (seg & earlier & -> & Hs & Ho & Hg). exists (f :: seg), earlier. split; [done|].
  split; [by apply seg_bad|]. split; [done|]. cbn [good_payloads]. by rewrite Hb, app_nil_r.
Qed.

Lemma follow_inv past f : frame_ok f -> (forall g, stream_of past = Some g -> following past g) ->
  match follow (stream_of past) past f with
  | (Some g, None) => following (f :: past) g
  | (None, Some (tr, x)) => located (f :: past) tr x
  | (None, None) => True
  | (Some _, Some _) => False
  end.
Proof.
  intros Hok Hinv. unfold follow. destruct (bad f) eqn:Hb.
  { destruct (stream_of past) as [g|]; [|done]. by apply following_bad, Hinv. }
  destruct (stream_of past) as [[tr start size got]|] eqn:Eo.
  - destruct (continues _ f) eqn:Ec; [|done].
    destruct (Hinv _ eq_refl) as (seg & earlier & -> & Hs & Ho & Hg).
    destruct (continues_spec _ _ Ec) as (Hk & Hh & Hm).
    cbn [og_trace og_size og_start og_got] in *. rewrite Ho, Hg.
    apply collect_inv; try done. by apply seg_next.
  - destruct (starts None f) eqn:Es; [|done]. destruct (starts_spec f Es) as (_ & Hk & Hh).
    rewrite (dset_of_kind _ f Hb Hk).
    apply (collect_inv (is_trace f) (size_of f) f [] past); try done. by apply seg_header.
Qed.

Lemma stream_following past : Forall frame_ok past ->
  forall g, stream_of past = Some g -> following past g.
Proof.
  induction 1 as [|f past Hok Hf IH]; [done|]. intros g Hg. cbn [stream_of] in Hg.
  pose proof (follow_inv past f Hok IH) as Hi.
  destruct (follow (stream_of past) past f) as [[g'|] [[tr x]|]]; cbn [fst] in Hg; try done.
  by injection Hg as <-.
Qed.

Lemma entry_located past f tr x : Forall frame_ok (f :: past) -> entry past f = Some (tr, x) ->
  located (f :: past) tr x.
Proof.
  intros [Hok Hf]%Forall_cons He. pose proof (follow_inv past f Hok (stream_following past Hf)) as Hi.
  unfold entry in He. destruct (follow (stream_of past) past f) as [[g|] [[tr' x']|]];
    cbn [snd] in He; try done. by injection He as <- <-.
Qed.

(** Where an entry comes from. *)
Lemma entries_lookup tr past i x : entries tr past !! i = Some x -> exists later f earlier,
  past = later ++ f :: earlier /\ i = length (entries tr earlier) /\ entry earlier f = Some (tr, x).
Proof.
  induction past as [|f past IH]; [done|]. cbn [entries]. intros Hi.
  apply lookup_app_Some in Hi as [Hi|[Hl Hi]].
  - destruct (IH Hi) as (later & g & earlier & -> & Hle & He). by exists (f :: later), g, earlier.
  - exists [], f, past. split; [done|].
    destruct (entry past f) as [[tr' x']|]; [|done].
    case_bool_decide as E; [|done]. apply list_lookup_singleton_Some in Hi as [Hi <-].
    subst. split; [lia|done].
Qed.

Lemma entry_lookup later f past tr x : entry past f = Some (tr, x) ->
  entries tr (later ++ f :: past) !! length (entries tr past) = Some x.
Proof.
  intros He. induction later as [|g later IH]; cbn [app entries].
  - rewrite He, bool_decide_eq_true_2 by done. rewrite lookup_app_r by lia. by rewrite Nat.sub_diag.
  - rewrite lookup_app_l; [done|]. by eapply lookup_lt_Some.
Qed.

(** The part of the data file that an entry says. *)
Lemma segment_slice tr x seg later earlier :
  whole tr (si_length x) seg -> si_start x = offset (stream_file tr) earlier ->
  slice (data_stream (stream_file tr) (later ++ seg ++ earlier)) (si_start x) (si_length x) =
    good_payloads seg.
Proof.
  intros (Hs & _ & Hl) Hst. rewrite !data_stream_app, <- app_assoc, (segment_payloads _ _ _ Hs).
  by apply slice_app_mid.
Qed.

Lemma located_wf past tr x : Forall frame_ok past -> Z.of_nat (length past) < 2 ^ 52 ->
  located past tr x -> sidx_wf x.
Proof.
  intros Hf Hl (seg & earlier & -> & (Hs & _ & Hlen) & Hst).
  pose proof (stream_bound (0, 0) (seg ++ earlier) (stream_file tr) Hf) as Hb.
  assert (stream (0, 0) (stream_file tr) (seg ++ earlier) = data_stream (stream_file tr) (seg ++ earlier))
    as Est by by destruct tr.
  rewrite Est, data_stream_app, length_app, (segment_payloads _ _ _ Hs) in Hb.
  unfold sidx_wf, is_u64, offset in *. lia.
Qed.

(** *** Conversely, whatever arrives whole gets an entry *)

(** While a stream of which less than its size has come is received. *)
Lemma segment_ongoing tr size seg earlier : segment tr size seg -> Forall frame_ok seg ->
  stream_of earlier = None -> Z.of_nat (length (good_payloads seg)) < size ->
  stream_of (seg ++ earlier) = Some (Ongoing tr (offset (stream_file tr) earlier) size
    (Z.of_nat (length (good_payloads seg)))).
Proof.
  intros Hs. induction Hs as [h Hb Hk Hh Hsz|f seg Hb Hk Hh Hm Hs IH|f seg Hb Hs IH];
    intros [Hf Hfs]%Forall_cons Ho Hlt; cbn [good_payloads app stream_of] in *;
    rewrite ?Hb in *; rewrite ?app_nil_r in Hlt |- *.
  - unfold follow. rewrite Hb, Ho, (header_starts tr h Hb Hk Hh), (header_trace tr h Hk), Hsz.
    rewrite (dset_of_kind tr h Hb Hk). unfold collect. cbn [og_size og_got og_trace og_start app] in *.
    pose proof (length_f_payload h Hf).
    rewrite (proj2 (Z.ltb_ge _ _)), (proj2 (Z.eqb_neq _ _)) by lia. cbn [fst]. do 2 f_equal. lia.
  - rewrite length_app in Hlt |- *. pose proof (length_f_payload f Hf). pose proof (paylen_range f Hf).
    rewrite IH by (done || lia). unfold follow. rewrite Hb.
    unfold continues. cbn [og_trace]. unfold kind in Hk. rewrite Hk, Hh, Hm. cbn [negb andb Z.eqb].
    unfold collect. cbn [og_size og_got og_trace og_start].
    rewrite (proj2 (Z.ltb_ge _ _)), (proj2 (Z.eqb_neq _ _)) by lia. cbn [fst]. do 2 f_equal. lia.
  - rewrite IH by done. unfold follow. by rewrite Hb.
Qed.

Lemma whole_entry tr size f seg earlier : whole tr size (f :: seg) -> Forall frame_ok (f :: seg) ->
  stream_of earlier = None ->
  entry (seg ++ earlier) f = Some (tr, Build_s_sidx_t (offset (stream_file tr) earlier) size).
Proof.
  intros (Hs & (f' & seg' & [= <- <-] & Hb) & Hsz) [Hf Hfs]%Forall_cons Ho. unfold entry.
  pose proof (length_f_payload f Hf) as Hp. pose proof (paylen_range f Hf).
  cbn [good_payloads] in Hsz. rewrite Hb, length_app in Hsz.
  inversion Hs as [h _ Hk Hh Hsz'|f0 seg0 _ Hk Hh Hm Hs'|f0 seg0 Hb']; subst; [| |congruence].
  - cbn [app] in *. unfold follow. rewrite Hb, Ho, (header_starts tr f Hb Hk Hh), (header_trace tr f Hk).
    rewrite (dset_of_kind tr f Hb Hk). unfold collect. cbn [og_size og_got og_trace og_start good_payloads length] in *.
    rewrite (proj2 (Z.ltb_ge _ _)), (proj2 (Z.eqb_eq _ _)) by lia. cbn [snd]. do 3 f_equal. lia.
  - rewrite (segment_ongoing tr _ seg earlier Hs' Hfs Ho) by lia. unfold follow. rewrite Hb.
    unfold continues. cbn [og_trace]. unfold kind in Hk. rewrite Hk, Hh, Hm. cbn [negb andb Z.eqb].
    unfold collect. cbn [og_size og_got og_trace og_start].
    rewrite (proj2 (Z.ltb_ge _ _)), (proj2 (Z.eqb_eq _ _)) by lia. done.
Qed.

(** ** The tick index *)

(** The numbers of the event frames since the last tick. *)
Fixpoint tick_frames (past : list frame) : list Z :=
  match past with
  | [] => []
  | f :: past =>
      if bad f || is_mca f then tick_frames past
      else if is_tick f then [] else tick_frames past ++ [Z.of_nat (length past)]
  end.

(** The entry that stands for the event frames [fs]; the stop frame of fewer
    than two is that of the entry before, [old]. *)
Definition tick_entry_of (old : Z) (fs : list Z) : s_tidx_t -> Prop := fun x =>
  match fs with
  | [] => True
  | [n] => start_frame x = n /\ stop_frame x = old
  | n :: fs => start_frame x = n /\ Some (stop_frame x) = list.last fs
  end.

(** The stop frame before the event frames since the last tick. *)
Fixpoint old_stop (past : list frame) : Z :=
  match past with
  | [] => 0
  | f :: past =>
      if negb (bad f || is_mca f) && is_tick f then stop_frame (tidx (tick_of past))
      else old_stop past
  end.

Record tick_inv (past : list frame) : Prop := {
  ti_nframes : nframes (tick_of past) = Z.of_nat (length (tick_frames past));
  ti_entry : tick_entry_of (old_stop past) (tick_frames past) (tidx (tick_of past));
  ti_empty : tick_frames past = [] -> stop_frame (tidx (tick_of past)) = old_stop past;
  ti_length : (length (tick_frames past) <= length past)%nat;
  ti_wf : tidx_wf (tidx (tick_of past));
}.

Lemma tick_frame_entry old fs n x k :
  tick_entry_of old fs x -> (fs = [] -> stop_frame x = old) -> k = Z.of_nat (length fs) -> is_u32 n ->
  tick_entry_of old (fs ++ [n]) (tidx (tick_frame (Build_s_tick_t x k) n)).
Proof.
  intros He Hem -> Hn. unfold tick_frame. cbn [nframes tidx]. rewrite (to_u32_id n Hn).
  destruct fs as [|m fs]; [by split; [|apply Hem]|]. cbn [length app].
  rewrite (proj2 (Z.eqb_neq _ _)) by lia. cbn [tick_entry_of].
  destruct fs as [|m' fs]; cbn [app tick_entry_of start_frame stop_frame] in *.
  - by destruct He as [-> _].
  - destruct He as [-> _]. split; [done|]. by rewrite app_comm_cons, last_snoc.
Qed.

Lemma tick_inv_ok past : Z.of_nat (length past) < 2 ^ 32 -> tick_inv past.
Proof.
  induction past as [|f past IH]; intros Hl; [by split|]. cbn [length] in Hl.
  destruct IH as [Hn He Hem Hle Hw]; [lia|].
  destruct (bad f || is_mca f) eqn:Eb.
  { split; cbn [tick_of tick_frames old_stop length]; rewrite Eb; try done. lia. }
  destruct (is_tick f) eqn:Et.
  { split; cbn [tick_of tick_frames old_stop length]; rewrite Eb, Et; try done. cbn. lia. }
  assert (Hu : is_u32 (Z.of_nat (length past))) by (unfold is_u32; lia).
  split; cbn [tick_of tick_frames old_stop length]; rewrite Eb, Et.
  - unfold tick_frame. cbn [nframes]. rewrite Hn, length_app. cbn [length].
    rewrite to_u32_id by (unfold is_u32; lia). lia.
  - cbn [negb andb]. destruct (tick_of past) as [x k]. by apply tick_frame_entry.
  - intros E. by destruct (tick_frames past).
  - rewrite length_app. cbn [length]. lia.
  - unfold tick_frame, tidx_wf in *. case_if; cbn [tidx start_frame stop_frame]; split; try apply Hw;
      apply to_u32_range.
Qed.

Fixpoint tidxs (past : list frame) : list s_tidx_t :=
  match past with
  | [] => []
  | f :: past => tidxs past ++ (if good_tick f && (0 <? n_ticks past) then [tidx (tick_of past)] else [])
  end.

Lemma tidx_stream_eq past : tidx_stream past = file_of_entries (tidxs past).
Proof.
  induction past as [|f past IH]; [done|]. cbn [tidx_stream tidxs].
  rewrite file_of_entries_app, <- IH. by destruct (_ && _).
Qed.

Lemma length_tidxs past : Z.of_nat (length (tidxs past)) = Z.max 0 (n_ticks past - 1).
Proof.
  induction past as [|f past IH]; [done|]. cbn [tidxs n_ticks]. rewrite length_app, Nat2Z.inj_add, IH.
  pose proof (n_ticks_range past). destruct (good_tick f); cbn [andb]; [|cbn [length]; lia].
  destruct (Z.ltb_spec 0 (n_ticks past)); cbn [length]; lia.
Qed.

(** The entry that a tick completes is the one with the number of the ticks
    before it. *)
Lemma tidxs_lookup later f past : good_tick f = true -> 0 < n_ticks past ->
  tidxs (later ++ f :: past) !! Z.to_nat (n_ticks past - 1) = Some (tidx (tick_of past)).
Proof.
  intros Hg Hn. pose proof (length_tidxs past) as Hl.
  induction later as [|g later IH]; cbn [app tidxs].
  - rewrite Hg, (proj2 (Z.ltb_lt _ _)) by done. cbn [andb]. rewrite lookup_app_r by lia.
    by replace (Z.to_nat (n_ticks past - 1) - length (tidxs past))%nat with 0%nat by lia.
  - rewrite lookup_app_l; [done|]. by eapply lookup_lt_Some.
Qed.

(** ** Nothing is cut *)

Lemma events_of_range past f : frame_ok f -> 0 <= events_of past f <= 184.
Proof.
  intros Hok. unfold events_of. destruct (bad f) eqn:Hb; [lia|].
  destruct (entry past f) as [[[] x]|]; [lia..|].
  destruct (is_mca f || is_trace f || is_tick f) eqn:E; [lia|].
  assert (Hv : valid_frame (f_pkt f)).
  { apply (fo_valid _ Hok). unfold bad, c_true in Hb. lia. }
  assert (He : tespkt_is_event (f_pkt f) = true).
  { destruct Hv as [_ [Hv|Hv]]; [apply Hv|]. destruct Hv as [Hv _ _]. unfold is_mca in E.
    rewrite Hv in E. done. }
  destruct (valid_event_nums_done _ Hv He) as (n & -> & Hn). lia.
Qed.

Lemma counts_range past : Forall frame_ok past ->
  0 <= n_events past <= 184 * Z.of_nat (length past) /\
  0 <= n_lost past <= 65535 * Z.of_nat (length past).
Proof.
  induction 1 as [|f past Hok Hf IH]; [done|]. cbn [n_events n_lost length].
  pose proof (events_of_range past f Hok). pose proof (fo_missed _ Hok). unfold is_u16 in *. lia.
Qed.

Lemma prev_of_u8 p0 past : is_u8 p0.1 -> is_u8 p0.2 ->
  is_u8 (prev_of p0 past).1 /\ is_u8 (prev_of p0 past).2.
Proof.
  intros H1 H2. induction past as [|f past IH]; [done|]. cbn [prev_of].
  destruct (is_event_frame f); [|done]. split; [apply to_u8_range|].
  pose proof (ptype_range f). unfold is_u8. cbn [snd]. lia.
Qed.

Lemma fidxs_wf p0 past : stack_bytes -> Forall frame_ok past -> Z.of_nat (length past) < 2 ^ 52 ->
  Forall fidx_wf (fidxs p0 past).
Proof.
  intros Hst Hf Hl. induction past as [|f past IH]; [constructor|]. cbn [fidxs length] in *.
  apply Forall_app. split; [apply IH; [by apply Forall_cons in Hf as [_ ?]|lia]|].
  apply Forall_singleton. apply fidx_is_wf; [done..|lia].
Qed.

Lemma tidxs_wf past : Z.of_nat (length past) < 2 ^ 32 -> Forall tidx_wf (tidxs past).
Proof.
  induction past as [|f past IH]; [constructor|]. cbn [tidxs length]. intros Hl.
  apply Forall_app. split; [apply IH; lia|].
  destruct (_ && _); [|constructor]. apply Forall_singleton. apply tick_inv_ok. lia.
Qed.

Lemma entries_wf tr past : Forall frame_ok past -> Z.of_nat (length past) < 2 ^ 52 ->
  Forall sidx_wf (entries tr past).
Proof.
  intros Hf Hl. apply Forall_lookup. intros i x Hi.
  destruct (entries_lookup tr past i x Hi) as (later & f & earlier & -> & _ & He).
  apply Forall_app in Hf as [_ Hf]. rewrite length_app in Hl.
  eapply located_wf; [exact Hf|lia|by apply entry_located].
Qed.

Lemma length_entries tr past : (length (entries tr past) <= length past)%nat.
Proof.
  induction past as [|f past IH]; cbn [entries length]; [lia|]. rewrite length_app.
  destruct (entry past f) as [[tr' x]|]; [case_bool_decide|]; cbn [length]; lia.
Qed.

Lemma stats_exact past : Forall frame_ok past -> Z.of_nat (length past) < 2 ^ 32 ->
  stats past = Build_s_stats_t (n_ticks past) (n_events past)
    (Z.of_nat (length (entries true past))) (Z.of_nat (length (entries false past)))
    (Z.of_nat (length past)) (n_lost past) 0 0.
Proof.
  intros Hf Hl. pose proof (counts_range past Hf). pose proof (n_ticks_range past).
  pose proof (length_entries true past). pose proof (length_entries false past).
  unfold stats. rewrite !to_u64_id by (unfold is_u64; lia). done.
Qed.
End Files.
End CapRead.

#[local] Existing Instances CapSample.env CapRead.fidx_entry CapRead.tidx_entry CapRead.sidx_entry.

(** ** Properties *)

(** C19: the frame index leads to every frame: the entry with the number of a
    frame, read from the file, gives in PT the data file, and in start and
    length the part of it that is the payload of the frame; the event size and
    the sequence error bit are those of the frame too, and the header bit is
    set for the frame that starts a histogram or trace. *)
Theorem frame_index_locates `{CapEnv} p0 later f earlier :
  CapRead.stack_bytes -> Forall CapSpec.frame_ok (later ++ f :: earlier) ->
  Z.of_nat (length (later ++ f :: earlier)) < 2 ^ 52 ->
  let past := later ++ f :: earlier in
  let x := entry_at (CapSpec.stream p0 DSET_FIDX past) (length earlier) in
  slice (CapSpec.stream p0 (CapRead.file_of_PT (Cap.ft_PT (Cap.fi_ftype x))) past)
    (Cap.fi_start x) (Cap.fi_length x) = CapSpec.payload f /\
  Cap.ft_PT (Cap.fi_ftype x) = CapSpec.ptype f /\
  Cap.fi_esize x = tespkt_esize (CapSpec.f_pkt f) /\
  Cap.ft_SEQ (Cap.fi_ftype x) = (if 0 <? CapSpec.f_missed f then 1 else 0) /\
  (CapSpec.starts (CapSpec.stream_of earlier) f = true -> Cap.ft_HDR (Cap.fi_ftype x) = 1).
Proof.
  intros Hst Hf Hl past x. pose proof Hf as Hf'. apply Forall_app in Hf' as [_ Hf'].
  rewrite length_app in Hl. cbn [length] in Hl.
  assert (Ex : x = CapSpec.fidx p0 earlier f).
  { unfold x. change (CapSpec.stream p0 DSET_FIDX past) with (CapSpec.fidx_stream p0 past).
    rewrite CapRead.fidx_stream_eq. apply entry_at_lookup; [apply CapRead.fidxs_lookup|].
    apply CapRead.fidx_is_wf; [done..|lia]. }
  rewrite Ex. cbn [CapSpec.fidx Cap.fi_start Cap.fi_length Cap.fi_esize Cap.fi_ftype].
  destruct (CapRead.frame_ftype_fields (Z.of_nat (length earlier) + 1) (CapSpec.f_missed f)
    (CapSpec.ptype f) (CapSpec.starts (CapSpec.stream_of earlier) f) (Hst _)
    (CapRead.ptype_range f)) as (_ & Hp & Hs & Hh).
  rewrite Hp, CapRead.file_of_ptype, CapSpec.stream_dset. split; [|done].
  apply CapRead.payload_located. by apply Forall_cons in Hf' as [? _].
Qed.

(** The tick index has an entry for every good tick after the first; it
    gives the numbers of the first and the last of the event frames between
    the two ticks.  Where there is only one, the stop frame is that of the
    entry before (0 at the start), not that frame. *)
Theorem tick_index_frames `{CapEnv} p0 later f earlier :
  Z.of_nat (length (later ++ f :: earlier)) < 2 ^ 32 ->
  CapSpec.good_tick f = true -> 0 < CapSpec.n_ticks earlier ->
  let past := later ++ f :: earlier in
  let x := entry_at (CapSpec.stream p0 DSET_TIDX past) (Z.to_nat (CapSpec.n_ticks earlier - 1)) in
  CapRead.tick_entry_of (CapRead.old_stop earlier) (CapRead.tick_frames earlier) x.
Proof.
  intros Hl Hg Hn past x. rewrite length_app in Hl. cbn [length] in Hl.
  destruct (CapRead.tick_inv_ok earlier ltac:(lia)) as [_ He _ _ Hw].
  assert (Ex : x = Cap.tidx (CapSpec.tick_of earlier)).
  { unfold x. change (CapSpec.stream p0 DSET_TIDX past) with (CapSpec.tidx_stream past).
    rewrite CapRead.tidx_stream_eq. apply entry_at_lookup; [|exact Hw]. by apply CapRead.tidxs_lookup. }
  by rewrite Ex.
Qed.

(** ** Witnesses *)

Definition sample_past : list CapSpec.frame := rev CapSample.job.

Lemma sample_past_ok : Forall CapSpec.frame_ok sample_past.
Proof. apply Forall_rev, CapSample.job_ok. Qed.

Lemma sample_stack : CapRead.stack_bytes.
Proof. intros n. split; [discriminate|reflexivity]. Qed.

(** The histogram is the second frame. *)
Lemma frame_index_locates_witness :
  let x := entry_at (CapSpec.stream (0, 0) DSET_FIDX sample_past) 1 in
  slice (CapSpec.stream (0, 0) DSET_MDAT sample_past) (Cap.fi_start x) (Cap.fi_length x) =
    CapSpec.payload CapSample.hist /\ Cap.ft_HDR (Cap.fi_ftype x) = 1.
Proof.
  destruct (frame_index_locates (0, 0) [CapSample.tick2; CapSample.pulses] CapSample.hist
    [CapSample.tick1] sample_stack sample_past_ok eq_refl) as (Hs & Hp & _ & _ & Hh).
  rewrite Hp in Hs. split; [exact Hs|]. apply Hh. vm_compute. reflexivity.
Defined.

(** The three events are in one frame, the third of the job. *)
Lemma tick_index_frames_witness :
  let x := entry_at (CapSpec.stream (0, 0) DSET_TIDX sample_past) 0 in
  Cap.start_frame x = 2 /\ Cap.stop_frame x = 0.
Proof.
  pose proof (tick_index_frames (0, 0) [] CapSample.tick2
    [CapSample.pulses; CapSample.hist; CapSample.tick1] eq_refl) as Ht.
  apply Ht; vm_compute; reflexivity.
Defined.
