(* ===== verification/CaptureJob.v ===== *)
(** * Jobs and requests of the capture task

    The end of a job, a whole job, and the requests that start one or ask for
    the statistics of an earlier one. *)

From Stdlib Require Import ZArith Lia Strings.String Strings.Byte.
From stdpp Require Import base option list numbers decidable sets.
From S2P Require Import Prelude Sys Path Hdf5 Tespkt Tesif Task TaskTheory Aiobuf Capture CaptureTheory CaptureIndex.

Open Scope Z_scope.

Module CapJob.
Import Cap CapSpec CapRead.

Section Jobs.
Context `{CapEnv, ZEnv}.
Implicit Types (d : s_data_t) (past : list frame) (t : task s_data_t).
#[local] Existing Instance cap_laws.

(** ** The end of a job *)

(** A buffer whose job is over, with its file. *)
Definition closed (a : Aiobuf.s_aiobuf_t) (content : bytes) : Prop :=
  Aiobuf.idle a /\ Aiobuf.file_of (Aiobuf.calls a) = content.

Lemma flush_loop_closes `{!CapLaws} (S : nat -> bytes) : cap_good -> forall bufs s,
  (forall i a, bufs !! i = Some a -> Aiobuf.aio_ok a (S (s + i)%nat)) ->
  exists bufs', flush_loop s bufs = Done bufs' /\ length bufs' = length bufs /\
    forall i a, bufs' !! i = Some a -> closed (Aiobuf.s_close_aiobuf a) (S (s + i)%nat).
Proof.
  intros Hgood. induction bufs as [|a bufs IH]; intros s Hb; [by exists []|]. cbn [flush_loop].
  pose proof (Hb 0%nat a eq_refl) as Ha. rewrite Nat.add_0_r in Ha.
  destruct (Aiobuf.flush_loop_ok (H := cap_aio s) (S s) (Hgood s)
    (aio_retries (AioEnv := cap_aio s)) a (Aiobuf.ao_zone _ _ Ha)) as (a' & E & Hfl).
  { pose proof (Aiobuf.ag_fuel (H := cap_aio s) (Hgood s)). pose proof (Aiobuf.rank_le a). lia. }
  rewrite E. cbn [mbind exec_bind]. destruct (IH (Datatypes.S s)) as (bufs' & E' & Hl & Hc).
  { intros i b Hi. specialize (Hb (Datatypes.S i) b Hi). by rewrite <- Nat.add_succ_comm in Hb. }
  rewrite E'. exists (a' :: bufs'). split; [done|]. split; [cbn [length]; by rewrite Hl|].
  intros [|i] b; cbn [lookup list_lookup].
  - intros [= <-]. rewrite Nat.add_0_r. destruct Hfl. apply Aiobuf.s_close_aiobuf_ok; try done.
    rewrite fl_fildes. apply Ha.
  - intros Hi. rewrite <- Nat.add_succ_comm. by apply Hc.
Qed.

Record all_closed d (S : nat -> bytes) : Prop := {
  ac_len : length (aio d) = NUM_DSETS;
  ac_closed : forall s a, aio d !! s = Some a -> closed a (S s);
}.

Lemma cap_flush_ok `{!CapLaws} d S : cap_good -> files d S ->
  exists d', s_flush d = Done d' /\ s_close d' = set_aio d (aio (s_close d')) /\
    all_closed (s_close d') S.
Proof.
  intros Hgood [Hl Hf]. destruct (flush_loop_closes S Hgood (aio d) 0 Hf) as (bufs & E & Hlb & Hc).
  exists (set_aio d bufs). unfold s_flush. rewrite E. split; [done|]. split; [done|].
  split; cbn [s_close aio set_aio]; [by rewrite length_fmap, Hlb|].
  intros s a. rewrite list_lookup_fmap. intros (b & Hb & ->)%fmap_Some. by apply Hc.
Qed.

Lemma run_ok {A} (m : sysM A) (Q : A -> list sys_call -> Prop) d :
  swp m (ok Q) (sys_log d) -> exists a l, run m d = Done (a, set_sys_log d l) /\ Q a l.
Proof.
  intros (a & l & E & HQ)%swp_ok_Done. exists a, l. unfold run. by rewrite E.
Qed.

(** The result of writing the statistics file, and the calls. *)
Definition stats_written d : Z * list sys_call :=
  let l := sys_log d ++ [SysOpen (statfilename d) true true] in
  let fd := sys_rc (sys_log d) (SysOpen (statfilename d) true true) in
  if fd =? -1 then (TES_CAP_REQ_EFIN, l)
  else
    (if sys_rc l (SysWrite fd (stats_bytes (st d))) =? STAT_LEN then TES_CAP_REQ_OK else TES_CAP_REQ_EFIN,
     l ++ [SysWrite fd (stats_bytes (st d)); SysClose fd]).

Lemma s_stats_write_ok d base : basefname (req d) = Some base -> statfd d = -1 ->
  s_stats_write d = Done ((stats_written d).1, set_sys_log d (stats_written d).2).
Proof.
  intros Hb Hs. destruct d. cbn in Hb, Hs. subst. unfold s_stats_write, stats_written, run.
  cbn -[stats_bytes STAT_LEN]. rewrite Hb. cbn -[stats_bytes STAT_LEN].
  destruct (Z.eqb_spec (sys_rc sys_log0 (SysOpen statfilename0 true true)) (-1)) as [E|E];
    cbn -[stats_bytes STAT_LEN]; [by rewrite E|].
  rewrite <- !app_assoc. by destruct (_ =? STAT_LEN).
Qed.

(** The statuses of replies, TES_CAP_REQ_OK to TES_CAP_REQ_EFIN. *)
Definition known (status : Z) : Prop := TES_CAP_REQ_OK <= status <= TES_CAP_REQ_EFIN.

Lemma known_u8 status : known status -> is_u8 status.
Proof. unfold known, is_u8, TES_CAP_REQ_OK, TES_CAP_REQ_EFIN. lia. Qed.

(** What a job that is over leaves: everything as it was before it, but for
    the names of the files, the flags and what the event frames were like. *)
Record between d : Prop := {
  bt_len : length (aio d) = NUM_DSETS;
  bt_names : length (filenames d) = NUM_DSETS;
  bt_idle : Forall Aiobuf.idle (aio d);
  bt_st : st d = zero_stats;
  bt_stream : cur_stream d = zero_stream;
  bt_tick : cur_tick d = zero_tick;
  bt_statfd : statfd d = -1;
  bt_recording : recording d = false;
}.

(** A job that is to be converted, to a group without a name. *)
Definition unnamed d : Prop := noconvert d = false /\ measurement (req d) = Some [].

(** The end of a job whose statistics file was written with the result and the
    calls [w]. *)
Record finished (p0 : Z * Z) past (w : Z * list sys_call) t (t' : task s_data_t) : Prop := {
  fn_files : forall s a, aio (data t') !! s = Some a ->
    Aiobuf.file_of (Aiobuf.calls a) = stream p0 s past;
  fn_between : between (data t');
  fn_prev : (prev_esize (data t'), prev_etype (data t')) = prev_of p0 past;
  fn_calls : w.2 `prefix_of` sys_log (data t');
  fn_reply : exists status, log t' = log t ++
      [ZsockSend 0 TES_CAP_REP_PIC (ZNum <$> status :: stats_args (stats past))] /\
    known status /\ (status = TES_CAP_REQ_OK -> w.1 = TES_CAP_REQ_OK) /\
    (noconvert (data t) = true -> status = w.1) /\
    (unnamed (data t) -> status = if w.1 =? TES_CAP_REQ_OK then TES_CAP_REQ_EINV else w.1);
}.

(** A job that has names, and no statistics file open. *)
Record named d : Prop := {
  nm_base : basefname (req d) <> None;
  nm_meas : measurement (req d) <> None;
  nm_files : length (filenames d) = NUM_DSETS;
  nm_statfd : statfd d = -1;
}.

(** A conversion that is not left to another process, or the server's side of
    one that is. *)
Definition in_server (r : s_req_t) : Prop :=
  async r = 0 \/ forall l, sys_rc l SysFork <> 0 /\ -1 <= sys_rc l SysFork.

Lemma s_conv_data_ok `{!Hdf5.Hdf5Laws} d meas :
  measurement (req d) = Some meas -> length (filenames d) = NUM_DSETS -> in_server (req d) ->
  exists rc l, s_conv_data d = Done (rc, set_sys_log d l) /\ sys_log d `prefix_of` l /\ known rc.
Proof.
  intros Hm Hl Hs. unfold s_conv_data, run. set (r := Hdf5.Build_hdf5_conv_req_t _ _ _ _ _ _).
  set (ds := zip_with conv_dset (filenames d) s_dsets).
  assert (Hr : Hdf5.req_ok r (hdf5filename d) meas ds).
  { split; try done; [by cbn; unfold ds; rewrite length_zip_with, Hl|].
    apply Forall_forall. intros x (fn & y & -> & _)%elem_of_zip_with. done. }
  assert (Hrc : exists rc, (Hdf5.hdf5_conv r (sys_log d)).1 = Done rc /\ known rc).
  { destruct (Hdf5.async r) eqn:Hasync.
    - destruct (Hdf5.invalid r || existsb Hdf5.bad_dset ds) eqn:Hv.
      + exists TES_CAP_REQ_EINV. split; [|done]. unfold Hdf5.hdf5_conv. fold (Hdf5.invalid r).
        destruct (Hdf5.invalid r); [done|]. cbn [orb] in Hv.
        by rewrite (sys_bind_Done _ _ (sys_log d) ds (sys_log d)), Hv
          by (apply Hdf5.the_dsets_eq; apply Hr).
      + destruct Hs as [Hs|Hs]; [by cbn in Hasync; rewrite Hs in Hasync|].
        destruct (Hs (sys_log d)) as [Hs0 Hs1]. eexists.
        split; [by apply (Hdf5.hdf5_conv_parent r _ _ _ (sys_log d) Hr Hasync Hv)|]. by case_if.
    - pose proof (Hdf5.hdf5_conv_ok r _ _ _ (sys_log d) _ Hr Hasync (reflexivity _)) as Hc.
      apply swp_ok_Done in Hc as (rc & l & -> & _ & Hrc). exists rc. split; [done|].
      destruct (_ || _); [by destruct Hrc as [-> _]|].
      by destruct Hrc as (? & ? & _ & [->|[->| ->]]). }
  destruct Hrc as (rc & E & Hu). destruct (Hdf5.hdf5_conv_adds r (sys_log d)) as (cs & Ecs & _).
  destruct (Hdf5.hdf5_conv r (sys_log d)) as [x l]. cbn [fst snd] in E, Ecs. subst x l.
  exists rc, (sys_log d ++ cs). split; [done|]. split; [by apply prefix_app_r|done].
Qed.

Lemma s_conv_data_unnamed d : measurement (req d) = Some [] -> s_conv_data d = Done (TES_CAP_REQ_EINV, d).
Proof.
  intros Hm. unfold s_conv_data, run. set (r := Hdf5.Build_hdf5_conv_req_t _ _ _ _ _ _).
  assert (Hi : Hdf5.invalid r = true) by (unfold Hdf5.invalid, r; cbn; rewrite Hm; by rewrite orb_true_r).
  unfold Hdf5.hdf5_conv. fold (Hdf5.invalid r). rewrite Hi. by destruct d.
Qed.

(** The answer ends the job. *)
Definition job_ended d : s_data_t :=
  set_recording (free_names (set_tick (set_stream (set_st d zero_stats) zero_stream) zero_tick)) false.

Lemma s_stats_send_eq t status : basefname (req (data t)) <> None -> statfd (data t) = -1 ->
  let t1 := emit t (ZsockSend 0 TES_CAP_REP_PIC (ZNum <$> status :: stats_args (st (data t)))) in
  s_stats_send t status =
    Done (if c_true (zsock_send_rc (log t1)) then TES_CAP_REQ_EFIN else TES_CAP_REQ_OK,
          set_data t1 (job_ended (data t))).
Proof.
  intros Hb Hs. unfold s_stats_send. rewrite Hs. cbv zeta. unfold Hdf5.not_null.
  rewrite bool_decide_eq_true_2 by done. done.
Qed.

Lemma s_stats_send_ok t status : basefname (req (data t)) <> None -> statfd (data t) = -1 ->
  exists rc d', s_stats_send t status = Done (rc, set_data (emit t (ZsockSend 0 TES_CAP_REP_PIC
      (ZNum <$> status :: stats_args (st (data t))))) d') /\ d' = job_ended (data t).
Proof. intros Hb Hs. rewrite s_stats_send_eq by done. by eexists _, _. Qed.

Lemma stats_written_known d : known (stats_written d).1.
Proof. unfold stats_written. repeat case_if; done. Qed.

(** The conversion, when the job is in order and one is asked for. *)
Lemma convert_ok `{!Hdf5.Hdf5Laws} d rc :
  known rc -> measurement (req d) <> None -> length (filenames d) = NUM_DSETS ->
  in_server (req d) ->
  exists status l,
    ((if (rc =? TES_CAP_REQ_OK) && negb (noconvert d)
      then '(rc, d) ← s_conv_data d; mret (to_u8 rc, d)
      else mret (rc, d)) : exec (Z * s_data_t)) = Done (status, set_sys_log d l) /\
    sys_log d `prefix_of` l /\ known status /\ (status = TES_CAP_REQ_OK -> rc = TES_CAP_REQ_OK) /\
    (noconvert d = true -> status = rc) /\
    (unnamed d -> status = if rc =? TES_CAP_REQ_OK then TES_CAP_REQ_EINV else rc).
Proof.
  intros Hrc Hm Hn Hs. destruct ((rc =? TES_CAP_REQ_OK) && negb (noconvert d)) eqn:E.
  - apply andb_true_iff in E as [Eo En%negb_true_iff].
    destruct (measurement (req d)) as [meas|] eqn:Em; [|done].
    destruct (s_conv_data_ok d meas Em Hn Hs) as (rc' & l & Ec & Hp & Hu). rewrite Ec.
    exists rc', l. cbn [mbind exec_bind mret exec_ret]. rewrite to_u8_id by by apply known_u8.
    split; [done|]. split; [done|]. split; [done|]. split; [lia|]. split; [congruence|].
    intros [_ Hg]. rewrite (s_conv_data_unnamed d Hg) in Ec. rewrite Eo. congruence.
  - exists rc, (sys_log d). split; [by destruct d|]. do 4 (split; [done|]). intros [Hc _].
    rewrite Hc, andb_true_r in E. by rewrite E.
Qed.

Lemma finish_job_ok `{!CapLaws, !Hdf5.Hdf5Laws} p0 past t :
  cap_good -> cap_inv p0 past (data t) -> named (data t) -> in_server (req (data t)) ->
  min_ticks (req (data t)) <= ticks (st (data t)) ->
  min_events (req (data t)) <= events (st (data t)) ->
  exists t', finish_job t = Done (TASK_SLEEP, t') /\
    finished p0 past (stats_written (data t)) t t'.
Proof.
  intros Hgood [Hf Hst Hr Hc Hp] [Hb Hm Hn Hfd] Hsrv Ht He. unfold finish_job.
  destruct (cap_flush_ok (data t) _ Hgood Hf) as (d1 & E1 & Ed1 & [Hl Hcl]).
  rewrite E1. cbn [mbind exec_bind]. cbv zeta. set (d2 := s_close d1) in *.
  assert (Ew : stats_written d2 = stats_written (data t)) by by rewrite Ed1.
  replace ((ticks (st d2) <? _) || _) with false.
  2:{ symmetry. apply orb_false_iff. rewrite Ed1. cbn [st set_aio req]. lia. }
  destruct (basefname (req (data t))) as [base|] eqn:Eb; [|done].
  rewrite (s_stats_write_ok d2 base), Ew by (by rewrite Ed1).
  cbn [mbind exec_bind]. cbn [Z.eqb TES_CAP_REQ_OK].
  set (w := stats_written (data t)). set (d3 := set_sys_log d2 w.2).
  rewrite (to_u8_id w.1) by apply known_u8, stats_written_known.
  destruct (convert_ok d3 w.1) as (status & l & Ec & Hpre & Hkn & Hok & Hno & Hun).
  { apply stats_written_known. }
  1-3: unfold d3; rewrite Ed1; done.
  cbn [mbind exec_bind] in Ec. rewrite Ec. cbn [mbind exec_bind].
  set (t1 := set_data t _).
  destruct (s_stats_send_ok t1 status) as (rc & d' & Es & Ed').
  1-2: cbn [t1 data set_data]; unfold d3; rewrite Ed1; cbn; congruence.
  rewrite Es. cbn [mbind exec_bind mret exec_ret]. eexists. split; [done|].
  rewrite Ed'. unfold t1, d3 in *. rewrite Ed1 in *. split.
  - intros s a Ha. by apply Hcl in Ha as [_ ?].
  - split; try done. apply Forall_lookup. intros s a Ha. by apply Hcl in Ha as [? _].
  - done.
  - done.
  - exists status. by rewrite <- Hst.
Qed.

(** ** A whole job *)

(** The dispatcher hands over frames until the handler does not return 0. *)
Fixpoint run_job t (fs : list frame) : exec (Z * task s_data_t) :=
  match fs with
  | [] => mret (0, t)
  | f :: fs =>
      '(rc, t) ← task_cap_pkt_hn t (f_pkt f) (f_len f) (f_missed f) (f_err f);
      if rc =? 0 then run_job t fs else mret (rc, t)
  end.

(** Recording starts with a tick. *)
Fixpoint recorded (fs : list frame) : list frame :=
  match fs with
  | [] => []
  | f :: fs => if is_tick f then f :: fs else recorded fs
  end.

(** The history when the job is complete, or at the end of the frames. *)
Fixpoint history (mt me : Z) past (fs : list frame) : list frame * bool :=
  match fs with
  | [] => (past, false)
  | f :: fs => if complete mt me (f :: past) then (f :: past, true) else history mt me (f :: past) fs
  end.

Lemma same_job_named d d' : same_job d d' -> named d -> named d'.
Proof. intros [] []. split; congruence. Qed.

Lemma same_job_written d d' s : same_job d d' -> stats_written (set_st d' s) = stats_written (set_st d s).
Proof. intros [_ _ _ _ _ _ E _ _ El]. unfold stats_written. cbn. by rewrite E, El. Qed.

Lemma set_data_same (t : task s_data_t) : set_data t (data t) = t.
Proof. by destruct t. Qed.

Lemma complete_minima mt me f past : Z.of_nat (length past) < 2 ^ 59 ->
  complete mt me (f :: past) = true ->
  mt <= ticks (stats (f :: past)) /\ me <= events (stats (f :: past)).
Proof.
  intros Hl Hc. pose proof (n_ticks_range (f :: past)) as Hn. cbn [length] in Hn.
  unfold complete in Hc. cbn [ticks events stats]. rewrite (to_u64_id (n_ticks _)) by (unfold is_u64; lia).
  bool_hyps. lia.
Qed.

Lemma finished_same_job p0 past w t t1 t' : log t1 = log t -> same_job (data t) (data t1) ->
  finished p0 past w t1 t' -> finished p0 past w t t'.
Proof.
  intros Hl Hj [? ? ? ? (status & E & ? & ? & Hno & Hun)]. unfold unnamed in Hun.
  rewrite (sj_noconvert _ _ Hj) in Hno, Hun. rewrite (sj_req _ _ Hj) in Hun.
  split; try done. exists status. by rewrite <- Hl.
Qed.

(** One frame of a job that is being recorded. *)
Lemma recording_pkt_ok `{!CapLaws, !Hdf5.Hdf5Laws} p0 past f t :
  cap_good -> frame_ok f -> small p0 past -> cap_inv p0 past (data t) ->
  recording (data t) = true -> named (data t) -> in_server (req (data t)) ->
  if complete (min_ticks (req (data t))) (min_events (req (data t))) (f :: past)
  then exists t', task_cap_pkt_hn t (f_pkt f) (f_len f) (f_missed f) (f_err f) = Done (TASK_SLEEP, t') /\
    finished p0 (f :: past) (stats_written (set_st (data t) (stats (f :: past)))) t t'
  else exists d', task_cap_pkt_hn t (f_pkt f) (f_len f) (f_missed f) (f_err f) = Done (0, set_data t d') /\
    cap_inv p0 (f :: past) d' /\ same_job (data t) d'.
Proof.
  intros Hgood Hok Hs Hi Hrec Hn Hsrv. unfold task_cap_pkt_hn. rewrite Hrec. cbn [negb andb].
  rewrite Hrec. cbn [negb]. pose proof (save_frame_ok p0 past f (data t) Hok Hs Hi) as Hf.
  destruct (save_frame _ _ _ _ _) as [[fin d']|[]]; cbn [wpc] in Hf; try done.
  destruct Hf as (Hi' & Hj & Hfin). rewrite (Hfin Hgood). cbn [mbind exec_bind].
  destruct (complete _ _ _) eqn:Ec; [|by exists d'].
  destruct (complete_minima _ _ _ _ (small_frames _ _ Hs) Ec) as [Hmt Hme].
  destruct (finish_job_ok p0 (f :: past) (set_data t d') Hgood Hi') as (t' & Et & Hfn).
  { by apply same_job_named with (data t). }
  { cbn [data set_data]. by rewrite (sj_req _ _ Hj). }
  1-2: cbn [data set_data]; by rewrite (sj_req _ _ Hj), (ci_st _ _ _ Hi').
  exists t'. split; [done|]. cbn [data set_data] in Hfn.
  replace (stats_written d') with (stats_written (set_st (data t) (stats (f :: past)))) in Hfn.
  2:{ rewrite <- (same_job_written _ _ _ Hj), <- (ci_st _ _ _ Hi'). by destruct d'. }
  by apply (finished_same_job _ _ _ t (set_data t d')).
Qed.

Lemma recording_run_ok `{!CapLaws, !Hdf5.Hdf5Laws} p0 t0 fs : cap_good -> named (data t0) -> in_server (req (data t0)) ->
  Forall frame_ok fs -> forall past d, Forall frame_ok past ->
  Z.of_nat (length past + length fs) < 2 ^ 52 ->
  cap_inv p0 past d -> recording d = true -> same_job (data t0) d ->
  match history (min_ticks (req (data t0))) (min_events (req (data t0))) past fs with
  | (past', true) => exists t', run_job (set_data t0 d) fs = Done (TASK_SLEEP, t') /\
      finished p0 past' (stats_written (set_st (data t0) (stats past'))) t0 t'
  | (past', false) => exists d', run_job (set_data t0 d) fs = Done (0, set_data t0 d') /\
      cap_inv p0 past' d' /\ same_job (data t0) d'
  end.
Proof.
  intros Hgood Hn Hsrv Hfs. induction Hfs as [|f fs Hok Hfs IH]; intros past d Hp Hl Hi Hrec Hj;
    cbn [history run_job]; [by exists d|].
  pose proof (recording_pkt_ok p0 past f (set_data t0 d) Hgood Hok) as Hpkt.
  cbn [length] in Hl. cbn [data set_data] in Hpkt. rewrite (sj_req _ _ Hj) in Hpkt.
  specialize (Hpkt ltac:(apply small_length; [done|lia]) Hi Hrec ltac:(by apply same_job_named with (data t0)) Hsrv).
  destruct (complete _ _ _).
  - destruct Hpkt as (t' & -> & Hfn). exists t'. split; [done|].
    rewrite (same_job_written _ _ _ Hj) in Hfn. by apply (finished_same_job _ _ _ t0 (set_data t0 d)).
  - destruct Hpkt as (d' & -> & Hi' & Hj'). cbn [mbind exec_bind Z.eqb].
    apply IH; try done; [by constructor|cbn [length]; lia|by rewrite (sj_recording _ _ Hj')|].
    by apply cap_job_trans with d.
Qed.

(** A job whose files are open. *)
Record started (p0 : Z * Z) d : Prop := {
  sr_inv : cap_inv p0 [] d;
  sr_recording : recording d = false;
  sr_named : named d;
}.

Lemma run_job_recording t f fs : recording (data t) = false -> is_tick f = true ->
  run_job t (f :: fs) = run_job (set_data t (set_recording (data t) true)) (f :: fs).
Proof.
  intros Hr Ht. cbn [run_job]. unfold task_cap_pkt_hn. fold (is_tick f). rewrite Hr, Ht. done.
Qed.

Lemma run_job_skip t fs : recording (data t) = false -> run_job t fs = run_job t (recorded fs).
Proof.
  intros Hr. induction fs as [|f fs IH]; [done|]. cbn [recorded]. destruct (is_tick f) eqn:Ht; [done|].
  cbn [run_job]. unfold task_cap_pkt_hn. fold (is_tick f). rewrite Hr, Ht. cbn [negb andb].
  rewrite Hr, set_data_same. exact IH.
Qed.

Lemma recorded_suffix (P : frame -> Prop) fs : Forall P fs ->
  Forall P (recorded fs) /\ (length (recorded fs) <= length fs)%nat.
Proof.
  induction 1 as [|f fs Hf Hfs [IH Hl]]; [done|]. cbn [recorded length].
  destruct (is_tick f); split; try done; [by constructor|lia].
Qed.

Lemma recorded_tick fs : match recorded fs with [] => True | f :: _ => is_tick f = true end.
Proof. induction fs as [|f fs IH]; [done|]. cbn [recorded]. by destruct (is_tick f) eqn:E. Qed.

Lemma run_job_ok `{!CapLaws, !Hdf5.Hdf5Laws} p0 t fs :
  cap_good -> started p0 (data t) -> in_server (req (data t)) -> Forall frame_ok fs -> Z.of_nat (length fs) < 2 ^ 52 ->
  match history (min_ticks (req (data t))) (min_events (req (data t))) [] (recorded fs) with
  | (past, true) => exists t', run_job t fs = Done (TASK_SLEEP, t') /\
      finished p0 past (stats_written (set_st (data t) (stats past))) t t'
  | (past, false) => exists d' r, run_job t fs = Done (0, set_data t d') /\ cap_inv p0 past d' /\
      same_job (set_recording (data t) r) d'
  end.
Proof.
  intros Hgood [Hi Hr Hn] Hsrv Hfs Hl. rewrite (run_job_skip t fs Hr).
  destruct (recorded_suffix _ fs Hfs) as [Hfs' Hl']. pose proof (recorded_tick fs) as Htick.
  destruct (recorded fs) as [|f fs']; cbn [history run_job].
  { exists (data t), (recording (data t)). rewrite set_data_same. split; [done|]. split; [done|].
    by destruct (data t). }
  change (run_job t (f :: fs')) with (run_job t (f :: fs')).
  pose proof (run_job_recording t f fs' Hr Htick) as Erun. cbn [run_job] in Erun. rewrite Erun.
  set (d0 := set_recording (data t) true).
  pose proof (recording_run_ok p0 (set_data t d0) (f :: fs') Hgood) as Hrun.
  cbn [data set_data] in Hrun.
  specialize (Hrun ltac:(by destruct Hn) Hsrv Hfs' [] d0 ltac:(done) ltac:(cbn [length] in *; lia)
    ltac:(by destruct Hi as [[]]) eq_refl ltac:(done)).
  cbn [history run_job] in Hrun.
  destruct (if complete _ _ _ then _ else _) as [past []].
  - destruct Hrun as (t' & Et & [? ? ? ? ?]). exists t'. split; [exact Et|]. by split.
  - destruct Hrun as (d' & Ed & Hi' & Hj). exists d', true. by split; [exact Ed|].
Qed.

(** ** Requests *)

(** Whether a request asks for a capture, and for a conversion. *)
Definition captures (r : s_req_t) : bool := negb (min_ticks r =? 0) || negb (min_events r =? 0).
Definition converts (r : s_req_t) : bool :=
  if capmode r =? TES_CAP_AUTO then captures r else capmode r =? TES_CAP_CONVONLY.

(** A request that is in order. *)
Record req_valid (r : s_req_t) : Prop := {
  rv_name : basefname r <> None;
  rv_malloc : measurement r = None -> cap_malloc = true;
  rv_ovrwt : ovrwtmode r = TES_H5_OVRWT_NONE \/ ovrwtmode r = TES_H5_OVRWT_RELINK \/
    ovrwtmode r = TES_H5_OVRWT_FILE;
  rv_mode : capmode r = TES_CAP_AUTO \/ capmode r = TES_CAP_CAPONLY /\ captures r = true \/
    capmode r = TES_CAP_CONVONLY /\ captures r = false;
}.

(** The request as it is carried out. *)
Definition completed (r : s_req_t) : s_req_t :=
  let r := match measurement r with None => set_measurement r [] | Some _ => r end in
  if negb (min_events r =? 0) && (min_ticks r =? 0) then set_min_ticks r 1 else r.

(** The rest of the check, when there is a measurement. *)
Definition check_modes d : Z * s_data_t :=
  if negb ((ovrwtmode (req d) =? TES_H5_OVRWT_NONE) ||
           (ovrwtmode (req d) =? TES_H5_OVRWT_RELINK) ||
           (ovrwtmode (req d) =? TES_H5_OVRWT_FILE))
  then (TES_CAP_REQ_EINV, d)
  else if negb ((capmode (req d) =? TES_CAP_AUTO) || (capmode (req d) =? TES_CAP_CAPONLY) ||
                (capmode (req d) =? TES_CAP_CONVONLY))
  then (TES_CAP_REQ_EINV, d)
  else
    let d := if negb (min_events (req d) =? 0) && (min_ticks (req d) =? 0)
             then set_req d (set_min_ticks (req d) 1) else d in
    let nocap := min_ticks (req d) =? 0 in
    let d := set_flags d nocap (noconvert d) (nooverwrite d) in
    if ((capmode (req d) =? TES_CAP_CONVONLY) && negb nocap) ||
       ((capmode (req d) =? TES_CAP_CAPONLY) && nocap)
    then (TES_CAP_REQ_EINV, d)
    else
      let statusonly := nocap && negb (capmode (req d) =? TES_CAP_CONVONLY) in
      let noconv := statusonly || (capmode (req d) =? TES_CAP_CAPONLY) in
      (TES_CAP_REQ_OK,
       set_flags d nocap noconv (ovrwtmode (req d) =? TES_H5_OVRWT_NONE)).

Definition with_measurement (r : s_req_t) : s_req_t :=
  match measurement r with None => set_measurement r [] | Some _ => r end.

Lemma s_is_req_valid_eq d : basefname (req d) <> None ->
  (measurement (req d) = None -> cap_malloc = true) ->
  s_is_req_valid d = check_modes (set_req d (with_measurement (req d))).
Proof.
  intros Hb Hm. unfold s_is_req_valid, with_measurement.
  destruct (basefname (req d)); [|done].
  destruct (measurement (req d)); [by destruct d|]. by rewrite Hm.
Qed.

(** What an outcome of the check must be for the request [r]. *)
Definition checked (r : s_req_t) d (res : Z * s_data_t) : Prop := exists rc a b c r',
  res = (rc, set_req (set_flags d a b c) r') /\
  known rc /\ (rc = TES_CAP_REQ_OK <-> req_valid r) /\
  (rc = TES_CAP_REQ_OK -> r' = completed r /\ a = negb (captures r) /\
    b = negb (converts r) /\ c = (ovrwtmode r =? TES_H5_OVRWT_NONE)).

Lemma checked_refused r d rc a b c r' : known rc -> rc <> TES_CAP_REQ_OK -> ~ req_valid r ->
  checked r d (rc, set_req (set_flags d a b c) r').
Proof. intros Hk Hrc Hn. exists rc, a, b, c, r'. naive_solver. Qed.

Lemma completed_fields r : capmode (completed r) = capmode r /\ ovrwtmode (completed r) = ovrwtmode r /\
  (min_ticks (completed r) =? 0) = negb (captures r).
Proof.
  unfold completed, captures. destruct r as [mt me ov asy cm bn [ms|]];
    cbn [measurement set_measurement min_events min_ticks];
    destruct (Z.eqb_spec me 0), (Z.eqb_spec mt 0) as [->|]; cbn; try done;
    by rewrite (proj2 (Z.eqb_neq mt 0)).
Qed.

Lemma check_modes_ok r d :
  basefname r <> None -> (measurement r = None -> cap_malloc = true) ->
  checked r d (check_modes (set_req d (with_measurement r))).
Proof.
  intros Hb Hm. unfold check_modes, TES_H5_OVRWT_NONE, TES_H5_OVRWT_RELINK, TES_H5_OVRWT_FILE,
    TES_CAP_AUTO, TES_CAP_CAPONLY, TES_CAP_CONVONLY.
  destruct r as [mt me ov asy cm bn ms]. cbn in Hb, Hm.
  set (r1 := with_measurement _). set (r := Build_s_req_t mt me ov asy cm bn ms).
  assert (E1 : min_ticks r1 = mt /\ min_events r1 = me /\ ovrwtmode r1 = ov /\ capmode r1 = cm)
    by (unfold r1, with_measurement; by destruct ms).
  destruct E1 as (E1 & E2 & E3 & E4).
  cbn [req set_req]. rewrite E1, E2, E3, E4.
  assert (Hrefuse : forall rc d', known rc -> rc <> TES_CAP_REQ_OK -> ~ req_valid r ->
    (exists a b c r', d' = set_req (set_flags d a b c) r') -> checked r d (rc, d')).
  { intros rc d' Hk Hrc Hn (a & b & c & r' & ->). by apply checked_refused. }
  destruct ((ov =? 0) || (ov =? 1) || (ov =? 2)) eqn:Eo; cbn [negb].
  2:{ apply Hrefuse; [done|done| |by exists (nocapture d), (noconvert d), (nooverwrite d), r1; destruct d].
      intros [_ _ Ho _]. unfold TES_H5_OVRWT_NONE, TES_H5_OVRWT_RELINK, TES_H5_OVRWT_FILE in Ho.
      cbn in Ho. lia. }
  destruct ((cm =? 0) || (cm =? 1) || (cm =? 2)) eqn:Ec; cbn [negb].
  2:{ apply Hrefuse; [done|done| |by exists (nocapture d), (noconvert d), (nooverwrite d), r1; destruct d].
      intros [_ _ _ Hc]. unfold TES_CAP_AUTO, TES_CAP_CAPONLY, TES_CAP_CONVONLY in Hc.
      cbn [capmode r] in Hc. lia. }
  destruct (completed_fields r) as (E6 & E7 & Ecap).
  change (capmode r) with cm in E6. change (ovrwtmode r) with ov in E7.
  replace (if negb (me =? 0) && (mt =? 0) then set_req (set_req d r1) (set_min_ticks r1 1) else set_req d r1)
    with (set_req d (completed r)).
  2:{ transitivity (set_req d (if negb (min_events r1 =? 0) && (min_ticks r1 =? 0) then set_min_ticks r1 1
        else r1)); [done|]. rewrite E1, E2. by destruct (_ && _). }
  cbn [req set_req set_flags noconvert nooverwrite]. rewrite E6, E7, Ecap, negb_involutive.
  destruct (((cm =? 2) && captures r) || ((cm =? 1) && negb (captures r))) eqn:Ea.
  { apply Hrefuse; [done|done| |by eexists _, _, _, _]. intros [_ _ _ Hc].
    unfold TES_CAP_AUTO, TES_CAP_CAPONLY, TES_CAP_CONVONLY in Hc. cbn [capmode r] in Hc.
    destruct (captures r); lia. }
  eexists _, _, _, _, _. split; [done|]. split; [done|]. split; [split; [intros _|done]|intros _].
  - split; try done; unfold TES_H5_OVRWT_NONE, TES_H5_OVRWT_RELINK, TES_H5_OVRWT_FILE,
      TES_CAP_AUTO, TES_CAP_CAPONLY, TES_CAP_CONVONLY; cbn [capmode ovrwtmode r]; [lia|].
    destruct (captures r); lia.
  - split; [done|]. split; [done|]. split; [|done].
    unfold converts, TES_CAP_AUTO, TES_CAP_CONVONLY. cbn [capmode r].
    destruct (captures r), (Z.eqb_spec cm 0), (Z.eqb_spec cm 1), (Z.eqb_spec cm 2); try done; lia.
Qed.

Lemma s_is_req_valid_ok d : checked (req d) d (s_is_req_valid d).
Proof.
  destruct (decide (basefname (req d) = None)) as [Eb|Eb].
  { unfold s_is_req_valid. rewrite Eb.
    exists TES_CAP_REQ_EINV, (nocapture d), (noconvert d), (nooverwrite d), (req d).
    split; [by destruct d|]. split; [done|]. split; [|done]. split; [done|]. by intros []. }
  destruct cap_malloc eqn:Ema.
  { rewrite s_is_req_valid_eq by done. by apply check_modes_ok. }
  destruct (measurement (req d)) eqn:Em.
  { rewrite s_is_req_valid_eq by (rewrite ?Em; done). apply check_modes_ok; [done|]. by rewrite Em. }
  unfold s_is_req_valid. rewrite Em, Ema. destruct (basefname (req d)); [|done].
  exists TES_CAP_REQ_EFAIL, (nocapture d), (noconvert d), (nooverwrite d), (req d).
  split; [by destruct d|]. split; [done|]. split; [|done]. split; [done|]. intros [_ Hm _ _]. specialize (Hm Em). congruence.
Qed.

(** ** The names of the files *)

(** The names of the files of a job and of its HDF5 file, under the root. *)
Definition job_name (base meas : bytes) : bytes :=
  (snprintf PATH_MAX (base ++ (if strlen meas =? 0 then [] else lit "-") ++ meas)).2.
Definition hdf5_name (base : bytes) : bytes := (snprintf PATH_MAX (base ++ lit ".hdf5")).2.

(** One of the two names does not exist and has a directory that mkdir has just
    made, or found there, and that does not resolve ([dir_lost]); [mustexist]
    is that the files of the job must exist. *)
Inductive names_lost (l : list sys_call) (mustexist : bool) (base meas : bytes) : Prop :=
  | lost_job : mustexist = false -> dir_lost l (job_name base meas) -> names_lost l mustexist base meas
  | lost_hdf5 stat l' :
      s_canonicalize_path (job_name base meas) mustexist l = (Done (Some stat), l') ->
      dir_lost l' (hdf5_name base) -> names_lost l mustexist base meas.

(** The calls made so far are [l], and the request has such a name. *)
Definition unresolved (l : list sys_call) (msg : s_req_t) : Prop :=
  exists base meas, basefname (completed msg) = Some base /\ measurement (completed msg) = Some meas /\
    names_lost l (negb (captures msg)) base meas.

(** [Q] holds of the result, unless an assertion fails, and then [U] does. *)
Definition wpr {A} (U : Prop) (m : exec A) (Q : A -> Prop) : Prop :=
  match m with Done x => Q x | Failed AssertFail => U | Failed _ => False end.

Lemma wpr_seq {A B} (U V : Prop) (m : exec A) (k : A -> exec B) P Q :
  (V -> U) -> wpr V m P -> (forall a, P a -> wpr U (k a) Q) -> wpr U (m ≫= k) Q.
Proof. destruct m as [|[]]; simpl; auto. Qed.

Lemma run_canon path mustexist d : wpr (mustexist = false /\ dir_lost (sys_log d) path)
  (run (s_canonicalize_path path mustexist) d)
  (fun '(r, d') => exists l, d' = set_sys_log d l /\ (forall p, r = Some p -> in_root p = true) /\
     s_canonicalize_path path mustexist (sys_log d) = (Done r, l)).
Proof.
  pose proof (canonicalize_ok path mustexist (sys_log d)) as Hc. unfold swp, canon_post in Hc.
  unfold run. destruct (s_canonicalize_path path mustexist (sys_log d)) as [[r|[]] l];
    cbn [fst snd] in Hc; try done; cbn [mbind exec_bind wpr].
  - exists l. split; [done|]. split; [|done]. intros p ->. apply Hc.
  - destruct Hc as (-> & l1 & buf & _ & _ & _ & _ & Hl). done.
Qed.

Definition the_names (stat : bytes) : list bytes := (fun x => stat ++ lit "." ++ x.2) <$> s_dsets.

Lemma build_names_ok stat ds : match build_names stat ds with (rc, names) =>
  (length names <= length ds)%nat /\ known rc /\
  (rc = TES_CAP_REQ_OK -> names = (fun x => stat ++ lit "." ++ x.2) <$> ds) end.
Proof.
  induction ds as [|[nm ext] ds IH]; cbn [build_names]; [done|]. unfold snprintf.
  set (name := stat ++ lit "." ++ ext). destruct (_ || _) eqn:E; [cbn [length]; split; [lia|done]|].
  destruct (build_names stat ds) as [rc names]. destruct IH as (IHl & IHu & IHo).
  cbn [length]. split; [lia|]. split; [done|]. intros Hrc. rewrite (IHo Hrc). rewrite fmap_cons. f_equal.
  apply take_ge. apply orb_false_iff in E as [_ E]. unfold strlen in E. cbn [snd]. fold name. lia.
Qed.

Lemma construct_ok d base meas :
  basefname (req d) = Some base -> measurement (req d) = Some meas ->
  length (filenames d) = NUM_DSETS ->
  wpr (names_lost (sys_log d) (nocapture d) base meas) (s_task_construct_filenames d) (fun '(rc, d') => exists stat hdf5 names l,
    d' = set_sys_log (set_filenames (set_hdf5filename (set_statfilename d stat) hdf5) names) l /\
    length names = NUM_DSETS /\ known rc /\
    (rc = TES_CAP_REQ_OK -> in_root stat = true /\ in_root hdf5 = true /\ names = the_names stat)).
Proof.
  intros Hb Hm Hl. unfold s_task_construct_filenames. rewrite Hb, Hm.
  cbn [Hdf5.not_null bool_decide c_assert deref mbind exec_bind]. unfold Hdf5.not_null.
  rewrite !bool_decide_eq_true_2 by done. cbn [c_assert mbind exec_bind].
  change (snprintf PATH_MAX (base ++ _ ++ meas))
    with ((snprintf PATH_MAX (base ++ (if strlen meas =? 0 then [] else lit "-") ++ meas)).1, job_name base meas).
  cbv beta iota. destruct (_ || _).
  { exists (statfilename d), (hdf5filename d), (filenames d), (sys_log d). by destruct d. }
  eapply wpr_seq; [|apply run_canon|]; [by intros [? ?]; apply lost_job|].
  intros [[stat|] d1] (l1 & -> & Hs1 & Ec).
  2:{ exists (statfilename d), (hdf5filename d), (filenames d), l1. split; [by destruct d|].
      split; [done|]. cbn [nocapture set_sys_log]. by destruct (nocapture d). }
  cbv zeta. eapply (wpr_seq _ (dir_lost l1 (hdf5_name base)) _ _
    (fun '(r, d') => exists l, d' = set_sys_log (set_statfilename d stat) l /\
      forall p, r = Some p -> in_root p = true)); [by apply lost_hdf5 with stat| |].
  { destruct (strchr meas slash); [by exists l1|].
    pose proof (run_canon (hdf5_name base) false (set_statfilename (set_sys_log d l1) stat)) as Hr.
    unfold hdf5_name in *. destruct (run _ _) as [[r d2]|[]]; cbn in Hr |- *; try done; [|by apply Hr].
    destruct Hr as (l2 & -> & Hp & _). by exists l2. }
  intros [[hdf5|] d2] (l2 & -> & Hs2).
  2:{ exists stat, (hdf5filename d), (filenames d), l2. by destruct d. }
  pose proof (build_names_ok stat s_dsets) as Hn. destruct (build_names stat s_dsets) as [rc names] eqn:En.
  destruct Hn as (Hnl & Hnu & Hno). change (length s_dsets) with NUM_DSETS in Hnl.
  exists stat, hdf5, (names ++ drop (length names) (filenames d)), l2. split; [done|].
  split; [rewrite length_app, length_drop, Hl; lia|]. split; [done|]. intros Hrc.
  split; [by apply Hs1|]. split; [by apply Hs2|]. rewrite drop_ge; [by rewrite app_nil_r, (Hno Hrc)|].
  by rewrite (Hno Hrc), length_fmap, Hl.
Qed.

(** ** Opening the files *)

Lemma close_empty a : Aiobuf.aio_ok a [] -> Aiobuf.idle (Aiobuf.s_close_aiobuf a).
Proof.
  intros [Hz Hfd _ _]. destruct (Aiobuf.zo_geo _ _ Hz). cbn [length] in ge_stream.
  apply (Aiobuf.s_close_aiobuf_ok a []); try done; lia.
Qed.

Lemma close_idle a : Aiobuf.idle a -> Aiobuf.idle (Aiobuf.s_close_aiobuf a).
Proof. intros Hi. unfold Aiobuf.s_close_aiobuf. by rewrite (Aiobuf.id_fildes _ Hi). Qed.

Lemma open_loop_ok excl bufs : forall s, Forall Aiobuf.idle bufs -> exists rc bufs',
  open_loop s bufs excl = Done (rc, bufs') /\ length bufs' = length bufs /\
  Forall Aiobuf.idle (Aiobuf.s_close_aiobuf <$> bufs') /\
  (rc = -1 \/ rc = 0 /\ Forall (fun a => Aiobuf.aio_ok a []) bufs').
Proof.
  induction bufs as [|a bufs IH]; intros s Hi.
  { exists 0, []. split; [done|]. split; [done|]. split; [constructor|right; by split]. }
  apply Forall_cons in Hi as [Ha Hb]. cbn [open_loop].
  destruct (Aiobuf.s_open_aiobuf_ok (H := cap_aio s) a excl Ha) as (rc & a' & -> & Hrc).
  cbn [mbind exec_bind]. destruct Hrc as [[-> Hi']|[-> Hok]]; cbn [Z.eqb].
  - exists (-1), (a' :: bufs). split; [done|]. split; [done|]. split; [|by left].
    rewrite fmap_cons. constructor; [by apply close_idle|]. apply Forall_fmap.
    by eapply Forall_impl; [|apply close_idle].
  - destruct (IH (S s) Hb) as (rc & bufs' & -> & Hl & Hc & Hrc). cbn [mbind exec_bind].
    exists rc, (a' :: bufs'). split; [done|]. split; [by cbn [length]; rewrite Hl|].
    split; [rewrite fmap_cons; constructor; [by apply close_empty|done]|].
    destruct Hrc as [|[-> Hf]]; [by left|right]. split; [done|by constructor].
Qed.

Lemma s_open_ok d excl : between d -> exists rc bufs,
  s_open d excl = Done (rc, set_aio d bufs) /\ length bufs = NUM_DSETS /\
  Forall Aiobuf.idle (Aiobuf.s_close_aiobuf <$> bufs) /\ known rc /\
  (rc = TES_CAP_REQ_OK -> files (set_aio d bufs) (fun _ => [])).
Proof.
  intros [Hl _ Hi Hst Hcs Hct _ _]. unfold s_open. rewrite Hst, Hcs, Hct. cbn.
  destruct (open_loop_ok excl (aio d) 0 Hi) as (rc & bufs & -> & Hlb & Hc & Hrc).
  cbn [mbind exec_bind]. rewrite Hl in Hlb. destruct Hrc as [->|[-> Hf]]; cbn [Z.eqb].
  - eexists _, bufs. split; [done|]. split; [done|]. split; [done|]. by destruct (nooverwrite d).
  - eexists _, bufs. split; [done|]. split; [done|]. split; [done|]. split; [done|]. intros _. split; [done|].
    intros s a Ha. by eapply Forall_lookup_1 in Hf.
Qed.

(** ** The answer to a request *)

(** The statistics that a file of the given bytes stands for. *)
Definition loaded (bs : bytes) : s_stats_t := load_stats (splice (stats_bytes zero_stats) 0 bs).

(** Reading the file in gives all of it, or else an error. *)
Lemma s_stats_read_ok d base : basefname (req d) = Some base -> statfd d = -1 -> st d = zero_stats ->
  exists rc s l, s_stats_read d = Done (rc, set_sys_log (set_st d s) l) /\ known rc /\
    let fd := sys_rc (sys_log d) (SysOpen (statfilename d) false false) in
    let l1 := sys_log d ++ [SysOpen (statfilename d) false false] in
    let n := sys_rc l1 (SysRead fd STAT_LEN) in
    (rc = TES_CAP_REQ_OK -> fd <> -1) /\
    (fd <> -1 -> s = loaded (take (Z.to_nat n) (sys_bytes l1 (SysRead fd STAT_LEN))) /\
      (n <> STAT_LEN -> rc = TES_CAP_REQ_EFAIL) /\ (n = STAT_LEN -> rc = TES_CAP_REQ_OK)).
Proof.
  intros Hb Hs Hst. destruct d. cbn in Hb, Hs, Hst. subst. unfold s_stats_read, run.
  cbn -[stats_bytes load_stats STAT_LEN zero_stats]. rewrite Hb.
  cbn -[stats_bytes load_stats STAT_LEN zero_stats].
  set (l1 := sys_log0 ++ _). set (fd := sys_rc sys_log0 (SysOpen statfilename0 false false)).
  clearbody fd. destruct (Z.eqb_spec fd (-1)) as [->|E].
  - exists TES_CAP_REQ_EFAIL, zero_stats, l1. by split_and!.
  - set (n := sys_rc l1 (SysRead fd STAT_LEN)).
    eexists _, _, ((l1 ++ [SysRead fd STAT_LEN]) ++ [SysClose fd]). split; [reflexivity|].
    destruct (Z.eqb_spec n STAT_LEN) as [En|En]; by split_and!.
Qed.

(** What the end of a job wrote is what is read. *)
Lemma loaded_stats past :
  loaded (take (Z.to_nat STAT_LEN) (stats_bytes (stats past))) = stats past.
Proof.
  unfold loaded. rewrite take_ge by by rewrite length_stats.
  rewrite splice_all by by rewrite !length_stats. apply load_stats_bytes, stats_ok.
Qed.

Lemma loaded_ticks bs : (8 <= length bs <= 64)%nat -> ticks (loaded bs) = unle (take 8 bs).
Proof.
  intros Hl. unfold loaded, load_stats, splice. cbn [ticks]. rewrite drop_0.
  cbn [take Z.to_nat]. change (take 0 _) with (@nil byte).
  rewrite app_nil_l, take_app_le by lia. done.
Qed.

Record refused t (status : Z) (t' : task s_data_t) : Prop := {
  rf_log : log t' = log t ++
    [ZsockSend 0 TES_CAP_REP_PIC (ZNum <$> [status; 0; 0; 0; 0; 0; 0; 0])];
  rf_status : status <> TES_CAP_REQ_OK /\ known status;
  rf_between : between (set_st (data t') zero_stats);
  rf_names : basefname (req (data t')) = None;
  rf_active : active t' = active t;
}.

Record reported t (bs : bytes) (t' : task s_data_t) : Prop := {
  rp_log : log t' = log t ++
    [ZsockSend 0 TES_CAP_REP_PIC (ZNum <$> TES_CAP_REQ_OK :: stats_args (loaded bs))];
  rp_between : between (data t');
  rp_names : basefname (req (data t')) = None;
  rp_active : active t' = active t;
}.

Record accepted (msg : s_req_t) (p0 : Z * Z) d : Prop := {
  ac_started : started p0 d;
  ac_req : req d = completed msg;
  ac_noconvert : noconvert d = negb (converts msg);
  ac_stat : in_root (statfilename d) = true;
  ac_hdf5 : in_root (hdf5filename d) = true;
  ac_files : filenames d = the_names (statfilename d);
}.

Inductive answer (ifd : tes_ifdesc) t (msg : s_req_t) : exec (Z * task s_data_t) -> Prop :=
  | Refuse status t' :
      refused t status t' -> (~ req_valid msg -> sys_log (data t') = sys_log (data t)) ->
      answer ifd t msg (Done (0, t'))
  | Report l fd t' :
      req_valid msg -> captures msg = false -> sys_rc l (SysRead fd STAT_LEN) = STAT_LEN ->
      reported t (take (Z.to_nat STAT_LEN) (sys_bytes l (SysRead fd STAT_LEN))) t' ->
      answer ifd t msg (Done (0, t'))
  | Accept d :
      req_valid msg -> captures msg = true ->
      accepted msg (prev_esize (data t), prev_etype (data t)) d ->
      answer ifd t msg ('(_, t) ← task_activate ifd (set_data t d); mret (0, t))
  | Unresolved :
      req_valid msg -> unresolved (sys_log (data t)) msg -> answer ifd t msg (Failed AssertFail).

Lemma refused_ok t d status : between (set_st d zero_stats) -> status <> TES_CAP_REQ_OK -> known status ->
  refused t status (s_send_err (set_data t d) status).
Proof. intros [] Hs Hk. by split. Qed.

Lemma refused_close t d status bufs : between d -> status <> TES_CAP_REQ_OK -> known status ->
  length bufs = NUM_DSETS -> Forall Aiobuf.idle (Aiobuf.s_close_aiobuf <$> bufs) ->
  let t' := s_send_err (set_data t (set_aio d bufs)) status in
  refused t status (set_data t' (s_close (data t'))).
Proof.
  intros [] Hs Hk Hl Hi. split; try done. split; try done. cbn. by rewrite length_fmap.
Qed.

(** A request without a capture, once its files are named. *)
Lemma report_ok `{!Hdf5.Hdf5Laws} ifd t msg d base meas :
  req_valid msg -> captures msg = false -> in_server (req d) ->
  between d -> basefname (req d) = Some base -> measurement (req d) = Some meas ->
  answer ifd t msg (
    '(rc, d) ← (if negb (noconvert d) then s_conv_data d else mret (TES_CAP_REQ_OK, d));
    let t := set_data t d in
    if negb (rc =? TES_CAP_REQ_OK) then mret (0, s_send_err t rc)
    else
      '(rc, d) ← s_stats_read d;
      let t := set_data t d in
      if negb (rc =? TES_CAP_REQ_OK) then mret (0, s_send_err t rc)
      else '(_, t) ← s_stats_send t TES_CAP_REQ_OK; mret (0, t)).
Proof.
  intros Hv Hc Hsrv Hbt Hb Hm.
  assert (Hconv : exists rc l,
    ((if negb (noconvert d) then s_conv_data d else mret (TES_CAP_REQ_OK, d)) : exec (Z * s_data_t))
    = Done (rc, set_sys_log d l) /\ known rc).
  { destruct (noconvert d); [by exists TES_CAP_REQ_OK, (sys_log d); destruct d|].
    destruct (s_conv_data_ok d meas Hm (bt_names _ Hbt) Hsrv) as (rc & l & E & _ & Hk). by exists rc, l. }
  destruct Hconv as (rc & l & E & Hk). rewrite E. cbn [mbind exec_bind]. cbv zeta.
  destruct (Z.eqb_spec rc TES_CAP_REQ_OK) as [->|Hrc]; cbn [negb].
  2:{ apply (Refuse _ _ _ rc); [|done]. by apply refused_ok; [destruct Hbt|..]. }
  destruct (s_stats_read_ok (set_sys_log d l) base) as (rc2 & s & l2 & E2 & Hk2 & Hok); [by destruct Hbt..|].
  rewrite E2. cbn [mbind exec_bind]. destruct (Z.eqb_spec rc2 TES_CAP_REQ_OK) as [->|Hrc2]; cbn [negb].
  2:{ apply (Refuse _ _ _ rc2); [|done].
      apply (refused_ok t (set_sys_log (set_st (set_sys_log d l) s) l2)); [by destruct Hbt|done..]. }
  destruct Hok as [Hfd Hok]. specialize (Hok (Hfd eq_refl)).
  set (fd := sys_rc _ (SysOpen _ _ _)) in *. set (l1 := _ ++ _) in *.
  destruct Hok as (-> & Hread & _).
  destruct (Z.eq_dec (sys_rc l1 (SysRead fd STAT_LEN)) STAT_LEN) as [En|]; [|by discriminate Hread].
  rewrite En in *. set (t2 := set_data (set_data t _) _).
  destruct (s_stats_send_ok t2 TES_CAP_REQ_OK) as (rc3 & d' & E3 & Ed).
  { cbn. by rewrite Hb. }
  { by destruct Hbt. }
  rewrite E3. cbn [mbind exec_bind]. apply (Report _ _ _ l1 fd); [done..|]. rewrite Ed.
  split; [done| |done..]. destruct Hbt. by split.
Qed.

(** A request for a capture, once its files are named. *)
Lemma accept_ok ifd t msg d :
  req_valid msg -> captures msg = true -> between d -> req d = completed msg ->
  noconvert d = negb (converts msg) -> in_root (statfilename d) = true ->
  in_root (hdf5filename d) = true -> filenames d = the_names (statfilename d) ->
  (prev_esize d, prev_etype d) = (prev_esize (data t), prev_etype (data t)) ->
  answer ifd t msg (
    '(rc, d) ← s_open d (nooverwrite d);
    let t := set_data t d in
    if negb (rc =? TES_CAP_REQ_OK) then
      let t := s_send_err t rc in mret (0, set_data t (s_close (data t)))
    else
      '(rc, d) ← unlink_stat d;
      let t := set_data t d in
      if rc =? -1 then
        let t := s_send_err t TES_CAP_REQ_EFAIL in mret (0, set_data t (s_close (data t)))
      else '(_, t) ← task_activate ifd t; mret (0, t)).
Proof.
  intros Hv Hc Hbt Hr Hcv Hs Hh Hn Hp.
  destruct (s_open_ok d (nooverwrite d) Hbt) as (rc & bufs & E & Hl & Hi & Hk & Hf). rewrite E.
  cbn [mbind exec_bind]. cbv zeta. destruct (Z.eqb_spec rc TES_CAP_REQ_OK) as [->|Hrc]; cbn [negb].
  2:{ apply (Refuse _ _ _ rc); [by apply refused_close|done]. }
  assert (Hu : exists rc l, unlink_stat (set_aio d bufs) = Done (rc, set_sys_log (set_aio d bufs) l)).
  { unfold unlink_stat, run. rewrite sys_run.
    destruct (sys_rc _ _ =? 0); eexists _, _; reflexivity. }
  destruct Hu as (rc2 & l & ->). cbn [mbind exec_bind]. destruct (rc2 =? -1).
  { apply (Refuse _ _ _ TES_CAP_REQ_EFAIL); [|done].
    apply (refused_close t (set_sys_log d l)); try done. by destruct Hbt. }
  refine (Accept ifd t msg (set_sys_log (set_aio d bufs) l) Hv Hc _). destruct (Hf eq_refl) as [Hlf Hff]. destruct Hbt. split; try done.
  split; try done.
  - split; cbn; try done.
    + split; [done|]. intros s a Ha. by destruct s as [|[|[|[|]]]]; apply (Hff _ a Ha).
    + by rewrite bt_stream0.
  - split; cbn [req set_sys_log set_aio filenames statfd]; try done; rewrite Hr; unfold completed;
      destruct Hv as [Hb _ _ _]; destruct (measurement msg) eqn:Em; destruct (_ && _); cbn; congruence.
Qed.

Lemma completed_names msg : req_valid msg -> exists base meas,
  basefname (completed msg) = Some base /\ measurement (completed msg) = Some meas /\
  async (completed msg) = async msg.
Proof.
  intros [Hb _ _ _]. destruct (basefname msg) as [base|] eqn:Eb; [|done]. exists base.
  exists (default [] (measurement msg)). unfold completed.
  destruct (measurement msg) eqn:Em; destruct (_ && _); cbn; by rewrite ?Eb, ?Em.
Qed.

(** Every request gets an answer, or starts a job. *)
Lemma request_ok `{!Hdf5.Hdf5Laws} ifd t msg : between (data t) -> in_server msg ->
  answer ifd t msg (task_cap_req_hn ifd t msg).
Proof.
  intros Hbt Hsrv. unfold task_cap_req_hn. rewrite (bt_recording _ Hbt).
  cbn [negb dbg_assert c_assert mbind exec_bind].
  destruct (s_is_req_valid_ok (set_req (data t) msg)) as (rc & a & b & c & r & E & Hkn & Hiff & Hok).
  rewrite E. cbv zeta. cbn [req set_req] in Hiff, Hok.
  destruct (Z.eqb_spec rc TES_CAP_REQ_OK) as [->|Hrc]; cbn [negb].
  2:{ apply (Refuse _ _ _ rc); [|done]. apply refused_ok; [by destruct Hbt|done..]. }
  destruct (Hok eq_refl) as (-> & -> & -> & ->). pose proof (proj1 Hiff eq_refl) as Hv.
  destruct (completed_names msg Hv) as (base & meas & Hb & Hm & Ha).
  set (d1 := set_req _ (completed msg)).
  pose proof (construct_ok d1 base meas Hb Hm (bt_names _ Hbt)) as Hcon.
  destruct (s_task_construct_filenames d1) as [[rc d2]|[]]; cbn [wpr mbind exec_bind] in *; try done;
    [|apply Unresolved; [done|by exists base, meas]].
  destruct Hcon as (stat & hdf5 & names & l & -> & Hln & Hkn2 & Hroot).
  destruct (Z.eqb_spec rc TES_CAP_REQ_OK) as [->|Hrc]; cbn [negb].
  2:{ refine (Refuse ifd t msg rc _ (refused_ok t (set_sys_log (set_filenames (set_hdf5filename
        (set_statfilename d1 stat) hdf5) names) l) rc _ Hrc Hkn2) _); [by destruct Hbt|done]. }
  destruct (Hroot eq_refl) as (Hs & Hh & Hn). set (d2 := set_sys_log _ l).
  assert (Hbt2 : between d2) by (by destruct Hbt).
  change (nocapture d2) with (negb (captures msg)). destruct (captures msg) eqn:Ecap; cbn [negb].
  - apply (accept_ok ifd t msg d2); try done.
  - apply (report_ok ifd t msg d2 base meas); try done. unfold in_server in *.
    change (req d2) with (completed msg). by rewrite Ha.
Qed.
End Jobs.
End CapJob.

#[local] Existing Instances CapSample.env CapSample.laws CapSample.hdf5_laws Recorder.env.

Definition sample_cap_task (d : Cap.s_data_t) : task Cap.s_data_t :=
  Task [Recorder.endp 0] [0; 0; 0; 0] 0 0 0 false false false true d [].

(** ** Properties *)

(** C16: a job whose files are open runs to its end: with services that complete
    what they accept, and frames as the dispatcher hands them over, the handler
    skips the frames before the first tick, saves the others without a failure,
    and goes on until the first good tick at which more ticks than asked for
    and at least the events asked for have come.  Then each of the eight files
    holds exactly what the specification says for the frames of the job, the
    statistics of these frames have been written to the statistics file and are
    in the reply, the status is OK only if that file was written in full, and
    the data is ready for the next job. *)
Theorem capture_job_files `{CapEnv} `{ZEnv} `{!CapSpec.CapLaws, !Hdf5.Hdf5Laws} p0 t fs :
  CapSpec.cap_good -> CapJob.started p0 (data t) -> CapJob.in_server (Cap.req (data t)) ->
  Forall CapSpec.frame_ok fs -> Z.of_nat (length fs) < 2 ^ 52 ->
  match CapJob.history (Cap.min_ticks (Cap.req (data t))) (Cap.min_events (Cap.req (data t))) []
          (CapJob.recorded fs) with
  | (past, true) => exists t', CapJob.run_job t fs = Done (TASK_SLEEP, t') /\
      CapJob.finished p0 past (CapJob.stats_written (Cap.set_st (data t) (CapSpec.stats past))) t t'
  | (past, false) => exists d', CapJob.run_job t fs = Done (0, set_data t d') /\
      CapSpec.cap_inv p0 past d'
  end.
Proof.
  intros Hgood Hst Hsrv Hfs Hl. pose proof (CapJob.run_job_ok p0 t fs Hgood Hst Hsrv Hfs Hl) as Hr.
  destruct (CapJob.history _ _ _ _) as [past []]; [done|]. destruct Hr as (d' & r & E & Hi & _). eauto.
Qed.


(** The statistics are repeated: when the file of a job has the statistics
    that its end wrote, every request for its status that is answered with OK
    gets the counters that were in the reply of the job.  The status is OK even
    if that of the job was not. *)
Theorem status_repeats_stats `{CapEnv} `{ZEnv} `{!Hdf5.Hdf5Laws} ifd t msg past :
  CapJob.between (data t) -> CapJob.in_server msg -> CapJob.captures msg = false ->
  (forall l fd, sys_bytes l (SysRead fd STAT_LEN) = Cap.stats_bytes (CapSpec.stats past)) ->
  match Cap.task_cap_req_hn ifd t msg with
  | Done (_, t') => exists status args,
      log t' = log t ++ [ZsockSend 0 TES_CAP_REP_PIC (ZNum <$> status :: args)] /\
      (status = TES_CAP_REQ_OK -> args = Cap.stats_args (CapSpec.stats past))
  | Failed f => f = AssertFail /\ CapJob.unresolved (Cap.sys_log (data t)) msg
  end.
Proof.
  intros Hbt Hsrv Hc Hbs. destruct (CapJob.request_ok ifd t msg Hbt Hsrv)
    as [status t' [Hl [Hs _] _ _ _] _|l fd t' Hv _ Hr [Hl _ _ _]|d Hv Hc' _|Hu]; try done; try congruence.
  - exists status, [0; 0; 0; 0; 0; 0; 0]. split; [exact Hl|]. intros E. congruence.
  - exists TES_CAP_REQ_OK, (Cap.stats_args (CapSpec.stats past)). split; [|done].
    rewrite Hl, Hbs, CapJob.loaded_stats. done.
Qed.

(** C40: the measurement that a request leaves out is the empty string, which is
    also the default of the client: the task accepts it and records the job, but
    the conversion refuses a group without a name.  The eight files and the
    statistics are written as for any other job, and yet the status of the reply
    is that of a request that was not understood. *)
Theorem default_measurement_refused `{CapEnv} `{ZEnv} `{!CapSpec.CapLaws, !Hdf5.Hdf5Laws} p0 t fs past :
  CapSpec.cap_good -> CapJob.started p0 (data t) -> CapJob.in_server (Cap.req (data t)) ->
  Forall CapSpec.frame_ok fs -> Z.of_nat (length fs) < 2 ^ 52 ->
  CapJob.history (Cap.min_ticks (Cap.req (data t))) (Cap.min_events (Cap.req (data t))) []
    (CapJob.recorded fs) = (past, true) ->
  CapJob.unnamed (data t) ->
  (CapJob.stats_written (Cap.set_st (data t) (CapSpec.stats past))).1 = TES_CAP_REQ_OK ->
  exists t', CapJob.run_job t fs = Done (TASK_SLEEP, t') /\
    log t' = log t ++ [ZsockSend 0 TES_CAP_REP_PIC
      (ZNum <$> TES_CAP_REQ_EINV :: Cap.stats_args (CapSpec.stats past))] /\
    forall s a, Cap.aio (data t') !! s = Some a ->
      Aiobuf.file_of (Aiobuf.calls a) = CapSpec.stream p0 s past.
Proof.
  intros Hgood Hst Hsrv Hfs Hl Eh Hun Hw. pose proof (CapJob.run_job_ok p0 t fs Hgood Hst Hsrv Hfs Hl) as Hr.
  rewrite Eh in Hr. destruct Hr as (t' & E & [Hf _ _ _ (status & El & _ & _ & _ & Hs)]).
  exists t'. split; [done|]. split; [|done]. by rewrite El, (Hs Hun), Hw.
Qed.

(** a frame with error flags and no payload, which the dispatcher hands over
    like any other, stops the server when a job is being recorded. *)
Theorem capture_empty_payload_aborts `{CapEnv} `{ZEnv} p0 past t pkt missed err fs :
  CapSpec.cap_inv p0 past (data t) -> Cap.recording (data t) = true -> c_true err = true ->
  Cap.task_cap_pkt_hn t pkt TESPKT_HDR_LEN missed err = Failed AssertFail /\
  CapJob.run_job t (CapSpec.Frame pkt TESPKT_HDR_LEN missed err :: fs) = Failed AssertFail.
Proof.
  intros Hi Hr He. assert (E : Cap.task_cap_pkt_hn t pkt TESPKT_HDR_LEN missed err = Failed AssertFail);
    [|split; [done|cbn [CapJob.run_job CapSpec.f_pkt CapSpec.f_len CapSpec.f_missed CapSpec.f_err];
      by rewrite E]].
  unfold Cap.task_cap_pkt_hn. rewrite Hr. cbn [negb andb]. rewrite Hr. cbn [negb].
  unfold Cap.save_frame, Cap.choose_file. rewrite He. cbv zeta. set (d := Cap.set_st _ _).
  cbn [mbind exec_bind mret exec_ret].
  assert (Hf : CapSpec.files d (fun s => CapSpec.stream p0 s past)) by (by destruct (CapSpec.ci_files _ _ _ Hi)).
  rewrite (CapSpec.dat_end_ok d _ DSET_BDAT Hf) by (unfold NUM_DSETS, DSET_BDAT; lia).
  cbn [mbind exec_bind]. change (to_u16 (TESPKT_HDR_LEN - TESPKT_HDR_LEN)) with 0.
  destruct Hf as [Hl Ha]. unfold Cap.queue.
  destruct (lookup_lt_is_Some_2 (Cap.aio d) DSET_BDAT) as [a Ea];
    [rewrite Hl; unfold NUM_DSETS, DSET_BDAT; lia|].
  rewrite Ea. cbn [deref mbind exec_bind]. unfold Aiobuf.s_try_queue_aiobuf.
  by rewrite (proj2 (Z.eqb_neq _ _) (Aiobuf.ao_fildes _ _ (Ha _ _ Ea))).
Qed.

(** a statistics file that is cut short spoils the next job: the request for
    the status gets an error, but what was read stays in the data, and the
    assertion of [s_open] that the statistics are zero stops the server at the
    next request for a capture. *)
Theorem stats_short_read_poisons `{CapEnv} d base :
  CapJob.between d -> Cap.basefname (Cap.req d) = Some base ->
  let fd := sys_rc (Cap.sys_log d) (SysOpen (Cap.statfilename d) false false) in
  let l := Cap.sys_log d ++ [SysOpen (Cap.statfilename d) false false] in
  let bs := sys_bytes l (SysRead fd STAT_LEN) in
  fd <> -1 -> sys_rc l (SysRead fd STAT_LEN) = Z.of_nat (length bs) -> (8 <= length bs < 64)%nat ->
  unle (take 8 bs) <> 0 ->
  exists d', Cap.s_stats_read d = Done (TES_CAP_REQ_EFAIL, d') /\
    forall d2 excl, Cap.st d2 = Cap.st d' -> Cap.s_open d2 excl = Failed AssertFail.
Proof.
  intros Hbt Hb fd l bs Hfd Hrc Hlen Hne.
  destruct (CapJob.s_stats_read_ok d base Hb (CapJob.bt_statfd _ Hbt) (CapJob.bt_st _ Hbt))
    as (rc & s & l2 & E & _ & Hs). destruct Hs as [_ Hs].
  specialize (Hs Hfd). fold l fd bs in Hs. destruct Hs as (Es & Er & _).
  rewrite Hrc, Nat2Z.id, take_ge in Es by lia.
  rewrite Er in E by (rewrite Hrc; unfold STAT_LEN; lia).
  eexists. split; [exact E|]. intros d2 excl E2. unfold Cap.s_open. rewrite E2.
  cbn [Cap.st Cap.set_st Cap.set_sys_log]. rewrite Es, CapJob.loaded_ticks by lia.
  by rewrite (proj2 (Z.eqb_neq _ _) Hne).
Qed.

(** ** Witnesses *)

Lemma capture_job_files_witness : exists t',
  CapJob.run_job (sample_cap_task CapSample.open_data) CapSample.job = Done (TASK_SLEEP, t') /\
  log t' = [ZsockSend 0 TES_CAP_REP_PIC (ZNum <$> [0; 2; 3; 0; 1; 4; 0; 0])] /\
  CapJob.between (data t').
Proof.
  pose proof (capture_job_files (0, 0) (sample_cap_task CapSample.open_data) CapSample.job
    CapSample.cap_sample_good) as Hr.
  destruct (CapJob.history _ _ [] (CapJob.recorded CapSample.job)) as [past []] eqn:Eh.
  - destruct Hr as (t' & E & Hf).
    + split; [exact CapSample.open_inv|reflexivity|]. split; try reflexivity; discriminate.
    + left. reflexivity.
    + exact CapSample.job_ok.
    + reflexivity.
    + exists t'. split; [exact E|]. destruct Hf as [_ Hb _ _ (status & El & _ & _ & Hs & _)].
      split; [|exact Hb]. rewrite El, (Hs eq_refl).
      assert (Ep : past = rev CapSample.job).
      { vm_compute in Eh. injection Eh as <-. vm_compute. reflexivity. }
      rewrite Ep. vm_compute. reflexivity.
  - vm_compute in Eh. discriminate Eh.
Defined.

(** A job that is to be converted, without a measurement. *)
Definition unnamed_data : Cap.s_data_t :=
  Cap.set_flags (Cap.set_req CapSample.open_data
    (Cap.set_measurement (Cap.req CapSample.open_data) [])) false false true.

Lemma default_measurement_refused_witness : exists t',
  CapJob.run_job (sample_cap_task unnamed_data) CapSample.job = Done (TASK_SLEEP, t') /\
  log t' = [ZsockSend 0 TES_CAP_REP_PIC (ZNum <$> [TES_CAP_REQ_EINV; 2; 3; 0; 1; 4; 0; 0])].
Proof.
  destruct (default_measurement_refused (0, 0) (sample_cap_task unnamed_data) CapSample.job (rev CapSample.job)
    CapSample.cap_sample_good) as (t' & E & El & _).
  - split; [destruct CapSample.open_inv as [[] ? ? ? ?]; split; [by split|try assumption..]|reflexivity|]. split; try reflexivity; discriminate.
  - left. reflexivity.
  - exact CapSample.job_ok.
  - reflexivity.
  - vm_compute. reflexivity.
  - split; reflexivity.
  - vm_compute. reflexivity.
  - exists t'. split; [exact E|]. rewrite El. vm_compute. reflexivity.
Defined.


Lemma idle_between : CapJob.between CapSample.idle_data.
Proof. split; try reflexivity. exact (Forall_replicate _ _ _ AioSample.fresh_idle). Qed.

Definition status_req : Cap.s_req_t :=
  Cap.Build_s_req_t 0 0 0 0 TES_CAP_AUTO (Some (lit "a")) (Some (lit "b")).

Lemma status_repeats_stats_witness :
  match Cap.task_cap_req_hn Recorder.ifd (sample_cap_task CapSample.idle_data) status_req with
  | Done (_, t') => exists status args,
      log t' = [ZsockSend 0 TES_CAP_REP_PIC (ZNum <$> status :: args)] /\
      (status = TES_CAP_REQ_OK -> args = [2; 3; 0; 1; 4; 0; 0])
  | Failed f => f = AssertFail /\ CapJob.unresolved [] status_req
  end.
Proof.
  apply (status_repeats_stats Recorder.ifd (sample_cap_task CapSample.idle_data) status_req
    (rev CapSample.job) idle_between).
  - left. reflexivity.
  - reflexivity.
  - intros l fd. vm_compute. reflexivity.
Defined.

Lemma capture_empty_payload_aborts_witness :
  Cap.task_cap_pkt_hn (sample_cap_task (Cap.set_recording CapSample.open_data true))
    (sample_peak 1 0 0) TESPKT_HDR_LEN 0 1 = Failed AssertFail.
Proof.
  apply (capture_empty_payload_aborts (0, 0) [] _ _ _ _ []); [|reflexivity..].
  destruct CapSample.open_inv as [[Hl Hf] Hst Hs Ht Hp]. split; try assumption. split; assumption.
Defined.

(** A system with a statistics file of 40 bytes. *)
Definition short_sys : SysEnv := {|
  sys_rc := fun l c => match c with SysRead _ _ => 40 | _ => 5 end;
  sys_errno := fun _ _ => ENOENT; sys_path := fun _ path => Some path;
  sys_bytes := fun _ _ => x07 :: replicate 39 x00; sys_pipe := fun _ => (3, 4) |}.
Definition short_env : CapEnv := {|
  cap_aio := fun _ => AioSample.env; cap_sys := short_sys; cap_stack := fun _ => 0;
  cap_malloc := true; zsock_send_rc := fun _ => 0 |}.

Lemma stats_short_read_poisons_witness :
  exists d', Cap.s_stats_read (H := short_env) CapSample.idle_data = Done (TES_CAP_REQ_EFAIL, d') /\
    forall d2 excl, Cap.st d2 = Cap.st d' -> Cap.s_open (H := short_env) d2 excl = Failed AssertFail.
Proof.
  apply (stats_short_read_poisons (H := short_env) CapSample.idle_data (lit "a") idle_between).
  - reflexivity.
  - discriminate.
  - reflexivity.
  - split; vm_compute; repeat constructor.
  - discriminate.
Defined.
