(* ===== verification/CaptureStop.v ===== *)
(** * The end of the capture task

    What the finalizer of the task saves of a job that is in progress when the
    server stops, and that it leaves nothing mapped. *)

From Stdlib Require Import ZArith Lia Strings.String Strings.Byte.
From stdpp Require Import base option list numbers decidable sets.
From S2P Require Import Prelude Sys Path Hdf5 Tespkt Tesif Task TaskTheory Aiobuf Capture CaptureTheory CaptureIndex CaptureJob.

Open Scope Z_scope.

Module CapStop.
Import Cap CapSpec CapRead CapJob.

Section Stop.
Context `{CapEnv, ZEnv}.
Implicit Types (d : s_data_t) (past : list frame) (t : task s_data_t).
#[local] Existing Instance cap_laws.

(** A buffer that was unmapped last, with its file. *)
Record unmapped (a : Aiobuf.s_aiobuf_t) (content : bytes) : Prop := {
  um_zone : Aiobuf.zone a = [];
  um_last : exists l, Aiobuf.calls a = l ++ [Munmap];
  um_file : Aiobuf.file_of (Aiobuf.calls a) = content;
}.

Lemma s_fin_aiobuf_ok a content : Aiobuf.idle a -> Aiobuf.file_of (Aiobuf.calls a) = content ->
  unmapped (Aiobuf.s_fin_aiobuf a) content.
Proof.
  intros Hi Hf. unfold Aiobuf.s_fin_aiobuf. destruct (Aiobuf.zone a) eqn:Ez.
  { pose proof (Aiobuf.id_length _ Hi) as Hl. rewrite Ez in Hl. discriminate Hl. }
  split; [done|by exists (Aiobuf.calls a)|].
  cbn [Aiobuf.calls Aiobuf.call Aiobuf.set_zone]. by rewrite Aiobuf.file_of_snoc.
Qed.

(** A job that was in progress when the task ended; its statistics file was
    written with the result and the calls [w]. *)
Record stopped (p0 : Z * Z) past (w : Z * list sys_call) t (t' : task s_data_t) : Prop := {
  sp_len : length (aio (data t')) = NUM_DSETS;
  sp_files : forall s a, aio (data t') !! s = Some a -> unmapped a (stream p0 s past);
  sp_calls : sys_log (data t') = w.2;
  sp_reply : log t' = log t ++
    [ZsockSend 0 TES_CAP_REP_PIC (ZNum <$> TES_CAP_REQ_EWRT :: stats_args (stats past))];
}.

(** The result of the finalizer. *)
Definition fin_rc (w : Z) (send : Z) : Z := if (w =? TES_CAP_REQ_OK) && (send =? 0) then 0 else -1.

Lemma stats_written_cases d :
  (stats_written d).1 = TES_CAP_REQ_OK \/ (stats_written d).1 = TES_CAP_REQ_EFIN.
Proof. unfold stats_written. repeat case_if; auto. Qed.

Lemma fin_rc_eq w send : w = TES_CAP_REQ_OK \/ w = TES_CAP_REQ_EFIN ->
  (if c_true (Z.lor w (if c_true send then TES_CAP_REQ_EFIN else TES_CAP_REQ_OK)) then -1 else 0) =
  fin_rc w send.
Proof. unfold fin_rc, c_true. by intros [-> | ->]; destruct (send =? 0). Qed.

Lemma set_data_twice t d d' : set_data (set_data t d) d' = set_data t d'.
Proof. done. Qed.

Lemma log_set_data t d : log (set_data t d) = log t.
Proof. done. Qed.

Lemma task_cap_fin_ok `{!CapLaws} p0 past t :
  cap_good -> cap_inv p0 past (data t) -> named (data t) ->
  exists t', task_cap_fin t =
      Done (fin_rc (stats_written (data t)).1 (zsock_send_rc (log t')), t') /\
    stopped p0 past (stats_written (data t)) t t'.
Proof.
  intros Hgood [Hf Hst _ _ _] [Hb _ _ Hfd]. unfold task_cap_fin, end_job, Hdf5.not_null.
  rewrite bool_decide_eq_true_2 by done.
  destruct (cap_flush_ok (data t) _ Hgood Hf) as (d1 & E1 & Ed1 & [Hl Hcl]).
  rewrite E1. cbn [mbind exec_bind]. cbv zeta. set (d2 := s_close d1) in *.
  destruct (basefname (req (data t))) as [base|] eqn:Eb; [|done].
  assert (Ew : stats_written d2 = stats_written (data t)) by by rewrite Ed1.
  rewrite (s_stats_write_ok d2 base), Ew by (by rewrite Ed1). cbn [mbind exec_bind].
  set (w := stats_written (data t)). set (t1 := set_data t _).
  rewrite s_stats_send_eq by (cbn [t1 data set_data]; rewrite Ed1; cbn; congruence).
  cbv zeta. cbn [mbind exec_bind].
  set (t2 := emit t1 _). set (d5 := job_ended (data t1)).
  assert (Ea : aio d5 = aio d2) by done. assert (Es : sys_log d5 = w.2) by done.
  assert (El : log t2 = log t ++ [ZsockSend 0 TES_CAP_REP_PIC
    (ZNum <$> TES_CAP_REQ_EWRT :: stats_args (st d2))]) by done.
  rewrite Ed1 in El. cbn [st set_aio] in El. rewrite Hst in El. clear Ed1.
  exists (set_data t2 (set_aio d5 (Aiobuf.s_fin_aiobuf <$> aio d5))).
  rewrite exec_ret_bind, fin_rc_eq, set_data_twice, log_set_data by apply stats_written_cases.
  split; [done|].
  split; rewrite ?log_set_data; try done; cbn [aio data set_data set_aio sys_log]; rewrite ?Ea; try done.
  - by rewrite length_fmap.
  - intros s a. rewrite list_lookup_fmap. intros (b & Hb' & ->)%fmap_Some.
    apply Hcl in Hb' as [Hi Hc]. by apply s_fin_aiobuf_ok.
Qed.

(** Without a job there is nothing to save. *)
Lemma task_cap_fin_idle t : between (data t) -> basefname (req (data t)) = None ->
  task_cap_fin t = Done (0, set_data t (set_aio (data t) (Aiobuf.s_fin_aiobuf <$> aio (data t)))).
Proof. intros _ Hb. unfold task_cap_fin, end_job. by rewrite Hb. Qed.
End Stop.
End CapStop.

#[local] Existing Instances CapSample.env CapSample.laws CapSample.hdf5_laws Recorder.env.

(** C17: a server that stops in the middle of a job loses nothing of it: when the
    frames that came since the job was accepted do not complete it, the handler
    has stopped nothing, and the finalizer writes all that is still in the
    buffers, so that each of the eight files has exactly what the specification
    says for the frames of the job; it writes their statistics to the
    statistics file, sends them with the status that says that the job is not
    complete, and unmaps every buffer last.  It returns 0 exactly if both the
    statistics file and the reply were written. *)
Theorem capture_stop_saves `{CapEnv} `{ZEnv} `{!CapSpec.CapLaws, !Hdf5.Hdf5Laws} p0 t fs past :
  CapSpec.cap_good -> CapJob.started p0 (data t) -> CapJob.in_server (Cap.req (data t)) ->
  Forall CapSpec.frame_ok fs -> Z.of_nat (length fs) < 2 ^ 52 ->
  CapJob.history (Cap.min_ticks (Cap.req (data t))) (Cap.min_events (Cap.req (data t))) []
    (CapJob.recorded fs) = (past, false) ->
  let w := CapJob.stats_written (Cap.set_st (data t) (CapSpec.stats past)) in
  exists t1 t2, CapJob.run_job t fs = Done (0, t1) /\
    Cap.task_cap_fin t1 = Done (CapStop.fin_rc w.1 (zsock_send_rc (log t2)), t2) /\
    CapStop.stopped p0 past w t t2.
Proof.
  intros Hgood Hst Hsrv Hfs Hl Eh w. pose proof (CapJob.run_job_ok p0 t fs Hgood Hst Hsrv Hfs Hl) as Hr.
  rewrite Eh in Hr. destruct Hr as (d' & r & E & Hi & Hj). exists (set_data t d').
  destruct (CapStop.task_cap_fin_ok p0 past (set_data t d') Hgood Hi) as (t2 & E2 & Hs).
  { apply (CapJob.same_job_named _ _ Hj). by destruct (CapJob.sr_named _ _ Hst). }
  assert (Ew : CapJob.stats_written d' = w).
  { unfold w. rewrite <- (CapSpec.ci_st _ _ _ Hi). unfold CapJob.stats_written.
    cbn [Cap.sys_log Cap.statfilename Cap.st Cap.set_st].
    by rewrite (CapSpec.sj_log _ _ Hj), (CapSpec.sj_stat _ _ Hj). }
  cbn [data set_data] in E2, Hs. rewrite Ew in E2, Hs. exists t2. split; [done|]. split; [done|].
  destruct Hs. by split.
Qed.

(** A job that lacks its last tick. *)
Definition cut_job : list CapSpec.frame := take 3 CapSample.job.

Lemma capture_stop_saves_witness : exists t1 t2,
  CapJob.run_job (sample_cap_task CapSample.open_data) cut_job = Done (0, t1) /\
  Cap.task_cap_fin t1 = Done (0, t2) /\
  log t2 = [ZsockSend 0 TES_CAP_REP_PIC (ZNum <$> [TES_CAP_REQ_EWRT; 1; 3; 0; 1; 3; 0; 0])].
Proof.
  destruct (capture_stop_saves (0, 0) (sample_cap_task CapSample.open_data) cut_job (rev cut_job)
    CapSample.cap_sample_good) as (t1 & t2 & E1 & E2 & Hs).
  - split; [exact CapSample.open_inv|reflexivity|]. split; try reflexivity; discriminate.
  - left. reflexivity.
  - exact (Forall_take _ 3 _ CapSample.job_ok).
  - reflexivity.
  - vm_compute. reflexivity.
  - exists t1, t2. split; [exact E1|]. split; [exact E2|]. rewrite (CapStop.sp_reply _ _ _ _ _ Hs).
    vm_compute. reflexivity.
Defined.
