(* ===== verification/CaptureFiles.v ===== *)
(** * The files that a job leaves

    A whole job, up to the answer or to the finalizer that cuts it short, and
    what its index files then say about its data files: every entry of the index
    of histograms or traces leads to one that arrived whole, and the other way
    round; and what is kept in members of fixed width is not cut. *)

From Stdlib Require Import ZArith Lia Strings.String Strings.Byte.
From stdpp Require Import base option list numbers decidable sets.
From S2P Require Import Prelude Sys Path Hdf5 Tespkt Tesif Task TaskTheory Aiobuf Capture CaptureTheory CaptureIndex CaptureJob CaptureStop.

Open Scope Z_scope.

Module CapFiles.
Import Cap CapSpec CapRead CapJob CapStop.

Section Files.
Context `{CapEnv, ZEnv}.
Implicit Types (d : s_data_t) (past : list frame) (t : task s_data_t).

(** ** A job and its end *)

(** The frames are handed over until the job is complete; if they do not
    complete it the server stops, and the finalizer saves what there is. *)
Definition job_end t (fs : list frame) : exec (task s_data_t) :=
  '(rc, t) ← run_job t fs;
  if rc =? 0 then '(_, t) ← task_cap_fin t; mret t else mret t.

(** What is in the file of a dataset. *)
Definition job_file d (s : nat) : bytes :=
  match aio d !! s with Some a => Aiobuf.file_of (Aiobuf.calls a) | None => [] end.

(** The history consists of the frames up to the one that completes the job. *)
Lemma history_frames mt me fs past past' stop : history mt me past fs = (past', stop) ->
  exists fs' rest, fs = fs' ++ rest /\ past' = rev fs' ++ past /\ (stop = false -> rest = []).
Proof.
  revert past. induction fs as [|f fs IH]; cbn [history]; intros past Hh.
  { injection Hh as <- <-. by exists [], []. }
  destruct (complete mt me (f :: past)).
  { injection Hh as <- <-. exists [f], fs. done. }
  destruct (IH _ Hh) as (fs' & rest & -> & -> & Hr). exists (f :: fs'), rest.
  split; [done|]. split; [|done]. cbn [rev]. by rewrite <- app_assoc.
Qed.

Lemma history_ok mt me fs past stop (P : frame -> Prop) : Forall P fs ->
  history mt me [] (recorded fs) = (past, stop) -> Forall P past /\ (length past <= length fs)%nat.
Proof.
  intros Hf Hh. destruct (recorded_suffix P fs Hf) as [Hr Hl].
  destruct (history_frames _ _ _ _ _ _ Hh) as (fs' & rest & E & -> & _). rewrite app_nil_r.
  rewrite E in Hr, Hl. apply Forall_app in Hr as [Hr _]. rewrite length_app in Hl.
  rewrite length_rev. split; [by apply Forall_rev|lia].
Qed.

Lemma job_file_lookup d s content : length (aio d) = NUM_DSETS -> (s < NUM_DSETS)%nat ->
  (forall a, aio d !! s = Some a -> Aiobuf.file_of (Aiobuf.calls a) = content) ->
  job_file d s = content.
Proof.
  intros Hl Hs Ha. unfold job_file. destruct (lookup_lt_is_Some_2 (aio d) s) as [a E]; [lia|].
  rewrite E. by apply Ha.
Qed.

(** A job whose files are open, the frames of which the history is [past]. *)
Record job_of (p0 : Z * Z) t (fs past : list frame) (stop : bool) : Prop := {
  jo_good : cap_good;
  jo_started : started p0 (data t);
  jo_server : in_server (req (data t));
  jo_frames : Forall frame_ok fs;
  jo_length : Z.of_nat (length fs) < 2 ^ 52;
  jo_history : history (min_ticks (req (data t))) (min_events (req (data t))) [] (recorded fs) =
    (past, stop);
}.

(** However it ends, each file has what the specification says. *)
Lemma job_end_ok `{!CapLaws, !Hdf5.Hdf5Laws} p0 t fs past stop : job_of p0 t fs past stop ->
  exists t', job_end t fs = Done t' /\
    forall s, (s < NUM_DSETS)%nat -> job_file (data t') s = stream p0 s past.
Proof.
  intros [Hgood Hst Hsrv Hfs Hl Hh]. pose proof (run_job_ok p0 t fs Hgood Hst Hsrv Hfs Hl) as Hr.
  rewrite Hh in Hr. unfold job_end. destruct stop.
  - destruct Hr as (t' & -> & [Hf Hb _ _ _]). exists t'. split; [done|]. intros s Hs.
    apply job_file_lookup; [by destruct Hb|done|by apply Hf].
  - destruct Hr as (d' & r & -> & Hi & Hj). cbn [mbind exec_bind Z.eqb].
    destruct (task_cap_fin_ok p0 past (set_data t d') Hgood Hi) as (t2 & -> & Hp).
    { apply (same_job_named _ _ Hj). by destruct (sr_named _ _ Hst). }
    exists t2. split; [done|]. intros s Hs. destruct Hp as [Hla Hf _ _].
    apply job_file_lookup; [done..|]. intros a Ha. apply (um_file _ _ (Hf s a Ha)).
Qed.

(** ** The index of histograms or traces *)

Definition index_file (tr : bool) : nat := if tr then DSET_RIDX else DSET_MIDX.

Lemma index_stream p0 tr past : stream p0 (index_file tr) past = sidx_stream tr past.
Proof. by destruct tr. Qed.


Lemma file_numbers tr : (index_file tr < NUM_DSETS)%nat /\ (stream_file tr < NUM_DSETS)%nat.
Proof. destruct tr; split; by apply Nat.ltb_lt. Qed.








(** Frames that were lost in front of a bad frame do not end the stream that is
    being received. *)
Lemma bad_frame_keeps_stream past f : bad f = true -> stream_of (f :: past) = stream_of past.
Proof. intros Hb. cbn [stream_of]. unfold follow. by rewrite Hb. Qed.

(** ** The values *)

(** What the members of the statistics stand for. *)
Definition counts past : s_stats_t :=
  Build_s_stats_t (n_ticks past) (n_events past)
    (Z.of_nat (length (entries true past))) (Z.of_nat (length (entries false past)))
    (Z.of_nat (length past)) (n_lost past) 0 0.

(** The data of a job in progress. *)
Record values past d : Prop := {
  vl_stats : st d = counts past;
  vl_nframes : nframes (cur_tick d) = Z.of_nat (length (tick_frames past));
  vl_nframes_fits : is_u32 (nframes (cur_tick d));
  vl_tidx : tidx_wf (tidx (cur_tick d));
  vl_esize : is_u8 (prev_esize d);
  vl_etype : is_u8 (prev_etype d);
}.

Lemma values_ok p0 past d : is_u8 p0.1 -> is_u8 p0.2 -> Forall frame_ok past ->
  Z.of_nat (length past) < 2 ^ 32 -> cap_inv p0 past d -> values past d.
Proof.
  intros H1 H2 Hf Hl [_ Es _ Ec Ep]. destruct (tick_inv_ok past Hl) as [Hn _ _ Hle Hw].
  destruct (prev_of_u8 p0 past H1 H2) as [Hp1 Hp2]. rewrite <- Ep in Hp1, Hp2.
  split; rewrite ?Ec; try done.
  - rewrite Es. by apply stats_exact.
  - rewrite Hn. unfold is_u32. lia.
Qed.

(** A file that is an array of entries, each of which is read back. *)
Definition array {A} `{Entry A} (file : bytes) (xs : list A) : Prop :=
  file = file_of_entries xs /\ forall i x, xs !! i = Some x -> entry_at file i = x.

Lemma array_ok {A} `{Entry A} (xs : list A) : Forall e_wf xs -> array (file_of_entries xs) xs.
Proof.
  intros Hw. split; [done|]. intros i x Hi. apply entry_at_lookup; [done|].
  exact (proj1 (Forall_lookup _ _) Hw i x Hi).
Qed.
End Files.
End CapFiles.

#[local] Existing Instances CapRead.fidx_entry CapRead.tidx_entry CapRead.sidx_entry CapSample.env CapSample.laws CapSample.hdf5_laws Recorder.env.

(** ** Properties *)


(** C21: in a job of fewer than 2^32 frames every member has the value it stands
    for and fits its type.  When the job is complete, the reply has the exact
    counts of ticks, events, traces, histograms, frames and lost frames; while
    it is not, so has the data of the task, and the number of event frames since
    the last tick and the entry begun for them fit their members.  However it
    ends, no entry of the three kinds of index files is cut to the width of a
    member: the file is the array of the entries that the specification says,
    and each is read back from it as it is. *)
Theorem capture_fields_fit `{CapEnv} `{ZEnv} `{!CapSpec.CapLaws, !Hdf5.Hdf5Laws} p0 t fs past stop :
  CapFiles.job_of p0 t fs past stop -> Z.of_nat (length fs) < 2 ^ 32 ->
  CapRead.stack_bytes -> is_u8 p0.1 -> is_u8 p0.2 ->
  (if stop then exists t' status, CapJob.run_job t fs = Done (TASK_SLEEP, t') /\
     log t' = log t ++ [ZsockSend 0 TES_CAP_REP_PIC
       (ZNum <$> status :: Cap.stats_args (CapFiles.counts past))]
   else exists d', CapJob.run_job t fs = Done (0, set_data t d') /\ CapFiles.values past d') /\
  exists t', CapFiles.job_end t fs = Done t' /\
    CapFiles.array (CapFiles.job_file (data t') DSET_FIDX) (CapRead.fidxs p0 past) /\
    CapFiles.array (CapFiles.job_file (data t') DSET_TIDX) (CapRead.tidxs past) /\
    forall tr, CapFiles.array (CapFiles.job_file (data t') (CapFiles.index_file tr))
      (CapSpec.entries tr past).
Proof.
  intros Hj Hl32 Hst Hp1 Hp2. pose proof Hj as [Hgood Hs Hsrv Hfs Hl Hh].
  destruct (CapFiles.history_ok _ _ _ _ _ _ Hfs Hh) as [Hp Hlp]. split.
  - pose proof (CapJob.run_job_ok p0 t fs Hgood Hs Hsrv Hfs Hl) as Hr. rewrite Hh in Hr. destruct stop.
    + destruct Hr as (t' & E & [_ _ _ _ (status & El & _)]). exists t', status. split; [done|].
      by rewrite El, (CapRead.stats_exact past Hp) by lia.
    + destruct Hr as (d' & r & E & Hi & _). exists d'. split; [done|].
      apply (CapFiles.values_ok p0); [done..|lia|done].
  - destruct (CapFiles.job_end_ok p0 t fs past stop Hj) as (t' & E & Hf). exists t'.
    split; [done|]. rewrite !Hf by by apply Nat.ltb_lt. split; [|split].
    + change (CapSpec.stream p0 DSET_FIDX past) with (CapSpec.fidx_stream p0 past).
      rewrite CapRead.fidx_stream_eq. apply CapFiles.array_ok, CapRead.fidxs_wf; [done..|lia].
    + change (CapSpec.stream p0 DSET_TIDX past) with (CapSpec.tidx_stream past).
      rewrite CapRead.tidx_stream_eq. apply CapFiles.array_ok, CapRead.tidxs_wf. lia.
    + intros tr. rewrite Hf by apply CapFiles.file_numbers.
      rewrite CapFiles.index_stream, CapRead.sidx_stream_eq.
      apply CapFiles.array_ok, CapRead.entries_wf; [done|lia].
Qed.

(** A bad frame hides that frames were lost in front of it: the stream that is
    being received goes on, however many there were. *)
Theorem bad_frame_hides_loss `{CapEnv} `{!CapSpec.CapLaws} p0 past g f d :
  CapSpec.cap_good -> CapSpec.frame_ok f -> CapSpec.small p0 past -> CapSpec.cap_inv p0 past d ->
  CapSpec.bad f = true -> CapSpec.stream_of past = Some g ->
  exists d', Cap.save_frame (CapSpec.f_pkt f) (CapSpec.f_len f) (CapSpec.f_missed f)
      (CapSpec.f_err f) d = Done (false, d') /\
    CapSpec.stream_rel (Cap.cur_stream d') (Some g).
Proof.
  intros Hgood Hok Hs Hi Hb Hg. pose proof (CapSpec.save_frame_ok p0 past f d Hok Hs Hi) as Hw.
  destruct (Cap.save_frame _ _ _ _ _) as [[fin d']|[]]; cbn [CapSpec.wpc] in Hw; try done.
  destruct Hw as (Hi' & _ & Hfin). exists d'. rewrite (Hfin Hgood). split.
  - unfold CapSpec.complete, CapSpec.good_tick. by rewrite Hb.
  - rewrite <- Hg, <- (CapFiles.bad_frame_keeps_stream past f Hb). by destruct Hi'.
Qed.

(** ** Witnesses *)

(** A histogram in three frames, with a bad frame among them; three frames were
    lost in front of the bad one. *)
Definition bad_cont : CapSpec.frame :=
  CapSpec.Frame (sample_mca_cont 5 1 10) (tespkt_flen (sample_mca_cont 5 1 10)) 3 1.
Definition split_job : list CapSpec.frame :=
  [CapSample.tick1; CapSample.the_frame (sample_mca_hdr 2 29 10) 0; bad_cont;
   CapSample.the_frame (sample_mca_cont 6 1 10) 0; CapSample.the_frame (sample_mca_cont 7 2 10) 0;
   CapSample.pulses; CapSample.tick2].

Lemma split_job_of : CapFiles.job_of (0, 0) (sample_cap_task CapSample.open_data) split_job
  (rev split_job) true.
Proof.
  split.
  - exact CapSample.cap_sample_good.
  - split; [exact CapSample.open_inv|reflexivity|]. split; try reflexivity; discriminate.
  - left. reflexivity.
  - unfold split_job. repeat apply List.Forall_cons; try apply List.Forall_nil;
      try (apply CapSample.the_frame_ok;
        vm_compute; first [reflexivity|discriminate|split; first [reflexivity|discriminate]]).
    split; [vm_compute; split; [reflexivity|discriminate]|vm_compute; discriminate|
      vm_compute; split; [discriminate|reflexivity]|discriminate].
  - reflexivity.
  - vm_compute. reflexivity.
Qed.




(** One histogram, three events between two ticks, and three lost frames. *)
Lemma capture_fields_fit_witness : exists t' status,
  CapJob.run_job (sample_cap_task CapSample.open_data) split_job = Done (TASK_SLEEP, t') /\
  log t' = [ZsockSend 0 TES_CAP_REP_PIC (ZNum <$> [status; 2; 3; 0; 1; 7; 3; 0])].
Proof.
  destruct (capture_fields_fit _ _ _ _ _ split_job_of) as ((t' & status & E & El) & _).
  - reflexivity.
  - exact sample_stack.
  - split; [discriminate|reflexivity].
  - split; [discriminate|reflexivity].
  - exists t', status. split; [exact E|]. rewrite El. vm_compute. reflexivity.
Defined.

(** The histogram is being received when the bad frame comes. *)
Example split_hist_under_way : CapSpec.bad bad_cont = true /\ CapSpec.f_missed bad_cont = 3 /\
  CapSpec.stream_of (drop 5 (rev split_job)) = Some (CapSpec.Ongoing false 0 160 80).
Proof. split; [reflexivity|]. split; [reflexivity|]. vm_compute. reflexivity. Qed.
