(* ===== verification/TaskLife.v ===== *)
(** * The life of a task thread (src/bin/tesd_tasks.c)

    A task runs in a thread of its own, whose body [s_task_shim] opens the
    frontends, calls the initializer, polls until a handler ends the loop, and
    releases everything.  The messages that arrive while it polls are a list of
    events, each of which is given to a handler if the loop polls the socket it
    comes from; the loop of CZMQ ends when a handler returns -1.  The data of a
    task is a static variable, to which the pointer [self->data] is set by the
    initializer: [th_data] says that it is not NULL. *)

From Stdlib Require Import ZArith Lia Strings.String Strings.Byte.
From stdpp Require Import base option list numbers decidable sets gmap relations.
From S2P Require Import Prelude Tespkt Tesif Task TaskTheory TaskInfo TaskHist TaskAvgtr TaskJitter.
From S2P Require Import Coordinator Sys Capture.

Open Scope Z_scope.

Definition NUMCPUS : Z := 4.

(** ** Tasks *)

(** What a task supplies to its thread, with messages [M] from its clients: the
    frontends with their addresses, the initializer and the finalizer, which
    say whether [self->data] is set afterwards (the finalizer is told whether it
    is before), and the handlers of requests and of a timer. *)
Class TaskMain (D M : Type) : Type := {
  endpoints : list (task_endp * string);
  data_init : option (task D -> exec (Z * bool * task D));
  data_fin : option (bool -> task D -> exec (Z * bool * task D));
  autoactivate : bool;
  frontend_hn : tes_ifdesc -> nat -> M -> task D -> exec (Z * task D);
  timer_hn : option (task D -> exec (Z * task D));
}.

(** Results of opening and binding a frontend, of registering the reader of the
    pipe, the number of processors ([sysconf]), and the affinity of the thread. *)
Class LifeEnv : Type := {
  zsock_new_ok : list action -> nat -> bool;
  zsock_attach_rc : list action -> nat -> Z;
  zloop_pipe_rc : list action -> Z;
  sysconf_ncpus : Z;
  setaffinity_rc : Z -> Z;
  getaffinity : Z -> Z * list Z;
}.

(** ** What a log of actions amounts to *)

(** Replaying a log; a step is given the actions before it. *)
Section Replay.
Context {S : Type} (step : list action -> action -> S -> S).

Fixpoint replay_from (pre l : list action) (s : S) : S :=
  match l with
  | [] => s
  | a :: l => replay_from (pre ++ [a]) l (step pre a s)
  end.

Lemma replay_from_app pre l l' s :
  replay_from pre (l ++ l') s = replay_from (pre ++ l) l' (replay_from pre l s).
Proof.
  revert pre s. induction l as [|a l IH]; intros pre s; simpl; [by rewrite app_nil_r|].
  rewrite IH. by rewrite <- app_assoc.
Qed.

Lemma replay_from_same pre l s (P : action -> Prop) :
  Forall P l -> (forall pre a, P a -> step pre a s = s) -> replay_from pre l s = s.
Proof.
  intros Hl Hs. revert pre. induction Hl as [|a l Ha _ IH]; intros pre; simpl; [done|].
  by rewrite Hs.
Qed.
End Replay.

Section Logs.
Context `{ZEnv}.

(** Whether the loop polls frontend [i]: [zloop_reader_end] takes back every
    reader of the socket. *)
Definition polled_step (i : nat) (pre : list action) (a : action) (on : bool) : bool :=
  match a with
  | ZloopReader j => if Nat.eqb j i then negb (zloop_reader_rc pre j =? -1) || on else on
  | ZloopReaderEnd j => if Nat.eqb j i then false else on
  | _ => on
  end.
Definition polled (l : list action) (i : nat) : bool := replay_from (polled_step i) [] l false.

(** The sockets that are open ([Some i]) and the loop ([None]). *)
Definition held_step `{LifeEnv} (pre : list action) (a : action) (s : gset (option nat))
    : gset (option nat) :=
  match a with
  | ZsockNew i => if zsock_new_ok pre i then {[Some i]} ∪ s else s
  | ZsockDestroy i => s ∖ {[Some i]}
  | ZloopNew => {[None]} ∪ s
  | ZloopDestroy => s ∖ {[None]}
  | _ => s
  end.
Definition held `{LifeEnv} (l : list action) : gset (option nat) :=
  replay_from held_step [] l ∅.

(** The signals sent down the pipe. *)
Definition signals (l : list action) : list Z :=
  omap (fun a => match a with ZsockSignal s => Some s | _ => None end) l.
End Logs.

(** ** The thread *)

Record thread (D : Type) : Type := Thread {
  th_task : task D;
  th_socks : list bool;   (* the socket of the frontend is not NULL *)
  th_data : bool;         (* self->data is not NULL *)
}.
Arguments Thread {D}.
Arguments th_task {D}.
Arguments th_socks {D}.
Arguments th_data {D}.

(** A message that arrives: a signal, a request or a subscription on a
    frontend, the end of a timer.  [ifd] is the interface at that time. *)
Inductive event (M : Type) : Type :=
  | EvSignal (ifd : tes_ifdesc) (sig : Z)
  | EvRequest (ifd : tes_ifdesc) (frontend : nat) (msg : M)
  | EvSubscribe (ifd : tes_ifdesc) (frontend : nat) (msg : list bytes)
  | EvTimer.
Arguments EvSignal {M}.
Arguments EvRequest {M}.
Arguments EvSubscribe {M}.
Arguments EvTimer {M}.

Section Shim.
Context {D M : Type} `{ZEnv} `{LifeEnv} `{!TaskImpl D} `{!TaskMain D M}.
Implicit Types (t : task D) (th : thread D) (ev : event M).

(** The static entry of the task list. *)
Definition new_thread (d : D) : thread D :=
  Thread (Task endpoints.*1 [0; 0; 0; 0] 0 0 0 false false false false d [])
    (replicate (length endpoints) false) false.

Definition on_task th t : thread D := Thread t (th_socks th) (th_data th).
Definition emit_th th (a : action) : thread D := on_task th (emit (th_task th) a).
(** [self->error = 1; goto cleanup] *)
Definition goto_cleanup th : exec (bool * thread D) :=
  mret (false, on_task th (set_error (th_task th) true)).

(** ** Affinity *)

(** Whether a warning is logged, and the task.  The set of processors returned
    is compared with the task's own number. *)
Definition set_affinity (id : Z) t : exec (bool * task D) :=
  let ncpus := if sysconf_ncpus =? -1 then NUMCPUS else sysconf_ncpus in
  if ncpus - 1 =? 0 then fail DivByZero
  else
    let cpu := Z.rem id (ncpus - 1) in
    let rc := setaffinity_rc cpu in
    let t := emit t (SetAffinity cpu) in
    let '(rc, cpus, t) := if rc =? 0 then let '(rc, cpus) := getaffinity cpu in
                                          (rc, cpus, emit t GetAffinity)
                          else (rc, [], t) in
    let rc := if rc =? 0
              then if existsb (fun c => (0 <=? c) && (c <? ncpus) && negb (c =? id)) cpus
                   then -1 else rc
              else rc in
    mret (negb (rc =? 0), t).

(** ** Opening *)

Definition register (i : nat) th : Z * thread D :=
  (zloop_reader_rc (log (th_task th)) i, emit_th th (ZloopReader i)).

Definition is_xpub (ty : zmq_type) : bool :=
  match ty with ZMQ_XPUB => true | ZMQ_REP => false end.

(** The loop over the frontends, from [i] on; false when it leaves for the
    cleanup. *)
Fixpoint open_frontends (i : nat) (eps : list (task_endp * string)) th : exec (bool * thread D) :=
  match eps with
  | [] => mret (true, th)
  | (ep, addr) :: eps =>
      let l := log (th_task th) in
      let opened := zsock_new_ok l i in
      let th := Thread (emit (th_task th) (ZsockNew i)) (<[i := opened]> (th_socks th)) (th_data th) in
      if negb opened then goto_cleanup th
      else
        let rc := zsock_attach_rc (log (th_task th)) i in
        let th := emit_th th (ZsockAttach i addr) in
        if rc =? -1 then goto_cleanup th
        else
          let '(rc, th) := if ep_handler ep then register i th else (0, th) in
          '(rc, th) ← (if (rc =? 0) && ep_autosleep ep
                       then c_assert (is_xpub (ep_type ep));; mret (register i th)
                       else mret (rc, th));
          if rc =? -1 then goto_cleanup th else open_frontends (S i) eps th
  end.

Definition run_init th : exec (Z * thread D) :=
  match data_init with
  | None => mret (0, th)
  | Some f => '(rc, set, t) ← f (th_task th); mret (rc, Thread t (th_socks th) (th_data th || set))
  end.

(** From the frontends to the start of the loop. *)
Definition shim_start (ifd : tes_ifdesc) th : exec (bool * thread D) :=
  '(ok, th) ← open_frontends 0 endpoints th;
  if negb ok then mret (false, th)
  else
    let rc := zloop_pipe_rc (log (th_task th)) in
    let th := emit_th th ZloopReaderPipe in
    if rc =? -1 then goto_cleanup th
    else
      '(rc, th) ← run_init th;
      if negb (rc =? 0) then goto_cleanup th
      else
        let th := emit_th th (ZsockSignal SIG_INIT) in
        if autoactivate then
          '(rc, t) ← task_activate ifd (th_task th);
          let th := on_task th t in
          if rc =? TASK_ERROR then goto_cleanup th
          else dbg_assert (rc =? 0);; mret (true, th)
        else mret (true, th).

(** ** Polling *)

(** Whether an event is given to a handler. *)
Definition delivered ev t : bool :=
  match ev with
  | EvSignal _ _ | EvTimer => true
  | EvRequest _ i _ =>
      match frontends t !! i with Some ep => ep_handler ep && polled (log t) i | None => false end
  | EvSubscribe _ i _ =>
      match frontends t !! i with Some ep => ep_autosleep ep && polled (log t) i | None => false end
  end.

Definition handle ev t : exec (Z * task D) :=
  match ev with
  | EvSignal ifd sig => s_sig_hn ifd sig t
  | EvRequest ifd i msg => frontend_hn ifd i msg t
  | EvSubscribe ifd i msg => s_sub_hn ifd i msg t
  | EvTimer => run_hook timer_hn t
  end.

(** The loop; [NoFuel] when it still polls after the events. *)
Fixpoint zloop_start (evs : list (event M)) t : exec (Z * task D) :=
  match evs with
  | [] => fail NoFuel
  | ev :: evs =>
      if delivered ev t then
        '(rc, t) ← handle ev t;
        if rc =? -1 then mret (-1, t) else zloop_start evs t
      else zloop_start evs t
  end.

(** ** Cleaning up *)

Fixpoint destroy_socks (i : nat) (socks : list bool) t : task D :=
  match socks with
  | [] => t
  | s :: socks => destroy_socks (S i) socks (if s : bool then emit t (ZsockDestroy i) else t)
  end.

Definition run_fin th : exec (thread D) :=
  match data_fin with
  | None => mret th
  | Some f =>
      '(rc, set, t) ← f (th_data th) (th_task th);
      dbg_assert (negb set);;
      mret (Thread t (th_socks th) set)
  end.

Definition shim_cleanup th : exec (thread D) :=
  let th := if error (th_task th) then emit_th th (ZsockSignal SIG_DIED) else th in
  th ← run_fin th;
  let t := emit (th_task th) ZloopDestroy in
  mret (Thread (destroy_socks 0 (th_socks th) t) (replicate (length (th_socks th)) false) (th_data th)).

(** The thread's body up to the start of the loop. *)
Definition shim_enter (id : Z) (ifd : tes_ifdesc) th : exec (bool * thread D) :=
  let th := emit_th th (ZsockSignal 0) in
  c_assert (0 <? id);;
  '(_, t) ← set_affinity id (th_task th);
  let th := emit_th (emit_th (on_task th t) BlockSignals) ZloopNew in
  shim_start ifd th.

Definition s_task_shim (id : Z) (ifd : tes_ifdesc) (evs : list (event M)) th : exec (thread D) :=
  '(ok, th) ← shim_enter id ifd th;
  th ← (if ok : bool then
          '(rc, t) ← zloop_start evs (th_task th);
          dbg_assert (rc =? -1);;
          mret (on_task th t)
        else mret th);
  shim_cleanup th.
End Shim.

(** ** What the handlers of a task may do *)

(** An action of a handler that leaves sockets and readers alone. *)
Definition sends (a : action) : Prop :=
  match a with
  | ZmqSend _ _ | ZsockSend _ _ _ | ZloopTimer _ | ZloopTimerEnd _ => True
  | _ => False
  end.

(** An action made while the loop runs. *)
Definition worker (a : action) : Prop :=
  match a with ZloopReader _ | ZloopReaderEnd _ => True | _ => sends a end.

Lemma sends_worker l : Forall sends l -> Forall worker l.
Proof. intros Hl. eapply Forall_impl; [exact Hl|]. by intros []. Qed.

(** A frontend without its count of subscribers. *)
Definition static (e : task_endp) : task_endp := set_nsubs e 0.

(** The task was neither activated nor deactivated in between, and nothing but
    messages was sent. *)
Record calm {D} (t t' : task D) : Prop := {
  cm_frontends : static <$> frontends t' = static <$> frontends t;
  cm_active : active t' = active t;
  cm_log : exists l, log t' = log t ++ l /\ Forall sends l;
}.

Lemma calm_same {D} (t t' : task D) :
  frontends t' = frontends t -> active t' = active t -> log t' = log t -> calm t t'.
Proof. intros E1 E2 E3. split; [by rewrite E1|done|]. exists []. by rewrite E3, app_nil_r. Qed.

Lemma calm_refl {D} (t : task D) : calm t t.
Proof. by apply calm_same. Qed.

Lemma calm_trans {D} (t1 t2 t3 : task D) : calm t1 t2 -> calm t2 t3 -> calm t1 t3.
Proof.
  intros [F1 A1 (l1 & L1 & S1)] [F2 A2 (l2 & L2 & S2)]. split; [congruence..|].
  exists (l1 ++ l2). rewrite L2, L1, <- app_assoc. split; [done|]. by apply Forall_app.
Qed.

Lemma calm_emit {D} (t t' : task D) a : sends a -> calm t t' -> calm t (emit t' a).
Proof.
  intros Ha H. eapply calm_trans; [exact H|]. split; [done..|]. exists [a]. split; [done|].
  by constructor.
Qed.

Lemma calm_set_data {D} (t t' : task D) d : calm t t' -> calm t (set_data t' d).
Proof. intros []. by split. Qed.

Create HintDb calm.
#[export] Hint Resolve calm_refl calm_emit calm_set_data : calm.
#[export] Hint Extern 2 (calm _ _) => (apply calm_same; reflexivity) : calm.
#[export] Hint Extern 1 (sends _) => exact I : calm.

Section Acts.
Context {D : Type} `{ZEnv} `{!TaskImpl D}.
Implicit Types t : task D.

(** The steps of a handler. *)
Inductive acts t : task D -> Prop :=
  | acts_calm t' : calm t t' -> acts t t'
  | acts_on ifd rc t' : task_activate ifd t = Done (rc, t') -> acts t t'
  | acts_off rc t' : task_deactivate t = Done (rc, t') -> acts t t'.

(** The task that a computation leaves, reached from [t] by such steps. *)
Definition by_acts t (r : Z * task D) : Prop := rtc acts t r.2.

Lemma acts_once t t' : calm t t' -> rtc acts t t'.
Proof. intros Hc. by apply rtc_once, acts_calm. Qed.

Lemma by_acts_trans t t1 (m : exec (Z * task D)) :
  rtc acts t t1 -> pwp m (by_acts t1) -> pwp m (by_acts t).
Proof. intros H1 Hm. eapply pwp_mono; [exact Hm|]. intros r Hr. unfold by_acts in *. by transitivity t1. Qed.

Lemma by_acts_calm t t1 (m : exec (Z * task D)) :
  calm t t1 -> pwp m (by_acts t1) -> pwp m (by_acts t).
Proof. intros Hc. by apply by_acts_trans, acts_once. Qed.

Lemma activate_acts ifd t : pwp (task_activate ifd t) (by_acts t).
Proof.
  destruct (task_activate ifd t) as [[rc t']|] eqn:E; [|done]. by apply rtc_once, (acts_on _ ifd rc).
Qed.

Lemma deactivate_acts t : pwp (task_deactivate t) (by_acts t).
Proof.
  destruct (task_deactivate t) as [[rc t']|] eqn:E; [|done]. by apply rtc_once, (acts_off _ rc).
Qed.

Lemma by_acts_bind t (m : exec (Z * task D)) (k : Z * task D -> exec (Z * task D)) :
  pwp m (by_acts t) -> (forall a, pwp (k a) (by_acts a.2)) -> pwp (m ≫= k) (by_acts t).
Proof.
  intros Hm Hk. eapply pwp_bind; [exact Hm|]. intros a Ha.
  eapply (by_acts_trans t a.2); [exact Ha|apply Hk].
Qed.

(** A computation that does not touch the task. *)
Lemma by_acts_pure {A} t (m : exec A) (k : A -> exec (Z * task D)) :
  (forall a, pwp (k a) (by_acts t)) -> pwp (m ≫= k) (by_acts t).
Proof. destruct m as [a|]; [intros Hk; exact (Hk a)|done]. Qed.

Lemma by_acts_ret t rc t' : calm t t' -> pwp (mret (rc, t')) (by_acts t).
Proof. apply acts_once. Qed.
End Acts.

(** What a task promises to its thread: its handlers act as above, and a
    frontend that is muted has a handler. *)
Class LifeLaws (D M : Type) `{ZEnv} `{!TaskImpl D} `{!TaskMain D M} : Prop := {
  ll_pkt : forall (t : task D) pkt flen missed err,
    pwp (pkt_handler t pkt flen missed err) (fun r => calm t r.2);
  ll_wakeup : forall t : task D, pwp (run_hook data_wakeup t) (fun r => calm t r.2);
  ll_sleep : forall t : task D, pwp (run_hook data_sleep t) (fun r => calm t r.2);
  ll_init : match data_init (D := D) (M := M) with
            | Some f => forall t, pwp (f t) (fun r => calm t r.2)
            | None => True
            end;
  ll_frontend : forall ifd i (msg : M) (t : task D), pwp (frontend_hn ifd i msg t) (by_acts t);
  ll_timer : forall t : task D, pwp (run_hook (timer_hn (M := M)) t) (by_acts t);
  ll_endpoints : Forall (fun e => ep_automute e = true -> ep_handler e = true)
                   (endpoints (D := D) (M := M)).*1;
}.

Section Theory.
Context {D M : Type} `{ZEnv} `{LifeEnv} `{!TaskImpl D} `{!TaskMain D M} `{!LifeLaws D M}.
Implicit Types (t : task D) (th : thread D) (ev : event M).

(** ** The framework's handlers *)

Lemma update_seq_calm pkt t : calm t (update_seq pkt t).
Proof. unfold update_seq. repeat case_if; auto with calm. Qed.

Lemma dispatch_one_calm ring r t : pwp (dispatch_one ring r t) (fun x => calm t x.2).
Proof.
  unfold dispatch_one. do 2 (apply pwp_bind_any; intros ? _).
  destruct (slot_check _ _) as [err flen]. apply pwp_bind_any. intros _ _.
  eapply pwp_bind; [apply (ll_pkt (M := M))|]. intros [rc t'] Hc. simpl in *.
  eapply calm_trans; [exact Hc|apply update_seq_calm].
Qed.

Lemma dispatch_loop_calm fuel ring r t :
  pwp (dispatch_loop fuel ring r t) (fun x => calm t x.2).
Proof.
  revert t. induction fuel as [|fuel IH]; intros t; simpl; case_if; auto with calm.
  { by apply calm_refl. } { done. } { by apply calm_refl. }
  eapply pwp_bind; [apply dispatch_one_calm|]. intros [rc t1] H1. simpl in H1.
  case_if; [done|]. eapply pwp_mono; [apply IH|]. intros x Hx.
  eapply calm_trans; [exact H1|]. eapply calm_trans; [|exact Hx]. auto with calm.
Qed.

Lemma next_ring_calm ifd t : pwp (s_task_next_ring ifd t) (fun x => calm t x.2).
Proof.
  unfold s_task_next_ring. case_if; apply pwp_bind_any; intros [? ?] _; simpl; auto with calm.
Qed.

Lemma process_rings_acts fuel ifd t : pwp (process_rings fuel ifd t) (rtc acts t).
Proof.
  revert t. induction fuel as [|fuel IH]; intros t; [done|]. cbn [process_rings].
  eapply pwp_bind; [apply next_ring_calm|]. intros [[next missed] t1] H1%acts_once. simpl in H1.
  case_if; [done|]. unfold s_task_dispatch.
  eapply (pwp_bind _ _ (fun x => calm t1 x.2)).
  { do 2 (apply pwp_bind_any; intros ? _). apply dispatch_loop_calm. }
  intros [rc t2] H2%acts_once. simpl in H2.
  assert (H3 : rtc acts t (set_just_activated t2 false)).
  { transitivity t1; [done|]. transitivity t2; [done|]. apply acts_once. auto with calm. }
  case_if; [|case_if].
  - eapply pwp_bind; [apply deactivate_acts|]. intros [rc' t3] H4. simpl. by etransitivity.
  - simpl. etransitivity; [exact H3|]. apply acts_once. auto with calm.
  - eapply pwp_mono; [apply IH|]. intros t3 H4. by etransitivity.
Qed.

Lemma s_sig_hn_acts ifd sig t : pwp (s_sig_hn ifd sig t) (by_acts t).
Proof.
  unfold s_sig_hn. apply by_acts_pure. intros _. apply by_acts_pure. intros _.
  case_if; [apply by_acts_ret; auto with calm|]. apply by_acts_pure. intros _.
  case_if; [apply by_acts_ret; auto with calm|].
  eapply pwp_bind; [apply process_rings_acts|]. intros t1 H1. simpl.
  unfold by_acts. simpl. transitivity (set_busy t true); [apply acts_once; auto with calm|].
  etransitivity; [exact H1|]. apply acts_once. auto with calm.
Qed.

Lemma set_nsubs_calm t i ep n :
  frontends t !! i = Some ep -> calm t (set_frontends t (<[i := set_nsubs ep n]> (frontends t))).
Proof.
  intros Hi. split; [|done|exists []; by rewrite app_nil_r]. simpl.
  rewrite list_fmap_insert. apply list_insert_id. by rewrite list_lookup_fmap, Hi.
Qed.

Lemma s_sub_hn_acts ifd i msg t : pwp (s_sub_hn ifd i msg t) (by_acts t).
Proof.
  unfold s_sub_hn. destruct msg as [|frame [|? ?]]; [by apply by_acts_ret, calm_refl| |
    by apply by_acts_ret, calm_refl].
  destruct (frontends t !! i) as [ep|] eqn:Ei; [|done]. cbn [mbind exec_bind mret exec_ret].
  case_if; [|by apply by_acts_ret, calm_refl].
  apply by_acts_pure. intros n.
  eapply by_acts_calm; [by apply (set_nsubs_calm t i ep n)|].
  repeat case_if; [..|by apply by_acts_ret, calm_refl];
    (eapply pwp_bind; [apply activate_acts || apply deactivate_acts|]; intros [rc t1] H1; exact H1).
Qed.

Lemma handle_acts ev t : pwp (handle ev t) (by_acts t).
Proof.
  destruct ev; simpl; [apply s_sig_hn_acts|apply ll_frontend|apply s_sub_hn_acts|apply ll_timer].
Qed.

(** ** Polling *)

(** The loop goes on after an event. *)
Definition polls t t' : Prop :=
  exists ev rc, delivered ev t = true /\ handle ev t = Done (rc, t') /\ rc <> -1.

Lemma polls_acts t t' : rtc polls t t' -> rtc acts t t'.
Proof.
  induction 1 as [|t1 t2 t3 (ev & rc & _ & E & _) _ IH]; [done|]. etransitivity; [|exact IH].
  exact (pwp_Done _ _ _ (handle_acts ev t1) E).
Qed.

(** The loop ends with the event whose handler returns -1, fails with a
    handler, or still polls after the events. *)
Lemma zloop_start_cases evs t :
  exists t1, rtc polls t t1 /\
    ((exists ev t2, ev ∈ evs /\ delivered ev t1 = true /\ handle ev t1 = Done (-1, t2) /\
        zloop_start evs t = Done (-1, t2)) \/
     (exists ev f, ev ∈ evs /\ delivered ev t1 = true /\ handle ev t1 = Failed f /\
        zloop_start evs t = Failed f) \/
     zloop_start evs t = Failed NoFuel /\
     Forall (fun ev => forall ifd, ev <> EvSignal ifd SIG_STOP) evs).
Proof.
  revert t. induction evs as [|ev evs IH]; intros t.
  { exists t. split; [done|]. right; right. by split. }
  simpl. destruct (delivered ev t) eqn:Ed.
  - destruct (handle ev t) as [[rc t1]|f] eqn:Eh; cbn [mbind exec_bind].
    + destruct (Z.eqb_spec rc (-1)) as [->|Hrc].
      { exists t. split; [done|]. left. exists ev, t1. split; [left|done]. }
      destruct (IH t1) as (t2 & H1 & H2). exists t2. split.
      { eapply rtc_l; [|exact H1]. by exists ev, rc. }
      destruct H2 as [(ev' & t3 & Hi & H2)|[(ev' & f & Hi & H2)|[H2 H3]]].
      * left. exists ev', t3. split; [by right|done].
      * right; left. exists ev', f. split; [by right|done].
      * right; right. split; [done|]. constructor; [|done]. intros ifd ->. simpl in Eh.
        unfold s_sig_hn in Eh. destruct (busy t); [done|]. injection Eh as <- _. by apply Hrc.
    + exists t. split; [done|]. right; left. exists ev, f. split; [left|done].
  - destruct (IH t) as (t2 & H1 & H2). exists t2. split; [done|].
    destruct H2 as [(ev' & t3 & Hi & H2)|[(ev' & f & Hi & H2)|[H2 H3]]].
    * left. exists ev', t3. split; [by right|done].
    * right; left. exists ev', f. split; [by right|done].
    * right; right. split; [done|]. constructor; [|done]. intros ifd ->. done.
Qed.
(** ** The log of a thread that polls *)

(** The log grew by actions of handlers. *)
Definition worked t t' : Prop := exists l, log t' = log t ++ l /\ Forall worker l.

Lemma worked_refl t : worked t t.
Proof. exists []. by rewrite app_nil_r. Qed.

Lemma worked_trans t1 t2 t3 : worked t1 t2 -> worked t2 t3 -> worked t1 t3.
Proof.
  intros (l1 & L1 & W1) (l2 & L2 & W2). exists (l1 ++ l2). rewrite L2, L1, <- app_assoc.
  split; [done|]. by apply Forall_app.
Qed.

Lemma calm_worked t t' : calm t t' -> worked t t'.
Proof. intros [_ _ (l & E & Hl)]. exists l. split; [done|]. by apply sends_worker. Qed.

Lemma sync_heads_same ifd rs t :
  pwp (sync_heads ifd rs t) (fun t' =>
    frontends t' = frontends t /\ active t' = active t /\ log t' = log t).
Proof.
  revert t. induction rs as [|r rs IH]; intros t; [done|]. simpl.
  apply pwp_bind_any. intros ring _. exact (IH (set_head_of t r _)).
Qed.

(** Activation runs the hook, then takes back the readers of the muted
    frontends, unless the hook fails. *)
Lemma activate_cases ifd t rc t' :
  task_activate ifd t = Done (rc, t') ->
  exists t1, calm t t1 /\ frontends t' = frontends t1 /\
    (active t' = active t1 /\ log t' = log t1 \/
     active t' = true /\ log t' = log t1 ++ (ZloopReaderEnd <$> muted 0 (frontends t1))).
Proof.
  intros E. unfold task_activate in E.
  pose proof (ll_wakeup (M := M) t) as Hw. destruct (run_hook data_wakeup t) as [[rc1 t1]|]; [|done].
  simpl in Hw. cbn [mbind exec_bind] in E. exists t1. split; [done|].
  destruct (c_true rc1); [injection E as <- <-; by auto|].
  rewrite mute_frontends_emits in E.
  pose proof (sync_heads_same ifd ring_ids
    (fold_left emit (ZloopReaderEnd <$> muted 0 (frontends t1)) t1)) as Hs.
  destruct (sync_heads _ _ _) as [t2|]; [|done]. injection E as <- <-. simpl in *.
  destruct Hs as (Hf & _ & Hl). rewrite Hf, Hl, emits_log.
  split; [by apply (emits_frame t1)|]. by right.
Qed.

(** Deactivation runs the hook, then adds readers, for all muted frontends if
    that succeeds. *)
Lemma unmute_cases i eps t rc t' :
  unmute_frontends i eps t = Done (rc, t') ->
  frontends t' = frontends t /\ active t' = active t /\
  exists js, log t' = log t ++ (ZloopReader <$> js) /\ (rc = 0 -> js = muted i eps).
Proof.
  revert i t. induction eps as [|ep eps IH]; intros i t E; simpl in E.
  { injection E as <- <-. do 2 (split; [done|]). exists []. by rewrite app_nil_r. }
  simpl. destruct (ep_automute ep); simpl in E; [|by apply IH].
  destruct (ep_handler ep); [|done]. simpl in E.
  destruct (_ =? -1); [injection E as <- <-|].
  - do 2 (split; [done|]). by exists [i].
  - destruct (IH _ _ E) as (Hf & Ha & js & Hl & Hi). do 2 (split; [done|]). exists (i :: js).
    rewrite Hl. simpl. rewrite <- app_assoc. split; [done|]. intros Hrc. by rewrite Hi.
Qed.

Lemma deactivate_cases t rc t' :
  task_deactivate t = Done (rc, t') ->
  exists t1 js, calm t t1 /\ frontends t' = frontends t1 /\ log t' = log t1 ++ (ZloopReader <$> js) /\
    (active t' = false /\ js = muted 0 (frontends t1) \/
     active t' = active t1 /\ (ZEnvReader -> frontends_ok t1 -> js = [])).
Proof.
  intros E. unfold task_deactivate in E.
  pose proof (ll_sleep (M := M) t) as Hw. destruct (run_hook data_sleep t) as [[rc1 t1]|]; [|done].
  simpl in Hw. cbn [mbind exec_bind] in E. exists t1.
  destruct (c_true rc1) eqn:Ec.
  { injection E as <- <-. exists []. rewrite app_nil_r. do 3 (split; [done|]). by right. }
  destruct (unmute_frontends _ _ _) as [[rc2 t2]|] eqn:Eu; [|done]. cbn [mbind exec_bind] in E.
  destruct (unmute_cases _ _ _ _ _ Eu) as (Hf & Ha & js & Hl & Hi). exists js. split; [done|].
  destruct (Z.eqb_spec rc2 0) as [->|Hrc].
  - injection E as <- <-. do 2 (split; [done|]). left. split; [done|]. by apply Hi.
  - unfold c_true in E. rewrite (proj2 (Z.eqb_neq _ _) Hrc) in E. injection E as <- <-.
    do 2 (split; [done|]). right. split; [done|]. intros Hz Hok. exfalso.
    rewrite unmute_frontends_emits in Eu by exact Hok. congruence.
Qed.

Lemma acts_worked t t' : rtc acts t t' -> worked t t'.
Proof.
  induction 1 as [|t1 t2 t3 Hs _ IH]; [apply worked_refl|].
  eapply worked_trans; [|exact IH]. clear IH.
  assert (Hr : forall js, Forall worker (ZloopReader <$> js) /\ Forall worker (ZloopReaderEnd <$> js))
    by (intros js; split; apply Forall_fmap, Forall_forall; done).
  destruct Hs as [t2 Hc|ifd rc t2 E|rc t2 E]; [by apply calm_worked|..].
  - destruct (activate_cases _ _ _ _ E) as (t4 & Hc & _ & Hl).
    eapply worked_trans; [by apply calm_worked|].
    destruct Hl as [[_ Hl]|[_ Hl]]; [exists []; by rewrite Hl, app_nil_r|].
    eexists. split; [exact Hl|]. apply Hr.
  - destruct (deactivate_cases _ _ _ E) as (t4 & js & Hc & _ & Hl & _).
    eapply worked_trans; [by apply calm_worked|]. eexists. split; [exact Hl|]. apply Hr.
Qed.

(** ** Readers and the active flag *)

Lemma polled_app l l' i : polled (l ++ l') i = replay_from (polled_step i) l l' (polled l i).
Proof. unfold polled. by rewrite replay_from_app. Qed.

Lemma polled_sends l l' i : Forall sends l' -> polled (l ++ l') i = polled l i.
Proof.
  intros Hl. rewrite polled_app. apply (replay_from_same _ _ _ _ sends); [done|]. by intros pre [].
Qed.

Lemma polled_end l js i :
  polled (l ++ (ZloopReaderEnd <$> js)) i = polled l i && negb (bool_decide (i ∈ js)).
Proof.
  revert l. induction js as [|j js IH]; intros l; cbn [fmap list_fmap].
  { rewrite app_nil_r, bool_decide_false by (by apply not_elem_of_nil). by rewrite andb_true_r. }
  rewrite cons_middle, app_assoc, IH, polled_app. cbn [replay_from polled_step].
  destruct (Nat.eqb_spec j i) as [->|Hne]; cbn [andb].
  - rewrite bool_decide_true by left. by rewrite andb_false_r.
  - f_equal. f_equal. apply bool_decide_ext. rewrite elem_of_cons. naive_solver.
Qed.

Lemma polled_reader `{!ZEnvReader} l js i :
  polled (l ++ (ZloopReader <$> js)) i = polled l i || bool_decide (i ∈ js).
Proof.
  revert l. induction js as [|j js IH]; intros l; cbn [fmap list_fmap].
  { rewrite app_nil_r, bool_decide_false by (by apply not_elem_of_nil). by rewrite orb_false_r. }
  rewrite cons_middle, app_assoc, IH, polled_app. cbn [replay_from polled_step]. rewrite zloop_reader_ok.
  destruct (Nat.eqb_spec j i) as [->|Hne]; cbn [negb orb Z.eqb].
  - rewrite (bool_decide_true (_ ∈ _ :: _)) by left. by rewrite orb_true_r.
  - f_equal. apply bool_decide_ext. rewrite elem_of_cons. naive_solver.
Qed.

Lemma elem_of_muted i j eps :
  i ∈ muted j eps <-> exists ep, eps !! (i - j)%nat = Some ep /\ ep_automute ep = true /\ (j <= i)%nat.
Proof.
  revert j. induction eps as [|ep eps IH]; intros j; simpl.
  { rewrite elem_of_nil. split; [done|]. by intros (? & ? & _). }
  rewrite elem_of_app, IH. split.
  - intros [Hi|(ep' & Hl & Ha & Hj)].
    + destruct (ep_automute ep) eqn:E; [|by apply elem_of_nil in Hi].
      apply list_elem_of_singleton in Hi as ->. exists ep. by rewrite Nat.sub_diag.
    + exists ep'. replace (i - j)%nat with (S (i - S j)) by lia. split; [done|]. split; [done|lia].
  - intros (ep' & Hl & Ha & Hj). destruct (decide (i = j)) as [->|Hne].
    + rewrite Nat.sub_diag in Hl. injection Hl as ->. left. rewrite Ha. by apply list_elem_of_singleton.
    + right. exists ep'. replace (i - j)%nat with (S (i - S j)) in Hl by lia.
      split; [done|]. split; [done|lia].
Qed.

(** A muted frontend has a handler, and js polled exactly while the task js not
    active. *)
Record tuned t : Prop := {
  tu_ok : frontends_ok t;
  tu_polled : forall i ep, frontends t !! i = Some ep -> ep_automute ep = true ->
    polled (log t) i = negb (active t);
}.

Lemma static_lookup (eps eps' : list task_endp) i ep :
  static <$> eps' = static <$> eps -> eps' !! i = Some ep ->
  exists ep', eps !! i = Some ep' /\ static ep' = static ep.
Proof.
  intros E Hi. assert (G : (static <$> eps) !! i = Some (static ep))
    by (rewrite <- E, list_lookup_fmap, Hi; done).
  rewrite list_lookup_fmap in G. destruct (eps !! i) as [ep'|]; [|done]. apply (inj Some) in G. eauto.
Qed.

Lemma calm_tuned t t' : calm t t' -> tuned t -> tuned t'.
Proof.
  intros [Hf Ha (l & Hl & Hs)] [Hok Hp]. split.
  - apply Forall_lookup. intros i ep Hi. destruct (static_lookup _ _ _ _ Hf Hi) as (ep' & Hi' & E).
    pose proof (Forall_lookup_1 _ _ _ _ Hok Hi') as G. simpl in G.
    injection E as E1 _ E3 _. intros Hm. rewrite <- E1. apply G. congruence.
  - intros i ep Hi Hm. destruct (static_lookup _ _ _ _ Hf Hi) as (ep' & Hi' & E).
    injection E as _ _ E3 _. rewrite Hl, polled_sends, Ha by done. apply (Hp i ep'); [done|congruence].
Qed.

Lemma acts_tuned `{!ZEnvReader} t t' : rtc acts t t' -> tuned t -> tuned t'.
Proof.
  induction 1 as [|t1 t2 t3 Hs _ IH]; [done|]. intros Ht. apply IH. clear IH t3.
  assert (Hm : forall t i ep, frontends t !! i = Some ep -> ep_automute ep = true ->
    i ∈ muted 0 (frontends t)).
  { intros t0 i ep Hi Ha. apply elem_of_muted. exists ep. rewrite Nat.sub_0_r. split; [done|].
    split; [done|lia]. }
  destruct Hs as [t2 Hc|ifd rc t2 E|rc t2 E]; [by eapply calm_tuned|..].
  - destruct (activate_cases _ _ _ _ E) as (t4 & Hc & Hf & Hl).
    destruct (calm_tuned _ _ Hc Ht) as [Hok Hp]. split; [unfold frontends_ok; by rewrite Hf|].
    rewrite Hf. intros i ep Hi Ha. destruct Hl as [[E1 E2]|[E1 E2]]; rewrite E1, E2; [by eapply Hp|].
    rewrite polled_end, bool_decide_true by (by eapply Hm). apply andb_false_r.
  - destruct (deactivate_cases _ _ _ E) as (t4 & js & Hc & Hf & Hl & Hor).
    destruct (calm_tuned _ _ Hc Ht) as [Hok Hp]. split; [unfold frontends_ok; by rewrite Hf|].
    rewrite Hf. intros i ep Hi Ha. rewrite Hl.
    destruct Hor as [[E1 ->]|[E1 Hz]]; rewrite E1.
    + rewrite polled_reader, bool_decide_true by (by eapply Hm). apply orb_true_r.
    + rewrite Hz by done. simpl. rewrite app_nil_r. by eapply Hp.
Qed.
(** ** Sockets and the loop *)

(** An action that opens or closes nothing. *)
Definition neutral (a : action) : Prop :=
  match a with ZsockNew _ | ZsockDestroy _ | ZloopNew | ZloopDestroy => False | _ => True end.

Lemma held_app l l' : held (l ++ l') = replay_from held_step l l' (held l).
Proof. unfold held. by rewrite replay_from_app. Qed.

Lemma held_by_neutral l l' : Forall neutral l' -> held (l ++ l') = held l.
Proof.
  intros Hl. rewrite held_app. apply (replay_from_same _ _ _ _ neutral); [done|]. by intros pre [].
Qed.

Lemma held_one l a : held (l ++ [a]) = held_step l a (held l).
Proof. by rewrite held_app. Qed.

Lemma signals_app l l' : signals (l ++ l') = signals l ++ signals l'.
Proof. apply omap_app. Qed.

Lemma worked_held t t' : worked t t' ->
  held (log t') = held (log t) /\ signals (log t') = signals (log t).
Proof.
  intros (l & -> & Hl). split.
  - apply held_by_neutral. eapply Forall_impl; [exact Hl|]. by intros [].
  - rewrite signals_app. assert (E : signals l = []); [|by rewrite E, app_nil_r].
    induction Hl as [|a l Ha _ IH]; [done|]. by destruct a; try exact IH.
Qed.

(** The loop is there, and the sockets that are open are those that are not
    NULL. *)
Record sock_inv th : Prop := {
  so_loop : None ∈ held (log (th_task th));
  so_socks : forall i, Some i ∈ held (log (th_task th)) <-> th_socks th !! i = Some true;
}.

Lemma sock_inv_held th th' :
  held (log (th_task th')) = held (log (th_task th)) -> th_socks th' = th_socks th ->
  sock_inv th -> sock_inv th'.
Proof. intros E1 E2 [Hl Hs]. split; by rewrite ?E1, ?E2. Qed.

Lemma sock_inv_emit th a : neutral a -> sock_inv th -> sock_inv (emit_th th a).
Proof.
  intros Ha. apply sock_inv_held; [|done]. simpl. apply held_by_neutral. by constructor.
Qed.

(** What happens to the thread while frontends are opened. *)
Record opens (ok : bool) th th' : Prop := {
  op_inv : sock_inv th';
  op_length : length (th_socks th') = length (th_socks th);
  op_frontends : frontends (th_task th') = frontends (th_task th);
  op_active : active (th_task th') = active (th_task th);
  op_error : error (th_task th') = error (th_task th) || negb ok;
  op_signals : signals (log (th_task th')) = signals (log (th_task th));
}.

Lemma opens_trans ok th1 th2 th3 : opens true th1 th2 -> opens ok th2 th3 -> opens ok th1 th3.
Proof.
  intros [] []. split; try congruence; try done. rewrite op_error1, op_error0. by rewrite orb_false_r.
Qed.

Lemma opens_emit th a :
  neutral a -> (forall s, a <> ZsockSignal s) -> sock_inv th -> opens true th (emit_th th a).
Proof.
  intros Ha Hs Hi. split; try done; [by apply sock_inv_emit|by rewrite orb_false_r|].
  simpl. rewrite signals_app. destruct a; try by rewrite app_nil_r. by edestruct Hs.
Qed.

Lemma opens_cleanup th th1 :
  opens true th th1 -> opens false th (on_task th1 (set_error (th_task th1) true)).
Proof.
  intros []. split; try done; [by apply (sock_inv_held th1)|]. simpl. by rewrite orb_true_r.
Qed.

Lemma opens_new i th :
  (i < length (th_socks th))%nat -> th_socks th !! i <> Some true -> sock_inv th ->
  opens true th (Thread (emit (th_task th) (ZsockNew i))
    (<[i := zsock_new_ok (log (th_task th)) i]> (th_socks th)) (th_data th)).
Proof.
  intros Hlt Hn [Hl Hs]. split; try done; simpl.
  - split; simpl; rewrite held_one; simpl.
    + case_if; set_solver.
    + intros j. destruct (decide (j = i)) as [->|Hne].
      * rewrite list_lookup_insert_eq by done. case_if; [set_solver|].
        split; [|done]. intros Hi%Hs. done.
      * rewrite list_lookup_insert_ne by done. rewrite <- Hs. case_if; set_solver.
  - by rewrite length_insert.
  - by rewrite orb_false_r.
  - by rewrite signals_app, app_nil_r.
Qed.

Lemma open_frontends_ok i eps th :
  Forall (fun e => ep_autosleep e = true -> ep_type e = ZMQ_XPUB) eps.*1 ->
  sock_inv th -> length (th_socks th) = (i + length eps)%nat ->
  (forall j, (i <= j)%nat -> th_socks th !! j <> Some true) ->
  wp (open_frontends i eps th) (fun '(ok, th') => opens ok th th').
Proof.
  revert i th. induction eps as [|[ep addr] eps IH]; intros i th Hx Hi Hl Hn.
  { simpl. split; try done. by rewrite orb_false_r. }
  apply Forall_cons in Hx as [Hx Hxs]. cbn [length fst] in *. cbn [open_frontends]. cbv zeta.
  set (th1 := Thread _ _ _). set (th2 := emit_th th1 _).
  assert (H1 : opens true th th1) by (apply opens_new; [lia|by apply Hn|done]).
  assert (H2 : opens true th th2).
  { eapply opens_trans; [exact H1|]. apply opens_emit; [done|done|apply H1]. }
  destruct (negb (zsock_new_ok _ _)); [by eapply opens_cleanup|].
  destruct (_ =? -1); [by eapply opens_cleanup|].
  assert (Hr : forall th', opens true th th' -> th_socks th' = th_socks th1 ->
    opens true th (register i th').2 /\ th_socks (register i th').2 = th_socks th1).
  { intros th' H' E. split; [|done]. eapply opens_trans; [exact H'|].
    apply opens_emit; [done|done|apply H']. }
  destruct (if ep_handler ep then register i th2 else (0, th2)) as [rc th3] eqn:E3.
  assert (H3 : opens true th th3 /\ th_socks th3 = th_socks th1).
  { destruct (ep_handler ep); [|by injection E3 as <- <-].
    pose proof (Hr th2 H2 eq_refl) as G. by rewrite E3 in G. }
  destruct H3 as [H3 E4].
  apply wp_bind.
  eapply (wp_mono _ (fun r => opens true th r.2 /\ th_socks r.2 = th_socks th1)).
  { destruct ((rc =? 0) && ep_autosleep ep) eqn:Ea; [|done]. bool_hyps.
    rewrite Hx by done. simpl. by eapply Hr. }
  intros [rc' th4] [H4 E5]. simpl in H4, E5.
  destruct (rc' =? -1); [by eapply opens_cleanup|].
  eapply wp_mono; [apply (IH (S i) th4); [done|apply H4|rewrite (op_length _ _ _ H4); lia|]|].
  - intros j Hj. rewrite E5. simpl. rewrite list_lookup_insert_ne by lia. apply Hn. lia.
  - intros [ok th5] H5. by eapply opens_trans.
Qed.
Lemma polled_one l a i : polled (l ++ [a]) i = polled_step i l a (polled l i).
Proof. by rewrite polled_app. Qed.

(** Only frontend [i] may be polled that was not, and still is if it was. *)
Definition polls_more (i : nat) th th' : Prop :=
  (forall j, j <> i -> polled (log (th_task th')) j = polled (log (th_task th)) j) /\
  (polled (log (th_task th)) i = true -> polled (log (th_task th')) i = true).

Lemma polls_more_trans i th1 th2 th3 :
  polls_more i th1 th2 -> polls_more i th2 th3 -> polls_more i th1 th3.
Proof. intros [H1 H2] [H3 H4]. split; [|auto]. intros j Hj. by rewrite H3, H1. Qed.

Lemma register_polls i th :
  polls_more i th (register i th).2 /\
  ((register i th).1 <> -1 -> polled (log (th_task (register i th).2)) i = true).
Proof.
  assert (E : forall j, polled (log (th_task (register i th).2)) j =
    polled_step j (log (th_task th)) (ZloopReader i) (polled (log (th_task th)) j))
    by (intros j; apply polled_one).
  split; [split|].
  - intros j Hj. rewrite E. simpl. by rewrite (proj2 (Nat.eqb_neq i j)).
  - intros Hp. rewrite E, Hp. simpl. rewrite Nat.eqb_refl. apply orb_true_r.
  - simpl fst. intros Hrc. rewrite E. simpl. by rewrite Nat.eqb_refl, (proj2 (Z.eqb_neq _ _)).
Qed.

(** The frontends that have a handler are polled once they are open. *)
Lemma open_frontends_polled i eps th :
  pwp (open_frontends i eps th) (fun '(ok, th') => ok = true ->
    (forall j, (j < i)%nat -> polled (log (th_task th')) j = polled (log (th_task th)) j) /\
    (forall k ep, eps.*1 !! k = Some ep -> ep_handler ep = true ->
       polled (log (th_task th')) (i + k) = true)).
Proof.
  revert i th. induction eps as [|[ep addr] eps IH]; intros i th; [by simpl|].
  cbn [open_frontends]. cbv zeta.
  set (th1 := Thread _ _ _). set (th2 := emit_th th1 _).
  destruct (negb _); [done|]. destruct (_ =? -1); [done|].
  assert (H2 : polls_more i th th2).
  { assert (E : forall j, polled (log (th_task th2)) j = polled (log (th_task th)) j)
      by (intros j; simpl; by rewrite !polled_one).
    split; intros; rewrite E; done. }
  destruct (if ep_handler ep then register i th2 else (0, th2)) as [rc th3] eqn:E3.
  assert (H3 : polls_more i th th3 /\
    (ep_handler ep = true -> rc <> -1 -> polled (log (th_task th3)) i = true)).
  { destruct (ep_handler ep); [|by injection E3 as <- <-].
    destruct (register_polls i th2) as [G1 G2]. rewrite E3 in G1, G2.
    split; [by eapply polls_more_trans|by intros _]. }
  destruct H3 as [H3 Hh].
  apply (pwp_bind _ _ (fun r => polls_more i th3 r.2 /\ (rc = -1 -> r.1 = -1))).
  { destruct ((rc =? 0) && _) eqn:Ea; [|by split].
    bool_hyps. destruct (is_xpub _); [|done].
    split; [apply register_polls|by intros ->]. }
  intros [rc' th4] [H4 H5]. simpl in H4, H5. destruct (Z.eqb_spec rc' (-1)) as [|Hrc']; [done|].
  eapply pwp_mono; [apply IH|]. intros [ok th5] H6 Hok. destruct (H6 Hok) as [H7 H8].
  pose proof (polls_more_trans _ _ _ _ H3 H4) as [G1 G2]. split.
  - intros j Hj. rewrite H7 by lia. apply G1. lia.
  - intros [|k] ep' Hk Hep; simpl in Hk.
    + injection Hk as ->. rewrite Nat.add_0_r, H7 by lia. apply H4, Hh; [done|]. by intros ?%H5.
    + rewrite Nat.add_succ_r. by apply (H8 k ep').
Qed.
End Theory.

(** What a task promises of its start and its end: its initializer does not
    fail; its finalizer, unless it fails, leaves the pointer NULL.  Only
    publishing frontends put the task to sleep, and none is active at once. *)
Class FinLaws (D M : Type) `{ZEnv} `{!TaskMain D M} : Prop := {
  fl_endpoints : Forall (fun e => ep_autosleep e = true -> ep_type e = ZMQ_XPUB)
                   (endpoints (D := D) (M := M)).*1;
  fl_init : match data_init (D := D) (M := M) with
            | Some f => forall t, frontends t = (endpoints (M := M)).*1 ->
                wp (f t) (fun '(_, _, t') => error t' = error t)
            | None => True
            end;
  fl_fin : match data_fin (D := D) (M := M) with
           | Some f => forall set t, pwp (f set t) (fun '(_, set', t') =>
               set' = false /\ error t' = error t /\ worked t t')
           | None => False
           end;
  fl_autoactivate : autoactivate (D := D) (M := M) = false;
}.

(** A finalizer that does not fail, with or without data. *)
Class FinTotal (D M : Type) `{!TaskMain D M} : Prop :=
  fin_total : match data_fin (D := D) (M := M) with
              | Some f => forall set t, exists r, f set t = Done r
              | None => True
              end.

Section Life.
Context {D M : Type} `{ZEnv} `{LifeEnv} `{!TaskImpl D} `{!TaskMain D M} `{!LifeLaws D M}.
Implicit Types (t : task D) (th : thread D) (ev : event M).

Lemma set_affinity_cases id t :
  sysconf_ncpus <> 1 ->
  exists w t', set_affinity id t = Done (w, t') /\
    exists cpu, t' = emit t (SetAffinity cpu) \/ t' = emit (emit t (SetAffinity cpu)) GetAffinity.
Proof.
  intros Hn. unfold set_affinity.
  set (n := if sysconf_ncpus =? -1 then NUMCPUS else sysconf_ncpus).
  assert (Hz : n - 1 =? 0 = false).
  { unfold n. destruct (Z.eqb_spec sysconf_ncpus (-1)); [done|]. lia. }
  rewrite Hz. cbv zeta. set (cpu := Z.rem id (n - 1)).
  destruct (setaffinity_rc cpu =? 0); [destruct (getaffinity cpu) as [rc cpus]|];
    (eexists _, _; split; [reflexivity|]; exists cpu; auto).
Qed.

(** The thread when its frontends are to be opened. *)
Record entered th : Prop := {
  en_inv : sock_inv th;
  en_socks : th_socks th = replicate (length (endpoints (D := D) (M := M))) false;
  en_frontends : frontends (th_task th) = (endpoints (M := M)).*1;
  en_active : active (th_task th) = false;
  en_error : error (th_task th) = false;
  en_signals : signals (log (th_task th)) = [0];
}.

Lemma shim_enter_start id ifd d :
  0 < id -> sysconf_ncpus <> 1 ->
  exists th, shim_enter id ifd (new_thread (M := M) d) = shim_start (M := M) ifd th /\ entered th.
Proof.
  intros Hid Hn. unfold shim_enter. rewrite (proj2 (Z.ltb_lt _ _) Hid). cbn [c_assert mbind exec_bind].
  destruct (set_affinity_cases id (th_task (emit_th (new_thread (M := M) d) (ZsockSignal 0))) Hn)
    as (w & t & -> & cpu & Ht).
  eexists. split; [reflexivity|].
  destruct Ht as [-> | ->]; (split; [|done..]); (split; [done|]); intros i; unfold held; simpl.
  all: rewrite lookup_replicate; split; [set_solver|by intros [? _]].
Qed.

(** What the initialization leaves: [ok] tells that polling can start. *)
Record started (ok : bool) th : Prop := {
  st_inv : sock_inv th;
  st_signals : signals (log (th_task th)) = 0 :: (if ok then [SIG_INIT] else []);
  st_error : error (th_task th) = negb ok;
}.

Lemma opens_started th th' : entered th -> opens false th th' -> started false th'.
Proof. intros [] []. split; [done|congruence|]. by rewrite op_error0, en_error0. Qed.

Lemma run_init_ok `{!FinLaws D M} th :
  frontends (th_task th) = (endpoints (M := M)).*1 ->
  wp (run_init (M := M) th) (fun '(_, th') =>
    held (log (th_task th')) = held (log (th_task th)) /\
    signals (log (th_task th')) = signals (log (th_task th)) /\ th_socks th' = th_socks th /\
    error (th_task th') = error (th_task th)).
Proof.
  intros Hf. unfold run_init. pose proof fl_init as G1. pose proof ll_init as G2.
  destruct data_init as [f|]; [|done]. specialize (G1 _ Hf). specialize (G2 (th_task th)).
  destruct (f (th_task th)) as [[[rc set] t]|]; [|done]. simpl in *.
  destruct (worked_held _ _ (calm_worked _ _ G2)) as [-> ->]. done.
Qed.

Lemma shim_start_ok `{!FinLaws D M} ifd th :
  entered th -> wp (shim_start (M := M) ifd th) (fun '(ok, th') => started ok th').
Proof.
  intros Hen. pose proof Hen as [Hi Hs Hf _ _ Hsig]. unfold shim_start. apply wp_bind.
  eapply wp_mono; [apply open_frontends_ok; [apply fl_endpoints|done| |]|].
  { by rewrite Hs, length_replicate. }
  { intros j _. rewrite Hs, lookup_replicate. by intros [? _]. }
  intros [ok th1] H1. destruct ok; simpl; [|by eapply opens_started].
  set (th2 := emit_th th1 ZloopReaderPipe).
  assert (H2 : opens true th th2).
  { eapply opens_trans; [exact H1|]. apply opens_emit; [done|done|apply H1]. }
  destruct (_ =? -1); [eapply opens_started; [exact Hen|]; by eapply opens_cleanup|].
  apply wp_bind. eapply wp_mono; [apply (run_init_ok th2)|].
  { rewrite (op_frontends _ _ _ H2). exact Hf. }
  intros [rc th3] (Hh & Hsg & Hsk & He).
  assert (H3 : sock_inv th3) by by apply (sock_inv_held th2), H2.
  assert (E3 : signals (log (th_task th3)) = [0]) by (rewrite Hsg, (op_signals _ _ _ H2); done).
  destruct (rc =? 0); simpl; [|split; [by apply (sock_inv_held th3)|done|done]].
  rewrite fl_autoactivate. split; [by apply sock_inv_emit|simpl; by rewrite signals_app, E3|].
  simpl. rewrite He, (op_error _ _ _ H2), (en_error _ Hen). done.
Qed.

(** ** Cleaning up *)

Lemma destroy_socks_held i socks t :
  None ∉ held (log t) ->
  (forall j, Some j ∈ held (log t) -> exists k, j = (i + k)%nat /\ socks !! k = Some true) ->
  held (log (destroy_socks i socks t)) = ∅.
Proof.
  revert i t. induction socks as [|s socks IH]; intros i t Hn Hs; simpl.
  { apply set_eq. intros [j|]; [|set_solver]. split; [|set_solver].
    by intros (k & _ & ?)%Hs. }
  apply IH.
  - destruct s; [|done]. simpl. rewrite held_one. set_solver.
  - intros j Hj. assert (Hj' : Some j ∈ held (log t) /\ (s = true -> j <> i)).
    { destruct s; simpl in Hj; [rewrite held_one in Hj; set_solver|done]. }
    destruct Hj' as [Hj' Hne]. destruct (Hs j Hj') as (k & -> & Hk). destruct k as [|k].
    + injection Hk as ->. by destruct (Hne eq_refl); rewrite Nat.add_0_r.
    + exists k. split; [lia|done].
Qed.

Lemma destroy_socks_same i socks t :
  signals (log (destroy_socks i socks t)) = signals (log t) /\
  error (destroy_socks i socks t) = error t.
Proof.
  revert i t. induction socks as [|s socks IH]; intros i t; [done|]. simpl.
  destruct (IH (S i) (if s then emit t (ZsockDestroy i) else t)) as [-> ->].
  destruct s; [|done]. simpl. by rewrite signals_app, app_nil_r.
Qed.

(** The thread as the finalizer finds it. *)
Definition died th : thread D :=
  if error (th_task th) then emit_th th (ZsockSignal SIG_DIED) else th.

(** What the cleanup does when the finalizer does not fail. *)
Record cleaned th th' : Prop := {
  cl_held : held (log (th_task th')) = ∅;
  cl_data : th_data th' = false;
  cl_error : error (th_task th') = error (th_task th);
  cl_signals : signals (log (th_task th')) =
    signals (log (th_task th)) ++ (if error (th_task th) then [SIG_DIED] else []);
}.

Lemma shim_cleanup_ok `{!FinLaws D M} th :
  sock_inv th ->
  match shim_cleanup (M := M) th with
  | Done th' => cleaned th th'
  | Failed f => run_fin (M := M) (died th) = Failed f
  end.
Proof.
  intros Hi. unfold shim_cleanup. fold (died th). set (th1 := died th).
  assert (Hi1 : sock_inv th1) by (unfold th1, died; case_if; [by apply sock_inv_emit|done]).
  assert (E1 : error (th_task th1) = error (th_task th)) by (unfold th1, died; by case_if).
  assert (S1 : signals (log (th_task th1)) =
    signals (log (th_task th)) ++ (if error (th_task th) then [SIG_DIED] else [])).
  { unfold th1, died. case_if; simpl; [by rewrite signals_app|by rewrite app_nil_r]. }
  unfold run_fin. pose proof fl_fin as Hfin. destruct data_fin as [f|]; [|done].
  specialize (Hfin (th_data th1) (th_task th1)).
  destruct (f _ _) as [[[rc set] t]|]; [|done]. destruct Hfin as (-> & Ee & Hw). simpl.
  destruct (worked_held _ _ Hw) as [Hh Hs].
  destruct (destroy_socks_same 0 (th_socks th1) (emit t ZloopDestroy)) as [Hs1 He1].
  split; simpl; [| done| |].
  - apply destroy_socks_held; simpl; rewrite held_one; simpl; rewrite Hh; [set_solver|].
    intros j Hj. exists j. split; [done|]. apply (so_socks _ Hi1). set_solver.
  - by rewrite He1, <- E1, <- Ee.
  - rewrite Hs1. simpl. by rewrite signals_app, app_nil_r, Hs.
Qed.

Lemma shim_cleanup_done `{!FinLaws D M} `{!FinTotal D M} th :
  sock_inv th -> exists th', shim_cleanup (M := M) th = Done th' /\ cleaned th th'.
Proof.
  intros Hi. pose proof (shim_cleanup_ok th Hi) as Hc.
  destruct (shim_cleanup th) as [th'|f]; [by exists th'|exfalso]. revert Hc. unfold run_fin.
  pose proof fin_total as Ht. pose proof fl_fin as Hf. destruct data_fin as [g|]; [|done].
  destruct (Ht (th_data (died th)) (th_task (died th))) as [[[rc set] t] E].
  specialize (Hf (th_data (died th)) (th_task (died th))). rewrite E in *.
  by destruct Hf as (-> & _ & _).
Qed.

(** ** The invariant of polling *)

Lemma open_frontends_same i eps th :
  pwp (open_frontends i eps th) (fun '(_, th') =>
    frontends (th_task th') = frontends (th_task th) /\ active (th_task th') = active (th_task th)).
Proof.
  revert i th. induction eps as [|[ep addr] eps IH]; intros i th; [by simpl|].
  cbn [open_frontends]. cbv zeta. destruct (negb _); [done|]. destruct (_ =? -1); [done|].
  set (th2 := emit_th _ (ZsockAttach i addr)).
  assert (E2 : (if ep_handler ep then register i th2 else (0, th2)) =
    ((if ep_handler ep then register i th2 else (0, th2)).1,
     (if ep_handler ep then emit_th th2 (ZloopReader i) else th2))) by by destruct (ep_handler ep).
  rewrite E2. set (rc := (if ep_handler ep then _ else _).1). clearbody rc. cbv beta iota.
  destruct (ep_handler ep), ((rc =? 0) && ep_autosleep ep);
    try (destruct (is_xpub _); [|done]); cbn [c_assert mbind exec_bind mret exec_ret register];
    (destruct (_ =? -1); [done|]); (eapply pwp_mono; [apply IH|by intros []]).
Qed.

(** Once everything is registered, frontends that are muted are polled exactly
    while the task is not active. *)
Lemma shim_start_tuned `{!ZEnvReader} ifd th :
  frontends (th_task th) = (endpoints (M := M)).*1 -> active (th_task th) = false ->
  pwp (shim_start (M := M) ifd th) (fun '(ok, th') => ok = true -> tuned (th_task th')).
Proof.
  intros Hf Ha. unfold shim_start.
  eapply pwp_bind; [apply (pwp_and _ _ _ (open_frontends_polled 0 endpoints th)
                                   (open_frontends_same 0 endpoints th))|].
  intros [ok th1] [Hp [Ef1 Ea1]]. destruct ok; simpl; [|done]. destruct (Hp eq_refl) as [_ Hp1].
  set (th2 := emit_th th1 ZloopReaderPipe).
  assert (H2 : tuned (th_task th2)).
  { split.
    - unfold frontends_ok. simpl. rewrite Ef1, Hf. apply ll_endpoints.
    - simpl. rewrite Ef1, Ea1, Hf, Ha. intros i ep Hi Hm. rewrite polled_one.
      apply (Hp1 i ep Hi). exact (Forall_lookup_1 _ _ _ _ ll_endpoints Hi Hm). }
  destruct (_ =? -1); [done|].
  apply (pwp_bind _ _ (fun r => tuned (th_task r.2))).
  { unfold run_init. pose proof ll_init as G. destruct data_init as [f|]; [|done].
    specialize (G (th_task th2)). destruct (f (th_task th2)) as [[[rc set] t]|]; [|done].
    simpl in *. by eapply calm_tuned. }
  intros [rc th3] H3. simpl in H3. destruct (negb (rc =? 0)); [done|].
  assert (H4 : tuned (th_task (emit_th th3 (ZsockSignal SIG_INIT)))).
  { destruct H3 as [H3 H4]. split; [exact H3|]. intros i ep Hi Hm. simpl. rewrite polled_one.
    by eapply H4. }
  case_if; [|by intros _].
  eapply pwp_bind; [apply activate_acts|]. intros [rc2 t] H5. unfold by_acts in H5. simpl in H5.
  destruct (rc2 =? TASK_ERROR); [done|]. apply pwp_bind_any. intros _ _ _.
  by eapply acts_tuned.
Qed.
Lemma shim_start_static `{!FinLaws D M} ifd th :
  pwp (shim_start (M := M) ifd th) (fun '(_, th') =>
    static <$> frontends (th_task th') = static <$> frontends (th_task th) /\
    active (th_task th') = active (th_task th)).
Proof.
  unfold shim_start. eapply pwp_bind; [apply open_frontends_same|].
  intros [ok th1] [Hf Ha]. rewrite <- Hf, <- Ha. clear Hf Ha. destruct ok; simpl; [|done].
  destruct (_ =? -1); [done|].
  apply (pwp_bind _ _ (fun r => static <$> frontends (th_task r.2) = static <$> frontends (th_task th1) /\
    active (th_task r.2) = active (th_task th1))).
  { unfold run_init. pose proof ll_init as G. destruct data_init as [f|]; [|done].
    specialize (G (th_task (emit_th th1 ZloopReaderPipe))).
    destruct (f _) as [[[rc set] t]|]; [|done]. by destruct G. }
  intros [rc th3] H3. rewrite fl_autoactivate. by destruct (negb (rc =? 0)).
Qed.

(** The state in which the thread starts to poll. *)
Lemma started_state `{!FinLaws D M} `{!ZEnvReader} id ifd d th :
  0 < id -> sysconf_ncpus <> 1 ->
  shim_enter (M := M) id ifd (new_thread (M := M) d) = Done (true, th) ->
  error (th_task th) = false /\ active (th_task th) = false /\ tuned (th_task th) /\
  static <$> frontends (th_task th) = static <$> (endpoints (D := D) (M := M)).*1.
Proof.
  intros Hid Hn E. destruct (shim_enter_start id ifd d Hid Hn) as (th0 & E0 & Hen).
  pose proof (shim_start_ok ifd th0 Hen) as Hs.
  pose proof (shim_start_static ifd th0) as Hst.
  pose proof (shim_start_tuned ifd th0 (en_frontends _ Hen) (en_active _ Hen)) as Ht.
  rewrite <- E0, E in Hs, Hst, Ht. destruct Hs as [_ _ He], Hst as [Hf Ha].
  split; [done|]. split; [by rewrite Ha; apply Hen|]. split; [by apply Ht|].
  rewrite Hf. f_equal. apply Hen.
Qed.

(** ** What the coordinator reads *)

(** When the thread has ended, the pipe gives the coordinator, after the signals
    read at the start, those the thread sent since, and then the 0 that zactor
    sends when the body has returned (DEV NOTES); the loop reads the first. *)
Definition coordinator_reads (l : list action) : exec Z :=
  match drop 2 (signals l ++ [0]) with
  | sig :: _ => s_die_hn sig
  | [] => fail NoFuel
  end.

(** A handler that ends the loop without setting the error flag: the thread
    ends, and the coordinator stops at an assertion. *)
Lemma silent_end `{!FinLaws D M} `{!FinTotal D M} id ifd d th ev t :
  0 < id -> sysconf_ncpus <> 1 ->
  shim_enter (M := M) id ifd (new_thread (M := M) d) = Done (true, th) ->
  delivered ev (th_task th) = true -> handle ev (th_task th) = Done (-1, t) ->
  error t = false ->
  exists th', s_task_shim id ifd [ev] (new_thread (M := M) d) = Done th' /\
    error (th_task th') = false /\ signals (log (th_task th')) = [0; SIG_INIT] /\
    coordinator_reads (log (th_task th')) = Failed AssertFail.
Proof.
  intros Hid Hn E Hd Hh He. unfold s_task_shim.
  destruct (shim_enter_start id ifd d Hid Hn) as (th0 & E0 & Hen).
  pose proof (shim_start_ok ifd th0 Hen) as Hs. rewrite E in *. rewrite <- E0 in Hs.
  destruct Hs as [Hi Hsg _]. cbn [mbind exec_bind zloop_start]. rewrite Hd, Hh.
  cbn [mbind exec_bind dbg_assert c_assert Z.eqb Pos.eqb mret exec_ret].
  destruct (worked_held _ _ (acts_worked _ _ (pwp_Done _ _ _ (handle_acts ev (th_task th)) Hh)))
    as [Hhd Hs2].
  assert (Hi2 : sock_inv (on_task th t)) by by apply (sock_inv_held th).
  destruct (shim_cleanup_done (on_task th t) Hi2) as (th' & -> & [_ _ H3 H4]).
  simpl in H3, H4, Hs2. rewrite Hs2, Hsg, He in H4. exists th'. split; [done|].
  split; [congruence|]. split; [exact H4|]. unfold coordinator_reads. by rewrite H4.
Qed.

(** On a machine with one processor the remainder is taken by zero. *)
Lemma single_cpu_aborts id ifd evs d :
  0 < id -> sysconf_ncpus = 1 ->
  s_task_shim id ifd evs (new_thread (M := M) d) = Failed DivByZero.
Proof.
  intros Hid Hn. unfold s_task_shim, shim_enter, set_affinity.
  rewrite (proj2 (Z.ltb_lt _ _) Hid), Hn. done.
Qed.

(** The affinity that was asked for and set is taken for an error where the
    number of the processor is not that of the task. *)
Lemma affinity_warns id t :
  sysconf_ncpus <> -1 -> 1 < sysconf_ncpus <= id ->
  setaffinity_rc (Z.rem id (sysconf_ncpus - 1)) = 0 ->
  getaffinity (Z.rem id (sysconf_ncpus - 1)) = (0, [Z.rem id (sysconf_ncpus - 1)]) ->
  exists t', set_affinity id t = Done (true, t').
Proof.
  intros Hm Hn Hs Hg. unfold set_affinity. rewrite (proj2 (Z.eqb_neq _ _) Hm).
  rewrite (proj2 (Z.eqb_neq _ 0)) by lia. cbv zeta. rewrite Hs, Hg. cbn [Z.eqb existsb].
  pose proof (Z.rem_bound_pos id (sysconf_ncpus - 1)) as Hb.
  rewrite (proj2 (Z.leb_le _ _)), (proj2 (Z.ltb_lt (Z.rem _ _) _)), (proj2 (Z.eqb_neq _ id)) by lia.
  by eexists.
Qed.
End Life.

(** ** A sample task *)

(** The recording task of TaskTheory.v, with a REP and an XPUB frontend; a
    request activates it. *)
Module LifeSample.
#[local] Existing Instances Recorder.impl Recorder.env.
Definition seen : Type := Recorder.seen.

Definition ep_req : task_endp :=
  {| ep_handler := true; ep_type := ZMQ_REP; ep_nsubs := 0; ep_automute := true;
     ep_autosleep := false |}.
Definition ep_pub : task_endp :=
  {| ep_handler := false; ep_type := ZMQ_XPUB; ep_nsubs := 0; ep_automute := false;
     ep_autosleep := true |}.

#[export] Instance main : TaskMain seen unit := {|
  endpoints := [(ep_req, "tcp://*:1"%string); (ep_pub, "tcp://*:2"%string)];
  data_init := Some (fun t => mret (0, true, set_data t []));
  data_fin := Some (fun _ t => mret (0, false, t));
  autoactivate := false;
  frontend_hn := fun ifd i _ t =>
    '(_, t) ← task_activate ifd t; mret (0, emit t (ZsockSend i "1" [ZNum 0]));
  timer_hn := None;
|}.

#[export] Instance env : LifeEnv := {|
  zsock_new_ok := fun _ _ => true; zsock_attach_rc := fun _ _ => 0; zloop_pipe_rc := fun _ => 0;
  sysconf_ncpus := 4; setaffinity_rc := fun _ => 0; getaffinity := fun c => (0, [c]) |}.

#[export] Instance laws : LifeLaws seen unit.
Proof.
  split; simpl; intros; auto with calm; try by apply calm_refl.
  - apply by_acts_bind; [apply activate_acts|]. intros [rc t1]. apply by_acts_ret. auto with calm.
  - by apply by_acts_ret, calm_refl.
Qed.

#[export] Instance fin_laws : FinLaws seen unit.
Proof. split; simpl; try done; [by repeat constructor|]. intros set t. auto using worked_refl. Qed.

#[export] Instance fin_total : FinTotal seen unit.
Proof. intros set t. by eexists. Qed.

(** A client's request, packets, and the end. *)
Definition evs : list (event unit) :=
  [EvRequest Recorder.ifd 0 tt; EvSignal Recorder.ifd SIG_WAKEUP; EvSignal Recorder.ifd SIG_STOP].
End LifeSample.

#[local] Existing Instances Recorder.impl Recorder.env Recorder.env_reader
  LifeSample.main LifeSample.env LifeSample.laws LifeSample.fin_laws.

(** ** Properties *)

(** C7: the thread of a task, whatever the system and its clients do, ends,
    still polls, or fails.  It still polls only while no SIG_STOP has come.  It
    fails in no other places than these: at the start, if there is just one
    processor; in a handler of an event that it polls; in the task's finalizer,
    called after a handler has ended the loop or, if the thread could not
    start, before it has polled.  When it has ended, every socket it opened and
    its loop are closed and the pointer to its data is NULL.  Down the pipe it
    has sent the signal that zactor_new waits for, then SIG_INIT unless it could
    not start, then SIG_DIED exactly if its error flag is set, which it is if it
    could not start: so the coordinator, which waits for SIG_INIT or SIG_DIED,
    always gets one of them. *)
Theorem shim_lifecycle {D M} `{ZEnv} `{LifeEnv} `{!TaskImpl D} `{!TaskMain D M}
    `{!LifeLaws D M} `{!FinLaws D M} (id : Z) (ifd : tes_ifdesc) (evs : list (event M)) (d : D) :
  0 < id ->
  match s_task_shim id ifd evs (new_thread (M := M) d) with
  | Done th =>
      held (log (th_task th)) = ∅ /\ th_data th = false /\
      exists ready : bool, signals (log (th_task th)) =
          0 :: (if ready then [SIG_INIT] else []) ++ (if error (th_task th) then [SIG_DIED] else []) /\
        (ready = false -> error (th_task th) = true)
  | Failed f =>
      sysconf_ncpus = 1 /\ f = DivByZero \/
      exists ok th, shim_enter (M := M) id ifd (new_thread (M := M) d) = Done (ok, th) /\
        if ok : bool then
          exists t, rtc (polls (M := M)) (th_task th) t /\
          ((exists ev, ev ∈ evs /\ delivered ev t = true /\
              (handle ev t = Failed f \/
               exists t', handle ev t = Done (-1, t') /\
                 run_fin (M := M) (died (on_task th t')) = Failed f)) \/
           f = NoFuel /\ Forall (fun ev => forall ifd, ev <> EvSignal ifd SIG_STOP) evs)
        else run_fin (M := M) (died th) = Failed f
  end.
Proof.
  intros Hid. destruct (decide (sysconf_ncpus = 1)) as [Hn|Hn].
  { rewrite single_cpu_aborts by done. by left. }
  unfold s_task_shim. destruct (shim_enter_start id ifd d Hid Hn) as (th0 & E & Hen).
  pose proof (shim_start_ok ifd th0 Hen) as Hs. rewrite E.
  destruct (shim_start ifd th0) as [[ok th]|]; [|done]. simpl in Hs. cbn [mbind exec_bind].
  destruct Hs as [Hi Hsg He]. destruct ok.
  - destruct (zloop_start_cases evs (th_task th)) as (t1 & Hp & Hc).
    destruct Hc as [(ev & t2 & Hin & Hd & Eh & ->)|[(ev & f & Hin & Hd & Eh & ->)|[-> Hst]]].
    + cbn [mbind exec_bind dbg_assert c_assert Z.eqb Pos.eqb mret exec_ret].
      assert (Hw : worked (th_task th) t2).
      { eapply worked_trans; [by apply acts_worked, polls_acts|]. apply acts_worked.
        exact (pwp_Done _ _ _ (handle_acts ev t1) Eh). }
      destruct (worked_held _ _ Hw) as [Hh Hs2].
      assert (Hi2 : sock_inv (on_task th t2)) by by apply (sock_inv_held th).
      pose proof (shim_cleanup_ok (on_task th t2) Hi2) as Hcl.
      destruct (shim_cleanup _) as [th'|f].
      * destruct Hcl as [H1 H2 H3 H4]. do 2 (split; [done|]). exists true. simpl in H3, H4.
        rewrite H4, Hs2, Hsg, H3. done.
      * right. exists true, th. split; [done|]. exists t1. split; [done|]. left. exists ev.
        do 2 (split; [done|]). right. by exists t2.
    + right. exists true, th. split; [done|]. exists t1. split; [done|]. left. exists ev.
      do 2 (split; [done|]). by left.
    + right. exists true, th. split; [done|]. exists t1. split; [done|]. by right.
  - cbn [mbind exec_bind mret exec_ret]. pose proof (shim_cleanup_ok th Hi) as Hcl.
    destruct (shim_cleanup _) as [th'|f].
    + destruct Hcl as [H1 H2 H3 H4]. do 2 (split; [done|]). exists false.
      rewrite H4, Hsg, H3. split; [done|]. done.
    + right. by exists false, th.
Qed.

Lemma shim_lifecycle_witness :
  exists th, s_task_shim 1 Recorder.ifd LifeSample.evs (new_thread (D := LifeSample.seen) (M := unit) [])
      = Done th /\
    held (log (th_task th)) = ∅ /\ length (data (th_task th)) = 6%nat /\
    signals (log (th_task th)) = [0; SIG_INIT].
Proof.
  pose proof (shim_lifecycle (M := unit) 1 Recorder.ifd LifeSample.evs [] eq_refl) as Hl.
  assert (E : match s_task_shim 1 Recorder.ifd LifeSample.evs
      (new_thread (D := LifeSample.seen) (M := unit) []) with
    | Done th => length (data (th_task th)) = 6%nat /\ signals (log (th_task th)) = [0; SIG_INIT]
    | Failed _ => False end) by (vm_compute; split; reflexivity).
  destruct (s_task_shim _ _ _ _) as [th|]; [|done]. exists th. split; [done|].
  destruct Hl as [Hh _]. destruct E as [Hd Hs]. done.
Defined.

(** C8: while a task polls, the requests of its clients are read on a muted
    frontend exactly while the task is not active: a job is never disturbed by
    another client, and every client is heard when the job is done. *)
Theorem clients_one_at_a_time {D M} `{ZEnv} `{!ZEnvReader} `{LifeEnv} `{!TaskImpl D}
    `{!TaskMain D M} `{!LifeLaws D M} id ifd (d : D) th t ifd' i ep (msg : M) :
  shim_enter (M := M) id ifd (new_thread (M := M) d) = Done (true, th) ->
  rtc (polls (M := M)) (th_task th) t ->
  frontends t !! i = Some ep -> ep_automute ep = true ->
  delivered (EvRequest ifd' i msg) t = negb (active t).
Proof.
  intros E Hp Hi Hm. assert (Hid : 0 < id /\ sysconf_ncpus <> 1).
  { unfold shim_enter in E. destruct (Z.ltb_spec 0 id); [|done]. split; [done|]. intros Hn.
    unfold set_affinity in E. rewrite Hn in E. done. }
  destruct (shim_enter_start id ifd d) as (th0 & E0 & [_ _ Hf Ha _ _]); [tauto..|].
  pose proof (shim_start_tuned (M := M) ifd th0 Hf Ha) as Ht. rewrite <- E0, E in Ht.
  specialize (Ht eq_refl). destruct (acts_tuned _ _ (polls_acts _ _ Hp) Ht) as [Hok Hpl].
  simpl. rewrite Hi, (Hpl i ep Hi Hm). by rewrite (Forall_lookup_1 _ _ _ _ Hok Hi Hm).
Qed.

Lemma clients_one_at_a_time_witness :
  exists th, shim_enter (M := unit) 1 Recorder.ifd (new_thread (D := LifeSample.seen) (M := unit) [])
      = Done (true, th) /\
    delivered (EvRequest Recorder.ifd 0%nat tt) (th_task th) = true.
Proof.
  assert (E : match shim_enter (M := unit) 1 Recorder.ifd
      (new_thread (D := LifeSample.seen) (M := unit) []) with
    | Done (ok, th) => ok = true /\ frontends (th_task th) !! 0%nat = Some LifeSample.ep_req /\
        active (th_task th) = false
    | Failed _ => False end) by (vm_compute; repeat split; reflexivity).
  destruct (shim_enter _ _ _) as [[ok th]|] eqn:Es; [|done]. destruct E as (-> & Hf & Ha).
  exists th. split; [done|].
  transitivity (negb (active (th_task th))); [|by rewrite Ha].
  by apply (clients_one_at_a_time 1 Recorder.ifd [] th (th_task th) Recorder.ifd 0 LifeSample.ep_req tt Es).
Defined.
