(* ===== verification/TaskList.v ===== *)
(** * The tasks of the server (src/bin/tesd_tasks.c, THE TASK LIST)

    The five entries of [s_tasks] with their frontends, initializers, finalizers
    and handlers, as instances of the classes of TaskLife.v, so that the theorems
    about the life of a thread hold of each of them; and what happens when the
    threads of some of them fail. *)

From Stdlib Require Import ZArith Lia Strings.String Strings.Byte.
From stdpp Require Import base option list numbers decidable sets gmap relations.
From S2P Require Import Prelude Tespkt Tesif Task TaskTheory TaskInfo TaskHist TaskAvgtr TaskJitter.
From S2P Require Import Coordinator Sys Capture CaptureTheory TaskLife.

Open Scope Z_scope.

#[export] Existing Instances Info.impl Hist.impl Avgtr.impl Jitter.impl Cap.cap_impl.

(** ** Frontends *)

(** A frontend that serves one client at a time. *)
Definition rep_endp : task_endp :=
  {| ep_handler := true; ep_type := ZMQ_REP; ep_nsubs := 0; ep_automute := true;
     ep_autosleep := false |}.

(** A frontend that serves clients while the task is active. *)
Definition conf_endp : task_endp :=
  {| ep_handler := true; ep_type := ZMQ_REP; ep_nsubs := 0; ep_automute := false;
     ep_autosleep := false |}.

(** A frontend whose subscribers keep the task active. *)
Definition pub_endp : task_endp :=
  {| ep_handler := false; ep_type := ZMQ_XPUB; ep_nsubs := 0; ep_automute := false;
     ep_autosleep := true |}.

Definition TES_INFO_LPORT : string := "55554".
Definition TES_CAP_LPORT : string := "55555".
Definition TES_AVGTR_LPORT : string := "55556".
Definition TES_JITTER_REP_LPORT : string := "55557".
Definition TES_HIST_LPORT : string := "55565".
Definition TES_JITTER_PUB_LPORT : string := "55567".

Definition tcp (port : string) : string := "tcp://*:" ++ port.

(** ** Finalizers *)

Section Finalizers.
Context `{ZEnv}.

(** The pointer is set to NULL. *)
Definition task_info_fin (set : bool) (t : task Info.s_data_t) : exec (Z * bool * task Info.s_data_t) :=
  mret (0, false, t).
Definition task_hist_fin (set : bool) (t : task Hist.s_data_t) : exec (Z * bool * task Hist.s_data_t) :=
  mret (0, false, t).
Definition task_avgtr_fin (set : bool) (t : task Avgtr.s_data_t) : exec (Z * bool * task Avgtr.s_data_t) :=
  mret (0, false, t).
Definition task_jitter_fin (set : bool) (t : task Jitter.s_data_t) : exec (Z * bool * task Jitter.s_data_t) :=
  mret (0, false, t).

(** An unfinished job is ended first. *)
Definition task_cap_fin `{CapEnv} (set : bool) (t : task Cap.s_data_t)
    : exec (Z * bool * task Cap.s_data_t) :=
  c_assert set;;
  '(rc, t) ← Cap.task_cap_fin t;
  mret (rc, false, t).

(** ** The task list *)

Definition info_main : TaskMain Info.s_data_t Z := {|
  endpoints := [(rep_endp, tcp TES_INFO_LPORT)];
  data_init := Some (fun t => let '(rc, t) := Info.task_info_init t in mret (rc, true, t));
  data_fin := Some task_info_fin;
  autoactivate := false;
  frontend_hn := fun ifd _ timeout t => Info.task_info_req_hn ifd timeout t;
  timer_hn := Some Info.s_timeout_hn |}.

Definition cap_main `{CapEnv} : TaskMain Cap.s_data_t Cap.s_req_t := {|
  endpoints := [(rep_endp, tcp TES_CAP_LPORT)];
  data_init := Some (fun t =>
    '(rc, d) ← Cap.task_cap_init;
    match d with
    | Some d => mret (rc, true, set_data t d)
    | None => mret (rc, false, t)
    end);
  data_fin := Some task_cap_fin;
  autoactivate := false;
  frontend_hn := fun ifd _ msg t => Cap.task_cap_req_hn ifd t msg;
  timer_hn := None |}.

Definition avgtr_main : TaskMain Avgtr.s_data_t Z := {|
  endpoints := [(rep_endp, tcp TES_AVGTR_LPORT)];
  data_init := Some (fun t => let '(rc, t) := Avgtr.task_avgtr_init t in mret (rc, true, t));
  data_fin := Some task_avgtr_fin;
  autoactivate := false;
  frontend_hn := fun ifd _ timeout t => Avgtr.task_avgtr_req_hn ifd timeout t;
  timer_hn := Some Avgtr.s_timeout_hn |}.

(** No frontend of the histogram task has a handler. *)
Definition hist_main : TaskMain Hist.s_data_t unit := {|
  endpoints := [(pub_endp, tcp TES_HIST_LPORT)];
  data_init := Some (fun t => let '(rc, t) := Hist.task_hist_init t in mret (rc, true, t));
  data_fin := Some task_hist_fin;
  autoactivate := false;
  frontend_hn := fun _ _ _ t => mret (0, t);
  timer_hn := None |}.

Definition jitter_main : TaskMain Jitter.s_data_t (Z * Z) := {|
  endpoints := [(conf_endp, tcp TES_JITTER_REP_LPORT); (pub_endp, tcp TES_JITTER_PUB_LPORT)];
  data_init := Some (fun t => '(rc, t) ← Jitter.task_jitter_init t; mret (rc, true, t));
  data_fin := Some task_jitter_fin;
  autoactivate := false;
  frontend_hn := fun _ _ '(ref_ch, ticks) t => Jitter.task_jitter_req_hn ref_ch ticks t;
  timer_hn := None |}.
End Finalizers.

#[export] Existing Instances info_main cap_main avgtr_main hist_main jitter_main.

(** ** Their handlers keep what they promise *)

(** Walk through a handler that leaves the framework alone. *)
Ltac calm_step :=
  lazymatch goal with
  | |- pwp (let '(_, _) := ?x in _) _ => destruct x
  | |- pwp (if ?b then _ else _) _ => destruct b
  | |- pwp (match ?x with _ => _ end) _ => destruct x
  | |- pwp (mbind _ _) _ => first [eapply pwp_bind; [solve [eauto with calm]|]; intros ? ?
                                  |apply pwp_bind_any; intros ? _]
  | |- pwp (mret _) _ => apply pwp_ret; cbn [fst snd]; eauto with calm
  | |- pwp (fail _) _ => exact I
  | |- pwp _ _ => solve [eauto with calm]
  end.

Section Laws.
Context `{ZEnv}.

#[export] Instance info_laws : LifeLaws Info.s_data_t Z.
Proof.
  split; cbn [pkt_handler Info.impl data_wakeup data_sleep run_hook data_init info_main timer_hn
              frontend_hn endpoints].
  - intros t pkt flen missed err. unfold Info.task_info_pkt_hn. repeat calm_step.
  - intros t. calm_step.
  - intros t. calm_step.
  - intros t. simpl. auto with calm.
  - intros ifd _ timeout t. unfold Info.task_info_req_hn. cbv zeta.
    repeat case_if; try (apply by_acts_ret; auto with calm).
    eapply by_acts_calm; [|apply by_acts_bind; [apply activate_acts|];
      intros [rc t1]; apply by_acts_ret, calm_refl]. auto with calm.
  - intros t. unfold Info.s_timeout_hn. apply by_acts_bind; [apply deactivate_acts|].
    intros [rc t1]. apply by_acts_ret. split; [done..|]. simpl. eexists. split; [reflexivity|].
    by repeat constructor.
  - by repeat constructor.
Qed.

#[export] Instance hist_laws : LifeLaws Hist.s_data_t unit.
Proof.
  split; cbn [pkt_handler Hist.impl data_wakeup data_sleep run_hook data_init hist_main timer_hn
              frontend_hn endpoints].
  - intros t pkt flen missed err. unfold Hist.task_hist_pkt_hn, Hist.add_frame. repeat calm_step.
  - intros t. simpl. auto with calm.
  - intros t. calm_step.
  - intros t. simpl. auto with calm.
  - intros ifd i msg t. by apply by_acts_ret, calm_refl.
  - intros t. by apply by_acts_ret, calm_refl.
  - by repeat constructor.
Qed.

Lemma avgtr_finish_calm t0 t rep : calm t0 t -> pwp (Avgtr.finish t rep) (fun r => calm t0 r.2).
Proof.
  intros Hc. unfold Avgtr.finish. cbv zeta. destruct (rep =? _); [simpl; auto with calm|].
  destruct (rep =? _); [|done]. destruct (mem_read _ _ _); [|done]. simpl. auto with calm.
Qed.
#[local] Hint Resolve avgtr_finish_calm : calm.

#[export] Instance avgtr_laws : LifeLaws Avgtr.s_data_t Z.
Proof.
  split; cbn [pkt_handler Avgtr.impl data_wakeup data_sleep run_hook data_init avgtr_main timer_hn
              frontend_hn endpoints].
  - intros t pkt flen missed err. unfold Avgtr.task_avgtr_pkt_hn, Avgtr.append. repeat calm_step.
  - intros t. simpl. auto with calm.
  - intros t. calm_step.
  - intros t. simpl. auto with calm.
  - intros ifd _ timeout t. unfold Avgtr.task_avgtr_req_hn. cbv zeta.
    repeat case_if; try (apply by_acts_ret; auto with calm). apply by_acts_pure. intros _.
    eapply by_acts_calm; [|apply by_acts_bind; [apply activate_acts|];
      intros [rc t1]; apply by_acts_ret, calm_refl]. auto with calm.
  - intros t. unfold Avgtr.s_timeout_hn. apply by_acts_bind; [apply deactivate_acts|].
    intros [rc t1]. apply by_acts_ret. auto with calm.
  - by repeat constructor.
Qed.

Lemma jitter_init_calm t : pwp (Jitter.task_jitter_init t) (fun r => calm t r.2).
Proof. unfold Jitter.task_jitter_init. repeat calm_step. Qed.

#[export] Instance jitter_laws : LifeLaws Jitter.s_data_t (Z * Z).
Proof.
  split; cbn [pkt_handler Jitter.impl data_wakeup data_sleep run_hook data_init jitter_main timer_hn
              frontend_hn endpoints].
  - intros t pkt flen missed err. unfold Jitter.task_jitter_pkt_hn, Jitter.publish. repeat calm_step.
  - intros t. unfold Jitter.task_jitter_wakeup. repeat calm_step.
  - intros t. calm_step.
  - intros t. eapply pwp_bind; [apply jitter_init_calm|]. intros [rc t1] Hc. exact Hc.
  - intros ifd i [ref_ch ticks] t. apply by_acts_ret. auto with calm.
  - intros t. apply by_acts_ret, calm_refl.
  - by repeat constructor.
Qed.

(** *** The capture task *)

Section Capture.
Context `{CapEnv}.
Implicit Types (t : task Cap.s_data_t) (status : Z).

Lemma stats_send_calm t0 t status :
  calm t0 t -> pwp (Cap.s_stats_send t status) (fun r => calm t0 r.2).
Proof. intros Hc. unfold Cap.s_stats_send. repeat calm_step. Qed.

Lemma send_err_calm t0 t status : calm t0 t -> calm t0 (Cap.s_send_err t status).
Proof. intros Hc. unfold Cap.s_send_err. auto with calm. Qed.

Lemma finish_job_calm t0 t : calm t0 t -> pwp (Cap.finish_job t) (fun r => calm t0 r.2).
Proof.
  intros Hc. unfold Cap.finish_job. apply pwp_bind_any. intros d _. cbv zeta.
  apply pwp_bind_any. intros [rc d1] _. apply pwp_bind_any. intros [status d2] _.
  eapply pwp_bind; [apply stats_send_calm, calm_set_data, Hc|]. intros [rc2 t2] H2. exact H2.
Qed.

Lemma pkt_hn_calm t pkt flen missed err :
  pwp (Cap.task_cap_pkt_hn t pkt flen missed err) (fun r => calm t r.2).
Proof.
  unfold Cap.task_cap_pkt_hn. cbv zeta.
  match goal with |- pwp (if negb (Cap.recording ?d) then _ else _) _ => generalize d end.
  intros d0. destruct (negb (Cap.recording d0)).
  { simpl. auto with calm. }
  apply pwp_bind_any. intros [fin d] _. destruct fin; [|simpl; auto with calm].
  apply finish_job_calm. auto with calm.
Qed.

(** A request is answered without touching the framework, or it activates the
    task at the end. *)
Lemma req_hn_acts ifd t msg : pwp (Cap.task_cap_req_hn ifd t msg) (by_acts t).
Proof.
  assert (Hret : forall rc t', calm t t' -> pwp (mret (rc, t')) (by_acts t))
    by (intros; by apply by_acts_ret).
  unfold Cap.task_cap_req_hn. apply by_acts_pure. intros _.
  destruct (Cap.s_is_req_valid _) as [rc d]. cbv zeta.
  case_if; [apply Hret, send_err_calm; auto with calm|].
  apply by_acts_pure. intros [rc1 d1].
  case_if; [apply Hret, send_err_calm; auto with calm|].
  case_if.
  - apply by_acts_pure. intros [rc2 d2].
    case_if; [apply Hret, send_err_calm; auto with calm|].
    apply by_acts_pure. intros [rc3 d3].
    case_if; [apply Hret, send_err_calm; auto with calm|].
    eapply pwp_bind; [apply (stats_send_calm t); auto with calm|].
    intros [rc4 t4] H4. by apply Hret.
  - apply by_acts_pure. intros [rc2 d2].
    case_if; [apply Hret, calm_set_data, send_err_calm; auto with calm|].
    apply by_acts_pure. intros [rc3 d3].
    case_if; [apply Hret, calm_set_data, send_err_calm; auto with calm|].
    eapply (by_acts_calm t); [|apply by_acts_bind; [apply activate_acts|];
      intros [rc4 t4]; apply by_acts_ret, calm_refl]. auto with calm.
Qed.

#[export] Instance cap_laws : LifeLaws Cap.s_data_t Cap.s_req_t.
Proof.
  split; cbn [pkt_handler Cap.cap_impl data_wakeup data_sleep run_hook data_init cap_main timer_hn
              frontend_hn endpoints].
  - apply pkt_hn_calm.
  - intros t. calm_step.
  - intros t. calm_step.
  - intros t. apply pwp_bind_any. intros [rc [d|]] _; simpl; auto with calm.
  - intros ifd _ msg t. apply req_hn_acts.
  - intros t. apply by_acts_ret, calm_refl.
  - by repeat constructor.
Qed.
End Capture.

(** Tasks whose finalizer only sets the pointer to NULL. *)
Ltac fin_laws := split; simpl; try done; [by repeat constructor|intros; auto using worked_refl].
Ltac fin_total := intros ? ?; by eexists.

#[export] Instance info_fin_laws : FinLaws Info.s_data_t Z.
Proof. fin_laws. Qed.
#[export] Instance hist_fin_laws : FinLaws Hist.s_data_t unit.
Proof. fin_laws. Qed.
#[export] Instance avgtr_fin_laws : FinLaws Avgtr.s_data_t Z.
Proof. fin_laws. Qed.
#[export] Instance jitter_fin_laws : FinLaws Jitter.s_data_t (Z * Z).
Proof.
  split; simpl; try done; [by repeat constructor| |intros; auto using worked_refl].
  intros t Hf. unfold Jitter.task_jitter_init, Jitter.has_type. rewrite Hf. vm_compute. done.
Qed.

#[export] Instance info_fin_total : FinTotal Info.s_data_t Z.
Proof. fin_total. Qed.
#[export] Instance hist_fin_total : FinTotal Hist.s_data_t unit.
Proof. fin_total. Qed.
#[export] Instance avgtr_fin_total : FinTotal Avgtr.s_data_t Z.
Proof. fin_total. Qed.
#[export] Instance jitter_fin_total : FinTotal Jitter.s_data_t (Z * Z).
Proof. fin_total. Qed.

(** The finalizer of the capture task fails without data, and may do so when it
    ends a job. *)
Lemma stats_send_error `{CapEnv} t status :
  pwp (Cap.s_stats_send t status) (fun r => error r.2 = error t).
Proof. unfold Cap.s_stats_send. do 2 (apply pwp_bind_any; intros [] _). done. Qed.

Lemma end_job_fin `{CapEnv} t :
  pwp (Cap.end_job t) (fun '(_, t') => error t' = error t /\ worked t t').
Proof.
  unfold Cap.end_job. case_match; [|split; [done|apply worked_refl]].
  apply pwp_bind_any. intros d1 _. cbv zeta. apply pwp_bind_any. intros [rc1 d2] _.
  eapply pwp_bind; [apply (pwp_and _ _ _ (stats_send_error (set_data t d2) _)
    (stats_send_calm t (set_data t d2) _ ltac:(auto with calm)))|].
  intros [rc2 t'] [He Hc]. simpl in He, Hc. split; [done|by apply calm_worked].
Qed.

Lemma check_sizes_done : Cap.check_sizes = Done tt.
Proof. vm_compute. reflexivity. Qed.

#[export] Instance cap_fin_laws `{CapEnv} : FinLaws Cap.s_data_t Cap.s_req_t.
Proof.
  split; simpl; try done; [by repeat constructor| |].
  - intros t _. unfold Cap.task_cap_init. rewrite check_sizes_done. cbn [mbind exec_bind].
    destruct (Cap.init_loop 0 _) as [rc bufs]. by destruct (negb _).
  - intros set t. unfold task_cap_fin, Cap.task_cap_fin. destruct set; [|done]. simpl.
    pose proof (end_job_fin t) as Hj. destruct (Cap.end_job t) as [[rc t']|]; [|done].
    destruct Hj as [He Hw]. simpl. split; [done|]. split; [done|].
    destruct Hw as (l & Hl & Hf). by exists l.
Qed.
End Laws.

(** ** When a thread fails *)

Lemma open_frontends_data {D} `{ZEnv} `{LifeEnv} i eps (th : thread D) :
  pwp (open_frontends i eps th) (fun '(_, th') => th_data th' = th_data th).
Proof.
  revert i th. induction eps as [|[ep addr] eps IH]; intros i th; [by simpl|].
  cbn [open_frontends]. cbv zeta. destruct (negb _); [done|]. destruct (_ =? -1); [done|].
  destruct (ep_handler ep); unfold register; cbv beta iota;
    (apply (pwp_bind _ _ (fun r => th_data r.2 = th_data th));
    [destruct (_ && _); [apply pwp_bind_any; intros _ _; done|done]|]);
    intros [rc th1] H1; simpl in H1; (destruct (_ =? -1); [done|]);
    (eapply pwp_mono; [apply IH|]; intros [ok th2] H2; congruence).
Qed.

Lemma cap_init_rc `{CapEnv} rc d : Cap.task_cap_init = Done (rc, Some d) -> rc = 0.
Proof.
  unfold Cap.task_cap_init. destruct Cap.check_sizes; [|done]. cbn [mbind exec_bind].
  destruct (Cap.init_loop _ _) as [rc' bufs]. by destruct (negb _); intros [= <- _].
Qed.

(** The capture task has no data as long as it does not poll. *)
Lemma cap_not_started `{ZEnv} `{LifeEnv} `{CapEnv} id ifd d th :
  shim_enter (M := Cap.s_req_t) id ifd (new_thread (D := Cap.s_data_t) (M := Cap.s_req_t) d)
    = Done (false, th) -> th_data th = false.
Proof.
  intros E. unfold shim_enter in E. destruct (0 <? id); [|done]. cbn [c_assert mbind exec_bind] in E.
  destruct (set_affinity _ _) as [[w t]|]; [|done]. cbn [mbind exec_bind] in E.
  unfold shim_start in E.
  pose proof (open_frontends_data 0 (endpoints (D := Cap.s_data_t) (M := Cap.s_req_t)) (emit_th (emit_th (on_task
    (emit_th (new_thread (D := Cap.s_data_t) (M := Cap.s_req_t) d) (ZsockSignal 0)) t)
    BlockSignals) ZloopNew)) as Ho.
  destruct (open_frontends _ _ _) as [[ok th1]|]; [|done]. simpl in Ho. cbn [mbind exec_bind] in E.
  destruct ok; simpl in E; [|by injection E as <-].
  destruct (_ =? -1); [by injection E as <-|].
  unfold run_init in E. cbn [data_init cap_main] in E.
  destruct Cap.task_cap_init as [[rc [d'|]]|] eqn:Ei; simpl in E; [| |done]; last first.
  { destruct (rc =? 0); [done|]. injection E as <-. simpl. by rewrite Ho. }
  by rewrite (cap_init_rc _ _ Ei) in E.
Qed.

(** The error of a request handler is never announced as the notes on tasks
    promise.  If no timer can be set for a request to the packet statistics task
    its handler returns TASK_ERROR, which ends the loop of the thread, but only
    the handler of signals sets the error flag: the thread ends without SIG_DIED,
    and the coordinator, which reads the signal that zactor sends when a thread
    ends, stops the server at an assertion instead of shutting it down. *)
Theorem request_error_aborts `{ZEnv} `{!ZEnvReader} `{LifeEnv} id ifd d th ifd' timeout :
  0 < id -> sysconf_ncpus <> 1 ->
  shim_enter (TaskMain0 := info_main) id ifd (new_thread (D := Info.s_data_t) (M := Z) d) = Done (true, th) ->
  timeout <> 0 -> (forall l delay, zloop_timer_rc l delay = -1) ->
  exists th', s_task_shim (TaskMain0 := info_main) id ifd [EvRequest ifd' 0 timeout]
      (new_thread (D := Info.s_data_t) (M := Z) d) = Done th' /\
    error (th_task th') = false /\ signals (log (th_task th')) = [0; SIG_INIT] /\
    coordinator_reads (log (th_task th')) = Failed AssertFail.
Proof.
  intros Hid Hn E Ht Hz. destruct (started_state id ifd d th Hid Hn E) as (He & Ha & [Hok Htu] & Hf).
  assert (Hi : exists ep, frontends (th_task th) !! 0%nat = Some ep /\ ep_automute ep = true).
  { destruct (frontends (th_task th)) as [|ep eps]; [done|]. exists ep. split; [done|].
    by injection Hf. }
  destruct Hi as (ep & Hi & Hm). set (t' := emit (th_task th) (ZloopTimer (to_u32 (1000 * timeout)))).
  apply (silent_end id ifd d th _ t'); [done..| | |done].
  - simpl. rewrite Hi, (Htu 0%nat ep Hi Hm), Ha. by rewrite (Forall_lookup_1 _ _ _ _ Hok Hi Hm).
  - simpl. unfold Info.task_info_req_hn. rewrite (proj2 (Z.eqb_neq _ _) Ht), Hz. done.
Qed.

(** A system in which no timer can be set. *)
Module NoTimers.
#[export] Instance env : ZEnv :=
  {| zmq_send_rc := fun _ _ _ => 0; zloop_reader_rc := fun _ _ => 0;
     zloop_timer_rc := fun _ _ => -1 |}.
#[export] Instance env_reader : ZEnvReader (H := env).
Proof. done. Qed.
End NoTimers.

#[local] Existing Instances NoTimers.env NoTimers.env_reader LifeSample.env.

Lemma request_error_aborts_witness :
  exists th', s_task_shim 1 Recorder.ifd
      [EvRequest Recorder.ifd 0 3] (new_thread (M := Z) Info.zero_data) = Done th' /\
    coordinator_reads (log (th_task th')) = Failed AssertFail.
Proof.
  assert (E : match shim_enter (M := Z) 1 Recorder.ifd
      (new_thread (M := Z) Info.zero_data) with
    | Done (ok, th) => ok = true | Failed _ => False end) by (vm_compute; reflexivity).
  destruct (shim_enter _ _ _) as [[ok th]|] eqn:Es; [|done]. subst ok.
  assert (Hn : sysconf_ncpus (LifeEnv := LifeSample.env) <> 1) by (vm_compute; discriminate).
  destruct (request_error_aborts 1 Recorder.ifd _ th Recorder.ifd 3 eq_refl Hn Es) as (th' & H1 & _ & _ & H2);
    [done|done|]. by exists th'.
Defined.

(** The capture task cannot fail to start.  Whatever keeps its thread from
    polling (a port in use, no memory for its buffers), the cleanup calls its
    finalizer without data, which stops the whole server at an assertion,
    whereas the other tasks let the coordinator shut down in order. *)
Theorem cap_start_failure_aborts `{ZEnv} `{LifeEnv} `{CapEnv} id ifd evs d th :
  shim_enter (TaskMain0 := cap_main) id ifd (new_thread (D := Cap.s_data_t) (M := Cap.s_req_t) d)
    = Done (false, th) ->
  s_task_shim (TaskMain0 := cap_main) id ifd evs (new_thread (D := Cap.s_data_t) (M := Cap.s_req_t) d) = Failed AssertFail.
Proof.
  intros E. unfold s_task_shim. rewrite E. cbn [mbind exec_bind mret exec_ret].
  assert (Hd : th_data th = false) by (by eapply cap_not_started).
  unfold shim_cleanup, run_fin. cbn [data_fin cap_main task_cap_fin].
  replace (th_data _) with false by (by case_if). done.
Qed.

(** A system in which the port of the task is in use. *)
Module PortInUse.
#[export] Instance env : LifeEnv := {|
  zsock_new_ok := fun _ _ => true; zsock_attach_rc := fun _ _ => -1; zloop_pipe_rc := fun _ => 0;
  sysconf_ncpus := 4; setaffinity_rc := fun _ => 0; getaffinity := fun c => (0, [c]) |}.
End PortInUse.

#[local] Existing Instances CapSample.env.
#[local] Existing Instance PortInUse.env | 0.

Lemma cap_start_failure_aborts_witness :
  s_task_shim (M := Cap.s_req_t) 2 Recorder.ifd [] (new_thread (M := Cap.s_req_t) Cap.zero_data)
    = Failed AssertFail.
Proof.
  assert (E : match shim_enter (M := Cap.s_req_t) 2 Recorder.ifd
      (new_thread (M := Cap.s_req_t) Cap.zero_data) with
    | Done (ok, th) => ok = false | Failed _ => False end) by (vm_compute; reflexivity).
  destruct (shim_enter _ _ _) as [[ok th]|] eqn:Es; [|done]. subst ok.
  exact (cap_start_failure_aborts 2 Recorder.ifd [] Cap.zero_data th Es).
Defined.
