(* ===== verification/Server.v ===== *)
(** * The server's main program (src/bin/tesd.c, and the start and end of the
    tasks in src/bin/tesd_tasks.c)

    The coordinator's thread: options, bringing the interface up, becoming a
    daemon, dropping privileges, starting the threads of the tasks, its loop and
    shutting down.  Calls are logged as in Sys.v; the threads are those of
    TaskLife.v, of which the coordinator sees the signals, and the handlers of
    the loop those of Coordinator.v.  Compiled for Linux, with NEED_PROMISC. *)

From Stdlib Require Import ZArith Lia Strings.String Strings.Byte.
From stdpp Require Import base option list numbers decidable sets.
From S2P Require Import Prelude Tespkt Tesif Task TaskTheory Coordinator Sys Path Daemon Cmdline.

Open Scope Z_scope.

Definition NUM_TASKS : nat := 5.
Definition IFNAMSIZ : Z := 16.
Definition INIT_TOUT : Z := 5.
Definition UPDATE_INTERVAL : Z := 1.
Definition TES_IFNAME : bytes := lit "netmap:eth0".
Definition PIDFILE : bytes := lit "/var/run/tesd.pid".

Definition SIOCGIFINDEX : Z := 0x8933.
Definition SIOCGIFFLAGS : Z := 0x8913.
Definition SIOCSIFFLAGS : Z := 0x8914.
Definition IFF_UP : Z := 0x1.
Definition IFF_PROMISC : Z := 0x100.

Module Server.

(** ** The tasks' threads *)

Section Tasks.
Context `{SysEnv}.

(** [shims] tells of each task whether [self->shim] is not NULL; [nrings] is
    the number of rings of the interface. *)
Definition s_task_start (nrings : Z) (t : nat) (shims : list bool) : sysM (Z * list bool) :=
  sys_assert (nrings =? NUM_RINGS);;
  p ← sys (ZactorNew t);
  let shims := <[t := negb (p =? 0)]> shims in
  sys_assert (negb (p =? 0));;
  rc ← sys (ZactorWait t);
  if rc =? SIG_DIED then mret (-1, shims)
  else sys_assert (rc =? SIG_INIT);; mret (0, shims).

Fixpoint start_loop (nrings : Z) (n t : nat) (shims : list bool) : sysM (Z * list bool) :=
  match n with
  | O => mret (0, shims)
  | S n =>
      '(rc, shims) ← s_task_start nrings t shims;
      if negb (rc =? 0) then mret (-1, shims) else start_loop nrings n (S t) shims
  end.

Fixpoint read_loop (n t : nat) : sysM Z :=
  match n with
  | O => mret 0
  | S n =>
      rc ← sys (CloopReader t);
      if rc =? -1 then mret (-1) else read_loop n (S t)
  end.
Definition tasks_read : sysM Z := read_loop NUM_TASKS 0.

(** [has_loop]: [c_loop] is not NULL. *)
Definition tasks_start (nrings : Z) (has_loop : bool) (shims : list bool) : sysM (Z * list bool) :=
  '(rc, shims) ← start_loop nrings NUM_TASKS 0 shims;
  if rc =? -1 then mret (-1, shims)
  else if has_loop then rc ← tasks_read; mret (rc, shims)
  else mret (0, shims).

Fixpoint mute_loop (n t : nat) : sysM unit :=
  match n with
  | O => mret tt
  | S n => sys_ (CloopReaderEnd t);; mute_loop n (S t)
  end.
Definition tasks_mute : sysM unit := mute_loop NUM_TASKS 0.

Definition s_task_stop (t : nat) (shims : list bool) : sysM (list bool) :=
  if negb (bool_decide (shims !! t = Some true)) then mret shims
  else
    sys_ (ZactorTimeout t);;
    sys_ (ZactorSignal t SIG_STOP);;
    sys_ (ZactorDestroy t);;
    mret (<[t := false]> shims).

Fixpoint destroy_loop (n t : nat) (shims : list bool) : sysM (list bool) :=
  match n with
  | O => mret shims
  | S n => shims ← s_task_stop t shims; destroy_loop n (S t) shims
  end.
Definition tasks_destroy (shims : list bool) : sysM (list bool) := destroy_loop NUM_TASKS 0 shims.
End Tasks.

(** ** Bringing the interface up *)

(** [strchr ("+-*^{}/@", c) != NULL] *)
Definition is_suffix (c : byte) : bool :=
  match strchr (lit "+-*^{}/@") c with Some _ => true | None => false end.

(** The index of the first special suffix, or of the end. *)
Fixpoint find_end (s : bytes) : nat :=
  match s with
  | [] => 0
  | c :: s => if is_suffix c then 0 else S (find_end s)
  end.

(** The physical name in a full one, copied to an array of IFNAMSIZ characters;
    [None] if it is malformed. *)
Definition phys_name (full : bytes) : exec (option bytes) :=
  let start := match strchr full x3a with None => 0%nat | Some i => S i end in
  let end_ := find_end full in
  if Nat.leb end_ start then mret None
  else if Nat.ltb (Z.to_nat IFNAMSIZ) (end_ - start + 1) then fail OutOfBounds
  else
    let ifname := (snprintf (Z.of_nat (end_ - start + 1)) (drop start full)).2 in
    dbg_assert (strlen ifname =? Z.of_nat (end_ - start));;
    mret (Some ifname).

Section Interface.
Context `{SysEnv}.

(** [ioctl], with the flags that it reads. *)
Definition ioctl (fd req : Z) (name : bytes) (flags : Z) : sysM (Z * Z) := fun l =>
  let c := SysIoctl fd req name flags in
  (Done (sys_rc l c, load16 (sys_bytes l c) 0), l ++ [c]).

Definition has_flag (flags f : Z) : bool := c_true (Z.land flags f).

(** Set [flags] and check that [f] is set then. *)
Definition set_flags (sock : Z) (name : bytes) (flags f : Z) : sysM (Z * Z) :=
  '(rc, _) ← ioctl sock SIOCSIFFLAGS name flags;
  if rc =? -1 then mret (-1, flags)
  else
    '(rc, flags) ← ioctl sock SIOCGIFFLAGS name flags;
    if rc =? -1 then mret (-1, flags)
    else if negb (has_flag flags f) then mret (-1, flags)
    else mret (0, flags).

Definition s_prepare_if (full : bytes) : sysM Z :=
  if bool_decide (take 4 full = lit "vale") then mret 0
  else
    o ← sys_lift (phys_name full);
    match o with
    | None => mret (-1)
    | Some ifname =>
        sock ← sys SysSocket;
        if sock =? -1 then mret (-1)
        else
          '(rc, _) ← ioctl sock SIOCGIFINDEX ifname 0;
          if rc =? -1 then mret (-1)
          else
            '(rc, flags) ← ioctl sock SIOCGIFFLAGS ifname 0;
            if rc =? -1 then mret (-1)
            else
              '(rc, flags) ← (if negb (has_flag flags IFF_UP)
                              then set_flags sock ifname IFF_UP IFF_UP else mret (0, flags));
              if rc =? -1 then mret (-1)
              else
                '(rc, _) ← (if negb (has_flag flags IFF_PROMISC)
                            then set_flags sock ifname (Z.lor flags IFF_PROMISC) IFF_PROMISC
                            else mret (0, flags));
                mret rc
    end.
End Interface.

(** ** Starting up *)

(** The descriptor that [nm_open] returns for a name. *)
Class NmEnv : Type := nm_ifd : bytes -> tes_ifdesc.

Record data_t : Type := {
  stats : stats_t;
  is_open : bool;          (* data->ifd is not NULL *)
  ifname_req : bytes;
  stat_period : Z;
}.

Definition set_open (d : data_t) : data_t :=
  {| stats := stats d; is_open := true; ifname_req := ifname_req d; stat_period := stat_period d |}.
Definition set_stats (d : data_t) (v : stats_t) : data_t :=
  {| stats := v; is_open := is_open d; ifname_req := ifname_req d; stat_period := stat_period d |}.
Definition set_period (d : data_t) (v : Z) : data_t :=
  {| stats := stats d; is_open := is_open d; ifname_req := ifname_req d; stat_period := v |}.

Section Main.
Context `{SysEnv} `{NmEnv}.

(** [tes_if_open] with the name of the interface, or NULL. *)
Definition tes_if_open (name : bytes) : sysM (Z * bytes) := fun l =>
  (Done (sys_rc l (NmOpen name), sys_bytes l (NmOpen name)), l ++ [NmOpen name]).

Definition s_init (d : data_t) : sysM (Z * data_t) :=
  '(p, ifname_full) ← tes_if_open (ifname_req d);
  if p =? 0 then mret (-1, d)
  else
    let d := set_open d in
    sys_assert (tes_if_rxrings (nm_ifd (ifname_req d)) =? NUM_RINGS);;
    rc ← s_prepare_if ifname_full;
    if rc =? -1 then sys_ NmClose;; mret (-1, d)
    else mret (0, d).

(** ** The coordinator's loop *)

(** Packets have arrived, with the interface and the tasks as they are then and
    the results of signalling; a signal from a task; the end of the timer. *)
Inductive coord_event : Type :=
  | CePackets (ifd : tes_ifdesc) (tasks : list c_task) (sigs : SignalEnv)
  | CeSignal (sig : Z)
  | CeTimer (now : Z).

(** [zloop_start]: -1 when a handler ended the loop, 0 when it was interrupted,
    after the events. *)
Fixpoint coord_loop (timer : bool) (evs : list coord_event) (s : stats_t) : exec (Z * stats_t) :=
  match evs with
  | [] => mret (0, s)
  | ev :: evs =>
      '(rc, s) ← match ev with
        | CePackets ifd tasks sigs =>
            '(rc, _, d) ← s_new_pkts_hn tasks {| d_ifd := ifd; latest := st_latest s |};
            mret (rc, {| last_update := last_update s; st_latest := latest d; total := total s |})
        | CeSignal sig => rc ← s_die_hn sig; mret (rc, s)
        | CeTimer now => if timer : bool then s ← s_log_stats false now s; mret (0, s) else mret (0, s)
        end;
      if rc =? -1 then mret (-1, s) else coord_loop timer evs s
  end.

(** From the registered readers to the label [cleanup]. *)
Definition poll (evs : list coord_event) (d : data_t) : sysM (Z * data_t) :=
  rc ← sys CloopPoller;
  if rc =? -1 then mret (rc, d)
  else
    rc ← (if 0 <? stat_period d then sys (CloopTimer (to_u64 (1000 * stat_period d))) else mret rc);
    if (0 <? stat_period d) && (rc =? -1) then mret (rc, d)
    else
      sys_ CloopStart;;
      '(rc, s) ← sys_lift (coord_loop (0 <? stat_period d) evs (stats d));
      now ← sys SysTime;
      s ← sys_lift (s_log_stats true now s);
      mret (rc, set_stats d s).

Definition s_coordinator_body (evs : list coord_event) (d : data_t) (shims : list bool)
    : sysM (Z * data_t * list bool) :=
  sys_ CloopNew;;
  '(rc, shims) ← tasks_start (tes_if_rxrings (nm_ifd (ifname_req d))) true shims;
  '(rc, d) ← (if rc =? -1 then mret (rc, d) else poll evs d);
  shims ← tasks_destroy shims;
  sys_ CloopDestroy;;
  mret (rc, d, shims).
End Main.

(** ** Options *)

Record options : Type := {
  pidfile : bytes;
  o_ifname : bytes;
  o_period : Z;
  run_as_uid : Z;
  run_as_gid : Z;
  be_daemon : bool;
  be_verbose : bool;
}.

Definition s_usage {A} : exec A := fail (Exited EXIT_FAILURE).

(** An option that [getopt] returns, with [optarg]. *)
Definition set_option (o : options) (opt : byte) (optarg : bytes) : exec options :=
  match opt with
  | x70 (* p *) => mret {| pidfile := (snprintf PATH_MAX optarg).2; o_ifname := o_ifname o;
      o_period := o_period o; run_as_uid := run_as_uid o; run_as_gid := run_as_gid o;
      be_daemon := be_daemon o; be_verbose := be_verbose o |}
  | x69 (* i *) => mret {| pidfile := pidfile o; o_ifname := (snprintf IFNAMSIZ optarg).2;
      o_period := o_period o; run_as_uid := run_as_uid o; run_as_gid := run_as_gid o;
      be_daemon := be_daemon o; be_verbose := be_verbose o |}
  | x55 (* U *) => let '(n, buf) := strtol optarg in
      if 0 <? strlen buf then s_usage
      else mret {| pidfile := pidfile o; o_ifname := o_ifname o;
        o_period := n; run_as_uid := run_as_uid o; run_as_gid := run_as_gid o;
        be_daemon := be_daemon o; be_verbose := be_verbose o |}
  | x75 (* u *) => let '(n, buf) := strtoul optarg in
      if 0 <? strlen buf then s_usage
      else mret {| pidfile := pidfile o; o_ifname := o_ifname o;
        o_period := o_period o; run_as_uid := to_u32 n; run_as_gid := run_as_gid o;
        be_daemon := be_daemon o; be_verbose := be_verbose o |}
  | x67 (* g *) => let '(n, buf) := strtoul optarg in
      if 0 <? strlen buf then s_usage
      else mret {| pidfile := pidfile o; o_ifname := o_ifname o;
        o_period := o_period o; run_as_uid := run_as_uid o; run_as_gid := to_u32 n;
        be_daemon := be_daemon o; be_verbose := be_verbose o |}
  | x66 (* f *) => mret {| pidfile := pidfile o; o_ifname := o_ifname o;
      o_period := o_period o; run_as_uid := run_as_uid o; run_as_gid := run_as_gid o;
      be_daemon := false; be_verbose := be_verbose o |}
  | x76 (* v *) => mret {| pidfile := pidfile o; o_ifname := o_ifname o;
      o_period := o_period o; run_as_uid := run_as_uid o; run_as_gid := run_as_gid o;
      be_daemon := be_daemon o; be_verbose := true |}
  | x68 (* h *) | x3f (* ? *) => s_usage
  | _ => c_assert false;; mret o
  end.

Fixpoint getopts (o : options) (args : list (byte * bytes)) : exec options :=
  match args with
  | [] => mret o
  | (opt, optarg) :: args => o ← set_option o opt optarg; getopts o args
  end.

(** The options and the defaults for those not given. *)
Definition parse_options (args : list (byte * bytes)) : exec options :=
  o ← getopts {| pidfile := []; o_ifname := []; o_period := -1; run_as_uid := 0; run_as_gid := 0;
                 be_daemon := true; be_verbose := false |} args;
  mret {| pidfile := if strlen (pidfile o) =? 0 then PIDFILE else pidfile o;
          o_ifname := if strlen (o_ifname o) =? 0 then TES_IFNAME else o_ifname o;
          o_period := if (o_period o =? -1) && negb (be_daemon o) then UPDATE_INTERVAL else o_period o;
          run_as_uid := run_as_uid o; run_as_gid := run_as_gid o;
          be_daemon := be_daemon o; be_verbose := be_verbose o |}.

(** ** The main program *)

Section MainProgram.
Context `{SysEnv} `{NmEnv}.

(** Dropping privileges: group, then user, each checked not to come back. *)
Definition drop_privileges (uid gid : Z) : sysM Z :=
  rc ← (if negb (gid =? 0) then sys (SysSetgid gid) else mret 0);
  rc ← (if (rc =? 0) && negb (uid =? 0) then
          rc ← sys (SysSetuid uid);
          if rc =? 0 then back ← sys (SysSetuid 0); mret (if negb (back =? -1) then -1 else rc)
          else mret rc
        else mret rc);
  if (rc =? 0) && negb (gid =? 0) then
    euid ← sys SysGeteuid;
    if negb (euid =? 0) then
      back ← sys (SysSetgid 0);
      mret (if negb (back =? -1) then -1 else rc)
    else mret rc
  else mret rc.

(** Opening the interface, in the background or not. *)
Definition start_up (fuel : nat) (o : options) (d : data_t) : sysM data_t :=
  if be_daemon o then
    '(rc, d) ← Daemon.daemonize fuel (Some (pidfile o)) (Some s_init) d INIT_TOUT;
    if rc =? -1 then sys_exit EXIT_FAILURE
    else sys_ SysOpenlog;; mret d
  else
    '(rc, d) ← s_init d;
    if rc =? -1 then sys_exit EXIT_FAILURE else mret d.

(** After privileges were dropped, to the end of the process. *)
Definition serve (evs : list coord_event) (o : options) (d : data_t) : sysM unit :=
  sys_ (SysSetaffinity 0);;
  sys_ SysSigmask;;
  '(rc, d, _) ← s_coordinator_body evs (set_period d (o_period o)) (replicate NUM_TASKS false);
  sys_assert (is_open d);;
  rc ← sys NmClose;
  sys_exit (if c_true rc then EXIT_FAILURE else EXIT_SUCCESS).

Definition zero_data (name : bytes) : data_t :=
  {| stats := {| last_update := None; st_latest := zero_stats; total := zero_stats |};
     is_open := false; ifname_req := name; stat_period := 0 |}.

Definition main (fuel : nat) (args : list (byte * bytes)) (evs : list coord_event) : sysM unit :=
  sys_lift tespkt_self_test;;
  o ← sys_lift (parse_options args);
  d ← start_up fuel o (zero_data (o_ifname o));
  rc ← drop_privileges (run_as_uid o) (run_as_gid o);
  if rc =? -1 then
    sys_ NmClose;; sys_exit EXIT_FAILURE
  else serve evs o d.
End MainProgram.

(** ** Lemmas: threads are started and stopped *)

(** The calls that start and stop the first [k] tasks. *)
Definition start_calls (k : nat) : list sys_call :=
  concat ((fun t => [ZactorNew t; ZactorWait t]) <$> seq 0 k).
Definition stop_calls (k : nat) : list sys_call :=
  concat ((fun t => [ZactorTimeout t; ZactorSignal t SIG_STOP; ZactorDestroy t]) <$> seq 0 k).

Lemma start_calls_S k : start_calls (S k) = start_calls k ++ [ZactorNew k; ZactorWait k].
Proof. unfold start_calls. rewrite seq_S, fmap_app, concat_app. done. Qed.

(** A call made between the start of the tasks and their end. *)
Definition loop_call (c : sys_call) : Prop :=
  match c with
  | CloopReader _ | CloopPoller | CloopTimer _ | CloopStart | SysTime => True
  | _ => False
  end.

(** The first [k] of the tasks have threads. *)
Definition running (k : nat) : list bool := replicate k true ++ replicate (NUM_TASKS - k) false.

Lemma running_S k : (k < NUM_TASKS)%nat -> <[k := true]> (running k) = running (S k).
Proof. unfold NUM_TASKS. intros Hk. do 5 (destruct k as [|k]; [done|]). lia. Qed.

Section Laws.
Context `{SysEnv} `{NmEnv}.

Lemma task_stop_running t shims l :
  shims !! t = Some true ->
  s_task_stop t shims l =
    (Done (<[t := false]> shims), l ++ [ZactorTimeout t; ZactorSignal t SIG_STOP; ZactorDestroy t]).
Proof.
  intros E. unfold s_task_stop. rewrite bool_decide_true by done. cbn [negb].
  rewrite !sys_run_, <- !app_assoc. done.
Qed.

Lemma task_stop_null t shims l :
  shims !! t <> Some true -> s_task_stop t shims l = (Done shims, l).
Proof. intros E. unfold s_task_stop. by rewrite bool_decide_false. Qed.

Lemma destroy_null n t shims l :
  (forall j, (t <= j)%nat -> shims !! j <> Some true) -> destroy_loop n t shims l = (Done shims, l).
Proof.
  revert t. induction n as [|n IH]; intros t Hs; cbn [destroy_loop]; [done|].
  rewrite (sys_bind_Done _ _ _ _ _ (task_stop_null t shims l (Hs t (le_n t)))).
  apply IH. intros j Hj. apply Hs. lia.
Qed.

(** With [t] tasks stopped and [k] more running, the rest is stopped. *)
Lemma destroy_loop_log t k m l :
  destroy_loop (k + m) t (replicate t false ++ replicate k true ++ replicate m false) l =
    (Done (replicate (t + k + m) false),
     l ++ concat ((fun t => [ZactorTimeout t; ZactorSignal t SIG_STOP; ZactorDestroy t]) <$> seq t k)).
Proof.
  revert t l. induction k as [|k IH]; intros t l.
  { rewrite app_nil_r, Nat.add_0_r, replicate_add. apply destroy_null. intros j _ Hj.
    simpl in Hj. rewrite <- replicate_add in Hj. by apply lookup_replicate in Hj as [? _]. }
  cbn [Nat.add destroy_loop].
  assert (E : (replicate t false ++ replicate (S k) true ++ replicate m false) !! t = Some true)
    by (by rewrite lookup_app_r, length_replicate, Nat.sub_diag by (by rewrite length_replicate)).
  rewrite (sys_bind_Done _ _ _ _ _ (task_stop_running t _ l E)).
  rewrite insert_app_r_alt by (by rewrite length_replicate). rewrite length_replicate, Nat.sub_diag.
  cbn [replicate app insert list_insert].
  rewrite cons_middle, app_assoc, <- replicate_S_end, IH. cbn [seq fmap list_fmap concat].
  rewrite <- app_assoc. do 2 f_equal. f_equal. lia.
Qed.

Lemma tasks_destroy_log k l :
  (k <= NUM_TASKS)%nat ->
  tasks_destroy (running k) l = (Done (replicate NUM_TASKS false), l ++ stop_calls k).
Proof.
  intros Hk. unfold tasks_destroy, running.
  replace NUM_TASKS with (k + (NUM_TASKS - k))%nat at 1 3 by lia.
  exact (destroy_loop_log 0 k (NUM_TASKS - k) l).
Qed.

(** The results of the threads that [zactor_new] starts and waits for. *)
Class ZactorLaws : Prop := {
  zactor_new_ok : forall l t, sys_rc l (ZactorNew t) <> 0;
  zactor_wait_ok : forall l t, sys_rc l (ZactorWait t) = SIG_INIT \/ sys_rc l (ZactorWait t) = SIG_DIED;
}.

(** Task [t], started after [l], has sent SIG_INIT. *)
Definition initialized (l : list sys_call) (t : nat) : Prop :=
  sys_rc (l ++ start_calls t ++ [ZactorNew t]) (ZactorWait t) = SIG_INIT.

Lemma task_start_log `{!ZactorLaws} t l l0 :
  (t < NUM_TASKS)%nat -> l0 = l ++ start_calls t ->
  exists rc, s_task_start NUM_RINGS t (running t) l0
      = (Done (rc, running (S t)), l ++ start_calls (S t)) /\
    (rc = 0 /\ initialized l t \/ rc = -1).
Proof.
  intros Ht ->. unfold s_task_start. change (NUM_RINGS =? NUM_RINGS) with true.
  rewrite (sys_run_assert true) by done. rewrite sys_run. cbv zeta.
  pose proof (zactor_new_ok (l ++ start_calls t) t) as Hn.
  rewrite (proj2 (Z.eqb_neq _ _) Hn). cbn [negb]. rewrite sys_run_assert by done. rewrite sys_run.
  rewrite running_S by done. rewrite start_calls_S, <- !app_assoc. cbn [app].
  destruct (zactor_wait_ok (l ++ start_calls t ++ [ZactorNew t]) t) as [E|E]; rewrite E.
  - exists 0. split; [done|]. by left.
  - exists (-1). split; [done|]. by right.
Qed.

Lemma start_loop_log `{!ZactorLaws} n t l :
  (t + n = NUM_TASKS)%nat -> (forall j, (j < t)%nat -> initialized l j) ->
  exists rc k, start_loop NUM_RINGS n t (running t) (l ++ start_calls t)
      = (Done (rc, running k), l ++ start_calls k) /\ (k <= NUM_TASKS)%nat /\
    (rc = 0 /\ k = NUM_TASKS /\ (forall j, (j < NUM_TASKS)%nat -> initialized l j) \/ rc = -1).
Proof.
  revert t. induction n as [|n IH]; intros t Hn Hi.
  { exists 0, t. rewrite Nat.add_0_r in Hn. subst t. split; [done|]. split; [done|]. by left. }
  cbn [start_loop]. destruct (task_start_log t l _ ltac:(lia) eq_refl) as (rc & E & Hrc).
  rewrite (sys_bind_Done _ _ _ _ _ E). destruct Hrc as [[-> Ht]| ->].
  - cbn [negb Z.eqb]. apply (IH (S t)); [lia|]. intros j Hj.
    destruct (decide (j = t)) as [->|]; [done|]. apply Hi. lia.
  - exists (-1), (S t). split; [done|]. split; [lia|by right].
Qed.

Lemma read_loop_log n t l :
  exists rc cs, read_loop n t l = (Done rc, l ++ cs) /\ Forall loop_call cs /\ CloopStart ∉ cs /\
    (rc = 0 \/ rc = -1).
Proof.
  revert t l. induction n as [|n IH]; intros t l; cbn [read_loop].
  { exists 0, []. rewrite app_nil_r. split; [done|]. split; [done|]. split; [by apply not_elem_of_nil|auto]. }
  rewrite sys_run. destruct (_ =? -1).
  - exists (-1), [CloopReader t]. split; [done|]. split; [by repeat constructor|].
    split; [set_solver|auto].
  - destruct (IH (S t) (l ++ [CloopReader t])) as (rc & cs & -> & Hc & Hn & Hrc).
    exists rc, (CloopReader t :: cs). rewrite <- app_assoc. split; [done|].
    split; [by constructor|]. split; [set_solver|done].
Qed.

Lemma log_stats_final now s : exists s', s_log_stats true now s = Done s'.
Proof. unfold s_log_stats. destruct (last_update s); eexists; reflexivity. Qed.

(** Polling makes calls of the loop only; the result is -1 unless it ran. *)
Lemma poll_log evs d l r :
  coord_loop (0 <? stat_period d) evs (stats d) = Done r ->
  exists rc d' cs, poll evs d l = (Done (rc, d'), l ++ cs) /\ Forall loop_call cs /\
    (CloopStart ∈ cs \/ rc = -1).
Proof.
  intros E. unfold poll. rewrite sys_run.
  destruct (Z.eqb_spec (sys_rc l CloopPoller) (-1)) as [Ep|_].
  { eexists _, d, [CloopPoller]. rewrite Ep. split; [done|]. split; [by repeat constructor|by right]. }
  assert (Hrun : forall l, exists rc d' cs,
    (sys_ CloopStart;;
      '(rc, s) ← sys_lift (coord_loop (0 <? stat_period d) evs (stats d));
      now ← sys SysTime;
      s ← sys_lift (s_log_stats true now s);
      mret (rc, set_stats d s)) l = (Done (rc, d'), l ++ CloopStart :: cs) /\ Forall loop_call cs).
  { intros l0. rewrite E. destruct r as [rc s]. rewrite sys_run_.
    erewrite (sys_bind_Done (sys_lift _)) by reflexivity. cbv beta iota. rewrite sys_run.
    destruct (log_stats_final (sys_rc (l0 ++ [CloopStart]) SysTime) s) as [s' Es]. rewrite Es.
    erewrite (sys_bind_Done (sys_lift _)) by reflexivity.
    exists rc, (set_stats d s'), [SysTime]. rewrite <- app_assoc. split; [done|].
    by repeat constructor. }
  destruct (0 <? stat_period d).
  - unfold mbind at 1, sys_bind at 1. cbn [sys].
    destruct (Z.eqb_spec (sys_rc (l ++ [CloopPoller]) (CloopTimer (to_u64 (1000 * stat_period d)))) (-1))
      as [Et|Et]; cbn [andb].
    + eexists _, d, [CloopPoller; CloopTimer _]. rewrite Et, <- app_assoc. split; [done|].
      split; [by repeat constructor|by right].
    + destruct (Hrun ((l ++ [CloopPoller]) ++ [CloopTimer (to_u64 (1000 * stat_period d))]))
        as (rc & d' & cs & Er & Hc). rewrite Er, <- !app_assoc.
      eexists rc, d', _. split; [done|]. split; [by repeat constructor|]. left. set_solver.
  - unfold mbind at 1, sys_bind at 1. cbn [mret sys_ret andb].
    destruct (Hrun (l ++ [CloopPoller])) as (rc & d' & cs & Er & Hc). rewrite Er, <- !app_assoc.
    eexists rc, d', _. split; [done|]. split; [by repeat constructor|]. left. set_solver.
Qed.

(** Starting the tasks, and what is logged. *)
Lemma tasks_start_log `{!ZactorLaws} l :
  exists rc k cs, tasks_start NUM_RINGS true (running 0) l =
      (Done (rc, running k), l ++ start_calls k ++ cs) /\ (k <= NUM_TASKS)%nat /\
    Forall loop_call cs /\ CloopStart ∉ cs /\
    (rc = 0 /\ k = NUM_TASKS /\ (forall j, (j < NUM_TASKS)%nat -> initialized l j) \/ rc = -1).
Proof.
  unfold tasks_start.
  destruct (start_loop_log NUM_TASKS 0 l eq_refl) as (rc & k & E & Hk & Hrc); [lia|].
  replace (l ++ start_calls 0) with l in E by by rewrite app_nil_r.
  rewrite (sys_bind_Done _ _ _ _ _ E). destruct Hrc as [(-> & -> & Hi)| ->].
  - cbn [Z.eqb]. destruct (read_loop_log NUM_TASKS 0 (l ++ start_calls NUM_TASKS))
      as (rc & cs & E2 & Hc & Hn & Hrc).
    unfold tasks_read. rewrite (sys_bind_Done _ _ _ _ _ E2). exists rc, NUM_TASKS, cs.
    rewrite <- app_assoc. split; [done|]. split; [done|]. split; [done|]. split; [done|].
    destruct Hrc as [->| ->]; [by left|by right].
  - exists (-1), k, []. rewrite app_nil_r. split; [done|]. split; [done|]. split; [done|].
    split; [by apply not_elem_of_nil|by right].
Qed.

(** The first thread fails to initialize. *)
Lemma tasks_start_died `{!ZactorLaws} l :
  (forall l, sys_rc l (ZactorWait 0) = SIG_DIED) ->
  tasks_start NUM_RINGS true (running 0) l = (Done (-1, running 1), l ++ start_calls 1).
Proof.
  intros Hd. unfold tasks_start.
  assert (E : s_task_start NUM_RINGS 0 (running 0) l = (Done (-1, running 1), l ++ start_calls 1)).
  { unfold s_task_start. change (NUM_RINGS =? NUM_RINGS) with true.
    rewrite (sys_run_assert true) by done. rewrite sys_run. cbv zeta.
    rewrite (proj2 (Z.eqb_neq _ _) (zactor_new_ok l 0)). cbn [negb].
    rewrite sys_run_assert by done. rewrite sys_run, Hd. change (SIG_DIED =? SIG_DIED) with true.
    cbv iota. by rewrite running_S, <- app_assoc by (unfold NUM_TASKS; lia). }
  assert (E2 : start_loop NUM_RINGS NUM_TASKS 0 (running 0) l = (Done (-1, running 1), l ++ start_calls 1)).
  { unfold NUM_TASKS. cbn [start_loop]. by rewrite (sys_bind_Done _ _ _ _ _ E). }
  by rewrite (sys_bind_Done _ _ _ _ _ E2).
Qed.

(** Without a timer nothing is added to the totals, also not at the end. *)
Lemma untimed_totals evs s rc s' s2 now :
  last_update s = None -> coord_loop false evs s = Done (rc, s') ->
  s_log_stats true now s' = Done s2 -> total s2 = total s.
Proof.
  intros Hu E Ef. enough (Hs : last_update s' = None /\ total s' = total s).
  { unfold s_log_stats in Ef. destruct Hs as [Hu' Ht]. rewrite Hu' in Ef. by injection Ef as <-. }
  revert s Hu E. induction evs as [|ev evs IH]; intros s Hu E; simpl in E; [by injection E as <- <-|].
  destruct ev as [ifd tasks sigs|sig|t]; cbn [mbind exec_bind] in E.
  - destruct (s_new_pkts_hn _ _) as [[[rc1 sg] d]|]; [|done]. cbn [mbind exec_bind mret exec_ret] in E.
    destruct (rc1 =? -1); [by injection E as <- <-|]. by apply (IH _) in E.
  - destruct (s_die_hn sig) as [rc1|]; [|done]. cbn [mbind exec_bind mret exec_ret] in E.
    destruct (rc1 =? -1); [by injection E as <- <-|]. by apply IH.
  - by apply IH.
Qed.

(** ** Lemmas: dropping privileges *)

(** What is certain after the calls [cs] on the log [l]: the group and the user
    were set, and cannot be set back to root. *)
Record secured (uid gid : Z) (l cs : list sys_call) : Prop := {
  se_gid : gid <> 0 -> exists cs', cs = SysSetgid gid :: cs' /\ sys_rc l (SysSetgid gid) = 0;
  se_uid : uid <> 0 -> exists cs1 cs2, cs = cs1 ++ SysSetuid uid :: SysSetuid 0 :: cs2 /\
    sys_rc (l ++ cs1) (SysSetuid uid) = 0 /\
    sys_rc (l ++ cs1 ++ [SysSetuid uid]) (SysSetuid 0) = -1;
  se_gid_back : gid <> 0 ->
    (exists cs1, cs = cs1 ++ [SysGeteuid] /\ sys_rc (l ++ cs1) SysGeteuid = 0) \/
    (exists cs1, cs = cs1 ++ [SysGeteuid; SysSetgid 0] /\
       sys_rc (l ++ cs1 ++ [SysGeteuid]) (SysSetgid 0) = -1);
}.

Definition priv_call (c : sys_call) : Prop :=
  match c with SysSetgid _ | SysSetuid _ | SysGeteuid => True | _ => False end.

(** The results of [setuid] and [setgid]. *)
Class IdLaws : Prop := {
  setuid_rc : forall l uid, sys_rc l (SysSetuid uid) = 0 \/ sys_rc l (SysSetuid uid) = -1;
  setgid_rc : forall l gid, sys_rc l (SysSetgid gid) = 0 \/ sys_rc l (SysSetgid gid) = -1;
}.

(** The first step: the group. *)
Lemma drop_gid `{!IdLaws} gid l :
  exists rc cs, (if negb (gid =? 0) then sys (SysSetgid gid) else mret 0) l = (Done rc, l ++ cs) /\
    Forall priv_call cs /\ (rc = 0 /\ (gid = 0 /\ cs = [] \/ gid <> 0 /\ cs = [SysSetgid gid] /\
      sys_rc l (SysSetgid gid) = 0) \/ rc = -1).
Proof.
  destruct (Z.eqb_spec gid 0) as [->|Hg]; simpl.
  - exists 0, []. rewrite app_nil_r. split; [done|]. split; [done|]. left. auto.
  - exists (sys_rc l (SysSetgid gid)), [SysSetgid gid]. split; [done|]. split; [by repeat constructor|].
    destruct (setgid_rc l gid) as [E|E]; rewrite E; auto 6.
Qed.

(** The second: the user, and whether it comes back. *)
Lemma drop_uid `{!IdLaws} uid l :
  exists rc cs, (if negb (uid =? 0) then
      rc ← sys (SysSetuid uid);
      if rc =? 0 then back ← sys (SysSetuid 0); mret (if negb (back =? -1) then -1 else rc)
      else mret rc
    else mret 0) l = (Done rc, l ++ cs) /\ Forall priv_call cs /\
    (rc = 0 /\ (uid = 0 /\ cs = [] \/ uid <> 0 /\ cs = [SysSetuid uid; SysSetuid 0] /\
      sys_rc l (SysSetuid uid) = 0 /\ sys_rc (l ++ [SysSetuid uid]) (SysSetuid 0) = -1) \/ rc = -1).
Proof.
  destruct (Z.eqb_spec uid 0) as [->|Hu]; simpl.
  { exists 0, []. rewrite app_nil_r. split; [done|]. split; [done|]. left. auto. }
  rewrite sys_run. destruct (setuid_rc l uid) as [E|E]; rewrite E; simpl.
  - rewrite sys_run, <- app_assoc. eexists _, [SysSetuid uid; SysSetuid 0]. split; [reflexivity|].
    split; [by repeat constructor|].
    destruct (Z.eqb_spec (sys_rc (l ++ [SysSetuid uid]) (SysSetuid 0)) (-1)); simpl; auto 10.
  - exists (-1), [SysSetuid uid]. split; [done|]. split; [by repeat constructor|auto].
Qed.

Lemma drop_privileges_log `{!IdLaws} uid gid l :
  exists rc cs, drop_privileges uid gid l = (Done rc, l ++ cs) /\ Forall priv_call cs /\
    (rc = 0 /\ secured uid gid l cs \/ rc = -1).
Proof.
  unfold drop_privileges. destruct (drop_gid gid l) as (rc1 & cs1 & E1 & P1 & G1).
  rewrite (sys_bind_Done _ _ _ _ _ E1).
  destruct G1 as [[-> G1]| ->]; [|exists (-1), cs1; split; [done|auto]].
  destruct (drop_uid uid (l ++ cs1)) as (rc2 & cs2 & E2 & P2 & G2).
  rewrite (sys_bind_Done _ _ _ _ _ E2), <- app_assoc.
  assert (P12 : Forall priv_call (cs1 ++ cs2)) by by apply Forall_app.
  destruct G2 as [[-> G2]| ->]; [|exists (-1), (cs1 ++ cs2); split; [done|auto]].
  assert (Hu : forall cs3, uid <> 0 -> exists a b, (cs1 ++ cs2) ++ cs3 =
    a ++ SysSetuid uid :: SysSetuid 0 :: b /\ sys_rc (l ++ a) (SysSetuid uid) = 0 /\
    sys_rc (l ++ a ++ [SysSetuid uid]) (SysSetuid 0) = -1).
  { intros cs3 Hne. destruct G2 as [[Hz _]|(_ & -> & Hr1 & Hr2)]; [done|].
    exists cs1, cs3. rewrite <- !app_assoc. rewrite <- app_assoc in Hr2. done. }
  destruct G1 as [[-> ->]|(Hg & -> & Hr)].
  { simpl. exists 0, cs2. split; [done|]. split; [done|]. left. split; [done|].
    split; try done. intros Hne. specialize (Hu [] Hne). by rewrite app_nil_r in Hu. }
  rewrite (proj2 (Z.eqb_neq gid 0) Hg). cbn [Z.eqb negb andb]. rewrite sys_run.
  destruct (Z.eqb_spec (sys_rc (l ++ [SysSetgid gid] ++ cs2) SysGeteuid) 0) as [E0|E0]; cbn [negb].
  - exists 0, (([SysSetgid gid] ++ cs2) ++ [SysGeteuid]). rewrite <- !app_assoc. split; [done|].
    split; [apply Forall_app; split; [by repeat constructor|]; apply Forall_app; split;
      [done|by repeat constructor]|].
    left. split; [done|]. split.
    + intros _. by eexists.
    + intros Hne. specialize (Hu [SysGeteuid] Hne). by rewrite <- !app_assoc in Hu.
    + intros _. left. exists ([SysSetgid gid] ++ cs2). by rewrite <- app_assoc.
  - rewrite sys_run. eexists _, (([SysSetgid gid] ++ cs2) ++ [SysGeteuid; SysSetgid 0]).
    rewrite <- !app_assoc. split; [reflexivity|].
    split; [apply Forall_app; split; [by repeat constructor|]; apply Forall_app; split;
      [done|by repeat constructor]|].
    destruct (Z.eqb_spec (sys_rc (l ++ [SysSetgid gid] ++ cs2 ++ [SysGeteuid]) (SysSetgid 0)) (-1))
      as [E3|E3]; cbn [negb]; [left|by right].
    split; [done|]. split.
    + intros _. by eexists.
    + intros Hne. specialize (Hu [SysGeteuid; SysSetgid 0] Hne). by rewrite <- !app_assoc in Hu.
    + intros _. right. exists ([SysSetgid gid] ++ cs2). rewrite <- !app_assoc. done.
Qed.

(** Nothing before that starts the loop of the coordinator. *)
Definition not_loop (c : sys_call) : Prop := c <> CloopNew.

Lemma ioctl_adds fd req name flags : adds not_loop (ioctl fd req name flags).
Proof. by apply adds_one. Qed.
#[local] Hint Resolve ioctl_adds : adds.

Lemma prepare_if_adds full : adds not_loop (s_prepare_if full).
Proof. unfold s_prepare_if, set_flags. by adds. Qed.
#[local] Hint Resolve prepare_if_adds : adds.

Lemma s_init_adds d : adds not_loop (s_init d).
Proof. unfold s_init. apply adds_bind; [by apply adds_one|]. intros [p full]. by adds. Qed.
#[local] Hint Resolve s_init_adds : adds.

Lemma readdir_not_loop fuel dir max : adds not_loop (Daemon.readdir_loop fuel dir max).
Proof.
  induction fuel as [|fuel IH]; cbn [Daemon.readdir_loop]; [by adds|].
  apply adds_bind; [by apply adds_one|]. intros [[ent errno] name].
  repeat (case_if; [by adds|]). by adds.
Qed.

Lemma close_not_loop n : forall fd, adds not_loop (Daemon.close_loop n fd).
Proof. induction n as [|n IH]; intros fd; cbn [Daemon.close_loop]; by adds. Qed.

Lemma sig_not_loop n : forall sig, adds not_loop (Daemon.sig_loop n sig).
Proof. induction n as [|n IH]; intros sig; cbn [Daemon.sig_loop]; by adds. Qed.
#[local] Hint Resolve readdir_not_loop close_not_loop sig_not_loop : adds.

Lemma start_up_adds fuel o d : adds not_loop (start_up fuel o d).
Proof.
  unfold start_up, Daemon.daemonize, Daemon.daemon_child, Daemon.s_close_nonstd_fds,
    Daemon.s_get_max_fd, Daemon.s_close_open_fds, Daemon.s_wait_sig, Daemon.s_send_sig,
    Daemon.write_pid, Daemon.run_fn.
  by adds.
Qed.

(** The log of the rest only grows. *)
Definition any_call (c : sys_call) : Prop := True.

Lemma start_loop_grows nrings n : forall t shims, adds any_call (start_loop nrings n t shims).
Proof. induction n as [|n IH]; intros t shims; cbn [start_loop]; unfold s_task_start; by adds. Qed.

Lemma read_loop_grows n : forall t, adds any_call (read_loop n t).
Proof. induction n as [|n IH]; intros t; cbn [read_loop]; by adds. Qed.

Lemma destroy_loop_grows n : forall t shims, adds any_call (destroy_loop n t shims).
Proof. induction n as [|n IH]; intros t shims; cbn [destroy_loop]; unfold s_task_stop; by adds. Qed.
#[local] Hint Resolve start_loop_grows read_loop_grows destroy_loop_grows : adds.

Lemma serve_grows evs o d l : exists rest, (serve evs o d l).2 = l ++ rest.
Proof.
  assert (G : adds any_call (serve evs o d)).
  { unfold serve, s_coordinator_body, tasks_start, tasks_read, poll, tasks_destroy. by adds. }
  destruct (G l) as (rest & E & _). by exists rest.
Qed.

(** ** Lemmas: the interface *)

(** A log in which [name]'s flags were read with [f] among them. *)
Definition read_flag (name : bytes) (f : Z) (l : list sys_call) : Prop :=
  exists l0 fd fl, let c := SysIoctl fd SIOCGIFFLAGS name fl in
    l0 ++ [c] `prefix_of` l /\ sys_rc l0 c <> -1 /\ has_flag (load16 (sys_bytes l0 c) 0) f = true.

Lemma read_flag_app name f l cs : read_flag name f l -> read_flag name f (l ++ cs).
Proof.
  intros (l0 & fd & fl & Hp & Hr). exists l0, fd, fl. split; [|exact Hr].
  by apply prefix_app_r.
Qed.

(** The call is an [ioctl] on the given interface. *)
Definition ioctl_on (sock : Z) (name : bytes) (c : sys_call) : Prop :=
  exists req fl, c = SysIoctl sock req name fl.

Lemma ioctl_on_intro sock name req fl : ioctl_on sock name (SysIoctl sock req name fl).
Proof. by exists req, fl. Qed.

(** Flags that were read at the end of [l]. *)
Definition just_read (name : bytes) (flags : Z) (l : list sys_call) : Prop :=
  exists l0 fd fl, let c := SysIoctl fd SIOCGIFFLAGS name fl in
    l = l0 ++ [c] /\ sys_rc l0 c <> -1 /\ flags = load16 (sys_bytes l0 c) 0.

Lemma just_read_flag name flags f l :
  just_read name flags l -> has_flag flags f = true -> read_flag name f l.
Proof. intros (l0 & fd & fl & -> & Hrc & ->) Hf. by exists l0, fd, fl. Qed.

(** Given that each call is. *)
Ltac ioctls := repeat (apply Forall_cons_2; [assumption|]); (assumption || apply Forall_nil_2).

(** Setting flags that are not there: on success they were read back. *)
Lemma ensure_flag_log sock name flags new f l :
  just_read name flags l ->
  exists rc flags' cs,
    (if negb (has_flag flags f) then set_flags sock name new f else mret (0, flags)) l =
      (Done (rc, flags'), l ++ cs) /\ Forall (ioctl_on sock name) cs /\
    (rc = -1 \/ rc = 0 /\ just_read name flags' (l ++ cs) /\ has_flag flags' f = true).
Proof.
  intros Hj. destruct (has_flag flags f) eqn:Ef; cbn [negb].
  { exists 0, flags, []. rewrite app_nil_r. split; [done|]. split; [done|]. by right. }
  unfold set_flags, mbind, sys_bind, ioctl. cbv zeta.
  set (c1 := SysIoctl sock SIOCSIFFLAGS name new). set (c2 := SysIoctl sock SIOCGIFFLAGS name new).
  assert (P1 : ioctl_on sock name c1) by apply ioctl_on_intro.
  assert (P2 : ioctl_on sock name c2) by apply ioctl_on_intro.
  destruct (sys_rc l c1 =? -1); cbn [mret sys_ret].
  { exists (-1), new, [c1]. split; [done|]. split; [by ioctls|by left]. }
  destruct (Z.eqb_spec (sys_rc (l ++ [c1]) c2) (-1)) as [E2|E2]; cbn [mret sys_ret].
  { eexists (-1), _, [c1; c2]. rewrite <- app_assoc. split; [done|].
    split; [by ioctls|by left]. }
  destruct (has_flag (load16 (sys_bytes (l ++ [c1]) c2) 0) f) eqn:E3; cbn [negb mret sys_ret].
  - eexists 0, _, [c1; c2]. rewrite <- app_assoc. split; [done|]. split; [by ioctls|].
    right. split; [done|]. split; [|exact E3]. exists (l ++ [c1]), sock, new.
    split; [by rewrite <- app_assoc|done].
  - eexists (-1), _, [c1; c2]. rewrite <- app_assoc. split; [done|].
    split; [by ioctls|by left].
Qed.

(** The calls made for an interface with a well-formed name. *)
Lemma prepare_if_log full name l :
  take 4 full <> lit "vale" -> phys_name full = Done (Some name) ->
  exists rc cs, s_prepare_if full l = (Done rc, l ++ SysSocket :: cs) /\
    Forall (ioctl_on (sys_rc l SysSocket) name) cs /\
    (rc = -1 \/ rc = 0 /\ read_flag name IFF_UP (l ++ SysSocket :: cs) /\
       exists flags, just_read name flags (l ++ SysSocket :: cs) /\ has_flag flags IFF_PROMISC = true).
Proof.
  intros Hv Hn. unfold s_prepare_if. rewrite bool_decide_false, Hn by done.
  erewrite (sys_bind_Done (sys_lift _)) by reflexivity. cbv beta iota. rewrite sys_run.
  set (sock := sys_rc l SysSocket).
  destruct (sock =? -1); [exists (-1), []; split; [done|]; split; [done|by left]|].
  unfold mbind at 1, sys_bind at 1, ioctl at 1. cbv zeta beta iota.
  set (c1 := SysIoctl sock SIOCGIFINDEX name 0).
  assert (P1 : ioctl_on sock name c1) by apply ioctl_on_intro.
  destruct (_ =? -1).
  { exists (-1), [c1]. rewrite <- app_assoc. split; [done|]. split; [by ioctls|by left]. }
  unfold mbind at 1, sys_bind at 1, ioctl at 1. cbv zeta beta iota.
  set (c2 := SysIoctl sock SIOCGIFFLAGS name 0).
  assert (P2 : ioctl_on sock name c2) by apply ioctl_on_intro.
  set (l1 := (l ++ [SysSocket]) ++ [c1]).
  destruct (Z.eqb_spec (sys_rc l1 c2) (-1)) as [E2|E2].
  { exists (-1), [c1; c2]. unfold l1. rewrite <- !app_assoc. split; [done|].
    split; [by ioctls|by left]. }
  assert (Hj : just_read name (load16 (sys_bytes l1 c2) 0) (l1 ++ [c2])) by by exists l1, sock, 0.
  destruct (ensure_flag_log sock name _ IFF_UP IFF_UP _ Hj) as (rc & flags & cs & E & P3 & Hrc).
  rewrite (sys_bind_Done _ _ _ _ _ E). cbv beta iota.
  destruct Hrc as [->|(-> & Hj2 & Hup)].
  { exists (-1), ([c1; c2] ++ cs). unfold l1. rewrite <- !app_assoc. split; [done|].
    split; [by ioctls|by left]. }
  change (0 =? -1) with false. cbv iota.
  destruct (ensure_flag_log sock name flags (Z.lor flags IFF_PROMISC) IFF_PROMISC _ Hj2)
    as (rc & flags2 & cs2 & E' & P4 & Hrc).
  rewrite (sys_bind_Done _ _ _ _ _ E'). cbv beta iota. exists rc, ([c1; c2] ++ cs ++ cs2).
  assert (El : ((l1 ++ [c2]) ++ cs) ++ cs2 = l ++ SysSocket :: [c1; c2] ++ cs ++ cs2)
    by (unfold l1; by rewrite <- !app_assoc).
  rewrite El in Hrc |- *. split; [done|].
  split; [do 2 (apply Forall_cons_2; [done|]); by apply Forall_app|].
  destruct Hrc as [->|(-> & Hj3 & Hpr)]; [by left|right]. split; [done|].
  split; [|by exists flags2]. rewrite <- El. by eapply read_flag_app, just_read_flag.
Qed.

(** ** Lemmas: the name of the interface *)

Lemma find_end_app s c rest :
  Forall (fun b => is_suffix b = false) s -> is_suffix c = true ->
  find_end (s ++ c :: rest) = length s.
Proof. intros Hs Hc. induction Hs as [|b s Hb _ IH]; simpl; [by rewrite Hc|]. by rewrite Hb, IH. Qed.

Lemma find_end_all s : Forall (fun b => is_suffix b = false) s -> find_end s = length s.
Proof. intros Hs. induction Hs as [|b s Hb _ IH]; simpl; [done|]. by rewrite Hb, IH. Qed.

Lemma strchr_none s c : c ∉ s -> strchr s c = None.
Proof.
  induction s as [|b s IH]; intros Hc; simpl; [done|].
  rewrite decide_False by set_solver. by rewrite IH by set_solver.
Qed.

(** The physical name is what stands between the prefix and the first suffix,
    if it fits the array. *)
Lemma phys_name_spec pre name rest :
  Forall (fun b => is_suffix b = false) (pre ++ name) -> x3a ∉ pre ->
  (pre = [] -> x3a ∉ name ++ rest) ->
  (rest = [] \/ exists c rest', rest = c :: rest' /\ is_suffix c = true) ->
  name <> [] -> (length name < Z.to_nat IFNAMSIZ)%nat ->
  phys_name ((match pre with [] => [] | _ => pre ++ [x3a] end) ++ name ++ rest) = Done (Some name).
Proof.
  intros Hs Hp Hn Hr Hne Hl. apply Forall_app in Hs as [Hs1 Hs2].
  set (P := match pre with [] => [] | _ => pre ++ [x3a] end).
  assert (Hstart : (match strchr (P ++ name ++ rest) x3a with None => 0%nat | Some i => S i end)
    = length P).
  { unfold P. destruct pre as [|b pre]; [by rewrite strchr_none by auto|].
    rewrite <- app_assoc. change ([x3a] ++ ?x) with (x3a :: x). rewrite Path.strchr_app by done.
    rewrite length_app. simpl. lia. }
  assert (HP : Forall (fun b => is_suffix b = false) (P ++ name)).
  { apply Forall_app. split; [|done]. unfold P. destruct pre; [constructor|].
    apply Forall_app. split; [done|]. by repeat constructor. }
  assert (Hend : find_end (P ++ name ++ rest) = (length P + length name)%nat).
  { rewrite app_assoc, <- length_app. destruct Hr as [->|(c & rest' & -> & Hc)].
    - rewrite app_nil_r. by apply find_end_all.
    - by apply find_end_app. }
  assert (0 < length name)%nat by (destruct name; [done|simpl; lia]).
  unfold phys_name. rewrite Hstart, Hend, (proj2 (Nat.leb_gt _ _)) by lia.
  replace (length P + length name - length P)%nat with (length name) by lia.
  rewrite (proj2 (Nat.ltb_ge _ _)) by lia. unfold snprintf. cbn [snd]. rewrite drop_app_length.
  replace (Z.to_nat (Z.of_nat (length name + 1) - 1)) with (length name) by lia.
  rewrite take_app_length. cbv zeta. unfold strlen. rewrite Z.eqb_refl. done.
Qed.
End Laws.
End Server.

(** ** A sample host *)

(** Every call of the coordinator works. *)
Definition sample_server : SysEnv := {|
  sys_rc := fun _ c => match c with
    | ZactorNew _ | CloopTimer _ | NmOpen _ | SysSocket => 5
    | SysSetuid 0 | SysSetgid 0 => -1
    | SysGeteuid => 1000
    | _ => 0 end;
  sys_errno := fun _ _ => 0;
  sys_path := fun _ _ => None;
  sys_bytes := fun _ c => match c with
    | NmOpen _ => lit "eth0"
    | SysIoctl _ _ _ _ => [x01; x01]
    | _ => [] end;
  sys_pipe := fun _ => (3, 4) |}.
#[export] Instance sample_nm : Server.NmEnv := fun _ => Recorder.ifd.

#[local] Existing Instance sample_server.

Lemma sample_zactor : Server.ZactorLaws.
Proof. split; [intros l t; discriminate|intros l t; by left]. Qed.

(** ** Properties *)

(** C14: on every path the coordinator leaves nothing behind.  If each thread
    answers with SIG_INIT or SIG_DIED, then whatever fails, the body ends with
    every thread that was started told to stop and destroyed, once and in order,
    and only then its loop; no task keeps a thread.  It polls only when all five
    tasks have sent SIG_INIT, and returns -1 if it did not poll. *)
Theorem coordinator_cleans_up `{SysEnv} `{Server.NmEnv} `{!Server.ZactorLaws}
    (evs : list Server.coord_event) (d : Server.data_t) l r :
  tes_if_rxrings (Server.nm_ifd (Server.ifname_req d)) = NUM_RINGS ->
  Server.coord_loop (0 <? Server.stat_period d) evs (Server.stats d) = Done r ->
  exists rc d' k mid,
    Server.s_coordinator_body evs d (replicate NUM_TASKS false) l =
      (Done (rc, d', replicate NUM_TASKS false),
       l ++ CloopNew :: Server.start_calls k ++ mid ++ Server.stop_calls k ++ [CloopDestroy]) /\
    (k <= NUM_TASKS)%nat /\ Forall Server.loop_call mid /\
    (CloopStart ∈ mid -> k = NUM_TASKS /\
       forall t, (t < NUM_TASKS)%nat -> Server.initialized (l ++ [CloopNew]) t) /\
    (CloopStart ∈ mid \/ rc = -1).
Proof.
  intros Hr Hl. unfold Server.s_coordinator_body. rewrite sys_run_, Hr.
  destruct (Server.tasks_start_log (l ++ [CloopNew])) as (rc & k & cs & E & Hk & Hc & Hn & Hrc).
  change (Server.running 0) with (replicate NUM_TASKS false) in E.
  rewrite (sys_bind_Done _ _ _ _ _ E). cbv beta iota.
  assert (Hpoll : exists rc' d' cs', (if rc =? -1 then mret (rc, d) else Server.poll evs d)
      ((l ++ [CloopNew]) ++ Server.start_calls k ++ cs) =
      (Done (rc', d'), (l ++ [CloopNew]) ++ Server.start_calls k ++ cs ++ cs') /\
      Forall Server.loop_call cs' /\
      (CloopStart ∈ cs' -> rc = 0) /\ (CloopStart ∈ cs' \/ rc' = -1)).
  { destruct Hrc as [(-> & _)| ->].
    - change (0 =? -1) with false. cbv iota.
      destruct (Server.poll_log evs d ((l ++ [CloopNew]) ++ Server.start_calls k ++ cs) r Hl)
        as (rc' & d' & cs' & -> & Hc' & Hs). exists rc', d', cs'. rewrite <- !app_assoc. done.
    - exists (-1), d, []. rewrite app_nil_r. split; [done|]. split; [done|].
      split; [by intros ?%elem_of_nil|by right]. }
  destruct Hpoll as (rc' & d' & cs' & E2 & Hc' & Hs & Hrc'). rewrite (sys_bind_Done _ _ _ _ _ E2).
  cbv beta iota. rewrite (sys_bind_Done _ _ _ _ _ (Server.tasks_destroy_log k _ Hk)), sys_run_.
  exists rc', d', k, (cs ++ cs'). split; [|split; [done|split; [by apply Forall_app|split]]].
  - by rewrite <- !app_assoc.
  - intros [Hi|Hi]%elem_of_app; [done|]. destruct Hrc as [(_ & Hk5 & Hini)|Hz]; [done|].
    specialize (Hs Hi). congruence.
  - destruct Hrc' as [Hi| ->]; [left; apply elem_of_app; by right|by right].
Qed.

Lemma coordinator_cleans_up_witness :
  exists d' mid,
    Server.s_coordinator_body [] (Server.zero_data TES_IFNAME) (replicate NUM_TASKS false) [] =
      (Done (0, d', replicate NUM_TASKS false),
       CloopNew :: Server.start_calls 5 ++ mid ++ Server.stop_calls 5 ++ [CloopDestroy]) /\
    CloopStart ∈ mid.
Proof.
  pose proof sample_zactor as Hz. set (d := Server.zero_data TES_IFNAME).
  destruct (coordinator_cleans_up [] d [] (0, Server.stats d))
    as (rc & d' & k & mid & E & _ & _ & Hs & Hr); [reflexivity|reflexivity|].
  assert (Erc : match (Server.s_coordinator_body [] d (replicate NUM_TASKS false) []).1 with
    | Done (rc, _, _) => rc = 0 | Failed _ => False end) by reflexivity.
  rewrite E in Erc. simpl in Erc. subst rc. destruct Hr as [Hr|]; [|discriminate].
  destruct (Hs Hr) as [-> _]. exists d', mid. split; [exact E|exact Hr].
Defined.

(** C15: the coordinator runs only with the privileges that were asked for.  If
    the server starts its loop at all, then it first set the group and the user
    that the options name, if they are not root, and made sure that it can become
    neither again (for the group unless it stays root); otherwise it exits. *)
Theorem privileges_dropped `{SysEnv} `{Server.NmEnv} `{!Server.IdLaws} fuel args evs :
  CloopNew ∈ (Server.main fuel args evs []).2 ->
  exists o l cs rest, Server.parse_options args = Done o /\
    (Server.main fuel args evs []).2 = l ++ cs ++ rest /\ CloopNew ∉ l ++ cs /\
    Server.secured (Server.run_as_uid o) (Server.run_as_gid o) l cs.
Proof.
  unfold Server.main, mbind, sys_bind. cbn [sys_lift]. rewrite self_test_passes.
  destruct (Server.parse_options args) as [o|f]; [|by intros ?%elem_of_nil].
  destruct (Server.start_up_adds fuel o (Server.zero_data (Server.o_ifname o)) []) as (l & El & Hl).
  simpl in El. destruct (Server.start_up _ _ _ _) as [[d|f] l1]; simpl in El; subst l1;
    [|intros Hi; by destruct (proj1 (Forall_forall _ _) Hl _ Hi)].
  destruct (Server.drop_privileges_log (Server.run_as_uid o) (Server.run_as_gid o) l)
    as (rc & cs & -> & Hp & Hrc).
  assert (Hn : CloopNew ∉ l ++ cs).
  { intros [Hi|Hi]%elem_of_app; [by destruct (proj1 (Forall_forall _ _) Hl _ Hi)|].
    by destruct (proj1 (Forall_forall _ _) Hp _ Hi). }
  destruct Hrc as [[-> Hs]| ->].
  - intros _. exists o, l, cs. change (0 =? -1) with false. cbv iota.
    destruct (Server.serve_grows evs o d (l ++ cs)) as (rest & ->). exists rest.
    rewrite <- app_assoc. done.
  - simpl. intros [Hi|Hi]%elem_of_app; [done|]. by apply list_elem_of_singleton in Hi.
Qed.

(** In the foreground, as user and group 1000. *)
Definition sample_args : list (byte * bytes) := [(x66, []); (x75, lit "1000"); (x67, lit "1000")].

Lemma sample_ids : Server.IdLaws.
Proof. split; intros l [|n|n]; auto. Qed.

Lemma privileges_dropped_witness :
  exists o l cs rest, Server.parse_options sample_args = Done o /\ Server.run_as_uid o = 1000 /\
    (Server.main 1 sample_args [] []).2 = l ++ cs ++ rest /\ CloopNew ∉ l ++ cs /\
    Server.secured 1000 1000 l cs.
Proof.
  pose proof sample_ids as Hi.
  destruct (privileges_dropped 1 sample_args []) as (o & l & cs & rest & E & H1 & H2 & H3).
  { apply (list_elem_of_lookup_2 _ 11). vm_compute. reflexivity. }
  assert (Eo : Server.parse_options sample_args = Done o) by exact E.
  vm_compute in E. injection E as <-.
  eexists _, l, cs, rest. split; [exact Eo|]. split; [reflexivity|]. split; [exact H1|].
  split; [exact H2|exact H3].
Defined.

(** A number that does not fit 32 bits is cut: the server keeps root. *)
Example uid_truncated :
  match Server.parse_options [(x75, lit "4294967296")] with
  | Done o => Server.run_as_uid o = 0
  | Failed _ => False
  end.
Proof. vm_compute. reflexivity. Qed.

(** Preparing an interface that is called <prefix>:<name><suffix>, or
    without prefix or suffix, acts on <name> only: every call after the socket is
    an ioctl on it.  It succeeds only if the interface's flags were read with
    IFF_UP among them, and, read last, with IFF_PROMISC. *)
Theorem interface_prepared `{SysEnv} pre name rest l :
  Forall (fun b => Server.is_suffix b = false) (pre ++ name) -> x3a ∉ pre ->
  (pre = [] -> x3a ∉ name ++ rest) ->
  (rest = [] \/ exists c rest', rest = c :: rest' /\ Server.is_suffix c = true) ->
  name <> [] -> (length name < Z.to_nat IFNAMSIZ)%nat ->
  let full := (match pre with [] => [] | _ => pre ++ [x3a] end) ++ name ++ rest in
  take 4 full <> lit "vale" ->
  exists rc cs, Server.s_prepare_if full l = (Done rc, l ++ SysSocket :: cs) /\
    Forall (Server.ioctl_on (sys_rc l SysSocket) name) cs /\
    (rc = -1 \/ rc = 0 /\ Server.read_flag name IFF_UP (l ++ SysSocket :: cs) /\
       exists flags, Server.just_read name flags (l ++ SysSocket :: cs) /\
         Server.has_flag flags IFF_PROMISC = true).
Proof. intros. apply Server.prepare_if_log; [done|]. by apply Server.phys_name_spec. Qed.

Lemma interface_prepared_witness :
  exists cs, Server.s_prepare_if (lit "netmap:eth0-1") [] = (Done 0, SysSocket :: cs) /\
    Forall (Server.ioctl_on 5 (lit "eth0")) cs.
Proof.
  destruct (interface_prepared (lit "netmap") (lit "eth0") (lit "-1") []) as (rc & cs & E & Hc & _).
  - by repeat constructor.
  - by apply (bool_decide_unpack _).
  - done.
  - right. by exists x2d, (lit "1").
  - done.
  - vm_compute. lia.
  - done.
  - exists cs. split; [|exact Hc]. change (Server.s_prepare_if (lit "netmap:eth0-1") [] = (Done rc, SysSocket :: cs)) in E.
    assert (Erc : (Server.s_prepare_if (lit "netmap:eth0-1") []).1 = Done 0) by reflexivity.
    rewrite E in Erc. by injection Erc as ->.
Defined.

(** The exit status does not tell that the server could not run.  If the
    first task fails to start, the coordinator shuts down without having polled,
    but its result is overwritten by that of closing the interface, and the
    process exits with success. *)
Theorem start_failure_exits_success `{SysEnv} `{Server.NmEnv} `{!Server.ZactorLaws} evs o d l :
  tes_if_rxrings (Server.nm_ifd (Server.ifname_req d)) = NUM_RINGS -> Server.is_open d = true ->
  (forall l, sys_rc l (ZactorWait 0) = SIG_DIED) -> (forall l, sys_rc l NmClose = 0) ->
  Server.serve evs o d l =
    (Failed (Exited EXIT_SUCCESS),
     l ++ [SysSetaffinity 0; SysSigmask; CloopNew] ++ Server.start_calls 1 ++ Server.stop_calls 1 ++
       [CloopDestroy; NmClose]).
Proof.
  intros Hr Ho Hd Hc. unfold Server.serve. rewrite !sys_run_.
  erewrite (sys_bind_Done (Server.s_coordinator_body _ _ _)).
  2: { unfold Server.s_coordinator_body. rewrite sys_run_. cbn [Server.set_period Server.ifname_req].
    rewrite Hr. change (replicate NUM_TASKS false) with (Server.running 0).
    rewrite (sys_bind_Done _ _ _ _ _ (Server.tasks_start_died _ Hd)). cbv beta iota.
    change (-1 =? -1) with true. cbv iota. erewrite (sys_bind_Done (mret _)) by reflexivity.
    cbv beta iota. rewrite (sys_bind_Done _ _ _ _ _ (Server.tasks_destroy_log 1 _ ltac:(unfold NUM_TASKS; lia))).
    rewrite sys_run_. reflexivity. }
  cbv beta iota. rewrite sys_run_assert by exact Ho. rewrite sys_run, Hc. unfold sys_exit, sys_fail.
  change (c_true 0) with false. cbv iota. f_equal. rewrite <- !app_assoc. reflexivity.
Qed.

(** A host on which the first task's port is in use. *)
Definition sample_busy : SysEnv := {|
  sys_rc := fun l c => match c with ZactorWait 0 => SIG_DIED | _ => sys_rc (SysEnv := sample_server) l c end;
  sys_errno := fun _ _ => 0; sys_path := fun _ _ => None; sys_bytes := fun _ _ => [];
  sys_pipe := fun _ => (3, 4) |}.

Lemma sample_busy_zactor : Server.ZactorLaws (H := sample_busy).
Proof. split; [intros l t; discriminate|intros l [|t]; [by right|by left]]. Qed.

Lemma start_failure_exits_success_witness :
  exists o, Server.parse_options sample_args = Done o /\
    (Server.serve (H := sample_busy) [] o (Server.set_open (Server.zero_data TES_IFNAME)) []).1
      = Failed (Exited EXIT_SUCCESS).
Proof.
  pose proof sample_busy_zactor as Hz.
  destruct (Server.parse_options sample_args) as [o|f] eqn:E; [|discriminate E].
  exists o. split; [reflexivity|].
  rewrite (start_failure_exits_success (H := sample_busy)); reflexivity.
Defined.
