(* ===== verification/Client.v ===== *)
(** * The client (src/bin/tesc.c)

    Module Client: the six commands and [main], with the requests they send, the
    replies they print, and the local files they write.  What arrives from the
    server is outside: a reply is a function of the log (class [ClientEnv]), the
    histograms that a subscription gets and the lines on the standard input are
    lists.  [replay] gives the contents of a file after the calls of a log.  The
    line that is printed for debugging before an [assert (0)] is left out. *)

From Stdlib Require Import ZArith Lia Strings.String Strings.Byte.
From stdpp Require Import base option list numbers decidable.
From S2P Require Import Prelude Sys Path Cmdline Daemon Hdf5 Tespkt Tesif Task TaskTheory TaskInfo.
From S2P Require Import TaskHist TaskAvgtr TaskJitter Coordinator Capture TaskLife TaskList.

Open Scope Z_scope.

(** A reply with picture "1" and "8"s, None if it was not received: the first
    number and the others by position; one with picture "1b". *)
Class ClientEnv : Type := {
  recv_nums : list sys_call -> option (Z * (nat -> Z));
  recv_chunk : list sys_call -> option (Z * bytes);
}.

Module Client.

Definition TES_INFO_REQ_PIC : string := "4".
Definition TES_CAP_REQ_PIC : string := "ss88111".
Definition TES_AVGTR_REQ_PIC : string := "4".
Definition TES_JITTER_REQ_PIC : string := "18".
Definition DEFAULT_SERVER : bytes := lit "tcp://localhost".

Definition OPTS_G : bytes := lit "Z:F:".
Definition OPTS_S_INFO : bytes := lit "w:".
Definition OPTS_J_CONF : bytes := lit "t:R:".
Definition OPTS_R_ALL : bytes := lit "m:w:t:e:rocCa".
Definition OPTS_L_TRACE : bytes := lit "w:".
Definition OPTS_L_HIST : bytes := lit "n:".

Definition nl : bytes := [x0a].

Definition ANSI_FG_RED : bytes := x1b :: lit "[31m".
Definition ANSI_FG_GREEN : bytes := x1b :: lit "[32m".
Definition ANSI_FG_CYAN : bytes := x1b :: lit "[36m".
Definition ANSI_RESET : bytes := x1b :: lit "[0m".
Definition ANSI_BOLD : bytes := x1b :: lit "[1m".

(** The text of [s_usage]. *)
Definition usage (prog : bytes) : bytes := concat [
   ANSI_BOLD; lit "Usage: "; ANSI_RESET; prog; lit " "; ANSI_FG_CYAN; lit "-Z <server>";
   ANSI_FG_GREEN; lit "<command> "; ANSI_FG_RED; lit "[<command options>]"; ANSI_RESET; nl; nl;
   lit "The format for <server> is <proto>://<host>[:<port>]. Default is tcp://localhost."; nl;
   lit "Port defaults to the default port for the selected task."; nl;
   lit "Allowed commands:"; nl; nl;
   ANSI_FG_GREEN; lit "server_info"; ANSI_RESET; lit ": Gets packet rate statistics."; nl;
   ANSI_BOLD; lit "  Options:"; nl; ANSI_RESET;
   ANSI_FG_RED; lit "    -w <seconds>       "; ANSI_RESET; lit "Number of seconds to accumulate for."; nl;
   lit "                                     Default is 1."; nl; nl;
   ANSI_FG_GREEN; lit "jitter_conf"; ANSI_RESET; lit ": Configure or query jitter histogram configuration."; nl;
   ANSI_BOLD; lit "  Options:"; nl; ANSI_RESET;
   ANSI_FG_RED; lit "    -t <ticks>         "; ANSI_RESET; lit "Number of ticks to accumulate for."; nl;
   lit "                                     Default is 0 (query setting)."; nl; nl;
   ANSI_FG_RED; lit "    -R <channel>       "; ANSI_RESET; lit "Event channel to trigger on."; nl;
   lit "                                     Default is 0."; nl; nl;
   ANSI_FG_GREEN; lit "remote_all"; ANSI_RESET; lit ": Save frames to a remote file."; nl;
   ANSI_BOLD; lit "  Options:"; nl; ANSI_RESET;
   ANSI_FG_RED; lit "    -F <filename>      "; ANSI_RESET; lit "Remote filename."; nl;
   ANSI_FG_RED; lit "    -m <measurement>   "; ANSI_RESET; lit "Measurement name. Default is empty."; nl;
   ANSI_FG_RED; lit "    -t <ticks>         "; ANSI_RESET; lit "Save at least that many ticks."; nl;
   lit "                       Default is 0."; nl;
   ANSI_FG_RED; lit "    -e <evens>         "; ANSI_RESET; lit "Save at least that many non-tick"; nl;
   lit "                       events. Default is 0."; nl;
   ANSI_FG_RED; lit "    -r                 "; ANSI_RESET; lit "Rename any existing measurement"; nl;
   lit "                       group of that name."; nl;
   ANSI_FG_RED; lit "    -o                 "; ANSI_RESET; lit "Overwrite entire hdf5 file."; nl;
   ANSI_FG_RED; lit "    -c                 "; ANSI_RESET; lit "Capture only, no conversion."; nl;
   ANSI_FG_RED; lit "    -C                 "; ANSI_RESET; lit "Convert only, no capture."; nl;
   ANSI_FG_RED; lit "    -a                 "; ANSI_RESET; lit "Asynchronous hdf5 conversion."; nl;
   lit "Only one of -o and -r can be given."; nl;
   lit "For status requests (-s) only measurement (-m) can be specified."; nl; nl;
   ANSI_FG_GREEN; lit "local_trace"; ANSI_RESET; lit ": Save average traces to a local file."; nl;
   ANSI_BOLD; lit "  Options:"; nl; ANSI_RESET;
   ANSI_FG_RED; lit "    -F <filename>      "; ANSI_RESET; lit "Local filename."; nl;
   ANSI_FG_RED; lit "    -w <timeout>       "; ANSI_RESET; lit "Timeout in seconds. Sent to the server, will"; nl;
   lit "                       receive a timeout error if no trace arrives"; nl;
   lit "                       in this period. Default is 5."; nl; nl;
   ANSI_FG_GREEN; lit "local_mca | local_jitter"; ANSI_RESET; lit ": Save histograms to a local file."; nl;
   ANSI_BOLD; lit "  Options:"; nl; ANSI_RESET;
   ANSI_FG_RED; lit "    -F <filename>      "; ANSI_RESET; lit "Local filename."; nl;
   ANSI_FG_RED; lit "    -n <count>         "; ANSI_RESET; lit "Save up to that many histograms."; nl;
   lit "                       Default is 1."; nl].

Section Client.
Context `{SysEnv} `{ClientEnv}.

(** [prog] is the array [s_prog_name]. *)
Definition s_usage (prog : bytes) : sysM unit :=
  prog ← sys_lift (c_str PATH_MAX prog);
  sys_ (CliPuts (usage prog)).

(** The messages that end with a hint. *)
Definition hint (prog msg : bytes) : sysM unit :=
  prog ← sys_lift (c_str PATH_MAX prog);
  sys_ (CliEputs (msg ++ nl ++ lit "Type " ++ prog ++ lit " -h for help" ++ nl)).
Definition s_conflicting_opt (prog : bytes) : sysM unit := hint prog (lit "Conflicting options.").
Definition s_invalid_arg (prog : bytes) (opt : byte) : sysM unit :=
  hint prog (lit "Invalid format for option " ++ opt :: lit ".").
Definition s_missing_arg (prog : bytes) (opt : byte) : sysM unit :=
  hint prog (lit "Option " ++ opt :: lit " requires an argument.").
Definition s_invalid_opt (prog : bytes) (opt : byte) : sysM unit :=
  hint prog (lit "Unknown option " ++ opt :: lit ".").

(** The loop of [s_prompt]; a line of two bytes is a character and the newline. *)
Fixpoint prompt_loop (stdin : list bytes) : sysM Z :=
  match stdin with
  | [] => sys_ (CliGetline None);; mret (-1)
  | line :: stdin =>
      sys_ (CliGetline (Some line));;
      match line with
      | [rep; _] =>
          if bool_decide (rep = x6e) || bool_decide (rep = x4e) then mret (-1)
          else if bool_decide (rep = x79) || bool_decide (rep = x59) then mret 0
          else sys_ (CliPuts (lit "Reply with 'y' or 'n': "));; prompt_loop stdin
      | _ => sys_ (CliPuts (lit "Reply with 'y' or 'n': "));; prompt_loop stdin
      end
  end.
Definition s_prompt (stdin : list bytes) : sysM Z :=
  sys_ (CliPuts (nl ++ lit "Proceed (y/n)? "));; prompt_loop stdin.

(** The options of a command: its own, and the ones that [main] has read.  The
    variables it sets are of type [A]. *)
Section Options.
Context {A : Type} (prog : bytes) (optstring : bytes) (skipped : bytes)
  (set : byte -> bytes -> A -> sysM (option A)).

Definition cmd_opt (r : opt_result) (a : A) : sysM (option A) :=
  match r with
  | OptEnd => mret (Some a)
  | OptFound c arg => if bool_decide (c ∈ skipped) then mret (Some a) else set c arg a
  | OptUnknown c => s_invalid_opt prog c;; mret None
  | OptMissing _ => sys_assert false;; mret None
  end.

Definition cmd_options (argv : list bytes) (a : A) : sysM (option A) :=
  opt_loop argv (OPTS_G ++ optstring) (fun _ a => mret (Some a)) cmd_opt
    (opts_left argv getopt_start) getopt_start a.
End Options.

(** An option whose argument is to be a number. *)
Definition number {A} (prog : bytes) (opt : byte) (arg : bytes) (set : Z -> A) : sysM (option A) :=
  let '(n, buf) := strtoul arg in
  if c_true (strlen buf) then s_invalid_arg prog opt;; mret None
  else mret (Some (set n)).

(** [zsock_new_req] or [zsock_new_sub], and what is printed if it fails. *)
Definition connect (call : sys_call) : sysM bool :=
  '(sock, errno) ← sys_e call;
  if sock =? 0 then
    (if c_true errno then sys_ (CliPerror (lit "Could not connect to the server"))
     else sys_ (CliEputs (lit "Could not connect to the server" ++ nl)));;
    mret false
  else mret true.

(** The file and its size, None after an error. *)
Definition open_append (filename : bytes) : sysM (option (Z * Z)) :=
  fd ← sys (CliOpen filename);
  if fd =? -1 then
    sys_ (CliPerror (lit "Could not open the file"));;
    sys_ CliSockDestroy;;
    mret None
  else
    fsize ← sys (SysLseekEnd fd);
    if fsize =? -1 then
      sys_ (CliPerror (lit "Could not seek to end of file"));;
      sys_ (SysClose fd);;
      sys_ CliSockDestroy;;
      mret None
    else
      (if 0 <? fsize then sys_ (CliPuts (lit "Appending to file of size " ++ dec fsize ++ nl))
       else mret tt);;
      mret (Some (fd, fsize)).

(** ** server_info *)

Definition info_set (prog : bytes) (opt : byte) (arg : bytes) (timeout : Z) : sysM (option Z) :=
  match opt with
  | x77 (* w *) => number prog opt arg to_u32
  | _ => sys_assert false;; mret None
  end.

Definition info_counts (n : nat -> Z) : bytes := concat [
  lit "processed packets: "; dec (n 0%nat); nl;
  lit "missed packets:    "; dec (n 1%nat); nl;
  lit "bad packets:       "; dec (n 2%nat); nl;
  lit "ticks:             "; dec (n 3%nat); nl;
  lit "mcas:              "; dec (n 4%nat); nl;
  lit "traces:            "; dec (n 5%nat); nl;
  lit "other events:      "; dec (n 6%nat); nl].

Definition print_info (rep : Z) (n : nat -> Z) : sysM unit :=
  sys_ (CliPuts nl);;
  if rep =? TES_INFO_REQ_EINV then sys_ (CliPuts (lit "Request was not understood" ++ nl))
  else if rep =? TES_INFO_REQ_OK then sys_ (CliPuts (info_counts n))
  else sys_assert false.

(** Sending the request and waiting for a reply. *)
Definition request (reqpic : string) (args : list zarg) (reppic : string) : sysM (option (Z * (nat -> Z))) :=
  sys_ (ZsockRequest reqpic args);;
  sys_ (CliPuts (lit "Waiting for reply" ++ nl));;
  rep ← (fun l => (Done (recv_nums l), l ++ [ZsockReply reppic]));
  sys_ CliSockDestroy;;
  mret rep.

Definition s_server_info (prog server filename : bytes) (argv : list bytes) : sysM Z :=
  o ← cmd_options prog OPTS_S_INFO (lit "Z") (info_set prog) argv 1;
  match o with
  | None => mret (-1)
  | Some timeout =>
      sock ← connect (ZsockNewReq server);
      if negb sock then mret (-1)
      else
        rep ← request TES_INFO_REQ_PIC [ZNum timeout] TES_INFO_REP_PIC;
        match rep with
        | None => mret (-1)
        | Some (rep, n) => print_info rep n;; mret 0
        end
  end.

(** ** jitter_conf *)

Record jitter_opts : Type := { ref_ch : Z; ticks : Z }.

Definition jitter_set (prog : bytes) (opt : byte) (arg : bytes) (o : jitter_opts)
    : sysM (option jitter_opts) :=
  match opt with
  | x74 (* t *) => number prog opt arg (fun n => {| ref_ch := ref_ch o; ticks := n |})
  | x52 (* R *) => number prog opt arg (fun n => {| ref_ch := to_u8 n; ticks := ticks o |})
  | _ => sys_assert false;; mret None
  end.

(** The user is asked before a change. *)
Definition jitter_prompt (stdin : list bytes) (o : jitter_opts) : sysM Z :=
  if 0 <? ticks o then
    sys_ (CliPuts (concat [
      lit "Configuring jitter to accumulate over "; dec (ticks o); lit " ticks";
      lit "and trigger on channel "; dec (ref_ch o); nl]));;
    s_prompt stdin
  else mret 0.

Definition conf_text (ref_ch ticks : Z) : bytes :=
  concat [lit "Set values are: ticks = "; dec ticks; lit ", ref channel = "; dec ref_ch; nl].

Definition s_jitter_conf (stdin : list bytes) (prog server filename : bytes) (argv : list bytes)
    : sysM Z :=
  o ← cmd_options prog OPTS_J_CONF (lit "Z") (jitter_set prog) argv {| ref_ch := 0; ticks := 0 |};
  match o with
  | None => mret (-1)
  | Some o =>
      no ← jitter_prompt stdin o;
      if c_true no then mret (-1)
      else
        sock ← connect (ZsockNewReq server);
        if negb sock then mret (-1)
        else
          rep ← request TES_JITTER_REQ_PIC [ZNum (ref_ch o); ZNum (ticks o)] TES_JITTER_REP_PIC;
          match rep with
          | None => mret (-1)
          | Some (ref_ch, n) =>
              sys_ (CliPuts nl);;
              sys_ (CliPuts (conf_text ref_ch (n 0%nat)));;
              mret 0
          end
  end.

(** ** local_trace *)

Definition trace_set (prog : bytes) (opt : byte) (arg : bytes) (timeout : Z) : sysM (option Z) :=
  match opt with
  | x77 (* w *) => number prog opt arg to_u32
  | _ => sys_assert false;; mret None
  end.

(** The bytes to write. *)
Definition print_trace (rep : Z) (trace : bytes) : sysM bytes :=
  sys_ (CliPuts nl);;
  if rep =? TES_AVGTR_REQ_EINV then sys_ (CliPuts (lit "Request was not understood" ++ nl));; mret []
  else if rep =? TES_AVGTR_REQ_ETOUT then sys_ (CliPuts (lit "Request timed out" ++ nl));; mret []
  else if rep =? TES_AVGTR_REQ_OK then
    sys_ (CliPuts (lit "Received " ++ dec (strlen trace) ++ lit " bytes of data" ++ nl));;
    mret trace
  else sys_assert false;; mret [].

Definition write_trace (fd : Z) (trace : bytes) : sysM unit :=
  if strlen trace =? 0 then mret tt
  else
    wrc ← sys (SysWrite fd trace);
    if wrc =? -1 then sys_ (CliPerror (lit "Could not write to file"))
    else if negb (wrc =? strlen trace)
         then sys_ (CliEputs (lit "Wrote only " ++ dec wrc ++ lit " bytes" ++ nl))
    else mret tt.

(** After the prompt. *)
Definition save_trace (server filename : bytes) (timeout : Z) : sysM Z :=
  sock ← connect (ZsockNewReq server);
  if negb sock then mret (-1)
  else
    f ← open_append filename;
    match f with
    | None => mret (-1)
    | Some (fd, _) =>
        sys_ (ZsockRequest TES_AVGTR_REQ_PIC [ZNum timeout]);;
        sys_ (CliPuts (lit "Waiting for reply" ++ nl));;
        rep ← (fun l => (Done (recv_chunk l), l ++ [ZsockReply TES_AVGTR_REP_PIC]));
        sys_ CliSockDestroy;;
        match rep with
        | None => mret (-1)
        | Some (rep, trace) =>
            trace ← print_trace rep trace;
            write_trace fd trace;;
            sys_ (SysClose fd);;
            mret 0
        end
    end.

Definition s_local_save_trace (stdin : list bytes) (prog server filename : bytes) (argv : list bytes)
    : sysM Z :=
  o ← cmd_options prog OPTS_L_TRACE (lit "ZF") (trace_set prog) argv 5;
  match o with
  | None => mret (-1)
  | Some timeout =>
      sys_ (CliPuts (concat [
        lit "Will save an average trace to local file '"; filename; lit "'."; nl;
        lit "Timeout is "; dec timeout; lit " seconds."; nl]));;
      no ← s_prompt stdin;
      if c_true no then mret (-1) else save_trace server filename timeout
  end.

(** ** local_mca and local_jitter *)

Definition hist_set (prog : bytes) (opt : byte) (arg : bytes) (num_hist : Z) : sysM (option Z) :=
  match opt with
  | x6e (* n *) =>
      let '(n, buf) := strtoul arg in
      if c_true (strlen buf) || (n =? 0) then s_invalid_arg prog opt;; mret None
      else mret (Some n)
  | _ => sys_assert false;; mret None
  end.

(** The loop over the histograms that arrive, None for an error, until the
    process is interrupted: their number and their size.  [maplen] bytes of the
    file are mapped. *)
Fixpoint hist_loop (num_hist max_size fsize maplen : Z) (hists : list (option bytes)) (h hsize : Z)
    : sysM (Z * Z) :=
  match hists with
  | [] => mret (h, hsize)
  | hist :: hists =>
      if negb (h <? num_hist) then mret (h, hsize)
      else
        let off := to_u64 (fsize + hsize) in
        sys_ (ZmqRecv off max_size hist);;
        match hist with
        | None => sys_ (CliPerror (lit "Could not write to file"));; mret (h, hsize)
        | Some data =>
            if maplen <? off + Z.min (strlen data) max_size then sys_fail OutOfBounds
            else if max_size <? strlen data then
              sys_ (CliEputs (lit "Frame is too large: " ++ dec (strlen data) ++ lit " bytes"));;
              mret (h, hsize)
            else hist_loop num_hist max_size fsize maplen hists (to_u64 (h + 1))
                   (to_u64 (hsize + strlen data))
        end
  end.

Definition plural (n : Z) : bytes := if 1 <? n then lit "s" else [].

(** After the prompt. *)
Definition save_hist (hists : list (option bytes)) (server filename : bytes) (num_hist max_size : Z)
    : sysM Z :=
  sock ← connect (ZsockNewSub server);
  if negb sock then mret (-1)
  else
    f ← open_append filename;
    match f with
    | None => mret (-1)
    | Some (fd, fsize) =>
        let total := to_u64 (num_hist * max_size) in
        rc ← sys (CliFallocate fd fsize total);
        if c_true rc then
          sys_ (CliPerror (lit "Could not allocate sufficient space"));;
          sys_ (SysClose fd);;
          sys_ CliSockDestroy;;
          mret (-1)
        else
          let maplen := to_u64 (fsize + total) in
          map ← sys (SysMmap fd maplen);
          if map =? -1 then
            sys_ (CliPerror (lit "Could not mmap file"));;
            sys_ (SysClose fd);;
            sys_ CliSockDestroy;;
            mret (-1)
          else
            '(h, hsize) ← hist_loop num_hist max_size fsize maplen hists 0 0;
            (if h <? num_hist - 1
             then sys_ (CliPuts (concat [lit "Saved "; dec h; lit " histogram"; plural num_hist; nl]))
             else mret tt);;
            sys_ CliSockDestroy;;
            sys_ (SysMunmap map total);;
            rc ← sys (CliFtruncate fd (to_u64 (fsize + hsize)));
            (if rc =? -1 then sys_ (CliPerror (lit "Could not truncate file")) else mret tt);;
            sys_ (SysClose fd);;
            mret 0
    end.

Definition s_local_save_hist (hists : list (option bytes)) (stdin : list bytes)
    (prog server filename : bytes) (argv : list bytes) (max_size : Z) : sysM Z :=
  o ← cmd_options prog OPTS_L_HIST (lit "ZF") (hist_set prog) argv 1;
  match o with
  | None => mret (-1)
  | Some num_hist =>
      sys_assert (0 <? num_hist);;
      sys_ (CliPuts (concat [
        lit "Will save "; dec num_hist; lit " histogram"; plural num_hist;
        lit " to local file '"; filename; lit "'."; nl;
        lit "Maximum total size is "; dec (to_u64 (num_hist * max_size)); lit "."; nl]));;
      no ← s_prompt stdin;
      if c_true no then mret (-1) else save_hist hists server filename num_hist max_size
  end.

Definition s_local_save_mca hists stdin prog server filename argv : sysM Z :=
  s_local_save_hist hists stdin prog server filename argv TES_HIST_MAXSIZE.
Definition s_local_save_jitter hists stdin prog server filename argv : sysM Z :=
  s_local_save_hist hists stdin prog server filename argv TES_JITTER_SIZE.

(** ** remote_all *)

Record cap_opts : Type := {
  measurement : bytes;
  min_ticks : Z;
  min_events : Z;
  ovrwtmode : Z;
  async : Z;
  capmode : Z;
}.

Definition set_meas (o : cap_opts) v : cap_opts :=
  Build_cap_opts v (min_ticks o) (min_events o) (ovrwtmode o) (async o) (capmode o).
Definition set_min_ticks (o : cap_opts) v : cap_opts :=
  Build_cap_opts (measurement o) v (min_events o) (ovrwtmode o) (async o) (capmode o).
Definition set_min_events (o : cap_opts) v : cap_opts :=
  Build_cap_opts (measurement o) (min_ticks o) v (ovrwtmode o) (async o) (capmode o).
Definition set_ovrwt (o : cap_opts) v : cap_opts :=
  Build_cap_opts (measurement o) (min_ticks o) (min_events o) v (async o) (capmode o).
Definition set_async (o : cap_opts) v : cap_opts :=
  Build_cap_opts (measurement o) (min_ticks o) (min_events o) (ovrwtmode o) v (capmode o).
Definition set_capmode (o : cap_opts) v : cap_opts :=
  Build_cap_opts (measurement o) (min_ticks o) (min_events o) (ovrwtmode o) (async o) v.

Definition no_opts : cap_opts := Build_cap_opts [] 0 0 0 0 0.

Definition set_mode (prog : bytes) (old : Z) (o : cap_opts) : sysM (option cap_opts) :=
  if c_true old then s_conflicting_opt prog;; mret None else mret (Some o).

Definition cap_set (prog : bytes) (opt : byte) (arg : bytes) (o : cap_opts) : sysM (option cap_opts) :=
  match opt with
  | x6d (* m *) => mret (Some (set_meas o (snprintf 1024 arg).2))
  | x74 (* t *) => number prog opt arg (set_min_ticks o)
  | x65 (* e *) => number prog opt arg (set_min_events o)
  | x72 (* r *) => set_mode prog (ovrwtmode o) (set_ovrwt o TES_H5_OVRWT_RELINK)
  | x6f (* o *) => set_mode prog (ovrwtmode o) (set_ovrwt o TES_H5_OVRWT_FILE)
  | x63 (* c *) => set_mode prog (capmode o) (set_capmode o TES_CAP_CAPONLY)
  | x43 (* C *) => set_mode prog (capmode o) (set_capmode o TES_CAP_CONVONLY)
  | x61 (* a *) => mret (Some (set_async o 1))
  | _ => sys_assert false;; mret None
  end.

(** What is printed before the prompt. *)
Definition is_status (o : cap_opts) : bool :=
  (capmode o =? TES_CAP_AUTO) && negb (c_true (min_ticks o)) && negb (c_true (min_events o)).
Definition announce (filename : bytes) (o : cap_opts) : bytes :=
  if is_status o then
    concat [lit "Sending a status request for remote filename '"; filename;
            lit "' and measurement group '"; measurement o; lit "'."; nl]
  else
    concat [lit "Sending a"; (if c_true (async o) then lit "n asynchronous" else []); lit " ";
            (if capmode o =? TES_CAP_CONVONLY then lit "conversion only"
             else if capmode o =? TES_CAP_CAPONLY then lit "capture only" else lit "capture");
            lit " request for remote filename '"; filename;
            lit "' and measurement group '"; measurement o; lit "'."; nl;
            (if ovrwtmode o =? TES_H5_OVRWT_FILE then lit "Will overwrite file." ++ nl
             else if ovrwtmode o =? TES_H5_OVRWT_RELINK
             then lit "Will backup measurement group." ++ nl else []);
            lit "Will terminate after at least "; dec (min_ticks o); lit " ticks and ";
            dec (min_events o); lit " events."; nl].

Definition cap_counts (o : cap_opts) (n : nat -> Z) : bytes := concat [
  (if c_true (min_ticks o) || c_true (min_events o) then lit "Wrote" else lit "File contains"); nl;
  lit "ticks:          "; dec (n 0%nat); nl;
  lit "other events:   "; dec (n 1%nat); nl;
  lit "traces:         "; dec (n 2%nat); nl;
  lit "histograms:     "; dec (n 3%nat); nl;
  lit "saved frames:   "; dec (n 4%nat); nl;
  lit "missed frames:  "; dec (n 5%nat); nl;
  lit "dropped frames: "; dec (n 6%nat); nl].

(** The last cases of the [switch] fall through. *)
Definition print_cap (o : cap_opts) (fstat : Z) (n : nat -> Z) : sysM unit :=
  sys_ (CliPuts nl);;
  let ok := sys_ (CliPuts (cap_counts o n)) in
  let fin := sys_ (CliPuts (lit "Unknown error while finalizing" ++ nl ++ nl));; ok in
  let conv := sys_ (CliPuts (lit "Unknown error while converting" ++ nl ++ nl));; fin in
  let wrt := sys_ (CliPuts (lit "Unknown error while writing" ++ nl ++ nl));; conv in
  if fstat =? TES_CAP_REQ_EINV then sys_ (CliPuts (lit "Request was not understood" ++ nl))
  else if fstat =? TES_CAP_REQ_EABORT then
    sys_ (CliPuts (lit "File " ++ (if c_true (min_ticks o) then lit "exists" else lit "does not exist")
                   ++ nl))
  else if fstat =? TES_CAP_REQ_EPERM then sys_ (CliPuts (lit "Filename is not allowed" ++ nl))
  else if fstat =? TES_CAP_REQ_EFAIL then
    sys_ (CliPuts (lit "Unknown error while initializing" ++ nl ++ nl))
  else if fstat =? TES_CAP_REQ_EWRT then wrt
  else if fstat =? TES_CAP_REQ_ECONV then conv
  else if fstat =? TES_CAP_REQ_EFIN then fin
  else if fstat =? TES_CAP_REQ_OK then ok
  else sys_assert false.

Definition cap_args (filename : bytes) (o : cap_opts) : list zarg :=
  [ZStr filename; ZStr (measurement o); ZNum (min_ticks o); ZNum (min_events o);
   ZNum (ovrwtmode o); ZNum (async o); ZNum (capmode o)].

(** After the prompt. *)
Definition save_remote (server filename : bytes) (o : cap_opts) : sysM Z :=
  sock ← connect (ZsockNewReq server);
  if negb sock then mret (-1)
  else
    rep ← request TES_CAP_REQ_PIC (cap_args filename o) TES_CAP_REP_PIC;
    match rep with
    | None => mret (-1)
    | Some (fstat, n) => print_cap o fstat n;; mret 0
    end.

Definition s_remote_save_all (stdin : list bytes) (prog server filename : bytes) (argv : list bytes)
    : sysM Z :=
  o ← cmd_options prog OPTS_R_ALL (lit "ZF") (cap_set prog) argv no_opts;
  match o with
  | None => mret (-1)
  | Some o =>
      sys_ (CliPuts (announce filename o));;
      no ← s_prompt stdin;
      if c_true no then mret (-1) else save_remote server filename o
  end.

(** ** main *)

(** [server], [filename] and the array [cmd]. *)
Record main_opts : Type := { m_server : bytes; m_filename : bytes; m_cmd : bytes }.

Definition main_arg (argv : list bytes) (i : nat) (o : main_opts) : sysM (option main_opts) :=
  cmd ← sys_lift (c_str 64 (m_cmd o));
  if negb (strlen cmd =? 0) then
    sys_ (CliEputs (lit "Extra arguments" ++ nl));;
    sys_exit EXIT_FAILURE
  else
    arg ← sys_lift (deref (argv !! i));
    mret (Some (Build_main_opts (m_server o) (m_filename o) (strncpy_str 64 arg))).

Definition main_opt (prog : bytes) (r : opt_result) (o : main_opts) : sysM (option main_opts) :=
  match r with
  | OptFound x5a (* Z *) arg =>
      mret (Some (Build_main_opts (snprintf 1024 arg).2 (m_filename o) (m_cmd o)))
  | OptFound x46 (* F *) arg =>
      mret (Some (Build_main_opts (m_server o) (snprintf PATH_MAX arg).2 (m_cmd o)))
  | OptFound x68 (* h *) _ => s_usage prog;; sys_exit EXIT_SUCCESS
  | OptMissing c => s_missing_arg prog c;; sys_exit EXIT_FAILURE
  | _ => mret (Some o)
  end.

Definition main_opts_string : bytes :=
  lit "h" ++ OPTS_G ++ OPTS_S_INFO ++ OPTS_J_CONF ++ OPTS_L_TRACE ++ OPTS_L_HIST ++ OPTS_R_ALL.

(** The callback, the default port and whether a filename is required. *)
Definition command (hists : list (option bytes)) (stdin : list bytes) (cmd : bytes)
    : option ((bytes -> bytes -> bytes -> list bytes -> sysM Z) * string * bool) :=
  if bool_decide (cmd = lit "server_info") then Some (s_server_info, TES_INFO_LPORT, false)
  else if bool_decide (cmd = lit "jitter_conf")
  then Some (s_jitter_conf stdin, TES_JITTER_REP_LPORT, false)
  else if bool_decide (cmd = lit "remote_all") then Some (s_remote_save_all stdin, TES_CAP_LPORT, true)
  else if bool_decide (cmd = lit "local_trace") then Some (s_local_save_trace stdin, TES_AVGTR_LPORT, true)
  else if bool_decide (cmd = lit "local_mca")
  then Some (s_local_save_mca hists stdin, TES_HIST_LPORT, true)
  else if bool_decide (cmd = lit "local_jitter")
  then Some (s_local_save_jitter hists stdin, TES_JITTER_PUB_LPORT, true)
  else None.

(** [strchr (strchrnul (server, '/'), ':') != NULL] *)
Definition has_port (server : bytes) : bool :=
  match strchr server slash with
  | None => false
  | Some i => match strchr (drop i server) x3a with Some _ => true | None => false end
  end.

Definition add_port (server : bytes) (port : string) : sysM bytes :=
  if has_port server then mret server
  else
    let server := server ++ (snprintf (1024 - strlen server) (x3a :: lit port)).2 in
    sys_ (CliPuts (lit "Connecting to " ++ server ++ nl));;
    mret server.

Definition main (hists : list (option bytes)) (stdin : list bytes) (argv : list bytes) : sysM unit :=
  a0 ← sys_lift (deref (argv !! 0%nat));
  let prog := strncpy_str PATH_MAX a0 in
  o ← opt_loop argv main_opts_string (main_arg argv) (main_opt prog) (opts_left argv getopt_start)
        getopt_start (Build_main_opts [] [] []);
  match o with
  | None => mret tt
  | Some o =>
      let server := if strlen (m_server o) =? 0 then DEFAULT_SERVER else m_server o in
      cmd ← sys_lift (c_str 64 (m_cmd o));
      if strlen cmd =? 0 then sys_ (CliEputs (lit "Missing command" ++ nl));; sys_exit EXIT_FAILURE
      else
        match command hists stdin cmd with
        | None => sys_ (CliPuts (lit "Unknown command " ++ cmd ++ nl));; sys_exit EXIT_FAILURE
        | Some (callback, defport, require_filename) =>
            server ← add_port server defport;
            if require_filename && (strlen (m_filename o) =? 0) then
              hint prog (lit "You must specify a filename.");; sys_exit EXIT_FAILURE
            else
              rc ← callback prog server (m_filename o) argv;
              sys_exit (if c_true rc then EXIT_FAILURE else EXIT_SUCCESS)
        end
  end.
End Client.
End Client.
