(* ===== verification/ClientTheory.v ===== *)
(** * Theorems about the client

    How the client ends and what it leaves open, the requests it sends and what
    the server makes of them, what it stores in local files, and the replies at
    which it stops.  [resources] and [replay] follow a log: what is open after it,
    and what is in the local file. *)

From Stdlib Require Import ZArith Lia Strings.String Strings.Byte.
From stdpp Require Import base option list numbers decidable sets.
From S2P Require Import Prelude Sys Path Cmdline Daemon Hdf5 Tespkt Tesif Task TaskTheory TaskInfo.
From S2P Require Import TaskHist TaskAvgtr TaskJitter Coordinator Capture CaptureTheory TaskLife TaskList Client.

Open Scope Z_scope.

Import Client.

(** ** How the client ends *)

Section Ends.
Context `{SysEnv} `{ClientEnv}.

(** The process ends in [m]. *)
Definition ends {A} (m : sysM A) : Prop := forall l, exists f, (m l).1 = Failed f.

Lemma ends_bind {A B} (m : sysM A) (k : A -> sysM B) :
  (forall a, (exists l l', m l = (Done a, l')) -> ends (k a)) -> ends (m ≫= k).
Proof.
  intros Hk l. unfold mbind, sys_bind. destruct (m l) as [[a|f] l'] eqn:E; [|by exists f].
  apply Hk. eauto.
Qed.

(** An access out of bounds, a failed assertion, an exit or a null pointer. *)
Definition client_end (f : failure) : Prop :=
  match f with Exited code => code = EXIT_SUCCESS \/ code = EXIT_FAILURE | NoFuel => False
  | DivByZero => False | _ => True end.

(** The commands stop only at an assertion or an access out of bounds. *)
Section Commands.
Context (P : failure -> Prop) (HA : P AssertFail) (HO : P OutOfBounds).

Lemma hint_stops prog msg : stops P (hint prog msg).
Proof. unfold hint, c_str. stops. destruct (strlen prog <? PATH_MAX); by intros [= <-]. Qed.

Lemma s_usage_stops prog : stops P (s_usage prog).
Proof. unfold s_usage, c_str. stops. destruct (strlen prog <? PATH_MAX); by intros [= <-]. Qed.
#[local] Hint Resolve hint_stops s_usage_stops : stops.

Lemma number_stops {A} prog opt arg (set : Z -> A) : stops P (number prog opt arg set).
Proof. unfold number, s_invalid_arg. stops. Qed.
#[local] Hint Resolve number_stops : stops.

Lemma cmd_options_stops {A} prog os skipped set argv (a : A) :
  (forall c arg a, stops P (set c arg a)) ->
  stops P (cmd_options prog os skipped set argv a).
Proof.
  intros Hs. unfold cmd_options. apply opt_loop_stops; [done|by intros; apply stops_never|].
  intros r a'. unfold cmd_opt, s_invalid_opt. stops; first [done|apply Hs].
Qed.

Lemma prompt_stops stdin : stops P (s_prompt stdin).
Proof.
  unfold s_prompt. apply stops_bind; [stops|intros _].
  induction stdin as [|line stdin IH]; simpl; stops; done.
Qed.

Lemma hist_loop_stops n max fsize maplen hists : forall h hsize,
  stops P (hist_loop n max fsize maplen hists h hsize).
Proof. induction hists as [|hist hists IH]; intros h hsize; simpl; stops; done. Qed.

Lemma connect_stops c : stops P (connect c).
Proof. unfold connect. stops. Qed.
Lemma open_append_stops f : stops P (open_append f).
Proof. unfold open_append. stops. Qed.
#[local] Hint Resolve prompt_stops hist_loop_stops connect_stops open_append_stops : stops.

Lemma set_stops prog c arg : 
  (forall o, stops P (info_set prog c arg o)) /\
  (forall o, stops P (jitter_set prog c arg o)) /\
  (forall o, stops P (trace_set prog c arg o)) /\
  (forall o, stops P (hist_set prog c arg o)) /\
  (forall o, stops P (cap_set prog c arg o)).
Proof.
  unfold info_set, jitter_set, trace_set, hist_set, cap_set, set_mode, s_invalid_arg, s_conflicting_opt.
  repeat split; intros o; destruct c; stops; done.
Qed.

Lemma command_stops hists stdin cmd cb port b :
  command hists stdin cmd = Some (cb, port, b) ->
  forall prog server filename argv, stops P (cb prog server filename argv).
Proof.
  unfold command. repeat (case_if; [intros [= <- <- <-] prog server filename argv|]); [..|done];
    unfold s_server_info, s_jitter_conf, jitter_prompt, s_remote_save_all, s_local_save_trace, s_local_save_mca,
      s_local_save_jitter, s_local_save_hist, save_remote, save_trace, save_hist, request, print_info,
      print_trace, write_trace, print_cap;
    (apply stops_bind; [apply cmd_options_stops; intros; by apply set_stops|intros ?]); stops; done.
Qed.

End Commands.

Lemma client_end_assert : client_end AssertFail.
Proof. done. Qed.
Lemma client_end_bounds : client_end OutOfBounds.
Proof. done. Qed.
#[local] Hint Resolve client_end_assert client_end_bounds : stops.
#[local] Hint Resolve hint_stops s_usage_stops : stops.

Lemma main_arg_stops argv i o : stops client_end (main_arg argv i o).
Proof.
  unfold main_arg, c_str. stops; [|by right|].
  - destruct (_ <? _); by intros [= <-].
  - destruct (argv !! i); by intros [= <-].
Qed.

Lemma main_opt_stops prog r o : stops client_end (main_opt prog r o).
Proof. unfold main_opt, s_missing_arg. destruct r as [|c arg|c|c]; [|destruct c|..]; stops; by (left + right). Qed.
#[local] Hint Resolve main_arg_stops main_opt_stops : stops.

Lemma main_options_some argv prog o l :
  match (opt_loop argv main_opts_string (main_arg argv) (main_opt prog) (opts_left argv getopt_start)
    getopt_start o l).1 with Done r => r <> None | Failed _ => True end.
Proof.
  apply opt_loop_inv; [| |done].
  - intros i a l0 r l' _. unfold main_arg, mbind, sys_bind, sys_lift, c_str.
    destruct (_ <? 64); [|done]. destruct (negb _); [done|]. destruct (argv !! i); [|done].
    by intros [= <- <-].
  - intros r a l0 r' l' _. unfold main_opt. destruct r as [|c arg|c|c]; [by intros [= <- <-]| |by intros [= <- <-]|].
    + destruct c; try by intros [= <- <-]. unfold s_usage, mbind, sys_bind, sys_lift, c_str.
      by destruct (strlen prog <? PATH_MAX).
    + unfold s_missing_arg, hint, mbind, sys_bind, sys_lift, c_str.
      by destruct (strlen prog <? PATH_MAX).
Qed.

Lemma add_port_stops server port : stops client_end (add_port server port).
Proof. unfold add_port. stops. Qed.
#[local] Hint Resolve add_port_stops : stops.

(** C25: the client ends whatever its arguments, its input and the server are: the
    loops over the options do not go on for ever, and [main] exits with one of
    the two codes, unless an assertion fails or an access is invalid. *)
Theorem client_ends hists stdin argv l :
  exists f, (main hists stdin argv l).1 = Failed f /\ client_end f.
Proof.
  assert (Hs : stops client_end (main hists stdin argv)).
  { unfold main, c_str. stops; try (by (left + right)).
    - by destruct (argv !! 0%nat); intros [= <-].
    - apply opt_loop_stops; [done|intros; apply main_arg_stops|intros; apply main_opt_stops].
    - destruct (_ <? _); by intros [= <-].
    - by eapply (command_stops client_end).
    - destruct (c_true _); by (left + right). }
  assert (He : ends (main hists stdin argv)).
  { unfold main. apply ends_bind. intros a0 _. cbv zeta. apply ends_bind. intros [o|] (l0 & l1 & E).
    - apply ends_bind. intros cmd _. destruct (_ =? 0); [by apply ends_bind; intros; eexists|].
      destruct (command hists stdin cmd) as [[[cb port] b]|]; [|by apply ends_bind; intros; eexists].
      apply ends_bind. intros server _. destruct (_ && _); by apply ends_bind; intros; eexists.
    - pose proof (main_options_some argv (strncpy_str PATH_MAX a0) (Build_main_opts [] [] []) l0) as Hn.
      by rewrite E in Hn. }
  destruct (He l) as [f E]. exists f. split; [done|]. by eapply Hs.
Qed.
End Ends.

(** ** What is left open *)

Section Resources.
Context `{SysEnv} `{ClientEnv}.

(** Whether there is a socket, and the descriptor of the file. *)
Definition res_step (pre : list sys_call) (r : bool * option Z) (c : sys_call) : bool * option Z :=
  match c with
  | ZsockNewReq _ | ZsockNewSub _ => (negb (sys_rc pre c =? 0), r.2)
  | CliSockDestroy => (false, r.2)
  | CliOpen _ => (r.1, if sys_rc pre c =? -1 then r.2 else Some (sys_rc pre c))
  | SysClose fd => (r.1, if bool_decide (r.2 = Some fd) then None else r.2)
  | _ => r
  end.

Fixpoint res_from (pre : list sys_call) (r : bool * option Z) (cs : list sys_call) : bool * option Z :=
  match cs with [] => r | c :: cs => res_from (pre ++ [c]) (res_step pre r c) cs end.

(** What is open after [l]. *)
Definition resources (l : list sys_call) : bool * option Z := res_from [] (false, None) l.

Lemma res_from_snoc cs : forall pre r c,
  res_from pre r (cs ++ [c]) = res_step (pre ++ cs) (res_from pre r cs) c.
Proof.
  induction cs as [|c' cs IH]; intros pre r c; simpl; [by rewrite app_nil_r|].
  by rewrite IH, <- app_assoc.
Qed.

Lemma resources_snoc l c : resources (l ++ [c]) = res_step l (resources l) c.
Proof. apply res_from_snoc. Qed.

Definition quiet (c : sys_call) : Prop := forall pre r, res_step pre r c = r.

Lemma quiet_resources cs l : Forall quiet cs -> resources (l ++ cs) = resources l.
Proof.
  revert l. induction cs as [|c cs IH]; intros l Hq; [by rewrite app_nil_r|].
  inversion_clear Hq as [|? ? Hc Hcs]. rewrite cons_middle, app_assoc, IH by done.
  by rewrite resources_snoc.
Qed.

(** [m] opens and closes nothing. *)
Lemma adds_quiet {A} (m : sysM A) l r l' :
  adds quiet m -> m l = (r, l') -> resources l' = resources l.
Proof. intros Hm E. destruct (Hm l) as (cs & El & Hq). rewrite E in El. simpl in El. subst. by apply quiet_resources. Qed.

Lemma swp_quiet {A B} (m : sysM A) (k : A -> sysM B) Q l :
  adds quiet m ->
  (forall a l', m l = (Done a, l') -> resources l' = resources l -> swp (k a) Q l') ->
  (forall f l', m l = (Failed f, l') -> resources l' = resources l -> Q (Failed f) l') ->
  swp (m ≫= k) Q l.
Proof.
  intros Hm Hk Hf. apply swp_bind. unfold swp.
  destruct (m l) as [r l'] eqn:E. pose proof (adds_quiet m l r l' Hm E) as Hr.
  destruct r as [a|f]; [by apply Hk|by apply Hf].
Qed.

Lemma hint_quiet prog msg : adds quiet (hint prog msg).
Proof. unfold hint. adds. done. Qed.
#[local] Hint Resolve hint_quiet : adds.

Lemma number_quiet {A} prog opt arg (set : Z -> A) : adds quiet (number prog opt arg set).
Proof. unfold number, s_invalid_arg. adds. Qed.
#[local] Hint Resolve number_quiet : adds.

Lemma cmd_options_quiet {A} prog os skipped set argv (a : A) :
  (forall c arg a, adds quiet (set c arg a)) -> adds quiet (cmd_options prog os skipped set argv a).
Proof.
  intros Hs. unfold cmd_options. apply opt_loop_adds; [intros; apply adds_none|].
  intros r a'. unfold cmd_opt, s_invalid_opt. adds; try done; apply Hs.
Qed.

Lemma set_quiet prog c arg :
  (forall o, adds quiet (info_set prog c arg o)) /\ (forall o, adds quiet (jitter_set prog c arg o)) /\
  (forall o, adds quiet (trace_set prog c arg o)) /\ (forall o, adds quiet (hist_set prog c arg o)) /\
  (forall o, adds quiet (cap_set prog c arg o)).
Proof.
  unfold info_set, jitter_set, trace_set, hist_set, cap_set, set_mode, s_invalid_arg, s_conflicting_opt.
  repeat split; intros o; destruct c; adds.
Qed.

Lemma prompt_quiet stdin : adds quiet (s_prompt stdin).
Proof.
  unfold s_prompt. apply adds_bind; [by adds|intros _].
  induction stdin as [|line stdin IH]; simpl; adds; try done.
Qed.

Lemma hist_loop_quiet n max fsize maplen hists : forall h hsize,
  adds quiet (hist_loop n max fsize maplen hists h hsize).
Proof. induction hists as [|hist hists IH]; intros h hsize; simpl; adds; try done. Qed.

Lemma print_quiet fd o rep n trace :
  adds quiet (print_info rep n) /\ adds quiet (print_cap o rep n) /\
  adds quiet (print_trace rep trace) /\ adds quiet (write_trace fd trace).
Proof. unfold print_info, print_cap, print_trace, write_trace. repeat split; adds; try done. Qed.
#[local] Hint Resolve prompt_quiet hist_loop_quiet : adds.

(** [m] returns with these resources, if it returns. *)
Definition gives {A} (Q : A -> bool * option Z -> list sys_call -> Prop) (m : sysM A) l : Prop :=
  swp m (fun r l' => match r with Done a => Q a (resources l') l' | Failed _ => True end) l.

Lemma gives_quiet {A B} (m : sysM A) (k : A -> sysM B) Q l :
  adds quiet m -> (forall a l', resources l' = resources l -> gives Q (k a) l') -> gives Q (m ≫= k) l.
Proof. intros Hm Hk. apply swp_quiet; [done|intros a l' _; apply Hk|done]. Qed.

Lemma gives_bind {A B} (m : sysM A) (k : A -> sysM B) R Q l :
  gives R m l -> (forall a l', R a (resources l') l' -> gives Q (k a) l') -> gives Q (m ≫= k) l.
Proof.
  intros Hm Hk. apply swp_bind. unfold gives, swp in Hm. unfold swp.
  destruct (m l) as [[a|f] l']; simpl in *; [by apply Hk|done].
Qed.

Lemma gives_sys {B} c (k : Z -> sysM B) Q l : gives Q (k (sys_rc l c)) (l ++ [c]) -> gives Q (sys c ≫= k) l.
Proof. done. Qed.
Lemma gives_sys_e {B} c (k : Z * Z -> sysM B) Q l :
  gives Q (k (sys_rc l c, sys_errno l c)) (l ++ [c]) -> gives Q (sys_e c ≫= k) l.
Proof. done. Qed.
Lemma gives_sys_ {B} c (k : unit -> sysM B) Q l : gives Q (k tt) (l ++ [c]) -> gives Q (sys_ c ≫= k) l.
Proof. done. Qed.
Lemma gives_ret {A} (a : A) (Q : A -> bool * option Z -> list sys_call -> Prop) l :
  Q a (resources l) l -> gives Q (mret a) l.
Proof. done. Qed.

Lemma connect_gives c l : (exists s, c = ZsockNewReq s \/ c = ZsockNewSub s) -> (resources l).2 = None ->
  gives (fun b r _ => r = (b, None)) (connect c) l.
Proof.
  intros (s & Hc) Hr. unfold connect. apply gives_sys_e. cbv beta iota.
  assert (Hn : resources (l ++ [c]) = (negb (sys_rc l c =? 0), None))
    by (rewrite resources_snoc; destruct Hc as [-> | ->]; simpl; by rewrite Hr).
  destruct (sys_rc l c =? 0); [|by apply gives_ret].
  apply gives_quiet; [by adds|]. intros [] l' Hl. apply gives_ret. by rewrite Hl, Hn.
Qed.

Lemma open_append_gives filename l : resources l = (true, None) ->
  gives (fun f r _ => r = match f with None => (false, None) | Some (fd, _) => (true, Some fd) end)
    (open_append filename) l.
Proof.
  intros Hr. unfold open_append. apply gives_sys.
  assert (Hn : resources (l ++ [CliOpen filename]) = (true, if sys_rc l (CliOpen filename) =? -1
    then None else Some (sys_rc l (CliOpen filename)))) by (by rewrite resources_snoc, Hr).
  destruct (_ =? -1); [|set (fd := sys_rc l _) in *].
  - apply gives_sys_, gives_sys_, gives_ret. do 2 rewrite resources_snoc. by rewrite Hn.
  - apply gives_sys. destruct (_ =? -1).
    + apply gives_sys_, gives_sys_, gives_sys_, gives_ret. do 4 rewrite resources_snoc. rewrite Hn. simpl.
      by rewrite bool_decide_true.
    + apply gives_quiet; [by adds|]. intros [] l' Hl. apply gives_ret.
      by rewrite Hl, resources_snoc, Hn.
Qed.

Lemma request_gives pic args reppic l : resources l = (true, None) ->
  gives (fun _ r _ => r = (false, None)) (request pic args reppic) l.
Proof.
  intros Hr. unfold request. apply gives_sys_, gives_sys_. apply gives_quiet; [by apply adds_one|].
  intros rep l' Hl. apply gives_sys_, gives_ret. by rewrite resources_snoc, Hl, !resources_snoc, Hr.
Qed.

(** When a command returns: nothing is open, except that the file stays open if
    there was no reply to a request for a trace. *)
Definition no_trace_reply (l : list sys_call) : Prop :=
  exists pre, l = pre ++ [ZsockReply TES_AVGTR_REP_PIC; CliSockDestroy] /\ recv_chunk pre = None.
Definition closed (rc : Z) (r : bool * option Z) (l : list sys_call) : Prop :=
  r.1 = false /\ (r.2 = None \/ rc = -1 /\ no_trace_reply l).

Lemma gives_closed rc l : resources l = (false, None) -> gives closed (mret rc) l.
Proof. intros Hr. apply gives_ret. rewrite Hr. by split; [|left]. Qed.

Lemma save_remote_gives server filename o l :
  resources l = (false, None) -> gives closed (save_remote server filename o) l.
Proof.
  intros Hr. unfold save_remote. eapply gives_bind; [apply connect_gives; [eauto|by rewrite Hr]|].
  intros [|] l1 Hl1; [|by apply gives_closed].
  eapply gives_bind; [by apply request_gives|]. intros [[fstat n]|] l2 Hl2; [|by apply gives_closed].
  apply gives_quiet; [apply (print_quiet 0 o fstat n [])|]. intros [] l3 Hl3. apply gives_closed. congruence.
Qed.

Lemma save_trace_gives server filename timeout l :
  resources l = (false, None) -> gives closed (save_trace server filename timeout) l.
Proof.
  intros Hr. unfold save_trace. eapply gives_bind; [apply connect_gives; [eauto|by rewrite Hr]|].
  intros [|] l1 Hl1; [|by apply gives_closed].
  eapply gives_bind; [by apply open_append_gives|]. intros [[fd fsize]|] l2 Hl2; [|by apply gives_closed].
  do 2 apply gives_sys_. set (l3 := (l2 ++ _) ++ _).
  assert (Hl3 : resources l3 = (true, Some fd)) by (unfold l3; do 2 rewrite resources_snoc; by rewrite Hl2).
  unfold gives. change (gives closed ((match recv_chunk l3 with
    | None => mret (-1)
    | Some (rep, trace) =>
        trace ← print_trace rep trace;
        write_trace fd trace;; sys_ (SysClose fd);; mret 0
    end)) ((l3 ++ [ZsockReply TES_AVGTR_REP_PIC]) ++ [CliSockDestroy])).
  set (l4 := (l3 ++ _) ++ _).
  assert (Hl4 : resources l4 = (false, Some fd)) by (unfold l4; do 2 rewrite resources_snoc; by rewrite Hl3).
  destruct (recv_chunk l3) as [[rep trace]|] eqn:E.
  - apply gives_quiet; [apply (print_quiet 0 no_opts rep (fun _ => 0) trace)|]. intros tr l5 Hl5.
    apply gives_quiet; [apply (print_quiet fd no_opts 0 (fun _ => 0) tr)|]. intros [] l6 Hl6.
    apply gives_sys_, gives_closed. rewrite resources_snoc, Hl6, Hl5, Hl4. simpl.
    by rewrite bool_decide_true.
  - apply gives_ret. rewrite Hl4. split; [done|]. right. split; [done|]. exists l3. split; [|done].
    unfold l4. by rewrite <- app_assoc.
Qed.

Lemma save_hist_gives hists server filename n max l :
  resources l = (false, None) -> gives closed (save_hist hists server filename n max) l.
Proof.
  intros Hr. unfold save_hist. eapply gives_bind; [apply connect_gives; [eauto|by rewrite Hr]|].
  intros [|] l1 Hl1; [|by apply gives_closed].
  eapply gives_bind; [by apply open_append_gives|]. intros [[fd fsize]|] l2 Hl2; [|by apply gives_closed].
  assert (Hend : forall l, resources l = (true, Some fd) ->
    resources ((l ++ [SysClose fd]) ++ [CliSockDestroy]) = (false, None)).
  { intros l' Hl'. do 2 rewrite resources_snoc. rewrite Hl'. simpl. by rewrite bool_decide_true. }
  cbv zeta. apply gives_sys. destruct (c_true _).
  { do 3 apply gives_sys_. apply gives_closed, Hend. do 2 rewrite resources_snoc. by rewrite Hl2. }
  apply gives_sys. set (map := sys_rc _ (SysMmap _ _)). destruct (map =? -1).
  { do 3 apply gives_sys_. apply gives_closed, Hend. do 3 rewrite resources_snoc. by rewrite Hl2. }
  apply gives_quiet; [apply hist_loop_quiet|]. intros [h hsize] l3 Hl3. rewrite !resources_snoc, Hl2 in Hl3.
  apply gives_quiet; [by adds|]. intros [] l4 Hl4. do 2 apply gives_sys_. apply gives_sys.
  apply gives_quiet; [by adds|]. intros [] l5 Hl5. apply gives_sys_, gives_closed.
  rewrite resources_snoc, Hl5. do 3 rewrite resources_snoc. rewrite Hl4, Hl3. simpl.
  by rewrite bool_decide_true.
Qed.

Lemma command_gives hists stdin cmd cb port b prog server filename argv l :
  command hists stdin cmd = Some (cb, port, b) ->
  resources l = (false, None) -> gives closed (cb prog server filename argv) l.
Proof.
  intros Hc Hr. revert Hc. unfold command. repeat (case_if; [intros [= <- <- <-]|]); [..|done];
    unfold s_server_info, s_jitter_conf, jitter_prompt, s_remote_save_all, s_local_save_trace, s_local_save_mca,
      s_local_save_jitter, s_local_save_hist;
    (apply gives_quiet; [apply cmd_options_quiet; intros; by apply set_quiet|]);
    (intros [o|] l1 Hl1; [|apply gives_closed; congruence]).
  - eapply gives_bind; [apply connect_gives; [eauto|by rewrite Hl1, Hr]|].
    intros [|] l2 Hl2; [|by apply gives_closed].
    eapply gives_bind; [by apply request_gives|]. intros [[rep n]|] l3 Hl3; [|by apply gives_closed].
    apply gives_quiet; [apply (print_quiet 0 no_opts rep n [])|]. intros [] l4 Hl4.
    apply gives_closed. congruence.
  - apply gives_quiet; [by adds|]. intros no l2 Hl2. destruct (c_true no); [apply gives_closed; congruence|].
    eapply gives_bind; [apply connect_gives; [eauto|by rewrite Hl2, Hl1, Hr]|].
    intros [|] l3 Hl3; [|by apply gives_closed].
    eapply gives_bind; [by apply request_gives|]. intros [[rep n]|] l4 Hl4; [|by apply gives_closed].
    do 2 apply gives_sys_. apply gives_closed. do 2 rewrite resources_snoc. by rewrite Hl4.
  - apply gives_quiet; [by adds|]. intros [] l2 Hl2. apply gives_quiet; [by adds|]. intros no l3 Hl3.
    destruct (c_true no); [apply gives_closed|apply save_remote_gives]; congruence.
  - apply gives_quiet; [by adds|]. intros [] l2 Hl2. apply gives_quiet; [by adds|]. intros no l3 Hl3.
    destruct (c_true no); [apply gives_closed|apply save_trace_gives]; congruence.
  - apply gives_quiet; [by adds|]. intros [] l2 Hl2. apply gives_quiet; [by adds|]. intros [] l3 Hl3.
    apply gives_quiet; [by adds|]. intros no l4 Hl4.
    destruct (c_true no); [apply gives_closed|apply save_hist_gives]; congruence.
  - apply gives_quiet; [by adds|]. intros [] l2 Hl2. apply gives_quiet; [by adds|]. intros [] l3 Hl3.
    apply gives_quiet; [by adds|]. intros no l4 Hl4.
    destruct (c_true no); [apply gives_closed|apply save_hist_gives]; congruence.
Qed.
End Resources.
#[local] Hint Resolve hint_quiet : adds.

(** C24: when the client has exited, its socket is destroyed and the local file is
    closed, on every path, except that the file is left to the system when there
    was no reply to a request for a trace; then the exit code is a failure. *)
Theorem client_cleans_up `{SysEnv} `{ClientEnv} hists stdin argv code l :
  main hists stdin argv [] = (Failed (Exited code), l) ->
  (resources l).1 = false /\
  ((resources l).2 = None \/ code = EXIT_FAILURE /\ no_trace_reply l).
Proof.
  set (Q := fun (r : exec unit) (l : list sys_call) => match r with
    | Failed (Exited code) => (resources l).1 = false /\
        ((resources l).2 = None \/ code = EXIT_FAILURE /\ no_trace_reply l)
    | _ => True end).
  assert (Hq : forall (f : failure) l, resources l = (false, None) -> Q (Failed f) l)
    by (intros f l' Hr; destruct f; simpl; rewrite ?Hr; auto).
  assert (H00 : resources [] = (false, None)) by done.
  assert (Hs : swp (main hists stdin argv) Q []).
  { unfold main. apply swp_quiet; [by adds| |auto]. intros a0 l0 _ Hl0.
    apply swp_quiet; [|intros o l1 E Hl1|intros; apply Hq; congruence].
    { apply opt_loop_adds; [intros i o; unfold main_arg; by adds|].
      intros r o. unfold main_opt, s_usage, s_missing_arg. destruct r as [|c arg|c|c]; [|destruct c|..]; by adds. }
    destruct o as [o|]; [|done].
    apply swp_quiet; [by adds| |intros; apply Hq; congruence]. intros cmd l2 _ Hl2.
    destruct (_ =? 0).
    { apply swp_quiet; [by adds| |intros; apply Hq; congruence]. intros [] l3 _ Hl3.
      change (Q (Failed (Exited EXIT_FAILURE)) l3). apply Hq. congruence. }
    destruct (command hists stdin cmd) as [[[cb port] b]|] eqn:Ec.
    2:{ apply swp_quiet; [by adds| |intros; apply Hq; congruence]. intros [] l3 _ Hl3.
      change (Q (Failed (Exited EXIT_FAILURE)) l3). apply Hq. congruence. }
    apply swp_quiet; [unfold add_port; by adds| |intros; apply Hq; congruence]. intros server l3 _ Hl3.
    destruct (_ && _).
    { apply swp_quiet; [by adds| |intros; apply Hq; congruence]. intros [] l4 _ Hl4.
      change (Q (Failed (Exited EXIT_FAILURE)) l4). apply Hq. congruence. }
    apply swp_bind.
    pose proof (command_gives hists stdin cmd cb port b (strncpy_str PATH_MAX a0) server (m_filename o)
      argv l3 Ec) as Hg. unfold gives, swp in *.
    pose proof (command_stops (fun f => forall code, f <> Exited code) ltac:(done) ltac:(done) hists stdin
      cmd cb port b Ec (strncpy_str PATH_MAX a0) server (m_filename o) argv l3) as Hx.
    destruct (cb _ _ _ _ _) as [[rc|f] l4]; simpl in *; [|destruct f; try done; by destruct (Hx _ eq_refl code0)].
    destruct Hg as [Hs Hf]; [congruence|]. split; [done|].
    destruct Hf as [Hf|[-> Hf]]; [by left|by right]. }
  intros E. unfold swp in Hs. rewrite E in Hs. exact Hs.
Qed.

(** ** Requests for captures *)

Section Remote.
Context `{SysEnv} `{ClientEnv}.

(** Every number fits its frame of the request, and the modes are those that
    there are. *)
Definition fits (o : cap_opts) : Prop :=
  strlen (measurement o) < 1024 /\ is_u64 (min_ticks o) /\ is_u64 (min_events o) /\
  (ovrwtmode o = TES_H5_OVRWT_NONE \/ ovrwtmode o = TES_H5_OVRWT_RELINK \/ ovrwtmode o = TES_H5_OVRWT_FILE) /\
  (async o = 0 \/ async o = 1) /\
  (capmode o = TES_CAP_AUTO \/ capmode o = TES_CAP_CAPONLY \/ capmode o = TES_CAP_CONVONLY).

Lemma number_result {A} prog opt arg (set : Z -> A) l r l' :
  number prog opt arg set l = (Done r, l') -> forall a, r = Some a -> exists n, is_u64 n /\ a = set n.
Proof.
  unfold number. pose proof (strtoul_range arg) as Hr. destruct (strtoul arg) as [n buf].
  intros E a ->. exists n. split; [done|]. revert E. destruct (c_true _); [|by intros [= <- _]].
  unfold mbind, sys_bind. by destruct (s_invalid_arg prog opt l) as [[]].
Qed.

Lemma set_mode_result prog old o l r l' :
  set_mode prog old o l = (Done r, l') -> forall a, r = Some a -> a = o.
Proof.
  unfold set_mode. intros E a ->. revert E. destruct (c_true old); [|by intros [= <- _]].
  unfold mbind, sys_bind. by destruct (s_conflicting_opt prog l) as [[]].
Qed.

Lemma cap_set_fits prog c arg o l a l' :
  fits o -> cap_set prog c arg o l = (Done (Some a), l') -> fits a.
Proof.
  unfold cap_set. intros (Hm & Ht & He & Ho & Has & Hc) E.
  assert (Hfit : forall m t e ov a c, strlen m < 1024 -> is_u64 t -> is_u64 e ->
    (ov = TES_H5_OVRWT_NONE \/ ov = TES_H5_OVRWT_RELINK \/ ov = TES_H5_OVRWT_FILE) -> (a = 0 \/ a = 1) ->
    (c = TES_CAP_AUTO \/ c = TES_CAP_CAPONLY \/ c = TES_CAP_CONVONLY) ->
    fits (Build_cap_opts m t e ov a c)) by (by unfold fits).
  destruct c; try done;
    try (destruct (number_result _ _ _ _ _ _ _ E a eq_refl) as (n & Hn & ->); by apply Hfit);
    try (rewrite (set_mode_result _ _ _ _ _ _ E a eq_refl); apply Hfit; tauto);
    (revert E; intros [= <-]; apply Hfit; try tauto).
  unfold strlen, snprintf. simpl. rewrite length_take. lia.
Qed.

(** The options of the command line. *)
Lemma cap_options_fit prog argv l o l' :
  cmd_options prog OPTS_R_ALL (lit "ZF") (cap_set prog) argv no_opts l = (Done (Some o), l') -> fits o.
Proof.
  intros E. unfold cmd_options in E.
  pose proof (opt_loop_inv (fun r => match r with Some a => fits a | None => True end) argv
    (OPTS_G ++ OPTS_R_ALL) (fun _ a => mret (M := sysM) (Some a)) (cmd_opt prog (lit "ZF") (cap_set prog))
    (opts_left argv getopt_start) getopt_start no_opts l) as Hi.
  rewrite E in Hi. simpl in Hi. apply Hi.
  - by intros _ a l0 r l1 Ha [= <- _].
  - intros r a l0 r' l1 Ha Er. destruct r' as [a'|]; [|done]. unfold cmd_opt in Er.
    destruct r as [|c arg|c|c]; [by revert Er; intros [= <- _]| | |done].
    + case_bool_decide; [by revert Er; intros [= <- _]|]. by eapply cap_set_fits.
    + revert Er. unfold mbind, sys_bind. by destruct (s_invalid_opt prog c l0) as [[]].
  - unfold fits, no_opts, is_u64. simpl. repeat split; auto; lia.
Qed.

(** The user has agreed. *)
Definition confirmed (cs : list sys_call) : Prop :=
  exists b, CliGetline (Some [x79; b]) ∈ cs \/ CliGetline (Some [x59; b]) ∈ cs.

(** No request but the ones that [R] allows. *)
Definition only (R : string -> list zarg -> Prop) (c : sys_call) : Prop :=
  match c with ZsockRequest pic args => R pic args | _ => True end.

Lemma prompt_log stdin l :
  exists rc cs, s_prompt stdin l = (Done rc, l ++ cs) /\ Forall (only (fun _ _ => False)) cs /\
    (c_true rc = false -> confirmed cs).
Proof.
  unfold s_prompt. rewrite sys_run_. set (first := CliPuts _).
  assert (Hp : forall l, exists rc cs, prompt_loop stdin l = (Done rc, l ++ cs) /\
    Forall (only (fun _ _ => False)) cs /\ (c_true rc = false -> confirmed cs)).
  { clear l. induction stdin as [|line stdin IH]; intros l.
    { exists (-1), [CliGetline None]. split; [done|]. split; [by repeat constructor|done]. }
    set (again := CliPuts (lit "Reply with 'y' or 'n': ")).
    assert (Hagain : exists rc cs, (sys_ again;; prompt_loop stdin) (l ++ [CliGetline (Some line)]) =
        (Done rc, l ++ cs) /\ Forall (only (fun _ _ => False)) cs /\ (c_true rc = false -> confirmed cs)).
    { rewrite sys_run_. destruct (IH ((l ++ [CliGetline (Some line)]) ++ [again])) as (rc & cs & -> & Hq & Hc).
      exists rc, (CliGetline (Some line) :: again :: cs). rewrite <- !app_assoc. split; [done|].
      split; [by repeat constructor|]. intros Hrc. destruct (Hc Hrc) as [b Hb]. exists b. set_solver. }
    cbn [prompt_loop]. rewrite sys_run_. destruct line as [|rep [|b [|b' line]]]; try exact Hagain.
    destruct (_ || _).
    { exists (-1), [CliGetline (Some [rep; b])]. split; [done|]. split; [by repeat constructor|done]. }
    destruct (bool_decide (rep = x79) || bool_decide (rep = x59)) eqn:Ey; [|exact Hagain].
    exists 0, [CliGetline (Some [rep; b])]. split; [done|]. split; [by repeat constructor|].
    intros _. exists b. apply orb_true_iff in Ey. rewrite !bool_decide_eq_true in Ey.
    destruct Ey as [-> | ->]; [left|right]; by constructor. }
  destruct (Hp (l ++ [first])) as (rc & cs & -> & Hq & Hc). exists rc, (first :: cs).
  rewrite <- app_assoc. split; [done|]. split; [by constructor|].
  intros Hrc. destruct (Hc Hrc) as [b Hb]. exists b. set_solver.
Qed.

Lemma hint_only R prog msg : adds (only R) (hint prog msg).
Proof. unfold hint. by adds. Qed.
#[local] Hint Resolve hint_only : adds.

Lemma cap_options_only R prog argv o : adds (only R) (cmd_options prog OPTS_R_ALL (lit "ZF") (cap_set prog) argv o).
Proof.
  unfold cmd_options. apply opt_loop_adds; [intros; apply adds_none|].
  intros r a. unfold cmd_opt, s_invalid_opt. adds; try done.
  unfold cap_set, number, set_mode, s_invalid_arg, s_conflicting_opt. destruct c; by adds.
Qed.

Lemma save_remote_only server filename o :
  adds (only (fun pic args => pic = TES_CAP_REQ_PIC /\ args = cap_args filename o))
    (save_remote server filename o).
Proof. unfold save_remote, connect, request, print_cap. by adds. Qed.

Lemma only_False cs pic args :
  Forall (only (fun _ _ => False)) cs -> ZsockRequest pic args ∈ cs -> False.
Proof. intros Hc Hi. exact (proj1 (Forall_forall _ _) Hc _ Hi). Qed.

(** The request as the server gets it. *)
Definition received (filename : bytes) (o : cap_opts) : Cap.s_req_t :=
  Cap.Build_s_req_t (min_ticks o) (min_events o) (ovrwtmode o) (async o) (capmode o)
    (Some filename) (Some (measurement o)).

(** What is asked for can be done: converting only asks for no frames, capturing
    only does. *)
Definition consistent (o : cap_opts) : Prop :=
  (capmode o = TES_CAP_CONVONLY -> min_ticks o = 0 /\ min_events o = 0) /\
  (capmode o = TES_CAP_CAPONLY -> min_ticks o <> 0 \/ min_events o <> 0).

Lemma server_accepts `{CapEnv} filename o d : fits o ->
  let '(status, d') := Cap.s_is_req_valid (Cap.set_req d (received filename o)) in
  (status = TES_CAP_REQ_OK <-> consistent o) /\
  (status = TES_CAP_REQ_OK -> Cap.nocapture d' && Cap.noconvert d' = is_status o).
Proof.
  intros (_ & Ht & He & Ho & _ & Hc). unfold Cap.s_is_req_valid, consistent, is_status.
  destruct o as [m t e ov a c]. cbn in Ht, He, Ho, Hc.
  cbn [received Cap.req Cap.set_req Cap.basefname Cap.measurement Cap.ovrwtmode Cap.capmode
    Cap.min_ticks Cap.min_events min_ticks min_events ovrwtmode capmode].
  assert (Eo : (ov =? TES_H5_OVRWT_NONE) || (ov =? TES_H5_OVRWT_RELINK) || (ov =? TES_H5_OVRWT_FILE) = true)
    by (destruct Ho as [-> |[-> | ->]]; reflexivity).
  assert (Ec : (c =? TES_CAP_AUTO) || (c =? TES_CAP_CAPONLY) || (c =? TES_CAP_CONVONLY) = true)
    by (destruct Hc as [-> |[-> | ->]]; reflexivity).
  rewrite Eo, Ec. cbn [negb].
  destruct (Z.eqb_spec e 0) as [-> |]; destruct (Z.eqb_spec t 0) as [-> |]; cbn [negb andb];
    destruct Hc as [-> |[-> | ->]]; cbn; unfold c_true;
    rewrite ?(proj2 (Z.eqb_neq t 0)), ?(proj2 (Z.eqb_neq e 0)) by done; cbn; naive_solver lia.
Qed.

(** C23: what the client sends to the capture task.  A request leaves the client
    only after the user has agreed to the text that describes it; its numbers fit
    their frames; the server takes it exactly if it is consistent, and takes it
    for a status request exactly if it was announced as one. *)
Theorem remote_request_agrees stdin prog server filename argv l : exists cs,
  (s_remote_save_all stdin prog server filename argv l).2 = l ++ cs /\
  forall pic args, ZsockRequest pic args ∈ cs ->
    pic = TES_CAP_REQ_PIC /\ confirmed cs /\
    exists o, args = cap_args filename o /\ CliPuts (announce filename o) ∈ cs /\ fits o /\
      forall (E : CapEnv) d,
        let '(status, d') := Cap.s_is_req_valid (Cap.set_req d (received filename o)) in
        (status = TES_CAP_REQ_OK <-> consistent o) /\
        (status = TES_CAP_REQ_OK -> Cap.nocapture d' && Cap.noconvert d' = is_status o).
Proof.
  unfold s_remote_save_all, mbind, sys_bind at 1.
  destruct (cap_options_only (fun _ _ => False) prog argv no_opts l) as (cs1 & E1 & Hc1).
  destruct (cmd_options _ _ _ _ _ _ l) as [[[o|]|f] l1] eqn:Eo; simpl in E1; subst l1;
    [|exists cs1; split; [done|]; intros; by destruct (only_False cs1 pic args)..].
  assert (Hf := cap_options_fit _ _ _ _ _ Eo). rewrite sys_run_. set (l2 := (l ++ cs1) ++ _).
  destruct (prompt_log stdin l2) as (rc & cs2 & E2 & Hc2 & Hy). rewrite (sys_bind_Done _ _ _ _ _ E2).
  assert (Hn : forall pic args, ZsockRequest pic args ∈ cs1 ++ [CliPuts (announce filename o)] ++ cs2 -> False).
  { intros pic args. apply only_False. repeat (apply Forall_app; split); try done. by repeat constructor. }
  destruct (c_true rc) eqn:Erc.
  { exists (cs1 ++ [CliPuts (announce filename o)] ++ cs2). unfold l2. simpl.
    rewrite <- !app_assoc. split; [done|]. intros pic args Hi. by destruct (Hn pic args). }
  destruct (save_remote_only server filename o (l2 ++ cs2)) as (cs3 & E3 & Hc3).
  exists ((cs1 ++ [CliPuts (announce filename o)] ++ cs2) ++ cs3). rewrite E3. unfold l2.
  rewrite <- !app_assoc. split; [done|]. intros pic args Hi. rewrite !app_assoc in Hi.
  apply elem_of_app in Hi as [Hi|Hi]; [rewrite <- !app_assoc in Hi; by destruct (Hn pic args)|].
  destruct (proj1 (Forall_forall _ _) Hc3 _ Hi) as [-> ->]. split; [done|].
  split; [destruct (Hy eq_refl) as [b Hb]; exists b; set_solver|].
  exists o. split; [done|]. split; [set_solver|]. split; [done|]. intros E d. by apply server_accepts.
Qed.
End Remote.

(** ** The command line of a capture *)

Section CommandLine.
Context `{SysEnv} `{ClientEnv}.

Definition flag (b : bool) (c : byte) : list item := if b then [IFlag c] else [].

(** The options that ask for [o]. *)
Definition mode_items (o : cap_opts) : list item :=
  flag (ovrwtmode o =? TES_H5_OVRWT_RELINK) x72 ++ flag (ovrwtmode o =? TES_H5_OVRWT_FILE) x6f ++
  flag (capmode o =? TES_CAP_CAPONLY) x63 ++ flag (capmode o =? TES_CAP_CONVONLY) x43 ++
  flag (async o =? 1) x61.
Definition cap_items (o : cap_opts) : list item :=
  [IArg x6d (measurement o); IArg x74 (dec (min_ticks o)); IArg x65 (dec (min_events o))] ++ mode_items o.
Definition cmdline (prog : bytes) (items : list item) : list bytes := prog :: concat (words <$> items).

Lemma run_items_cons {A} (on_arg : nat -> A -> sysM (option A)) on_opt i it items a a' l l' :
  run_item on_arg on_opt i it a l = (Done (Some a'), l') ->
  run_items on_arg on_opt i (it :: items) a l =
    run_items on_arg on_opt (i + length (words it)) items a' l'.
Proof. intros E. cbn [run_items]. by rewrite (sys_bind_Done _ _ _ _ _ E). Qed.

(** What [main] makes of the items of a command: the options of its own are left
    to the command. *)
Definition own_item (it : item) : Prop :=
  match it with
  | IArg c _ | IFlag c => c <> x5a /\ c <> x46 /\ c <> x68
  | IWord _ => False
  end.
Definition command_items (server name filename : bytes) (own : list item) : list item :=
  [IArg x5a server; IWord name] ++ (if strlen filename =? 0 then [] else [IArg x46 filename]) ++ own.

Lemma run_own_items argv p own : Forall own_item own -> forall i st l,
  run_items (main_arg argv) (main_opt p) i own st l = (Done (Some st), l).
Proof.
  induction 1 as [|it own Hit Hown IH]; intros i st l; [done|].
  erewrite run_items_cons; [apply IH|].
  destruct it as [c arg|c|w]; [| |done]; destruct Hit as (H1 & H2 & H3); by destruct c.
Qed.

Lemma snprintf_fits n (s : bytes) : strlen s < n -> (snprintf n s).2 = s.
Proof. intros Hn. unfold snprintf, strlen in *. simpl. apply take_ge. lia. Qed.

Lemma command_items_ok os server name filename own :
  takes_arg os x5a = Some true -> takes_arg os x46 = Some true -> hd_error name <> Some x2d ->
  Forall (item_ok os) own -> Forall (item_ok os) (command_items server name filename own).
Proof.
  intros Hz Hf Hn Hown. unfold command_items. apply Forall_app. split; [by repeat constructor|].
  apply Forall_app. split; [|done]. destruct (_ =? 0); by repeat constructor.
Qed.

Lemma main_options prog server name filename own argv p l :
  argv = cmdline prog (command_items server name filename own) -> strlen server < 1024 ->
  strlen filename < PATH_MAX -> strlen name < 64 -> hd_error name <> Some x2d ->
  Forall own_item own -> Forall (item_ok main_opts_string) own ->
  opt_loop argv main_opts_string (main_arg argv) (main_opt p) (opts_left argv getopt_start)
    getopt_start (Build_main_opts [] [] []) l =
  (Done (Some (Build_main_opts server filename name)), l).
Proof.
  intros Ea Hs Hf Hn Hh Hown Hok.
  change getopt_start with {| optind := length [prog]; nextchar := [] |} at 2.
  rewrite (opt_loop_items _ _ _ _ (command_items server name filename own));
    [|done|by apply command_items_ok|by rewrite Ea; apply items_left].
  unfold command_items. cbn [app]. erewrite run_items_cons; [|reflexivity].
  cbn [m_server m_filename m_cmd]. rewrite snprintf_fits by done.
  erewrite run_items_cons; [|rewrite Ea; reflexivity].
  cbn [m_server m_filename m_cmd]. unfold strncpy_str. rewrite (take_ge name) by (unfold strlen in *; lia).
  destruct (Z.eqb_spec (strlen filename) 0) as [E|E]; cbn [app].
  - destruct filename; [|unfold strlen in E; simpl in E; lia]. by apply run_own_items.
  - erewrite run_items_cons; [|reflexivity]. cbn [m_server m_filename m_cmd].
    rewrite snprintf_fits by done. by apply run_own_items.
Qed.

(** A command line in its plain form runs its command. *)
Lemma main_command hists stdin prog server name filename own callback port required l :
  command hists stdin name = Some (callback, port, required) ->
  0 < strlen server < 1024 -> strlen filename < PATH_MAX -> (required = true -> filename <> []) ->
  0 < strlen name < 64 -> hd_error name <> Some x2d ->
  Forall own_item own -> Forall (item_ok main_opts_string) own ->
  let argv := cmdline prog (command_items server name filename own) in
  main hists stdin argv l =
    (server ← add_port server port;
     rc ← callback (strncpy_str PATH_MAX prog) server filename argv;
     sys_exit (if c_true rc then EXIT_FAILURE else EXIT_SUCCESS)) l.
Proof.
  intros Ec Hs Hf Hr Hn Hh Hown Hok argv. unfold main. rewrite (sys_bind_Done _ _ l prog l eq_refl).
  cbv zeta. rewrite (sys_bind_Done _ _ _ _ _ (main_options prog server name filename own argv
    (strncpy_str PATH_MAX prog) l eq_refl (proj2 Hs) Hf (proj2 Hn) Hh Hown Hok)).
  cbn [m_server m_filename m_cmd].
  assert (E64 : (sys_lift (c_str 64 name)) l = (Done name, l))
    by (unfold sys_lift, c_str; by rewrite (proj2 (Z.ltb_lt _ _) (proj2 Hn))).
  rewrite (sys_bind_Done _ _ _ _ _ E64).
  rewrite (proj2 (Z.eqb_neq (strlen server) 0)), (proj2 (Z.eqb_neq (strlen name) 0)) by lia. rewrite Ec.
  apply sys_bind_ext. intros server' l1. destruct required; [|done]. cbn [andb].
  rewrite (proj2 (Z.eqb_neq (strlen filename) 0)); [done|]. unfold strlen.
  destruct filename; [by destruct Hr|]. simpl. lia.
Qed.

Lemma cap_items_own os (o : cap_opts) :
  os = main_opts_string \/ os = OPTS_G ++ OPTS_R_ALL ->
  Forall own_item (cap_items o) /\ Forall (item_ok os) (cap_items o).
Proof.
  intros Hos. assert (Hi : forall c b, takes_arg main_opts_string c = Some b ->
    takes_arg (OPTS_G ++ OPTS_R_ALL) c = Some b -> takes_arg os c = Some b)
    by (intros c b E1 E2; by destruct Hos as [-> | ->]).
  assert (Hf : forall b c, own_item (IFlag c) -> c <> x2d -> takes_arg os c = Some false ->
    Forall own_item (flag b c) /\ Forall (item_ok os) (flag b c))
    by (intros [] c H1 H2 H3; split; repeat (apply Forall_cons_2 || apply Forall_nil_2); done).
  assert (Hm : Forall own_item (mode_items o) /\ Forall (item_ok os) (mode_items o)).
  { unfold mode_items. rewrite !Forall_app.
    repeat split; (apply Hf; [done|done|by apply Hi]). }
  unfold cap_items. split; apply Forall_app; (split; [|apply Hm]);
    repeat (apply Forall_cons_2 || apply Forall_nil_2); try done; (split; [done|by apply Hi]).
Qed.

(** The command itself sees its own options only. *)
Lemma cmd_own_options {A} prog server name filename own os skipped (set : byte -> bytes -> A -> sysM (option A))
    argv p a l :
  argv = cmdline prog (command_items server name filename own) -> hd_error name <> Some x2d ->
  x5a ∈ skipped -> (filename = [] \/ x46 ∈ skipped) ->
  Forall (item_ok (OPTS_G ++ os)) own ->
  exists i, cmd_options p os skipped set argv a l =
    run_items (fun _ a => mret (Some a)) (cmd_opt p skipped set) i own a l.
Proof.
  intros Ea Hn Hz Hf Hok. unfold cmd_options.
  change getopt_start with {| optind := length [prog]; nextchar := [] |} at 2.
  rewrite (opt_loop_items _ _ _ _ (command_items server name filename own));
    [|done|by apply command_items_ok|by rewrite Ea; apply items_left].
  unfold command_items. cbn [app].
  assert (Hskip : forall i c arg own, c ∈ skipped ->
    run_items (fun _ a => mret (Some a)) (cmd_opt p skipped set) i (IArg c arg :: own) a l =
    run_items (fun _ a => mret (Some a)) (cmd_opt p skipped set) (i + 2) own a l).
  { intros i c arg own' Hc. erewrite run_items_cons; [reflexivity|]. cbn [run_item cmd_opt].
    by rewrite bool_decide_true. }
  rewrite Hskip by done. erewrite run_items_cons; [|reflexivity].
  destruct (Z.eqb_spec (strlen filename) 0) as [E|E]; cbn [app]; [by eexists|].
  rewrite Hskip; [by eexists|]. destruct Hf as [->|]; [by destruct E|done].
Qed.

Lemma number_dec {A} p c n (set : Z -> A) l : is_u64 n ->
  number p c (dec n) set l = (Done (Some (set n)), l).
Proof. intros Hn. unfold number. by rewrite strtoul_dec. Qed.

Definition remote_items (server filename : bytes) (o : cap_opts) : list item :=
  command_items server (lit "remote_all") filename (cap_items o).

Lemma remote_options prog server filename o p l : fits o ->
  cmd_options p OPTS_R_ALL (lit "ZF") (cap_set p) (cmdline prog (remote_items server filename o)) no_opts l =
  (Done (Some o), l).
Proof.
  intros Hfit. destruct (cmd_own_options prog server (lit "remote_all") filename (cap_items o) OPTS_R_ALL
    (lit "ZF") (cap_set p) (cmdline prog (remote_items server filename o)) p no_opts l) as [i ->];
    [done|done|left|right; right; left|apply cap_items_own; auto|].
  destruct o as [m t e ov a c]. destruct Hfit as (Hm & Ht & He & Ho & Ha & Hc).
  unfold cap_items. cbn [app measurement min_ticks min_events ovrwtmode async capmode] in *.
  erewrite run_items_cons; [|reflexivity]. rewrite snprintf_fits by done.
  erewrite run_items_cons; [|by apply (number_dec p x74)].
  erewrite run_items_cons; [|by apply (number_dec p x65)]. unfold mode_items.
  destruct Ho as [-> |[-> | ->]], Ha as [-> | ->], Hc as [-> |[-> | ->]]; reflexivity.
Qed.

Lemma remote_main hists stdin prog server filename o l :
  fits o -> 0 < strlen server < 1024 -> 0 < strlen filename < PATH_MAX ->
  main hists stdin (cmdline prog (remote_items server filename o)) l =
    (server ← add_port server TES_CAP_LPORT;
     sys_ (CliPuts (announce filename o));;
     no ← s_prompt stdin;
     rc ← (if c_true no then mret (-1) else save_remote server filename o);
     sys_exit (if c_true rc then EXIT_FAILURE else EXIT_SUCCESS)) l.
Proof.
  intros Hfit Hs Hf. destruct (cap_items_own main_opts_string o (or_introl eq_refl)) as [Hown Hok].
  assert (Hne : filename <> []) by (intros ->; unfold strlen in Hf; simpl in Hf; lia).
  unfold remote_items. rewrite (main_command hists stdin prog server (lit "remote_all") filename
    (cap_items o) (s_remote_save_all stdin) TES_CAP_LPORT true) by (done || lia).
  apply sys_bind_ext. intros server' l1. unfold s_remote_save_all. rewrite !sys_bind_assoc.
  rewrite (sys_bind_Done _ _ _ _ _ (remote_options prog server filename o _ l1 Hfit)).
  rewrite sys_bind_assoc. apply sys_bind_ext. intros [] l2. rewrite sys_bind_assoc.
  by apply sys_bind_ext.
Qed.

(** C22: every capture can be asked for, and the command line that asks for it is
    understood as just that: for a server and a filename that fit their arrays
    and any request whose numbers are in range, the client connects to the server
    (with the port of the capture task if none is given), announces the request
    and, if the user agrees, sends it. *)
Theorem command_line_roundtrip hists stdin prog server filename o l :
  fits o -> 0 < strlen server < 1024 -> 0 < strlen filename < PATH_MAX ->
  main hists stdin (cmdline prog (remote_items server filename o)) l =
    (server ← add_port server TES_CAP_LPORT;
     sys_ (CliPuts (announce filename o));;
     no ← s_prompt stdin;
     rc ← (if c_true no then mret (-1) else save_remote server filename o);
     sys_exit (if c_true rc then EXIT_FAILURE else EXIT_SUCCESS)) l.
Proof. apply remote_main. Qed.
End CommandLine.

(** ** Local files *)

Section Files.
Context `{SysEnv} `{ClientEnv}.

Definition zeros (n : Z) : bytes := replicate (Z.to_nat n) x00.

(** What a call that succeeds makes of the contents of the file, which is opened
    for appending and mapped. *)
Definition file_step (f : bytes) (c : sys_call) : bytes :=
  match c with
  | CliFallocate _ off len => f ++ zeros (off + len - strlen f)
  | ZmqRecv off max (Some data) => splice f (Z.to_nat off) (take (Z.to_nat max) data)
  | CliFtruncate _ len => take (Z.to_nat len) f ++ zeros (len - strlen f)
  | SysWrite _ data => f ++ data
  | _ => f
  end.
Definition replay (f : bytes) (cs : list sys_call) : bytes := fold_left file_step cs f.

Lemma replay_app f cs cs' : replay f (cs ++ cs') = replay (replay f cs) cs'.
Proof. apply fold_left_app. Qed.

(** The histograms that are stored: up to [n], until one is too large or there is
    an error. *)
Fixpoint stored (n : nat) (max : Z) (hists : list (option bytes)) : list bytes :=
  match n, hists with
  | S n, Some h :: hists => if strlen h <=? max then h :: stored n max hists else []
  | _, _ => []
  end.

Lemma strlen_nonneg s : 0 <= strlen s.
Proof. unfold strlen. lia. Qed.

(** The loop stays in the mapping and stores the histograms one after another. *)
Lemma hist_loop_file n max fsize maplen hists : forall h hsize f l,
  0 <= max -> 0 <= fsize -> maplen = fsize + n * max -> maplen < 2 ^ 64 -> strlen f = maplen ->
  0 <= h <= n -> n < 2 ^ 64 -> 0 <= hsize <= h * max ->
  exists h' hsize' cs, hist_loop n max fsize maplen hists h hsize l = (Done (h', hsize'), l ++ cs) /\
    hsize' = hsize + strlen (concat (stored (Z.to_nat (n - h)) max hists)) /\
    0 <= hsize' <= n * max /\ strlen (replay f cs) = maplen /\
    take (Z.to_nat (fsize + hsize')) (replay f cs) =
      take (Z.to_nat (fsize + hsize)) f ++ concat (stored (Z.to_nat (n - h)) max hists).
Proof.
  induction hists as [|hist hists IH]; intros h hsize f l Hmax Hfs Hml Hm64 Hf Hh Hn Hs; cbn [hist_loop].
  { exists h, hsize, []. rewrite app_nil_r. split; [done|]. replace (stored _ _ []) with (@nil bytes)
      by (by destruct (Z.to_nat (n - h))). simpl. rewrite app_nil_r. unfold strlen at 1. simpl.
    split; [lia|]. split; [nia|]. done. }
  destruct (Z.ltb_spec h n) as [Hlt|Hge]; cbn [negb].
  2:{ exists h, hsize, []. rewrite app_nil_r. split; [done|]. replace (Z.to_nat (n - h)) with 0%nat by lia.
      simpl. rewrite app_nil_r. unfold strlen at 1. simpl. split; [lia|]. split; [nia|]. done. }
  assert (Hoff : 0 <= fsize + hsize /\ fsize + hsize + max <= maplen) by nia.
  cbv zeta. rewrite to_u64_id by (unfold is_u64; lia). rewrite sys_run_.
  replace (Z.to_nat (n - h)) with (S (Z.to_nat (n - (h + 1)))) by lia. cbn [stored].
  destruct hist as [data|].
  2:{ rewrite sys_run_. eexists h, hsize, [_; _]. rewrite <- app_assoc. split; [reflexivity|].
      simpl. rewrite app_nil_r. unfold strlen at 1. simpl. split; [lia|]. split; [nia|]. done. }
  pose proof (strlen_nonneg data) as Hd. rewrite (proj2 (Z.ltb_ge maplen _)) by lia.
  set (call := ZmqRecv (fsize + hsize) max (Some data)).
  assert (Hlen : (length (take (Z.to_nat max) data) <= Z.to_nat max)%nat) by (rewrite length_take; lia).
  assert (Hfit : (Z.to_nat (fsize + hsize) + length (take (Z.to_nat max) data) <= length f)%nat)
    by (unfold strlen in Hf; lia).
  assert (Hstep : strlen (file_step f call) = maplen)
    by (unfold strlen in *; simpl; by rewrite length_splice).
  destruct (Z.ltb_spec max (strlen data)) as [Hbig|Hsmall].
  - rewrite sys_run_. eexists h, hsize, [call; _]. rewrite <- app_assoc. split; [reflexivity|].
    rewrite (proj2 (Z.leb_gt (strlen data) max)) by done. simpl. rewrite app_nil_r. unfold strlen at 1. simpl.
    split; [lia|]. split; [nia|]. split; [done|]. by apply take_splice_le.
  - rewrite (proj2 (Z.leb_le (strlen data) max)) by done.
    rewrite !to_u64_id by (unfold is_u64; nia).
    destruct (IH (h + 1) (hsize + strlen data) (file_step f call) (l ++ [call]))
      as (h' & hsize' & cs & E & Ehs & Hb & El & Et); [done|done|done|done|done|lia|done|nia|].
    rewrite E. exists h', hsize', (call :: cs). rewrite <- app_assoc. split; [done|].
    change (replay f (call :: cs)) with (replay (file_step f call) cs). cbn [concat].
    split; [unfold strlen in *; rewrite length_app; lia|]. split; [done|]. split; [done|].
    rewrite Et, app_assoc. f_equal. cbn [file_step call].
    assert (Etake : take (Z.to_nat max) data = data) by (apply take_ge; unfold strlen in *; lia).
    rewrite Etake in *. rewrite <- take_splice by done. f_equal. unfold strlen. lia.
Qed.

(** What is printed while a client waits for a reply. *)
Definition awaiting : sys_call := CliPuts (lit "Waiting for reply" ++ nl).

(** The calls for a file that holds [old] succeed. *)
Class LocalLaws (old : bytes) : Prop := {
  sock_ok : forall l s, sys_rc l (ZsockNewReq s) <> 0 /\ sys_rc l (ZsockNewSub s) <> 0;
  open_ok : forall l f, sys_rc l (CliOpen f) <> -1;
  size_ok : forall l fd, sys_rc l (SysLseekEnd fd) = strlen old;
  alloc_ok : forall l fd off len, sys_rc l (CliFallocate fd off len) = 0;
  map_ok : forall l fd len, sys_rc l (SysMmap fd len) <> -1;
  trunc_ok : forall l fd len, sys_rc l (CliFtruncate fd len) <> -1;
  write_ok : forall l fd data, sys_rc l (SysWrite fd data) = strlen data;
}.

(** Calls that leave the file alone. *)
Definition aside (c : sys_call) : Prop := forall f, file_step f c = f.

Lemma aside_replay cs f : Forall aside cs -> replay f cs = f.
Proof.
  intros Ha. revert f. induction Ha as [|c cs Hc _ IH]; intros f; [done|].
  change (replay f (c :: cs)) with (replay (file_step f c) cs). by rewrite Hc.
Qed.

Lemma connect_ok `{!LocalLaws old} c l :
  (exists s, c = ZsockNewReq s \/ c = ZsockNewSub s) -> connect c l = (Done true, l ++ [c]).
Proof.
  intros (s & Hc). unfold connect. assert (Hn : sys_rc l c <> 0).
  { destruct (sock_ok l s), Hc as [-> | ->]; done. }
  unfold mbind, sys_bind, sys_e. by rewrite (proj2 (Z.eqb_neq _ _) Hn).
Qed.

Lemma open_append_ok `{!LocalLaws old} filename l :
  exists fd cs, open_append filename l = (Done (Some (fd, strlen old)), l ++ cs) /\ Forall aside cs.
Proof.
  unfold open_append. rewrite sys_run, (proj2 (Z.eqb_neq _ _) (open_ok l filename)).
  set (fd := sys_rc l _). rewrite sys_run, size_ok.
  rewrite (proj2 (Z.eqb_neq (strlen old) (-1))) by (pose proof (strlen_nonneg old); lia).
  destruct (0 <? strlen old).
  - rewrite sys_run_. exists fd, [CliOpen filename; SysLseekEnd fd;
      CliPuts (lit "Appending to file of size " ++ dec (strlen old) ++ nl)].
    rewrite <- !app_assoc. split; [done|]. by repeat constructor.
  - exists fd, [CliOpen filename; SysLseekEnd fd]. rewrite <- !app_assoc. split; [done|].
    by repeat constructor.
Qed.

Lemma save_hist_ok old (L : LocalLaws old) hists server filename n max l :
  0 < n -> is_u64 n -> 0 <= max -> strlen old + n * max < 2 ^ 64 ->
  exists cs, save_hist hists server filename n max l = (Done 0, l ++ cs) /\
    replay old cs = old ++ concat (stored (Z.to_nat n) max hists).
Proof.
  intros Hn Hn64 Hmax H64. pose proof (strlen_nonneg old) as Hold. unfold save_hist.
  rewrite (sys_bind_Done _ _ _ _ _ (connect_ok (ZsockNewSub server) l ltac:(eauto))). cbn [negb].
  destruct (open_append_ok filename (l ++ [ZsockNewSub server])) as (fd & cs1 & E1 & Ha1).
  rewrite (sys_bind_Done _ _ _ _ _ E1). cbv zeta.
  rewrite (to_u64_id (n * max)) by (unfold is_u64; nia).
  rewrite to_u64_id by (unfold is_u64; nia). rewrite sys_run, alloc_ok. cbn [c_true Z.eqb negb].
  rewrite sys_run, (proj2 (Z.eqb_neq _ _) (map_ok _ _ _)).
  set (alloc := CliFallocate fd (strlen old) (n * max)). set (l2 := _ ++ [SysMmap _ _]).
  set (addr := sys_rc _ (SysMmap _ _)).
  set (f := file_step old alloc).
  assert (Ef : f = old ++ zeros (n * max)) by (unfold f; simpl; do 2 f_equal; lia).
  assert (Hf : strlen f = strlen old + n * max).
  { rewrite Ef. unfold strlen, zeros. rewrite length_app, length_replicate. nia. }
  destruct (hist_loop_file n max (strlen old) (strlen old + n * max) hists 0 0 f l2)
    as (h & hsize & cs2 & E2 & Ehs & Hb & El & Et); [done|done|done|done|done|lia|apply Hn64|lia|].
  rewrite (sys_bind_Done _ _ _ _ _ E2). rewrite Z.sub_0_r, Z.add_0_r in *.
  set (saved := if h <? n - 1 then _ else _).
  assert (Es : exists cs3, saved (l2 ++ cs2) = (Done tt, (l2 ++ cs2) ++ cs3) /\ Forall aside cs3).
  { unfold saved. destruct (h <? n - 1); [eexists [_]|exists []; rewrite app_nil_r];
      (split; [done|by repeat constructor]). }
  destruct Es as (cs3 & Es & Ha3). rewrite (sys_bind_Done _ _ _ _ _ Es), !sys_run_, sys_run.
  rewrite (to_u64_id (strlen old + hsize)) by (unfold is_u64; lia).
  rewrite (proj2 (Z.eqb_neq _ _) (trunc_ok _ _ _)).
  rewrite (sys_bind_Done (mret tt) _ _ tt _ eq_refl), sys_run_.
  exists (([ZsockNewSub server] ++ cs1) ++ [alloc] ++ [SysMmap fd (strlen old + n * max)] ++ cs2 ++ cs3 ++
    [CliSockDestroy; SysMunmap addr (n * max); CliFtruncate fd (strlen old + hsize); SysClose fd]).
  split; [unfold l2; by rewrite <- !app_assoc|].
  rewrite !replay_app. change (replay old [ZsockNewSub server]) with old. rewrite (aside_replay cs1) by done.
  change (replay old [alloc]) with f. change (replay f [SysMmap _ _]) with f. rewrite (aside_replay cs3) by done.
  cbn [replay fold_left file_step]. rewrite Et, El, Ef, Z.add_0_l in *.
  replace (zeros (strlen old + hsize - _)) with (@nil byte) by (unfold zeros; by replace (Z.to_nat _) with 0%nat by nia).
  rewrite app_nil_r. f_equal. apply take_app_length'. unfold strlen. lia.
Qed.

(** If the calls succeed and what is asked for fits in 64 bits, then every
    access is inside the mapping, and at the end the file is what it was with the
    histograms that arrived after it, in order and whole, up to the number asked
    for or the first that is too large: nothing of the space allocated is left. *)
Theorem local_hist_file old (L : LocalLaws old) hists server filename n max l :
  0 < n -> is_u64 n -> 0 <= max -> strlen old + n * max < 2 ^ 64 ->
  exists cs, save_hist hists server filename n max l = (Done 0, l ++ cs) /\
    replay old cs = old ++ concat (stored (Z.to_nat n) max hists).
Proof. apply save_hist_ok, L. Qed.

(** Up to the reply [r] the file is left alone. *)
Lemma save_trace_asks old (L : LocalLaws old) server filename timeout l r :
  (forall l, recv_chunk (l ++ [ZsockRequest TES_AVGTR_REQ_PIC [ZNum timeout]; awaiting]) = r) ->
  exists fd cs, Forall aside cs /\
    save_trace server filename timeout l =
      match r with
      | None => mret (-1)
      | Some (rep, trace) =>
          trace ← print_trace rep trace; write_trace fd trace;; sys_ (SysClose fd);; mret 0
      end (l ++ cs).
Proof.
  intros Hrecv. unfold save_trace.
  rewrite (sys_bind_Done _ _ _ _ _ (connect_ok (ZsockNewReq server) l ltac:(eauto))). cbn [negb].
  destruct (open_append_ok filename (l ++ [ZsockNewReq server])) as (fd & cs1 & E1 & Ha1).
  rewrite (sys_bind_Done _ _ _ _ _ E1). cbv beta iota. rewrite !sys_run_.
  set (send := ZsockRequest _ _). fold awaiting. set (l1 := (_ ++ [send]) ++ [awaiting]).
  rewrite (sys_bind_Done _ _ l1 _ (l1 ++ [ZsockReply TES_AVGTR_REP_PIC]) eq_refl).
  assert (Er : recv_chunk l1 = r) by (unfold l1; rewrite <- app_assoc; apply Hrecv).
  rewrite Er, sys_run_.
  exists fd, ([ZsockNewReq server] ++ cs1 ++ [send; awaiting; ZsockReply TES_AVGTR_REP_PIC; CliSockDestroy]).
  split; [by repeat (apply Forall_app; split); repeat constructor|].
  unfold l1. by rewrite <- !app_assoc.
Qed.

Lemma save_trace_ok old (L : LocalLaws old) server filename timeout l rep trace :
  (forall l, recv_chunk (l ++ [ZsockRequest TES_AVGTR_REQ_PIC [ZNum timeout]; awaiting]) = Some (rep, trace)) ->
  (rep = TES_AVGTR_REQ_OK \/ rep = TES_AVGTR_REQ_EINV \/ rep = TES_AVGTR_REQ_ETOUT ->
   exists cs, save_trace server filename timeout l = (Done 0, l ++ cs) /\
     replay old cs = if rep =? TES_AVGTR_REQ_OK then old ++ trace else old) /\
  (Avgtr.reply_of Avgtr.Dropped = ZsockSend 0 TES_AVGTR_REP_PIC [ZNum rep; ZChunk trace] ->
   (save_trace server filename timeout l).1 = Failed AssertFail).
Proof.
  intros Hrecv. destruct (save_trace_asks old L server filename timeout l _ Hrecv) as (fd & cs & Ha & ->).
  split; [|by intros [= <- <-]].
  intros Hrep. set (l2 := l ++ cs). assert (Hp : exists msg, print_trace rep trace l2 =
      (Done (if rep =? TES_AVGTR_REQ_OK then trace else []), (l2 ++ [CliPuts nl]) ++ [CliPuts msg])).
  { unfold print_trace. rewrite sys_run_.
    destruct Hrep as [-> |[-> | ->]]; eexists; reflexivity. }
  destruct Hp as (msg & Hp). rewrite (sys_bind_Done _ _ _ _ _ Hp).
  set (data := if rep =? TES_AVGTR_REQ_OK then trace else []). set (l3 := (l2 ++ _) ++ _).
  assert (Hw : exists cs3, write_trace fd data l3 = (Done tt, l3 ++ cs3) /\ replay old cs3 = old ++ data).
  { unfold write_trace. destruct (Z.eqb_spec (strlen data) 0) as [E|E].
    - exists []. destruct data; [|done]. by rewrite !app_nil_r.
    - rewrite sys_run, write_ok. rewrite (proj2 (Z.eqb_neq (strlen data) (-1)))
        by (pose proof (strlen_nonneg data); lia). rewrite Z.eqb_refl. by exists [SysWrite fd data]. }
  destruct Hw as (cs3 & Ew & Hw). rewrite (sys_bind_Done _ _ _ _ _ Ew), sys_run_.
  exists (cs ++ [CliPuts nl; CliPuts msg] ++ cs3 ++ [SysClose fd]).
  split; [unfold l3, l2; by rewrite <- !app_assoc|].
  rewrite !replay_app, (aside_replay cs) by done.
  change (replay old [CliPuts nl; _]) with old. rewrite Hw. subst data. simpl.
  destruct (rep =? _); [done|by rewrite app_nil_r].
Qed.

(** No reply: the file is as it was. *)
Lemma save_trace_none old (L : LocalLaws old) server filename timeout l :
  (forall l, recv_chunk (l ++ [ZsockRequest TES_AVGTR_REQ_PIC [ZNum timeout]; awaiting]) = None) ->
  exists cs, save_trace server filename timeout l = (Done (-1), l ++ cs) /\ replay old cs = old.
Proof.
  intros Hrecv. destruct (save_trace_asks old L server filename timeout l _ Hrecv) as (fd & cs & Ha & ->).
  exists cs. split; [done|by apply aside_replay].
Qed.

(** The replies to a request for a trace.  A trace is appended to the file, a
    refused or expired request leaves the file as it was.  But the server also
    replies, when it has dropped the trace it was recording, with a code that the
    client does not know: then the client stops at an assertion. *)
Theorem local_trace_file old (L : LocalLaws old) server filename timeout l rep trace :
  (forall l, recv_chunk l = Some (rep, trace)) ->
  (rep = TES_AVGTR_REQ_OK \/ rep = TES_AVGTR_REQ_EINV \/ rep = TES_AVGTR_REQ_ETOUT ->
   exists cs, save_trace server filename timeout l = (Done 0, l ++ cs) /\
     replay old cs = if rep =? TES_AVGTR_REQ_OK then old ++ trace else old) /\
  (Avgtr.reply_of Avgtr.Dropped = ZsockSend 0 TES_AVGTR_REP_PIC [ZNum rep; ZChunk trace] ->
   (save_trace server filename timeout l).1 = Failed AssertFail).
Proof. intros Hrecv. apply save_trace_ok; [exact L|]. intros l'. apply Hrecv. Qed.

(** The size of what is asked for is computed in 64 bits: if it wraps around, then
    histograms of full size leave the mapping. *)
Lemma hist_loop_leaves n max fsize maplen hist k : forall h l,
  0 < max -> 0 <= fsize -> fsize + h * max <= maplen -> maplen < 2 ^ 64 -> strlen hist = max ->
  0 <= h -> h + Z.of_nat k <= n -> is_u64 n -> maplen < fsize + (h + Z.of_nat k) * max ->
  (hist_loop n max fsize maplen (replicate k (Some hist)) h (h * max) l).1 = Failed OutOfBounds.
Proof.
  induction k as [|k IH]; intros h l Hmax Hfs Hin H64 Hh Hh0 Hk [_ Hn] Hout; [lia|].
  cbn [replicate hist_loop]. rewrite (proj2 (Z.ltb_lt h n)) by lia. cbn [negb]. cbv zeta.
  rewrite (to_u64_id (fsize + h * max)) by (unfold is_u64; nia). rewrite sys_run_, Hh, Z.min_id.
  destruct (Z.ltb_spec maplen (fsize + h * max + max)) as [|Hfit]; [done|].
  rewrite Z.ltb_irrefl, !to_u64_id by (unfold is_u64; nia).
  replace (h * max + max) with ((h + 1) * max) by lia. apply IH; try done; try lia. by split; [lia|].
Qed.

Theorem hist_count_wraps old (L : LocalLaws old) server filename n max hist l :
  0 < max -> is_u64 n -> strlen hist = max -> 2 ^ 64 <= n * max ->
  strlen old + to_u64 (n * max) < 2 ^ 64 ->
  exists k, (save_hist (replicate k (Some hist)) server filename n max l).1 = Failed OutOfBounds.
Proof.
  intros Hmax Hn Hh Hwrap H64. pose proof (strlen_nonneg old) as Hold. set (total := to_u64 (n * max)) in *.
  pose proof (to_u64_range (n * max)) as Ht. fold total in Ht. unfold is_u64 in Ht.
  assert (Hq : total / max < n) by (apply Z.div_lt_upper_bound; lia).
  pose proof (Z.div_pos total max ltac:(lia) Hmax) as Hq0.
  pose proof (Z.div_mod total max ltac:(lia)) as Hdm. pose proof (Z.mod_pos_bound total max Hmax) as Hmod.
  exists (S (Z.to_nat (total / max))). unfold save_hist.
  rewrite (sys_bind_Done _ _ _ _ _ (connect_ok (ZsockNewSub server) l ltac:(eauto))). cbn [negb].
  destruct (open_append_ok filename (l ++ [ZsockNewSub server])) as (fd & cs1 & E1 & Ha1).
  rewrite (sys_bind_Done _ _ _ _ _ E1). cbv zeta. fold total.
  rewrite sys_run, alloc_ok. cbn [c_true Z.eqb negb]. rewrite to_u64_id by (unfold is_u64; lia).
  rewrite sys_run, (proj2 (Z.eqb_neq _ _) (map_ok _ _ _)). set (l2 := _ ++ [SysMmap _ _]).
  apply sys_bind_Failed.
  apply (hist_loop_leaves n max (strlen old) (strlen old + total) hist _ 0 l2); try done; try lia; nia.
Qed.
End Files.

(** ** Where the client connects *)

(** The addresses that the task for a command binds. *)
Definition server_side `{ZEnv} `{CapEnv} (cmd : bytes) : list string :=
  if bool_decide (cmd = lit "server_info") then (@endpoints _ _ info_main).*2
  else if bool_decide (cmd = lit "jitter_conf") then (@endpoints _ _ jitter_main).*2
  else if bool_decide (cmd = lit "remote_all") then (@endpoints _ _ cap_main).*2
  else if bool_decide (cmd = lit "local_trace") then (@endpoints _ _ avgtr_main).*2
  else if bool_decide (cmd = lit "local_mca") then (@endpoints _ _ hist_main).*2
  else if bool_decide (cmd = lit "local_jitter") then (@endpoints _ _ jitter_main).*2
  else [].

(** For every command the default port of the client is one that the task in
    charge binds; it is added to a server given without a port, and to no other. *)
Theorem endpoints_agree `{SysEnv} `{ClientEnv} `{ZEnv} `{CapEnv} hists stdin cmd cb port b server l :
  command hists stdin cmd = Some (cb, port, b) ->
  tcp port ∈ server_side cmd /\
  (has_port server = true -> add_port server port l = (Done server, l)) /\
  (has_port server = false -> strlen server < 1018 ->
   let full := server ++ lit ":" ++ lit port in
   add_port server port l = (Done full, l ++ [CliPuts (lit "Connecting to " ++ full ++ nl)])).
Proof.
  intros Hc. assert (Hp : tcp port ∈ server_side cmd /\ strlen (lit port) = 5).
  { revert Hc. unfold command, server_side.
    repeat (case_bool_decide; [intros [= _ <- _]; split; [set_solver|reflexivity]|]). done. }
  destruct Hp as [Hp Hl]. split; [done|]. unfold add_port. split; intros ->; [done|].
  intros Hs. cbv zeta. replace (snprintf _ _).2 with (lit ":" ++ lit port); [done|].
  unfold snprintf, strlen in *. simpl. symmetry. apply take_ge. simpl. lia.
Qed.

(** ** Samples *)

(** Every call succeeds; the local file holds two bytes; a reply is OK with the
    counters 0, 1, ..., or a trace of three bytes. *)
Module ClientSample.
Definition old : bytes := lit "ab".
Definition agree : list bytes := [[x79; x0a]].
Definition tesc : bytes := lit "tesc".

#[export] Instance sys : SysEnv := {|
  sys_rc := fun _ c => match c with
    | ZsockNewReq _ | ZsockNewSub _ => 1
    | CliOpen _ => 3
    | SysLseekEnd _ => strlen old
    | SysMmap _ _ => 4096
    | SysWrite _ data => strlen data
    | _ => 0
    end;
  sys_errno := fun _ _ => 0; sys_path := fun _ p => Some p; sys_bytes := fun _ _ => [];
  sys_pipe := fun _ => (4, 5) |}.
#[export] Instance client : ClientEnv := {|
  recv_nums := fun _ => Some (0, fun i => Z.of_nat i);
  recv_chunk := fun _ => Some (TES_AVGTR_REQ_OK, lit "xyz") |}.

(** The server has dropped the trace. *)
Definition dropped : ClientEnv := {|
  recv_nums := fun _ => None; recv_chunk := fun _ => Some (TES_AVGTR_REQ_EERR, []) |}.

#[export] Instance laws : LocalLaws old.
Proof. by split. Qed.

(** An asynchronous capture of three ticks that moves an existing group. *)
Definition opts : cap_opts := Build_cap_opts (lit "m1") 3 0 TES_H5_OVRWT_RELINK 1 TES_CAP_AUTO.
End ClientSample.

#[local] Existing Instances ClientSample.sys ClientSample.client ClientSample.laws.

Lemma client_cleans_up_witness :
  exists l, main [] ClientSample.agree (lit <$> ["tesc"; "-F"; "x"; "local_trace"]%string) [] =
      (Failed (Exited EXIT_SUCCESS), l) /\ (resources l).1 = false.
Proof.
  destruct (main [] ClientSample.agree (lit <$> ["tesc"; "-F"; "x"; "local_trace"]%string) [])
    as [r l] eqn:E.
  assert (Er : r = Failed (Exited EXIT_SUCCESS)) by (vm_compute in E; by injection E as <- _).
  subst r. exists l. split; [done|]. exact (proj1 (client_cleans_up _ _ _ _ _ E)).
Defined.

Lemma command_line_roundtrip_witness :
  let o := ClientSample.opts in
  let server := lit "tcp://lab" in
  (main [] ClientSample.agree (cmdline ClientSample.tesc (remote_items server (lit "run1") o)) []).1 =
    Failed (Exited EXIT_SUCCESS).
Proof.
  cbv zeta. rewrite (command_line_roundtrip [] ClientSample.agree ClientSample.tesc (lit "tcp://lab") (lit "run1")
    ClientSample.opts []); [reflexivity| |by vm_compute|by vm_compute].
  unfold fits. split; [reflexivity|]. repeat split; try (by vm_compute); simpl; auto.
Defined.

Lemma local_hist_file_witness :
  exists cs, save_hist [Some (lit "123"); Some (lit "4567"); Some (lit "89")]
      (lit "tcp://lab:1") (lit "x") 2 4 [] = (Done 0, cs) /\
    replay ClientSample.old cs = lit "ab1234567".
Proof.
  destruct (local_hist_file ClientSample.old ClientSample.laws
    [Some (lit "123"); Some (lit "4567"); Some (lit "89")] (lit "tcp://lab:1") (lit "x") 2 4 [])
    as (cs & E & Ef); [done|by split|done|done|].
  exists cs. split; [exact E|exact Ef].
Defined.

Lemma local_trace_file_witness :
  (exists cs, save_trace (lit "tcp://lab:1") (lit "x") 5 [] = (Done 0, cs) /\
    replay ClientSample.old cs = lit "abxyz") /\
  (save_trace (H0 := ClientSample.dropped) (lit "tcp://lab:1") (lit "x") 5 []).1 = Failed AssertFail.
Proof.
  split.
  - destruct (local_trace_file ClientSample.old ClientSample.laws (lit "tcp://lab:1") (lit "x") 5 []
      TES_AVGTR_REQ_OK (lit "xyz")) as [Hok _]; [done|].
    destruct Hok as (cs & E & Ef); [by left|]. exists cs. split; [exact E|exact Ef].
  - apply (local_trace_file (H0 := ClientSample.dropped) ClientSample.old ClientSample.laws
      (lit "tcp://lab:1") (lit "x") 5 [] TES_AVGTR_REQ_EERR []); done.
Defined.

(** ** Command lines that go wrong *)

(** -F, which [main] takes for every command, is not among the cases of two. *)
Example server_info_filename_aborts :
  (main [] [] (lit <$> ["tesc"; "-F"; "x"; "server_info"]%string) []).1 = Failed AssertFail /\
  (main [] [] (lit <$> ["tesc"; "jitter_conf"; "-F"; "x"]%string) []).1 = Failed AssertFail.
Proof. split; reflexivity. Qed.

(** After a last "--" there is no argument to copy. *)
Example trailing_dashes_crash :
  (main [] [] (lit <$> ["tesc"; "--"]%string) []).1 = Failed NullDeref.
Proof. reflexivity. Qed.

(** A command of 64 characters fills its array. *)
Example long_command_overruns :
  (main [] [] [lit "tesc"; replicate 64 x61] []).1 = Failed OutOfBounds.
Proof. reflexivity. Qed.

(** The reference channel is cut to eight bits before anything checks it. *)
Example channel_truncated :
  exists l, jitter_set [] x52 (lit "256") {| ref_ch := 0; ticks := 0 |} [] =
    (Done (Some {| ref_ch := 0; ticks := 0 |}), l).
Proof. eexists. reflexivity. Qed.

(** A capture by events that is refused since the file exists. *)
Example refused_capture_message :
  (print_cap (set_min_events no_opts 5) TES_CAP_REQ_EABORT (fun _ => 0) []).2 =
    [CliPuts nl; CliPuts (lit "File does not exist" ++ nl)].
Proof. reflexivity. Qed.

#[local] Existing Instances Recorder.env CapSample.env.

Lemma endpoints_agree_witness :
  tcp TES_CAP_LPORT ∈ server_side (lit "remote_all") /\
  add_port DEFAULT_SERVER TES_CAP_LPORT [] =
    (Done (lit "tcp://localhost:55555"), [CliPuts (lit "Connecting to tcp://localhost:55555" ++ nl)]).
Proof.
  destruct (endpoints_agree [] [] (lit "remote_all") (s_remote_save_all []) TES_CAP_LPORT true
    DEFAULT_SERVER []) as (Hp & _ & Hf); [reflexivity|].
  split; [exact Hp|]. exact (Hf eq_refl eq_refl).
Defined.
