(* ===== verification/Session.v ===== *)
(** * Client and server together (src/bin/tesc.c, tesd_task_*.c)

    A client whose messages are the ones that the task in charge receives, and
    whose replies are the ones that this task sends.  How a message travels is
    outside of src/ (class [Wire]): what is relied on is that [zsock_recv] gives
    the arguments of the [zsock_send] with the same picture.  The theorems are
    about whole sessions: from the command line of the user to what is printed
    or stored. *)

From Stdlib Require Import ZArith Lia Strings.String Strings.Ascii Strings.Byte.
From stdpp Require Import base option list numbers decidable.
From S2P Require Import Prelude Sys Path Cmdline Daemon Hdf5 Tespkt Tesif Task TaskTheory TaskInfo.
From S2P Require Import TaskHist TaskAvgtr TaskJitter Coordinator.
From S2P Require Import TaskLife TaskList Client ClientTheory.

Open Scope Z_scope.

(** The frames that [zsock_send] makes of a picture and arguments, and what
    [zsock_recv] makes of frames. *)
Class Wire : Type := {
  zsock_pack : string -> list zarg -> list bytes;
  zsock_unpack : string -> list bytes -> option (list zarg);
}.

(** An argument that the letter of a picture stands for. *)
Definition arg_fits (c : ascii) (a : zarg) : Prop :=
  match c, a with
  | "1"%char, ZNum n => is_u8 n
  | "4"%char, ZNum n => is_u32 n
  | "8"%char, ZNum n => is_u64 n
  | "s"%char, ZStr s => x00 ∉ s
  | "b"%char, ZChunk _ => True
  | _, _ => False
  end.
Definition message_fits (pic : string) (args : list zarg) : Prop :=
  Forall2 arg_fits (list_ascii_of_string pic) args.

(** What is left are the strings and chunks of a message, and numbers that are
    not known to fit. *)
Ltac message := unfold message_fits; cbn [list_ascii_of_string];
  repeat (apply Forall2_cons_2; [first [done|apply to_u64_range|idtac]|]); try apply Forall2_nil_2.

(** The documented behaviour. *)
Class WireLaws `{Wire} : Prop :=
  zsock_roundtrip : forall pic args, message_fits pic args ->
    zsock_unpack pic (zsock_pack pic args) = Some args.

Module Session.
Import Client.

(** ** A request and its reply *)

Section Exchange.
Context `{Wire}.

(** The frames of the last request of a client. *)
Definition request_step (r : option (list bytes)) (c : sys_call) : option (list bytes) :=
  match c with ZsockRequest pic args => Some (zsock_pack pic args) | _ => r end.
Definition requested (l : list sys_call) : option (list bytes) := fold_left request_step l None.

(** The frames that a task sends to its client: the first message. *)
Definition reply_frames (a : action) : option (list bytes) :=
  match a with ZsockSend 0 pic args => Some (zsock_pack pic args) | _ => None end.
Definition replied (acts : list action) : option (list bytes) := hd_error (omap reply_frames acts).

(** A task that receives requests of the picture [reqpic] and does [handle];
    the client of a server that stops gets no reply. *)
Context (reqpic reppic : string) {M : Type} (parse : list zarg -> option M)
  (handle : M -> exec (list action)).

Definition serve (frames : list bytes) : option (list bytes) :=
  match option_bind _ _ parse (zsock_unpack reqpic frames) with
  | Some msg => match handle msg with Done acts => replied acts | Failed _ => None end
  | None => None
  end.
Definition exchange (l : list sys_call) : option (list zarg) :=
  option_bind _ _ (zsock_unpack reppic) (option_bind _ _ serve (requested l)).

Definition num (a : zarg) : Z := match a with ZNum n => n | _ => 0 end.

(** The client that is connected to it. *)
Definition connected : ClientEnv := {|
  recv_nums := fun l => match exchange l with
    | Some (ZNum rep :: args) => Some (rep, fun i => nth i (num <$> args) 0)
    | _ => None
    end;
  recv_chunk := fun l => match exchange l with
    | Some [ZNum rep; ZChunk c] => Some (rep, c)
    | _ => None
    end |}.

Lemma requested_app l pic args cs : Forall (fun c => request_step None c = None) cs ->
  requested (l ++ ZsockRequest pic args :: cs) = Some (zsock_pack pic args).
Proof.
  intros Hcs. unfold requested. rewrite fold_left_app. cbn [fold_left request_step].
  generalize (Some (zsock_pack pic args)) as r.
  induction Hcs as [|c cs Hc Hcs IH]; intros r; [done|]. cbn [fold_left].
  replace (request_step r c) with r by (by destruct c). apply IH.
Qed.

(** The actions of a task of which [rep] is the first message to its client. *)
Definition answers (rep : list zarg) (acts : list action) : Prop :=
  exists pre post, acts = pre ++ ZsockSend 0 reppic rep :: post /\ omap reply_frames pre = [].

Lemma exchange_ok `{!WireLaws} l args msg acts rep :
  message_fits reqpic args -> parse args = Some msg -> handle msg = Done acts ->
  answers rep acts -> message_fits reppic rep ->
  exchange (l ++ [ZsockRequest reqpic args; awaiting]) = Some rep.
Proof.
  intros Hreq Hp Hh (pre & post & -> & Hpre) Hrep. unfold exchange.
  rewrite requested_app by by repeat constructor.
  cbn [option_bind]. unfold serve. rewrite zsock_roundtrip by done. cbn [option_bind].
  rewrite Hp, Hh. unfold replied. rewrite omap_app, Hpre. cbn. by apply zsock_roundtrip.
Qed.

Lemma connected_nums `{!WireLaws} l args msg acts rep nums :
  message_fits reqpic args -> parse args = Some msg -> handle msg = Done acts ->
  answers (ZNum <$> rep :: nums) acts -> message_fits reppic (ZNum <$> rep :: nums) ->
  recv_nums (ClientEnv := connected) (l ++ [ZsockRequest reqpic args; awaiting]) =
    Some (rep, fun i => nth i (num <$> (ZNum <$> nums)) 0).
Proof.
  intros Hreq Hp Hh Ha Hrep. cbn [recv_nums connected]. by rewrite (exchange_ok l args msg acts _ Hreq Hp Hh Ha Hrep).
Qed.

Lemma connected_chunk `{!WireLaws} l args msg acts rep c :
  message_fits reqpic args -> parse args = Some msg -> handle msg = Done acts ->
  answers [ZNum rep; ZChunk c] acts -> message_fits reppic [ZNum rep; ZChunk c] ->
  recv_chunk (ClientEnv := connected) (l ++ [ZsockRequest reqpic args; awaiting]) = Some (rep, c).
Proof.
  intros Hreq Hp Hh Ha Hrep. cbn [recv_chunk connected]. by rewrite (exchange_ok l args msg acts _ Hreq Hp Hh Ha Hrep).
Qed.

(** The server stops. *)
Lemma connected_fails `{!WireLaws} l args msg err :
  message_fits reqpic args -> parse args = Some msg -> handle msg = Failed err ->
  recv_nums (ClientEnv := connected) (l ++ [ZsockRequest reqpic args; awaiting]) = None /\
  recv_chunk (ClientEnv := connected) (l ++ [ZsockRequest reqpic args; awaiting]) = None.
Proof.
  intros Hreq Hp Hh. cbn [recv_nums recv_chunk connected]. unfold exchange. rewrite requested_app by by repeat constructor.
  cbn [option_bind]. unfold serve. rewrite zsock_roundtrip by done. cbn [option_bind]. by rewrite Hp, Hh.
Qed.
End Exchange.

(** The client reaches the server. *)
Class Reachable `{SysEnv} : Prop :=
  reach_ok : forall l endpoint, sys_rc l (ZsockNewReq endpoint) <> 0.

Section Talk.
Context `{SysEnv} `{!Reachable}.

Lemma connect_reaches endpoint l : connect (ZsockNewReq endpoint) l = (Done true, l ++ [ZsockNewReq endpoint]).
Proof.
  unfold connect. unfold mbind, sys_bind at 1. cbn. by rewrite (proj2 (Z.eqb_neq _ _) (reach_ok l endpoint)).
Qed.

(** What is printed on the way. *)
Definition only_text (c : sys_call) : Prop :=
  match c with CliPuts _ | CliGetline _ => True | _ => False end.

Lemma text_aside cs : Forall only_text cs -> Forall aside cs.
Proof. intros Hcs. eapply Forall_impl; [|exact Hcs]. by intros []. Qed.

Lemma add_port_text server port l : exists server' cs, add_port server port l = (Done server', l ++ cs) /\
  Forall only_text cs.
Proof.
  unfold add_port. destruct (has_port server); [exists server, []; by rewrite app_nil_r|].
  eexists _, [_]. split; [reflexivity|]. by repeat constructor.
Qed.

(** The user agrees. *)
Definition agrees (stdin : list bytes) : Prop := exists b rest, stdin = [x79; b] :: rest.

Lemma prompt_agrees stdin l : agrees stdin -> exists cs, s_prompt stdin l = (Done 0, l ++ cs) /\
  Forall only_text cs.
Proof.
  intros (b & rest & ->). unfold s_prompt. rewrite sys_run_. cbn [prompt_loop]. rewrite sys_run_.
  exists [CliPuts (nl ++ lit "Proceed (y/n)? "); CliGetline (Some [x79; b])]. rewrite <- app_assoc.
  split; [done|]. by repeat constructor.
Qed.
End Talk.

(** Connecting and asking, with the reply [r]. *)
Definition asked (server : bytes) reqpic args reppic : list sys_call :=
  [ZsockNewReq server; ZsockRequest reqpic args; awaiting; ZsockReply reppic; CliSockDestroy].

Lemma ask_ok `{SysEnv} `{!Reachable} `{ClientEnv} server reqpic args reppic r k l :
  (forall l, recv_nums (l ++ [ZsockRequest reqpic args; awaiting]) = r) ->
  (sock ← connect (ZsockNewReq server);
   if negb sock then mret (-1) else rep ← request reqpic args reppic; k rep) l =
  (k r (l ++ asked server reqpic args reppic) : exec Z * list sys_call).
Proof.
  intros Hr. rewrite (sys_bind_Done _ _ _ _ _ (connect_reaches server l)). cbn [negb].
  assert (E : request reqpic args reppic (l ++ [ZsockNewReq server]) =
    (Done r, l ++ asked server reqpic args reppic)).
  { unfold request. rewrite !sys_run_. fold awaiting. set (l1 := (_ ++ _) ++ [awaiting]).
    assert (Er : recv_nums l1 = r) by (unfold l1; rewrite <- (app_assoc _ _ [awaiting]); apply Hr).
    unfold mbind, sys_bind. cbn. rewrite Er. unfold l1, asked. by rewrite <- !app_assoc. }
  by rewrite (sys_bind_Done _ _ _ _ _ E).
Qed.

(** The timeout in seconds, of two commands. *)
Definition timeout_items (timeout : Z) : list item := [IArg x77 (dec timeout)].

Lemma run_timeout `{SysEnv} p skipped set on_arg i timeout a l :
  (forall arg a, set x77 arg a = number p x77 arg to_u32) -> bool_decide (x77 ∈ skipped) = false -> is_u32 timeout ->
  run_items on_arg (cmd_opt p skipped set) i (timeout_items timeout) a l = (Done (Some timeout), l).
Proof.
  intros Hset Hs Hu. unfold timeout_items. erewrite run_items_cons; [reflexivity|].
  cbn [run_item cmd_opt]. rewrite Hs, Hset.
  rewrite (number_dec p x77) by (unfold is_u32, is_u64 in *; lia). by rewrite to_u32_id.
Qed.

(** ** server_info *)

Section InfoSession.
Context `{SysEnv} `{!Reachable} `{Wire} `{!WireLaws} `{ZEnv} `{!ZEnvReader}.






End InfoSession.
(** ** jitter_conf *)

Section JitterSession.
Context `{SysEnv} `{!Reachable} `{Wire} `{!WireLaws} `{ZEnv}.

Definition jitter_serve (t : task Jitter.s_data_t) (msg : Z * Z) : exec (list action) :=
  '(_, t1) ← Jitter.task_jitter_req_hn msg.1 msg.2 t; mret (drop (length (log t)) (log t1)).

Definition jitter_parse (args : list zarg) : option (Z * Z) :=
  match args with [ZNum ref_ch; ZNum ticks] => Some (ref_ch, ticks) | _ => None end.

Definition jitter_items (ref_ch ticks : Z) : list item := [IArg x74 (dec ticks); IArg x52 (dec ref_ch)].

(** The configuration that the task has after a request. *)
Definition jitter_set_to (c : Jitter.s_conf_t) (ref_ch ticks : Z) : Jitter.s_conf_t :=
  if (ticks =? 0) || (TES_JITTER_NHISTS <? ref_ch) then c
  else {| Jitter.conf_ticks := ticks; Jitter.conf_ref_ch := ref_ch |}.

Lemma jitter_options prog server ref_ch ticks p l : is_u8 ref_ch -> is_u64 ticks ->
  cmd_options p OPTS_J_CONF (lit "Z") (jitter_set p)
    (cmdline prog (command_items server (lit "jitter_conf") [] (jitter_items ref_ch ticks)))
    {| ref_ch := 0; ticks := 0 |} l =
  (Done (Some {| ref_ch := ref_ch; ticks := ticks |}), l).
Proof.
  intros Hr Ht. destruct (cmd_own_options prog server (lit "jitter_conf") [] (jitter_items ref_ch ticks)
    OPTS_J_CONF (lit "Z") (jitter_set p) (cmdline prog (command_items server (lit "jitter_conf") []
    (jitter_items ref_ch ticks))) p {| ref_ch := 0; ticks := 0 |} l) as [i ->];
    [done|done|left|by left|by repeat constructor|].
  unfold jitter_items. erewrite run_items_cons; [|by apply (number_dec p x74)].
  erewrite run_items_cons; [|apply (number_dec p x52); unfold is_u8, is_u64 in *; lia].
  cbn [run_items Client.ticks Client.ref_ch]. by rewrite to_u8_id.
Qed.

Lemma jitter_prompt_agrees stdin o l : agrees stdin -> exists cs, jitter_prompt stdin o l = (Done 0, l ++ cs).
Proof.
  intros Ha. unfold jitter_prompt. destruct (0 <? Client.ticks o); [|exists []; by rewrite app_nil_r].
  rewrite sys_run_. set (l1 := l ++ _). destruct (prompt_agrees stdin l1 Ha) as (cs & -> & _).
  eexists (_ :: cs). unfold l1. by rewrite <- app_assoc.
Qed.

Lemma jitter_serve_ok t ref_ch ticks :
  let c := jitter_set_to (Jitter.conf (data t)) ref_ch ticks in
  jitter_serve t (ref_ch, ticks) =
    Done [ZsockSend 0 TES_JITTER_REP_PIC [ZNum (Jitter.conf_ref_ch c); ZNum (Jitter.conf_ticks c)]].
Proof.
  unfold jitter_serve, Jitter.task_jitter_req_hn, jitter_set_to. cbn.
  destruct (_ || _); by rewrite drop_app_length.
Qed.
End JitterSession.
(** ** local_trace *)

(** What becomes of a request for a trace: the timer fires first, a reply is sent,
    or the trace outgrows the buffer of the task. *)
Inductive recording : Type := Waits | Sends (r : Avgtr.reply) | Stops.

(** The recorder of the specification over valid frames. *)
Fixpoint record (st : Avgtr.state) (prev : Z) (l : list tespkt) : recording :=
  match l with
  | [] => Waits
  | pkt :: l =>
      match Avgtr.spec_step st pkt true (to_u16 (tespkt_pseq pkt - prev) =? 1) with
      | Avgtr.Goes st => record st (tespkt_pseq pkt) l
      | Avgtr.Replies r => Sends r
      | Avgtr.Overflows => Stops
      end
  end.

Section TraceSession.
Context `{SysEnv} `{Wire} `{!WireLaws} `{ZEnv} `{!ZEnvReader}.
#[local] Existing Instance Avgtr.impl.

Lemma activate_plain {D} `{!TaskImpl D} ifd (t : task D) : data_wakeup = None -> heads_ok ifd t ->
  exists t', task_activate ifd t = Done (0, t') /\ active t' = true /\ data t' = data t /\
    frontends t' = frontends t /\ log t' = log t ++ (ZloopReaderEnd <$> muted 0 (frontends t)).
Proof.
  intros Hw Hh. unfold task_activate, run_hook. rewrite Hw. cbn -[sync_heads mute_frontends ring_ids].
  rewrite mute_frontends_emits. set (t1 := fold_left emit _ t).
  destruct (sync_heads_ok ifd t1 ring_ids) as (t2 & E & _ & Hc & Hd & Hl & _); [|done|].
  { eapply heads_ok_heads; [|exact Hh]. by destruct (emits_frame t (ZloopReaderEnd <$> muted 0 (frontends t))). }
  rewrite E. cbn. eexists. split; [done|]. cbn. destruct Hc.
  rewrite Hd, Hl. unfold t1. rewrite emits_data, emits_log. split; [done|]. split; [done|]. split; [|done].
  transitivity (frontends t1); [congruence|apply emits_frame].
Qed.

(** The task from a request to the reply, with the frames [fs] of average traces
    that come before its timer fires. *)
Definition trace_serve ifd (t : task Avgtr.s_data_t) (fs : list tespkt) (timeout : Z) : exec (list action) :=
  '(_, t1) ← Avgtr.task_avgtr_req_hn ifd timeout t;
  t2 ← (if active t1
        then '(rc, t2) ← Avgtr.run_frames fs t1;
             if rc =? 0 then '(_, t3) ← Avgtr.s_timeout_hn t2; mret t3 else mret t2
        else mret t1);
  mret (drop (length (log t)) (log t2)).

Lemma run_record fs : forall t, Avgtr.data_ok (data t) -> Forall Avgtr.good_frame fs ->
  match record (Avgtr.abs (data t)) (prev_pseq_tr t) fs with
  | Waits => exists t', Avgtr.run_frames fs t = Done (0, t') /\ frontends t' = frontends t /\ log t' = log t
  | Sends r => exists t', Avgtr.run_frames fs t = Done (TASK_SLEEP, t') /\
      log t' = log t ++ [ZloopTimerEnd (Avgtr.timer (data t)); Avgtr.reply_of r]
  | Stops => Avgtr.run_frames fs t = Failed AssertFail
  end.
Proof.
  induction fs as [|pkt fs IH]; intros t Hd Hfs; [by exists t|].
  apply Forall_cons_1 in Hfs as [Hg Hfs]. pose proof Hg as (_ & Htr & _). cbn [record Avgtr.run_frames].
  pose proof (Avgtr.avgtr_step t pkt (tespkt_flen pkt) 0 0 Hd (Avgtr.trace_frame_args pkt Hg) Htr) as Ho.
  change (0 =? 0) with true in Ho.
  destruct (Avgtr.spec_step _ _ _ _) as [st|r|]; cbn [Avgtr.outcome] in Ho.
  - destruct Ho as (t1 & -> & Hd1 & Hs1 & Hl1 & Ha1 & Ht1). cbn [mbind exec_bind c_true Z.eqb negb].
    destruct (update_seq_ctl pkt t1) as (Hc & _ & Hdt).
    specialize (IH (update_seq pkt t1)). rewrite Hdt, Avgtr.update_seq_tr, Ha1, Ht1, update_seq_log, Hl1 in IH by done.
    specialize (IH Hd1 Hfs). destruct (record st _ fs); [|done..].
    destruct IH as (t' & E & Hf & Hl). exists t'. split; [done|]. split; [|done].
    rewrite Hf. destruct Hc, Hs1. congruence.
  - destruct Ho as (t1 & -> & _ & _ & _ & Hl1). eexists. split; [reflexivity|]. by rewrite update_seq_log.
  - by rewrite Ho.
Qed.

Lemma record_start p q fs : record None p fs = record None q fs.
Proof. by destruct fs. Qed.

(** The outcome of a request; the timeout 0 is refused. *)
Definition trace_outcome (timeout : Z) (fs : list tespkt) : option recording :=
  if timeout =? 0 then None else Some (record None 0 fs).

(** The reply, None if the server stops. *)
Definition trace_reply (o : option recording) : option (Z * bytes) :=
  match o with
  | None => Some (TES_AVGTR_REQ_EINV, [])
  | Some Waits => Some (TES_AVGTR_REQ_ETOUT, [])
  | Some (Sends (Avgtr.Trace b)) => Some (TES_AVGTR_REQ_OK, b)
  | Some (Sends Avgtr.Dropped) => Some (TES_AVGTR_REQ_EERR, [])
  | Some Stops => None
  end.

Definition trace_parse (args : list zarg) : option Z :=
  match args with [ZNum timeout] => Some timeout | _ => None end.

Lemma trace_options prog server filename timeout p l : is_u32 timeout ->
  cmd_options p OPTS_L_TRACE (lit "ZF") (trace_set p)
    (cmdline prog (command_items server (lit "local_trace") filename (timeout_items timeout))) 5 l =
  (Done (Some timeout), l).
Proof.
  intros Hu. destruct (cmd_own_options prog server (lit "local_trace") filename (timeout_items timeout) OPTS_L_TRACE
    (lit "ZF") (trace_set p) (cmdline prog (command_items server (lit "local_trace") filename (timeout_items timeout)))
    p 5 l) as [i ->]; [done|done|left|right; right; left|by repeat constructor|].
  by apply run_timeout.
Qed.

(** The command up to the request. *)
Lemma trace_main `{!Reachable} `{ClientEnv} hists stdin prog server filename timeout l :
  0 < strlen server < 1024 -> 0 < strlen filename < PATH_MAX -> is_u32 timeout -> agrees stdin ->
  exists server' cs, Forall only_text cs /\
    main hists stdin (cmdline prog
        (command_items server (lit "local_trace") filename (timeout_items timeout))) l =
      (rc ← save_trace server' filename timeout;
       sys_exit (if c_true rc then EXIT_FAILURE else EXIT_SUCCESS)) (l ++ cs).
Proof.
  intros Hs Hf Hu Hagree.
  rewrite (main_command hists stdin prog server (lit "local_trace") filename (timeout_items timeout)
    (s_local_save_trace stdin) TES_AVGTR_LPORT true);
    [|done|done|lia|intros _ ->; change (strlen []) with 0 in Hf; lia|done|done|by repeat constructor..].
  destruct (add_port_text server TES_AVGTR_LPORT l) as (server' & cs1 & E1 & Ht1).
  rewrite (sys_bind_Done _ _ _ _ _ E1). unfold s_local_save_trace. rewrite sys_bind_assoc.
  rewrite (sys_bind_Done _ _ _ _ _ (trace_options prog server filename timeout _ _ Hu)). cbv beta iota.
  rewrite sys_bind_assoc. set (msg := CliPuts _). rewrite sys_run_.
  destruct (prompt_agrees stdin ((l ++ cs1) ++ [msg]) Hagree) as (cs2 & E2 & Ht2).
  rewrite sys_bind_assoc, (sys_bind_Done _ _ _ _ _ E2).
  exists server', (cs1 ++ msg :: cs2). split; [apply Forall_app; split; [done|by constructor]|].
  change (msg :: cs2) with ([msg] ++ cs2). by rewrite !app_assoc.
Qed.

Lemma trace_serve_ok ifd t fs timeout :
  heads_ok ifd t -> frontends t = [Info.endp] -> active t = false ->
  Avgtr.data_ok (data t) -> Avgtr.recording (data t) = false -> Forall Avgtr.good_frame fs ->
  zloop_timer_rc (log t) (to_u32 (1000 * timeout)) <> -1 ->
  match trace_reply (trace_outcome timeout fs) with
  | Some (rep, b) => exists acts, trace_serve ifd t fs timeout = Done acts /\
      answers TES_AVGTR_REP_PIC [ZNum rep; ZChunk b] acts
  | None => trace_serve ifd t fs timeout = Failed AssertFail
  end.
Proof.
  intros Hh Hf Ha Hd Hr Hfs Ht. unfold trace_serve, Avgtr.task_avgtr_req_hn, trace_outcome.
  destruct (timeout =? 0).
  { cbn -[drop log]. rewrite Ha. cbn. rewrite drop_app_length. eexists. split; [done|]. by exists [], []. }
  rewrite (proj2 (Z.eqb_neq _ _) Ht). set (t0 := emit t _). set (d0 := data t0).
  change d0 with (data t). rewrite Hr. cbn -[task_activate drop log Avgtr.run_frames].
  set (tid := zloop_timer_rc _ _). set (d1 := Avgtr.Build_s_data_t _ _ _ _ _).
  pose proof (activate_plain (TaskImpl0 := Avgtr.impl) ifd (set_data t0 d1) eq_refl
    (heads_ok_heads ifd t (set_data t0 d1) eq_refl Hh)) as (t1 & E & Ea & Ed & Ef & El). rewrite E.
  cbn -[drop log Avgtr.run_frames]. rewrite Ea.
  assert (Hd1 : Avgtr.data_ok (data t1)) by (rewrite Ed; destruct Hd; split; cbn; intros; auto; congruence).
  pose proof (run_record fs t1 Hd1 Hfs) as Hrun.
  assert (Ha1 : Avgtr.abs (data t1) = None) by by rewrite Ed.
  rewrite Ha1, (record_start _ 0) in Hrun.
  assert (El1 : log t1 = log t ++ [ZloopTimer (to_u32 (1000 * timeout)); ZloopReaderEnd 0])
    by (rewrite El; cbn; rewrite Hf; by rewrite <- app_assoc).
  destruct (record None 0 fs) as [|r|]; cbn [trace_reply].
  - destruct Hrun as (t2 & -> & Hf2 & Hl2). cbn -[drop log Avgtr.s_timeout_hn].
    assert (Eu : frontends t2 = [Info.endp]) by (rewrite Hf2, Ef; exact Hf).
    unfold Avgtr.s_timeout_hn, task_deactivate. cbn -[drop log unmute_frontends].
    rewrite Eu, unmute_frontends_emits by by repeat constructor.
    cbn. rewrite Hl2, El1, <- !app_assoc, drop_app_length. eexists. split; [done|].
    by exists [ZloopTimer (to_u32 (1000 * timeout)); ZloopReaderEnd 0; ZloopReader 0], [].
  - destruct Hrun as (t2 & -> & Hl2). cbn -[drop log]. rewrite Hl2, El1, <- !app_assoc, drop_app_length.
    destruct r; (eexists; split; [done|]; by exists [ZloopTimer (to_u32 (1000 * timeout));
      ZloopReaderEnd 0; ZloopTimerEnd (Avgtr.timer (data t1))], []).
  - by rewrite Hrun.
Qed.
End TraceSession.
(** ** local_mca *)

Section HistSession.








End HistSession.

Section HistClient.
Context `{SysEnv} `{ClientEnv}.


End HistClient.
End Session.

Import Client Session.


(** C13: the configuration of the jitter histogram is what the user is told: a
    number of ticks and a reference channel that the task knows are set and
    printed, for any other request the old configuration is kept and printed; a
    change is asked for only when the user has agreed. *)
Theorem jitter_conf_session `{SysEnv} `{!Reachable} `{Wire} `{!WireLaws} `{ZEnv}
    hists stdin prog server ref_ch ticks t l :
  0 < strlen server < 1024 -> is_u8 ref_ch -> is_u64 ticks -> agrees stdin ->
  is_u8 (Jitter.conf_ref_ch (Jitter.conf (data t))) -> is_u64 (Jitter.conf_ticks (Jitter.conf (data t))) ->
  let client := connected TES_JITTER_REQ_PIC TES_JITTER_REP_PIC jitter_parse (jitter_serve t) in
  let c := jitter_set_to (Jitter.conf (data t)) ref_ch ticks in
  (exists t', Jitter.task_jitter_req_hn ref_ch ticks t = Done (0, t') /\ Jitter.conf (data t') = c) /\
  exists cs, main (H0 := client) hists stdin
      (cmdline prog (command_items server (lit "jitter_conf") [] (jitter_items ref_ch ticks))) l =
    (Failed (Exited EXIT_SUCCESS),
     l ++ cs ++ [CliPuts nl; CliPuts (conf_text (Jitter.conf_ref_ch c) (Jitter.conf_ticks c))]).
Proof.
  intros Hsrv Hr Ht Hagree Hr0 Ht0 client c. split.
  { eexists. split; [done|]. cbn. unfold c, jitter_set_to. by destruct (_ || _). }
  rewrite (main_command hists stdin prog server (lit "jitter_conf") [] (jitter_items ref_ch ticks)
    (s_jitter_conf stdin) TES_JITTER_REP_LPORT false) by (try done; by repeat constructor).
  destruct (add_port_text server TES_JITTER_REP_LPORT l) as (server' & cs1 & E1 & _).
  rewrite (sys_bind_Done _ _ _ _ _ E1). unfold s_jitter_conf. rewrite sys_bind_assoc.
  rewrite (sys_bind_Done _ _ _ _ _ (jitter_options prog server ref_ch ticks _ _ Hr Ht)). cbv beta iota.
  destruct (jitter_prompt_agrees stdin {| ref_ch := ref_ch; ticks := ticks |} (l ++ cs1) Hagree) as (cs2 & E2).
  rewrite sys_bind_assoc, (sys_bind_Done _ _ _ _ _ E2). cbn [c_true Z.eqb negb].
  assert (Hrep : message_fits TES_JITTER_REP_PIC (ZNum <$> [Jitter.conf_ref_ch c; Jitter.conf_ticks c])).
  { unfold c, jitter_set_to. destruct (_ || _); by message. }
  pose proof (fun l => connected_nums TES_JITTER_REQ_PIC TES_JITTER_REP_PIC jitter_parse _ l
    [ZNum ref_ch; ZNum ticks] (ref_ch, ticks) _ _ [Jitter.conf_ticks c] ltac:(by message) eq_refl
    (jitter_serve_ok t ref_ch ticks) ltac:(by exists [], []) Hrep) as Hr'.
  fold client in Hr'. rewrite (sys_bind_at _ _ _ _ _ (ask_ok server' _ _ TES_JITTER_REP_PIC _ _ _ Hr')).
  exists (cs1 ++ cs2 ++ asked server' TES_JITTER_REQ_PIC [ZNum ref_ch; ZNum ticks] TES_JITTER_REP_PIC).
  etransitivity; [apply (f_equal (fun l => (_, l ++ [_])) eq_refl)|]. by rewrite <- !app_assoc.
Qed.


(** C11: the user who asks for an average trace gets it: when the frames of a whole
    trace come before the timeout, the bytes that the recorder of the
    specification collects from exactly these frames are appended to the local
    file; a timeout of zero is refused and an expired one leaves the file as it
    was, as does a server that stops since the trace is larger than its buffer.
    Only a trace that is dropped, which the client is told with a code that it does
    not know, makes it fail an assertion. *)
Theorem local_trace_session `{SysEnv} `{!Reachable} `{Wire} `{!WireLaws} `{ZEnv} `{!ZEnvReader}
    old (L : LocalLaws old) hists stdin prog server filename timeout ifd t fs l :
  0 < strlen server < 1024 -> 0 < strlen filename < PATH_MAX -> is_u32 timeout -> agrees stdin ->
  heads_ok ifd t -> frontends t = [Info.endp] -> active t = false ->
  Avgtr.data_ok (data t) -> Avgtr.recording (data t) = false -> Forall Avgtr.good_frame fs ->
  zloop_timer_rc (log t) (to_u32 (1000 * timeout)) <> -1 ->
  let client := connected TES_AVGTR_REQ_PIC TES_AVGTR_REP_PIC trace_parse (trace_serve ifd t fs) in
  let r := main (H0 := client) hists stdin (cmdline prog
    (command_items server (lit "local_trace") filename (timeout_items timeout))) l in
  let ends code file := exists cs, r = (Failed (Exited code), l ++ cs) /\ replay old cs = file in
  match trace_outcome timeout fs with
  | None | Some Waits => ends EXIT_SUCCESS old
  | Some (Sends (Avgtr.Trace b)) => ends EXIT_SUCCESS (old ++ b)
  | Some (Sends Avgtr.Dropped) => r.1 = Failed AssertFail
  | Some Stops => ends EXIT_FAILURE old
  end.
Proof.
  intros Hsrv Hfile Hu Hagree Hh Hf Ha Hd Hr Hfs Ht client r ends.
  pose proof (trace_serve_ok ifd t fs timeout Hh Hf Ha Hd Hr Hfs Ht) as Hrep'.
  destruct (trace_main hists stdin prog server filename timeout l (H5 := client)) as (server' & cs & Hcs & E);
    [done..|]. fold r in E.
  assert (Hends : forall rc f,
    (exists cs', save_trace (H0 := client) server' filename timeout (l ++ cs) = (Done rc, (l ++ cs) ++ cs') /\
      replay old cs' = f) -> ends (if c_true rc then EXIT_FAILURE else EXIT_SUCCESS) f).
  { intros rc f (cs' & E' & Ef). exists (cs ++ cs'). rewrite E, (sys_bind_Done _ _ _ _ _ E'), <- app_assoc.
    split; [done|]. by rewrite replay_app, (aside_replay cs old (text_aside cs Hcs)). }
  assert (Hreq : message_fits TES_AVGTR_REQ_PIC [ZNum timeout]) by by message.
  assert (Hok : forall rep b, is_u8 rep -> trace_reply (trace_outcome timeout fs) = Some (rep, b) ->
    forall l, recv_chunk (ClientEnv := client) (l ++ [ZsockRequest TES_AVGTR_REQ_PIC [ZNum timeout]; awaiting]) =
      Some (rep, b)).
  { intros rep b Hrep Eo l'. rewrite Eo in Hrep'. destruct Hrep' as (acts & Ea & Hacts).
    by apply (connected_chunk _ _ _ _ _ _ timeout acts); [|done|..|by message]. }
  assert (Hsay : forall rep b, is_u8 rep -> trace_reply (trace_outcome timeout fs) = Some (rep, b) ->
    rep = TES_AVGTR_REQ_OK \/ rep = TES_AVGTR_REQ_EINV \/ rep = TES_AVGTR_REQ_ETOUT ->
    ends EXIT_SUCCESS (if rep =? TES_AVGTR_REQ_OK then old ++ b else old)).
  { intros rep b H8 Eo Hrep. apply (Hends 0).
    exact (proj1 (save_trace_ok old L server' filename timeout _ rep b (Hok rep b H8 Eo)) Hrep). }
  destruct (trace_outcome timeout fs) as [[|[b|]|]|]; cbn [trace_reply] in *.
  - by apply (Hsay TES_AVGTR_REQ_ETOUT []); auto.
  - by apply (Hsay TES_AVGTR_REQ_OK b); auto.
  - rewrite E. apply sys_bind_Failed, (save_trace_ok old L server' filename timeout _ TES_AVGTR_REQ_EERR []); [|done].
    by apply Hok.
  - apply (Hends (-1) old), (save_trace_none old L). intros l'. by apply (connected_fails _ _ _ _ _ _ timeout AssertFail).
  - by apply (Hsay TES_AVGTR_REQ_EINV []); auto.
Qed.



(** ** Samples *)

(** Numbers travel as decimals; the client is [ClientSample], the user agrees. *)
Module SessionSample.
Definition pack_arg (a : zarg) : bytes := match a with ZNum n => dec n | ZStr s | ZChunk s => s end.
Definition unpack_arg (c : ascii) (frame : bytes) : zarg :=
  match c with
  | "s"%char => ZStr frame
  | "b"%char => ZChunk frame
  | _ => ZNum (strtoul frame).1
  end.

#[export] Instance wire : Wire := {|
  zsock_pack := fun _ args => pack_arg <$> args;
  zsock_unpack := fun pic frames => Some (zip_with unpack_arg (list_ascii_of_string pic) frames) |}.

Lemma unpack_pack c a : arg_fits c a -> unpack_arg c (pack_arg a) = a.
Proof.
  destruct a as [n|s|s]; cbn [pack_arg].
  - intros Ha. assert (Hn : is_u64 n).
    { destruct c as [[] [] [] [] [] [] [] []]; cbn in Ha; try done; unfold is_u8, is_u32, is_u64 in *; lia. }
    destruct c as [[] [] [] [] [] [] [] []]; cbn in Ha; try done;
      cbn [unpack_arg]; by rewrite strtoul_dec.
  - by destruct c as [[] [] [] [] [] [] [] []].
  - by destruct c as [[] [] [] [] [] [] [] []].
Qed.

#[export] Instance wire_laws : WireLaws.
Proof.
  intros pic args Hf. unfold message_fits in Hf. cbn. f_equal.
  induction Hf as [|c a cs args Ha _ IH]; [done|]. cbn. by rewrite unpack_pack, IH.
Qed.

#[export] Instance reachable : Reachable (H := ClientSample.sys).
Proof. done. Qed.

Lemma agree_agrees : agrees ClientSample.agree.
Proof. by exists x0a, []. Qed.

(** A task between requests. *)
Definition idle {D} (d : D) : task D := Task [Info.endp] [6; 0; 0; 3] 0 0 0 false false false false d [].

Lemma idle_heads {D} (d : D) : heads_ok Recorder.ifd (idle d).
Proof.
  apply (heads_ok_heads Recorder.ifd (Recorder.task_of [6; 0; 0; 3] 0 false false 0)); [reflexivity|].
  apply Recorder.ifd_heads_ok.
Qed.

Definition lab : bytes := lit "tcp://lab".
End SessionSample.

#[local] Existing Instances ClientSample.sys ClientSample.laws SessionSample.wire SessionSample.wire_laws
  SessionSample.reachable Recorder.env Recorder.env_reader.


(** The task of the jitter, configured to one tick. *)
Definition jitter_idle : task Jitter.s_data_t := SessionSample.idle (data jitter_woken).

Lemma jitter_conf_session_witness : exists cs,
  main (H0 := connected TES_JITTER_REQ_PIC TES_JITTER_REP_PIC jitter_parse (jitter_serve jitter_idle))
    [] ClientSample.agree
    (lit <$> ["tesc"; "-Z"; "tcp://lab"; "jitter_conf"; "-t"; "100"; "-R"; "1"]%string) [] =
  (Failed (Exited EXIT_SUCCESS), cs ++ [CliPuts nl; CliPuts (conf_text 1 100)]).
Proof.
  destruct (jitter_conf_session [] ClientSample.agree ClientSample.tesc SessionSample.lab 1 100 jitter_idle [])
    as [_ (cs & E)].
  - split; reflexivity.
  - split; [discriminate|reflexivity].
  - split; [discriminate|reflexivity].
  - exact SessionSample.agree_agrees.
  - split; [discriminate|reflexivity].
  - split; [discriminate|reflexivity].
  - exists cs. exact E.
Defined.

(** A trace of two frames. *)
Definition trace_frames : list tespkt := [sample_avgtr_hdr 1 160 80; sample_avgtr_cont 2 1 80].

Lemma local_trace_session_witness : exists cs,
  main (H0 := connected TES_AVGTR_REQ_PIC TES_AVGTR_REP_PIC trace_parse
      (trace_serve Recorder.ifd (SessionSample.idle Avgtr.init_data) trace_frames)) [] ClientSample.agree
    (lit <$> ["tesc"; "-Z"; "tcp://lab"; "local_trace"; "-F"; "x"; "-w"; "3"]%string) [] =
  (Failed (Exited EXIT_SUCCESS), cs) /\
  replay ClientSample.old cs = ClientSample.old ++ concat (payload <$> trace_frames).
Proof.
  pose proof (local_trace_session ClientSample.old ClientSample.laws [] ClientSample.agree ClientSample.tesc
    SessionSample.lab (lit "x") 3 Recorder.ifd (SessionSample.idle Avgtr.init_data) trace_frames []) as Hs.
  assert (Eo : trace_outcome 3 trace_frames = Some (Sends (Avgtr.Trace (concat (payload <$> trace_frames)))))
    by (vm_compute; reflexivity).
  rewrite Eo in Hs. apply Hs.
  - split; reflexivity.
  - split; reflexivity.
  - split; [discriminate|reflexivity].
  - exact SessionSample.agree_agrees.
  - apply SessionSample.idle_heads.
  - reflexivity.
  - reflexivity.
  - apply avgtr_init_ok.
  - reflexivity.
  - repeat (apply Forall_cons_2; [split; [apply valid_iff; vm_compute; reflexivity|
      split; [vm_compute; reflexivity|vm_compute; congruence]]|]). apply Forall_nil_2.
  - discriminate.
Defined.

