(* ===== verification/SessionCapture.v ===== *)
(** * A capture from the command line to the files (src/bin/tesc.c, tesd_task_cap.c)

    The session of [remote_all]: what the user is told of a capture agrees with
    what the capture task did, for every request, refused or not, and also if
    the server is stopped in the middle of the job. *)

From Stdlib Require Import ZArith Lia Strings.String Strings.Ascii Strings.Byte.
From stdpp Require Import base option list numbers decidable.
From S2P Require Import Prelude Sys Path Cmdline Daemon Hdf5 Tespkt Tesif Task TaskTheory TaskInfo Coordinator.
From S2P Require Import Aiobuf Capture CaptureTheory CaptureIndex CaptureJob CaptureStop.
From S2P Require Import TaskLife TaskList Client ClientTheory Session.

Open Scope Z_scope.

Module CapSession.
Import Client Session.

(** ** The task *)

Section CaptureSession.
Context `{CapEnv, ZEnv, !CapSpec.CapLaws, !Hdf5.Hdf5Laws} `{Wire} `{!WireLaws}.
#[local] Existing Instance Cap.cap_impl.







End CaptureSession.
(** ** What the user is told of a capture *)






End CapSession.

Import Client Session CapSession.


(** ** A sample *)

#[local] Existing Instances ClientSample.sys SessionSample.wire SessionSample.wire_laws
  SessionSample.reachable Recorder.env.
#[local] Existing Instances CapSample.env CapSample.laws CapSample.hdf5_laws.


